(* ===== verification/_CoqProject ===== *)
-Q . S2P
Prelude.v
Text.v
Core.v
X87.v
FloatText.v
Seed.v
RegisterText.v
Cli.v
Cpu.v
Trace.v
History.v
Platform.v
Linux.v
AddressSpace.v
Worker.v
Clipboard.v
WindowsProcess.v
WindowsClipboard.v
Windows.v
Engine.v
Serial.v
Layout.v
CodeText.v
Viewport.v
Timeline.v
TraceJson.v
Widths.v
Quick.v
Program.v
Panels.v
Session.v
