(* ===== verification/Prelude.v ===== *)
(** * A verification library for bme, the bare-metal machine code viewer

    bme runs a piece of x86-64 machine code one instruction at a time and records the
    registers after each.  This library models the program, function by function, and
    proves what its parts promise each other and the user.

    ** The program and the files

    A run goes through the parts in this order.

    - The command line ([CLI::parse], [src/src/bme_core.cpp]) or the interface gives the
      code as text or a raw file, and seeds for the registers.  [Cli] models the options
      and the seed argument, [CodeText] the parser of code text and the reader of raw
      files, [Seed] the seed texts and [compose_seed], over [FloatText]
      ([std::from_chars] of floating-point numbers) and [X87] (the conversions of
      [src/src/st80.S]).
    - [run_engine] ([Engine]) gives the request to a platform and turns the steps of the
      platform into a trace with a message.  What a platform has to do is the contract
      of [Platform]: the class [Platform] and the relation [runs], an abstract machine
      that executes one instruction of the input after another until one of five ends.
      [Trace] holds the records of the request, the result and the trace, and
      [prepare_platform_run] ([src/src/os.cpp]).  [Serial] interleaves the steps of
      concurrent callers of [run_engine] around its lock.
    - Two platforms implement the contract.  [Linux] is the ptrace tracer of
      [src/src/os.linux.cpp] and [Worker] the child process it traces, up to the state of
      its floating-point registers and of its memory; [Windows] is the
      tracer of [src/src/os.windows.cpp], a thread and a vectored exception handler, and
      [WindowsProcess] its search for an instrumentation parent.  [AddressSpace] is what
      the memory calls of the two systems do to what a process sees at its addresses, and
      [Layout] the memory both tracers start a run in: where a run puts its code, its stack
      and its data, and the pages that guard them.  [Clipboard] is the
      terminal clipboard of the Linux build, [WindowsClipboard] the clipboard and the
      environment of the Windows one.
    - [Cpu] is the processor fingerprint a trace carries, from the intrinsics of the
      compilers to the fingerprint that is kept ([src/src/cpu.cpp]).
    - [History] builds the instruction rows of a trace with one of four decoders
      ([disasm_one], [build_history]).
    - Three outputs show a trace: the text interface ([run_tui]), with [Timeline] its state
      and what each event does to it, [Viewport] the scrolling of its register panel,
      [Panels] the elements it draws and the handlers that look a click up in them, and
      [Session] the two together; [TraceJson], the JSON document
      ([src/src/trace_json.cpp]); and [Quick], the text of [run_quick], with
      [RegisterText] for the register values it prints, and [main].  [Program] puts the
      parts of a quick run together, from the command line to the output.

    [Widths] ties the platforms, the engine and the document together: every value of a
    trace is in the width of its type, so the document of a run loses nothing.

    [Core] holds the data model of [src/src/bme_core.hpp] and its tables, [Text] the
    character routines and [src/src/util.hpp], and this file what every file shares.

    Definitions have the names of the source.  A record is a struct, an inductive type
    an enumeration; an unsigned integer is a [Z] in its range with the wrap-around
    written out ([wrap]); a [std::expected] is a [Result].  Code that calls the system is
    a function of a state ([StateM]) that threads it through the calls in the order of
    the source.  [None] is a run without a result: a call that blocks for ever
    ([WaitBlocks], [ReadBlocks] and [ThreadBlocks] are answers of the systems), fuel that
    runs out, or a read out of range, which the source would take as undefined behaviour.

    ** What the theorems show

    - Runs: every run of the two tracers that returns is a refusal, an error or a run of
      the abstract machine ([linux_refines_platform], [windows_refines_platform]), but for
      code that ends its own thread on Windows, whose run is a beginning of such a run;
      against that contract alone the trace of [run_engine] is a faithful record
      ([run_engine_trace]), its message is true ([run_engine_message]) and its values fit
      their types ([run_engine_trace_fits]).  The seed a
      trace records is the one the processor was given ([worker_seed_is_loaded]), the
      resources of a run are released on every path ([linux_releases_resources],
      [windows_releases_resources]), a run returns when its calls do and the kernel does not
      interrupt them for ever ([linux_run_terminates]), the worker reports what it did to its
      memory ([child_main_reports]), the code of a run is in memory it can execute and ends at
      a guard page on either platform, with a guarded stack and guarded data ([runs_laid_out],
      over what the documentation of the two systems says of their memory calls), and
      concurrent calls of the engine are as good as calls in some order
      ([engine_is_serialized]).
    - The whole program: a quick run that exits with zero has printed the record of one run
      of the abstract machine on the bytes and the seed of its command line
      ([main_quick_output], whose premise on the place of the code follows from the layout,
      [quick_engine_placed]).
    - Input: the parsers accept exactly the documented forms and give exactly their
      values ([parse_code_text_correct], [compose_seed_correct], [compose_gpr_seed_correct],
      [decimal_seed_correct], [read_binary_input_correct], and the theorems of [Seed] on the
      hexadecimal forms), and an accepted command line is consistent
      ([CLI_parse_consistent], [parse_cli_seed_argument_composes]).
    - Round trips: code text, seeds of floating-point values as the program shows them
      ([format_float_is_seed]), 80-bit values, the JSON document
      ([trace_document_reads_back]) and the clipboard text.
    - History: it always exists ([build_history_total]), covers the input without hiding
      an executed instruction ([build_history_partition]) and has one row per event
      ([build_history_events]).
    - Interface: an invariant of every reachable state ([timeline_invariant]), progress
      ([timeline_progress]), stepping as a replay of the run ([stepping_replays_run]), the
      selection across redecoding ([selection_survives]), the run to a row
      ([run_to_row_stops_before]) and the bounds of the scroll offset
      ([scrolling_stays_inside]).
    - Panels: what is drawn and clicked is safe ([session_safe]: no box reference dangles, a
      click on any screen is an event of the timeline), a row is highlighted when its
      value changed ([panels_mark_changes]), a copied value is a seed
      ([copied_values_are_seeds]), and the focus reaches the fields on the screen
      ([focus_is_on_screen]).
    - Outputs: the document and the quick text show what the interface shows
      ([document_shows_tabs], [decoder_rows_agree], [quick_rows_show_states],
      [print_deltas_lines]), and errors are reported as documented
      ([write_trace_json_reports], [run_quick_reports]).
    - Processor: what is queried, recorded and listed
      ([query_cpu_fingerprint_sorted], [query_cpu_fingerprint_features],
      [query_cpu_fingerprint_xgetbv]); the walk through the process list of Windows stays
      inside its buffer and depends on nothing behind the length the system reported
      ([parent_process_is_safe]).

    ** Parameters

    Third-party code and the system are parameters, each a class with the calls the
    program makes: [Fmt] (the fmt library), [ArgParse], [Decoders] (Zydis, bddisasm,
    Capstone and XED), [ZydisDecoder] (the fault operand on Linux), [JsonStream] (glaze and
    the output stream), [Build] (the version header), [LinuxKernel], [WorkerKernel],
    [WindowsKernel], [WindowsSystem], [Terminal], [ClipboardSystem], [Environment], [CPUQuerySource], [Intrinsics] and
    [Memory] (page sizes).  Each has a concrete instance in the file that uses it, for the examples.

    What a theorem assumes of a system is a hypothesis with a name: [attentive] (the calls
    of a kernel return and are not interrupted for ever), [startup_law] (a thread that is
    given back the context it was created with runs its start routine, which returns),
    [memory_laws] and [windows_memory_laws] (what the memory calls do), [delivers] (a pipe
    carries what was written), [linux_typed] and [windows_typed] (registers have their
    widths).  The class [Platform] of the Windows tracer, [windows_platform], is for code that
    does not end its own thread ([thread_laws]); the theorems about the tracer itself do not
    assume this.

    ** Fuel

    [fill_gap] takes the length of its gap, since a row is at least one byte long; the
    loops of [parse_code_text] take one more than the length of the text, since a turn
    consumes text; [find_process] takes one more than the length of the buffer, since an
    entry is at least one byte after the one before.  That this is enough is proved.  The
    loops that retry an interrupted call take a [patience], and the loop that grows the
    query buffer and the thread of the Windows tracer a fuel, which only the system can
    use up; the theorems say for which answers they return.

    ** Not modelled

    How FTXUI lays its elements out and draws them, and which of its widgets has the focus:
    an element is the term of the calls that make it, and a click comes with the boxes it is
    in.  [GetSystemInfo], which only asks the system for the page sizes.  [vm_free] of
    Linux, which nothing calls: a worker dies with its memory.  A failure of a write to the
    terminal by [fmt::println].  The tests. *)

From stdpp Require Export base list numbers strings.
From Stdlib Require Export ZArith Lia Ascii.
From Stdlib Require String.

Local Open Scope Z_scope.

(** ** Text

    [std::string] and [std::string_view] are lists of bytes: the model does not
    distinguish the owning from the borrowing type, since no claim of the
    library depends on their aliasing.  String literals are coerced. *)

Abbreviation str := (list ascii).

Coercion String.list_ascii_of_string : string >-> list.

(** ** Results

    [Result<T, E>] is [std::expected<T, E>] and [Error{e}] is
    [std::unexpected{e}]. *)

Inductive Result (T E : Type) : Type :=
| Ok (value : T)
| Error (error : E).

Arguments Ok {T E} value.
Arguments Error {T E} error.

Definition is_ok {T E} (r : Result T E) : bool :=
  match r with Ok _ => true | Error _ => false end.

#[export] Instance Result_eq_dec {T E} `{EqDecision T} `{EqDecision E} :
  EqDecision (Result T E).
Proof. solve_decision. Defined.

Declare Scope bme_scope.
Delimit Scope bme_scope with bme.

(** [if (!value) return Error{value.error()}], then go on with [*value]. *)
Notation "'let?' x ':=' r 'in' k" :=
  (match r with Ok x => k | Error e => Error e end)
  (at level 10, x pattern, r at level 100, k at level 200)
  : bme_scope.

Open Scope bme_scope.

(** ** The fmt library

    [fmt::format] is third-party code: the development takes it as a parameter,
    a function of the format string and of its arguments.  [AJoin] is
    [fmt::join]; [AFloat p ew bits] is the value of the floating-point format with [p]
    bits of precision and [ew] of exponent that has these bits. *)

Inductive fmt_arg : Type :=
| AInt (z : Z)
| AStr (s : str)
| AChar (c : ascii)
| AFloat (p ew bits : Z)
| AJoin (items : list fmt_arg) (separator : str).

Class Fmt : Type := { format : str -> list fmt_arg -> str }.

(** ** Machine integers

    An unsigned integer of [w] bits is a [Z] in [[0, 2^w)]; [wrap w] is the
    conversion to it. *)

Definition wrap (w x : Z) : Z := x mod 2 ^ w.

Abbreviation u8 := (wrap 8).
Abbreviation u16 := (wrap 16).
Abbreviation u32 := (wrap 32).
Abbreviation u64 := (wrap 64).

Definition in_width (w x : Z) : Prop := 0 <= x < 2 ^ w.

#[export] Instance in_width_dec w x : Decision (in_width w x).
Proof. unfold in_width. apply _. Defined.

Lemma wrap_in_width w x : 0 <= w -> in_width w (wrap w x).
Proof. intros Hw. apply Z.mod_pos_bound. lia. Qed.

Lemma wrap_small w x : in_width w x -> wrap w x = x.
Proof. intros H. apply Z.mod_small. exact H. Qed.

Lemma wrap_testbit w x n :
  0 <= w -> Z.testbit (wrap w x) n = (n <? w) && Z.testbit x n.
Proof.
  intros Hw. unfold wrap. destruct (Z.ltb_spec n w) as [Hn|Hn]; simpl.
  - destruct (Z.ltb_spec n 0) as [H0|H0].
    + rewrite !Z.testbit_neg_r by lia. done.
    + by rewrite Z.mod_pow2_bits_low by lia.
  - by rewrite Z.mod_pow2_bits_high by lia.
Qed.

Lemma in_width_testbit w x n :
  in_width w x -> 0 <= w <= n -> Z.testbit x n = false.
Proof.
  intros Hx Hn. rewrite <- (wrap_small w x Hx), wrap_testbit by lia.
  destruct (Z.ltb_spec n w); [lia | done].
Qed.

Lemma in_width_of_testbit w x :
  0 <= w -> 0 <= x -> (forall n, w <= n -> Z.testbit x n = false) -> in_width w x.
Proof.
  intros Hw Hx H. assert (x = wrap w x) as ->; [|by apply wrap_in_width].
  apply Z.bits_inj'. intros n Hn. rewrite wrap_testbit by done.
  destruct (Z.ltb_spec n w); simpl; [done | by apply H].
Qed.

Lemma in_width_weaken v w x : 0 <= v <= w -> in_width v x -> in_width w x.
Proof.
  unfold in_width. intros Hvw Hx. pose proof (Z.pow_le_mono_r 2 v w). lia.
Qed.

Lemma lor_in_width w x y :
  0 <= w -> in_width w x -> in_width w y -> in_width w (Z.lor x y).
Proof.
  intros Hw Hx Hy. apply in_width_of_testbit; [done | |].
  - apply Z.lor_nonneg. unfold in_width in *; lia.
  - intros n Hn. rewrite Z.lor_spec, (in_width_testbit w x), (in_width_testbit w y) by auto.
    done.
Qed.

Lemma land_in_width w x y :
  0 <= w -> 0 <= x -> in_width w y -> in_width w (Z.land x y).
Proof.
  intros Hw Hx Hy. apply in_width_of_testbit; [done | |].
  - apply Z.land_nonneg. lia.
  - intros n Hn. rewrite Z.land_spec, (in_width_testbit w y) by auto.
    by rewrite andb_false_r.
Qed.

(** Joining two bit fields is an addition. *)
Lemma lor_shiftl h l k : 0 <= k -> in_width k l -> Z.lor (Z.shiftl h k) l = h * 2 ^ k + l.
Proof.
  intros Hk Hl. rewrite <- Z.shiftl_mul_pow2 by done.
  assert (Z.land (Z.shiftl h k) l = 0) as H0.
  { apply Z.bits_inj'. intros n Hn. rewrite Z.land_spec, Z.bits_0. destruct (Z.lt_ge_cases n k).
    - by rewrite Z.shiftl_spec_low.
    - rewrite (in_width_testbit k l) by (done || lia). apply andb_false_r. }
  by rewrite Z.add_nocarry_lxor, Z.lxor_lor.
Qed.

(** A bit above a smaller number. *)
Lemma testbit_top n x (b : bool) :
  0 <= n -> 0 <= x < 2 ^ n -> Z.testbit (x + Z.b2z b * 2 ^ n) n = b.
Proof.
  intros Hn Hx. apply Z.b2z_inj. rewrite Z.testbit_spec' by done.
  rewrite Z.div_add, Z.div_small by lia. by destruct b.
Qed.

(** ** Lists

    [span p l] splits [l] at its first element that fails [p], the idiom of
    every scanning loop of the program. *)

Fixpoint span {A} (p : A -> bool) (l : list A) : list A * list A :=
  match l with
  | [] => ([], [])
  | x :: l' => if p x then let '(a, b) := span p l' in (x :: a, b) else ([], l)
  end.

(** [alter] on a list. *)
Lemma list_alter_alter {A} (f g : A -> A) i (l : list A) : alter g i (alter f i l) = alter (fun x => g (f x)) i l.
Proof.
  apply list_eq. intros j. rewrite !list_lookup_alter. repeat case_decide; [|done..]. by destruct (l !! i).
Qed.

Lemma list_alter_same {A} (f : A -> A) i (l : list A) : (forall x, f x = x) -> alter f i l = l.
Proof.
  intros Hf. apply list_eq. intros j. rewrite list_lookup_alter. case_decide; [|done]. subst j.
  destruct (l !! i); cbn; [by rewrite Hf | done].
Qed.

Section span.
Context {A : Type} (p : A -> bool).

Lemma span_app l : (span p l).1 ++ (span p l).2 = l.
Proof. induction l as [|x l IH]; simpl; [done|]. destruct (p x); [|done].
  destruct (span p l); simpl in *. by rewrite IH. Qed.

Lemma span_all l : Forall (fun x => p x = true) (span p l).1.
Proof. induction l as [|x l IH]; simpl; [constructor|]. destruct (p x) eqn:E; [|constructor].
  destruct (span p l); simpl in *. by constructor. Qed.

Lemma span_stop l x r : (span p l).2 = x :: r -> p x = false.
Proof. induction l as [|y l IH]; simpl; [done|]. destruct (p y) eqn:E.
  - destruct (span p l); simpl in *. done.
  - simpl. congruence. Qed.

Lemma span_app_all l r :
  Forall (fun x => p x = true) l ->
  match r with [] => True | x :: _ => p x = false end ->
  span p (l ++ r) = (l, r).
Proof. intros Hl Hr. induction Hl as [|x l Hx Hl IH]; simpl.
  - destruct r as [|y r]; simpl; [done|]. by rewrite Hr.
  - by rewrite Hx, IH. Qed.

Lemma span_all_id l : Forall (fun x => p x = true) l -> span p l = (l, []).
Proof. intros H. rewrite <- (app_nil_r l) at 1. by apply span_app_all. Qed.

Lemma length_span l : (length (span p l).1 + length (span p l).2)%nat = length l.
Proof. rewrite <- (span_app l) at 3. by rewrite length_app. Qed.
End span.

(** A character is eight bits: a decidable fact about all characters is checked by
    running through their values. *)

Definition both (p : bool -> bool) : bool := p true && p false.

Definition ascii_all (p : ascii -> bool) : bool :=
  both (fun a => both (fun b => both (fun c => both (fun d =>
  both (fun e => both (fun f => both (fun g => both (fun h =>
    p (Ascii a b c d e f g h))))))))).

Lemma both_true p : both p = true -> forall b, p b = true.
Proof. intros H. apply andb_true_iff in H as [H1 H2]. by intros []. Qed.

Lemma ascii_forall (p : ascii -> bool) : ascii_all p = true -> forall c, p c = true.
Proof.
  intros H [a b c d e f g h]. unfold ascii_all in H.
  apply (fun H => both_true _ H a), (fun H => both_true _ H b), (fun H => both_true _ H c),
    (fun H => both_true _ H d), (fun H => both_true _ H e), (fun H => both_true _ H f),
    (fun H => both_true _ H g), (fun H => both_true _ H h) in H. exact H.
Qed.

(** [all_chars c] settles a boolean fact about the one free character [c]. *)
Ltac all_chars c :=
  pattern c;
  match goal with
  | |- (fun x => @?p x = true) c => apply (ascii_forall p); vm_compute; reflexivity
  end.

(** The automation of the development: [bme] holds the width and range facts. *)

Create HintDb bme.

#[export] Hint Resolve wrap_in_width lor_in_width : bme.

(** Destruct the scrutinee of the first match or conditional of the goal. *)
Ltac split_goal :=
  match goal with
  | |- context [match ?x with _ => _ end] => destruct x eqn:?
  end.

(** The same for a hypothesis, then drop the impossible branches. *)
Ltac split_in H :=
  match type of H with
  | context [match ?x with _ => _ end] => destruct x eqn:?; try discriminate H
  end.

Ltac invc H := inversion H; subst; clear H.

(** ** Stateful code

    Code that calls the operating system is a function of a state; it gives no result
    when the fuel of a loop runs out. *)

Definition StateM (S A : Type) : Type := S -> option (A * S).

#[export] Instance StateM_ret S : MRet (StateM S) := fun A x s => Some (x, s).

#[export] Instance StateM_bind S : MBind (StateM S) := fun A B k m s =>
  match m s with
  | Some (x, s') => k x s'
  | None => None
  end.

Lemma bind_Some {S A B} (m : StateM S A) (k : A -> StateM S B) s r s' :
  (m ≫= k) s = Some (r, s') <-> exists x s1, m s = Some (x, s1) /\ k x s1 = Some (r, s').
Proof.
  change ((m ≫= k) s) with (match m s with Some (x, s') => k x s' | None => None end). split.
  - destruct (m s) as [[x s1]|]; [|done]. intros E. by exists x, s1.
  - by intros (x & s1 & -> & E).
Qed.

Lemma mret_Some {S A} (x : A) (s : S) r s' : (mret x : StateM S A) s = Some (r, s') <-> x = r /\ s = s'.
Proof. unfold mret, StateM_ret. split; [by intros [= -> ->] | by intros [-> ->]]. Qed.

(** Follow a run to its result: one bind or one conditional at a time. *)
Ltac follow H :=
  cbv zeta in H; cbn [fst snd] in H;
  lazymatch type of H with
  | (mbind _ _) _ = Some _ =>
    apply bind_Some in H; let x := fresh "x" in let s := fresh "s" in let E := fresh "Hrun" in
    destruct H as (x & s & E & H); cbv beta in H; follow H
  | mret _ _ = Some _ =>
    apply mret_Some in H; let E1 := fresh "Eres" in let E2 := fresh "Estate" in destruct H as [E1 E2];
    try discriminate E1
  | _ => idtac
  end.

(** ** Code that keeps an invariant

    [keeps I m P]: from a state with [I], whenever [m] returns, the state has [I] and the
    result [P]. *)
Section keeps.
Context {S : Type} (I : S -> Prop).

Definition keeps {A} (m : StateM S A) (P : A -> Prop) : Prop :=
  forall s r s', I s -> m s = Some (r, s') -> I s' /\ P r.

Lemma keeps_ret {A} (x : A) (P : A -> Prop) : P x -> keeps (mret x) P.
Proof. intros Hp s r s' Hi [<- <-]%mret_Some. done. Qed.

Lemma keeps_bind {A B} (m : StateM S A) (k : A -> StateM S B) (Q : A -> Prop) (P : B -> Prop) :
  keeps m Q -> (forall x, Q x -> keeps (k x) P) -> keeps (m ≫= k) P.
Proof.
  intros Hm Hk s r s' Hi (x & s1 & E1 & E2)%bind_Some. destruct (Hm _ _ _ Hi E1) as [Hi1 Hq]. by eapply Hk.
Qed.

Lemma keeps_none {A} (P : A -> Prop) : keeps (fun _ => None) P.
Proof. intros s r s' _ E. discriminate E. Qed.

Lemma keeps_weaken {A} (m : StateM S A) (Q P : A -> Prop) : keeps m Q -> (forall x, Q x -> P x) -> keeps m P.
Proof. intros Hm HQ s r s' Hi E. destruct (Hm _ _ _ Hi E). auto. Qed.
End keeps.

Lemma keeps_anything {S A} (m : StateM S A) : keeps (fun _ => True) m (fun _ => True).
Proof. by intros s r s' _ _. Qed.

(** Pass a call whose answer does not matter. *)
Tactic Notation "keep_next" simple_intropattern(x) :=
  apply keeps_bind with (Q := fun _ => True); [apply keeps_anything | intros x _].
