(* ===== verification/Text.v ===== *)
(** * Text: the character and integer routines of the C++ library the program
    uses ([<cctype>], [<charconv>]), and the helpers of [src/src/util.hpp]. *)

From S2P Require Import Prelude.

Local Open Scope Z_scope.

(** The value of a byte, [(std::uint8_t)character]. *)
Definition code (c : ascii) : Z := Z.of_N (N_of_ascii c).

(** The character with a given byte value, [(char)value]. *)
Definition chr (z : Z) : ascii := ascii_of_N (Z.to_N (u8 z)).

Lemma code_range c : in_width 8 (code c).
Proof.
  apply (bool_decide_eq_true_1 (in_width 8 (code c))). all_chars c.
Qed.

Lemma chr_code c : chr (code c) = c.
Proof.
  apply (bool_decide_eq_true_1 (chr (code c) = c)). all_chars c.
Qed.

(** ** [<cctype>] in the "C" locale *)

Definition isspace (c : ascii) : bool :=
  let z := code c in (z =? 32) || ((9 <=? z) && (z <=? 13)).

Definition isxdigit (c : ascii) : bool :=
  let z := code c in
  ((48 <=? z) && (z <=? 57)) || ((65 <=? z) && (z <=? 70)) || ((97 <=? z) && (z <=? 102)).

(** ** [std::from_chars] on unsigned integers

    The longest run of digits of the base is read: no white space, no sign (only
    signed types take one) and no prefix.  Without a digit the error is
    [invalid_argument] and the pointer stays at the start; a value that does not
    fit is [result_out_of_range] and the pointer is after the digits; in both
    cases the destination keeps its value. *)

Inductive errc : Type :=
| errc_none
| invalid_argument
| result_out_of_range.

Definition digit_value (base : Z) (c : ascii) : option Z :=
  let z := code c in
  let v := if (48 <=? z) && (z <=? 57) then z - 48
           else if (97 <=? z) && (z <=? 122) then z - 87
           else if (65 <=? z) && (z <=? 90) then z - 55
           else base in
  if v <? base then Some v else None.

Definition is_digit (base : Z) (c : ascii) : bool :=
  match digit_value base c with Some _ => true | None => false end.

Definition digits_value (base : Z) (digits : str) : Z :=
  fold_left (fun acc c => acc * base + default 0 (digit_value base c)) digits 0.

(** [from_chars base w s init] reads from [s] into a destination of [w] bits that
    holds [init]: the error code, the text from the returned pointer on, and the
    destination after the call. *)
Definition from_chars (base w : Z) (s : str) (init : Z) : errc * str * Z :=
  let '(digits, rest) := span (is_digit base) s in
  match digits with
  | [] => (invalid_argument, s, init)
  | _ => let v := digits_value base digits in
         if v <? 2 ^ w then (errc_none, rest, v) else (result_out_of_range, rest, init)
  end.

(** The test of every call site, [error_code != std::errc{} || parsed_end != last]:
    the value when the whole text was consumed without an error. *)
Definition from_chars_all (base w : Z) (s : str) : option Z :=
  match from_chars base w s 0 with
  | (errc_none, [], v) => Some v
  | _ => None
  end.

Lemma from_chars_all_spec base w s v :
  from_chars_all base w s = Some v <->
  s <> [] /\ Forall (fun c => is_digit base c = true) s /\
  v = digits_value base s /\ v < 2 ^ w.
Proof.
  unfold from_chars_all, from_chars.
  pose proof (span_app (is_digit base) s) as Happ.
  pose proof (span_all (is_digit base) s) as Hall.
  destruct (span (is_digit base) s) as [ds rest] eqn:Hs; simpl in *.
  split.
  - intros H. destruct ds as [|d ds]; [done|].
    destruct (_ <? _) eqn:Hlt; [|done]. destruct rest; [|done].
    rewrite app_nil_r in Happ. subst s. apply Z.ltb_lt in Hlt. simplify_eq. done.
  - intros (Hne & Hds & -> & Hlt). rewrite (span_all_id _ _ Hds) in Hs. injection Hs as <- <-.
    destruct s as [|d ds]; [done|]. by apply Z.ltb_lt in Hlt as ->.
Qed.

Lemma is_digit_16 c : is_digit 16 c = isxdigit c.
Proof.
  apply (bool_decide_eq_true_1 (is_digit 16 c = isxdigit c)). all_chars c.
Qed.

Lemma isxdigit_not_isspace c : isxdigit c = true -> isspace c = false.
Proof.
  assert (implb (isxdigit c) (negb (isspace c)) = true) as H by all_chars c.
  destruct (isxdigit c), (isspace c); simpl in *; done.
Qed.

Lemma digit_value_range base c v : digit_value base c = Some v -> 0 <= v < base.
Proof.
  unfold digit_value. generalize (code c) as z. intros z. cbv zeta.
  destruct ((48 <=? z) && (z <=? 57)) eqn:H1; [|destruct ((97 <=? z) && (z <=? 122)) eqn:H2;
    [|destruct ((65 <=? z) && (z <=? 90)) eqn:H3]].
  all: match goal with |- context [?a <? ?b] => destruct (Z.ltb_spec a b) end; [|done].
  all: intros [= <-]; lia.
Qed.

Lemma fold_digits_acc base ds acc :
  fold_left (fun acc c => acc * base + default 0 (digit_value base c)) ds acc
  = acc * base ^ Z.of_nat (length ds) + digits_value base ds.
Proof.
  unfold digits_value. revert acc.
  induction ds as [|d ds IH]; intros acc; cbn [fold_left length].
  - rewrite Z.pow_0_r. lia.
  - rewrite IH, (IH (0 * base + _)). rewrite Nat2Z.inj_succ, Z.pow_succ_r by lia. ring.
Qed.

Lemma digits_value_app base a b :
  digits_value base (a ++ b)
  = digits_value base a * base ^ Z.of_nat (length b) + digits_value base b.
Proof. unfold digits_value at 1. rewrite fold_left_app. apply fold_digits_acc. Qed.

Lemma digits_value_cons base c ds :
  digits_value base (c :: ds)
  = default 0 (digit_value base c) * base ^ Z.of_nat (length ds) + digits_value base ds.
Proof. apply (digits_value_app base [c] ds). Qed.

Lemma digits_value_bound base ds :
  0 < base -> 0 <= digits_value base ds < base ^ Z.of_nat (length ds).
Proof.
  intros Hb. induction ds as [|d ds IH]; [change (0 <= 0 < 1); lia|].
  rewrite digits_value_cons. cbn [length]. rewrite Nat2Z.inj_succ, Z.pow_succ_r by lia.
  assert (0 <= default 0 (digit_value base d) < base).
  { destruct (digit_value base d) eqn:E; simpl; [by apply digit_value_range in E | lia]. }
  nia.
Qed.

Lemma digit_value_0 base : 2 <= base -> digit_value base "0" = Some 0.
Proof.
  intros Hb. change (digit_value base "0") with (if 0 <? base then Some 0 else None).
  by destruct (Z.ltb_spec 0 base); [|lia].
Qed.

(** Leading zeros do not change the value. *)
Lemma digits_value_zeros base n ds :
  2 <= base -> digits_value base (replicate n "0"%char ++ ds) = digits_value base ds.
Proof.
  intros Hb. induction n as [|n IH]; [done|].
  cbn [replicate app]. rewrite digits_value_cons, digit_value_0 by done. simpl. exact IH.
Qed.

(** A hexadecimal digit of a nibble, upper case, as every formatter of the program
    writes it. *)
Definition HEX_DIGITS : str := "0123456789ABCDEF".

Definition hex_char (nibble : Z) : ascii := nth (Z.to_nat nibble) HEX_DIGITS "0"%char.

Lemma digit_value_hex_char n : in_width 4 n -> digit_value 16 (hex_char n) = Some n.
Proof.
  change (in_width 4 n) with (0 <= n < 16). intros Hn.
  assert (Z.to_nat n < 16)%nat as Hk by lia. rewrite <- (Z2Nat.id n) by lia.
  generalize dependent (Z.to_nat n). intros k Hk.
  do 16 (destruct k as [|k]; [reflexivity|]). lia.
Qed.

Lemma isxdigit_hex_char n : in_width 4 n -> isxdigit (hex_char n) = true.
Proof. intros Hn. rewrite <- is_digit_16. unfold is_digit. by rewrite digit_value_hex_char. Qed.

(** The two hexadecimal digits of a byte. *)
Definition hex_pair (b : Z) : str := [hex_char (b / 16); hex_char (b mod 16)].

Lemma nibbles_in_width b : in_width 8 b -> in_width 4 (b / 16) /\ in_width 4 (b mod 16).
Proof.
  change (in_width 8 b) with (0 <= b < 256). intros Hb. split.
  - change (0 <= b / 16 < 16). split; [apply Z.div_pos; lia | apply Z.div_lt_upper_bound; lia].
  - apply Z.mod_pos_bound. lia.
Qed.

Lemma digits_value_hex_pair b : in_width 8 b -> digits_value 16 (hex_pair b) = b.
Proof.
  intros Hb. destruct (nibbles_in_width b Hb) as [H1 H2].
  unfold hex_pair. rewrite !digits_value_cons, !digit_value_hex_char by done. simpl.
  change (digits_value 16 []) with 0. pose proof (Z_div_mod_eq_full b 16). lia.
Qed.

Lemma hex_pair_xdigits b : in_width 8 b -> Forall (fun c => isxdigit c = true) (hex_pair b).
Proof.
  intros Hb. destruct (nibbles_in_width b Hb). unfold hex_pair.
  repeat constructor; by apply isxdigit_hex_char.
Qed.

(** [fmt::join] of formatted items. *)
Fixpoint join (separator : str) (items : list str) : str :=
  match items with
  | [] => []
  | [x] => x
  | x :: items => x ++ separator ++ join separator items
  end.

(** An instance of the formatting library, for the concrete runs of the
    development: a joined range of bytes is written in hexadecimal, and any other
    call gives the format string itself. *)
#[local] Instance example_fmt : Fmt := {
  format f args :=
    match args with
    | [AJoin items separator] =>
      join separator (map (fun a => match a with AInt z => hex_pair z | _ => [] end) items)
    | _ => f
    end
}.

(** ** [src/src/util.hpp] *)

(** The local lambda [lowercase] of [ascii_case_insensitive_equal]. *)
Definition lowercase (character : ascii) : ascii :=
  if (code "A" <=? code character) && (code character <=? code "Z")
  then chr (code character + (code "a" - code "A")) else character.

Fixpoint ascii_case_insensitive_equal (left_view right_view : str) : bool :=
  match left_view, right_view with
  | [], [] => true
  | left_char :: left_view, right_char :: right_view =>
    bool_decide (lowercase left_char = lowercase right_char)
    && ascii_case_insensitive_equal left_view right_view
  | _, _ => false
  end.

(** [std::ranges::find_if_not]: the index of the first character outside the
    predicate, the length when there is none. *)
Fixpoint find_if_not (predicate : ascii -> bool) (input : str) : nat :=
  match input with
  | [] => 0
  | c :: input' => if predicate c then S (find_if_not predicate input') else 0
  end%nat.

Definition ltrim (predicate : ascii -> bool) (input : str) : str :=
  drop (find_if_not predicate input) input.

(** [find_if_not(input | reverse).base()] is the end of the text that stays. *)
Definition rtrim (predicate : ascii -> bool) (input : str) : str :=
  take (length input - find_if_not predicate (rev input)) input.

Definition trim (predicate : ascii -> bool) (input : str) : str :=
  rtrim predicate (ltrim predicate input).

(** A [std::string_view]: the part of a text a pointer and a length give.  The overloads on
    views narrow the view and leave the text. *)
Record string_view : Type := View {
  viewed : str;
  begin : nat;
  view_length : nat;
}.

Definition contents (input : string_view) : str := take input.(view_length) (drop input.(begin) input.(viewed)).

Definition view_of (text : str) : string_view := View text 0 (length text).

Definition remove_prefix (n : nat) (input : string_view) : string_view :=
  View input.(viewed) (input.(begin) + n) (input.(view_length) - n).

Definition remove_suffix (n : nat) (input : string_view) : string_view :=
  View input.(viewed) input.(begin) (input.(view_length) - n).

Definition ltrim_view (predicate : ascii -> bool) (input : string_view) : string_view :=
  remove_prefix (find_if_not predicate (contents input)) input.

(** [input.end() - last]: the characters behind the end of the text that stays. *)
Definition rtrim_view (predicate : ascii -> bool) (input : string_view) : string_view :=
  let last := (length (contents input) - find_if_not predicate (rev (contents input)))%nat in
  remove_suffix (length (contents input) - last) input.

Definition trim_view (predicate : ascii -> bool) (input : string_view) : string_view :=
  rtrim_view predicate (ltrim_view predicate input).

Lemma ascii_case_insensitive_equal_map a b :
  ascii_case_insensitive_equal a b = true <-> map lowercase a = map lowercase b.
Proof.
  revert b. induction a as [|x a IH]; intros [|y b]; cbn; try (split; done).
  rewrite andb_true_iff, bool_decide_eq_true, IH. split; [by intros [-> ->] | by intros [= -> ->]].
Qed.

Section trim.
Context (p : ascii -> bool).

Lemma ltrim_span s : ltrim p s = (span p s).2.
Proof.
  unfold ltrim. induction s as [|c s IH]; simpl; [done|].
  destruct (p c) eqn:E; [|done]. simpl. rewrite IH. by destruct (span p s).
Qed.

Lemma rtrim_ltrim s : rtrim p s = rev (ltrim p (rev s)).
Proof.
  unfold rtrim, ltrim. rewrite skipn_rev, rev_involutive. done.
Qed.

(** A view inside its text. *)
Definition valid_view (input : string_view) : Prop :=
  (input.(begin) + input.(view_length) <= length input.(viewed))%nat.

Lemma find_if_not_le s : (find_if_not p s <= length s)%nat.
Proof. induction s as [|c s IH]; cbn; [done|]. destruct (p c); cbn; lia. Qed.

Lemma length_contents input : valid_view input -> length (contents input) = input.(view_length).
Proof. unfold valid_view, contents. rewrite length_take, length_drop. lia. Qed.

Lemma ltrim_view_spec input : valid_view input ->
  let v := ltrim_view p input in
  valid_view v /\ v.(viewed) = input.(viewed) /\ contents v = ltrim p (contents input).
Proof.
  intros Hv. cbv zeta. pose proof (find_if_not_le (contents input)) as Hle. rewrite (length_contents _ Hv) in Hle.
  unfold valid_view in *. cbn. split; [lia|]. split; [done|]. unfold ltrim. set (n := find_if_not p _) in *. unfold contents. cbn.
  by rewrite skipn_firstn_comm, drop_drop.
Qed.

Lemma rtrim_view_spec input : valid_view input ->
  let v := rtrim_view p input in
  valid_view v /\ v.(viewed) = input.(viewed) /\ contents v = rtrim p (contents input).
Proof.
  intros Hv. cbv zeta. pose proof (find_if_not_le (rev (contents input))) as Hle. rewrite length_rev, (length_contents _ Hv) in Hle.
  unfold rtrim, rtrim_view. rewrite (length_contents _ Hv). set (n := find_if_not p _) in *. unfold valid_view in *. cbn.
  split; [lia|]. split; [done|]. unfold contents. cbn. rewrite take_take. f_equal. lia.
Qed.

(** The overloads agree: a trimmed view is inside the text it was, and reads what the
    overload on strings leaves. *)
Lemma trim_view_spec input : valid_view input ->
  let v := trim_view p input in
  valid_view v /\ v.(viewed) = input.(viewed) /\ contents v = trim p (contents input).
Proof.
  intros Hv. destruct (ltrim_view_spec input Hv) as (H1 & H2 & H3). destruct (rtrim_view_spec _ H1) as (H4 & H5 & H6).
  split; [exact H4|]. split; [exact (eq_trans H5 H2)|]. cbv zeta in *. unfold trim_view. rewrite H6, H3. done.
Qed.

(** The three parts of a text around its trimmed middle. *)
Definition trimmed (s m : str) : Prop :=
  exists l r, s = l ++ m ++ r
    /\ Forall (fun c => p c = true) l /\ Forall (fun c => p c = true) r
    /\ (forall c m', m = c :: m' -> p c = false)
    /\ (forall c m', m = m' ++ [c] -> p c = false).

Lemma ltrim_app l m :
  Forall (fun c => p c = true) l -> (forall c m', m = c :: m' -> p c = false) ->
  ltrim p (l ++ m) = m.
Proof.
  intros Hl Hm. rewrite ltrim_span, span_app_all; [done|done|].
  destruct m as [|c m]; [done | by eapply Hm].
Qed.

Lemma rtrim_app m r :
  Forall (fun c => p c = true) r -> (forall c m', m = m' ++ [c] -> p c = false) ->
  rtrim p (m ++ r) = m.
Proof.
  intros Hr Hm. rewrite rtrim_ltrim, rev_app_distr, ltrim_app; [apply rev_involutive | |].
  - by apply Forall_rev.
  - intros c m' E. apply (Hm c (rev m')). rewrite <- (rev_involutive m), E. done.
Qed.

(** [trim] keeps exactly the middle of the text: what it removes on both sides
    satisfies the predicate, and what it keeps starts and ends outside it. *)
Theorem trim_spec s m : trim p s = m <-> trimmed s m.
Proof.
  split.
  - intros <-. unfold trim. rewrite rtrim_ltrim, !ltrim_span.
    pose proof (span_app p s) as E1. pose proof (span_all p s) as A1.
    pose proof (span_stop p s) as S1.
    destruct (span p s) as [l t]; simpl in *.
    pose proof (span_app p (rev t)) as E2. pose proof (span_all p (rev t)) as A2.
    pose proof (span_stop p (rev t)) as S2.
    destruct (span p (rev t)) as [r m]; simpl in *.
    assert (t = rev m ++ rev r) as ->.
    { rewrite <- (rev_involutive t), <- E2. apply rev_app_distr. }
    exists l, (rev r). split; [done|]. split; [done|]. split; [by apply Forall_rev|]. split.
    + intros c m' Hm. apply (S1 c (m' ++ rev r)). by rewrite Hm.
    + intros c m' Hm. apply (S2 c (rev m')).
      rewrite <- (rev_involutive m), Hm. by rewrite rev_app_distr.
  - intros (l & r & -> & Hl & Hr & Hh & Ht). unfold trim. destruct m as [|c m].
    + rewrite app_nil_l. rewrite ltrim_span, (span_all_id p (l ++ r)); [done|].
      by apply Forall_app.
    + rewrite ltrim_app; [by apply rtrim_app | done |]. intros c' m' [= -> _]. by eapply Hh.
Qed.
End trim.
