(* ===== verification/Core.v ===== *)
(** * Core: the data model of [src/src/bme_core.hpp], the constants of
    [src/src/os.hpp] and the name and decoder tables of [src/src/bme_core.cpp]. *)

From S2P Require Import Prelude Text.

Local Open Scope Z_scope.

(** ** Limits and defaults *)

Definition DEFAULT_MAX_STEPS : Z := 50000.
Definition MAX_STEPS_LIMIT : Z := 1000000.
Definition DEFAULT_FPU_CONTROL_WORD : Z := 0x037F.
Definition DEFAULT_MXCSR : Z := 0x1F80.

(** ** Enumerations *)

Inductive Reg : Type :=
| RAX | RBX | RCX | RDX | RSI | RDI | RBP | RSP
| R8 | R9 | R10 | R11 | R12 | R13 | R14 | R15
| RIP | RFLAGS.

#[export] Instance Reg_eq_dec : EqDecision Reg.
Proof. solve_decision. Defined.

Definition all_regs : list Reg :=
  [RAX; RBX; RCX; RDX; RSI; RDI; RBP; RSP; R8; R9; R10; R11; R12; R13; R14; R15; RIP; RFLAGS].

(** [(std::size_t)reg]. *)
Definition reg_index (reg : Reg) : nat :=
  match reg with
  | RAX => 0 | RBX => 1 | RCX => 2 | RDX => 3 | RSI => 4 | RDI => 5 | RBP => 6 | RSP => 7
  | R8 => 8 | R9 => 9 | R10 => 10 | R11 => 11 | R12 => 12 | R13 => 13 | R14 => 14
  | R15 => 15 | RIP => 16 | RFLAGS => 17
  end.

Definition REG_COUNT : nat := S (reg_index RFLAGS).
Definition GPR_COUNT : nat := 16.

(** The [Flag] bits of [RFLAGS]. *)
Definition CF : Z := Z.shiftl 1 0.
Definition PF : Z := Z.shiftl 1 2.
Definition AF : Z := Z.shiftl 1 4.
Definition ZF : Z := Z.shiftl 1 6.
Definition SF : Z := Z.shiftl 1 7.
Definition DF : Z := Z.shiftl 1 10.
Definition OF : Z := Z.shiftl 1 11.

Inductive Outcome : Type :=
| OIdle | OError | OFinished | OFaulted | OAbortedCap | OStopped.

#[export] Instance Outcome_eq_dec : EqDecision Outcome.
Proof. solve_decision. Defined.

Inductive FaultAccess : Type :=
| FANone | FARead | FAWrite | FAExecute | FAUnknown.

#[export] Instance FaultAccess_eq_dec : EqDecision FaultAccess.
Proof. solve_decision. Defined.

Inductive DisasmSyntax : Type := Intel | ATT.

#[export] Instance DisasmSyntax_eq_dec : EqDecision DisasmSyntax.
Proof. solve_decision. Defined.

Inductive DisasmBackend : Type := Zydis | Bddisasm | Capstone | Xed.

#[export] Instance DisasmBackend_eq_dec : EqDecision DisasmBackend.
Proof. solve_decision. Defined.

Inductive OutputFormat : Type := FormatText | FormatJson.

#[export] Instance OutputFormat_eq_dec : EqDecision OutputFormat.
Proof. solve_decision. Defined.

(** ** Structures *)

Record TrackMask : Type := {
  track_gpr : bool;
  track_rip : bool;
  track_rflags : bool;
  track_xmm : bool;
  track_x87 : bool;
}.

Record GPRSeed : Type := {
  full : str;
  dword : str;
  word : str;
  byte_high : str;
  byte_low : str;
}.

Definition GPRSeed_empty : GPRSeed :=
  {| full := []; dword := []; word := []; byte_high := []; byte_low := [] |}.

Record FloatingEnvironmentSeed : Type := {
  seed_mxcsr : str;
  seed_fpu_control_word : str;
}.

(** A [std::array<T, n>] is a list; [well_formed] records the lengths. *)
Record Registers : Type := {
  gpr : list Z;
  rip : Z;
  rflags : Z;
  xmm : list (Z * Z);          (* {lo, hi} *)
  mxcsr : Z;
  st : list (list Z);
  fpu_control_word : Z;
  fpu_status_word : Z;
  fpu_tag_word_abridged : Z;
}.

Definition Registers_init : Registers := {|
  gpr := replicate GPR_COUNT 0;
  rip := 0;
  rflags := 0;
  xmm := replicate 16 (0, 0);
  mxcsr := DEFAULT_MXCSR;
  st := replicate 8 (replicate 10 0);
  fpu_control_word := DEFAULT_FPU_CONTROL_WORD;
  fpu_status_word := 0;
  fpu_tag_word_abridged := 0;
|}.

(** [Registers::operator[]]: reading, and writing through the reference. *)
Definition reg_get (registers : Registers) (reg : Reg) : Z :=
  match reg with
  | RIP => registers.(rip)
  | RFLAGS => registers.(rflags)
  | _ => nth (reg_index reg) registers.(gpr) 0
  end.

Definition reg_set (registers : Registers) (reg : Reg) (value : Z) : Registers := {|
  gpr := match reg with RIP | RFLAGS => registers.(gpr)
         | _ => <[reg_index reg := value]> registers.(gpr) end;
  rip := match reg with RIP => value | _ => registers.(rip) end;
  rflags := match reg with RFLAGS => value | _ => registers.(rflags) end;
  xmm := registers.(xmm);
  mxcsr := registers.(mxcsr);
  st := registers.(st);
  fpu_control_word := registers.(fpu_control_word);
  fpu_status_word := registers.(fpu_status_word);
  fpu_tag_word_abridged := registers.(fpu_tag_word_abridged);
|}.

(** The type invariant of [Registers]: the array lengths and the integer widths. *)
Record well_formed (r : Registers) : Prop := {
  wf_gpr_length : length r.(gpr) = GPR_COUNT;
  wf_gpr : Forall (in_width 64) r.(gpr);
  wf_rip : in_width 64 r.(rip);
  wf_rflags : in_width 64 r.(rflags);
  wf_xmm_length : length r.(xmm) = 16%nat;
  wf_xmm : Forall (fun v => in_width 64 v.1 /\ in_width 64 v.2) r.(xmm);
  wf_mxcsr : in_width 32 r.(mxcsr);
  wf_st_length : length r.(st) = 8%nat;
  wf_st : Forall (fun b => length b = 10%nat /\ Forall (in_width 8) b) r.(st);
  wf_control : in_width 16 r.(fpu_control_word);
  wf_status : in_width 16 r.(fpu_status_word);
  wf_tag : in_width 8 r.(fpu_tag_word_abridged);
}.

Inductive ExecutionEventKind : Type := EKCompleted | EKFaulted.

#[export] Instance ExecutionEventKind_eq_dec : EqDecision ExecutionEventKind.
Proof. solve_decision. Defined.

Record ExecutionEvent : Type := {
  event_rip : Z;
  event_registers : Registers;
  event_kind : ExecutionEventKind;
}.

Inductive HistoryRowKind : Type := HKReached | HKFaulted | HKNotReached | HKData.

#[export] Instance HistoryRowKind_eq_dec : EqDecision HistoryRowKind.
Proof. solve_decision. Defined.

Record HistoryRow : Type := {
  row_rip : Z;
  row_text : str;
  row_offset : Z;
  row_length : Z;
  row_kind : HistoryRowKind;
  row_event : option nat;       (* execution_event_index *)
}.

(** ** Constants of [src/src/os.hpp] *)

Definition SCRATCH_STACK_BYTES : Z := 0x10000.
Definition SCRATCH_STACK_HEADROOM : Z := 0x100.
Definition SCRATCH_DATA_BYTES : Z := 0x10000.
Definition SCRATCH_DATA_RESERVE_BASE : Z := 0x10000000.

Definition RFLAGS_STATUS_MASK : Z :=
  Z.lor CF (Z.lor PF (Z.lor AF (Z.lor ZF (Z.lor SF (Z.lor DF OF))))).
Definition RFLAGS_TRAP_FLAG : Z := 0x100.
Definition RFLAGS_RESUME_FLAG : Z := 0x10000.
Definition RFLAGS_INTERRUPT_FLAG : Z := 0x200.
Definition RFLAGS_RESERVED_BIT1 : Z := 0x2.

Definition MXCSR_DEFINED_MASK : Z := 0xFFFF.
Definition MXCSR_FALLBACK_MASK : Z := 0xFFBF.

(** ** Name tables of [src/src/bme_core.cpp] *)

Definition REG_NAMES : list str :=
  ["RAX" : str; "RBX" : str; "RCX" : str; "RDX" : str; "RSI" : str; "RDI" : str;
   "RBP" : str; "RSP" : str; "R8" : str; "R9" : str; "R10" : str; "R11" : str;
   "R12" : str; "R13" : str; "R14" : str; "R15" : str; "RIP" : str; "RFLAGS" : str].

Definition GPR_NAMES_32 : list str :=
  ["EAX" : str; "EBX" : str; "ECX" : str; "EDX" : str; "ESI" : str; "EDI" : str;
   "EBP" : str; "ESP" : str; "R8D" : str; "R9D" : str; "R10D" : str; "R11D" : str;
   "R12D" : str; "R13D" : str; "R14D" : str; "R15D" : str].

Definition GPR_NAMES_16 : list str :=
  ["AX" : str; "BX" : str; "CX" : str; "DX" : str; "SI" : str; "DI" : str;
   "BP" : str; "SP" : str; "R8W" : str; "R9W" : str; "R10W" : str; "R11W" : str;
   "R12W" : str; "R13W" : str; "R14W" : str; "R15W" : str].

Definition GPR_NAMES_8L : list str :=
  ["AL" : str; "BL" : str; "CL" : str; "DL" : str; "SIL" : str; "DIL" : str;
   "BPL" : str; "SPL" : str; "R8B" : str; "R9B" : str; "R10B" : str; "R11B" : str;
   "R12B" : str; "R13B" : str; "R14B" : str; "R15B" : str].

Definition GPR_NAMES_8H : list str := ["AH" : str; "BH" : str; "CH" : str; "DH" : str].

Definition STATUS_FLAGS : list (str * Z) :=
  [("OF" : str, OF); ("DF" : str, DF); ("SF" : str, SF); ("ZF" : str, ZF);
   ("AF" : str, AF); ("PF" : str, PF); ("CF" : str, CF)].

(** ** Decoder capabilities *)

Record BackendInfo : Type := {
  bi_name : str;
  bi_cli : str;
  intel_syntax : bool;
  att_syntax : bool;
}.

Definition BACKENDS : list BackendInfo := [
  {| bi_name := "Zydis"; bi_cli := "zydis"; intel_syntax := true; att_syntax := true |};
  {| bi_name := "bddisasm"; bi_cli := "bddisasm"; intel_syntax := true; att_syntax := false |};
  {| bi_name := "Capstone"; bi_cli := "capstone"; intel_syntax := true; att_syntax := true |};
  {| bi_name := "XED"; bi_cli := "xed"; intel_syntax := true; att_syntax := true |}
].

(** [(std::size_t)backend], and the conversion back of an index of the table. *)
Definition backend_index (backend : DisasmBackend) : nat :=
  match backend with Zydis => 0 | Bddisasm => 1 | Capstone => 2 | Xed => 3 end.

Definition backend_of_index (i : nat) : DisasmBackend :=
  match i with 0 => Zydis | 1 => Bddisasm | 2 => Capstone | _ => Xed end%nat.

Definition backend_info (backend : DisasmBackend) : BackendInfo :=
  nth (backend_index backend) BACKENDS
    {| bi_name := []; bi_cli := []; intel_syntax := false; att_syntax := false |}.

Definition backend_from_cli (name : str) : DisasmBackend :=
  match list_find (fun info => info.(bi_cli) = name) BACKENDS with
  | None => Zydis
  | Some (found, _) => backend_of_index found
  end.

Definition backend_supports (backend : DisasmBackend) (syntax : DisasmSyntax) : bool :=
  match syntax with
  | ATT => (backend_info backend).(att_syntax)
  | Intel => (backend_info backend).(intel_syntax)
  end.

(** ** Lemmas *)

Lemma all_regs_complete reg : In reg all_regs.
Proof. destruct reg; simpl; tauto. Qed.

Lemma reg_get_set_eq r reg v :
  length r.(gpr) = GPR_COUNT -> reg_get (reg_set r reg v) reg = v.
Proof.
  intros H. destruct reg; try done; unfold reg_get, reg_set, reg_index; cbn [gpr].
  all: apply nth_lookup_Some, list_lookup_insert_eq; rewrite H; unfold GPR_COUNT; lia.
Qed.

Lemma reg_get_set_ne r reg reg' v :
  reg <> reg' -> reg_get (reg_set r reg v) reg' = reg_get r reg'.
Proof.
  intros Hne. destruct reg, reg'; try done.
  all: unfold reg_get, reg_set, reg_index; cbn [gpr rip rflags]; try done.
  all: rewrite !nth_lookup, list_lookup_insert_ne by lia; done.
Qed.

Lemma length_gpr_reg_set r reg v : length (reg_set r reg v).(gpr) = length r.(gpr).
Proof. destruct reg; cbn [reg_set gpr]; try done; apply length_insert. Qed.

Lemma Registers_init_well_formed : well_formed Registers_init.
Proof.
  assert (forall {A} (P : A -> Prop) n x, P x -> Forall P (replicate n x)) as Hrep.
  { intros A P n x Hx. by apply Forall_replicate. }
  split; try done; apply Hrep; try done. split; [done | by apply (Hrep Z (in_width 8) 10%nat 0)].
Qed.

Lemma reg_set_well_formed r reg v :
  well_formed r -> in_width 64 v -> well_formed (reg_set r reg v).
Proof.
  intros Hr Hv. destruct Hr. split; try done.
  - by rewrite length_gpr_reg_set.
  - destruct reg; try done; by apply Forall_insert.
  - destruct reg; done.
  - destruct reg; done.
Qed.

Lemma reg_get_in_width r reg : well_formed r -> in_width 64 (reg_get r reg).
Proof.
  intros [Hl Hg Hrip Hfl]. destruct reg; try done.
  all: unfold reg_get; apply (proj1 (Forall_forall _ _) Hg); apply list_elem_of_In, nth_In;
    rewrite Hl; unfold GPR_COUNT, reg_index; lia.
Qed.

#[export] Hint Resolve Registers_init_well_formed reg_set_well_formed reg_get_in_width : bme.
