(* ===== verification/X87.v ===== *)
(** * X87: the floating-point conversions of [src/src/st80.S] and [src/src/st80.asm],
    and the conversion between [float] and [double].

    A floating-point value is its bit pattern, an integer of 32 or 64 bits, or the
    ten bytes of an 80-bit extended value.  The assembly routines load and store
    with [fld] and [fstp]; the definitions give the effect of these instructions
    with every exception masked, the state the program runs them in. *)

From S2P Require Import Prelude Text.

Local Open Scope Z_scope.

(** ** Little-endian bytes *)

Fixpoint le_bytes (n : nat) (z : Z) : list Z :=
  match n with
  | O => []
  | S n => u8 z :: le_bytes n (z / 256)
  end.

Fixpoint le_value (bytes : list Z) : Z :=
  match bytes with
  | [] => 0
  | b :: bytes => b + 256 * le_value bytes
  end.

(** The [n] bytes from an offset on. *)
Definition bytes_at (bytes : list Z) (offset n : nat) : list Z := take n (drop offset bytes).

(** [std::memcpy] to an offset of an area. *)
Definition splice (area : list Z) (offset : nat) (bytes : list Z) : list Z :=
  take offset area ++ bytes ++ drop (offset + length bytes) area.

(** ** Binary formats *)

(** A format is given by its precision [p] (the implicit bit included) and the width
    [ew] of its exponent. *)
Definition bias (ew : Z) : Z := 2 ^ (ew - 1) - 1.

Inductive fp : Type :=
| FZero (sign : bool)
| FInfinity (sign : bool)
| FNaN (sign : bool) (payload : Z)      (* the fraction field, non-zero *)
| FFinite (sign : bool) (m e : Z).      (* [m * 2 ^ e] with [0 < m] *)

Definition decode (p ew bits : Z) : fp :=
  let sign := Z.testbit bits (p - 1 + ew) in
  let biased := (bits / 2 ^ (p - 1)) mod 2 ^ ew in
  let fraction := bits mod 2 ^ (p - 1) in
  if biased =? 2 ^ ew - 1 then
    if fraction =? 0 then FInfinity sign else FNaN sign fraction
  else if biased =? 0 then
    if fraction =? 0 then FZero sign else FFinite sign fraction (1 - bias ew - (p - 1))
  else FFinite sign (2 ^ (p - 1) + fraction) (biased - bias ew - (p - 1)).

Definition sign_bit (p ew : Z) (sign : bool) : Z := Z.b2z sign * 2 ^ (p - 1 + ew).

Definition pack (p ew : Z) (sign : bool) (biased fraction : Z) : Z :=
  sign_bit p ew sign + biased * 2 ^ (p - 1) + fraction.

(** The rounding modes of the control word, bits 10 and 11. *)
Inductive rounding : Type := Nearest | Down | Up | Truncate.

Definition rounding_of_control_word (fpu_control_word : Z) : rounding :=
  match Z.land (Z.shiftr fpu_control_word 10) 3 with
  | 0 => Nearest | 1 => Down | 2 => Up | _ => Truncate
  end.

(** Is [q + r / d], [0 <= r < d], rounded to [q + 1]? *)
Definition round_up (mode : rounding) (sign : bool) (q r d : Z) : bool :=
  match mode with
  | Nearest => (d <? 2 * r) || ((d =? 2 * r) && Z.odd q)
  | Down => sign && (0 <? r)
  | Up => negb sign && (0 <? r)
  | Truncate => false
  end.

(** The value stored for an overflow. *)
Definition overflow (p ew : Z) (mode : rounding) (sign : bool) : Z :=
  let infinite := match mode with Nearest => true | Down => sign | Up => negb sign | Truncate => false end in
  if infinite then pack p ew sign (2 ^ ew - 1) 0
  else pack p ew sign (2 ^ ew - 2) (2 ^ (p - 1) - 1).

(** Delivers [(q + r / d) * 2 ^ target], [0 <= r < d], to the format. *)
Definition deliver (p ew : Z) (mode : rounding) (sign : bool) (target q r d : Z) : Z :=
  let q := if round_up mode sign q r d then q + 1 else q in
  let '(q, target) := if q =? 2 ^ p then (q / 2, target + 1) else (q, target) in
  if q <? 2 ^ (p - 1) then pack p ew sign 0 q
  else
    let biased := target + (p - 1) + bias ew in
    if 2 ^ ew - 1 <=? biased then overflow p ew mode sign
    else pack p ew sign biased (q - 2 ^ (p - 1)).

(** The exponent of the last bit kept of a number whose leading bit has exponent
    [top]. *)
Definition last_place (p ew top : Z) : Z := Z.max (top + 1 - p) (1 - bias ew - (p - 1)).

(** [m * 2 ^ e] rounded to the format. *)
Definition round_finite (p ew : Z) (mode : rounding) (sign : bool) (m e : Z) : Z :=
  let target := last_place p ew (e + Z.log2 m) in
  let shift := target - e in
  let q := if shift <=? 0 then m * 2 ^ (- shift) else m / 2 ^ shift in
  let r := if shift <=? 0 then 0 else m mod 2 ^ shift in
  deliver p ew mode sign target q r (2 ^ Z.max shift 0).

(** The quotient [n / d] of two positive numbers rounded to the format. *)
Definition round_ratio (p ew : Z) (mode : rounding) (sign : bool) (n d : Z) : Z :=
  let k := Z.log2 n - Z.log2 d in
  let top := if n * 2 ^ Z.max (- k) 0 <? d * 2 ^ Z.max k 0 then k - 1 else k in
  let target := last_place p ew top in
  let n := n * 2 ^ Z.max (- target) 0 in
  let d := d * 2 ^ Z.max target 0 in
  deliver p ew mode sign target (n / d) (n mod d) d.

(** A NaN narrowed or widened by [k] fraction bits becomes quiet. *)
Definition quiet (p fraction : Z) : Z := Z.lor (2 ^ (p - 2)) fraction.

(** ** 80-bit extended values *)

Definition st80_bytes (sign : bool) (exponent mantissa : Z) : list Z :=
  le_bytes 8 mantissa ++ le_bytes 2 (Z.b2z sign * 2 ^ 15 + exponent).

Definition st80_mantissa (bytes : list Z) : Z := le_value (take 8 bytes).
Definition st80_exponent (bytes : list Z) : Z := le_value (drop 8 bytes) mod 2 ^ 15.
Definition st80_sign (bytes : list Z) : bool := Z.testbit (le_value (drop 8 bytes)) 15.

(** [double_to_st80]: [fldl] widens exactly (a signalling NaN becomes quiet) and
    [fstpt] stores the register. *)
Definition double_to_st80 (value : Z) : list Z :=
  match decode 53 11 value with
  | FZero sign => st80_bytes sign 0 0
  | FInfinity sign => st80_bytes sign 0x7FFF (2 ^ 63)
  | FNaN sign fraction => st80_bytes sign 0x7FFF (2 ^ 63 + quiet 53 fraction * 2 ^ 11)
  | FFinite sign m e =>
    let k := Z.log2 m in st80_bytes sign (e + k + 16383) (m * 2 ^ (63 - k))
  end.

(** [fldt] then [fstpl] or [fstps]: the register rounded to a format of precision [p]
    with the rounding mode of [fpu_control_word].  An operand the processor does not
    support (a clear integer bit with a non-zero exponent) is stored as the
    indefinite NaN. *)
Definition st80_to_format (p ew : Z) (bytes : list Z) (fpu_control_word : Z) : Z :=
  let sign := st80_sign bytes in
  let exponent := st80_exponent bytes in
  let mantissa := st80_mantissa bytes in
  if exponent =? 0 then
    if mantissa =? 0 then sign_bit p ew sign
    else round_finite p ew (rounding_of_control_word fpu_control_word) sign mantissa (1 - 16383 - 63)
  else if negb (Z.testbit mantissa 63) then pack p ew true (2 ^ ew - 1) (2 ^ (p - 2))
  else if exponent =? 0x7FFF then
    if mantissa =? 2 ^ 63 then pack p ew sign (2 ^ ew - 1) 0
    else pack p ew sign (2 ^ ew - 1) (quiet p ((mantissa - 2 ^ 63) / 2 ^ (64 - p)))
  else round_finite p ew (rounding_of_control_word fpu_control_word) sign mantissa
         (exponent - 16383 - 63).

Definition st80_to_double (bytes : list Z) (fpu_control_word : Z) : Z :=
  st80_to_format 53 11 bytes fpu_control_word.

Definition st80_to_float (bytes : list Z) (fpu_control_word : Z) : Z :=
  st80_to_format 24 8 bytes fpu_control_word.

(** ** [float] and [double] *)

(** [(double)value] of a [float]. *)
Definition double_of_float (value : Z) : Z :=
  match decode 24 8 value with
  | FZero sign => sign_bit 53 11 sign
  | FInfinity sign => pack 53 11 sign (2 ^ 11 - 1) 0
  | FNaN sign fraction => pack 53 11 sign (2 ^ 11 - 1) (quiet 24 fraction * 2 ^ 29)
  | FFinite sign m e => round_finite 53 11 Nearest sign m e
  end.

(** [(float)value] of a [double], in the default rounding mode. *)
Definition float_of_double (value : Z) : Z :=
  match decode 53 11 value with
  | FZero sign => sign_bit 24 8 sign
  | FInfinity sign => pack 24 8 sign (2 ^ 8 - 1) 0
  | FNaN sign fraction => pack 24 8 sign (2 ^ 8 - 1) (quiet 24 (fraction / 2 ^ 29))
  | FFinite sign m e => round_finite 24 8 Nearest sign m e
  end.

Example st80_1_5 : double_to_st80 0x3FF8000000000000 = [0; 0; 0; 0; 0; 0; 0; 0xC0; 0xFF; 0x3F].
Proof. vm_compute. reflexivity. Qed.

Example float_nearest : st80_to_float (double_to_st80 0x3FF0000010000000) 0x003F = 0x3F800000.
Proof. vm_compute. reflexivity. Qed.

Example float_upward : st80_to_float (double_to_st80 0x3FF0000010000000) 0x083F = 0x3F800001.
Proof. vm_compute. reflexivity. Qed.

(** ** Lemmas *)

Lemma length_le_bytes n z : length (le_bytes n z) = n.
Proof. revert z. induction n as [|n IH]; intros z; simpl; [done|]. by rewrite IH. Qed.

Lemma le_bytes_range n z : Forall (in_width 8) (le_bytes n z).
Proof.
  revert z. induction n as [|n IH]; intros z; simpl; constructor; [|done].
  by apply wrap_in_width.
Qed.

Lemma le_value_bytes n z : le_value (le_bytes n z) = z mod 256 ^ Z.of_nat n.
Proof.
  revert z. induction n as [|n IH]; intros z.
  - simpl. by rewrite Z.mod_1_r.
  - cbn [le_bytes le_value]. rewrite IH, Nat2Z.inj_succ, Z.pow_succ_r by lia.
    unfold wrap. change (2 ^ 8) with 256.
    rewrite (Z.rem_mul_r z 256) by lia. lia.
Qed.

Lemma le_value_bound bytes :
  Forall (in_width 8) bytes -> 0 <= le_value bytes < 256 ^ Z.of_nat (length bytes).
Proof.
  induction 1 as [|b bytes Hb _ IH]; [simpl; lia|].
  cbn [le_value length]. rewrite Nat2Z.inj_succ, Z.pow_succ_r by lia.
  change (in_width 8 b) with (0 <= b < 256) in Hb. lia.
Qed.

Lemma le_value_app a b :
  le_value (a ++ b) = le_value a + 256 ^ Z.of_nat (length a) * le_value b.
Proof.
  induction a as [|x a IH]; cbn [app le_value length]; [lia|].
  rewrite IH, Nat2Z.inj_succ, Z.pow_succ_r by lia. ring.
Qed.

Lemma le_bytes_value bytes :
  Forall (in_width 8) bytes -> le_bytes (length bytes) (le_value bytes) = bytes.
Proof.
  induction 1 as [|b bytes Hb _ IH]; [done|].
  cbn [length le_value le_bytes]. change (in_width 8 b) with (0 <= b < 256) in Hb.
  assert ((b + 256 * le_value bytes) / 256 = le_value bytes) as ->.
  { rewrite Z.mul_comm, Z.div_add, Z.div_small by lia. lia. }
  rewrite IH. f_equal. unfold wrap. change (2 ^ 8) with 256.
  rewrite Z.mul_comm, Z.mod_add, Z.mod_small by lia. done.
Qed.

(** The fields of an 80-bit value. *)
Section st80_fields.
Context (sign : bool) (exponent mantissa : Z).
Hypothesis Hexponent : 0 <= exponent < 2 ^ 15.
Hypothesis Hmantissa : 0 <= mantissa < 2 ^ 64.

Lemma st80_high : le_value (drop 8 (st80_bytes sign exponent mantissa)) = exponent + Z.b2z sign * 2 ^ 15.
Proof.
  unfold st80_bytes. rewrite (drop_app_length' _ _ 8) by (by rewrite length_le_bytes).
  rewrite le_value_bytes. change (256 ^ Z.of_nat 2) with (2 ^ 16).
  rewrite Z.mod_small; destruct sign; simpl Z.b2z; lia.
Qed.

Lemma st80_mantissa_bytes : st80_mantissa (st80_bytes sign exponent mantissa) = mantissa.
Proof.
  unfold st80_mantissa, st80_bytes. rewrite (take_app_length' _ _ 8) by (by rewrite length_le_bytes).
  rewrite le_value_bytes. apply Z.mod_small. change (256 ^ Z.of_nat 8) with (2 ^ 64). lia.
Qed.

Lemma st80_exponent_bytes : st80_exponent (st80_bytes sign exponent mantissa) = exponent.
Proof. unfold st80_exponent. rewrite st80_high, Z.mod_add, Z.mod_small; lia. Qed.

Lemma st80_sign_bytes : st80_sign (st80_bytes sign exponent mantissa) = sign.
Proof.
  unfold st80_sign. rewrite st80_high. by apply testbit_top.
Qed.
End st80_fields.

Lemma st80_bytes_well_formed sign exponent mantissa :
  length (st80_bytes sign exponent mantissa) = 10%nat /\
  Forall (in_width 8) (st80_bytes sign exponent mantissa).
Proof.
  unfold st80_bytes. rewrite length_app, !length_le_bytes. split; [done|].
  apply Forall_app. split; apply le_bytes_range.
Qed.

(** *** Formats *)

Section formats.
Context (p ew : Z).
Hypothesis Hp : 2 <= p.
Hypothesis Hew : 2 <= ew.

Definition emin : Z := 1 - bias ew - (p - 1).

(** The mantissas and exponents of the format, each value once. *)
Definition canonical (m e : Z) : Prop :=
  0 < m < 2 ^ p /\ emin <= e /\ (m < 2 ^ (p - 1) -> e = emin)
  /\ (2 ^ (p - 1) <= m -> e + (p - 1) + bias ew < 2 ^ ew - 1).

Definition encode_finite (sign : bool) (m e : Z) : Z :=
  if m <? 2 ^ (p - 1) then pack p ew sign 0 m
  else pack p ew sign (e + (p - 1) + bias ew) (m - 2 ^ (p - 1)).

Lemma two_p : 2 ^ p = 2 * 2 ^ (p - 1) /\ 0 < 2 ^ (p - 1).
Proof.
  replace p with (Z.succ (p - 1)) at 1 by lia. rewrite Z.pow_succ_r by lia.
  split; [done | lia].
Qed.

Lemma pack_fields sign b f :
  0 <= b < 2 ^ ew -> 0 <= f < 2 ^ (p - 1) ->
  Z.testbit (pack p ew sign b f) (p - 1 + ew) = sign /\
  (pack p ew sign b f / 2 ^ (p - 1)) mod 2 ^ ew = b /\ pack p ew sign b f mod 2 ^ (p - 1) = f.
Proof.
  intros Hb Hf. destruct two_p as [_ H1]. assert (0 < 2 ^ ew) as H2 by lia.
  unfold pack, sign_bit. rewrite Z.pow_add_r by lia.
  assert (Z.b2z sign * (2 ^ (p - 1) * 2 ^ ew) + b * 2 ^ (p - 1) + f
          = f + (Z.b2z sign * 2 ^ ew + b) * 2 ^ (p - 1)) as -> by ring.
  assert ((f + (Z.b2z sign * 2 ^ ew + b) * 2 ^ (p - 1)) / 2 ^ (p - 1) = b + Z.b2z sign * 2 ^ ew) as Hd.
  { rewrite Z.div_add, Z.div_small by lia. lia. }
  split; [|split].
  - rewrite <- (testbit_top (p - 1 + ew) (f + b * 2 ^ (p - 1)) sign) at 2; [|lia|].
    + f_equal. rewrite Z.pow_add_r by lia. ring.
    + rewrite Z.pow_add_r by lia. nia.
  - rewrite Hd, Z.mod_add, Z.mod_small by lia. done.
  - rewrite Z.mod_add, Z.mod_small by lia. done.
Qed.

Lemma decode_pack sign b f :
  0 <= b < 2 ^ ew -> 0 <= f < 2 ^ (p - 1) ->
  decode p ew (pack p ew sign b f) =
    if b =? 2 ^ ew - 1 then if f =? 0 then FInfinity sign else FNaN sign f
    else if b =? 0 then if f =? 0 then FZero sign else FFinite sign f emin
    else FFinite sign (2 ^ (p - 1) + f) (b - bias ew - (p - 1)).
Proof.
  intros Hb Hf. unfold decode. by destruct (pack_fields sign b f Hb Hf) as (-> & -> & ->).
Qed.

Lemma bits_pack bits :
  in_width (p + ew) bits ->
  bits = pack p ew (Z.testbit bits (p - 1 + ew)) ((bits / 2 ^ (p - 1)) mod 2 ^ ew) (bits mod 2 ^ (p - 1)).
Proof.
  intros Hb. destruct two_p as [_ H1]. assert (0 < 2 ^ ew) as H2 by lia.
  unfold pack, sign_bit. pose proof (Z_div_mod_eq_full bits (2 ^ (p - 1))) as E1.
  pose proof (Z_div_mod_eq_full (bits / 2 ^ (p - 1)) (2 ^ ew)) as E2.
  assert (Z.b2z (Z.testbit bits (p - 1 + ew)) = bits / 2 ^ (p - 1) / 2 ^ ew) as ->.
  { rewrite Z.testbit_spec', Z.div_div, Z.pow_add_r by lia. apply Z.mod_small. split.
    - apply Z.div_pos; unfold in_width in Hb; nia.
    - apply Z.div_lt_upper_bound; [nia|]. destruct Hb as [_ Hb].
      replace (p + ew) with (1 + (p - 1) + ew) in Hb by lia.
      rewrite !Z.pow_add_r in Hb by lia. lia. }
  rewrite Z.pow_add_r by lia. nia.
Qed.

(** Decoding is injective: each class of values determines its bit pattern. *)
Lemma decode_spec bits :
  in_width (p + ew) bits ->
  match decode p ew bits with
  | FZero sign => bits = sign_bit p ew sign
  | FInfinity sign => bits = pack p ew sign (2 ^ ew - 1) 0
  | FNaN sign f => bits = pack p ew sign (2 ^ ew - 1) f /\ 0 < f < 2 ^ (p - 1)
  | FFinite sign m e => canonical m e /\ bits = encode_finite sign m e
  end.
Proof.
  intros Hb. pose proof (bits_pack bits Hb) as E. destruct two_p as [Hp2 Hp1].
  assert (0 <= (bits / 2 ^ (p - 1)) mod 2 ^ ew < 2 ^ ew) as Hbi by (apply Z.mod_pos_bound; lia).
  assert (0 <= bits mod 2 ^ (p - 1) < 2 ^ (p - 1)) as Hfr by (apply Z.mod_pos_bound; lia).
  unfold decode. revert E Hbi Hfr. generalize (Z.testbit bits (p - 1 + ew)) as sign.
  generalize ((bits / 2 ^ (p - 1)) mod 2 ^ ew) as b, (bits mod 2 ^ (p - 1)) as f.
  intros b f sign E Hbi Hfr. cbv zeta.
  destruct (Z.eqb_spec b (2 ^ ew - 1)) as [->|Hb1]; [destruct (Z.eqb_spec f 0) as [->|Hf]; [done|lia]|].
  destruct (Z.eqb_spec b 0) as [->|Hb0]; [destruct (Z.eqb_spec f 0) as [->|Hf]|].
  - rewrite E. unfold pack. lia.
  - split.
    + unfold canonical. fold emin. lia.
    + unfold encode_finite. destruct (Z.ltb_spec f (2 ^ (p - 1))); [done | lia].
  - split.
    + unfold canonical, emin. lia.
    + unfold encode_finite. destruct (Z.ltb_spec (2 ^ (p - 1) + f) (2 ^ (p - 1))); [lia|].
      rewrite E. f_equal; lia.
Qed.

(** A value of the format is rounded to itself, in every mode and from every
    representation [m' * 2 ^ e'] of it. *)
Lemma round_canonical mode sign m e m' e' s :
  canonical m e -> 0 <= s ->
  (m' = m * 2 ^ s /\ e' = e - s) \/ (m = m' * 2 ^ s /\ e' = e + s) ->
  round_finite p ew mode sign m' e' = encode_finite sign m e.
Proof.
  intros (Hm & He & Hsub & Hnorm) Hs Hrep. destruct two_p as [Hp2 Hp1].
  assert (0 < 2 ^ s) as Hs1 by lia.
  assert (Z.log2 m' + e' = Z.log2 m + e) as Hlog.
  { destruct Hrep as [[-> ->]|[-> ->]]; rewrite Z.log2_mul_pow2; nia. }
  assert (last_place p ew (e' + Z.log2 m') = e) as Htarget.
  { unfold last_place. fold emin. destruct (Z.lt_ge_cases m (2 ^ (p - 1))) as [Hlt|Hge].
    - rewrite (Hsub Hlt) in Hlog |- *. assert (Z.log2 m < p - 1) by (apply Z.log2_lt_pow2; lia). lia.
    - assert (Z.log2 m = p - 1) by (apply Z.log2_unique; [lia|];
        replace (Z.succ (p - 1)) with p by lia; lia). lia. }
  unfold round_finite. rewrite Htarget. cbv zeta.
  set (q := if e - e' <=? 0 then _ else _). set (r := if e - e' <=? 0 then _ else _).
  assert (q = m /\ r = 0) as [Hq Hr].
  { subst q r. destruct (Z.leb_spec (e - e') 0).
    - split; [|done]. destruct Hrep as [[-> ->]|[-> ->]].
      + assert (s = 0) as -> by lia. replace (- (e - (e - 0))) with 0 by lia. lia.
      + by replace (- (e - (e + s))) with s by lia.
    - destruct Hrep as [[-> ->]|[-> ->]]; [|lia]. replace (e - (e - s)) with s by lia.
      rewrite Z.div_mul, Z.mod_mul by lia. done. }
  rewrite Hq, Hr. unfold deliver.
  assert (round_up mode sign m 0 (2 ^ Z.max (e - e') 0) = false) as ->.
  { assert (0 < 2 ^ Z.max (e - e') 0) by lia. destruct mode; cbn [round_up]; try done.
    - destruct (Z.ltb_spec (2 ^ Z.max (e - e') 0) (2 * 0)); [lia|].
      by destruct (Z.eqb_spec (2 ^ Z.max (e - e') 0) (2 * 0)); [lia|].
    - by rewrite andb_false_r.
    - by rewrite andb_false_r. }
  destruct (Z.eqb_spec m (2 ^ p)); [lia|]. unfold encode_finite.
  destruct (Z.ltb_spec m (2 ^ (p - 1))); [done|].
  destruct (Z.leb_spec (2 ^ ew - 1) (e + (p - 1) + bias ew)); [lia | done].
Qed.
End formats.

(** *** Round trips *)

(** What a load and a store do to a bit pattern: a signalling NaN becomes quiet, any
    other value is kept. *)
Definition quieted (p ew bits : Z) : Z :=
  match decode p ew bits with
  | FNaN sign fraction => pack p ew sign (2 ^ ew - 1) (quiet p fraction)
  | _ => bits
  end.

Lemma quiet_range p f : 2 <= p -> 0 < f < 2 ^ (p - 1) -> 2 ^ (p - 2) <= quiet p f < 2 ^ (p - 1).
Proof.
  intros Hp Hf. unfold quiet. split.
  - apply Z.ldiff_le; [apply Z.lor_nonneg; lia|].
    apply Z.bits_inj'. intros n _. rewrite Z.ldiff_spec, Z.lor_spec, Z.bits_0.
    by destruct (Z.testbit (2 ^ (p - 2)) n), (Z.testbit f n).
  - apply (lor_in_width (p - 1)); unfold in_width; [lia | | lia].
    split; [lia | apply Z.pow_lt_mono_r; lia].
Qed.

(** *** Rounded values are never signalling NaNs *)

Lemma scale_lt n d a b a' b' :
  0 < d -> 0 <= a -> 0 <= b -> 0 <= a' -> 0 <= b' -> b - a <= b' - a' ->
  n * 2 ^ a < d * 2 ^ b -> n * 2 ^ a' < d * 2 ^ b'.
Proof.
  intros Hd Ha Hb Ha' Hb' Hle Hlt. apply (Z.mul_lt_mono_pos_r (2 ^ a)); [lia|].
  apply (Z.lt_le_trans _ (d * 2 ^ b * 2 ^ a')).
  - replace (n * 2 ^ a' * 2 ^ a) with (n * 2 ^ a * 2 ^ a') by ring.
    apply Z.mul_lt_mono_pos_r; [lia | done].
  - rewrite <- !Z.mul_assoc, <- !Z.pow_add_r by lia.
    apply Z.mul_le_mono_nonneg_l; [lia|]. apply Z.pow_le_mono_r; lia.
Qed.

Section rounded.
Context (p ew : Z).
Hypothesis Hp : 2 <= p.
Hypothesis Hew : 2 <= ew.

(** A bit pattern of the format that a load and a store keep. *)
Definition stable (bits : Z) : Prop := in_width (p + ew) bits /\ quieted p ew bits = bits.

Lemma pack_stable sign b f :
  0 <= b < 2 ^ ew -> 0 <= f < 2 ^ (p - 1) ->
  b <> 2 ^ ew - 1 \/ f = 0 \/ 2 ^ (p - 2) <= f -> stable (pack p ew sign b f).
Proof.
  intros Hb Hf Hnan. destruct (two_p p Hp) as [Hp2 Hp1]. assert (0 < 2 ^ ew) as Hew2 by lia. unfold stable. split.
  - unfold pack, sign_bit. replace (p + ew) with (1 + (p - 1) + ew) by lia.
    unfold in_width. rewrite !Z.pow_add_r by lia. destruct sign; simpl Z.b2z; nia.
  - unfold quieted. rewrite decode_pack by lia.
    destruct (Z.eqb_spec b (2 ^ ew - 1)) as [->|_].
    + destruct (Z.eqb_spec f 0) as [->|Hf0]; [done|]. f_equal.
      destruct Hnan as [Hn|[Hn|Hn]]; [lia | lia |].
      assert (f = (f - 2 ^ (p - 2)) + Z.b2z true * 2 ^ (p - 2)) as E by (simpl Z.b2z; lia).
      assert (Z.testbit f (p - 2) = true) as Ht.
      { rewrite E. apply testbit_top; [lia|]. split; [lia|].
        assert (2 ^ (p - 1) = 2 * 2 ^ (p - 2)); [|lia].
        rewrite <- Z.pow_succ_r by lia. f_equal; lia. }
      apply Z.bits_inj'. intros n Hn0. unfold quiet. rewrite Z.lor_spec, Z.pow2_bits_eqb by lia.
      destruct (Z.eqb_spec (p - 2) n) as [<-|_]; [by rewrite Ht | done].
    + destruct (b =? 0); [|done]. by destruct (f =? 0).
Qed.

Lemma deliver_stable mode sign target q r d :
  0 <= q < 2 ^ p -> 1 - bias ew - (p - 1) <= target -> stable (deliver p ew mode sign target q r d).
Proof.
  intros Hq Ht. destruct (two_p p Hp) as [Hp2 Hp1]. unfold deliver.
  assert (2 <= 2 ^ ew) by (change 2 with (2 ^ 1) at 1; apply Z.pow_le_mono_r; lia).
  assert (0 <= (if round_up mode sign q r d then q + 1 else q) <= 2 ^ p) as Hq'
    by (destruct (round_up mode sign q r d); lia).
  revert Hq'. generalize (if round_up mode sign q r d then q + 1 else q) as q'. intros q' Hq'.
  assert (forall q target, 0 <= q < 2 ^ p -> 1 - bias ew - (p - 1) <= target ->
    stable (if q <? 2 ^ (p - 1) then pack p ew sign 0 q
            else if 2 ^ ew - 1 <=? target + (p - 1) + bias ew then overflow p ew mode sign
                 else pack p ew sign (target + (p - 1) + bias ew) (q - 2 ^ (p - 1)))) as Hgen.
  { clear q q' target Hq Hq' Ht. intros q target Hq Ht.
    destruct (Z.ltb_spec q (2 ^ (p - 1))); [apply pack_stable; lia|].
    destruct (Z.leb_spec (2 ^ ew - 1) (target + (p - 1) + bias ew)); [|apply pack_stable; lia].
    unfold overflow. destruct (match mode with Nearest => _ | _ => _ end); apply pack_stable; lia. }
  destruct (Z.eqb_spec q' (2 ^ p)) as [->|Hne]; apply Hgen; try lia.
  rewrite Hp2, Z.mul_comm, Z.div_mul by lia. lia.
Qed.

Lemma round_ratio_stable mode sign n d :
  0 < n -> 0 < d -> stable (round_ratio p ew mode sign n d).
Proof.
  intros Hn Hd. unfold round_ratio. cbv zeta. set (k := Z.log2 n - Z.log2 d).
  set (top := if n * 2 ^ Z.max (- k) 0 <? d * 2 ^ Z.max k 0 then k - 1 else k).
  assert (forall a b, 0 <= a -> 0 <= b -> top + 1 <= b - a -> n * 2 ^ a < d * 2 ^ b) as Htop.
  { intros a b Ha Hb Hab. subst top.
    destruct (Z.ltb_spec (n * 2 ^ Z.max (- k) 0) (d * 2 ^ Z.max k 0)) as [Hlt|_].
    - apply (scale_lt n d (Z.max (- k) 0) (Z.max k 0)); lia || done.
    - pose proof (Z.log2_spec n Hn) as [_ Hn2]. pose proof (Z.log2_spec d Hd) as [Hd2 _].
      pose proof (Z.log2_nonneg n). pose proof (Z.log2_nonneg d).
      apply (scale_lt n d (Z.log2 d) (Z.succ (Z.log2 n))); try lia.
      assert (0 < 2 ^ Z.log2 d) by lia. nia. }
  apply deliver_stable; [|unfold last_place; lia].
  set (target := last_place p ew top) in *. assert (top + 1 - p <= target) by (unfold target, last_place; lia).
  assert (0 < d * 2 ^ Z.max target 0) by nia.
  split; [apply Z.div_pos; nia|]. apply Z.div_lt_upper_bound; [done|].
  rewrite <- Z.mul_assoc, <- Z.pow_add_r by lia. apply Htop; lia.
Qed.

Lemma round_finite_stable mode sign m e : 0 < m -> stable (round_finite p ew mode sign m e).
Proof.
  intros Hm. unfold round_finite. cbv zeta. set (target := last_place p ew (e + Z.log2 m)).
  assert (e + Z.log2 m + 1 - p <= target) by (unfold target, last_place; lia).
  apply deliver_stable; [|unfold target, last_place; lia].
  pose proof (Z.log2_spec m Hm) as [_ Hlog]. pose proof (Z.log2_nonneg m).
  destruct (Z.leb_spec (target - e) 0) as [Hs|Hs].
  - split; [nia|]. apply (Z.lt_le_trans _ (2 ^ Z.succ (Z.log2 m) * 2 ^ (- (target - e)))).
    + apply Z.mul_lt_mono_pos_r; [lia | done].
    + rewrite <- Z.pow_add_r by lia. apply Z.pow_le_mono_r; lia.
  - split; [apply Z.div_pos; lia|]. apply Z.div_lt_upper_bound; [lia|].
    eapply Z.lt_le_trans; [exact Hlog|]. rewrite <- Z.pow_add_r by lia. apply Z.pow_le_mono_r; lia.
Qed.
End rounded.

Lemma double_to_st80_well_formed d :
  length (double_to_st80 d) = 10%nat /\ Forall (in_width 8) (double_to_st80 d).
Proof. unfold double_to_st80. split_goal; apply st80_bytes_well_formed. Qed.

Lemma decode_spec_53 d : in_width 64 d ->
  match decode 53 11 d with
  | FZero sign => d = sign_bit 53 11 sign
  | FInfinity sign => d = pack 53 11 sign 2047 0
  | FNaN sign f => d = pack 53 11 sign 2047 f /\ 0 < f < 2 ^ 52
  | FFinite sign m e => canonical 53 11 m e /\ d = encode_finite 53 11 sign m e
  end.
Proof. intros Hd. apply (decode_spec 53 11); [lia | lia | exact Hd]. Qed.

Lemma decode_spec_24 f : in_width 32 f ->
  match decode 24 8 f with
  | FZero sign => f = sign_bit 24 8 sign
  | FInfinity sign => f = pack 24 8 sign 255 0
  | FNaN sign x => f = pack 24 8 sign 255 x /\ 0 < x < 2 ^ 23
  | FFinite sign m e => canonical 24 8 m e /\ f = encode_finite 24 8 sign m e
  end.
Proof. intros Hf. apply (decode_spec 24 8); [lia | lia | exact Hf]. Qed.

Lemma double_of_float_stable f : in_width 32 f -> stable 53 11 (double_of_float f).
Proof.
  intros Hf. pose proof (decode_spec_24 f Hf) as Hspec. unfold double_of_float.
  destruct (decode 24 8 f) as [s|s|s x|s m e].
  - assert (sign_bit 53 11 s = pack 53 11 s 0 0) as -> by (unfold pack; lia). apply pack_stable; lia.
  - apply pack_stable; lia.
  - destruct Hspec as [_ Hx]. pose proof (quiet_range 24 x ltac:(lia) Hx) as Hq.
    apply pack_stable; lia.
  - destruct Hspec as [[[Hm _] _] _]. apply round_finite_stable; lia.
Qed.

(** A canonical mantissa in the 64 bits of a register, its top bit set. *)
Lemma register_mantissa p m :
  0 < m -> 2 ^ Z.log2 m <= m < 2 ^ p -> 0 <= p <= 64 ->
  2 ^ 63 <= m * 2 ^ (63 - Z.log2 m) < 2 ^ 64 /\ 0 <= Z.log2 m < p.
Proof.
  intros Hm Hlog Hp. assert (0 <= Z.log2 m < p) as Hl.
  { split; [apply Z.log2_nonneg | apply Z.log2_lt_pow2; lia]. }
  split; [|done]. pose proof (Z.log2_spec m Hm) as [H1 H2].
  assert (2 ^ 63 = 2 ^ Z.log2 m * 2 ^ (63 - Z.log2 m)) as ->
    by (rewrite <- Z.pow_add_r by lia; f_equal; lia).
  assert (2 ^ 64 = 2 ^ Z.succ (Z.log2 m) * 2 ^ (63 - Z.log2 m)) as ->
    by (rewrite <- Z.pow_add_r by lia; f_equal; lia).
  assert (0 < 2 ^ (63 - Z.log2 m)) by lia. nia.
Qed.

Lemma top_bit_set x : 2 ^ 63 <= x < 2 ^ 64 -> Z.testbit x 63 = true.
Proof.
  intros Hx. replace x with ((x - 2 ^ 63) + Z.b2z true * 2 ^ 63) by (simpl Z.b2z; lia).
  apply testbit_top; lia.
Qed.

(** The fields of a register that holds a number. *)
Lemma st80_to_format_bytes p ew sign exponent mantissa cw :
  0 < exponent < 2 ^ 15 -> 2 ^ 63 <= mantissa < 2 ^ 64 ->
  st80_to_format p ew (st80_bytes sign exponent mantissa) cw =
    if exponent =? 0x7FFF then
      if mantissa =? 2 ^ 63 then pack p ew sign (2 ^ ew - 1) 0
      else pack p ew sign (2 ^ ew - 1) (quiet p ((mantissa - 2 ^ 63) / 2 ^ (64 - p)))
    else round_finite p ew (rounding_of_control_word cw) sign mantissa (exponent - 16383 - 63).
Proof.
  intros He Hm. unfold st80_to_format.
  rewrite st80_sign_bytes, st80_exponent_bytes, st80_mantissa_bytes, top_bit_set by lia.
  by destruct (Z.eqb_spec exponent 0); [lia|].
Qed.

Lemma st80_double_quieted d cw :
  in_width 64 d -> st80_to_double (double_to_st80 d) cw = quieted 53 11 d.
Proof.
  intros Hd. pose proof (decode_spec_53 d Hd) as Hspec.
  unfold quieted, double_to_st80, st80_to_double. destruct (decode 53 11 d) as [s|s|s f|s m e].
  - rewrite Hspec. by destruct s.
  - rewrite st80_to_format_bytes, Hspec by lia. done.
  - destruct Hspec as [-> Hf]. pose proof (quiet_range 53 f ltac:(lia) Hf) as Hq.
    rewrite st80_to_format_bytes by (change (2 ^ (53 - 1)) with (2 ^ 52) in Hq; lia).
    change (0x7FFF =? 0x7FFF) with true. cbv iota.
    change (2 ^ (53 - 2)) with (2 ^ 51) in Hq. change (2 ^ (53 - 1)) with (2 ^ 52) in Hq.
    destruct (Z.eqb_spec (2 ^ 63 + quiet 53 f * 2 ^ 11) (2 ^ 63)); [lia|].
    rewrite Z.add_simpl_l. change (64 - 53) with 11. rewrite Z.div_mul by lia.
    unfold quiet. by rewrite Z.lor_assoc, Z.lor_diag.
  - destruct Hspec as [Hc ->]. pose proof Hc as ((Hm0 & Hm) & He & Hsub & Hnorm).
    pose proof (Z.log2_spec m Hm0) as [Hl1 Hl2].
    destruct (register_mantissa 53 m) as [Hreg Hl]; [lia..|].
    unfold emin, bias in *. cbn in He, Hsub, Hnorm.
    assert (e <= 971) by lia.
    rewrite st80_to_format_bytes by lia.
    destruct (Z.eqb_spec (e + Z.log2 m + 16383) 0x7FFF); [lia|].
    apply (round_canonical 53 11) with (s := 63 - Z.log2 m); [lia | lia | done | lia | left; split; [done | lia]].
Qed.

Lemma decode_encode_53 sign m e :
  canonical 53 11 m e -> 2 ^ 52 <= m -> decode 53 11 (encode_finite 53 11 sign m e) = FFinite sign m e.
Proof.
  intros ((Hm0 & Hm) & He & Hsub & Hnorm) Hn. unfold encode_finite, emin, bias in *.
  cbn in He, Hnorm. change (2 ^ (53 - 1)) with (2 ^ 52) in *.
  destruct (Z.ltb_spec m (2 ^ 52)); [lia|].
  change (2 ^ (11 - 1) - 1) with 1023 in *.
  rewrite (decode_pack 53 11) by lia. unfold bias. change (2 ^ (11 - 1) - 1) with 1023.
  change (2 ^ (53 - 1)) with (2 ^ 52).
  destruct (Z.eqb_spec (e + (53 - 1) + 1023) (2 ^ 11 - 1)); [lia|].
  destruct (Z.eqb_spec (e + (53 - 1) + 1023) 0); [lia|]. f_equal; lia.
Qed.

Lemma float_double_quieted f :
  in_width 32 f -> float_of_double (double_of_float f) = quieted 24 8 f.
Proof.
  intros Hf. pose proof (decode_spec_24 f Hf) as Hspec.
  unfold quieted, double_of_float, float_of_double. destruct (decode 24 8 f) as [s|s|s x|s m e].
  - rewrite Hspec. by destruct s.
  - rewrite Hspec. by destruct s.
  - destruct Hspec as [-> Hx]. pose proof (quiet_range 24 x ltac:(lia) Hx) as Hq.
    change (2 ^ (24 - 2)) with (2 ^ 22) in Hq. change (2 ^ (24 - 1)) with (2 ^ 23) in Hq.
    rewrite (decode_pack 53 11) by lia. change (2 ^ 11 - 1 =? 2 ^ 11 - 1) with true. cbv iota.
    destruct (Z.eqb_spec (quiet 24 x * 2 ^ 29) 0); [lia|]. rewrite Z.div_mul by lia.
    unfold quiet. by rewrite Z.lor_assoc, Z.lor_diag.
  - destruct Hspec as [Hc ->]. pose proof Hc as ((Hm0 & Hm) & He & Hsub & Hnorm).
    pose proof (Z.log2_spec m Hm0) as [Hl1 Hl2].
    assert (0 <= Z.log2 m < 24) as Hl by (split; [apply Z.log2_nonneg | apply Z.log2_lt_pow2; lia]).
    assert (2 ^ 52 <= m * 2 ^ (52 - Z.log2 m) < 2 ^ 53) as Hbig.
    { replace (2 ^ 52) with (2 ^ Z.log2 m * 2 ^ (52 - Z.log2 m))
        by (rewrite <- Z.pow_add_r by lia; f_equal; lia).
      replace (2 ^ 53) with (2 ^ Z.succ (Z.log2 m) * 2 ^ (52 - Z.log2 m))
        by (rewrite <- Z.pow_add_r by lia; f_equal; lia).
      assert (0 < 2 ^ (52 - Z.log2 m)) by lia. nia. }
    unfold emin, bias in He, Hsub, Hnorm. cbn in He, Hsub, Hnorm.
    assert (canonical 53 11 (m * 2 ^ (52 - Z.log2 m)) (e - (52 - Z.log2 m))) as Hcd.
    { unfold canonical, emin, bias. cbn. lia. }
    rewrite (round_canonical 53 11 ltac:(lia) ltac:(lia) _ _ _ _ _ _ (52 - Z.log2 m) Hcd)
      by (lia || (right; split; [done | lia])).
    rewrite decode_encode_53 by (done || lia).
    apply (round_canonical 24 8) with (s := 52 - Z.log2 m); [lia | lia | done | lia | left; done].
Qed.

(** ** Areas of bytes *)

Lemma lookup_bytes_at l o n k : bytes_at l o n !! k = if bool_decide (k < n)%nat then l !! (o + k)%nat else None.
Proof.
  unfold bytes_at. case_bool_decide.
  - by rewrite lookup_take_lt, lookup_drop by lia.
  - by rewrite lookup_take_ge by lia.
Qed.

Section splices.
Context (area : list Z) (offset : nat) (bytes : list Z).
Hypothesis Hfit : (offset + length bytes <= length area)%nat.

Lemma length_splice : length (splice area offset bytes) = length area.
Proof. unfold splice. rewrite !length_app, length_take, length_drop. lia. Qed.

Lemma lookup_splice k :
  splice area offset bytes !! k =
    if bool_decide (offset <= k < offset + length bytes)%nat then bytes !! (k - offset)%nat else area !! k.
Proof.
  unfold splice. assert (length (take offset area) = offset) as Hl by (rewrite length_take; lia).
  destruct (Nat.lt_ge_cases k offset) as [Hk|Hk].
  - rewrite lookup_app_l by lia. rewrite lookup_take_lt, bool_decide_false by lia. done.
  - rewrite lookup_app_r by lia. rewrite Hl. case_bool_decide as Hr.
    + by rewrite lookup_app_l by lia.
    + rewrite lookup_app_r by lia. rewrite lookup_drop. f_equal. lia.
Qed.

Lemma bytes_at_splice_ne o n :
  (o + n <= offset \/ offset + length bytes <= o)%nat ->
  bytes_at (splice area offset bytes) o n = bytes_at area o n.
Proof.
  intros Hd. apply list_eq. intros k. rewrite !lookup_bytes_at. case_bool_decide; [|done].
  rewrite lookup_splice, bool_decide_false by lia. done.
Qed.

Lemma bytes_at_splice_eq o n :
  (o + n <= length bytes)%nat -> bytes_at (splice area offset bytes) (offset + o) n = bytes_at bytes o n.
Proof.
  intros Hd. apply list_eq. intros k. rewrite !lookup_bytes_at. case_bool_decide; [|done].
  rewrite lookup_splice, bool_decide_true by lia. f_equal. lia.
Qed.
End splices.

Lemma bytes_at_all l : bytes_at l 0 (length l) = l.
Proof. unfold bytes_at. rewrite drop_0. apply firstn_all. Qed.

Lemma le_value_le_bytes_64 v : in_width 64 v -> le_value (le_bytes 8 v) = v.
Proof. intros Hv. rewrite le_value_bytes. by apply Z.mod_small. Qed.

(** ** Properties *)

(** C25. A double stored to an 80-bit register and read back is the double it was,
    whatever the rounding mode of the control word: only a signalling NaN changes,
    to the quiet NaN of the same payload. *)
Theorem st80_double_round_trip d cw :
  in_width 64 d -> st80_to_double (double_to_st80 d) cw = quieted 53 11 d.
Proof. apply st80_double_quieted. Qed.

Lemma st80_double_round_trip_witness :
  in_width 64 0x7FF0000000000001 /\
  st80_to_double (double_to_st80 0x7FF0000000000001) 0x0F7F = 0x7FF8000000000001.
Proof.
  split; [vm_compute; split; [discriminate | reflexivity]|].
  rewrite (st80_double_round_trip 0x7FF0000000000001 0x0F7F);
    [vm_compute; reflexivity | vm_compute; split; [discriminate | reflexivity]].
Defined.

(** A float survives the conversion to a double and back: only a signalling NaN
    changes, to the quiet NaN of the same payload. *)
Theorem float_double_round_trip f :
  in_width 32 f -> float_of_double (double_of_float f) = quieted 24 8 f.
Proof. apply float_double_quieted. Qed.

Lemma float_double_round_trip_witness :
  in_width 32 1 /\ float_of_double (double_of_float 1) = 1.
Proof.
  split; [vm_compute; split; [discriminate | reflexivity]|].
  rewrite (float_double_round_trip 1);
    [vm_compute; reflexivity | vm_compute; split; [discriminate | reflexivity]].
Defined.
