(* ===== verification/FloatText.v ===== *)
(** * FloatText: [std::from_chars] on [float] and [double], the general format.

    A value is a bit pattern ([X87]).  A number is converted exactly to a quotient of
    integers, which is rounded once to the nearest value of the format. *)

From S2P Require Import Prelude Text X87.

Local Open Scope Z_scope.

(** The remainder of [s] after a word, letter case ignored. *)
Definition after_word (word s : str) : option str :=
  if ascii_case_insensitive_equal (take (length word) s) word
  then Some (drop (length word) s) else None.

(** [inf], [infinity], [nan] or [nan(...)]: the bits and the remainder. *)
Definition nan_word_char (c : ascii) : bool :=
  let z := code c in
  ((48 <=? z) && (z <=? 57)) || ((65 <=? z) && (z <=? 90)) || ((97 <=? z) && (z <=? 122)) || (z =? 95).

Definition after_nan (s : str) : str :=
  match s with
  | "("%char :: t =>
    let '(_, r) := span nan_word_char t in
    match r with ")"%char :: r => r | _ => s end
  | _ => s
  end.

Definition infinity_bits (p ew : Z) (sign : bool) : Z := pack p ew sign (2 ^ ew - 1) 0.
Definition quiet_nan_bits (p ew : Z) (sign : bool) : Z := pack p ew sign (2 ^ ew - 1) (2 ^ (p - 2)).

Definition special_from_chars (p ew : Z) (sign : bool) (s : str) : option (Z * str) :=
  match after_word "infinity" s with
  | Some r => Some (infinity_bits p ew sign, r)
  | None =>
    match after_word "inf" s with
    | Some r => Some (infinity_bits p ew sign, r)
    | None =>
      match after_word "nan" s with
      | Some r => Some (quiet_nan_bits p ew sign, after_nan r)
      | None => None
      end
    end
  end.

(** The exponent part: it is read only when a digit follows its marker and sign. *)
Definition exponent_sign (s : str) : bool * str :=
  match s with
  | "+"%char :: t => (false, t)
  | "-"%char :: t => (true, t)
  | _ => (false, s)
  end.

Definition scan_exponent (s : str) : Z * str :=
  match s with
  | e :: t =>
    if bool_decide (lowercase e = "e"%char) then
      let '(negative, t) := exponent_sign t in
      let '(digits, r) := span (is_digit 10) t in
      match digits with
      | [] => (0, s)
      | _ => let v := digits_value 10 digits in ((if negative then - v else v), r)
      end
    else (0, s)
  | [] => (0, s)
  end.

Definition scan_fraction (s : str) : str * str :=
  match s with
  | "."%char :: t => span (is_digit 10) t
  | _ => ([], s)
  end.

(** [mantissa * 10 ^ exponent] in the format; a value that rounds to zero or to an
    infinity does not fit. *)
Definition round_decimal (p ew : Z) (sign : bool) (mantissa exponent : Z) : option Z :=
  if mantissa =? 0 then Some (sign_bit p ew sign)
  else
    let bits := round_ratio p ew Nearest sign
                  (mantissa * 10 ^ Z.max exponent 0) (10 ^ Z.max (- exponent) 0) in
    if (bits =? sign_bit p ew sign) || (bits =? infinity_bits p ew sign) then None else Some bits.

Definition float_from_chars (p ew : Z) (s : str) (init : Z) : errc * str * Z :=
  let '(sign, t) := match s with "-"%char :: t => (true, t) | _ => (false, s) end in
  let '(integer, t1) := span (is_digit 10) t in
  let '(fraction, t2) := scan_fraction t1 in
  match integer ++ fraction with
  | [] =>
    match special_from_chars p ew sign t with
    | Some (bits, r) => (errc_none, r, bits)
    | None => (invalid_argument, s, init)
    end
  | digits =>
    let '(exponent, r) := scan_exponent t2 in
    match round_decimal p ew sign (digits_value 10 digits) (exponent - Z.of_nat (length fraction)) with
    | Some bits => (errc_none, r, bits)
    | None => (result_out_of_range, r, init)
    end
  end.

Definition float_from_chars_all (p ew : Z) (s : str) : option Z :=
  match float_from_chars p ew s 0 with
  | (errc_none, [], bits) => Some bits
  | _ => None
  end.

Example from_chars_0_1 : float_from_chars_all 53 11 "0.1" = Some 0x3FB999999999999A.
Proof. vm_compute. reflexivity. Qed.

Example from_chars_exponent : float_from_chars_all 24 8 "-1.5e-3" = Some 0xBAC49BA6.
Proof. vm_compute. reflexivity. Qed.

Example from_chars_min : float_from_chars_all 53 11 "4.9406564584124654e-324" = Some 1.
Proof. vm_compute. reflexivity. Qed.

Example from_chars_range : float_from_chars_all 24 8 "3.5e38" = None.
Proof. vm_compute. reflexivity. Qed.

(** ** Lemmas *)

Lemma is_digit_10_dot : is_digit 10 "."%char = false.
Proof. reflexivity. Qed.

(** An exponent part and its value. *)
Inductive exponent_text : str -> Z -> Prop :=
| exponent_none : exponent_text [] 0
| exponent_digits e mark negative ds :
    lowercase e = "e"%char -> In (mark, negative) [([], false); (["+"%char], false); (["-"%char], true)] ->
    ds <> [] -> Forall (fun c => is_digit 10 c = true) ds ->
    exponent_text (e :: mark ++ ds) (if negative then - digits_value 10 ds else digits_value 10 ds).

Lemma digit_not_mark c : is_digit 10 c = true -> c <> "+"%char /\ c <> "-"%char.
Proof. intros H. by split; intros ->. Qed.

Lemma exponent_head ex v : exponent_text ex v -> match ex with [] => True | c :: _ => is_digit 10 c = false /\ c <> "."%char end.
Proof.
  intros [|e mark negative ds He _ _ _]; [done|]. split; [|by intros ->].
  assert (implb (bool_decide (lowercase e = "e"%char)) (negb (is_digit 10 e)) = true) as H by all_chars e.
  rewrite bool_decide_true in H by done. by apply negb_true_iff.
Qed.

Lemma scan_exponent_text ex v : exponent_text ex v -> scan_exponent ex = (v, []).
Proof.
  intros [|e mark negative ds He Hm Hne Hd]; [done|]. cbn [scan_exponent]. rewrite bool_decide_true by done.
  assert (exponent_sign (mark ++ ds) = (negative, ds)) as ->.
  { destruct Hm as [[= <- <-] | [[= <- <-] | [[= <- <-] | []]]]; [|done|done]. destruct ds as [|c ds]; [done|].
    inversion Hd as [|? ? Hc _]; subst. destruct (digit_not_mark c Hc). cbn [app]. unfold exponent_sign.
    repeat split_goal; congruence. }
  rewrite span_all_id by done. by destruct ds.
Qed.

(** A fraction part: nothing, or a point and digits. *)
Definition fraction_text (fraction : option str) : str :=
  match fraction with Some fp => "."%char :: fp | None => [] end.

(** A decimal number: [ip], [ip.fp], with or without an exponent. *)
Lemma float_from_chars_number p ew (sign : bool) ip fraction ex v :
  ip <> [] -> Forall (fun c => is_digit 10 c = true) ip -> Forall (fun c => is_digit 10 c = true) (default [] fraction) ->
  exponent_text ex v ->
  float_from_chars_all p ew ((if sign then ["-"%char] else []) ++ ip ++ fraction_text fraction ++ ex)
  = round_decimal p ew sign (digits_value 10 (ip ++ default [] fraction)) (v - Z.of_nat (length (default [] fraction))).
Proof.
  intros Hne Hip Hfp Hex. unfold float_from_chars_all, float_from_chars.
  set (rest := fraction_text fraction ++ ex).
  assert (match (if sign then ["-"%char] else []) ++ ip ++ rest with
          | "-"%char :: t => (true, t)
          | _ => (false, (if sign then ["-"%char] else []) ++ ip ++ rest) end
          = (sign, ip ++ rest)) as ->.
  { destruct sign; [done|]. destruct ip as [|c ip]; [done|]. inversion Hip as [|? ? Hc _]; subst.
    simpl. repeat split_goal; try done. all: subst; discriminate Hc. }
  pose proof (exponent_head _ _ Hex) as Hhead. subst rest.
  rewrite span_app_all by (done || (destruct fraction; [done|]; destruct ex; [done|]; by destruct Hhead)).
  assert (scan_fraction (fraction_text fraction ++ ex) = (default [] fraction, ex)) as ->.
  { destruct fraction as [fp|]; cbn [fraction_text app scan_fraction default].
    - apply span_app_all; [done|]. destruct ex; [done|]. by destruct Hhead.
    - destruct ex as [|c ex]; [done|]. destruct Hhead as [_ Hc]. unfold scan_fraction. repeat split_goal; congruence. }
  rewrite (scan_exponent_text _ _ Hex).
  destruct (ip ++ default [] fraction) as [|c t] eqn:E; [by destruct ip|].
  by destruct (round_decimal _ _ _ _ _).
Qed.

(** *** The same quotient *)

(** The exponent of the leading bit of a quotient, as [round_ratio] computes it. *)
Definition ratio_top (n d : Z) : Z :=
  let k := Z.log2 n - Z.log2 d in
  if n * 2 ^ Z.max (- k) 0 <? d * 2 ^ Z.max k 0 then k - 1 else k.

Lemma ratio_top_below n d a b :
  0 < n -> 0 < d -> 0 <= a -> 0 <= b -> b - a <= ratio_top n d -> d * 2 ^ b <= n * 2 ^ a.
Proof.
  intros Hn Hd Ha Hb Hab. unfold ratio_top in Hab. cbv zeta in Hab. set (k := Z.log2 n - Z.log2 d) in *.
  destruct (Z.ltb_spec (n * 2 ^ Z.max (- k) 0) (d * 2 ^ Z.max k 0)) as [_|Hge].
  - pose proof (Z.log2_spec n Hn) as [Hn1 _]. pose proof (Z.log2_spec d Hd) as [_ Hd2].
    pose proof (Z.log2_nonneg n). pose proof (Z.log2_nonneg d).
    apply Z.le_trans with (2 ^ Z.succ (Z.log2 d) * 2 ^ b); [apply Z.mul_le_mono_nonneg_r; lia|].
    apply Z.le_trans with (2 ^ Z.log2 n * 2 ^ a); [|apply Z.mul_le_mono_nonneg_r; lia].
    rewrite <- !Z.pow_add_r by lia. apply Z.pow_le_mono_r; lia.
  - apply Z.nlt_ge. intros Hlt. apply Z.nlt_ge in Hge. apply Hge. apply (scale_lt n d a b); lia || done.
Qed.

Lemma ratio_top_above n d a b :
  0 < n -> 0 < d -> 0 <= a -> 0 <= b -> ratio_top n d < b - a -> n * 2 ^ a < d * 2 ^ b.
Proof.
  intros Hn Hd Ha Hb Hab. unfold ratio_top in Hab. cbv zeta in Hab. set (k := Z.log2 n - Z.log2 d) in *.
  destruct (Z.ltb_spec (n * 2 ^ Z.max (- k) 0) (d * 2 ^ Z.max k 0)) as [Hlt|_].
  - apply (scale_lt n d (Z.max (- k) 0) (Z.max k 0)); lia || done.
  - pose proof (Z.log2_spec n Hn) as [_ Hn2]. pose proof (Z.log2_spec d Hd) as [Hd2 _].
    pose proof (Z.log2_nonneg n). pose proof (Z.log2_nonneg d).
    apply (scale_lt n d (Z.log2 d) (Z.succ (Z.log2 n))); try lia. assert (0 < 2 ^ Z.log2 d) by lia. nia.
Qed.

Lemma ratio_top_scale n d c : 0 < n -> 0 < d -> 0 < c -> ratio_top (c * n) (c * d) = ratio_top n d.
Proof.
  intros Hn Hd Hc. set (t := ratio_top n d). set (t' := ratio_top (c * n) (c * d)).
  assert (0 < c * n /\ 0 < c * d) as [Hcn Hcd] by nia.
  destruct (Z.lt_trichotomy t' t) as [Hlt|[E|Hgt]]; [|done|]; exfalso.
  - pose proof (ratio_top_above (c * n) (c * d) (Z.max (- t) 0) (Z.max t 0) Hcn Hcd ltac:(lia) ltac:(lia) ltac:(fold t'; lia)).
    pose proof (ratio_top_below n d (Z.max (- t) 0) (Z.max t 0) Hn Hd ltac:(lia) ltac:(lia) ltac:(fold t; lia)). nia.
  - pose proof (ratio_top_below (c * n) (c * d) (Z.max (- t') 0) (Z.max t' 0) Hcn Hcd ltac:(lia) ltac:(lia) ltac:(fold t'; lia)).
    pose proof (ratio_top_above n d (Z.max (- t') 0) (Z.max t' 0) Hn Hd ltac:(lia) ltac:(lia) ltac:(fold t; lia)). nia.
Qed.

Lemma ltb_scale c x y : 0 < c -> (c * x <? c * y) = (x <? y).
Proof. intros Hc. apply eq_true_iff_eq. rewrite !Z.ltb_lt. nia. Qed.

Lemma eqb_scale c x y : 0 < c -> (c * x =? c * y) = (x =? y).
Proof. intros Hc. apply eq_true_iff_eq. rewrite !Z.eqb_eq. nia. Qed.

(** Rounding a quotient does not depend on how it is written. *)
Lemma round_ratio_scale p ew mode sign n d c :
  0 < n -> 0 < d -> 0 < c -> round_ratio p ew mode sign (c * n) (c * d) = round_ratio p ew mode sign n d.
Proof.
  intros Hn Hd Hc. unfold round_ratio. cbv zeta. fold (ratio_top n d) (ratio_top (c * n) (c * d)).
  rewrite ratio_top_scale by done. set (target := last_place p ew (ratio_top n d)).
  rewrite <- !Z.mul_assoc. set (N := n * 2 ^ Z.max (- target) 0). set (D := d * 2 ^ Z.max target 0).
  assert (0 < D) by (unfold D; nia).
  rewrite Z.div_mul_cancel_l, Z.mul_mod_distr_l by lia. unfold deliver. f_equal.
  assert (forall q, round_up mode sign q (c * (N mod D)) (c * D) = round_up mode sign q (N mod D) D) as ->; [|done].
  intros q. unfold round_up. rewrite Z.mul_shuffle3, ltb_scale, eqb_scale by done.
  assert (forall x, (0 <? c * x) = (0 <? x)) as ->; [|done]. intros x. by rewrite <- (Z.mul_0_r c) at 1; rewrite ltb_scale.
Qed.

(** One more digit and one less in the exponent. *)
Lemma round_decimal_ten p ew sign m e : 0 <= m -> round_decimal p ew sign (m * 10) (e - 1) = round_decimal p ew sign m e.
Proof.
  intros Hm. unfold round_decimal. destruct (Z.eqb_spec m 0) as [->|Hm0]; [done|].
  rewrite (proj2 (Z.eqb_neq (m * 10) 0)) by lia.
  assert (round_ratio p ew Nearest sign (m * 10 * 10 ^ Z.max (e - 1) 0) (10 ^ Z.max (- (e - 1)) 0)
    = round_ratio p ew Nearest sign (m * 10 ^ Z.max e 0) (10 ^ Z.max (- e) 0)) as ->; [|done].
  destruct (Z.le_gt_cases e 0).
  - rewrite (Z.max_r (e - 1)), (Z.max_r e), !Z.max_l by lia. change (10 ^ 0) with 1. rewrite !Z.mul_1_r.
    replace (- (e - 1)) with (Z.succ (- e)) by lia. rewrite Z.pow_succ_r, (Z.mul_comm m) by lia.
    apply round_ratio_scale; lia.
  - rewrite (Z.max_l (e - 1)), (Z.max_l e), !Z.max_r by lia. f_equal.
    rewrite <- Z.mul_assoc, <- Z.pow_succ_r by lia. do 2 f_equal. lia.
Qed.

(** What is read is never a signalling NaN. *)
Lemma round_decimal_stable p ew sign mantissa exponent bits :
  2 <= p -> 2 <= ew -> 0 <= mantissa ->
  round_decimal p ew sign mantissa exponent = Some bits -> stable p ew bits.
Proof.
  intros Hp Hew Hm H. unfold round_decimal in H.
  assert (1 < 2 ^ ew) by (change 1 with (2 ^ 0) at 1; apply Z.pow_lt_mono_r; lia).
  assert (0 < 2 ^ (p - 1)) by lia.
  destruct (Z.eqb_spec mantissa 0); [injection H as <-|].
  - assert (sign_bit p ew sign = pack p ew sign 0 0) as -> by (unfold pack; lia).
    apply pack_stable; lia.
  - destruct ((_ =? sign_bit p ew sign) || _); [done|]. injection H as <-.
    apply round_ratio_stable; try lia.
Qed.

Lemma special_stable p ew sign s bits r :
  2 <= p -> 2 <= ew -> special_from_chars p ew sign s = Some (bits, r) -> stable p ew bits.
Proof.
  intros Hp Hew H. unfold special_from_chars in H.
  assert (1 < 2 ^ ew) by (change 1 with (2 ^ 0) at 1; apply Z.pow_lt_mono_r; lia).
  assert (2 ^ (p - 2) < 2 ^ (p - 1)) by (apply Z.pow_lt_mono_r; lia).
  assert (0 < 2 ^ (p - 2)) by lia.
  assert (stable p ew (infinity_bits p ew sign)) by (apply pack_stable; lia).
  assert (stable p ew (quiet_nan_bits p ew sign)) by (apply pack_stable; lia).
  repeat split_in H; by injection H as <- _.
Qed.

Lemma float_from_chars_stable p ew s bits :
  2 <= p -> 2 <= ew -> float_from_chars_all p ew s = Some bits -> stable p ew bits.
Proof.
  intros Hp Hew H. unfold float_from_chars_all, float_from_chars in H.
  destruct (match s with "-"%char :: t => (true, t) | _ => (false, s) end) as [sign t].
  destruct (span (is_digit 10) t) as [integer t1]. destruct (scan_fraction t1) as [fraction t2].
  destruct (integer ++ fraction) as [|c digits] eqn:E.
  - destruct (special_from_chars p ew sign t) as [[b r]|] eqn:Es; [|done].
    destruct r; [|done]. injection H as <-. by eapply special_stable.
  - rewrite <- E in H. destruct (scan_exponent t2) as [exponent r].
    destruct (round_decimal _ _ _ _ _) as [b|] eqn:Er; [|done]. destruct r; [|done]. injection H as <-.
    eapply round_decimal_stable; [done | done | | exact Er].
    by apply digits_value_bound.
Qed.
