(* ===== verification/Seed.v ===== *)
(** * Seed: the text of a register seed and its value ([src/src/bme_core.cpp],
    [parse_seed] to [compose_st_seed], [compose_gpr_seed] and [compose_seed]). *)

From S2P Require Import Prelude Text Core X87 FloatText.

Local Open Scope Z_scope.

(** ** Hexadecimal seeds *)

Definition has_hex_prefix (seed : str) : bool :=
  match seed with
  | "0"%char :: c :: _ => bool_decide (c = "x"%char) || bool_decide (c = "X"%char)
  | _ => false
  end.

(** [offset = seed.size() >= 2 && seed[0] == '0' && (seed[1] == 'x' || seed[1] == 'X') ? 2 : 0]. *)
Definition hex_offset (seed : str) : nat := if has_hex_prefix seed then 2 else 0.

Record DecimalSeed : Type := {
  value : Z;                    (* the bits of a [double] *)
  is_single : bool;
}.

#[export] Instance DecimalSeed_eq_dec : EqDecision DecimalSeed.
Proof. solve_decision. Defined.

Section seeds.
Context {fmt : Fmt}.

Definition parse_seed (seed : str) : Result Z str :=
  match seed with
  | [] => Ok 0
  | _ =>
    match from_chars_all 16 64 (drop (hex_offset seed) seed) with
    | Some result => Ok result
    | None => Error (format "Invalid hex value {:?}" [AStr seed])
    end
  end.

Definition parse_mxcsr_seed (text : str) : Result Z str :=
  let failure := Error (format "Invalid MXCSR seed {:?} (expected defined bits 0 through 15)." [AStr text]) in
  match parse_seed text with
  | Ok value => if MXCSR_DEFINED_MASK <? value then failure else Ok (u32 value)
  | Error _ => failure
  end.

Definition parse_fpu_control_word_seed (text : str) : Result Z str :=
  let failure := Error (format "Invalid control_word seed {:?} (expected up to 4 hexadecimal digits)." [AStr text]) in
  match parse_seed text with
  | Ok value => if 0xFFFF <? value then failure else Ok (u16 value)
  | Error _ => failure
  end.

(** ** Decimal seeds *)

Definition is_sign (c : ascii) : bool := bool_decide (c = "+"%char) || bool_decide (c = "-"%char).

Definition is_infinity_word (magnitude : str) : bool :=
  ascii_case_insensitive_equal magnitude "inf" || ascii_case_insensitive_equal magnitude "infinity".

Definition is_nan_word (magnitude : str) : bool := ascii_case_insensitive_equal magnitude "nan".

Definition ends_with (a b : ascii) (text : str) : bool :=
  match last text with
  | Some c => bool_decide (c = a) || bool_decide (c = b)
  | None => false
  end.

(** The sign and the magnitude of a text. *)
Definition split_sign (text : str) : bool * str :=
  match text with
  | c :: t => if is_sign c then (bool_decide (c = "-"%char), t) else (false, text)
  | [] => (false, [])
  end.

(** The precision suffix is dropped: is the text single precision, and what is left. *)
Definition split_suffix (text : str) : bool * str :=
  let original_magnitude := (split_sign text).2 in
  let infinity_without_suffix := is_infinity_word original_magnitude in
  if negb infinity_without_suffix && ends_with "f" "F" text then (true, removelast text)
  else if ends_with "l" "L" text then (false, removelast text)
  else (false, text).

Definition infinity_of (is_single : bool) : Z :=
  if is_single then double_of_float (infinity_bits 24 8 false) else infinity_bits 53 11 false.

Definition nan_of (is_single : bool) : Z :=
  if is_single then double_of_float (quiet_nan_bits 24 8 false) else quiet_nan_bits 53 11 false.

(** [-x] when [negative], and [std::copysign(x, negative ? -1.0 : 1.0)], on a [double]
    with a clear sign. *)
Definition with_sign (negative : bool) (x : Z) : Z := if negative then Z.lor x (2 ^ 63) else x.

Definition parse_decimal_seed (text label : str) : Result DecimalSeed str :=
  let original_text := text in
  let '(is_single, text) := split_suffix text in
  let '(negative, magnitude) := split_sign text in
  let failure :=
    Error (format "Invalid {} seed {:?} (expected hex or a decimal value)." [AStr label; AStr original_text]) in
  if is_infinity_word magnitude then
    Ok {| value := with_sign negative (infinity_of is_single); is_single := is_single |}
  else if is_nan_word magnitude then
    Ok {| value := with_sign negative (nan_of is_single); is_single := is_single |}
  else if is_single then
    match float_from_chars_all 24 8 text with
    | Some parsed => Ok {| value := double_of_float parsed; is_single := true |}
    | None => failure
    end
  else
    match float_from_chars_all 53 11 text with
    | Some parsed => Ok {| value := parsed; is_single := false |}
    | None => failure
    end.

Definition is_decimal_seed (text : str) : bool :=
  existsb (fun c => bool_decide (c = "."%char)) text
  || existsb (fun c => bool_decide (c ∈ ("iInN" : str))) text.

(** ** XMM and x87 seeds *)

Definition compose_xmm_seed (text : str) : Result (Z * Z) str :=
  match text with
  | [] => Ok (0, 0)
  | _ =>
    if is_decimal_seed text then
      let? parsed := parse_decimal_seed text "XMM" in
      if parsed.(is_single) then Ok (float_of_double parsed.(value), 0) else Ok (parsed.(value), 0)
    else
      let digits := drop (hex_offset text) text in
      if bool_decide (digits = []) || (32 <? length digits)%nat then
        Error (format "Invalid XMM seed {:?} (expected up to 32 hex digits)." [AStr text])
      else
        let low_begin := if (16 <? length digits)%nat then (length digits - 16)%nat else 0%nat in
        let low := drop low_begin digits in
        let high := take low_begin digits in
        let failure := Error (format "Invalid XMM seed {:?} (expected hex)." [AStr text]) in
        match from_chars_all 16 64 low with
        | None => failure
        | Some result0 =>
          match high with
          | [] => Ok (result0, 0)
          | _ =>
            match from_chars_all 16 64 high with
            | None => failure
            | Some result1 => Ok (result0, result1)
            end
          end
        end
  end.

(** The loop over the ten byte pairs of the padded text writes [result[9 - i]]. *)
Fixpoint st_pairs (padded : str) (i n : nat) (result : list Z) : option (list Z) :=
  match n with
  | O => Some result
  | S n =>
    match from_chars_all 16 8 (take 2 (drop (i * 2) padded)) with
    | None => None
    | Some byte => st_pairs padded (S i) n (<[(9 - i)%nat := byte]> result)
    end
  end.

Definition compose_st_seed (text : str) : Result (list Z) str :=
  match text with
  | [] => Ok (replicate 10 0)
  | _ =>
    if is_decimal_seed text then
      let? parsed := parse_decimal_seed text "ST" in
      Ok (double_to_st80 parsed.(value))
    else
      let digits := drop (hex_offset text) text in
      if bool_decide (digits = []) || (20 <? length digits)%nat then
        Error (format "Invalid ST seed {:?} (expected up to 20 hex digits)." [AStr text])
      else
        let padded := replicate (20 - length digits) "0"%char ++ digits in
        match st_pairs padded 0 10 (replicate 10 0) with
        | Some result => Ok result
        | None => Error (format "Invalid ST seed {:?} (expected hex)." [AStr text])
        end
  end.

(** ** Register seeds *)

(** The lambda [overlay] of [compose_gpr_seed], on its captured [result] and [errors]. *)
Definition overlay (label text : str) (mask shift : Z) (acc : Z * list str) : Z * list str :=
  let '(result, errors) := acc in
  match text with
  | [] => acc
  | _ =>
    match parse_seed text with
    | Ok value =>
      (Z.lor (Z.land result (u64 (Z.lnot mask))) (Z.land (u64 (Z.shiftl value shift)) mask), errors)
    | Error e => (result, errors ++ [format "{}: {}" [AStr label; AStr e]])
    end
  end.

Definition compose_gpr_seed (seed : GPRSeed) (label : str) (errors : list str) : Z * list str :=
  overlay label seed.(byte_low) 0xFF 0
    (overlay label seed.(byte_high) 0xFF00 8
      (overlay label seed.(word) 0xFFFF 0
        (overlay label seed.(dword) 0xFFFFFFFF 0
          (overlay label seed.(full) (2 ^ 64 - 1) 0 (0, errors))))).

(** The three loops of [compose_seed], each over the register index [i]. *)
Fixpoint compose_gprs (seeds : list GPRSeed) (i : nat) (errors : list str) : list Z * list str :=
  match seeds with
  | [] => ([], errors)
  | s :: seeds =>
    let '(v, errors) := compose_gpr_seed s (nth i REG_NAMES []) errors in
    let '(vs, errors) := compose_gprs seeds (S i) errors in
    (v :: vs, errors)
  end.

Fixpoint compose_xmms (seeds : list str) (i : nat) (errors : list str) : list (Z * Z) * list str :=
  match seeds with
  | [] => ([], errors)
  | s :: seeds =>
    let '(v, errors) :=
      match compose_xmm_seed s with
      | Ok v => (v, errors)
      | Error e => ((0, 0), errors ++ [format "XMM{}: {}" [AInt (Z.of_nat i); AStr e]])
      end in
    let '(vs, errors) := compose_xmms seeds (S i) errors in
    (v :: vs, errors)
  end.

(** The values and the abridged tag word. *)
Fixpoint compose_sts (seeds : list str) (i : nat) (tags : Z) (errors : list str) : list (list Z) * Z * list str :=
  match seeds with
  | [] => ([], tags, errors)
  | s :: seeds =>
    let '(v, tags, errors) :=
      match s with
      | [] => (replicate 10 0, tags, errors)
      | _ =>
        match compose_st_seed s with
        | Ok v => (v, Z.lor tags (u8 (Z.shiftl 1 (Z.of_nat i))), errors)
        | Error e => (replicate 10 0, tags, errors ++ [format "ST{}: {}" [AInt (Z.of_nat i); AStr e]])
        end
      end in
    let '(vs, tags, errors) := compose_sts seeds (S i) tags errors in
    (v :: vs, tags, errors)
  end.

(** An optional field of the floating environment keeps its default when it is empty
    or malformed. *)
Definition compose_environment (parse : str -> Result Z str) (text : str) (initial : Z) (errors : list str) : Z * list str :=
  match text with
  | [] => (initial, errors)
  | _ => match parse text with
         | Ok value => (value, errors)
         | Error e => (initial, errors ++ [e])
         end
  end.

Definition compose_seed (seed_gpr : list GPRSeed) (seed_flags : Z) (seed_xmm seed_st : list str)
    (seed_floating_environment : FloatingEnvironmentSeed) (errors : list str) : Registers * list str :=
  let '(m, errors) := compose_environment parse_mxcsr_seed
      seed_floating_environment.(seed_mxcsr) DEFAULT_MXCSR errors in
  let '(cw, errors) := compose_environment parse_fpu_control_word_seed
      seed_floating_environment.(seed_fpu_control_word) DEFAULT_FPU_CONTROL_WORD errors in
  let '(g, errors) := compose_gprs seed_gpr 0 errors in
  let '(x, errors) := compose_xmms seed_xmm 0 errors in
  let '(s, tags, errors) := compose_sts seed_st 0 0 errors in
  ({| gpr := g; rip := 0; rflags := seed_flags; xmm := x; mxcsr := m; st := s;
      fpu_control_word := cw; fpu_status_word := 0; fpu_tag_word_abridged := tags |}, errors).
End seeds.

(** ** Hexadecimal text *)

(** A number in hexadecimal, with or without its prefix, and its digits. *)
Definition hex_text (text digits : str) : Prop :=
  digits <> [] /\ Forall (fun c => isxdigit c = true) digits /\
  (text = digits \/ exists x, (x = "x"%char \/ x = "X"%char) /\ text = "0"%char :: x :: digits).

Lemma has_hex_prefix_digits ds :
  Forall (fun c => isxdigit c = true) ds -> has_hex_prefix ds = false.
Proof.
  intros H. destruct ds as [|a [|b ds]]; try done.
  - simpl. by repeat split_goal.
  - inversion H as [|? ? _ H']; subst. inversion H' as [|? ? Hb _]; subst.
    assert (bool_decide (b = "x"%char) || bool_decide (b = "X"%char) = false) as Hx.
    { do 2 (case_bool_decide; [subst b; discriminate Hb|]). done. }
    unfold has_hex_prefix. rewrite Hx. by repeat split_goal.
Qed.

Lemma has_hex_prefix_spec s :
  has_hex_prefix s = true <->
  exists x ds, (x = "x"%char \/ x = "X"%char) /\ s = "0"%char :: x :: ds.
Proof.
  split.
  - intros H. unfold has_hex_prefix in H. destruct s as [|a [|b s]]; repeat split_in H; subst.
    all: cbn in H; try discriminate H; apply orb_true_iff in H; rewrite !bool_decide_eq_true in H.
    all: by exists b, s.
  - intros (x & ds & [-> | ->] & ->); done.
Qed.

Lemma hex_text_spec s ds :
  hex_text s ds <->
  drop (hex_offset s) s = ds /\ ds <> [] /\ Forall (fun c => is_digit 16 c = true) ds.
Proof.
  assert (Forall (fun c => is_digit 16 c = true) ds <-> Forall (fun c => isxdigit c = true) ds) as ->.
  { apply Forall_iff. intros c. by rewrite is_digit_16. }
  unfold hex_text, hex_offset. split.
  - intros (Hne & Hx & [-> | (x & Hx' & ->)]).
    + by rewrite has_hex_prefix_digits.
    + rewrite (proj2 (has_hex_prefix_spec _)) by eauto. done.
  - destruct (has_hex_prefix s) eqn:E.
    + apply has_hex_prefix_spec in E as (x & t & Hx & ->).
      change (drop 2 ("0"%char :: x :: t)) with t. intros (-> & Hne & Hd).
      split; [done|]. split; [done|]. right. by exists x.
    + change (drop 0 s) with s. intros (-> & ? & ?). split; [done|]. split; [done|]. by left.
Qed.

Lemma hex_text_not_nil s ds : hex_text s ds -> s <> [].
Proof. intros (Hne & _ & [-> | (x & _ & ->)]); done. Qed.

(** A hexadecimal text is not taken for a decimal one. *)
Lemma hex_text_not_decimal s ds : hex_text s ds -> is_decimal_seed s = false.
Proof.
  intros (_ & Hd & Hs). unfold is_decimal_seed.
  assert (forall c, isxdigit c = true \/ c = "x"%char \/ c = "X"%char ->
            bool_decide (c = "."%char) = false /\ bool_decide (c ∈ ("iInN" : str)) = false) as Hc.
  { intros c [H | [-> | ->]]; [|done|done]. split; apply bool_decide_eq_false; intros E.
    - by rewrite E in H.
    - revert H. repeat (apply elem_of_cons in E as [->|E]; [done|]). by apply not_elem_of_nil in E. }
  assert (Forall (fun c => isxdigit c = true \/ c = "x"%char \/ c = "X"%char) s) as Hall.
  { destruct Hs as [-> | (x & Hx & ->)].
    - eapply Forall_impl; [exact Hd|]. by left.
    - constructor; [by left|]. constructor; [by right|].
      eapply Forall_impl; [exact Hd|]. by left. }
  clear Hs. induction Hall as [|c s Hcs _ IH]; [done|]. cbn [existsb].
  destruct (Hc c Hcs) as [-> ->]. done.
Qed.

Lemma from_chars_hex_None s :
  (forall ds, hex_text s ds -> 2 ^ 64 <= digits_value 16 ds) ->
  from_chars_all 16 64 (drop (hex_offset s) s) = None.
Proof.
  intros H. destruct (from_chars_all 16 64 _) as [v|] eqn:E; [|done].
  apply from_chars_all_spec in E as (Hne & Hd & -> & Hlt).
  specialize (H (drop (hex_offset s) s)). rewrite hex_text_spec in H.
  specialize (H (conj eq_refl (conj Hne Hd))). lia.
Qed.

Section hexadecimal.
Context {fmt : Fmt}.

Lemma parse_seed_spec s v :
  parse_seed s = Ok v <->
  (s = [] /\ v = 0) \/
  exists ds, hex_text s ds /\ v = digits_value 16 ds /\ v < 2 ^ 64.
Proof.
  destruct s as [|c s]; [split|].
  - intros [= <-]. by left.
  - intros [[_ ->] | (ds & H & _)]; [done | by apply hex_text_not_nil in H].
  - change (parse_seed (c :: s)) with
      (match from_chars_all 16 64 (drop (hex_offset (c :: s)) (c :: s)) with
       | Some result => Ok result
       | None => Error (format "Invalid hex value {:?}" [AStr (c :: s)]) end).
    destruct (from_chars_all 16 64 _) as [r|] eqn:E; split.
    + intros [= <-]. right. apply from_chars_all_spec in E as (Hne & Hd & -> & Hlt).
      exists (drop (hex_offset (c :: s)) (c :: s)). by rewrite hex_text_spec.
    + intros [[? _] | (ds & Hx & -> & Hlt)]; [done|]. apply hex_text_spec in Hx as (<- & Hne & Hd).
      apply from_chars_all_spec in E as (_ & _ & -> & _). done.
    + done.
    + intros [[? _] | (ds & Hx & -> & Hlt)]; [done|]. apply hex_text_spec in Hx as (<- & Hne & Hd).
      rewrite (proj2 (from_chars_all_spec _ _ _ _)) in E by eauto. done.
Qed.

Lemma parse_seed_in_width s v : parse_seed s = Ok v -> in_width 64 v.
Proof.
  intros [[_ ->] | (ds & _ & -> & Hlt)]%parse_seed_spec; [done|].
  pose proof (digits_value_bound 16 ds). split; lia.
Qed.
End hexadecimal.

(** Up to [w / 4] digits always fit in [w] bits. *)
Lemma from_chars_short w ds :
  0 <= w -> 4 * Z.of_nat (length ds) <= w ->
  ds <> [] -> Forall (fun c => is_digit 16 c = true) ds ->
  from_chars_all 16 w ds = Some (digits_value 16 ds).
Proof.
  intros Hw Hl Hne Hd. apply from_chars_all_spec. split; [done|]. split; [done|]. split; [done|].
  pose proof (digits_value_bound 16 ds ltac:(lia)) as [_ Hb].
  eapply Z.lt_le_trans; [exact Hb|]. change 16 with (2 ^ 4). rewrite <- Z.pow_mul_r by lia.
  apply Z.pow_le_mono_r; lia.
Qed.

Lemma from_chars_all_digits base w s v :
  from_chars_all base w s = Some v -> s <> [] /\ Forall (fun c => is_digit base c = true) s.
Proof. intros (? & ? & _)%from_chars_all_spec. done. Qed.

(** The two halves of an XMM seed. *)
Lemma split_digits_value ds k :
  (k <= length ds)%nat ->
  digits_value 16 ds
  = digits_value 16 (take k ds) * 16 ^ Z.of_nat (length ds - k) + digits_value 16 (drop k ds).
Proof.
  intros Hk. rewrite <- (take_drop k ds) at 1.
  rewrite digits_value_app, length_drop. done.
Qed.

Section vectors.
Context {fmt : Fmt}.

Lemma compose_xmm_hex s ds :
  hex_text s ds -> (length ds <= 32)%nat ->
  compose_xmm_seed s = Ok (digits_value 16 ds mod 2 ^ 64, digits_value 16 ds / 2 ^ 64).
Proof.
  intros Hs Hl. pose proof (hex_text_not_decimal s ds Hs) as Hdec.
  pose proof (hex_text_not_nil s ds Hs) as Hne. apply hex_text_spec in Hs as (Hdrop & Hne' & Hd).
  unfold compose_xmm_seed. destruct s as [|c s]; [done|]. rewrite Hdec, Hdrop.
  rewrite bool_decide_false by done. destruct (Nat.ltb_spec 32 (length ds)); [lia|]. cbn [orb].
  destruct (Nat.ltb_spec 16 (length ds)) as [H16|H16].
  - assert (length (drop (length ds - 16) ds) = 16%nat) as Hlow by (rewrite length_drop; lia).
    assert (length (take (length ds - 16) ds) = (length ds - 16)%nat) as Hhigh
      by (rewrite length_take; lia).
    rewrite (from_chars_short 64 (drop _ _));
      [|lia | lia | by intros E; rewrite E in Hlow | by apply Forall_drop].
    destruct (take (length ds - 16) ds) as [|h high] eqn:Eh; [cbn in Hhigh; lia|]. rewrite <- Eh in *.
    rewrite (from_chars_short 64 (take _ _));
      [|lia | lia | by rewrite Eh | by apply Forall_take].
    rewrite (split_digits_value ds (length ds - 16)) by lia.
    replace (length ds - (length ds - 16))%nat with 16%nat by lia.
    change (16 ^ Z.of_nat 16) with (2 ^ 64).
    pose proof (digits_value_bound 16 (drop (length ds - 16) ds) ltac:(lia)) as Hb.
    rewrite Hlow in Hb. change (16 ^ Z.of_nat 16) with (2 ^ 64) in Hb.
    rewrite (Z.add_comm (_ * _)), Z.mod_add, Z.div_add, Z.mod_small, Z.div_small by lia. done.
  - change (drop 0 ds) with ds. change (take 0 ds) with (@nil ascii).
    rewrite from_chars_short by (done || lia).
    pose proof (digits_value_bound 16 ds ltac:(lia)) as [Hb0 Hb].
    assert (digits_value 16 ds < 2 ^ 64).
    { eapply Z.lt_le_trans; [exact Hb|]. change (2 ^ 64) with (16 ^ 16). apply Z.pow_le_mono_r; lia. }
    rewrite Z.mod_small, Z.div_small by lia. done.
Qed.

Lemma compose_xmm_hex_inv s v :
  is_decimal_seed s = false -> compose_xmm_seed s = Ok v ->
  s = [] \/ exists ds, hex_text s ds /\ (length ds <= 32)%nat.
Proof.
  intros Hdec H. destruct s as [|c s]; [by left | right].
  unfold compose_xmm_seed in H. rewrite Hdec in H.
  exists (drop (hex_offset (c :: s)) (c :: s)). rewrite hex_text_spec.
  revert H. generalize (drop (hex_offset (c :: s)) (c :: s)). intros ds H.
  destruct (bool_decide (ds = []) || (32 <? length ds)%nat) eqn:E; [done|].
  apply orb_false_iff in E as [E1%bool_decide_eq_false E2%Nat.ltb_ge].
  split; [|done]. split; [done|]. split; [done|].
  destruct (from_chars_all 16 64 (drop _ ds)) as [lo|] eqn:Elow; [|done].
  apply from_chars_all_digits in Elow as [_ Hlow].
  rewrite <- (take_drop (if (16 <? length ds)%nat then (length ds - 16)%nat else 0%nat) ds).
  apply Forall_app. split; [|done].
  destruct (take _ ds) as [|h high] eqn:Eh; [constructor|].
  destruct (from_chars_all 16 64 (h :: high)) as [hi|] eqn:Ehigh; [|done].
  by apply from_chars_all_digits in Ehigh as [_ ?].
Qed.
End vectors.

Lemma from_chars_pair a b :
  from_chars_all 16 8 [a; b] =
    if is_digit 16 a && is_digit 16 b then Some (digits_value 16 [a; b]) else None.
Proof.
  destruct (is_digit 16 a && is_digit 16 b) eqn:E.
  - apply andb_true_iff in E as [Ha Hb]. apply from_chars_short; [lia | cbn; lia | done |].
    by repeat constructor.
  - destruct (from_chars_all 16 8 [a; b]) as [v|] eqn:Ev; [|done].
    apply from_chars_all_digits in Ev as [_ Hd].
    inversion Hd as [|? ? Ha Hd']; subst. inversion Hd' as [|? ? Hb _]; subst.
    by rewrite Ha, Hb in E.
Qed.

(** One step of the loop reads the pair at [2 * i]. *)
Lemma st_pairs_step pre a b post i n result :
  length pre = (i * 2)%nat ->
  st_pairs (pre ++ a :: b :: post) i (S n) result =
    if is_digit 16 a && is_digit 16 b
    then st_pairs (pre ++ a :: b :: post) (S i) n (<[(9 - i)%nat := digits_value 16 [a; b]]> result)
    else None.
Proof.
  intros Hl. cbn [st_pairs]. rewrite (drop_app_length' pre _ (i * 2)) by done.
  change (take 2 (a :: b :: post)) with [a; b]. rewrite from_chars_pair.
  by destruct (is_digit 16 a && is_digit 16 b).
Qed.

(** The bytes written so far, most significant first in the text and last in the
    array. *)
Lemma st_pairs_run post pre n hi :
  length pre = (length hi * 2)%nat -> length post = (n * 2)%nat -> (n + length hi = 10)%nat ->
  Forall (fun c => is_digit 16 c = true) post ->
  exists lo, st_pairs (pre ++ post) (length hi) n (replicate n 0 ++ hi) = Some (lo ++ hi)
    /\ length lo = n /\ Forall (in_width 8) lo /\ le_value lo = digits_value 16 post.
Proof.
  revert post pre hi. induction n as [|n IH]; intros post pre hi Hpre Hpost Hn Hd.
  - destruct post; [|done]. by exists [].
  - destruct post as [|a [|b post]]; [done|cbn in Hpost; lia|].
    inversion Hd as [|? ? Ha Hd']; subst. inversion Hd' as [|? ? Hb Hd'']; subst.
    rewrite st_pairs_step by done. rewrite Ha, Hb. cbn [andb].
    set (byte := digits_value 16 [a; b]).
    assert (<[(9 - length hi)%nat := byte]> (replicate (S n) 0 ++ hi) = replicate n 0 ++ byte :: hi) as ->.
    { replace (9 - length hi)%nat with (length (replicate n 0%Z) + 0)%nat
        by (rewrite length_replicate; lia).
      replace (replicate (S n) 0 ++ hi) with (replicate n 0 ++ 0 :: hi)
        by (rewrite replicate_S_end, <- app_assoc; done).
      by rewrite insert_app_r. }
    destruct (IH post (pre ++ [a; b]) (byte :: hi)) as (lo & Hrun & Hlen & Hw & Hv).
    { rewrite length_app. cbn [length]. lia. }
    { cbn in Hpost. lia. }
    { cbn [length]. lia. }
    { done. }
    rewrite <- app_assoc in Hrun. exists (lo ++ [byte]).
    rewrite <- app_assoc. split; [exact Hrun|]. split; [rewrite length_app; cbn; lia|].
    assert (in_width 8 byte) as Hbyte by (apply (digits_value_bound 16 [a; b]); lia).
    split; [by apply Forall_app_2; [|constructor]|].
    rewrite le_value_app, Hv, Hlen. cbn [le_value]. rewrite Z.mul_0_r, Z.add_0_r.
    change (a :: b :: post) with ([a; b] ++ post). rewrite digits_value_app. fold byte.
    replace (length post) with (n * 2)%nat by (cbn in Hpost; lia).
    change 256 with (16 ^ 2). rewrite <- Z.pow_mul_r, Nat2Z.inj_mul by lia.
    replace (2 * Z.of_nat n) with (Z.of_nat n * Z.of_nat 2) by lia. ring.
Qed.

Lemma st_pairs_digits post pre i n result bytes :
  length pre = (i * 2)%nat -> length post = (n * 2)%nat ->
  st_pairs (pre ++ post) i n result = Some bytes -> Forall (fun c => is_digit 16 c = true) post.
Proof.
  revert post pre i result. induction n as [|n IH]; intros post pre i result Hpre Hpost H.
  - by destruct post.
  - destruct post as [|a [|b post]]; [done|cbn in Hpost; lia|].
    rewrite st_pairs_step in H by done.
    destruct (is_digit 16 a && is_digit 16 b) eqn:E; [|done]. apply andb_true_iff in E as [Ha Hb].
    constructor; [done|]. constructor; [done|].
    apply (IH post (pre ++ [a; b]) (S i) (<[(9 - i)%nat := digits_value 16 [a; b]]> result)).
    + rewrite length_app. cbn [length]. lia.
    + cbn in Hpost. lia.
    + rewrite <- app_assoc. exact H.
Qed.

Section x87.
Context {fmt : Fmt}.

Lemma compose_st_hex s ds :
  hex_text s ds -> (length ds <= 20)%nat -> compose_st_seed s = Ok (le_bytes 10 (digits_value 16 ds)).
Proof.
  intros Hs Hl. pose proof (hex_text_not_decimal s ds Hs) as Hdec.
  pose proof (hex_text_not_nil s ds Hs) as Hne. apply hex_text_spec in Hs as (Hdrop & Hne' & Hd).
  unfold compose_st_seed. destruct s as [|c s]; [done|]. rewrite Hdec, Hdrop.
  rewrite bool_decide_false by done. destruct (Nat.ltb_spec 20 (length ds)); [lia|]. cbn [orb].
  destruct (st_pairs_run (replicate (20 - length ds) "0"%char ++ ds) [] 10 []) as (lo & Hrun & Hlen & Hw & Hv).
  { done. }
  { rewrite length_app, length_replicate. lia. }
  { done. }
  { apply Forall_app_2; [by apply Forall_replicate | done]. }
  cbn [app] in Hrun. cbv zeta. rewrite app_nil_r in Hrun.
  change (replicate 10 0 ++ []) with (replicate 10 0) in Hrun.
  change (length (A:=Z) []) with 0%nat in Hrun. rewrite Hrun, app_nil_r. f_equal.
  rewrite digits_value_zeros in Hv by lia. rewrite <- Hv, <- Hlen. symmetry. by apply le_bytes_value.
Qed.

Lemma compose_st_hex_inv s v :
  is_decimal_seed s = false -> compose_st_seed s = Ok v ->
  s = [] \/ exists ds, hex_text s ds /\ (length ds <= 20)%nat.
Proof.
  intros Hdec H. destruct s as [|c s]; [by left | right].
  unfold compose_st_seed in H. rewrite Hdec in H.
  exists (drop (hex_offset (c :: s)) (c :: s)). rewrite hex_text_spec.
  revert H. generalize (drop (hex_offset (c :: s)) (c :: s)). intros ds H.
  destruct (bool_decide (ds = []) || (20 <? length ds)%nat) eqn:E; [done|].
  apply orb_false_iff in E as [E1%bool_decide_eq_false E2%Nat.ltb_ge].
  split; [|done]. split; [done|]. split; [done|]. cbv zeta in H.
  destruct (st_pairs _ 0 10 _) as [bytes|] eqn:Erun; [|done].
  apply (st_pairs_digits _ []) in Erun; [|done|rewrite length_app, length_replicate; lia].
  by apply Forall_app in Erun as [_ ?].
Qed.
End x87.

(** ** Decimal text *)

(** A plain decimal number: [-]digits.[digits][e[+-]digits]. *)
Definition plain_decimal (sign : bool) (ip fp ex : str) : str :=
  (if sign then ["-"%char] else []) ++ ip ++ ("."%char :: fp) ++ ex.

(** [v] is the value of the exponent. *)
Definition is_plain (ip fp ex : str) (v : Z) : Prop :=
  ip <> [] /\ Forall (fun c => is_digit 10 c = true) ip /\ Forall (fun c => is_digit 10 c = true) fp /\ exponent_text ex v.

(** The letters that may end a decimal seed. *)
Inductive suffix : str -> bool -> Prop :=
| suffix_none : suffix [] false
| suffix_long c : c = "l"%char \/ c = "L"%char -> suffix [c] false
| suffix_single c : c = "f"%char \/ c = "F"%char -> suffix [c] true.

Section plain.
Context (sign : bool) (ip fp ex : str) (xv : Z).
Hypothesis Hplain : is_plain ip fp ex xv.

Lemma split_sign_plain sfx : split_sign (plain_decimal sign ip fp ex ++ sfx) = (sign, ip ++ ("."%char :: fp) ++ ex ++ sfx).
Proof.
  destruct Hplain as (Hne & Hip & _). unfold plain_decimal. destruct sign.
  - by rewrite <- !app_assoc.
  - destruct ip as [|c t]; [done|]. inversion Hip as [|? ? Hc _]; subst.
    rewrite <- !app_assoc. cbn [app split_sign]. unfold is_sign.
    do 2 (case_bool_decide; [subst c; discriminate Hc|]). done.
Qed.

(** A text that starts with a digit is not a word. *)
Lemma digit_not_word t : is_infinity_word (ip ++ t) = false /\ is_nan_word (ip ++ t) = false.
Proof.
  destruct Hplain as (Hne & Hip & _). destruct ip as [|c ip']; [done|].
  inversion Hip as [|? ? Hc _]; subst.
  assert (bool_decide (lowercase c = "i"%char) = false /\ bool_decide (lowercase c = "n"%char) = false) as [H1 H2].
  { assert (implb (is_digit 10 c)
      (negb (bool_decide (lowercase c = "i"%char)) && negb (bool_decide (lowercase c = "n"%char))) = true) as H
      by all_chars c.
    rewrite Hc in H. cbn [implb] in H. apply andb_true_iff in H as [H1%negb_true_iff H2%negb_true_iff]. done. }
  unfold is_infinity_word, is_nan_word. cbn [app String.list_ascii_of_string ascii_case_insensitive_equal].
  change (lowercase "i"%char) with "i"%char. change (lowercase "n"%char) with "n"%char.
  by rewrite H1, H2.
Qed.

Lemma last_plain c : last (plain_decimal sign ip fp ex) = Some c -> is_digit 10 c = true \/ c = "."%char.
Proof.
  destruct Hplain as (_ & _ & Hfp & Hex). unfold plain_decimal. rewrite app_assoc.
  destruct Hex as [|e mark negative ds _ _ Hne Hds].
  - rewrite app_nil_r, last_app_cons. destruct fp as [|d t] using rev_ind; [intros [= <-]; by right|].
    rewrite app_comm_cons, last_snoc. intros [= <-]. left. apply Forall_app in Hfp as [_ H]. by inversion H.
  - destruct ds as [|d t] using rev_ind; [done|]. rewrite !app_assoc, app_comm_cons, !app_assoc, last_snoc. intros [= <-]. left.
    apply Forall_app in Hds as [_ H]. by inversion H.
Qed.

Lemma ends_with_plain a b :
  (a = "f"%char /\ b = "F"%char) \/ (a = "l"%char /\ b = "L"%char) ->
  ends_with a b (plain_decimal sign ip fp ex) = false.
Proof.
  intros Hab. unfold ends_with. destruct (last _) as [c|] eqn:E; [|done].
  apply last_plain in E as [Hc | ->].
  - destruct Hab as [[-> ->] | [-> ->]];
      (do 2 (case_bool_decide; [subst c; discriminate Hc|]); done).
  - by destruct Hab as [[-> ->] | [-> ->]].
Qed.

Lemma split_suffix_plain sfx single :
  suffix sfx single -> split_suffix (plain_decimal sign ip fp ex ++ sfx) = (single, plain_decimal sign ip fp ex).
Proof.
  intros Hs. unfold split_suffix. rewrite split_sign_plain. cbv zeta. cbn [snd].
  destruct (digit_not_word (("."%char :: fp) ++ ex ++ sfx)) as [-> _]. cbn [negb andb].
  destruct Hs as [|c Hc|c Hc].
  - rewrite app_nil_r, !ends_with_plain by tauto. done.
  - rewrite removelast_last. unfold ends_with. rewrite last_snoc. by destruct Hc as [-> | ->].
  - rewrite removelast_last. unfold ends_with. rewrite last_snoc. by destruct Hc as [-> | ->].
Qed.

Lemma is_decimal_plain sfx : is_decimal_seed (plain_decimal sign ip fp ex ++ sfx) = true.
Proof.
  unfold is_decimal_seed. apply orb_true_iff. left. apply existsb_exists. exists "."%char.
  split; [|done]. apply list_elem_of_In. unfold plain_decimal.
  rewrite !elem_of_app. left. right. right. left. by left.
Qed.

(** The number of the text, in the precision of its suffix. *)
Definition plain_value (p ew : Z) : option Z :=
  round_decimal p ew sign (digits_value 10 (ip ++ fp)) (xv - Z.of_nat (length fp)).

Lemma parse_decimal_plain {fmt : Fmt} sfx single label :
  suffix sfx single ->
  parse_decimal_seed (plain_decimal sign ip fp ex ++ sfx) label =
    match (if single then option_map double_of_float (plain_value 24 8) else plain_value 53 11) with
    | Some v => Ok {| value := v; is_single := single |}
    | None => Error (format "Invalid {} seed {:?} (expected hex or a decimal value)."
                       [AStr label; AStr (plain_decimal sign ip fp ex ++ sfx)])
    end.
Proof.
  intros Hs. unfold parse_decimal_seed. rewrite (split_suffix_plain sfx single Hs).
  pose proof (split_sign_plain []) as E. rewrite app_nil_r in E. rewrite E. cbv zeta.
  destruct (digit_not_word (("."%char :: fp) ++ ex ++ [])) as [-> ->].
  destruct Hplain as (Hne & Hip & Hfp & Hex). unfold plain_value.
  destruct single; unfold plain_decimal at 1; rewrite (float_from_chars_number _ _ sign ip (Some fp) ex xv Hne Hip Hfp Hex);
    by destruct (round_decimal _ _ _ _ _).
Qed.

(** The lanes it gives. *)
Lemma compose_xmm_plain {fmt : Fmt} sfx single :
  suffix sfx single ->
  compose_xmm_seed (plain_decimal sign ip fp ex ++ sfx) =
    match (if single then plain_value 24 8 else plain_value 53 11) with
    | Some bits => Ok (bits, 0)
    | None => Error (format "Invalid {} seed {:?} (expected hex or a decimal value)."
                       [AStr "XMM"; AStr (plain_decimal sign ip fp ex ++ sfx)])
    end.
Proof.
  intros Hs. unfold compose_xmm_seed. rewrite is_decimal_plain, (parse_decimal_plain sfx single) by done.
  destruct (plain_decimal sign ip fp ex ++ sfx) eqn:E.
  { unfold plain_decimal in E. destruct Hplain as (Hne & _). by destruct sign, ip. }
  destruct single; destruct (plain_value _ _) as [v|] eqn:Ev; cbn [option_map]; try done.
  cbn [is_single value]. do 2 f_equal. unfold plain_value in Ev.
  apply round_decimal_stable in Ev as [Hw Hq]; [|lia|lia|by apply digits_value_bound].
  by rewrite float_double_quieted.
Qed.

Lemma compose_st_plain {fmt : Fmt} sfx single :
  suffix sfx single ->
  compose_st_seed (plain_decimal sign ip fp ex ++ sfx) =
    match (if single then option_map double_of_float (plain_value 24 8) else plain_value 53 11) with
    | Some bits => Ok (double_to_st80 bits)
    | None => Error (format "Invalid {} seed {:?} (expected hex or a decimal value)."
                       [AStr "ST"; AStr (plain_decimal sign ip fp ex ++ sfx)])
    end.
Proof.
  intros Hs. unfold compose_st_seed. rewrite is_decimal_plain, (parse_decimal_plain sfx single) by done.
  destruct (plain_decimal sign ip fp ex ++ sfx) eqn:E.
  { unfold plain_decimal in E. destruct Hplain as (Hne & _). by destruct sign, ip. }
  destruct single; destruct (plain_value _ _) as [v|]; done.
Qed.
End plain.

(** ** General-purpose registers *)

Section gpr.
Context {fmt : Fmt}.

(** The value of a field that is present and well formed. *)
Definition field_value (text : str) : option Z :=
  match text, parse_seed text with
  | _ :: _, Ok v => Some v
  | _, _ => None
  end.

(** The message of a field that is present and malformed. *)
Definition field_error (label text : str) : list str :=
  match text, parse_seed text with
  | _ :: _, Error e => [format "{}: {}" [AStr label; AStr e]]
  | _, _ => []
  end.

(** The slices of a register from the narrowest to the widest: text, first bit, width. *)
Definition slices (seed : GPRSeed) : list (str * Z * Z) :=
  [(seed.(byte_low), 0, 8); (seed.(byte_high), 8, 8); (seed.(word), 0, 16);
   (seed.(dword), 0, 32); (seed.(full), 0, 64)].

(** Bit [n] comes from the narrowest valid slice that covers it. *)
Fixpoint slice_bit (slices : list (str * Z * Z)) (n : Z) : bool :=
  match slices with
  | [] => false
  | (text, low, width) :: wider =>
    match field_value text with
    | Some v => if (low <=? n) && (n <? low + width) then Z.testbit v (n - low) else slice_bit wider n
    | None => slice_bit wider n
    end
  end.

Lemma overlay_value label text mask shift acc :
  overlay label text mask shift acc =
    (match field_value text with
     | Some v => Z.lor (Z.land acc.1 (u64 (Z.lnot mask))) (Z.land (u64 (Z.shiftl v shift)) mask)
     | None => acc.1
     end, acc.2 ++ field_error label text).
Proof.
  destruct acc as [r errs]. unfold overlay, field_value, field_error.
  destruct text as [|c t]; [by rewrite app_nil_r|].
  destruct (parse_seed (c :: t)); [by rewrite app_nil_r | done].
Qed.

Lemma overlay_bit label text low w acc n :
  0 <= low -> 0 <= w -> 0 <= n < 64 ->
  Z.testbit (overlay label text (Z.shiftl (Z.ones w) low) low acc).1 n =
    match field_value text with
    | Some v => if (low <=? n) && (n <? low + w) then Z.testbit v (n - low) else Z.testbit acc.1 n
    | None => Z.testbit acc.1 n
    end.
Proof.
  intros Hlow Hw Hn. rewrite overlay_value. cbn [fst]. destruct (field_value text) as [v|]; [|done].
  rewrite Z.lor_spec, !Z.land_spec, !wrap_testbit by lia.
  assert ((n <? 64) = true) as -> by (apply Z.ltb_lt; lia).
  rewrite Z.lnot_spec, !Z.shiftl_spec by lia. cbn [andb].
  destruct (Z.leb_spec low n); cbn [andb].
  - rewrite Z.testbit_ones_nonneg by lia.
    assert ((n - low <? w) = (n <? low + w)) as ->
      by (destruct (Z.ltb_spec (n - low) w), (Z.ltb_spec n (low + w)); done || lia).
    destruct (n <? low + w); cbn; [rewrite andb_false_r, andb_true_r | rewrite andb_true_r, andb_false_r, orb_false_r]; done.
  - rewrite !(Z.testbit_neg_r _ (n - low)) by lia. cbn. by rewrite andb_true_r, orb_false_r.
Qed.

Lemma overlay_in_width label text low w acc :
  0 <= low -> 0 <= w -> low + w <= 64 -> in_width 64 acc.1 ->
  in_width 64 (overlay label text (Z.shiftl (Z.ones w) low) low acc).1.
Proof.
  intros Hlow Hw Hlw Ha. rewrite overlay_value. cbn [fst]. destruct (field_value text); [|done].
  assert (in_width 64 (Z.shiftl (Z.ones w) low)) as Hmask.
  { rewrite Z.shiftl_mul_pow2, Z.ones_equiv by lia. unfold in_width.
    assert (2 ^ (low + w) <= 2 ^ 64) by (apply Z.pow_le_mono_r; lia).
    rewrite Z.pow_add_r in * by lia. assert (0 < 2 ^ w) by lia. assert (0 < 2 ^ low) by lia. nia. }
  apply lor_in_width; [lia| |].
  - rewrite Z.land_comm. apply land_in_width; [lia | | done]. apply (wrap_in_width 64); lia.
  - apply land_in_width; [lia | | done]. apply (wrap_in_width 64); lia.
Qed.

(** The masks of the code, as ranges of bits. *)
Lemma compose_gpr_seed_overlays seed label errors :
  compose_gpr_seed seed label errors =
    overlay label seed.(byte_low) (Z.shiftl (Z.ones 8) 0) 0
      (overlay label seed.(byte_high) (Z.shiftl (Z.ones 8) 8) 8
        (overlay label seed.(word) (Z.shiftl (Z.ones 16) 0) 0
          (overlay label seed.(dword) (Z.shiftl (Z.ones 32) 0) 0
            (overlay label seed.(full) (Z.shiftl (Z.ones 64) 0) 0 (0, errors))))).
Proof. reflexivity. Qed.

Lemma compose_gpr_seed_bit seed label errors n :
  0 <= n < 64 -> Z.testbit (compose_gpr_seed seed label errors).1 n = slice_bit (slices seed) n.
Proof.
  intros Hn. rewrite compose_gpr_seed_overlays, !overlay_bit by lia.
  cbn [fst]. rewrite Z.bits_0. cbn [slice_bit slices].
  reflexivity.
Qed.

Lemma compose_gpr_seed_in_width seed label errors : in_width 64 (compose_gpr_seed seed label errors).1.
Proof.
  rewrite compose_gpr_seed_overlays. do 5 (apply overlay_in_width; [lia | lia | lia |]). done.
Qed.

Lemma compose_gpr_seed_errors seed label errors :
  (compose_gpr_seed seed label errors).2 =
  errors ++ concat (map (fun s => field_error label s.1.1) (rev (slices seed))).
Proof.
  unfold compose_gpr_seed. rewrite !overlay_value. cbn [snd slices rev app map concat fst].
  by rewrite <- !app_assoc, app_nil_r.
Qed.
End gpr.

(** ** The whole seed *)

Section widths.
Context {fmt : Fmt}.

Lemma with_sign_in_width negative x : in_width 64 x -> in_width 64 (with_sign negative x).
Proof. intros Hx. destruct negative; [|done]. apply lor_in_width; done. Qed.

Lemma parse_decimal_in_width text label d :
  parse_decimal_seed text label = Ok d ->
  in_width 64 d.(value) /\ (d.(is_single) = true -> in_width 32 (float_of_double d.(value))).
Proof.
  unfold parse_decimal_seed. destruct (split_suffix text) as [single t].
  destruct (split_sign t) as [negative magnitude]. cbv zeta.
  destruct (is_infinity_word magnitude); [|destruct (is_nan_word magnitude)].
  1, 2: intros [= <-]; cbn [value is_single]; split;
    [apply with_sign_in_width; by destruct single | by intros ->; destruct negative].
  destruct single.
  - destruct (float_from_chars_all 24 8 t) as [f|] eqn:E; [|done]. intros [= <-]. cbn [value is_single].
    apply float_from_chars_stable in E as [Hw Hq]; [|lia|lia].
    split; [by apply double_of_float_stable|]. intros _. by rewrite float_double_quieted, Hq.
  - destruct (float_from_chars_all 53 11 t) as [f|] eqn:E; [|done]. intros [= <-]. cbn [value is_single].
    by apply float_from_chars_stable in E as [Hw Hq]; [|lia|lia].
Qed.

Lemma compose_xmm_in_width s v : compose_xmm_seed s = Ok v -> in_width 64 v.1 /\ in_width 64 v.2.
Proof.
  intros H. destruct (is_decimal_seed s) eqn:Hdec.
  - unfold compose_xmm_seed in H. destruct s as [|c s]; [done|]. rewrite Hdec in H.
    destruct (parse_decimal_seed (c :: s) "XMM") as [d|] eqn:Ed; [|done].
    apply parse_decimal_in_width in Ed as [Hd Hs].
    destruct (is_single d); injection H as <-; cbn [fst snd]; split; try done.
    apply (in_width_weaken 32); [lia | by apply Hs].
  - destruct (compose_xmm_hex_inv s v Hdec H) as [-> | (ds & Hs & Hl)].
    + by injection H as <-.
    + rewrite (compose_xmm_hex s ds Hs Hl) in H. injection H as <-. cbn [fst snd].
      pose proof (digits_value_bound 16 ds ltac:(lia)) as [H0 H1].
      assert (16 ^ Z.of_nat (length ds) <= 16 ^ 32) by (apply Z.pow_le_mono_r; lia).
      split; [by apply (wrap_in_width 64)|]. split; [apply Z.div_pos; lia|].
      apply Z.div_lt_upper_bound; [lia|]. change (2 ^ 64 * 2 ^ 64) with (16 ^ 32). lia.
Qed.

Lemma compose_st_well_formed s v :
  compose_st_seed s = Ok v -> length v = 10%nat /\ Forall (in_width 8) v.
Proof.
  intros H. destruct (is_decimal_seed s) eqn:Hdec.
  - unfold compose_st_seed in H. destruct s as [|c s]; [done|]. rewrite Hdec in H.
    destruct (parse_decimal_seed (c :: s) "ST") as [d|]; [|done].
    injection H as <-. apply double_to_st80_well_formed.
  - destruct (compose_st_hex_inv s v Hdec H) as [-> | (ds & Hs & Hl)].
    + injection H as <-. split; [done|]. by apply (Forall_replicate _ 10%nat 0).
    + rewrite (compose_st_hex s ds Hs Hl) in H.
      assert (v = le_bytes 10 (digits_value 16 ds)) as -> by congruence.
      split; [apply length_le_bytes | apply le_bytes_range].
Qed.

Lemma parse_mxcsr_seed_spec s v :
  parse_mxcsr_seed s = Ok v <-> parse_seed s = Ok v /\ v <= MXCSR_DEFINED_MASK.
Proof.
  unfold parse_mxcsr_seed. cbv zeta. destruct (parse_seed s) as [x|e] eqn:E; [|by split; [|intros []]].
  pose proof (parse_seed_in_width s x E) as Hx. unfold MXCSR_DEFINED_MASK.
  destruct (Z.ltb_spec 0xFFFF x).
  - split; [done|]. intros [[= ->] ?]. lia.
  - rewrite wrap_small by (unfold in_width in *; lia). split; [by intros [= ->]|by intros [[= ->] _]].
Qed.

Lemma parse_fpu_control_word_seed_spec s v :
  parse_fpu_control_word_seed s = Ok v <-> parse_seed s = Ok v /\ in_width 16 v.
Proof.
  unfold parse_fpu_control_word_seed. cbv zeta. destruct (parse_seed s) as [x|e] eqn:E; [|by split; [|intros []]].
  pose proof (parse_seed_in_width s x E) as Hx. unfold in_width in *.
  destruct (Z.ltb_spec 0xFFFF x).
  - split; [done|]. intros [[= ->] ?]. lia.
  - rewrite wrap_small by (unfold in_width; lia). split; [|by intros [[= ->] _]].
    intros [= ->]. split; [done | lia].
Qed.
End widths.

Section seed.
Context {fmt : Fmt}.

(** The value a text stands for, the default when it is malformed. *)
Definition gpr_value (s : GPRSeed) : Z := (compose_gpr_seed s [] []).1.

Definition xmm_value (s : str) : Z * Z := match compose_xmm_seed s with Ok v => v | Error _ => (0, 0) end.

Definition st_value (s : str) : list Z := match compose_st_seed s with Ok v => v | Error _ => replicate 10 0 end.

Definition st_seeded (s : str) : bool := bool_decide (s <> []) && is_ok (compose_st_seed s).

Definition environment_value (parse : str -> Result Z str) (text : str) (initial : Z) : Z :=
  match text, parse text with _ :: _, Ok v => v | _, _ => initial end.

(** The messages of one malformed field. *)
Definition environment_error (parse : str -> Result Z str) (text : str) : list str :=
  match text, parse text with _ :: _, Error e => [e] | _, _ => [] end.

Definition gpr_error (i : nat) (s : GPRSeed) : list str :=
  concat (map (fun x => field_error (nth i REG_NAMES []) x.1.1) (rev (slices s))).

Definition xmm_error (i : nat) (s : str) : list str :=
  match compose_xmm_seed s with Ok _ => [] | Error e => [format "XMM{}: {}" [AInt (Z.of_nat i); AStr e]] end.

Definition st_error (i : nat) (s : str) : list str :=
  match compose_st_seed s with Ok _ => [] | Error e => [format "ST{}: {}" [AInt (Z.of_nat i); AStr e]] end.

(** The messages of a list of fields, in the order of the fields. *)
Fixpoint errors_from {A} (f : nat -> A -> list str) (i : nat) (l : list A) : list str :=
  match l with
  | [] => []
  | x :: l => f i x ++ errors_from f (S i) l
  end.

Lemma compose_gpr_seed_value s label errors : (compose_gpr_seed s label errors).1 = gpr_value s.
Proof. unfold gpr_value, compose_gpr_seed. by rewrite !overlay_value. Qed.

Lemma compose_gprs_spec seeds i errors :
  compose_gprs seeds i errors = (map gpr_value seeds, errors ++ errors_from gpr_error i seeds).
Proof.
  revert i errors. induction seeds as [|s seeds IH]; intros i errors; cbn [compose_gprs map errors_from].
  { by rewrite app_nil_r. }
  pose proof (compose_gpr_seed_value s (nth i REG_NAMES []) errors) as Hv.
  pose proof (compose_gpr_seed_errors s (nth i REG_NAMES []) errors) as He.
  destruct (compose_gpr_seed s _ errors) as [v errs]. cbn [fst snd] in Hv, He. subst v errs.
  by rewrite IH, <- app_assoc.
Qed.

Lemma compose_xmms_spec seeds i errors :
  compose_xmms seeds i errors = (map xmm_value seeds, errors ++ errors_from xmm_error i seeds).
Proof.
  revert i errors. induction seeds as [|s seeds IH]; intros i errors; cbn [compose_xmms map errors_from].
  { by rewrite app_nil_r. }
  unfold xmm_value at 1, xmm_error at 1.
  destruct (compose_xmm_seed s); rewrite IH; [done | by rewrite <- app_assoc].
Qed.

Lemma compose_sts_spec seeds i tags errors :
  exists tags',
    compose_sts seeds i tags errors = (map st_value seeds, tags', errors ++ errors_from st_error i seeds)
    /\ ((i + length seeds <= 8)%nat -> in_width 8 tags -> in_width 8 tags' /\
        forall n, 0 <= n -> Z.testbit tags' n =
          Z.testbit tags n || ((Z.of_nat i <=? n) &&
            match seeds !! (Z.to_nat n - i)%nat with Some s => st_seeded s | None => false end)).
Proof.
  revert i tags errors. induction seeds as [|s seeds IH]; intros i tags errors.
  { exists tags. cbn. rewrite app_nil_r. split; [done|]. intros _ Ht. split; [done|]. intros n _.
    by rewrite andb_false_r, orb_false_r. }
  set (tags1 := if st_seeded s then Z.lor tags (u8 (Z.shiftl 1 (Z.of_nat i))) else tags).
  destruct (IH (S i) tags1 (errors ++ st_error i s)) as (tags' & Hrun & Htags).
  exists tags'. split.
  { cbn [compose_sts map errors_from]. rewrite app_assoc.
    destruct s as [|c s].
    - change (st_error i []) with (@nil str) in *. rewrite app_nil_r in Hrun.
      change tags1 with tags in Hrun. rewrite Hrun, app_nil_r. done.
    - revert Hrun. unfold tags1, st_seeded, st_value at 2. rewrite bool_decide_true by done.
      change (st_error i (c :: s)) with
        (match compose_st_seed (c :: s) with
         | Ok _ => [] | Error e => [format "ST{}: {}" [AInt (Z.of_nat i); AStr e]] end).
      destruct (compose_st_seed (c :: s)); cbn [is_ok andb]; rewrite ?app_nil_r; intros ->; done. }
  cbn [length]. intros Hi Hw.
  assert (in_width 8 tags1) as Hw1.
  { unfold tags1. destruct (st_seeded s); [|done]. apply lor_in_width; [lia | done | by apply wrap_in_width]. }
  destruct (Htags ltac:(lia) Hw1) as [Hw' Hbit]. split; [done|]. intros n Hn. rewrite Hbit by done.
  assert (Z.testbit tags1 n = Z.testbit tags n || ((Z.of_nat i =? n) && st_seeded s)) as ->.
  { unfold tags1. destruct (st_seeded s); [|by rewrite andb_false_r, orb_false_r].
    rewrite Z.lor_spec, wrap_testbit, andb_true_r, Z.shiftl_1_l, Z.pow2_bits_eqb by lia.
    destruct (Z.eqb_spec (Z.of_nat i) n); [|by rewrite andb_false_r].
    destruct (Z.ltb_spec n 8); [done|lia]. }
  rewrite <- orb_assoc. f_equal. destruct (Z.eqb_spec (Z.of_nat i) n) as [<-|Hne].
  - rewrite Nat2Z.id, Nat.sub_diag. cbn [lookup list_lookup].
    destruct (Z.leb_spec (Z.of_nat (S i)) (Z.of_nat i)); [lia|].
    destruct (Z.leb_spec (Z.of_nat i) (Z.of_nat i)); [|lia]. by rewrite orb_false_r.
  - cbn [andb orb]. destruct (Z.leb_spec (Z.of_nat (S i)) n), (Z.leb_spec (Z.of_nat i) n); try lia; try done.
    replace (Z.to_nat n - i)%nat with (S (Z.to_nat n - S i)) by lia. done.
Qed.

Lemma compose_environment_spec parse text initial errors :
  compose_environment parse text initial errors =
  (environment_value parse text initial, errors ++ environment_error parse text).
Proof.
  unfold compose_environment, environment_value, environment_error.
  destruct text as [|c t]; [by rewrite app_nil_r|]. destruct (parse (c :: t)); [by rewrite app_nil_r | done].
Qed.

(** All the messages of a seed, in the order the fields are read. *)
Definition seed_errors (seed_gpr : list GPRSeed) (seed_xmm seed_st : list str)
    (environment : FloatingEnvironmentSeed) : list str :=
  environment_error parse_mxcsr_seed environment.(seed_mxcsr)
  ++ environment_error parse_fpu_control_word_seed environment.(seed_fpu_control_word)
  ++ errors_from gpr_error 0 seed_gpr ++ errors_from xmm_error 0 seed_xmm ++ errors_from st_error 0 seed_st.

Lemma compose_seed_spec seed_gpr seed_flags seed_xmm seed_st environment errors :
  exists tags,
  compose_seed seed_gpr seed_flags seed_xmm seed_st environment errors =
    ({| gpr := map gpr_value seed_gpr; rip := 0; rflags := seed_flags; xmm := map xmm_value seed_xmm;
        mxcsr := environment_value parse_mxcsr_seed environment.(seed_mxcsr) DEFAULT_MXCSR;
        st := map st_value seed_st;
        fpu_control_word :=
          environment_value parse_fpu_control_word_seed environment.(seed_fpu_control_word) DEFAULT_FPU_CONTROL_WORD;
        fpu_status_word := 0; fpu_tag_word_abridged := tags |},
     errors ++ seed_errors seed_gpr seed_xmm seed_st environment)
  /\ ((length seed_st <= 8)%nat -> in_width 8 tags /\
      forall i, Z.testbit tags (Z.of_nat i) = match seed_st !! i with Some s => st_seeded s | None => false end).
Proof.
  unfold compose_seed, seed_errors. rewrite compose_environment_spec.
  rewrite compose_environment_spec, compose_gprs_spec, compose_xmms_spec.
  match goal with |- context [compose_sts seed_st 0 0 ?e] =>
    destruct (compose_sts_spec seed_st 0 0 e) as (tags & -> & Htags) end.
  exists tags. split; [by rewrite <- !app_assoc|]. intros Hl.
  destruct (Htags ltac:(lia) ltac:(done)) as [Hw Hbit]. split; [done|]. intros i.
  rewrite Hbit, Z.bits_0, Nat2Z.id, Nat.sub_0_r by lia. cbn [orb]. by destruct (Z.leb_spec (Z.of_nat 0) (Z.of_nat i)); [|lia].
Qed.
End seed.

(** ** Properties *)

(** A text that a field accepts: it is empty, or it has a value. *)
Definition accepted {T} (parse : str -> Result T str) (text : str) : Prop :=
  text = [] \/ exists v, parse text = Ok v.

Definition gpr_accepted {fmt : Fmt} (s : GPRSeed) : Prop :=
  Forall (fun x => accepted parse_seed x.1.1) (slices s).

Definition seed_accepted {fmt : Fmt} (seed_gpr : list GPRSeed) (seed_xmm seed_st : list str)
    (environment : FloatingEnvironmentSeed) : Prop :=
  accepted parse_mxcsr_seed environment.(seed_mxcsr)
  /\ accepted parse_fpu_control_word_seed environment.(seed_fpu_control_word)
  /\ Forall gpr_accepted seed_gpr
  /\ Forall (accepted compose_xmm_seed) seed_xmm /\ Forall (accepted compose_st_seed) seed_st.

Section errors.
Context {fmt : Fmt}.

Lemma errors_from_nil {A} (f : nat -> A -> list str) (P : A -> Prop) l i :
  (forall i x, f i x = [] <-> P x) -> errors_from f i l = [] <-> Forall P l.
Proof.
  intros Hf. revert i. induction l as [|x l IH]; intros i; cbn [errors_from]; [by split|].
  rewrite app_nil, Hf, IH, Forall_cons. done.
Qed.

Lemma environment_error_nil parse text :
  environment_error parse text = [] <-> accepted parse text.
Proof.
  unfold environment_error, accepted. destruct text as [|c t]; [split; [by left | done]|].
  destruct (parse (c :: t)) as [v|e]; split; try done; [by right; exists v|].
  by intros [? | [v ?]].
Qed.

Lemma field_error_nil label text : field_error label text = [] <-> accepted parse_seed text.
Proof.
  unfold field_error, accepted. destruct text as [|c t]; [split; [by left | done]|].
  destruct (parse_seed (c :: t)) as [v|e]; split; try done; [by right; exists v|].
  by intros [? | [v ?]].
Qed.

Lemma gpr_error_nil i s : gpr_error i s = [] <-> gpr_accepted s.
Proof.
  unfold gpr_error, gpr_accepted, slices. cbn [rev app map concat fst].
  rewrite !app_nil, !field_error_nil, !Forall_cons, Forall_nil. tauto.
Qed.

Lemma xmm_error_nil i s : xmm_error i s = [] <-> accepted compose_xmm_seed s.
Proof.
  unfold xmm_error, accepted. destruct (compose_xmm_seed s) as [v|e] eqn:E; split; try done; [by right; exists v|].
  intros [-> | [v ?]]; [by cbn in E | done].
Qed.

Lemma st_error_nil i s : st_error i s = [] <-> accepted compose_st_seed s.
Proof.
  unfold st_error, accepted. destruct (compose_st_seed s) as [v|e] eqn:E; split; try done; [by right; exists v|].
  intros [-> | [v ?]]; [by cbn in E | done].
Qed.

Lemma seed_errors_nil seed_gpr seed_xmm seed_st environment :
  seed_errors seed_gpr seed_xmm seed_st environment = [] <->
  seed_accepted seed_gpr seed_xmm seed_st environment.
Proof.
  unfold seed_errors, seed_accepted. rewrite !app_nil, !environment_error_nil.
  rewrite (errors_from_nil gpr_error gpr_accepted) by apply gpr_error_nil.
  rewrite (errors_from_nil xmm_error (accepted compose_xmm_seed)) by apply xmm_error_nil.
  rewrite (errors_from_nil st_error (accepted compose_st_seed)) by apply st_error_nil. done.
Qed.
End errors.

(** A general seed is accepted exactly when it is empty (zero) or a hexadecimal
    number, with or without its [0x], that fits in 64 bits, and its value is the
    number the digits spell. *)
Theorem parse_seed_correct {fmt : Fmt} s v :
  parse_seed s = Ok v <->
  (s = [] /\ v = 0) \/
  exists ds, hex_text s ds /\ v = digits_value 16 ds /\ v < 2 ^ 64.
Proof. apply parse_seed_spec. Qed.

(** An XMM seed that is not decimal is accepted exactly when it is empty (zero) or
    a hexadecimal number of at most 32 digits, and then the low and the high
    quadword are the two halves of that number. *)
Theorem compose_xmm_seed_correct {fmt : Fmt} s v :
  is_decimal_seed s = false ->
  compose_xmm_seed s = Ok v <->
  (s = [] /\ v = (0, 0)) \/
  exists ds, hex_text s ds /\ (length ds <= 32)%nat /\
    v = (digits_value 16 ds mod 2 ^ 64, digits_value 16 ds / 2 ^ 64).
Proof.
  intros Hdec. split.
  - intros H. destruct (compose_xmm_hex_inv s v Hdec H) as [-> | (ds & Hs & Hl)].
    + left. by injection H as <-.
    + right. exists ds. rewrite (compose_xmm_hex s ds Hs Hl) in H. by injection H as <-.
  - intros [[-> ->] | (ds & Hs & Hl & ->)]; [done | by apply compose_xmm_hex].
Qed.

Lemma compose_xmm_seed_correct_witness :
  is_decimal_seed "0x1ABCDEF0123456789" = false /\
  compose_xmm_seed (fmt := example_fmt) "0x1ABCDEF0123456789" = Ok (0xABCDEF0123456789, 1).
Proof.
  split; [reflexivity|].
  apply (proj2 (compose_xmm_seed_correct (fmt := example_fmt) "0x1ABCDEF0123456789" (0xABCDEF0123456789, 1)
    ltac:(reflexivity))).
  right. exists "1ABCDEF0123456789". split; [|split; [vm_compute; lia | vm_compute; reflexivity]].
  apply hex_text_spec. split; [reflexivity|]. split; [discriminate|]. repeat constructor.
Defined.

(** An ST seed that is not decimal is accepted exactly when it is empty (zero) or a
    hexadecimal number of at most 20 digits, and then the ten bytes are that number,
    least significant byte first: the left padding and the byte pairs lose no digit. *)
Theorem compose_st_seed_correct {fmt : Fmt} s v :
  is_decimal_seed s = false ->
  compose_st_seed s = Ok v <->
  (s = [] /\ v = replicate 10 0) \/
  exists ds, hex_text s ds /\ (length ds <= 20)%nat /\ v = le_bytes 10 (digits_value 16 ds).
Proof.
  intros Hdec. split.
  - intros H. destruct (compose_st_hex_inv s v Hdec H) as [-> | (ds & Hs & Hl)].
    + left. split; [done|]. cbn [compose_st_seed] in H. congruence.
    + right. exists ds. rewrite (compose_st_hex s ds Hs Hl) in H. split; [done|]. split; [done|]. congruence.
  - intros [[-> ->] | (ds & Hs & Hl & ->)]; [done | by apply compose_st_hex].
Qed.

Lemma compose_st_seed_correct_witness :
  is_decimal_seed "3FFF8000000000000000" = false /\
  compose_st_seed (fmt := example_fmt) "3FFF8000000000000000" = Ok [0; 0; 0; 0; 0; 0; 0; 0x80; 0xFF; 0x3F].
Proof.
  split; [reflexivity|].
  apply (proj2 (compose_st_seed_correct (fmt := example_fmt) "3FFF8000000000000000"
    [0; 0; 0; 0; 0; 0; 0; 0x80; 0xFF; 0x3F] ltac:(reflexivity))).
  right. exists "3FFF8000000000000000". split; [|split; [vm_compute; lia | vm_compute; reflexivity]].
  apply hex_text_spec. split; [reflexivity|]. split; [discriminate|]. repeat constructor.
Defined.

(** C32. A plain decimal number, with or without an exponent, is read in the precision its suffix selects and rounded
    once to the nearest value of it.  In an XMM seed a single lands in the low 32 bits
    and a double in the low 64, the rest zero, although the single passes through a
    double; in an ST seed the double of the value is stored.  A magnitude out of the
    range of the precision is an error. *)
Theorem decimal_seed_correct {fmt : Fmt} sign ip fp ex xv sfx single :
  is_plain ip fp ex xv -> suffix sfx single ->
  let text := plain_decimal sign ip fp ex ++ sfx in
  let failure label := format "Invalid {} seed {:?} (expected hex or a decimal value)." [AStr label; AStr text] in
  if single then
    match plain_value sign ip fp xv 24 8 with
    | Some bits => in_width 32 bits /\ compose_xmm_seed text = Ok (bits, 0)
                   /\ compose_st_seed text = Ok (double_to_st80 (double_of_float bits))
    | None => compose_xmm_seed text = Error (failure "XMM") /\ compose_st_seed text = Error (failure "ST")
    end
  else
    match plain_value sign ip fp xv 53 11 with
    | Some bits => in_width 64 bits /\ compose_xmm_seed text = Ok (bits, 0)
                   /\ compose_st_seed text = Ok (double_to_st80 bits)
    | None => compose_xmm_seed text = Error (failure "XMM") /\ compose_st_seed text = Error (failure "ST")
    end.
Proof.
  intros Hplain Hs. cbv zeta.
  rewrite (compose_xmm_plain _ _ _ _ _ Hplain _ _ Hs), (compose_st_plain _ _ _ _ _ Hplain _ _ Hs).
  destruct single; destruct (plain_value _ _ _ _ _ _) as [bits|] eqn:E; cbn [option_map]; try done.
  all: unfold plain_value in E; apply round_decimal_stable in E as [Hw _];
    [done | lia | lia | by apply digits_value_bound].
Qed.

Lemma decimal_seed_correct_witness :
  is_plain "15" "0" "e-1" (-1) /\ compose_xmm_seed (fmt := example_fmt) "-15.0e-1f" = Ok (0xBFC00000, 0).
Proof.
  assert (is_plain "15" "0" "e-1" (-1)) as Hplain.
  { split; [discriminate|]. split; [repeat constructor|]. split; [repeat constructor|].
    apply (exponent_digits "e" ["-"%char] true "1"); [reflexivity | right; right; left; reflexivity | discriminate | repeat constructor]. }
  split; [exact Hplain|].
  pose proof (decimal_seed_correct (fmt := example_fmt) true "15" "0" "e-1" (-1) "f" true Hplain
    (suffix_single "f" (or_introl eq_refl))) as H.
  vm_compute in H. destruct H as (_ & H & _). exact H.
Defined.

(** C31. Each bit of a composed general-purpose register comes from the narrowest slice
    that is present, well formed and covers it ([AL] and [AH] refine [AX], which
    refines [EAX], which refines [RAX]); a bit no slice covers is zero, a malformed
    slice changes nothing, and exactly the malformed slices are reported, the widest
    first, after the earlier messages. *)
Theorem compose_gpr_seed_correct {fmt : Fmt} seed label errors :
  let '(result, errors') := compose_gpr_seed seed label errors in
  in_width 64 result /\
  (forall n, 0 <= n < 64 -> Z.testbit result n = slice_bit (slices seed) n) /\
  errors' = errors ++ concat (map (fun s => field_error label s.1.1) (rev (slices seed))).
Proof.
  pose proof (compose_gpr_seed_in_width seed label errors).
  pose proof (compose_gpr_seed_bit seed label errors).
  pose proof (compose_gpr_seed_errors seed label errors).
  by destruct (compose_gpr_seed seed label errors).
Qed.

Lemma compose_seed_well_formed_lemma {fmt : Fmt} seed_gpr seed_flags seed_xmm seed_st environment errors :
  length seed_gpr = GPR_COUNT -> length seed_xmm = 16%nat -> length seed_st = 8%nat ->
  in_width 64 seed_flags ->
  well_formed (compose_seed seed_gpr seed_flags seed_xmm seed_st environment errors).1.
Proof.
  intros Hg Hx Hst Hfl.
  destruct (compose_seed_spec seed_gpr seed_flags seed_xmm seed_st environment errors) as (tags & -> & Htags).
  destruct (Htags ltac:(lia)) as [Hw _]. cbn [fst]. split; try done; cbn [gpr xmm st mxcsr fpu_control_word].
  - by rewrite length_map.
  - apply Forall_map, Forall_forall. intros s _. apply compose_gpr_seed_in_width.
  - by rewrite length_map.
  - apply Forall_map, Forall_forall. intros s _. cbn. unfold xmm_value.
    destruct (compose_xmm_seed s) eqn:E; [by apply compose_xmm_in_width in E | done].
  - unfold environment_value. destruct (seed_mxcsr environment); [done|].
    destruct (parse_mxcsr_seed _) eqn:E; [|done]. apply parse_mxcsr_seed_spec in E as [E Hle].
    apply parse_seed_in_width in E. unfold in_width, MXCSR_DEFINED_MASK in *. lia.
  - by rewrite length_map.
  - apply Forall_map, Forall_forall. intros s _. cbn. unfold st_value.
    destruct (compose_st_seed s) eqn:E; [by apply compose_st_well_formed in E|].
    split; [done|]. by apply (Forall_replicate _ 10%nat 0).
  - unfold environment_value. destruct (seed_fpu_control_word environment); [done|].
    destruct (parse_fpu_control_word_seed _) eqn:E; [|done].
    by apply parse_fpu_control_word_seed_spec in E as [_ E].
Qed.

(** The composed registers are well formed whatever the texts are: sixteen general
    and sixteen vector registers and eight stack registers, each in its width. *)
Theorem compose_seed_well_formed {fmt : Fmt} seed_gpr seed_flags seed_xmm seed_st environment errors :
  length seed_gpr = GPR_COUNT -> length seed_xmm = 16%nat -> length seed_st = 8%nat ->
  in_width 64 seed_flags ->
  well_formed (compose_seed seed_gpr seed_flags seed_xmm seed_st environment errors).1.
Proof. apply compose_seed_well_formed_lemma. Qed.

Definition empty_environment : FloatingEnvironmentSeed :=
  {| seed_mxcsr := []; seed_fpu_control_word := [] |}.

Lemma compose_seed_well_formed_witness :
  length (replicate 16 GPRSeed_empty) = GPR_COUNT /\
  well_formed (compose_seed (fmt := example_fmt) (replicate 16 GPRSeed_empty) CF (replicate 16 ("2.5" : str))
                 (replicate 8 ("nope" : str)) empty_environment []).1.
Proof.
  split; [reflexivity|]. apply (compose_seed_well_formed (fmt := example_fmt)); try reflexivity.
  split; [discriminate | reflexivity].
Defined.

(** C9. Every field of the composed seed is independent of the others: it holds the
    value of its own text, or its default when the text is empty or malformed; the
    flags are taken as they are, and the tag bit of a stack register is set exactly
    when its text is present and well formed.  The messages are those of the malformed
    fields, in order, and there is none exactly when every field is accepted. *)
Theorem compose_seed_correct {fmt : Fmt} seed_gpr seed_flags seed_xmm seed_st environment errors :
  (length seed_st <= 8)%nat ->
  let '(r, errors') := compose_seed seed_gpr seed_flags seed_xmm seed_st environment errors in
  r.(gpr) = map gpr_value seed_gpr /\ r.(rip) = 0 /\ r.(rflags) = seed_flags
  /\ r.(xmm) = map xmm_value seed_xmm /\ r.(st) = map st_value seed_st
  /\ r.(mxcsr) = environment_value parse_mxcsr_seed environment.(seed_mxcsr) DEFAULT_MXCSR
  /\ r.(fpu_control_word) =
       environment_value parse_fpu_control_word_seed environment.(seed_fpu_control_word) DEFAULT_FPU_CONTROL_WORD
  /\ r.(fpu_status_word) = 0
  /\ (forall i, Z.testbit r.(fpu_tag_word_abridged) (Z.of_nat i)
                = match seed_st !! i with Some s => st_seeded s | None => false end)
  /\ errors' = errors ++ seed_errors seed_gpr seed_xmm seed_st environment
  /\ (seed_errors seed_gpr seed_xmm seed_st environment = [] <->
      seed_accepted seed_gpr seed_xmm seed_st environment).
Proof.
  intros Hl.
  destruct (compose_seed_spec seed_gpr seed_flags seed_xmm seed_st environment errors) as (tags & -> & Htags).
  destruct (Htags Hl) as [_ Hbit]. do 8 (split; [done|]). split; [exact Hbit|].
  split; [done | apply seed_errors_nil].
Qed.

Lemma compose_seed_correct_witness :
  (length [("1.0" : str)%list; ("zz" : str)%list] <= 8)%nat /\
  Z.testbit (compose_seed (fmt := example_fmt) [] 0 [] [("1.0" : str); ("zz" : str)]
               empty_environment []).1.(fpu_tag_word_abridged) (Z.of_nat 0) = true.
Proof.
  split; [vm_compute; lia|].
  pose proof (compose_seed_correct (fmt := example_fmt) [] 0 [] [("1.0" : str); ("zz" : str)]
    empty_environment [] ltac:(vm_compute; lia)) as H.
  destruct (compose_seed _ _ _ _ _ _) as [r errs] eqn:E.
  destruct H as (_ & _ & _ & _ & _ & _ & _ & _ & H & _). cbn [fst].
  rewrite H. vm_compute. reflexivity.
Defined.
