(* ===== verification/RegisterText.v ===== *)
(** * RegisterText: how register values are shown ([src/src/bme_core.cpp], [format_float]
    to [decode_mxcsr]).

    Floating-point values as decimal text, the class of an x87 register, and the fields
    of the control and status words. *)

From S2P Require Import Prelude Text Core X87 FloatText Seed.

Local Open Scope Z_scope.

(** ** Floating-point text *)

Definition contains_char (c : ascii) (text : str) : bool := existsb (fun x => bool_decide (x = c)) text.

Definition is_exponent_delim (c : ascii) : bool := bool_decide (c = "e"%char) || bool_decide (c = "E"%char).

(** [std::isfinite]. *)
Definition is_finite (p ew bits : Z) : bool :=
  match decode p ew bits with FZero _ | FFinite _ _ _ => true | FInfinity _ | FNaN _ _ => false end.

(** The decimal point that [format_float] adds to the text of a value: before the
    exponent when there is one, otherwise at the end of a finite value. *)
Definition add_decimal_point (finite : bool) (text : str) : str :=
  if negb (contains_char "." text) then
    let '(before, rest) := span (fun c => negb (is_exponent_delim c)) text in
    match rest with
    | _ :: _ => before ++ (".0" : str) ++ rest
    | [] => if finite then text ++ (".0" : str) else text
    end
  else text.

Section text.
Context {fmt : Fmt}.

(** [format_float] of the format with [p] bits of precision and [ew] of exponent. *)
Definition format_float (p ew bits : Z) : str :=
  add_decimal_point (is_finite p ew bits) (format "{}" [AFloat p ew bits]).

Definition format_float_single (bits : Z) : str := format_float 24 8 bits ++ ("f" : str).

(** ** The class of an x87 register *)

Definition x87_tag_name (valid : bool) (bytes : list Z) : str :=
  if negb valid then "Empty"
  else
    let mantissa := le_value (take 8 bytes) in
    let exponent := Z.land (Z.lor (Z.shiftl (nth 9 bytes 0) 8) (nth 8 bytes 0)) 0x7FFF in
    if exponent =? 0 then (if mantissa =? 0 then "Zero" else "Special")
    else if (exponent =? 0x7FFF) || (Z.land mantissa 0x8000000000000000 =? 0) then "Special"
    else "Nonzero".

(** ** Control and status words *)

Definition decode_flag_bits (word : Z) (bits : list (str * Z)) : str :=
  let result := concat (map (fun '(name, bit) =>
    if negb (Z.land word bit =? 0) then format " {}" [AStr name] else []) bits) in
  match result with [] => "none" | _ :: names => names end.

Definition X87_PRECISION : list str := ["Real4" : str; "Not Used" : str; "Real8" : str; "Real10" : str].
Definition X87_ROUNDING : list str := ["Round Near" : str; "Round Down" : str; "Round Up" : str; "Truncate" : str].
Definition X87_MASKS : list (str * Z) :=
  [("IM" : str, 0x01); ("DM" : str, 0x02); ("ZM" : str, 0x04); ("OM" : str, 0x08); ("UM" : str, 0x10); ("PM" : str, 0x20)].

Definition decode_x87_control_word (control_word : Z) : list str := [
  format "{} {}" [AStr (nth (Z.to_nat (Z.land (Z.shiftr control_word 8) 3)) X87_PRECISION []);
                  AStr (nth (Z.to_nat (Z.land (Z.shiftr control_word 10) 3)) X87_ROUNDING [])];
  ("Masks: " : str) ++ decode_flag_bits control_word X87_MASKS].

Definition X87_FLAGS : list (str * Z) :=
  [("IE" : str, 0x01); ("DE" : str, 0x02); ("ZE" : str, 0x04); ("OE" : str, 0x08); ("UE" : str, 0x10); ("PE" : str, 0x20);
   ("SF" : str, 0x40); ("ES" : str, 0x80); ("B" : str, 0x8000)].
Definition X87_CONDITION : list (str * Z) := [("C0" : str, 0x100); ("C1" : str, 0x200); ("C2" : str, 0x400); ("C3" : str, 0x4000)].

Definition decode_x87_status_word (status_word : Z) : list str :=
  let top := Z.land (Z.shiftr status_word 11) 7 in [
  format "TOP={} (ST0=x87r{})" [AInt top; AInt top];
  ("Flags: " : str) ++ decode_flag_bits status_word X87_FLAGS;
  ("CC: " : str) ++ decode_flag_bits status_word X87_CONDITION].

Definition MXCSR_ROUNDING : list str :=
  ["Round Near" : str; "Toward Negative" : str; "Toward Positive" : str; "Toward Zero" : str].
Definition MXCSR_MASKS : list (str * Z) :=
  [("IM" : str, 0x80); ("DM" : str, 0x100); ("ZM" : str, 0x200); ("OM" : str, 0x400); ("UM" : str, 0x800); ("PM" : str, 0x1000)].
Definition MXCSR_FLAGS : list (str * Z) :=
  [("IE" : str, 0x01); ("DE" : str, 0x02); ("ZE" : str, 0x04); ("OE" : str, 0x08); ("UE" : str, 0x10); ("PE" : str, 0x20)].
Definition MXCSR_MODES : list (str * Z) := [("DAZ" : str, 0x40); ("FZ" : str, 0x8000)].

Definition decode_mxcsr (mxcsr : Z) : list str := [
  nth (Z.to_nat (Z.land (Z.shiftr mxcsr 13) 3)) MXCSR_ROUNDING [];
  ("Masks: " : str) ++ decode_flag_bits mxcsr MXCSR_MASKS;
  ("Flags: " : str) ++ decode_flag_bits mxcsr MXCSR_FLAGS;
  ("Modes: " : str) ++ decode_flag_bits mxcsr MXCSR_MODES].
End text.

(** ** The text of a value is a seed *)

(** A decimal number: an optional sign, digits, at most one fraction and one exponent. *)
Definition decimal_text (text : str) : Prop :=
  exists (sign : bool) ip fraction ex xv, text = (if sign then ["-"%char] else []) ++ ip ++ fraction_text fraction ++ ex
    /\ is_plain ip (default [] fraction) ex xv.

(** What [fmt] documents for [{}] and a finite value: the shortest decimal number that
    gives the value back. *)
Definition shortest {fmt : Fmt} (p ew bits : Z) : Prop :=
  decimal_text (format "{}" [AFloat p ew bits]) /\ float_from_chars_all p ew (format "{}" [AFloat p ew bits]) = Some bits.

Lemma contains_char_app c a b : contains_char c (a ++ b) = contains_char c a || contains_char c b.
Proof. apply existsb_app. Qed.

Lemma contains_char_Forall c (P : ascii -> Prop) l : Forall P l -> (forall x, P x -> x <> c) -> contains_char c l = false.
Proof.
  intros Hl H. apply not_true_iff_false. intros (x & Hx & E%bool_decide_eq_true)%existsb_exists. rewrite Forall_forall in Hl.
  apply (H x); [apply Hl; by apply list_elem_of_In | done].
Qed.

Lemma digit_not_point c : is_digit 10 c = true -> c <> "."%char.
Proof. intros H ->. discriminate H. Qed.

Lemma digit_not_delim c : is_digit 10 c = true -> negb (is_exponent_delim c) = true.
Proof.
  intros H. assert (implb (is_digit 10 c) (negb (is_exponent_delim c)) = true) as E by all_chars c. by rewrite H in E.
Qed.

Lemma exponent_delim ex v : exponent_text ex v -> match ex with [] => True | c :: _ => negb (is_exponent_delim c) = false end.
Proof.
  intros [|e mark negative ds He _ _ _]; [done|].
  assert (implb (bool_decide (lowercase e = "e"%char)) (is_exponent_delim e) = true) as E by all_chars e.
  rewrite bool_decide_true in E by done. cbn [implb] in E. by rewrite E.
Qed.

Lemma exponent_no_point ex v : exponent_text ex v -> contains_char "." ex = false.
Proof.
  intros [|e mark negative ds He Hm _ Hd]; [done|]. cbn [contains_char existsb]. fold (contains_char "."%char (mark ++ ds)).
  rewrite bool_decide_false by (by intros ->). rewrite contains_char_app, (contains_char_Forall _ _ ds Hd digit_not_point), orb_false_r.
  by destruct Hm as [[= <- _] | [[= <- _] | [[= <- _] | []]]].
Qed.

(** The point goes where a decimal number has it, and the number stays the same. *)
Lemma add_decimal_point_plain p ew text :
  decimal_text text ->
  exists sign ip fp ex xv, add_decimal_point true text = plain_decimal sign ip fp ex /\ is_plain ip fp ex xv
    /\ plain_value sign ip fp xv p ew = float_from_chars_all p ew text.
Proof.
  intros (sign & ip & fraction & ex & xv & -> & Hplain). pose proof Hplain as (Hne & Hip & Hfp & Hex).
  rewrite (float_from_chars_number _ _ _ _ _ _ _ Hne Hip Hfp Hex). unfold plain_value, add_decimal_point.
  assert (contains_char "." (if sign then ["-"%char] else []) = false) as Hs by (by destruct sign).
  rewrite !contains_char_app, Hs, (contains_char_Forall _ _ ip Hip digit_not_point), (exponent_no_point _ _ Hex), orb_false_r. cbn [orb].
  destruct fraction as [fp|]; cbn [default fraction_text app] in *.
  { exists sign, ip, fp, ex, xv. done. }
  exists sign, ip, ["0"%char], ex, xv. cbn [contains_char existsb negb].
  split; [|split; [by split; [|split; [|split; [repeat constructor|]]]|]].
  - assert (Forall (fun c => negb (is_exponent_delim c) = true) ((if sign then ["-"%char] else []) ++ ip)) as Hbefore.
    { apply Forall_app. split; [destruct sign; by repeat constructor|]. eapply Forall_impl; [exact Hip | apply digit_not_delim]. }
    rewrite app_assoc, span_app_all; [|done | by eapply exponent_delim]. unfold plain_decimal.
    destruct ex as [|c ex]; by rewrite ?app_nil_r, <- !app_assoc.
  - cbn [length]. rewrite app_nil_r, digits_value_app. cbn [length]. change (10 ^ Z.of_nat 1) with 10.
    change (digits_value 10 ["0"%char]) with 0. rewrite Z.add_0_r, Z.sub_0_r. change (Z.of_nat 1) with 1.
    apply round_decimal_ten. by apply digits_value_bound.
Qed.

Lemma format_float_seed {fmt : Fmt} bits :
  (shortest 53 11 bits -> is_finite 53 11 bits = true ->
     compose_xmm_seed (format_float 53 11 bits) = Ok (bits, 0)
     /\ compose_st_seed (format_float 53 11 bits) = Ok (double_to_st80 bits))
  /\ (shortest 24 8 bits -> is_finite 24 8 bits = true ->
     compose_xmm_seed (format_float_single bits) = Ok (bits, 0)
     /\ compose_st_seed (format_float_single bits) = Ok (double_to_st80 (double_of_float bits))).
Proof.
  split; intros [Htext Hback] Hfinite; unfold format_float_single, format_float; rewrite Hfinite.
  - destruct (add_decimal_point_plain 53 11 _ Htext) as (sign & ip & fp & ex & xv & -> & Hplain & Hvalue).
    pose proof (compose_xmm_plain sign ip fp ex xv Hplain [] false suffix_none) as Hx.
    pose proof (compose_st_plain sign ip fp ex xv Hplain [] false suffix_none) as Hst.
    rewrite app_nil_r, Hvalue, Hback in Hx, Hst. done.
  - destruct (add_decimal_point_plain 24 8 _ Htext) as (sign & ip & fp & ex & xv & -> & Hplain & Hvalue).
    pose proof (compose_xmm_plain sign ip fp ex xv Hplain "f" true (suffix_single _ (or_introl eq_refl))) as Hx.
    pose proof (compose_st_plain sign ip fp ex xv Hplain "f" true (suffix_single _ (or_introl eq_refl))) as Hst.
    rewrite Hvalue, Hback in Hx, Hst. done.
Qed.

(** C24. A value shown as text can be copied back as a seed: the text of a finite double given
    for an XMM register is that double in its low lane, and for an ST register the same
    value; the text of a finite float, which ends in its suffix, is that float in the low
    lane. *)
Theorem format_float_is_seed {fmt : Fmt} bits :
  (shortest 53 11 bits -> is_finite 53 11 bits = true ->
     compose_xmm_seed (format_float 53 11 bits) = Ok (bits, 0)
     /\ compose_st_seed (format_float 53 11 bits) = Ok (double_to_st80 bits))
  /\ (shortest 24 8 bits -> is_finite 24 8 bits = true ->
     compose_xmm_seed (format_float_single bits) = Ok (bits, 0)
     /\ compose_st_seed (format_float_single bits) = Ok (double_to_st80 (double_of_float bits))).
Proof. apply format_float_seed. Qed.

(** *** 1e20 *)

Definition example_float_fmt : Fmt := {|
  format f args := match args with [AFloat 53 11 _] => "1e+20" | [AFloat _ _ _] => "-1.5" | _ => f end
|}.

Lemma format_float_is_seed_witness :
  format_float (fmt := example_float_fmt) 53 11 0x4415AF1D78B58C40 = "1.0e+20"
  /\ compose_xmm_seed (fmt := example_float_fmt) "1.0e+20" = Ok (0x4415AF1D78B58C40, 0)
  /\ compose_xmm_seed (fmt := example_float_fmt) "-1.5f" = Ok (0xBFC00000, 0).
Proof.
  split; [vm_compute; reflexivity|]. split.
  - apply (format_float_is_seed (fmt := example_float_fmt) 0x4415AF1D78B58C40); [|vm_compute; reflexivity].
    split; [|vm_compute; reflexivity]. exists false, "1", None, "e+20", 20. split; [reflexivity|].
    split; [discriminate|]. split; [repeat constructor|]. split; [constructor|].
    apply (exponent_digits "e" ["+"%char] false "20"); [reflexivity | right; left; reflexivity | discriminate | repeat constructor].
  - apply (format_float_is_seed (fmt := example_float_fmt) 0xBFC00000); [|vm_compute; reflexivity].
    split; [|vm_compute; reflexivity]. exists true, "1", (Some ("5" : str)), [], 0. split; [reflexivity|].
    split; [discriminate|]. split; [repeat constructor|]. split; [repeat constructor|]. constructor.
Defined.
