(* ===== verification/Cli.v ===== *)
(** * Cli: the command line ([src/src/bme_core.cpp], [parse_cli_seed_value] to
    [CLI::parse]).

    The argument parser is a third-party library: [ArgParse] is its interface, the
    values of the options after a successful run. *)

From S2P Require Import Prelude Text Core X87 FloatText Seed.

Local Open Scope Z_scope.

(** [text | std::views::split(delimiter)]. *)
Fixpoint split_on (delimiter : ascii) (text : str) : list str :=
  match text with
  | [] => [[]]
  | c :: text =>
    if bool_decide (c = delimiter) then [] :: split_on delimiter text
    else match split_on delimiter text with
         | part :: parts => (c :: part) :: parts
         | [] => [[c]]
         end
  end.

Definition views_split (text : str) (delimiter : ascii) : list str :=
  match text with [] => [] | _ => split_on delimiter text end.

(** The text before and after the first [=]. *)
Definition split_equals (entry : str) : option (str * str) :=
  let '(name, rest) := span (fun c => negb (bool_decide (c = "="%char))) entry in
  match rest with
  | [] => None
  | _ :: value_text => Some (name, value_text)
  end.

Record CLI : Type := {
  cli_bytes : option str;
  cli_input_file : option str;
  cli_run : bool;
  cli_quick : bool;
  cli_format : OutputFormat;
  cli_pretty_json : bool;
  cli_syntax : DisasmSyntax;
  cli_backend : DisasmBackend;
  cli_max_steps : Z;
  cli_track : TrackMask;
  cli_seed_gpr : list GPRSeed;
  cli_seed_flags : Z;
  cli_seed_xmm : list str;
  cli_seed_st : list str;
  cli_seed_floating_environment : FloatingEnvironmentSeed;
}.

Definition CLI_init : CLI := {|
  cli_bytes := None; cli_input_file := None; cli_run := false; cli_quick := false;
  cli_format := FormatText; cli_pretty_json := false; cli_syntax := Intel; cli_backend := Zydis;
  cli_max_steps := DEFAULT_MAX_STEPS;
  cli_track := {| track_gpr := false; track_rip := false; track_rflags := false;
                  track_xmm := false; track_x87 := false |};
  cli_seed_gpr := replicate GPR_COUNT GPRSeed_empty;
  cli_seed_flags := 0;
  cli_seed_xmm := replicate 16 [];
  cli_seed_st := replicate 8 [];
  cli_seed_floating_environment := {| seed_mxcsr := []; seed_fpu_control_word := [] |};
|}.

(** Assignments to the seed fields of a [CLI]. *)
Definition with_seeds (cli : CLI) (g : list GPRSeed) (flags : Z) (x s : list str)
    (environment : FloatingEnvironmentSeed) : CLI := {|
  cli_bytes := cli.(cli_bytes); cli_input_file := cli.(cli_input_file); cli_run := cli.(cli_run);
  cli_quick := cli.(cli_quick); cli_format := cli.(cli_format); cli_pretty_json := cli.(cli_pretty_json);
  cli_syntax := cli.(cli_syntax); cli_backend := cli.(cli_backend); cli_max_steps := cli.(cli_max_steps);
  cli_track := cli.(cli_track); cli_seed_gpr := g; cli_seed_flags := flags; cli_seed_xmm := x;
  cli_seed_st := s; cli_seed_floating_environment := environment;
|}.

Definition set_environment (cli : CLI) (environment : FloatingEnvironmentSeed) : CLI :=
  with_seeds cli cli.(cli_seed_gpr) cli.(cli_seed_flags) cli.(cli_seed_xmm) cli.(cli_seed_st) environment.

Definition set_xmm (cli : CLI) (i : nat) (text : str) : CLI :=
  with_seeds cli cli.(cli_seed_gpr) cli.(cli_seed_flags) (<[i := text]> cli.(cli_seed_xmm)) cli.(cli_seed_st)
    cli.(cli_seed_floating_environment).

Definition set_st (cli : CLI) (i : nat) (text : str) : CLI :=
  with_seeds cli cli.(cli_seed_gpr) cli.(cli_seed_flags) cli.(cli_seed_xmm) (<[i := text]> cli.(cli_seed_st))
    cli.(cli_seed_floating_environment).

Definition set_flags (cli : CLI) (flags : Z) : CLI :=
  with_seeds cli cli.(cli_seed_gpr) flags cli.(cli_seed_xmm) cli.(cli_seed_st)
    cli.(cli_seed_floating_environment).

(** The fields of a [GPRSeed], as the targets of the pointer [slice]. *)
Inductive Slice : Type := SFull | SDword | SWord | SByteHigh | SByteLow.

#[export] Instance Slice_eq_dec : EqDecision Slice.
Proof. solve_decision. Defined.

Definition set_slice (seed : GPRSeed) (slice : Slice) (text : str) : GPRSeed := {|
  full := if bool_decide (slice = SFull) then text else seed.(full);
  dword := if bool_decide (slice = SDword) then text else seed.(dword);
  word := if bool_decide (slice = SWord) then text else seed.(word);
  byte_high := if bool_decide (slice = SByteHigh) then text else seed.(byte_high);
  byte_low := if bool_decide (slice = SByteLow) then text else seed.(byte_low);
|}.

Definition set_gpr (cli : CLI) (reg : nat) (slice : Slice) (text : str) : CLI :=
  with_seeds cli (alter (fun seed => set_slice seed slice text) reg cli.(cli_seed_gpr))
    cli.(cli_seed_flags) cli.(cli_seed_xmm) cli.(cli_seed_st) cli.(cli_seed_floating_environment).

(** ** Names *)

Definition is_letter (upper lower : ascii) (c : ascii) : bool :=
  bool_decide (c = lower) || bool_decide (c = upper).

Definition parse_xmm_seed_index (text : str) : option nat :=
  match text with
  | a :: b :: c :: (_ :: _) as digits =>
    if is_letter "X" "x" a && is_letter "M" "m" b && is_letter "M" "m" c then
      match from_chars_all 10 64 digits with
      | Some result => if 16 <=? result then None else Some (Z.to_nat result)
      | None => None
      end
    else None
  | _ => None
  end.

Definition parse_st_seed_index (text : str) : option nat :=
  match text with
  | [a; b; c] =>
    if is_letter "S" "s" a && is_letter "T" "t" b then
      match from_chars_all 10 64 [c] with
      | Some result => if 8 <=? result then None else Some (Z.to_nat result)
      | None => None
      end
    else None
  | _ => None
  end.

(** The slice of register [reg] that a name selects. *)
Definition slice_of (name : str) (reg : nat) : option Slice :=
  if ascii_case_insensitive_equal name (nth reg REG_NAMES []) then Some SFull
  else if ascii_case_insensitive_equal name (nth reg GPR_NAMES_32 []) then Some SDword
  else if ascii_case_insensitive_equal name (nth reg GPR_NAMES_16 []) then Some SWord
  else if ascii_case_insensitive_equal name (nth reg GPR_NAMES_8L []) then Some SByteLow
  else if (reg <? length GPR_NAMES_8H)%nat && ascii_case_insensitive_equal name (nth reg GPR_NAMES_8H [])
  then Some SByteHigh
  else None.

(** The loop over the registers from [reg] on, with [n] of them left. *)
Fixpoint find_slice (name : str) (reg n : nat) : Result (option (nat * Slice)) str :=
  match n with
  | O => Ok None
  | S n =>
    match slice_of name reg with
    | Some slice =>
      if (reg =? reg_index RSP)%nat then
        Error ("`--seed` can't set RSP or its sub-registers. RSP is engine-controlled (reset to the scratch-stack top)." : str)
      else Ok (Some (reg, slice))
    | None => find_slice name (S reg) n
    end
  end.

Definition find_flag (name : str) : option Z :=
  snd <$> find (fun flag => ascii_case_insensitive_equal name flag.1) STATUS_FLAGS.

(** ** The seed argument *)

Section cli.
Context {fmt : Fmt}.

Definition parse_cli_seed_value (text : str) : Result Z str :=
  match parse_seed text, text with
  | Ok value, _ :: _ => Ok value
  | _, _ => Error (format "Invalid `--seed` value {:?} (expected hex)." [AStr text])
  end.

(** One entry of the list: the body of the loop. *)
Definition parse_cli_seed_entry (entry : str) (cli : CLI) : Result CLI str :=
  match entry with
  | [] => Ok cli
  | _ =>
    match split_equals entry with
    | None => Error (format "Invalid `--seed` entry {:?} (expected name=value)." [AStr entry])
    | Some (name, value_text) =>
      let environment := cli.(cli_seed_floating_environment) in
      if bool_decide (value_text = []) then
        Error (format "Invalid `--seed` entry {:?} (expected a non-empty value)." [AStr entry])
      else if ascii_case_insensitive_equal name "mxcsr" then
        let? _ := parse_mxcsr_seed value_text in
        Ok (set_environment cli {| seed_mxcsr := value_text;
                                   seed_fpu_control_word := environment.(seed_fpu_control_word) |})
      else if ascii_case_insensitive_equal name "control_word" then
        let? _ := parse_fpu_control_word_seed value_text in
        Ok (set_environment cli {| seed_mxcsr := environment.(seed_mxcsr);
                                   seed_fpu_control_word := value_text |})
      else
        match parse_xmm_seed_index name with
        | Some xmm_index => let? _ := compose_xmm_seed value_text in Ok (set_xmm cli xmm_index value_text)
        | None =>
          match parse_st_seed_index name with
          | Some st_index => let? _ := compose_st_seed value_text in Ok (set_st cli st_index value_text)
          | None =>
            match find_slice name 0 GPR_COUNT with
            | Error e => Error e
            | Ok (Some (reg, slice)) =>
              let? _ := parse_cli_seed_value value_text in Ok (set_gpr cli reg slice value_text)
            | Ok None =>
              match find_flag name with
              | Some bit =>
                let? value := parse_cli_seed_value value_text in
                Ok (set_flags cli (if negb (value =? 0) then Z.lor cli.(cli_seed_flags) bit
                                   else Z.land cli.(cli_seed_flags) (u64 (Z.lnot bit))))
              | None =>
                Error (format
                  "Unknown `--seed` name {:?} (expected a GPR slice, XMM0..15, ST0..7, MXCSR, control_word, or a flag CF/PF/AF/ZF/SF/DF/OF)."
                  [AStr name])
              end
            end
          end
        end
    end
  end.

Fixpoint parse_cli_seed_entries (entries : list str) (cli : CLI) : Result CLI str :=
  match entries with
  | [] => Ok cli
  | entry :: entries => let? cli := parse_cli_seed_entry entry cli in parse_cli_seed_entries entries cli
  end.

(** The destination is the result; after an error the caller drops it. *)
Definition parse_cli_seed_argument (seed_text : str) (cli : CLI) : Result CLI str :=
  parse_cli_seed_entries (views_split seed_text ",") cli.
End cli.

(** ** The options *)

Record Arguments : Type := {
  arg_bytes : option str;
  arg_file : option str;
  arg_run : bool;
  arg_syntax : str;
  arg_max_steps : option str;
  arg_quick : bool;
  arg_format : str;
  arg_format_used : bool;
  arg_pretty : bool;
  arg_track : option str;
  arg_seed : option str;
  arg_backend : str;
}.

(** [program.parse_args(argc, argv)]: the options, or the text of the exception and the
    usage text. *)
Class ArgParse : Type := { parse_args : list str -> Result Arguments (str * str) }.

Definition DEFAULT_TRACK : TrackMask :=
  {| track_gpr := true; track_rip := true; track_rflags := true; track_xmm := false; track_x87 := false |}.

Section parse.
Context {fmt : Fmt} {argparse : ArgParse}.

Definition parse_max_steps (text : option str) : Result Z str :=
  match text with
  | None => Ok DEFAULT_MAX_STEPS
  | Some max_steps_text =>
    let failure :=
      Error (format "Invalid `--max-steps` value {:?} (expected a positive integer)." [AStr max_steps_text]) in
    match from_chars_all 10 64 max_steps_text with
    | Some max_steps => if max_steps =? 0 then failure else Ok (Z.min max_steps MAX_STEPS_LIMIT)
    | None => failure
    end
  end.

Definition track_token (token : str) (track : TrackMask) : Result TrackMask str :=
  let '(g, i, f, x, e) := (track.(track_gpr), track.(track_rip), track.(track_rflags), track.(track_xmm), track.(track_x87)) in
  let mask g i f x e :=
    Ok {| track_gpr := g; track_rip := i; track_rflags := f; track_xmm := x; track_x87 := e |} in
  if bool_decide (token = "gpr") then mask true i f x e
  else if bool_decide (token = "rip") then mask g true f x e
  else if bool_decide (token = "rflags") || bool_decide (token = "flags") then mask g i true x e
  else if bool_decide (token = "xmm") || bool_decide (token = "sse") then mask g i f true e
  else if bool_decide (token = "x87") || bool_decide (token = "fpu") then mask g i f x true
  else if bool_decide (token = "all") then mask true true true true true
  else if negb (bool_decide (token = [])) && negb (bool_decide (token = "none")) then
    Error (format "Unknown `--track` class {:?} (expected gpr, rip, rflags, xmm, x87, all, or none)." [AStr token])
  else Ok track.

Fixpoint track_tokens (tokens : list str) (track : TrackMask) : Result TrackMask str :=
  match tokens with
  | [] => Ok track
  | token :: tokens => let? track := track_token token track in track_tokens tokens track
  end.

Definition parse_track (text : option str) : Result TrackMask str :=
  match text with
  | None => Ok DEFAULT_TRACK
  | Some track_text => track_tokens (views_split track_text ",") CLI_init.(cli_track)
  end.

(** The checks after the arguments are parsed. *)
Definition CLI_of_arguments (program : Arguments) : Result CLI str :=
  let quick := program.(arg_quick) in
  if program.(arg_format_used) && negb quick then Error ("`--format` requires `--quick`." : str)
  else
    let format_is_json := bool_decide (program.(arg_format) = "json") in
    let pretty_json := program.(arg_pretty) in
    if pretty_json && (negb quick || negb format_is_json) then
      Error ("`--pretty` requires `--quick --format json`." : str)
    else if format_is_json && bool_decide (program.(arg_track) <> None) then
      Error ("`--track` cannot be used with `--format json` because JSON always includes full register state." : str)
    else
      let? max_steps := parse_max_steps program.(arg_max_steps) in
      let? track := parse_track program.(arg_track) in
      let? result := match program.(arg_seed) with
                     | Some seed_text => parse_cli_seed_argument seed_text CLI_init
                     | None => Ok CLI_init
                     end in
      let syntax := if bool_decide (program.(arg_syntax) = "att") then ATT else Intel in
      let backend := backend_from_cli program.(arg_backend) in
      if negb (backend_supports backend syntax) then
        Error (format "The {} backend only emits Intel syntax (use `--syntax intel`)."
                 [AStr (backend_info backend).(bi_name)])
      else
        Ok {| cli_bytes := program.(arg_bytes); cli_input_file := program.(arg_file);
              cli_run := program.(arg_run); cli_quick := quick;
              cli_format := if format_is_json then FormatJson else FormatText;
              cli_pretty_json := pretty_json; cli_syntax := syntax; cli_backend := backend;
              cli_max_steps := max_steps; cli_track := track;
              cli_seed_gpr := result.(cli_seed_gpr); cli_seed_flags := result.(cli_seed_flags);
              cli_seed_xmm := result.(cli_seed_xmm); cli_seed_st := result.(cli_seed_st);
              cli_seed_floating_environment := result.(cli_seed_floating_environment) |}.

Definition CLI_parse (argv : list str) : Result CLI str :=
  match parse_args argv with
  | Error (what, usage) => Error (format "{}\n\t{}" [AStr what; AStr usage])
  | Ok program => CLI_of_arguments program
  end.
End parse.

(** ** Splitting *)

Lemma split_on_parts d text : Forall (fun part => d ∉ part) (split_on d text) /\ split_on d text <> [].
Proof.
  induction text as [|c text [IH Hne]]; cbn [split_on].
  - split; [|done]. constructor; [apply not_elem_of_nil | constructor].
  - case_bool_decide as Hc.
    + split; [|done]. constructor; [apply not_elem_of_nil | done].
    + destruct (split_on d text) as [|part parts]; [done|]. inversion IH as [|? ? Hp Hps]; subst.
      split; [|done]. constructor; [|done]. apply not_elem_of_cons. split; [congruence | done].
Qed.

Lemma split_on_join d text : join [d] (split_on d text) = text.
Proof.
  induction text as [|c text IH]; cbn [split_on]; [done|].
  pose proof (split_on_parts d text) as [_ Hne].
  destruct (split_on d text) as [|part parts]; [done|]. case_bool_decide as Hc.
  - subst c. cbn [join app]. by f_equal.
  - destruct parts as [|p parts]; cbn [join app] in *; by f_equal.
Qed.

Lemma split_equals_spec entry name value_text :
  split_equals entry = Some (name, value_text) <->
  entry = name ++ "="%char :: value_text /\ "="%char ∉ name.
Proof.
  unfold split_equals. split.
  - pose proof (span_app (fun c => negb (bool_decide (c = "="%char))) entry) as Happ.
    pose proof (span_all (fun c => negb (bool_decide (c = "="%char))) entry) as Hall.
    pose proof (span_stop (fun c => negb (bool_decide (c = "="%char))) entry) as Hstop.
    destruct (span _ entry) as [n r]; cbn [fst snd] in *. destruct r as [|c r]; [done|].
    intros [= <- <-]. specialize (Hstop c r eq_refl). apply negb_false_iff, bool_decide_eq_true in Hstop as ->.
    split; [done|]. intros Hin. rewrite Forall_forall in Hall. by apply Hall in Hin.
  - intros [-> Hn]. rewrite span_app_all; [done | | done].
    apply Forall_forall. intros c Hc. apply negb_true_iff, bool_decide_eq_false. by intros ->.
Qed.

(** ** Register names *)

(** The name of a slice of a register, if it has one. *)
Definition slice_name (reg : nat) (slice : Slice) : option str :=
  match slice with
  | SFull => take GPR_COUNT REG_NAMES !! reg
  | SDword => GPR_NAMES_32 !! reg
  | SWord => GPR_NAMES_16 !! reg
  | SByteHigh => GPR_NAMES_8H !! reg
  | SByteLow => GPR_NAMES_8L !! reg
  end.

Definition all_slices : list Slice := [SFull; SDword; SWord; SByteLow; SByteHigh].

(** All the names, in lower case, with what they name. *)
Definition named_slices : list (str * (nat * Slice)) :=
  concat (map (fun reg => omap (fun slice =>
    (fun name => (map lowercase name, (reg, slice))) <$> slice_name reg slice) all_slices) (seq 0 GPR_COUNT)).

Lemma named_slices_NoDup : NoDup (map fst named_slices).
Proof. apply (bool_decide_eq_true_1 _). vm_compute. reflexivity. Qed.

Lemma named_slices_spec n reg slice :
  (n, (reg, slice)) ∈ named_slices <->
  (reg < GPR_COUNT)%nat /\ exists name, slice_name reg slice = Some name /\ n = map lowercase name.
Proof.
  unfold named_slices. rewrite list_elem_of_In, in_concat. split.
  - intros (l & Hl & Hin). apply in_map_iff in Hl as (r & <- & Hr). apply in_seq in Hr.
    apply list_elem_of_In, list_elem_of_omap in Hin as (s & _ & Hs).
    destruct (slice_name r s) as [name|] eqn:E; [|done]. cbn in Hs. injection Hs as <- <- <-.
    split; [lia|]. by exists name.
  - intros (Hr & name & Hname & ->).
    eexists. split; [apply in_map_iff; exists reg; split; [reflexivity | apply in_seq; lia]|].
    apply list_elem_of_In, list_elem_of_omap. exists slice.
    split; [|by rewrite Hname]. unfold all_slices. rewrite !elem_of_cons. destruct slice; tauto.
Qed.

(** Does a name, letter case ignored, name this slice? *)
Definition names (name : str) (reg : nat) (slice : Slice) : Prop :=
  (map lowercase name, (reg, slice)) ∈ named_slices.

Lemma names_unique name reg slice reg' slice' :
  names name reg slice -> names name reg' slice' -> (reg, slice) = (reg', slice').
Proof.
  unfold names. rewrite !list_elem_of_lookup. intros [i Hi] [j Hj].
  assert (i = j) as ->.
  { apply (NoDup_lookup (map fst named_slices) i j (map lowercase name)).
    - apply named_slices_NoDup.
    - by rewrite list_lookup_fmap, Hi.
    - by rewrite list_lookup_fmap, Hj. }
  congruence.
Qed.

Lemma names_spec name reg slice :
  names name reg slice <->
  (reg < GPR_COUNT)%nat /\ exists n, slice_name reg slice = Some n /\ ascii_case_insensitive_equal name n = true.
Proof.
  unfold names. rewrite named_slices_spec. split; intros (? & n & Hn & H); split; try done; exists n;
    (split; [done|]); by apply ascii_case_insensitive_equal_map.
Qed.

Lemma slice_of_spec name reg slice :
  (reg < GPR_COUNT)%nat -> slice_of name reg = Some slice <-> names name reg slice.
Proof.
  intros Hreg.
  assert (forall s n, slice_name reg s = Some n -> ascii_case_insensitive_equal name n = true ->
            names name reg s) as Hnames.
  { intros s n Hn He. apply names_spec. split; [done|]. by exists n. }
  assert (slice_name reg SFull = Some (nth reg REG_NAMES []) /\
          slice_name reg SDword = Some (nth reg GPR_NAMES_32 []) /\
          slice_name reg SWord = Some (nth reg GPR_NAMES_16 []) /\
          slice_name reg SByteLow = Some (nth reg GPR_NAMES_8L []) /\
          slice_name reg SByteHigh =
            (if (reg <? length GPR_NAMES_8H)%nat then Some (nth reg GPR_NAMES_8H []) else None)) as (HF & HD & HW & HL & HH).
  { unfold GPR_COUNT in Hreg. do 16 (destruct reg as [|reg]; [done|]). lia. }
  unfold slice_of. split.
  - intros H. destruct (ascii_case_insensitive_equal name (nth reg REG_NAMES [])) eqn:E1; [injection H as <-; eauto|].
    destruct (ascii_case_insensitive_equal name (nth reg GPR_NAMES_32 [])) eqn:E2; [injection H as <-; eauto|].
    destruct (ascii_case_insensitive_equal name (nth reg GPR_NAMES_16 [])) eqn:E3; [injection H as <-; eauto|].
    destruct (ascii_case_insensitive_equal name (nth reg GPR_NAMES_8L [])) eqn:E4; [injection H as <-; eauto|].
    destruct (reg <? _)%nat eqn:E5; [|done]. cbn [andb] in H.
    destruct (ascii_case_insensitive_equal name (nth reg GPR_NAMES_8H [])) eqn:E6; [injection H as <-; eauto | done].
  - intros Hs. pose proof Hs as (_ & n & Hn & He)%names_spec.
    assert (forall s n', slice_name reg s = Some n' -> ascii_case_insensitive_equal name n' = true -> s = slice) as Hu.
    { intros s n' Hn' He'. pose proof (names_unique _ _ _ _ _ (Hnames s n' Hn' He') Hs). congruence. }
    destruct (ascii_case_insensitive_equal name (nth reg REG_NAMES [])) eqn:E1; [f_equal; eauto|].
    destruct (ascii_case_insensitive_equal name (nth reg GPR_NAMES_32 [])) eqn:E2; [f_equal; eauto|].
    destruct (ascii_case_insensitive_equal name (nth reg GPR_NAMES_16 [])) eqn:E3; [f_equal; eauto|].
    destruct (ascii_case_insensitive_equal name (nth reg GPR_NAMES_8L [])) eqn:E4; [f_equal; eauto|].
    destruct slice; rewrite ?HF, ?HD, ?HW, ?HL, ?HH in Hn; try congruence.
    destruct (reg <? _)%nat; [|done].
    assert (nth reg GPR_NAMES_8H [] = n) as -> by congruence. by rewrite He.
Qed.

(** The loop finds the one slice the name names, from [reg] on. *)
Lemma find_slice_spec name reg n :
  (reg + n = GPR_COUNT)%nat ->
  match find_slice name reg n with
  | Ok (Some (r, slice)) => names name r slice /\ r <> reg_index RSP /\ (reg <= r)%nat
  | Ok None => forall r slice, (reg <= r)%nat -> ~ names name r slice
  | Error _ => exists slice, names name (reg_index RSP) slice
  end.
Proof.
  revert reg. induction n as [|n IH]; intros reg Hn; cbn [find_slice].
  - intros r slice Hr Hs%names_spec. lia.
  - destruct (slice_of name reg) as [slice|] eqn:E.
    + apply slice_of_spec in E; [|lia]. destruct (Nat.eqb_spec reg (reg_index RSP)) as [->|Hne]; eauto.
    + specialize (IH (S reg) ltac:(lia)).
      destruct (find_slice name (S reg) n) as [[[r slice]|]|e]; [|intros r slice Hr Hs|done].
      * destruct IH as (? & ? & ?). split; [done|]. split; [done|lia].
      * destruct (decide (r = reg)) as [->|]; [|apply (IH r slice); [lia | done]].
        apply slice_of_spec in Hs; [congruence | lia].
Qed.

(** ** The invariant of the seed fields *)

Section seeds.
Context {fmt : Fmt}.

Record seeds_valid (cli : CLI) : Prop := {
  sv_gpr : length cli.(cli_seed_gpr) = GPR_COUNT;
  sv_xmm : length cli.(cli_seed_xmm) = 16%nat;
  sv_st : length cli.(cli_seed_st) = 8%nat;
  sv_accepted : seed_accepted cli.(cli_seed_gpr) cli.(cli_seed_xmm) cli.(cli_seed_st)
                  cli.(cli_seed_floating_environment);
  sv_rsp : cli.(cli_seed_gpr) !! reg_index RSP = Some GPRSeed_empty;
  sv_flags : forall n, Z.testbit cli.(cli_seed_flags) n = true -> Z.testbit RFLAGS_STATUS_MASK n = true;
  sv_flags_width : in_width 64 cli.(cli_seed_flags);
}.

Lemma Forall_repeat {A} (P : A -> Prop) n x : P x -> Forall P (replicate n x).
Proof. intros Hx. by apply Forall_replicate. Qed.

Lemma accepted_nil {T} (parse : str -> Result T str) : accepted parse [].
Proof. by left. Qed.

Lemma CLI_init_valid : seeds_valid CLI_init.
Proof.
  split; try done.
  - repeat split; try apply accepted_nil; apply Forall_repeat; try apply accepted_nil.
    repeat constructor; apply accepted_nil.
  - intros n. cbn [CLI_init cli_seed_flags]. by rewrite Z.bits_0.
Qed.

Lemma parse_cli_seed_value_spec text v :
  parse_cli_seed_value text = Ok v <-> text <> [] /\ parse_seed text = Ok v.
Proof.
  unfold parse_cli_seed_value. destruct (parse_seed text) as [x|e] eqn:E, text as [|c t].
  - split; [done | by intros []].
  - split; [by intros [= ->] | by intros [_ [= ->]]].
  - split; [done | by intros []].
  - split; [done | by intros [_ ?]].
Qed.

Lemma set_slice_accepted seed slice text v :
  gpr_accepted seed -> parse_seed text = Ok v -> gpr_accepted (set_slice seed slice text).
Proof.
  intros Hs Hv. assert (accepted parse_seed text) as Ht by (right; by exists v).
  unfold gpr_accepted, slices in *. rewrite !Forall_cons in *. cbn [fst set_slice full dword word byte_high byte_low] in *.
  destruct slice; repeat case_bool_decide; try done; tauto.
Qed.

Lemma set_gpr_valid cli reg slice text v :
  seeds_valid cli -> reg <> reg_index RSP -> parse_seed text = Ok v -> seeds_valid (set_gpr cli reg slice text).
Proof.
  intros [Hg Hx Hs (H1 & H2 & H3 & H4 & H5) Hrsp Hf Hw] Hne Hv. split; try done; cbn [set_gpr with_seeds cli_seed_gpr].
  - by rewrite length_alter.
  - repeat split; try done. apply Forall_alter; [done|]. intros x Hx' ?. by eapply set_slice_accepted.
  - by rewrite list_lookup_alter_ne.
Qed.

Lemma set_xmm_valid cli i text v :
  seeds_valid cli -> compose_xmm_seed text = Ok v -> seeds_valid (set_xmm cli i text).
Proof.
  intros [Hg Hx Hs (H1 & H2 & H3 & H4 & H5) Hrsp Hf Hw] Hv. split; try done; cbn [set_xmm with_seeds cli_seed_xmm].
  - by rewrite length_insert.
  - repeat split; try done. apply Forall_insert; [done|]. right. by exists v.
Qed.

Lemma set_st_valid cli i text v :
  seeds_valid cli -> compose_st_seed text = Ok v -> seeds_valid (set_st cli i text).
Proof.
  intros [Hg Hx Hs (H1 & H2 & H3 & H4 & H5) Hrsp Hf Hw] Hv. split; try done; cbn [set_st with_seeds cli_seed_st].
  - by rewrite length_insert.
  - repeat split; try done. apply Forall_insert; [done|]. right. by exists v.
Qed.

Lemma find_flag_status name bit :
  find_flag name = Some bit -> in_width 64 bit /\ (forall n, Z.testbit bit n = true -> Z.testbit RFLAGS_STATUS_MASK n = true).
Proof.
  intros H. assert (bit ∈ map snd STATUS_FLAGS) as Hin.
  { unfold find_flag in H. destruct (find _ STATUS_FLAGS) as [x|] eqn:E; [|done].
    apply find_some in E as [E _]. injection H as <-. by apply list_elem_of_In, in_map. }
  assert (Forall (fun b => in_width 64 b /\ Z.land b RFLAGS_STATUS_MASK = b) (map snd STATUS_FLAGS)) as Hall.
  { apply (bool_decide_eq_true_1 _). vm_compute. reflexivity. }
  rewrite Forall_forall in Hall. destruct (Hall bit Hin) as [Hw E]. split; [done|].
  intros n Hn. rewrite <- E in Hn. rewrite Z.land_spec in Hn. apply andb_true_iff in Hn. apply Hn.
Qed.

Lemma set_flags_valid cli bit (b : bool) :
  seeds_valid cli -> in_width 64 bit ->
  (forall n, Z.testbit bit n = true -> Z.testbit RFLAGS_STATUS_MASK n = true) ->
  seeds_valid (set_flags cli (if b then Z.lor cli.(cli_seed_flags) bit
                              else Z.land cli.(cli_seed_flags) (u64 (Z.lnot bit)))).
Proof.
  intros [Hg Hx Hs Ha Hrsp Hf Hw] Hbw Hb. split; try done; cbn [set_flags with_seeds cli_seed_flags].
  - intros n. destruct b.
    + rewrite Z.lor_spec, orb_true_iff. intros [?|?]; auto.
    + rewrite Z.land_spec, andb_true_iff. intros [? _]; auto.
  - destruct b; [by apply lor_in_width|]. apply land_in_width; [lia | apply Hw | by apply wrap_in_width].
Qed.

Lemma parse_cli_seed_entry_valid entry cli cli' :
  seeds_valid cli -> parse_cli_seed_entry entry cli = Ok cli' -> seeds_valid cli'.
Proof.
  intros Hc H. unfold parse_cli_seed_entry in H. destruct entry as [|c entry]; [by injection H as <-|].
  destruct (split_equals (c :: entry)) as [[name text]|]; [|done].
  case_bool_decide as Hne; [done|]. cbv zeta in H.
  pose proof Hc as [Hg Hx Hs (H1 & H2 & H3 & H4 & H5) Hrsp Hf Hw].
  destruct (ascii_case_insensitive_equal name "mxcsr").
  { destruct (parse_mxcsr_seed text) as [v|] eqn:E; [|done]. injection H as <-.
    split; try done. repeat split; try done. right. by exists v. }
  destruct (ascii_case_insensitive_equal name "control_word").
  { destruct (parse_fpu_control_word_seed text) as [v|] eqn:E; [|done]. injection H as <-.
    split; try done. repeat split; try done. right. by exists v. }
  destruct (parse_xmm_seed_index name) as [i|].
  { destruct (compose_xmm_seed text) as [v|] eqn:E; [|done]. injection H as <-. by eapply set_xmm_valid. }
  destruct (parse_st_seed_index name) as [i|].
  { destruct (compose_st_seed text) as [v|] eqn:E; [|done]. injection H as <-. by eapply set_st_valid. }
  pose proof (find_slice_spec name 0 GPR_COUNT eq_refl) as Hfind.
  destruct (find_slice name 0 GPR_COUNT) as [[[reg slice]|]|e]; [| |done].
  - destruct (parse_cli_seed_value text) as [v|] eqn:E; [|done]. injection H as <-.
    apply parse_cli_seed_value_spec in E as [_ E]. eapply set_gpr_valid; [done | apply Hfind | exact E].
  - destruct (find_flag name) as [bit|] eqn:Eb; [|done].
    destruct (parse_cli_seed_value text) as [v|] eqn:E; [|done]. injection H as <-.
    apply find_flag_status in Eb as [? ?]. by apply set_flags_valid.
Qed.

Lemma parse_cli_seed_entries_valid entries cli cli' :
  seeds_valid cli -> parse_cli_seed_entries entries cli = Ok cli' -> seeds_valid cli'.
Proof.
  revert cli. induction entries as [|e entries IH]; intros cli Hc H; cbn in H; [by injection H as <-|].
  destruct (parse_cli_seed_entry e cli) as [cli1|] eqn:E; [|done].
  eapply IH; [|exact H]. by eapply parse_cli_seed_entry_valid.
Qed.

Lemma parse_cli_seed_argument_valid text cli cli' :
  seeds_valid cli -> parse_cli_seed_argument text cli = Ok cli' -> seeds_valid cli'.
Proof. apply parse_cli_seed_entries_valid. Qed.

(** The fields of a [CLI] that are not seeds. *)
Lemma parse_max_steps_range text v : parse_max_steps text = Ok v -> 1 <= v <= MAX_STEPS_LIMIT.
Proof.
  unfold parse_max_steps. destruct text as [t|]; [|intros [= <-]; vm_compute; done].
  destruct (from_chars_all 10 64 t) as [m|] eqn:E; [|done].
  apply from_chars_all_spec in E as (_ & _ & -> & _).
  pose proof (digits_value_bound 10 t ltac:(lia)).
  destruct (Z.eqb_spec (digits_value 10 t) 0); [done|]. intros [= <-]. unfold MAX_STEPS_LIMIT. lia.
Qed.

End seeds.

(** ** Properties *)

(** Register names in the seed argument are unambiguous: the search through the name
    tables finds a slice exactly when the name is, letter case ignored, the name of
    that slice of that register; every name of a slice of RSP is refused, and a name
    outside the tables finds nothing. *)
Theorem find_slice_correct name :
  (forall reg slice,
     find_slice name 0 GPR_COUNT = Ok (Some (reg, slice)) <->
     reg <> reg_index RSP /\ (reg < GPR_COUNT)%nat /\
     exists n, slice_name reg slice = Some n /\ map lowercase name = map lowercase n)
  /\ (is_ok (find_slice name 0 GPR_COUNT) = false <->
      exists slice n, slice_name (reg_index RSP) slice = Some n /\ map lowercase name = map lowercase n).
Proof.
  assert (forall reg slice, names name reg slice <-> (reg < GPR_COUNT)%nat /\
    exists n, slice_name reg slice = Some n /\ map lowercase name = map lowercase n) as Hnames.
  { intros reg slice. rewrite names_spec. by setoid_rewrite ascii_case_insensitive_equal_map. }
  pose proof (find_slice_spec name 0 GPR_COUNT eq_refl) as Hfind. split.
  - intros reg slice. rewrite <- (Hnames reg slice).
    destruct (find_slice name 0 GPR_COUNT) as [[[r s]|]|e].
    + destruct Hfind as (Hs & Hne & _). split; [by intros [= <- <-]|].
      intros [_ Hs']. by injection (names_unique _ _ _ _ _ Hs Hs') as -> ->.
    + split; [done|]. intros [_ Hs]. destruct (Hfind reg slice (Nat.le_0_l _) Hs).
    + destruct Hfind as [s Hs]. split; [done|]. intros [Hne Hs'].
      by injection (names_unique _ _ _ _ _ Hs Hs') as ? ?.
  - destruct (find_slice name 0 GPR_COUNT) as [[[r s]|]|e]; cbn [is_ok]; split; try done.
    + destruct Hfind as (Hs & Hne & _). intros (s' & n & Hn).
      assert (names name (reg_index RSP) s') as Hs' by (apply Hnames; split; [vm_compute; lia | by exists n]).
      by injection (names_unique _ _ _ _ _ Hs Hs') as ? ?.
    + intros (s' & n & Hn). destruct (Hfind (reg_index RSP) s' (Nat.le_0_l _)).
      apply Hnames. split; [vm_compute; lia | by exists n].
    + intros _. destruct Hfind as [s (_ & Hs)%Hnames]. by exists s.
Qed.

(** A seed argument that is accepted can always be composed: run by run, the seeds of
    the command line are well formed, none is reported as malformed when the registers
    are composed, RSP has no seed, and only status flags are set. *)
Theorem parse_cli_seed_argument_composes {fmt : Fmt} text cli errors :
  parse_cli_seed_argument text CLI_init = Ok cli ->
  let '(r, errors') := compose_seed cli.(cli_seed_gpr) cli.(cli_seed_flags) cli.(cli_seed_xmm)
                         cli.(cli_seed_st) cli.(cli_seed_floating_environment) errors in
  well_formed r /\ errors' = errors /\ reg_get r RSP = 0
  /\ Z.land r.(rflags) RFLAGS_STATUS_MASK = r.(rflags).
Proof.
  intros H. apply parse_cli_seed_argument_valid in H as [Hg Hx Hs Ha Hrsp Hf Hw]; [|apply CLI_init_valid].
  pose proof (compose_seed_well_formed_lemma _ _ _ _ (cli_seed_floating_environment cli) errors Hg Hx Hs Hw) as Hwf.
  destruct (compose_seed_spec cli.(cli_seed_gpr) cli.(cli_seed_flags) cli.(cli_seed_xmm)
    cli.(cli_seed_st) cli.(cli_seed_floating_environment) errors) as (tags & E & _).
  rewrite E in Hwf |- *. split; [exact Hwf|]. apply seed_errors_nil in Ha as ->. rewrite app_nil_r.
  split; [done|]. split.
  - unfold reg_get. cbn [gpr]. apply nth_lookup_Some.
    rewrite list_lookup_fmap, Hrsp. reflexivity.
  - cbn [rflags]. apply Z.bits_inj'. intros n _. rewrite Z.land_spec.
    destruct (Z.testbit (cli_seed_flags cli) n) eqn:En; [|done]. by rewrite Hf.
Qed.

Lemma parse_cli_seed_argument_composes_witness :
  exists cli, parse_cli_seed_argument (fmt := example_fmt) "rax=64,ah=1,st0=2.0,,zf=1,xmm3=1.5f" CLI_init = Ok cli /\
  well_formed (compose_seed (fmt := example_fmt) cli.(cli_seed_gpr) cli.(cli_seed_flags) cli.(cli_seed_xmm)
    cli.(cli_seed_st) cli.(cli_seed_floating_environment) []).1.
Proof.
  destruct (parse_cli_seed_argument (fmt := example_fmt) "rax=64,ah=1,st0=2.0,,zf=1,xmm3=1.5f" CLI_init) as [cli|e] eqn:E;
    [|vm_compute in E; discriminate].
  exists cli. split; [reflexivity|].
  pose proof (parse_cli_seed_argument_composes (fmt := example_fmt) _ _ [] E) as H.
  destruct (compose_seed _ _ _ _ _ _). apply H.
Defined.

(** The limits of an accepted command line, format and output aside. *)
Lemma CLI_parse_limits {fmt : Fmt} {argparse : ArgParse} argv cli :
  CLI_parse argv = Ok cli ->
  1 <= cli.(cli_max_steps) <= MAX_STEPS_LIMIT
  /\ backend_supports cli.(cli_backend) cli.(cli_syntax) = true
  /\ seeds_valid cli.
Proof.
  intros H. unfold CLI_parse in H. destruct (parse_args argv) as [program|[what usage]]; [|done].
  unfold CLI_of_arguments in H. cbv zeta in H. do 3 split_in H.
  destruct (parse_max_steps _) as [max_steps|] eqn:Em; [|done]. apply parse_max_steps_range in Em.
  destruct (parse_track _) as [track|] eqn:Et; [|done].
  destruct (match arg_seed program with Some _ => _ | None => _ end) as [seeded|] eqn:Es; [|done].
  assert (seeds_valid seeded) as Hs.
  { destruct (arg_seed program) as [text|]; [|injection Es as <-; apply CLI_init_valid].
    eapply parse_cli_seed_argument_valid; [apply CLI_init_valid | exact Es]. }
  destruct (negb (backend_supports _ _)) eqn:Eb; [done|]. injection H as <-.
  apply negb_false_iff in Eb. cbn [cli_max_steps cli_backend cli_syntax].
  split; [done|]. split; [done|]. by destruct Hs.
Qed.

Lemma CLI_parse_rules {fmt : Fmt} {argparse : ArgParse} argv cli :
  (forall program, parse_args argv = Ok program ->
     program.(arg_format_used) = false -> program.(arg_format) = ("text" : str)) ->
  CLI_parse argv = Ok cli ->
  1 <= cli.(cli_max_steps) <= MAX_STEPS_LIMIT
  /\ backend_supports cli.(cli_backend) cli.(cli_syntax) = true
  /\ (cli.(cli_pretty_json) = true -> cli.(cli_quick) = true /\ cli.(cli_format) = FormatJson)
  /\ (cli.(cli_format) = FormatJson -> cli.(cli_quick) = true /\ cli.(cli_track) = DEFAULT_TRACK)
  /\ seeds_valid cli.
Proof.
  intros Hdefault H. destruct (CLI_parse_limits argv cli H) as (Hmax & Hsupport & Hseeds).
  split; [done|]. split; [done|]. apply and_assoc. split; [|done]. clear Hmax Hsupport Hseeds. unfold CLI_parse in H.
  destruct (parse_args argv) as [program|[what usage]]; [|done]. specialize (Hdefault program eq_refl).
  unfold CLI_of_arguments in H. cbv zeta in H.
  destruct (arg_format_used program && negb (arg_quick program)) eqn:E1; [done|].
  destruct (arg_pretty program && _) eqn:E2; [done|].
  destruct (bool_decide (arg_format program = _) && _) eqn:E3; [done|].
  destruct (parse_max_steps _) as [max_steps|]; [|done]. destruct (parse_track _) as [track|] eqn:Et; [|done].
  destruct (match arg_seed program with Some _ => _ | None => _ end) as [seeded|]; [|done].
  destruct (negb (backend_supports _ _)); [done|]. injection H as <-.
  cbn [cli_pretty_json cli_quick cli_format cli_track]. split.
  - intros Hp. rewrite Hp in E2. cbn [andb] in E2. apply orb_false_iff in E2 as [E2%negb_false_iff E2'%negb_false_iff].
    apply bool_decide_eq_true in E2'. by rewrite E2'.
  - intros Hj. destruct (decide (arg_format program = ("json" : str))) as [Ef|Ef];
      [|by rewrite bool_decide_false in Hj by exact Ef].
    rewrite bool_decide_true in E3 by exact Ef. cbn [andb] in E3. split.
    + destruct (arg_format_used program) eqn:Eu.
      * cbn [andb] in E1. by apply negb_false_iff in E1.
      * rewrite Hdefault in Ef by done. discriminate Ef.
    + apply bool_decide_eq_false in E3. destruct (arg_track program); [by exfalso; apply E3|].
      by injection Et as <-.
Qed.

(** C33. A command line that is accepted is consistent: the step cap is between one and
    the limit, the decoder emits the syntax, pretty printing goes with quick JSON
    output, JSON output with the full register state (the default mask), a chosen
    format with quick output, and the seeds are well formed. *)
Theorem CLI_parse_consistent {fmt : Fmt} {argparse : ArgParse} argv cli :
  (forall program, parse_args argv = Ok program ->
     program.(arg_format_used) = false -> program.(arg_format) = ("text" : str)) ->
  CLI_parse argv = Ok cli ->
  1 <= cli.(cli_max_steps) <= MAX_STEPS_LIMIT
  /\ backend_supports cli.(cli_backend) cli.(cli_syntax) = true
  /\ (cli.(cli_pretty_json) = true -> cli.(cli_quick) = true /\ cli.(cli_format) = FormatJson)
  /\ (cli.(cli_format) = FormatJson -> cli.(cli_quick) = true /\ cli.(cli_track) = DEFAULT_TRACK)
  /\ seeds_valid cli.
Proof. apply CLI_parse_rules. Qed.

(** A command line for the concrete runs. *)
Definition example_arguments : Arguments := {|
  arg_bytes := Some ("90" : str); arg_file := None; arg_run := false; arg_syntax := "intel";
  arg_max_steps := Some ("99999999" : str); arg_quick := true; arg_format := "json"; arg_format_used := true;
  arg_pretty := true; arg_track := None; arg_seed := Some ("al=7" : str); arg_backend := "bddisasm";
|}.

#[local] Instance example_argparse : ArgParse := { parse_args _ := Ok example_arguments }.

Lemma CLI_parse_consistent_witness :
  exists cli, CLI_parse (fmt := example_fmt) (argparse := example_argparse) [] = Ok cli /\
  1 <= cli.(cli_max_steps) <= MAX_STEPS_LIMIT.
Proof.
  destruct (CLI_parse (fmt := example_fmt) (argparse := example_argparse) []) as [cli|e] eqn:E;
    [|vm_compute in E; discriminate].
  exists cli. split; [reflexivity|].
  apply (CLI_parse_consistent (fmt := example_fmt) (argparse := example_argparse) [] cli); [|exact E].
  intros program [= <-]. discriminate.
Defined.
