(* ===== verification/Cpu.v ===== *)
(** * Cpu: the processor fingerprint ([src/src/cpu.cpp]).

    The query source is an interface of the program ([CPUQuerySource]): two methods on
    an object with a state of its own, so that a source may answer the same query
    differently each time. *)

From Stdlib Require Import Sorted.
From S2P Require Import Prelude Text.

Local Open Scope Z_scope.

(** ** Constants and tables *)

Definition CPUID_VENDOR_LEAF : Z := 0x00000000.
Definition CPUID_SIGNATURE_LEAF : Z := 0x00000001.
Definition CPUID_STRUCTURED_FEATURES_LEAF : Z := 0x00000007.
Definition CPUID_XSTATE_LEAF : Z := 0x0000000D.
Definition CPUID_HYPERVISOR_LEAF : Z := 0x40000000.
Definition CPUID_HYPERVISOR_INTERFACE : Z := 0x40000001.
Definition CPUID_EXTENDED_LIMIT_LEAF : Z := 0x80000000.
Definition CPUID_EXTENDED_FEATURES_LEAF : Z := 0x80000001.
Definition CPUID_BRAND_FIRST_LEAF : Z := 0x80000002.
Definition CPUID_BRAND_LAST_LEAF : Z := 0x80000004.
Definition CPUID_ADDRESS_WIDTH_LEAF : Z := 0x80000008.

Definition CPUID_MAX_STRUCTURED_FEATURE_SUBLEAF : Z := 128.

Definition CPUID_XSAVE_MASK : Z := Z.shiftl 1 26.
Definition CPUID_OSXSAVE_MASK : Z := Z.shiftl 1 27.
Definition CPUID_HYPERVISOR_MASK : Z := Z.shiftl 1 31.

Record CPUIDRegisters : Type := { eax : Z; ebx : Z; ecx : Z; edx : Z }.

Inductive CPUIDRegister : Type := CpuEAX | CpuEBX | CpuECX | CpuEDX.

Record CPUIDFeatureDefinition : Type := {
  feature_leaf : Z;
  feature_subleaf : Z;
  feature_reg : CPUIDRegister;
  feature_bit : Z;
  feature_name : str;
}.

Definition feature (leaf subleaf : Z) (reg : CPUIDRegister) (bit : Z) (name : str) : CPUIDFeatureDefinition :=
  {| feature_leaf := leaf; feature_subleaf := subleaf; feature_reg := reg; feature_bit := bit;
     feature_name := name |}.

Definition CPUID_FEATURES : list CPUIDFeatureDefinition := [
  feature CPUID_SIGNATURE_LEAF 0 CpuEDX 0 "fpu";
  feature CPUID_SIGNATURE_LEAF 0 CpuEDX 4 "tsc";
  feature CPUID_SIGNATURE_LEAF 0 CpuEDX 5 "msr";
  feature CPUID_SIGNATURE_LEAF 0 CpuEDX 6 "pae";
  feature CPUID_SIGNATURE_LEAF 0 CpuEDX 8 "cx8";
  feature CPUID_SIGNATURE_LEAF 0 CpuEDX 9 "apic";
  feature CPUID_SIGNATURE_LEAF 0 CpuEDX 11 "sep";
  feature CPUID_SIGNATURE_LEAF 0 CpuEDX 12 "mtrr";
  feature CPUID_SIGNATURE_LEAF 0 CpuEDX 13 "pge";
  feature CPUID_SIGNATURE_LEAF 0 CpuEDX 15 "cmov";
  feature CPUID_SIGNATURE_LEAF 0 CpuEDX 19 "clfsh";
  feature CPUID_SIGNATURE_LEAF 0 CpuEDX 23 "mmx";
  feature CPUID_SIGNATURE_LEAF 0 CpuEDX 24 "fxsr";
  feature CPUID_SIGNATURE_LEAF 0 CpuEDX 25 "sse";
  feature CPUID_SIGNATURE_LEAF 0 CpuEDX 26 "sse2";
  feature CPUID_SIGNATURE_LEAF 0 CpuEDX 28 "htt";
  feature CPUID_SIGNATURE_LEAF 0 CpuECX 0 "sse3";
  feature CPUID_SIGNATURE_LEAF 0 CpuECX 1 "pclmulqdq";
  feature CPUID_SIGNATURE_LEAF 0 CpuECX 3 "monitor";
  feature CPUID_SIGNATURE_LEAF 0 CpuECX 5 "vmx";
  feature CPUID_SIGNATURE_LEAF 0 CpuECX 6 "smx";
  feature CPUID_SIGNATURE_LEAF 0 CpuECX 9 "ssse3";
  feature CPUID_SIGNATURE_LEAF 0 CpuECX 12 "fma";
  feature CPUID_SIGNATURE_LEAF 0 CpuECX 13 "cx16";
  feature CPUID_SIGNATURE_LEAF 0 CpuECX 17 "pcid";
  feature CPUID_SIGNATURE_LEAF 0 CpuECX 19 "sse4_1";
  feature CPUID_SIGNATURE_LEAF 0 CpuECX 20 "sse4_2";
  feature CPUID_SIGNATURE_LEAF 0 CpuECX 21 "x2apic";
  feature CPUID_SIGNATURE_LEAF 0 CpuECX 22 "movbe";
  feature CPUID_SIGNATURE_LEAF 0 CpuECX 23 "popcnt";
  feature CPUID_SIGNATURE_LEAF 0 CpuECX 24 "tsc_deadline";
  feature CPUID_SIGNATURE_LEAF 0 CpuECX 25 "aes";
  feature CPUID_SIGNATURE_LEAF 0 CpuECX 26 "xsave";
  feature CPUID_SIGNATURE_LEAF 0 CpuECX 27 "osxsave";
  feature CPUID_SIGNATURE_LEAF 0 CpuECX 28 "avx";
  feature CPUID_SIGNATURE_LEAF 0 CpuECX 29 "f16c";
  feature CPUID_SIGNATURE_LEAF 0 CpuECX 30 "rdrand";
  feature CPUID_SIGNATURE_LEAF 0 CpuECX 31 "hypervisor";
  feature CPUID_STRUCTURED_FEATURES_LEAF 0 CpuEBX 0 "fsgsbase";
  feature CPUID_STRUCTURED_FEATURES_LEAF 0 CpuEBX 2 "sgx";
  feature CPUID_STRUCTURED_FEATURES_LEAF 0 CpuEBX 3 "bmi1";
  feature CPUID_STRUCTURED_FEATURES_LEAF 0 CpuEBX 4 "hle";
  feature CPUID_STRUCTURED_FEATURES_LEAF 0 CpuEBX 5 "avx2";
  feature CPUID_STRUCTURED_FEATURES_LEAF 0 CpuEBX 7 "smep";
  feature CPUID_STRUCTURED_FEATURES_LEAF 0 CpuEBX 8 "bmi2";
  feature CPUID_STRUCTURED_FEATURES_LEAF 0 CpuEBX 9 "erms";
  feature CPUID_STRUCTURED_FEATURES_LEAF 0 CpuEBX 10 "invpcid";
  feature CPUID_STRUCTURED_FEATURES_LEAF 0 CpuEBX 11 "rtm";
  feature CPUID_STRUCTURED_FEATURES_LEAF 0 CpuEBX 14 "mpx";
  feature CPUID_STRUCTURED_FEATURES_LEAF 0 CpuEBX 16 "avx512f";
  feature CPUID_STRUCTURED_FEATURES_LEAF 0 CpuEBX 17 "avx512dq";
  feature CPUID_STRUCTURED_FEATURES_LEAF 0 CpuEBX 18 "rdseed";
  feature CPUID_STRUCTURED_FEATURES_LEAF 0 CpuEBX 19 "adx";
  feature CPUID_STRUCTURED_FEATURES_LEAF 0 CpuEBX 20 "smap";
  feature CPUID_STRUCTURED_FEATURES_LEAF 0 CpuEBX 21 "avx512_ifma";
  feature CPUID_STRUCTURED_FEATURES_LEAF 0 CpuEBX 23 "clflushopt";
  feature CPUID_STRUCTURED_FEATURES_LEAF 0 CpuEBX 24 "clwb";
  feature CPUID_STRUCTURED_FEATURES_LEAF 0 CpuEBX 25 "intel_pt";
  feature CPUID_STRUCTURED_FEATURES_LEAF 0 CpuEBX 28 "avx512cd";
  feature CPUID_STRUCTURED_FEATURES_LEAF 0 CpuEBX 29 "sha";
  feature CPUID_STRUCTURED_FEATURES_LEAF 0 CpuEBX 30 "avx512bw";
  feature CPUID_STRUCTURED_FEATURES_LEAF 0 CpuEBX 31 "avx512vl";
  feature CPUID_STRUCTURED_FEATURES_LEAF 0 CpuECX 1 "avx512_vbmi";
  feature CPUID_STRUCTURED_FEATURES_LEAF 0 CpuECX 2 "umip";
  feature CPUID_STRUCTURED_FEATURES_LEAF 0 CpuECX 3 "pku";
  feature CPUID_STRUCTURED_FEATURES_LEAF 0 CpuECX 4 "ospke";
  feature CPUID_STRUCTURED_FEATURES_LEAF 0 CpuECX 5 "waitpkg";
  feature CPUID_STRUCTURED_FEATURES_LEAF 0 CpuECX 6 "avx512_vbmi2";
  feature CPUID_STRUCTURED_FEATURES_LEAF 0 CpuECX 7 "cet_ss";
  feature CPUID_STRUCTURED_FEATURES_LEAF 0 CpuECX 8 "gfni";
  feature CPUID_STRUCTURED_FEATURES_LEAF 0 CpuECX 9 "vaes";
  feature CPUID_STRUCTURED_FEATURES_LEAF 0 CpuECX 10 "vpclmulqdq";
  feature CPUID_STRUCTURED_FEATURES_LEAF 0 CpuECX 11 "avx512_vnni";
  feature CPUID_STRUCTURED_FEATURES_LEAF 0 CpuECX 12 "avx512_bitalg";
  feature CPUID_STRUCTURED_FEATURES_LEAF 0 CpuECX 14 "avx512_vpopcntdq";
  feature CPUID_STRUCTURED_FEATURES_LEAF 0 CpuECX 16 "la57";
  feature CPUID_STRUCTURED_FEATURES_LEAF 0 CpuECX 22 "rdpid";
  feature CPUID_STRUCTURED_FEATURES_LEAF 0 CpuECX 25 "cldemote";
  feature CPUID_STRUCTURED_FEATURES_LEAF 0 CpuECX 27 "movdiri";
  feature CPUID_STRUCTURED_FEATURES_LEAF 0 CpuECX 28 "movdir64b";
  feature CPUID_STRUCTURED_FEATURES_LEAF 0 CpuECX 29 "enqcmd";
  feature CPUID_STRUCTURED_FEATURES_LEAF 0 CpuECX 30 "sgx_lc";
  feature CPUID_STRUCTURED_FEATURES_LEAF 0 CpuECX 31 "pks";
  feature CPUID_STRUCTURED_FEATURES_LEAF 0 CpuEDX 4 "fsrm";
  feature CPUID_STRUCTURED_FEATURES_LEAF 0 CpuEDX 5 "uintr";
  feature CPUID_STRUCTURED_FEATURES_LEAF 0 CpuEDX 8 "avx512_vp2intersect";
  feature CPUID_STRUCTURED_FEATURES_LEAF 0 CpuEDX 10 "md_clear";
  feature CPUID_STRUCTURED_FEATURES_LEAF 0 CpuEDX 14 "serialize";
  feature CPUID_STRUCTURED_FEATURES_LEAF 0 CpuEDX 15 "hybrid";
  feature CPUID_STRUCTURED_FEATURES_LEAF 0 CpuEDX 16 "tsxldtrk";
  feature CPUID_STRUCTURED_FEATURES_LEAF 0 CpuEDX 18 "pconfig";
  feature CPUID_STRUCTURED_FEATURES_LEAF 0 CpuEDX 20 "cet_ibt";
  feature CPUID_STRUCTURED_FEATURES_LEAF 0 CpuEDX 22 "amx_bf16";
  feature CPUID_STRUCTURED_FEATURES_LEAF 0 CpuEDX 23 "avx512_fp16";
  feature CPUID_STRUCTURED_FEATURES_LEAF 0 CpuEDX 24 "amx_tile";
  feature CPUID_STRUCTURED_FEATURES_LEAF 0 CpuEDX 25 "amx_int8";
  feature CPUID_STRUCTURED_FEATURES_LEAF 0 CpuEDX 26 "ibrs_ibpb";
  feature CPUID_STRUCTURED_FEATURES_LEAF 0 CpuEDX 27 "stibp";
  feature CPUID_STRUCTURED_FEATURES_LEAF 0 CpuEDX 28 "l1d_flush";
  feature CPUID_STRUCTURED_FEATURES_LEAF 0 CpuEDX 29 "ia32_arch_capabilities";
  feature CPUID_STRUCTURED_FEATURES_LEAF 0 CpuEDX 30 "ia32_core_capabilities";
  feature CPUID_STRUCTURED_FEATURES_LEAF 0 CpuEDX 31 "ssbd";
  feature CPUID_EXTENDED_FEATURES_LEAF 0 CpuECX 0 "lahf_lm";
  feature CPUID_EXTENDED_FEATURES_LEAF 0 CpuECX 2 "svm";
  feature CPUID_EXTENDED_FEATURES_LEAF 0 CpuECX 5 "abm";
  feature CPUID_EXTENDED_FEATURES_LEAF 0 CpuECX 6 "sse4a";
  feature CPUID_EXTENDED_FEATURES_LEAF 0 CpuECX 8 "prefetchw";
  feature CPUID_EXTENDED_FEATURES_LEAF 0 CpuECX 11 "xop";
  feature CPUID_EXTENDED_FEATURES_LEAF 0 CpuECX 16 "fma4";
  feature CPUID_EXTENDED_FEATURES_LEAF 0 CpuECX 21 "tbm";
  feature CPUID_EXTENDED_FEATURES_LEAF 0 CpuECX 22 "topoext";
  feature CPUID_EXTENDED_FEATURES_LEAF 0 CpuEDX 11 "syscall";
  feature CPUID_EXTENDED_FEATURES_LEAF 0 CpuEDX 20 "nx";
  feature CPUID_EXTENDED_FEATURES_LEAF 0 CpuEDX 22 "mmxext";
  feature CPUID_EXTENDED_FEATURES_LEAF 0 CpuEDX 25 "fxsr_opt";
  feature CPUID_EXTENDED_FEATURES_LEAF 0 CpuEDX 26 "pdpe1gb";
  feature CPUID_EXTENDED_FEATURES_LEAF 0 CpuEDX 27 "rdtscp";
  feature CPUID_EXTENDED_FEATURES_LEAF 0 CpuEDX 29 "long_mode";
  feature CPUID_EXTENDED_FEATURES_LEAF 0 CpuEDX 30 "3dnowext";
  feature CPUID_EXTENDED_FEATURES_LEAF 0 CpuEDX 31 "3dnow"
].

Definition XSTATE_COMPONENTS : list (Z * str) := [
  (0, "x87" : str);
  (1, "sse" : str);
  (2, "avx" : str);
  (3, "mpx_bndregs" : str);
  (4, "mpx_bndcsr" : str);
  (5, "avx512_opmask" : str);
  (6, "avx512_zmm_hi256" : str);
  (7, "avx512_hi16_zmm" : str);
  (8, "processor_trace" : str);
  (9, "pkru" : str);
  (10, "pasid" : str);
  (11, "cet_user" : str);
  (12, "cet_supervisor" : str);
  (13, "hdc" : str);
  (14, "uintr" : str);
  (15, "lbr" : str);
  (16, "hwp" : str);
  (17, "amx_tilecfg" : str);
  (18, "amx_tiledata" : str);
  (19, "apx" : str)
].

(** ** Data *)

Record CPUIDRecord : Type := {
  leaf : Z;
  subleaf : Z;
  registers : CPUIDRegisters;
}.

(** The scope of a capture has one value, the host process. *)
Record CPUFingerprint : Type := {
  execution_cpu_attributed : bool;
  vendor : str;
  brand : str;
  family : option Z;
  model : option Z;
  stepping : option Z;
  maximum_basic_leaf : Z;
  maximum_extended_leaf : Z;
  physical_address_width : option Z;
  linear_address_width : option Z;
  hypervisor_present : bool;
  hypervisor_vendor : str;
  hypervisor_interface : str;
  cpuid_features : list str;
  xcr0_supported : option Z;
  xss_supported : option Z;
  xcr0 : option Z;
  enabled_xstate : list str;
  raw_cpuid : list CPUIDRecord;
}.

(** The query source: a method takes the state of the object to its next state. *)
Class CPUQuerySource (S : Type) : Type := {
  cpuid : Z -> Z -> S -> CPUIDRegisters * S;
  xgetbv : Z -> S -> Z * S;
}.

(** The intrinsics of the processor: [__cpuid_count] and the instruction [xgetbv] (EAX and
    EDX) of one compiler, [__cpuidex] (four [int]s) and [_xgetbv] of the other. *)
Class Intrinsics (S : Type) : Type := {
  cpuid_count : Z -> Z -> S -> (Z * Z * Z * Z) * S;
  xgetbv_instruction : Z -> S -> (Z * Z) * S;
  cpuidex : Z -> Z -> S -> (Z * Z * Z * Z) * S;
  xgetbv_intrinsic : Z -> S -> Z * S;
}.

(** [HostCPUQuerySource], on Linux and on Windows. *)
Definition HostCPUQuerySource {S : Type} `{Intrinsics S} (windows : bool) : CPUQuerySource S := {|
  cpuid leaf subleaf s :=
    if windows then
      let '((a, b, c, d), s) := cpuidex leaf subleaf s in ({| eax := u32 a; ebx := u32 b; ecx := u32 c; edx := u32 d |}, s)
    else
      let '((a, b, c, d), s) := cpuid_count leaf subleaf s in ({| eax := a; ebx := b; ecx := c; edx := d |}, s);
  xgetbv index s :=
    if windows then xgetbv_intrinsic index s
    else let '((a, d), s) := xgetbv_instruction index s in (Z.lor (u64 (Z.shiftl d 32)) a, s);
|}.

(** ** Helpers *)

Definition CPUID_PADDING (character : ascii) : bool :=
  bool_decide (character = "000"%char) || bool_decide (character = " "%char).

(** The four characters of a register, [text += ...] in the callers. *)
Definition register_text (value : Z) : str :=
  [chr (Z.land value 0xFF); chr (Z.land (Z.shiftr value 8) 0xFF);
   chr (Z.land (Z.shiftr value 16) 0xFF); chr (Z.land (Z.shiftr value 24) 0xFF)].

Definition append_register_text (text : str) (value : Z) : str := text ++ register_text value.

Definition append_brand_leaf (text : str) (r : CPUIDRegisters) : str :=
  append_register_text (append_register_text (append_register_text (append_register_text text r.(eax)) r.(ebx))
    r.(ecx)) r.(edx).

Record CPUSignature : Type := {
  signature_family : Z;
  signature_model : Z;
  signature_stepping : Z;
}.

Definition decode_intel_signature (value : Z) : CPUSignature :=
  let base_family := Z.land (Z.shiftr value 8) 0xF in
  let base_model := Z.land (Z.shiftr value 4) 0xF in
  let extended_model := Z.land (Z.shiftr value 16) 0xF in
  let extended_family := Z.land (Z.shiftr value 20) 0xFF in
  {| signature_family := if base_family =? 0xF then base_family + extended_family else base_family;
     signature_model := if (base_family =? 0x6) || (base_family =? 0xF)
                        then base_model + Z.shiftl extended_model 4 else base_model;
     signature_stepping := Z.land value 0xF |}.

Definition decode_amd_signature (value : Z) : CPUSignature :=
  let base_family := Z.land (Z.shiftr value 8) 0xF in
  let base_model := Z.land (Z.shiftr value 4) 0xF in
  let extended_model := Z.land (Z.shiftr value 16) 0xF in
  let extended_family := Z.land (Z.shiftr value 20) 0xFF in
  {| signature_family := if base_family =? 0xF then base_family + extended_family else base_family;
     signature_model := if base_family =? 0xF then base_model + Z.shiftl extended_model 4 else base_model;
     signature_stepping := Z.land value 0xF |}.

Definition append_record (raw : list CPUIDRecord) (l s : Z) (r : CPUIDRegisters) : list CPUIDRecord :=
  raw ++ [{| leaf := l; subleaf := s; registers := r |}].

Fixpoint find_record (records : list CPUIDRecord) (l s : Z) : option CPUIDRecord :=
  match records with
  | [] => None
  | record :: records =>
    if (record.(leaf) =? l) && (record.(subleaf) =? s) then Some record else find_record records l s
  end.

Definition register_value (record : CPUIDRecord) (reg : CPUIDRegister) : Z :=
  match reg with
  | CpuEAX => record.(registers).(eax)
  | CpuEBX => record.(registers).(ebx)
  | CpuECX => record.(registers).(ecx)
  | CpuEDX => record.(registers).(edx)
  end.

Definition bit_set (value mask : Z) : bool := negb (Z.land value mask =? 0).

Definition has_feature (raw : list CPUIDRecord) (definition : CPUIDFeatureDefinition) : bool :=
  match find_record raw definition.(feature_leaf) definition.(feature_subleaf) with
  | Some record => bit_set (register_value record definition.(feature_reg)) (Z.shiftl 1 definition.(feature_bit))
  | None => false
  end.

Definition decode_features (raw : list CPUIDRecord) : list str :=
  map feature_name (List.filter (has_feature raw) CPUID_FEATURES).

Definition decode_enabled_xstate (supported enabled : option Z) : list str :=
  match supported, enabled with
  | Some supported, Some enabled =>
    let enabled_state_components := Z.land supported enabled in
    map snd (List.filter (fun definition => bit_set enabled_state_components (Z.shiftl 1 definition.1))
               XSTATE_COMPONENTS)
  | _, _ => []
  end.

(** ** The queries *)

Section query.
Context {S : Type} `{CPUQuerySource S}.

(** The state of the source and the records so far. *)
Definition Log : Type := S * list CPUIDRecord.

(** The lambda [query_and_record]. *)
Definition query_and_record (l s : Z) (log : Log) : CPUIDRegisters * Log :=
  let '(source, raw) := log in
  let '(result, source) := cpuid l s source in
  (result, (source, append_record raw l s result)).

(** A loop of queries of one leaf over [n] subleaves from [s] on, those that [wanted]
    selects. *)
Fixpoint query_subleaves (wanted : Z -> bool) (l s : Z) (n : nat) (log : Log) : Log :=
  match n with
  | O => log
  | Datatypes.S n =>
    let log := if wanted s then (query_and_record l s log).2 else log in
    query_subleaves wanted l (s + 1) n log
  end.

Definition query_vendor (log : Log) : CPUIDRegisters * str * Log :=
  let '(r, log) := query_and_record CPUID_VENDOR_LEAF 0 log in
  let text := append_register_text (append_register_text (append_register_text [] r.(ebx)) r.(edx)) r.(ecx) in
  (r, rtrim CPUID_PADDING text, log).

(** The registers of the signature leaf and the decoded signature. *)
Definition query_signature (maximum : Z) (vendor : str) (log : Log) : option (CPUIDRegisters * CPUSignature) * Log :=
  if CPUID_SIGNATURE_LEAF <=? maximum then
    let '(signature, log) := query_and_record CPUID_SIGNATURE_LEAF 0 log in
    let decoded := if bool_decide (vendor = "AuthenticAMD") || bool_decide (vendor = "HygonGenuine")
                   then decode_amd_signature signature.(eax) else decode_intel_signature signature.(eax) in
    (Some (signature, decoded), log)
  else (None, log).

Definition query_structured (maximum : Z) (log : Log) : Log :=
  if CPUID_STRUCTURED_FEATURES_LEAF <=? maximum then
    let '(features, log) := query_and_record CPUID_STRUCTURED_FEATURES_LEAF 0 log in
    let maximum_subleaf := Z.min features.(eax) CPUID_MAX_STRUCTURED_FEATURE_SUBLEAF in
    query_subleaves (fun _ => true) CPUID_STRUCTURED_FEATURES_LEAF 1 (Z.to_nat maximum_subleaf) log
  else log.

(** The supported and enabled state components. *)
Definition query_xstate (maximum : Z) (xsave_supported osxsave_supported : bool) (log : Log)
    : option (Z * Z) * option Z * Log :=
  if (CPUID_XSTATE_LEAF <=? maximum) && xsave_supported then
    let '(xcr0, log) := query_and_record CPUID_XSTATE_LEAF 0 log in
    let xcr0_supported := Z.lor (Z.shiftl xcr0.(edx) 32) xcr0.(eax) in
    let '(xss, log) := query_and_record CPUID_XSTATE_LEAF 1 log in
    let xss_supported := Z.lor (Z.shiftl xss.(edx) 32) xss.(ecx) in
    let supported_state_components := Z.lor xcr0_supported xss_supported in
    let log := query_subleaves (fun subleaf => bit_set supported_state_components (Z.shiftl 1 subleaf))
                 CPUID_XSTATE_LEAF 2 62 log in
    if osxsave_supported then
      let '(value, source) := xgetbv 0 log.1 in
      (Some (xcr0_supported, xss_supported), Some value, (source, log.2))
    else (Some (xcr0_supported, xss_supported), None, log)
  else (None, None, log).

Definition query_hypervisor (hypervisor_present : bool) (log : Log) : str * str * Log :=
  if hypervisor_present then
    let '(hypervisor, log) := query_and_record CPUID_HYPERVISOR_LEAF 0 log in
    let text := append_register_text (append_register_text (append_register_text [] hypervisor.(ebx))
                  hypervisor.(ecx)) hypervisor.(edx) in
    let hypervisor_vendor := rtrim CPUID_PADDING text in
    if CPUID_HYPERVISOR_INTERFACE <=? hypervisor.(eax) then
      let '(interface, log) := query_and_record CPUID_HYPERVISOR_INTERFACE 0 log in
      let hypervisor_interface :=
        if bool_decide (hypervisor_vendor = "Microsoft Hv")
        then rtrim CPUID_PADDING (append_register_text [] interface.(eax)) else [] in
      (hypervisor_vendor, hypervisor_interface, log)
    else (hypervisor_vendor, [], log)
  else ([], [], log).

(** The three brand leaves. *)
Definition query_brand (maximum : Z) (log : Log) : str * Log :=
  if CPUID_BRAND_LAST_LEAF <=? maximum then
    let '(r2, log) := query_and_record CPUID_BRAND_FIRST_LEAF 0 log in
    let '(r3, log) := query_and_record (CPUID_BRAND_FIRST_LEAF + 1) 0 log in
    let '(r4, log) := query_and_record (CPUID_BRAND_FIRST_LEAF + 2) 0 log in
    (trim CPUID_PADDING (append_brand_leaf (append_brand_leaf (append_brand_leaf [] r2) r3) r4), log)
  else ([], log).

Definition query_extended (log : Log) : Z * str * option (Z * Z) * Log :=
  let '(extended, log) := query_and_record CPUID_EXTENDED_LIMIT_LEAF 0 log in
  let maximum := extended.(eax) in
  let log := if CPUID_EXTENDED_FEATURES_LEAF <=? maximum
             then (query_and_record CPUID_EXTENDED_FEATURES_LEAF 0 log).2 else log in
  let '(brand, log) := query_brand maximum log in
  if CPUID_ADDRESS_WIDTH_LEAF <=? maximum then
    let '(widths, log) := query_and_record CPUID_ADDRESS_WIDTH_LEAF 0 log in
    (maximum, brand, Some (u8 (Z.land widths.(eax) 0xFF), u8 (Z.land (Z.shiftr widths.(eax) 8) 0xFF)), log)
  else (maximum, brand, None, log).

Definition query_cpu_fingerprint (source : S) : CPUFingerprint * S :=
  let '(v, vendor, log) := query_vendor (source, []) in
  let maximum := v.(eax) in
  let '(signature, log) := query_signature maximum vendor log in
  let flag mask := match signature with Some (r, _) => bit_set r.(ecx) mask | None => false end in
  let log := query_structured maximum log in
  let '(supported, enabled, log) :=
    query_xstate maximum (flag CPUID_XSAVE_MASK) (flag CPUID_OSXSAVE_MASK) log in
  let '(hypervisor_vendor, hypervisor_interface, log) := query_hypervisor (flag CPUID_HYPERVISOR_MASK) log in
  let '(maximum_extended, brand, widths, log) := query_extended log in
  let '(source, raw) := log in
  ({| execution_cpu_attributed := false;
      vendor := vendor; brand := brand;
      family := (fun x => x.2.(signature_family)) <$> signature;
      model := (fun x => x.2.(signature_model)) <$> signature;
      stepping := (fun x => x.2.(signature_stepping)) <$> signature;
      maximum_basic_leaf := maximum; maximum_extended_leaf := maximum_extended;
      physical_address_width := fst <$> widths; linear_address_width := snd <$> widths;
      hypervisor_present := flag CPUID_HYPERVISOR_MASK;
      hypervisor_vendor := hypervisor_vendor; hypervisor_interface := hypervisor_interface;
      cpuid_features := decode_features raw;
      xcr0_supported := fst <$> supported; xss_supported := snd <$> supported; xcr0 := enabled;
      enabled_xstate := decode_enabled_xstate (fst <$> supported) enabled;
      raw_cpuid := raw |}, source).
End query.

(** [host_cpu_fingerprint]: the processor is queried at the first call, and [result] keeps
    what was found. *)
Definition host_cpu_fingerprint {S : Type} `{Intrinsics S} (windows : bool) (result : option CPUFingerprint) (s : S)
    : CPUFingerprint * option CPUFingerprint * S :=
  match result with
  | Some fingerprint => (fingerprint, result, s)
  | None =>
    let '(fingerprint, s) := query_cpu_fingerprint (H := HostCPUQuerySource windows) s in (fingerprint, Some fingerprint, s)
  end.

(** ** The summary line *)

Section summary.
Context {fmt : Fmt}.

(** The lambda [append_identity], on an optional field. *)
Definition append_identity (name : str) (value : option Z) (details : str) : str :=
  match value with
  | None => details
  | Some value =>
    (match details with [] => [] | _ => details ++ [" "%char] end) ++ format "{} 0x{:X}" [AStr name; AInt value]
  end.

Definition format_cpu_summary (fingerprint : CPUFingerprint) : str :=
  let summary := match fingerprint.(brand), fingerprint.(vendor) with
                 | [], [] => "Unknown" : str
                 | [], v => v
                 | b, _ => b
                 end in
  let details := match fingerprint.(brand), fingerprint.(vendor) with
                 | _ :: _, _ :: _ => fingerprint.(vendor)
                 | _, _ => []
                 end in
  let details := append_identity "family" fingerprint.(family) details in
  let details := append_identity "model" fingerprint.(model) details in
  let details := append_identity "stepping" fingerprint.(stepping) details in
  let details := match fingerprint.(xcr0) with
                 | None => details
                 | Some value =>
                   (match details with [] => [] | _ => details ++ (", " : str) end)
                   ++ format "XCR0 0x{:016X}" [AInt value]
                 end in
  match details with
  | [] => summary
  | _ => match fingerprint.(brand) with
         | [] => format "{} {}" [AStr summary; AStr details]
         | _ => format "{} ({})" [AStr summary; AStr details]
         end
  end.
End summary.

(** ** The records of a run *)

(** Records are ordered by leaf, then by subleaf. *)
Definition record_lt (a b : CPUIDRecord) : Prop :=
  a.(leaf) < b.(leaf) \/ (a.(leaf) = b.(leaf) /\ a.(subleaf) < b.(subleaf)).

(** [raw'] adds to [raw] sorted records from [(l, s)] on and below [(l', s')], all in
    [Q]. *)
Definition extends (Q : CPUIDRecord -> Prop) (l s l' s' : Z) (raw raw' : list CPUIDRecord) : Prop :=
  exists new, raw' = raw ++ new /\ StronglySorted record_lt new /\
    Forall (fun r => (l < r.(leaf) \/ (l = r.(leaf) /\ s <= r.(subleaf))) /\
                     (r.(leaf) < l' \/ (r.(leaf) = l' /\ r.(subleaf) < s')) /\ Q r) new.

Lemma extends_refl Q l s l' s' raw : extends Q l s l' s' raw raw.
Proof. exists []. rewrite app_nil_r. split; [done|]. split; constructor. Qed.

Lemma extends_trans Q a b c d e f raw raw' raw'' :
  extends Q a b c d raw raw' -> extends Q c d e f raw' raw'' ->
  (a < c \/ (a = c /\ b <= d)) -> (c < e \/ (c = e /\ d <= f)) ->
  extends Q a b e f raw raw''.
Proof.
  intros (n1 & -> & S1 & F1) (n2 & -> & S2 & F2) H1 H2.
  exists (n1 ++ n2). split; [by rewrite app_assoc|]. split.
  - clear H1 H2. induction S1 as [|x n1 S1 IH Hx]; [done|].
    inversion F1 as [|? ? Fx F1']; subst. cbn. constructor; [by apply IH|].
    apply Forall_app. split; [done|].
    eapply Forall_impl; [exact F2|]. intros y (Hy & _ & _). unfold record_lt. cbn in *. lia.
  - apply Forall_app. split; (eapply Forall_impl; [eassumption|]); intros y (Hy1 & Hy2 & HQ); cbn in *;
      (split; [lia|]); (split; [lia | done]).
Qed.

Lemma extends_weaken (Q Q' : CPUIDRecord -> Prop) l s l' s' raw raw' :
  (forall r, Q r -> Q' r) -> extends Q l s l' s' raw raw' -> extends Q' l s l' s' raw raw'.
Proof.
  intros HQ (new & -> & Hs & Hf). exists new. split; [done|]. split; [done|].
  eapply Forall_impl; [exact Hf|]. intros r (? & ? & ?). auto.
Qed.

(** The last component of a run. *)
Ltac run_log := let E := fresh in intros E; apply (f_equal snd) in E; cbn [snd] in E; subst.

Section log.
Context {S : Type} `{CPUQuerySource S}.

(** One query adds its record. *)
Lemma query_and_record_log l s (log : Log) r log' :
  query_and_record l s log = (r, log') ->
  log'.2 = log.2 ++ [{| leaf := l; subleaf := s; registers := r |}].
Proof. destruct log as [source raw]. cbn. destruct (cpuid l s source). by intros [= <- <-]. Qed.

Lemma query_extends (Q : CPUIDRecord -> Prop) l s l' s' (log : Log) r log' :
  query_and_record l s log = (r, log') -> Q {| leaf := l; subleaf := s; registers := r |} ->
  (l < l' \/ (l = l' /\ s < s')) -> extends Q l s l' s' log.2 log'.2.
Proof.
  intros ->%query_and_record_log HQ Hl. eexists. split; [done|].
  split; [repeat constructor|]. constructor; [|constructor]. cbn. split; [lia|]. split; [lia | done].
Qed.

Lemma query_snd_extends (Q : CPUIDRecord -> Prop) l s l' s' (log : Log) :
  (forall r, Q {| leaf := l; subleaf := s; registers := r |}) ->
  (l < l' \/ (l = l' /\ s < s')) -> extends Q l s l' s' log.2 (query_and_record l s log).2.2.
Proof. intros HQ Hl. destruct (query_and_record l s log) eqn:E. by eapply query_extends. Qed.

Lemma query_subleaves_extends (Q : CPUIDRecord -> Prop) wanted l s n (log : Log) :
  (forall s' r, s <= s' < s + Z.of_nat n -> Q {| leaf := l; subleaf := s'; registers := r |}) ->
  extends Q l s l (s + Z.of_nat n) log.2 (query_subleaves wanted l s n log).2.
Proof.
  revert s log. induction n as [|n IH]; intros s log HQ; cbn [query_subleaves]; [apply extends_refl|].
  apply (extends_trans _ _ _ l (s + 1) _ _ _ (if wanted s then (query_and_record l s log).2 else log).2); [| |lia|lia].
  - destruct (wanted s); [|apply extends_refl]. apply query_snd_extends; [|lia].
    intros r. apply HQ. lia.
  - replace (s + Z.of_nat (Datatypes.S n)) with (s + 1 + Z.of_nat n) by lia.
    apply IH. intros s' r Hs'. apply HQ. lia.
Qed.

(** What a record may be: its leaf is within the limit its range reports. *)
Definition within (basic extended : Z) (hypervisor : bool) (r : CPUIDRecord) : Prop :=
  0 <= r.(subleaf) <= CPUID_MAX_STRUCTURED_FEATURE_SUBLEAF /\
  ((r.(leaf) = CPUID_VENDOR_LEAF \/ 0 < r.(leaf) < CPUID_HYPERVISOR_LEAF /\ r.(leaf) <= basic)
   \/ (r.(leaf) = CPUID_HYPERVISOR_LEAF \/ r.(leaf) = CPUID_HYPERVISOR_INTERFACE) /\ hypervisor = true
   \/ (r.(leaf) = CPUID_EXTENDED_LIMIT_LEAF \/ CPUID_EXTENDED_LIMIT_LEAF < r.(leaf) <= extended)).

Lemma query_vendor_extends b x h (log : Log) r v log' :
  query_vendor log = (r, v, log') -> extends (within b x h) 0 0 1 0 log.2 log'.2.
Proof.
  unfold query_vendor. destruct (query_and_record _ _ log) as [r1 l1] eqn:E. run_log.
  eapply query_extends; [exact E | | unfold CPUID_VENDOR_LEAF; lia].
  split; cbn; unfold CPUID_MAX_STRUCTURED_FEATURE_SUBLEAF; [lia|]. left. by left.
Qed.

Lemma query_signature_extends b x h v (log : Log) sg log' :
  query_signature b v log = (sg, log') -> extends (within b x h) 1 0 7 0 log.2 log'.2.
Proof.
  unfold query_signature, CPUID_SIGNATURE_LEAF. destruct (Z.leb_spec 1 b) as [Hb|_].
  - destruct (query_and_record 1 0 log) as [r1 l1] eqn:E. run_log.
    eapply query_extends; [exact E | | lia].
    split; cbn; unfold CPUID_MAX_STRUCTURED_FEATURE_SUBLEAF, CPUID_HYPERVISOR_LEAF; [lia|]. left. right. lia.
  - run_log. apply extends_refl.
Qed.

Lemma query_structured_extends b x h (log : Log) :
  extends (within b x h) 7 0 0xD 0 log.2 (query_structured b log).2.
Proof.
  unfold query_structured, CPUID_STRUCTURED_FEATURES_LEAF. destruct (Z.leb_spec 7 b) as [Hb|_]; [|apply extends_refl].
  assert (forall s r, 0 <= s <= 128 -> within b x h {| leaf := 7; subleaf := s; registers := r |}) as HQ.
  { intros s r Hs. split; cbn; unfold CPUID_MAX_STRUCTURED_FEATURE_SUBLEAF, CPUID_HYPERVISOR_LEAF; [lia|]. left. right. lia. }
  destruct (query_and_record 7 0 log) as [r1 l1] eqn:E.
  apply (extends_trans _ _ _ 7 1 _ _ _ l1.2); [eapply query_extends; [exact E | apply HQ | ]; lia| |lia|lia].
  set (n := Z.to_nat (Z.min _ _)). apply (extends_trans _ _ _ 7 (1 + Z.of_nat n) _ _ _ (query_subleaves (fun _ => true) 7 1 n l1).2);
    [|apply extends_refl|lia|lia].
  apply query_subleaves_extends. intros s' r Hs'. apply HQ. unfold n, CPUID_MAX_STRUCTURED_FEATURE_SUBLEAF in Hs'. lia.
Qed.

Lemma query_xstate_extends b x h xs os (log : Log) sup en log' :
  query_xstate b xs os log = (sup, en, log') -> extends (within b x h) 0xD 0 0x40000000 0 log.2 log'.2.
Proof.
  unfold query_xstate, CPUID_XSTATE_LEAF. destruct ((0xD <=? b) && xs) eqn:Eb.
  2: { intros [= _ _ <-]. apply extends_refl. }
  apply andb_true_iff in Eb as [Hb%Z.leb_le _].
  assert (forall s r, 0 <= s <= 128 -> within b x h {| leaf := 0xD; subleaf := s; registers := r |}) as HQ.
  { intros s r Hs. split; cbn; unfold CPUID_MAX_STRUCTURED_FEATURE_SUBLEAF, CPUID_HYPERVISOR_LEAF; [lia|]. left. right. lia. }
  destruct (query_and_record 0xD 0 log) as [r1 l1] eqn:E1.
  destruct (query_and_record 0xD 1 l1) as [r2 l2] eqn:E2.
  set (components := Z.lor _ _).
  set (l3 := query_subleaves _ 0xD 2 62 l2).
  assert (extends (within b x h) 0xD 0 0x40000000 0 log.2 l3.2) as Hall.
  { apply (extends_trans _ _ _ 0xD 1 _ _ _ l1.2); [eapply query_extends; [exact E1 | apply HQ | ]; lia| |lia|lia].
    apply (extends_trans _ _ _ 0xD 2 _ _ _ l2.2); [eapply query_extends; [exact E2 | apply HQ | ]; lia| |lia|lia].
    apply (extends_trans _ _ _ 0xD (2 + Z.of_nat 62) _ _ _ l3.2); [|apply extends_refl|lia|lia].
    apply query_subleaves_extends. intros s' r Hs'. apply HQ. lia. }
  clearbody l3. destruct os; [|by intros [= _ _ <-]].
  destruct (xgetbv 0 l3.1). by intros [= _ _ <-].
Qed.

Lemma query_hypervisor_extends b x h (log : Log) v i log' :
  query_hypervisor h log = (v, i, log') -> extends (within b x h) 0x40000000 0 0x80000000 0 log.2 log'.2.
Proof.
  unfold query_hypervisor, CPUID_HYPERVISOR_LEAF, CPUID_HYPERVISOR_INTERFACE. destruct h.
  2: { run_log. apply extends_refl. }
  destruct (query_and_record 0x40000000 0 log) as [r1 l1] eqn:E1.
  assert (extends (within b x true) 0x40000000 0 0x40000001 0 log.2 l1.2) as H1.
  { eapply query_extends; [exact E1 | | lia]. split; [unfold CPUID_MAX_STRUCTURED_FEATURE_SUBLEAF; cbn; lia|]. cbn. right. left. split; [by left | done]. }
  destruct (_ <=? _).
  - destruct (query_and_record 0x40000001 0 l1) as [r2 l2] eqn:E2. run_log.
    eapply extends_trans; [exact H1 | | lia | lia].
    eapply query_extends; [exact E2 | | lia]. split; [unfold CPUID_MAX_STRUCTURED_FEATURE_SUBLEAF; cbn; lia|]. cbn. right. left. split; [by right | done].
  - run_log. eapply extends_trans; [exact H1 | apply extends_refl | lia | lia].
Qed.

Lemma query_extended_extends b x h (log : Log) m br w log' :
  query_extended log = (m, br, w, log') -> x = m -> extends (within b x h) 0x80000000 0 0x80000009 0 log.2 log'.2.
Proof.
  unfold query_extended, CPUID_EXTENDED_LIMIT_LEAF, CPUID_EXTENDED_FEATURES_LEAF, CPUID_ADDRESS_WIDTH_LEAF.
  destruct (query_and_record 0x80000000 0 log) as [r1 l1] eqn:E1. intros Hrun Hx.
  set (l2 := if 0x80000001 <=? eax r1 then _ else l1) in Hrun.
  destruct (query_brand (eax r1) l2) as [brand l3] eqn:E3. cbv zeta in Hrun.
  assert (x = eax r1) as ->.
  { destruct (0x80000008 <=? eax r1); [destruct (query_and_record 0x80000008 0 l3)|];
      injection Hrun as <- _ _ _; done. }
  assert (forall l r, 0x80000000 < l <= eax r1 ->
    within b (eax r1) h {| leaf := l; subleaf := 0; registers := r |}) as HQ.
  { intros l r Hl. split; [unfold CPUID_MAX_STRUCTURED_FEATURE_SUBLEAF; cbn; lia|]. cbn. right. right. right.
    unfold CPUID_EXTENDED_LIMIT_LEAF. lia. }
  apply (extends_trans _ _ _ 0x80000001 0 _ _ _ l1.2); [| |lia|lia].
  { eapply query_extends; [exact E1 | | lia].
    split; [unfold CPUID_MAX_STRUCTURED_FEATURE_SUBLEAF; cbn; lia|]. cbn. right. right. by left. }
  apply (extends_trans _ _ _ 0x80000002 0 _ _ _ l2.2); [| |lia|lia].
  { subst l2. destruct (Z.leb_spec 0x80000001 (eax r1)); [|apply extends_refl].
    apply query_snd_extends; [|lia]. intros r. apply HQ. lia. }
  clearbody l2. apply (extends_trans _ _ _ 0x80000008 0 _ _ _ l3.2); [| |lia|lia].
  { unfold query_brand, CPUID_BRAND_LAST_LEAF, CPUID_BRAND_FIRST_LEAF in E3.
    destruct (Z.leb_spec 0x80000004 (eax r1)); [|injection E3 as _ <-; apply extends_refl].
    destruct (query_and_record 0x80000002 0 l2) as [ra la] eqn:Ea.
    destruct (query_and_record (0x80000002 + 1) 0 la) as [rb lb] eqn:Eb.
    destruct (query_and_record (0x80000002 + 2) 0 lb) as [rc lc] eqn:Ec. injection E3 as _ <-.
    apply (extends_trans _ _ _ 0x80000003 0 _ _ _ la.2); [eapply query_extends; [exact Ea | apply HQ | ]; lia| |lia|lia].
    apply (extends_trans _ _ _ 0x80000004 0 _ _ _ lb.2); [eapply query_extends; [exact Eb | apply HQ | ]; lia| |lia|lia].
    eapply query_extends; [exact Ec | apply HQ | ]; lia. }
  destruct (Z.leb_spec 0x80000008 (eax r1)).
  - destruct (query_and_record 0x80000008 0 l3) as [r4 l4] eqn:E4. injection Hrun as _ _ _ <-.
    eapply query_extends; [exact E4 | apply HQ | ]; lia.
  - injection Hrun as _ _ _ <-. apply extends_refl.
Qed.
End log.

(** ** Finding a record *)

Lemma find_record_spec raw l s r :
  StronglySorted record_lt raw ->
  find_record raw l s = Some r <-> In r raw /\ r.(leaf) = l /\ r.(subleaf) = s.
Proof.
  induction 1 as [|x raw Hs IH Hx]; cbn [find_record In]; [by split; [|intros []]|].
  destruct (Z.eqb_spec (leaf x) l) as [Hl|Hl]; [destruct (Z.eqb_spec (subleaf x) s) as [Hb|Hb]|]; cbn [andb].
  - split.
    + intros [= <-]. split; [by left | done].
    + intros [[<- | Hin] [Hl' Hs']]; [done|]. rewrite Forall_forall in Hx.
      apply list_elem_of_In, Hx in Hin. unfold record_lt in Hin. lia.
  - rewrite IH. split; [by intros []; split; [right|]|]. intros [[<- | Hin] [Hl' Hs']]; [lia | done].
  - rewrite IH. split; [by intros []; split; [right|]|]. intros [[<- | Hin] [Hl' Hs']]; [lia | done].
Qed.

Lemma bit_set_testbit v n : 0 <= n -> bit_set v (Z.shiftl 1 n) = Z.testbit v n.
Proof.
  intros Hn. unfold bit_set. rewrite Z.shiftl_1_l.
  destruct (Z.testbit v n) eqn:E.
  - apply negb_true_iff, Z.eqb_neq. intros H0. assert (Z.testbit (Z.land v (2 ^ n)) n = true) as H.
    { by rewrite Z.land_spec, E, Z.pow2_bits_true. }
    rewrite H0, Z.bits_0 in H. done.
  - apply negb_false_iff, Z.eqb_eq, Z.bits_inj'. intros k Hk.
    rewrite Z.land_spec, Z.pow2_bits_eqb, Z.bits_0 by done.
    destruct (Z.eqb_spec n k) as [<-|_]; [by rewrite E | by rewrite andb_false_r].
Qed.

(** Selecting the names of a table: a name is selected exactly when its entry is. *)
Lemma select_names {A} (p : A -> bool) (name : A -> str) (table : list A) x :
  NoDup (map name table) -> In x table ->
  In (name x) (map name (List.filter p table)) <-> p x = true.
Proof.
  intros Hnd Hx. rewrite in_map_iff. split.
  - intros (y & Hn & [Hy Hp]%filter_In).
    assert (y = x) as ->; [|done].
    apply list_elem_of_In, list_elem_of_lookup in Hx as [i Hi].
    apply list_elem_of_In, list_elem_of_lookup in Hy as [j Hj].
    assert (j = i) as ->; [|congruence].
    apply (NoDup_lookup (map name table) j i (name x)); [done | |]; rewrite list_lookup_fmap.
    + by rewrite Hj, <- Hn.
    + by rewrite Hi.
  - intros Hp. exists x. split; [done|]. by apply filter_In.
Qed.

Lemma feature_names_NoDup : NoDup (map feature_name CPUID_FEATURES).
Proof. apply (bool_decide_eq_true_1 _). vm_compute. reflexivity. Qed.

Lemma xstate_names_NoDup : NoDup (map snd XSTATE_COMPONENTS).
Proof. apply (bool_decide_eq_true_1 _). vm_compute. reflexivity. Qed.

Lemma feature_bits : Forall (fun d => 0 <= d.(feature_bit) < 32) CPUID_FEATURES.
Proof. apply (bool_decide_eq_true_1 _). vm_compute. reflexivity. Qed.

Lemma feature_bit_range d : In d CPUID_FEATURES -> 0 <= d.(feature_bit) < 32.
Proof. intros Hd%list_elem_of_In. pose proof feature_bits as H. rewrite Forall_forall in H. exact (H d Hd). Qed.

Lemma xstate_bits : Forall (fun d => 0 <= d.1) XSTATE_COMPONENTS.
Proof. apply (bool_decide_eq_true_1 _). vm_compute. reflexivity. Qed.

Lemma xstate_bit_range bit name : In (bit, name) XSTATE_COMPONENTS -> 0 <= bit.
Proof. intros Hd%list_elem_of_In. pose proof xstate_bits as H. rewrite Forall_forall in H. exact (H _ Hd). Qed.

Lemma decode_features_spec raw d :
  StronglySorted record_lt raw -> In d CPUID_FEATURES ->
  In d.(feature_name) (decode_features raw) <->
  exists r, In r raw /\ r.(leaf) = d.(feature_leaf) /\ r.(subleaf) = d.(feature_subleaf)
    /\ Z.testbit (register_value r d.(feature_reg)) d.(feature_bit) = true.
Proof.
  intros Hs Hd. unfold decode_features. rewrite (select_names _ _ _ d feature_names_NoDup Hd).
  pose proof (feature_bit_range d Hd) as Hb. unfold has_feature. split.
  - destruct (find_record _ _ _) as [r|] eqn:Ef; [|done]. apply find_record_spec in Ef as (Hin & Hl & Hsl); [|done].
    rewrite bit_set_testbit by lia. intros Ht. by exists r.
  - intros (r & Hin & Hl & Hsl & Ht). rewrite (proj2 (find_record_spec _ _ _ r Hs)) by done.
    by rewrite bit_set_testbit by lia.
Qed.

Lemma decode_features_known raw name :
  In name (decode_features raw) -> In name (map feature_name CPUID_FEATURES).
Proof.
  unfold decode_features. generalize CPUID_FEATURES as table. intros table.
  rewrite !in_map_iff. intros (d & Hn & [Hd _]%filter_In). by exists d.
Qed.

Lemma decode_enabled_xstate_spec supported enabled bit name :
  In (bit, name) XSTATE_COMPONENTS ->
  In name (decode_enabled_xstate supported enabled) <->
  exists s e, supported = Some s /\ enabled = Some e /\ Z.testbit s bit = true /\ Z.testbit e bit = true.
Proof.
  intros Hin. pose proof (xstate_bit_range _ _ Hin) as Hbit. unfold decode_enabled_xstate.
  destruct supported as [sup|]; [destruct enabled as [en|]|].
  - pose proof (select_names (fun d => bit_set (Z.land sup en) (Z.shiftl 1 d.1)) snd _ _ xstate_names_NoDup Hin) as Hsel.
    cbn [fst snd] in Hsel. rewrite Hsel, bit_set_testbit, Z.land_spec, andb_true_iff by done.
    split; [intros [? ?]; by exists sup, en | by intros (s & e & [= ->] & [= ->] & ? & ?)].
  - split; [done | by intros (s & e & _ & ? & _)].
  - split; [done | by intros (s & e & ? & _)].
Qed.

Section fingerprint.
Context {S : Type} `{CPUQuerySource S}.

(** Does the signature leaf, if it was read, have the bits of a mask? *)
Definition signature_flag (sg : option (CPUIDRegisters * CPUSignature)) (mask : Z) : bool :=
  match sg with Some (r, _) => bit_set r.(ecx) mask | None => false end.

(** The stages of a run and the fields they fill. *)
Record stages (source : S) (fp : CPUFingerprint) (source' : S) (l1 l2 l3 l4 l5 : Log) (v : CPUIDRegisters)
    (sg : option (CPUIDRegisters * CPUSignature)) (en : option Z) : Prop := {
  stage_vendor : exists vend, query_vendor (source, []) = (v, vend, l1) /\
    query_signature v.(eax) vend l1 = (sg, l2);
  stage_structured : query_structured v.(eax) l2 = l3;
  stage_xstate : exists sup, query_xstate v.(eax) (signature_flag sg CPUID_XSAVE_MASK)
    (signature_flag sg CPUID_OSXSAVE_MASK) l3 = (sup, en, l4) /\ fp.(xcr0_supported) = fst <$> sup;
  stage_hypervisor : exists hv hi, query_hypervisor fp.(hypervisor_present) l4 = (hv, hi, l5);
  stage_extended : exists br w,
    query_extended l5 = (fp.(maximum_extended_leaf), br, w, (source', fp.(raw_cpuid)));
  stage_maximum : fp.(maximum_basic_leaf) = v.(eax);
  stage_present : fp.(hypervisor_present) = signature_flag sg CPUID_HYPERVISOR_MASK;
  stage_xcr0 : fp.(xcr0) = en;
  stage_features : fp.(cpuid_features) = decode_features fp.(raw_cpuid);
  stage_enabled : fp.(enabled_xstate) = decode_enabled_xstate fp.(xcr0_supported) fp.(xcr0);
}.

Lemma query_cpu_fingerprint_stages source fp source' :
  query_cpu_fingerprint source = (fp, source') ->
  exists l1 l2 l3 l4 l5 v sg en, stages source fp source' l1 l2 l3 l4 l5 v sg en.
Proof.
  unfold query_cpu_fingerprint.
  destruct (query_vendor (source, [])) as [[v vend] l1] eqn:E1.
  destruct (query_signature (eax v) vend l1) as [sg l2] eqn:E2. cbv zeta.
  destruct (query_structured (eax v) l2) as [s3 r3] eqn:E3.
  change (match sg with Some (r, _) => bit_set r.(ecx) CPUID_XSAVE_MASK | None => false end)
    with (signature_flag sg CPUID_XSAVE_MASK).
  change (match sg with Some (r, _) => bit_set r.(ecx) CPUID_OSXSAVE_MASK | None => false end)
    with (signature_flag sg CPUID_OSXSAVE_MASK).
  change (match sg with Some (r, _) => bit_set r.(ecx) CPUID_HYPERVISOR_MASK | None => false end)
    with (signature_flag sg CPUID_HYPERVISOR_MASK).
  destruct (query_xstate (eax v) _ _ (s3, r3)) as [[sup en] l4] eqn:E4.
  destruct (query_hypervisor _ l4) as [[hv hi] l5] eqn:E5.
  destruct (query_extended l5) as [[[mx br] w] [src raw]] eqn:E6.
  intros Hfp. pose proof (f_equal fst Hfp) as Hf. pose proof (f_equal snd Hfp) as Hs. clear Hfp.
  cbn [fst snd] in Hf, Hs. subst fp src.
  exists l1, l2, (s3, r3), l4, l5, v, sg, en. split; eauto; by eexists _, _.
Qed.

Lemma stages_records source fp source' l1 l2 l3 l4 l5 v sg en :
  stages source fp source' l1 l2 l3 l4 l5 v sg en ->
  let Q := within fp.(maximum_basic_leaf) fp.(maximum_extended_leaf) fp.(hypervisor_present) in
  extends Q 0 0 1 0 [] l1.2 /\ extends Q 1 0 7 0 l1.2 l2.2 /\ extends Q 7 0 0xD 0 l2.2 l3.2
  /\ extends Q 0xD 0 0x40000000 0 l3.2 l4.2 /\ extends Q 0x40000000 0 0x80000000 0 l4.2 l5.2
  /\ extends Q 0x80000000 0 0x80000009 0 l5.2 fp.(raw_cpuid).
Proof.
  intros [(vend & E1 & E2) <- (sup & E4 & _) (hv & hi & E5) (br & w & E6) -> _ _ _ _]. cbv zeta.
  apply (query_vendor_extends (eax v) fp.(maximum_extended_leaf) fp.(hypervisor_present)) in E1.
  apply (query_signature_extends _ fp.(maximum_extended_leaf) fp.(hypervisor_present)) in E2.
  apply (query_xstate_extends _ fp.(maximum_extended_leaf) fp.(hypervisor_present)) in E4.
  apply (query_hypervisor_extends (eax v) fp.(maximum_extended_leaf)) in E5.
  apply (query_extended_extends (eax v) fp.(maximum_extended_leaf) fp.(hypervisor_present)) in E6; [|done].
  split; [exact E1|]. split; [exact E2|]. split; [apply query_structured_extends|].
  split; [exact E4|]. split; [exact E5 | exact E6].
Qed.

Lemma query_cpu_fingerprint_records source fp source' :
  query_cpu_fingerprint source = (fp, source') ->
  extends (within fp.(maximum_basic_leaf) fp.(maximum_extended_leaf) fp.(hypervisor_present))
    0 0 0x80000009 0 [] fp.(raw_cpuid).
Proof.
  intros (l1 & l2 & l3 & l4 & l5 & v & sg & en & Hst)%query_cpu_fingerprint_stages.
  apply stages_records in Hst as (E1 & E2 & E3 & E4 & E5 & E6).
  eapply extends_trans; [exact E1 | | lia | lia]. eapply extends_trans; [exact E2 | | lia | lia].
  eapply extends_trans; [exact E3 | | lia | lia]. eapply extends_trans; [exact E4 | | lia | lia].
  eapply extends_trans; [exact E5 | exact E6 | lia | lia].
Qed.

Lemma query_cpu_fingerprint_decoded source fp source' :
  query_cpu_fingerprint source = (fp, source') ->
  fp.(cpuid_features) = decode_features fp.(raw_cpuid)
  /\ fp.(enabled_xstate) = decode_enabled_xstate fp.(xcr0_supported) fp.(xcr0).
Proof.
  intros (l1 & l2 & l3 & l4 & l5 & v & sg & en & Hst)%query_cpu_fingerprint_stages. by destruct Hst.
Qed.
End fingerprint.

(** ** What is asked of the processor *)

Section asked.
Context (fp : CPUFingerprint).

(** Leaf [l], subleaf [s] was recorded with an answer in [P]. *)
Definition answered (l s : Z) (P : CPUIDRegisters -> Prop) : Prop :=
  exists r, In {| leaf := l; subleaf := s; registers := r |} fp.(raw_cpuid) /\ P r.

(** A state component that either of the two masks of leaf 0xD reports. *)
Definition component_reported (s : Z) : Prop :=
  answered 0xD 0 (fun r => Z.testbit (Z.lor (Z.shiftl r.(edx) 32) r.(eax)) s = true)
  \/ answered 0xD 1 (fun r => Z.testbit (Z.lor (Z.shiftl r.(edx) 32) r.(ecx)) s = true).

(** The leaves a processor is asked for, given what it has answered: those below the limits
    it reports, and the subleaves its answers announce. *)
Definition asked (l s : Z) : Prop :=
  l = 0 /\ s = 0
  \/ l = 1 /\ s = 0 /\ 1 <= fp.(maximum_basic_leaf)
  \/ l = 7 /\ 7 <= fp.(maximum_basic_leaf) /\ (s = 0 \/ answered 7 0 (fun r => 1 <= s <= Z.min r.(eax) 128))
  \/ l = 0xD /\ 0xD <= fp.(maximum_basic_leaf) /\ answered 1 0 (fun r => Z.testbit r.(ecx) 26 = true)
      /\ (s = 0 \/ s = 1 \/ 2 <= s < 64 /\ component_reported s)
  \/ l = 0x40000000 /\ s = 0 /\ fp.(hypervisor_present) = true
  \/ l = 0x40000001 /\ s = 0 /\ fp.(hypervisor_present) = true /\ answered 0x40000000 0 (fun r => 0x40000001 <= r.(eax))
  \/ l = 0x80000000 /\ s = 0
  \/ l = 0x80000001 /\ s = 0 /\ 0x80000001 <= fp.(maximum_extended_leaf)
  \/ 0x80000002 <= l <= 0x80000004 /\ s = 0 /\ 0x80000004 <= fp.(maximum_extended_leaf)
  \/ l = 0x80000008 /\ s = 0 /\ 0x80000008 <= fp.(maximum_extended_leaf).
End asked.

(** [raw'] adds to [raw] one record or more for exactly the leaves and subleaves in [P]. *)
Definition adds (P : Z -> Z -> Prop) (raw raw' : list CPUIDRecord) : Prop :=
  exists new, raw' = raw ++ new /\ forall l s, (exists r, In {| leaf := l; subleaf := s; registers := r |} new) <-> P l s.

Lemma adds_nil P raw : (forall l s, ~ P l s) -> adds P raw raw.
Proof. intros HP. exists []. rewrite app_nil_r. split; [done|]. intros l s. split; [by intros [? []] | by intros ?%HP]. Qed.

Lemma adds_trans P Q R raw raw' raw'' :
  adds P raw raw' -> adds Q raw' raw'' -> (forall l s, R l s <-> P l s \/ Q l s) -> adds R raw raw''.
Proof.
  intros (n1 & -> & H1) (n2 & -> & H2) HR. exists (n1 ++ n2). split; [by rewrite app_assoc|]. intros l s.
  rewrite HR, <- H1, <- H2. setoid_rewrite in_app_iff. firstorder.
Qed.

Lemma adds_app P Q raw raw' raw'' : adds P raw raw' -> adds Q raw' raw'' -> adds (fun l s => P l s \/ Q l s) raw raw''.
Proof. intros H1 H2. by apply (adds_trans _ _ _ _ _ _ H1 H2). Qed.

Lemma adds_iff P Q raw raw' : adds P raw raw' -> (forall l s, Q l s <-> P l s) -> adds Q raw raw'.
Proof. intros (new & E & H) HQ. exists new. split; [done|]. intros l s. by rewrite HQ. Qed.

Lemma adds_in P raw raw' r : adds P raw raw' -> In r raw -> In r raw'.
Proof. intros (new & -> & _) Hin. apply in_app_iff. by left. Qed.

Section adds.
Context {S : Type} `{CPUQuerySource S}.

Lemma adds_query l s (log : Log) r log' : query_and_record l s log = (r, log') ->
  adds (fun l' s' => l' = l /\ s' = s) log.2 log'.2 /\ In {| leaf := l; subleaf := s; registers := r |} log'.2.
Proof.
  intros ->%query_and_record_log. split; [|apply in_app_iff; right; by left]. eexists. split; [done|]. intros l' s'. split.
  - by intros (r' & [[= -> -> ->] | []]).
  - intros [-> ->]. exists r. by left.
Qed.

Lemma adds_query_log l s (log : Log) : adds (fun l' s' => l' = l /\ s' = s) log.2 (query_and_record l s log).2.2.
Proof. destruct (query_and_record l s log) eqn:E. by apply adds_query in E as [? _]. Qed.

Lemma adds_subleaves wanted l s n (log : Log) :
  adds (fun l' s' => l' = l /\ s <= s' < s + Z.of_nat n /\ wanted s' = true) log.2 (query_subleaves wanted l s n log).2.
Proof.
  revert s log. induction n as [|n IH]; intros s log; cbn [query_subleaves]; [apply adds_nil; lia|].
  eapply (adds_trans (fun l' s' => l' = l /\ s' = s /\ wanted s' = true)); [| apply IH |].
  - destruct (wanted s) eqn:E; [eapply adds_iff; [apply adds_query_log|] | apply adds_nil]; intros l' s'; [|intros (_ & -> & ?); congruence].
    split; [by intros (-> & -> & _) | by intros [-> ->]].
  - intros l' s'. split; [intros (-> & Hs & Hw); destruct (Z.eq_dec s' s); [left | right]; repeat split; (done || lia)|].
    intros [(-> & -> & Hw) | (-> & Hs & Hw)]; repeat split; (done || lia).
Qed.

Lemma query_vendor_adds (log : Log) r v log' : query_vendor log = (r, v, log') ->
  adds (fun l s => l = 0 /\ s = 0) log.2 log'.2 /\ In {| leaf := 0; subleaf := 0; registers := r |} log'.2.
Proof.
  unfold query_vendor. destruct (query_and_record _ _ log) as [r1 l1] eqn:E. intros [= <- _ <-]. by apply adds_query.
Qed.

Lemma query_signature_adds b v (log : Log) sg log' : query_signature b v log = (sg, log') ->
  adds (fun l s => l = 1 /\ s = 0 /\ 1 <= b) log.2 log'.2
  /\ (forall r d, sg = Some (r, d) -> In {| leaf := 1; subleaf := 0; registers := r |} log'.2) /\ (sg = None -> b < 1).
Proof.
  unfold query_signature, CPUID_SIGNATURE_LEAF. destruct (Z.leb_spec 1 b) as [Hb|Hb].
  - destruct (query_and_record 1 0 log) as [r1 l1] eqn:E. apply adds_query in E as [E Hin]. intros Hr.
    assert (exists d, sg = Some (r1, d) /\ l1 = log') as (d & -> & <-) by (injection Hr as <- <-; by eexists).
    split; [eapply adds_iff; [exact E | intros l s; lia]|]. split; [by intros r d' [= <- <-] | done].
  - intros [= <- <-]. split; [apply adds_nil; lia | done].
Qed.

Lemma query_structured_adds b (log : Log) :
  if 7 <=? b then exists r, In {| leaf := 7; subleaf := 0; registers := r |} (query_structured b log).2
    /\ adds (fun l s => l = 7 /\ (s = 0 \/ 1 <= s <= Z.min r.(eax) 128)) log.2 (query_structured b log).2
  else adds (fun _ _ => False) log.2 (query_structured b log).2.
Proof.
  unfold query_structured, CPUID_STRUCTURED_FEATURES_LEAF. destruct (7 <=? b); [|apply adds_nil; tauto].
  destruct (query_and_record 7 0 log) as [r l1] eqn:E. apply adds_query in E as [E Hin]. cbv zeta. exists r.
  pose proof (adds_subleaves (fun _ => true) 7 1 (Z.to_nat (Z.min r.(eax) CPUID_MAX_STRUCTURED_FEATURE_SUBLEAF)) l1) as E2.
  split; [by eapply adds_in|]. eapply adds_trans; [exact E | exact E2|]. unfold CPUID_MAX_STRUCTURED_FEATURE_SUBLEAF.
  intros l s. split; [intros (-> & [->|?]); [by left | right; repeat split; lia]|]. intros [[-> ->] | (-> & ? & _)]; lia.
Qed.

Lemma query_xstate_adds b xs os (log : Log) sup en log' : query_xstate b xs os log = (sup, en, log') ->
  if (0xD <=? b) && xs then
    exists r0 r1, In {| leaf := 0xD; subleaf := 0; registers := r0 |} log'.2 /\ In {| leaf := 0xD; subleaf := 1; registers := r1 |} log'.2
    /\ adds (fun l s => l = 0xD /\ (s = 0 \/ s = 1 \/ 2 <= s < 64 /\
          (Z.testbit (Z.lor (Z.shiftl r0.(edx) 32) r0.(eax)) s = true \/ Z.testbit (Z.lor (Z.shiftl r1.(edx) 32) r1.(ecx)) s = true)))
         log.2 log'.2
  else adds (fun _ _ => False) log.2 log'.2.
Proof.
  unfold query_xstate, CPUID_XSTATE_LEAF. destruct ((0xD <=? b) && xs); [|intros [= _ _ <-]; apply adds_nil; tauto].
  destruct (query_and_record 0xD 0 log) as [r0 l1] eqn:E0. destruct (query_and_record 0xD 1 l1) as [r1 l2] eqn:E1.
  apply adds_query in E0 as [E0 Hin0], E1 as [E1 Hin1]. cbv zeta. set (supported := Z.lor _ _).
  pose proof (adds_subleaves (fun subleaf => bit_set supported (Z.shiftl 1 subleaf)) 0xD 2 62 l2) as E2.
  set (l3 := query_subleaves _ 0xD 2 62 l2) in *. clearbody l3. intros Hrun.
  assert (log'.2 = l3.2) as ->.
  { destruct os; [|by injection Hrun as _ _ <-]. destruct (xgetbv 0 l3.1). by injection Hrun as _ _ <-. }
  exists r0, r1. split; [by eapply adds_in, adds_in|]. split; [by eapply adds_in|].
  eapply adds_trans; [exact E0 | exact (adds_app _ _ _ _ _ E1 E2) |]. cbv beta. intros l s.
  assert (2 <= s < 64 -> bit_set supported (Z.shiftl 1 s) = true <->
    Z.testbit (Z.lor (Z.shiftl (edx r0) 32) (eax r0)) s = true \/ Z.testbit (Z.lor (Z.shiftl (edx r1) 32) (ecx r1)) s = true) as Hbit.
  { intros Hs. rewrite bit_set_testbit by lia. unfold supported. by rewrite Z.lor_spec, orb_true_iff. }
  split.
  - intros (-> & [-> | [-> | [Hs Hc]]]); [by left | by right; left | right; right]. split; [done|]. split; [lia | by apply Hbit].
  - intros [[-> ->] | [[-> ->] | (-> & Hs & Hc)]]; (split; [done|]); [by left | by right; left | right; right].
    assert (2 <= s < 64) as Hs' by lia. split; [done | by apply Hbit].
Qed.

Lemma query_hypervisor_adds h (log : Log) v i log' : query_hypervisor h log = (v, i, log') ->
  if h then exists r, In {| leaf := 0x40000000; subleaf := 0; registers := r |} log'.2
    /\ adds (fun l s => s = 0 /\ (l = 0x40000000 \/ l = 0x40000001 /\ 0x40000001 <= r.(eax))) log.2 log'.2
  else adds (fun _ _ => False) log.2 log'.2.
Proof.
  unfold query_hypervisor, CPUID_HYPERVISOR_LEAF, CPUID_HYPERVISOR_INTERFACE. destruct h; [|intros [= _ _ <-]; apply adds_nil; tauto].
  destruct (query_and_record 0x40000000 0 log) as [r l1] eqn:E. apply adds_query in E as [E Hin]. cbv zeta.
  intros Hrun%(f_equal snd). cbn [snd] in Hrun. exists r.
  destruct (Z.leb_spec 0x40000001 (eax r)).
  - destruct (query_and_record 0x40000001 0 l1) as [r2 l2] eqn:E2. apply adds_query in E2 as [E2 _]. subst log'.
    split; [by eapply adds_in|]. eapply adds_trans; [exact E | exact E2|]. intros l s. lia.
  - subst log'. split; [done|]. eapply adds_iff; [exact E|]. intros l s. lia.
Qed.

Lemma query_brand_adds m (log : Log) brand log' : query_brand m log = (brand, log') ->
  adds (fun l s => 0x80000002 <= l <= 0x80000004 /\ s = 0 /\ 0x80000004 <= m) log.2 log'.2.
Proof.
  unfold query_brand, CPUID_BRAND_LAST_LEAF, CPUID_BRAND_FIRST_LEAF. destruct (Z.leb_spec 0x80000004 m); [|intros [= _ <-]; apply adds_nil; lia].
  destruct (query_and_record 0x80000002 0 log) as [ra la] eqn:Ea. destruct (query_and_record (0x80000002 + 1) 0 la) as [rb lb] eqn:Eb.
  destruct (query_and_record (0x80000002 + 2) 0 lb) as [rc lc] eqn:Ec. run_log.
  apply adds_query in Ea as [Ea _], Eb as [Eb _], Ec as [Ec _].
  eapply adds_trans; [exact Ea | exact (adds_app _ _ _ _ _ Eb Ec) |]. cbv beta. intros l s. lia.
Qed.

Lemma query_extended_adds (log : Log) m br w log' : query_extended log = (m, br, w, log') ->
  (exists r, In {| leaf := 0x80000000; subleaf := 0; registers := r |} log'.2 /\ r.(eax) = m)
  /\ adds (fun l s => l = 0x80000000 /\ s = 0 \/ l = 0x80000001 /\ s = 0 /\ 0x80000001 <= m
       \/ 0x80000002 <= l <= 0x80000004 /\ s = 0 /\ 0x80000004 <= m \/ l = 0x80000008 /\ s = 0 /\ 0x80000008 <= m) log.2 log'.2.
Proof.
  unfold query_extended, CPUID_EXTENDED_LIMIT_LEAF, CPUID_EXTENDED_FEATURES_LEAF, CPUID_ADDRESS_WIDTH_LEAF.
  destruct (query_and_record 0x80000000 0 log) as [r l1] eqn:E1. apply adds_query in E1 as [E1 Hin]. cbv zeta.
  set (l2 := if 0x80000001 <=? eax r then _ else l1). intros Hrun.
  assert (adds (fun l s => l = 0x80000001 /\ s = 0 /\ 0x80000001 <= eax r) l1.2 l2.2) as E2.
  { unfold l2. destruct (Z.leb_spec 0x80000001 (eax r)); [|apply adds_nil; lia]. eapply adds_iff; [apply adds_query_log|]. intros l s. lia. }
  destruct (query_brand (eax r) l2) as [brand l3] eqn:E3. apply query_brand_adds in E3.
  assert (m = eax r /\ adds (fun l s => l = 0x80000008 /\ s = 0 /\ 0x80000008 <= eax r) l3.2 log'.2) as [-> E4].
  { destruct (Z.leb_spec 0x80000008 (eax r)).
    - destruct (query_and_record 0x80000008 0 l3) as [r4 l4] eqn:E4. apply adds_query in E4 as [E4 _].
      assert (m = eax r /\ l4 = log') as [-> <-] by (split; congruence). split; [done|]. eapply adds_iff; [exact E4|]. intros l s. lia.
    - assert (m = eax r /\ l3 = log') as [-> <-] by (split; congruence). split; [done|]. apply adds_nil. lia. }
  split; [exists r; split; [by eapply adds_in, adds_in, adds_in | done]|].
  eapply adds_trans; [exact E1 | exact (adds_app _ _ _ _ _ E2 (adds_app _ _ _ _ _ E3 E4)) |].
  cbv beta. intros l s. lia.
Qed.
End adds.

(** One leaf and subleaf has one record. *)
Lemma answered_eq fp l s r P : StronglySorted record_lt fp.(raw_cpuid) ->
  In {| leaf := l; subleaf := s; registers := r |} fp.(raw_cpuid) -> answered fp l s P <-> P r.
Proof.
  intros Hs Hin. split; [|intros HP; by exists r]. intros (r' & Hin' & HP).
  assert (find_record fp.(raw_cpuid) l s = Some {| leaf := l; subleaf := s; registers := r |}) as E1 by (by apply find_record_spec).
  assert (find_record fp.(raw_cpuid) l s = Some {| leaf := l; subleaf := s; registers := r' |}) as E2 by (by apply find_record_spec).
  rewrite E1 in E2. by injection E2 as <-.
Qed.

(** The records of a run, stage by stage. *)
Lemma stages_asked {S : Type} `{CPUQuerySource S} source fp source' l1 l2 l3 l4 l5 v sg en :
  StronglySorted record_lt fp.(raw_cpuid) -> stages source fp source' l1 l2 l3 l4 l5 v sg en ->
  (forall l s, (exists r, In {| leaf := l; subleaf := s; registers := r |} fp.(raw_cpuid)) <-> asked fp l s)
  /\ answered fp 0 0 (fun r => r.(eax) = fp.(maximum_basic_leaf))
  /\ answered fp 0x80000000 0 (fun r => r.(eax) = fp.(maximum_extended_leaf))
  /\ (forall r d, sg = Some (r, d) -> In {| leaf := 1; subleaf := 0; registers := r |} fp.(raw_cpuid)).
Proof.
  intros Hs [(vend & E1 & E2) E3 (sup & E4 & _) (hv & hi & E5) (br & w & E6) Hbasic Hpresent _ _ _].
  apply query_vendor_adds in E1 as [A1 I1]. apply query_signature_adds in E2 as (A2 & I2 & N2).
  pose proof (query_structured_adds v.(eax) l2) as A3. rewrite E3 in A3. apply query_xstate_adds in E4. rename E4 into A4.
  apply query_hypervisor_adds in E5. rename E5 into A5. apply query_extended_adds in E6 as [(rx & Ix & Ex) A6]. cbn [snd] in A6, Ix.
  assert (forall r, In r l3.2 -> In r l4.2) as M4 by (intros r Hr; destruct (_ && _); [destruct A4 as (? & ? & _ & _ & A)|]; by eapply adds_in).
  assert (forall r, In r l4.2 -> In r l5.2) as M5 by (intros r Hr; destruct (hypervisor_present fp); [destruct A5 as (? & _ & A)|]; by eapply adds_in).
  assert (forall r, In r l2.2 -> In r l3.2) as M3 by (intros r Hr; destruct (7 <=? _); [destruct A3 as (? & _ & A)|]; by eapply adds_in).
  assert (forall r, In r l5.2 -> In r fp.(raw_cpuid)) as M6 by (intros r Hr; by eapply adds_in).
  assert (forall r d, sg = Some (r, d) -> In {| leaf := 1; subleaf := 0; registers := r |} fp.(raw_cpuid)) as Isg by eauto 6.
  split; [|split; [exists v; split; [apply M6, M5, M4, M3; by eapply adds_in | done]|]; split; [by exists rx | exact Isg]].
  rewrite <- Hbasic in *.
  assert (adds (fun l s => l = 7 /\ 7 <= fp.(maximum_basic_leaf) /\ (s = 0 \/ answered fp 7 0 (fun r => 1 <= s <= Z.min r.(eax) 128))) l2.2 l3.2) as B3.
  { destruct (Z.leb_spec 7 fp.(maximum_basic_leaf)); [|eapply adds_iff; [exact A3 | intros l s; lia]].
    destruct A3 as (r & Hr & A3). eapply adds_iff; [exact A3|]. intros l s. rewrite (answered_eq fp 7 0 r) by auto. tauto. }
  assert (adds (fun l s => l = 0xD /\ 0xD <= fp.(maximum_basic_leaf) /\ answered fp 1 0 (fun r => Z.testbit r.(ecx) 26 = true)
      /\ (s = 0 \/ s = 1 \/ 2 <= s < 64 /\ component_reported fp s)) l3.2 l4.2) as B4.
  { assert (1 <= fp.(maximum_basic_leaf) -> answered fp 1 0 (fun r => Z.testbit r.(ecx) 26 = true) <-> signature_flag sg CPUID_XSAVE_MASK = true) as Hx.
    { intros Hb. destruct sg as [[r d]|]; [|specialize (N2 eq_refl); lia]. rewrite (answered_eq fp 1 0 r) by eauto.
      cbn [signature_flag]. unfold CPUID_XSAVE_MASK. by rewrite bit_set_testbit. }
    destruct (Z.leb_spec 0xD fp.(maximum_basic_leaf)); cbn [andb] in A4; [|eapply adds_iff; [exact A4 | intros l s; lia]].
    specialize (Hx ltac:(lia)).
    destruct (signature_flag sg CPUID_XSAVE_MASK); [|eapply adds_iff; [exact A4|]; intros l s; rewrite Hx; split; [by intros (_ & _ & ? & _) | done]].
    destruct A4 as (r0 & r1 & I0 & I1' & A4). eapply adds_iff; [exact A4|]. intros l s. unfold component_reported.
    rewrite Hx, (answered_eq fp 0xD 0 r0), (answered_eq fp 0xD 1 r1) by auto. tauto. }
  assert (adds (fun l s => s = 0 /\ fp.(hypervisor_present) = true /\ (l = 0x40000000 \/ l = 0x40000001 /\
      answered fp 0x40000000 0 (fun r => 0x40000001 <= r.(eax)))) l4.2 l5.2) as B5.
  { destruct (hypervisor_present fp); [|eapply adds_iff; [exact A5|]; intros l s; split; [by intros (_ & ? & _) | done]].
    destruct A5 as (r & Hr & A5). eapply adds_iff; [exact A5|]. intros l s. rewrite (answered_eq fp 0x40000000 0 r) by auto. tauto. }
  destruct (adds_app _ _ _ _ _ A1 (adds_app _ _ _ _ _ A2 (adds_app _ _ _ _ _ B3 (adds_app _ _ _ _ _ B4 (adds_app _ _ _ _ _ B5 A6)))))
    as (new & Hnew & Hiff). cbn [snd app] in Hnew. subst new. intros l s. rewrite Hiff. unfold asked. tauto.
Qed.

(** The hypervisor bit is that of the signature leaf. *)
Lemma fingerprint_asked {S : Type} `{CPUQuerySource S} source fp source' :
  query_cpu_fingerprint source = (fp, source') ->
  StronglySorted record_lt fp.(raw_cpuid)
  /\ (forall l s, (exists r, In {| leaf := l; subleaf := s; registers := r |} fp.(raw_cpuid)) <-> asked fp l s)
  /\ answered fp 0 0 (fun r => r.(eax) = fp.(maximum_basic_leaf))
  /\ answered fp 0x80000000 0 (fun r => r.(eax) = fp.(maximum_extended_leaf))
  /\ (fp.(hypervisor_present) = true <-> answered fp 1 0 (fun r => Z.testbit r.(ecx) 31 = true)).
Proof.
  intros E. pose proof (query_cpu_fingerprint_records _ _ _ E) as (new & Hraw & Hs & _). cbn [app] in Hraw. subst new. split; [exact Hs|].
  apply query_cpu_fingerprint_stages in E as (l1 & l2 & l3 & l4 & l5 & v & sg & en & Hst).
  destruct (stages_asked _ _ _ _ _ _ _ _ _ _ _ Hs Hst) as (Hiff & Hb & He & Hsg). do 3 (split; [done|]).
  rewrite (stage_present _ _ _ _ _ _ _ _ _ _ _ Hst). destruct sg as [[r d]|]; cbn [signature_flag].
  - unfold CPUID_HYPERVISOR_MASK. rewrite (answered_eq fp 1 0 r) by eauto. by rewrite bit_set_testbit.
  - split; [done|]. intros (r & Hin & _). exfalso. destruct Hst as [(vend & _ & E2) _ _ _ _ Hbasic _ _ _ _].
    apply query_signature_adds in E2 as (_ & _ & N). specialize (N eq_refl). rewrite <- Hbasic in N.
    destruct (proj1 (Hiff 1 0)) as [[? _] | [(_ & _ & ?) | H']]; [by exists r | lia | lia | lia].
Qed.

(** ** Calls of [xgetbv]

    A source that also keeps the indices of its [xgetbv] calls. *)

Definition logged_source {S : Type} (source : CPUQuerySource S) : CPUQuerySource (S * list Z) := {|
  cpuid l s state := let '(r, s') := cpuid l s state.1 in (r, (s', state.2));
  xgetbv i state := let '(v, s') := xgetbv i state.1 in (v, (s', state.2 ++ [i]));
|}.

Section xgetbv_calls.
Context {S : Type} (source : CPUQuerySource S).

#[local] Existing Instance logged_source.

Abbreviation calls log := (log.1.2).

Lemma query_and_record_calls l s (log : Log) : calls (query_and_record l s log).2 = calls log.
Proof. destruct log as [[st i] raw]. cbn. by destruct (cpuid l s st). Qed.

Lemma query_calls l s (log : Log) r log' : query_and_record l s log = (r, log') -> calls log' = calls log.
Proof. intros E. pose proof (query_and_record_calls l s log) as Hc. by rewrite E in Hc. Qed.

Lemma query_subleaves_calls wanted l s n (log : Log) : calls (query_subleaves wanted l s n log) = calls log.
Proof.
  revert s log. induction n as [|n IH]; intros s log; cbn [query_subleaves]; [done|].
  rewrite IH. destruct (wanted s); [apply query_and_record_calls | done].
Qed.

Lemma query_vendor_calls (log : Log) r v log' : query_vendor log = (r, v, log') -> calls log' = calls log.
Proof.
  unfold query_vendor. destruct (query_and_record _ _ log) as [r1 l1] eqn:E. run_log. by eapply query_calls.
Qed.

Lemma query_signature_calls b v (log : Log) sg log' : query_signature b v log = (sg, log') -> calls log' = calls log.
Proof.
  unfold query_signature. destruct (_ <=? b); [|by run_log].
  destruct (query_and_record _ _ log) as [r1 l1] eqn:E. run_log. by eapply query_calls.
Qed.

Lemma query_structured_calls b (log : Log) : calls (query_structured b log) = calls log.
Proof.
  unfold query_structured. destruct (_ <=? b); [|done].
  destruct (query_and_record _ _ log) as [r1 l1] eqn:E. rewrite query_subleaves_calls. by eapply query_calls.
Qed.

Lemma query_xstate_calls b xs os (log : Log) sup en log' :
  query_xstate b xs os log = (sup, en, log') ->
  calls log' = calls log ++ (if bool_decide (en = None) then [] else [0])
  /\ (en <> None -> CPUID_XSTATE_LEAF <= b /\ xs = true /\ os = true).
Proof.
  unfold query_xstate. destruct ((CPUID_XSTATE_LEAF <=? b) && xs) eqn:Eb.
  2: { intros [= _ <- <-]. cbn. by rewrite app_nil_r. }
  apply andb_true_iff in Eb as [Hb%Z.leb_le ->].
  destruct (query_and_record CPUID_XSTATE_LEAF 0 log) as [r1 l1] eqn:E1.
  destruct (query_and_record CPUID_XSTATE_LEAF 1 l1) as [r2 l2] eqn:E2.
  apply query_calls in E1. apply query_calls in E2.
  match goal with |- context [query_subleaves ?w ?l ?s ?n ?lg] =>
    pose proof (query_subleaves_calls w l s n lg) as E3; destruct (query_subleaves w l s n lg) as [[st i] raw] end.
  cbn [fst snd] in E3. cbv zeta. destruct os.
  - cbn. destruct (xgetbv 0 st). intros [= _ <- <-]. cbn. split; [congruence | done].
  - intros [= _ <- <-]. cbn. rewrite app_nil_r. split; [congruence | done].
Qed.

Lemma query_hypervisor_calls h (log : Log) v i log' : query_hypervisor h log = (v, i, log') -> calls log' = calls log.
Proof.
  unfold query_hypervisor. destruct h; [|by run_log].
  destruct (query_and_record CPUID_HYPERVISOR_LEAF 0 log) as [r1 l1] eqn:E1. apply query_calls in E1.
  destruct (_ <=? _); [|by run_log].
  destruct (query_and_record CPUID_HYPERVISOR_INTERFACE 0 l1) as [r2 l2] eqn:E2. apply query_calls in E2.
  run_log. congruence.
Qed.

Lemma query_extended_calls (log : Log) m br w log' : query_extended log = (m, br, w, log') -> calls log' = calls log.
Proof.
  unfold query_extended. destruct (query_and_record _ 0 log) as [r1 l1] eqn:E1. apply query_calls in E1.
  set (l2 := if CPUID_EXTENDED_FEATURES_LEAF <=? eax r1 then _ else l1).
  assert (calls l2 = calls l1) as E2 by (subst l2; destruct (_ <=? _); [apply query_and_record_calls | done]).
  clearbody l2. destruct (query_brand (eax r1) l2) as [brand l3] eqn:E3.
  assert (calls l3 = calls l2) as E3'.
  { unfold query_brand in E3. destruct (_ <=? _); [|injection E3 as _ <-; done].
    destruct (query_and_record _ 0 l2) as [ra la] eqn:Ea. apply query_calls in Ea.
    destruct (query_and_record (_ + 1) 0 la) as [rb lb] eqn:Eb. apply query_calls in Eb.
    destruct (query_and_record (_ + 2) 0 lb) as [rc lc] eqn:Ec. apply query_calls in Ec.
    injection E3 as _ <-. congruence. }
  destruct (_ <=? _).
  - destruct (query_and_record _ 0 l3) as [r4 l4] eqn:E4. apply query_calls in E4. run_log. congruence.
  - run_log. congruence.
Qed.

(** The signature record is the one of leaf 1. *)
Lemma query_signature_record {T} `{CPUQuerySource T} b v (log : Log) r d log' :
  query_signature b v log = (Some (r, d), log') ->
  log'.2 = log.2 ++ [{| leaf := CPUID_SIGNATURE_LEAF; subleaf := 0; registers := r |}].
Proof.
  unfold query_signature. destruct (_ <=? b); [|by intros [= ? _]].
  destruct (query_and_record _ _ log) as [r1 l1] eqn:E. apply query_and_record_log in E.
  intros Hr. assert (r1 = r) as <- by congruence. assert (l1 = log') as <- by congruence. done.
Qed.
End xgetbv_calls.

(** ** Properties *)


Lemma fingerprint_features {S : Type} `{CPUQuerySource S} source fp source' :
  query_cpu_fingerprint source = (fp, source') ->
  (forall d, In d CPUID_FEATURES ->
     In d.(feature_name) fp.(cpuid_features) <->
     exists r, In r fp.(raw_cpuid) /\ r.(leaf) = d.(feature_leaf) /\ r.(subleaf) = d.(feature_subleaf)
       /\ Z.testbit (register_value r d.(feature_reg)) d.(feature_bit) = true)
  /\ (forall name, In name fp.(cpuid_features) -> In name (map feature_name CPUID_FEATURES))
  /\ (forall bit name, In (bit, name) XSTATE_COMPONENTS ->
     In name fp.(enabled_xstate) <->
     exists supported enabled, fp.(xcr0_supported) = Some supported /\ fp.(xcr0) = Some enabled
       /\ Z.testbit supported bit = true /\ Z.testbit enabled bit = true).
Proof.
  intros E. destruct (query_cpu_fingerprint_decoded _ _ _ E) as [E1 E2].
  apply query_cpu_fingerprint_records in E as (new & Hraw & Hs & _). cbn [app] in Hraw. subst new.
  rewrite E1, E2. split; [|split].
  - intros d. by apply decode_features_spec.
  - apply decode_features_known.
  - intros bit name. apply decode_enabled_xstate_spec.
Qed.

(** C30. A feature of the table is listed exactly when its leaf was recorded with its bit
    set, and a state component exactly when it is both supported and enabled; nothing
    else is listed. *)
Theorem query_cpu_fingerprint_features {S : Type} `{CPUQuerySource S} source :
  let fp := (query_cpu_fingerprint source).1 in
  (forall d, In d CPUID_FEATURES ->
     In d.(feature_name) fp.(cpuid_features) <->
     exists r, In r fp.(raw_cpuid) /\ r.(leaf) = d.(feature_leaf) /\ r.(subleaf) = d.(feature_subleaf)
       /\ Z.testbit (register_value r d.(feature_reg)) d.(feature_bit) = true)
  /\ (forall name, In name fp.(cpuid_features) -> In name (map feature_name CPUID_FEATURES))
  /\ (forall bit name, In (bit, name) XSTATE_COMPONENTS ->
     In name fp.(enabled_xstate) <->
     exists supported enabled, fp.(xcr0_supported) = Some supported /\ fp.(xcr0) = Some enabled
       /\ Z.testbit supported bit = true /\ Z.testbit enabled bit = true).
Proof.
  destruct (query_cpu_fingerprint source) as [fp source'] eqn:E. exact (fingerprint_features _ _ _ E).
Qed.

(** The privileged-state read is safe: [xgetbv] is executed at most once, with index
    zero, only after the signature leaf reported both XSAVE and OSXSAVE and the
    processor has the state leaf; otherwise it is not executed and XCR0 is absent. *)
Theorem query_cpu_fingerprint_xgetbv {S : Type} (source : CPUQuerySource S) (s s' : S) fp calls :
  query_cpu_fingerprint (H := logged_source source) (s, []) = (fp, (s', calls)) ->
  (fp.(xcr0) = None /\ calls = []) \/
  (exists value r, fp.(xcr0) = Some value /\ calls = [0] /\ CPUID_XSTATE_LEAF <= fp.(maximum_basic_leaf)
    /\ In r fp.(raw_cpuid) /\ r.(leaf) = CPUID_SIGNATURE_LEAF
    /\ Z.testbit r.(registers).(ecx) 26 = true /\ Z.testbit r.(registers).(ecx) 27 = true).
Proof.
  intros (l1 & l2 & l3 & l4 & l5 & v & sg & en & Hst)%query_cpu_fingerprint_stages.
  pose proof (stages_records _ _ _ _ _ _ _ _ _ _ _ Hst) as
    (_ & _ & (n3 & X3 & _) & (n4 & X4 & _) & (n5 & X5 & _) & (n6 & X6 & _)).
  destruct Hst as [(vend & E1 & E2) E3 (sup & E4 & _) (hv & hi & E5) (br & w & E6) Hmax _ Hxcr0 _ _].
  pose proof (query_signature_calls _ _ _ _ _ _ E2) as E2'.
  apply query_vendor_calls in E1. apply query_hypervisor_calls in E5. apply query_extended_calls in E6.
  apply query_xstate_calls in E4 as [E4 Hflags].
  assert (l3.1.2 = l2.1.2) as E3' by (rewrite <- E3; apply query_structured_calls).
  cbn [fst snd] in E1, E6.
  assert (calls = if bool_decide (en = None) then [] else [0]) as ->
    by (rewrite E6, E5, E4, E3', E2', E1; done).
  rewrite Hxcr0, Hmax. destruct en as [value|]; [right | by left].
  destruct (Hflags ltac:(done)) as (Hb & Hx & Ho). destruct sg as [[r d]|]; [|done].
  apply query_signature_record in E2.
  exists value, {| leaf := CPUID_SIGNATURE_LEAF; subleaf := 0; registers := r |}. cbn [leaf registers].
  do 3 (split; [done|]). split.
  { rewrite X6, X5, X4, X3, E2. apply list_elem_of_In. rewrite !elem_of_app. do 4 left. right. by left. }
  split; [done|]. cbn [signature_flag] in Hx, Ho. unfold CPUID_XSAVE_MASK, CPUID_OSXSAVE_MASK in Hx, Ho.
  rewrite bit_set_testbit in Hx, Ho by lia. done.
Qed.

(** Every call gives the same fingerprint, and only the first one queries the processor. *)
Lemma host_cpu_fingerprint_once {S : Type} `{Intrinsics S} windows result (s s1 s2 : S) f1 f2 result1 result2 :
  host_cpu_fingerprint windows result s = (f1, result1, s1) -> host_cpu_fingerprint windows result1 s1 = (f2, result2, s2) ->
  f2 = f1 /\ result2 = result1 /\ s2 = s1.
Proof.
  unfold host_cpu_fingerprint. destruct result as [f|]; [intros [= <- <- <-] [= <- <- <-]; done|].
  destruct (query_cpu_fingerprint s) as [f w]. intros [= <- <- <-] [= <- <- <-]. done.
Qed.

(** A processor with the state leaf, for the concrete run. *)
Definition example_processor : CPUQuerySource unit := {|
  cpuid l s u :=
    ({| eax := if l =? 0 then 0xD else if l =? 0x80000000 then 0x80000008 else 7;
        ebx := 0x756E6547; ecx := 0x0C000000; edx := 0 |}, u);
  xgetbv _ u := (3, u);
|}.

Lemma query_cpu_fingerprint_xgetbv_witness :
  exists fp, query_cpu_fingerprint (H := logged_source example_processor) (tt, []) = (fp, (tt, [0]))
    /\ fp.(xcr0) = Some 3 /\ fp.(enabled_xstate) = ["x87" : str; "sse" : str]
    /\ CPUID_XSTATE_LEAF <= fp.(maximum_basic_leaf).
Proof.
  destruct (query_cpu_fingerprint (H := logged_source example_processor) (tt, [])) as [fp [u calls]] eqn:E.
  pose proof (query_cpu_fingerprint_xgetbv example_processor tt u fp calls) as H.
  exists fp. destruct u. specialize (H E).
  assert (fp = (query_cpu_fingerprint (H := logged_source example_processor) (tt, [])).1) as Hfp by (by rewrite E).
  assert (xcr0 fp = Some 3) as Hx by (rewrite Hfp; vm_compute; reflexivity).
  destruct H as [[H _] | (value & r & _ & -> & Hm & _)]; [congruence|].
  split; [reflexivity|]. split; [done|]. split; [rewrite Hfp; vm_compute; reflexivity | done].
Defined.
