(* ===== verification/Trace.v ===== *)
(** * Trace: the record of a run ([Trace] of [src/src/bme_core.hpp]), the request and the
    result of the platform layer ([src/src/os.hpp]), and the preparation of a run that
    the two platforms share ([src/src/os.cpp]). *)

From S2P Require Import Prelude Text Core Cpu.

Local Open Scope Z_scope.

Record Trace : Type := {
  cpu_fingerprint : option CPUFingerprint;      (* null only before a run *)
  trace_code : list Z;
  requested_seed : Registers;
  requested_backend : DisasmBackend;
  requested_syntax : DisasmSyntax;
  effective_max_steps : Z;
  seed_data_pointers : bool;
  trace_seed : Registers;
  execution_events : list ExecutionEvent;
  trace_outcome : Outcome;
  message : str;
  instrumentation_detected : bool;
  stop_reason : str;
  stop_address : Z;
  fault_memory_address : option Z;
  fault_access : FaultAccess;
}.

Definition Trace_init : Trace := {|
  cpu_fingerprint := None; trace_code := []; requested_seed := Registers_init; requested_backend := Zydis;
  requested_syntax := Intel; effective_max_steps := 0; seed_data_pointers := false; trace_seed := Registers_init;
  execution_events := []; trace_outcome := OIdle; message := []; instrumentation_detected := false;
  stop_reason := []; stop_address := 0; fault_memory_address := None; fault_access := FANone;
|}.

Record PlatformStep : Type := {
  step_rip : Z;
  step_registers : Registers;
  step_faulted : bool;
}.

Record PlatformRunRequest : Type := {
  request_code : list Z;
  request_seed : Registers;
  request_max_steps : Z;
  request_stop_offset : option Z;
  request_seed_data_pointers : bool;
}.

Record PlatformRunResult : Type := {
  result_seed : Registers;
  result_steps : list PlatformStep;
  result_outcome : Outcome;
  result_instrumentation_detected : bool;
  result_fault_name : str;
  result_error : str;
  result_stop_address : Z;
  result_fault_memory_address : option Z;
  result_fault_access : FaultAccess;
  result_stopped_at_target : bool;
}.

Definition PlatformRunResult_init : PlatformRunResult := {|
  result_seed := Registers_init; result_steps := []; result_outcome := OFinished;
  result_instrumentation_detected := false; result_fault_name := []; result_error := [];
  result_stop_address := 0; result_fault_memory_address := None; result_fault_access := FANone;
  result_stopped_at_target := false;
|}.

(** Assignments to the fields of a result. *)
Definition set_seed (r : PlatformRunResult) (s : Registers) : PlatformRunResult := {|
  result_seed := s; result_steps := r.(result_steps); result_outcome := r.(result_outcome);
  result_instrumentation_detected := r.(result_instrumentation_detected);
  result_fault_name := r.(result_fault_name); result_error := r.(result_error);
  result_stop_address := r.(result_stop_address);
  result_fault_memory_address := r.(result_fault_memory_address);
  result_fault_access := r.(result_fault_access);
  result_stopped_at_target := r.(result_stopped_at_target);
|}.

Definition add_step (r : PlatformRunResult) (s : PlatformStep) : PlatformRunResult := {|
  result_seed := r.(result_seed); result_steps := r.(result_steps) ++ [s];
  result_outcome := r.(result_outcome);
  result_instrumentation_detected := r.(result_instrumentation_detected);
  result_fault_name := r.(result_fault_name); result_error := r.(result_error);
  result_stop_address := r.(result_stop_address);
  result_fault_memory_address := r.(result_fault_memory_address);
  result_fault_access := r.(result_fault_access);
  result_stopped_at_target := r.(result_stopped_at_target);
|}.

(** [result.outcome = o; result.error = e]. *)
Definition set_error (r : PlatformRunResult) (o : Outcome) (e : str) : PlatformRunResult := {|
  result_seed := r.(result_seed); result_steps := r.(result_steps); result_outcome := o;
  result_instrumentation_detected := r.(result_instrumentation_detected);
  result_fault_name := r.(result_fault_name); result_error := e;
  result_stop_address := r.(result_stop_address);
  result_fault_memory_address := r.(result_fault_memory_address);
  result_fault_access := r.(result_fault_access);
  result_stopped_at_target := r.(result_stopped_at_target);
|}.

Definition set_outcome (r : PlatformRunResult) (o : Outcome) : PlatformRunResult :=
  set_error r o r.(result_error).

Definition set_instrumentation (r : PlatformRunResult) : PlatformRunResult := {|
  result_seed := r.(result_seed); result_steps := r.(result_steps); result_outcome := r.(result_outcome);
  result_instrumentation_detected := true;
  result_fault_name := r.(result_fault_name); result_error := r.(result_error);
  result_stop_address := r.(result_stop_address);
  result_fault_memory_address := r.(result_fault_memory_address);
  result_fault_access := r.(result_fault_access);
  result_stopped_at_target := r.(result_stopped_at_target);
|}.

(** [result.outcome = Outcome::Stopped], at an address. *)
Definition set_stopped (r : PlatformRunResult) (at_target : bool) (address : Z) : PlatformRunResult := {|
  result_seed := r.(result_seed); result_steps := r.(result_steps); result_outcome := OStopped;
  result_instrumentation_detected := r.(result_instrumentation_detected);
  result_fault_name := r.(result_fault_name); result_error := r.(result_error);
  result_stop_address := address;
  result_fault_memory_address := r.(result_fault_memory_address);
  result_fault_access := r.(result_fault_access);
  result_stopped_at_target := at_target || r.(result_stopped_at_target);
|}.

(** [result.outcome = Outcome::Faulted] with its report. *)
Definition set_faulted (r : PlatformRunResult) (name : str) (address : Z) (memory : option Z)
    (access : FaultAccess) : PlatformRunResult := {|
  result_seed := r.(result_seed); result_steps := r.(result_steps); result_outcome := OFaulted;
  result_instrumentation_detected := r.(result_instrumentation_detected);
  result_fault_name := name; result_error := r.(result_error);
  result_stop_address := address;
  result_fault_memory_address := memory;
  result_fault_access := access;
  result_stopped_at_target := r.(result_stopped_at_target);
|}.

(** ** Addresses *)

(** The parameters of the memory of the platform: [vm_page_size()] and
    [vm_allocation_granularity()]. *)
Class Memory : Type := {
  vm_page_size : Z;
  vm_allocation_granularity : Z;
}.

Definition scratch_reserve_base {memory : Memory} : Z :=
  Z.land SCRATCH_DATA_RESERVE_BASE (u64 (Z.lnot (u64 (vm_allocation_granularity - 1)))).

Definition scratch_data_base {memory : Memory} : Z := u64 (scratch_reserve_base + vm_page_size).

(** ** Preparation *)

Definition INSTRUMENTATION_REFUSAL : str :=
  "Running under an emulator or instrumentation layer. Native single-step tracing is unavailable.".

(** [instrumented] is the answer of [instrumentation_detected()].  The result and
    whether the run goes on. *)
Definition prepare_platform_run (request : PlatformRunRequest) (instrumented : bool)
    (result : PlatformRunResult) : bool * PlatformRunResult :=
  let result := set_seed result request.(request_seed) in
  match request.(request_code) with
  | [] => (false, set_error result OIdle "No code to run.")
  | _ =>
    if (match request.(request_stop_offset) with
        | Some offset => Z.of_nat (length request.(request_code)) <=? offset
        | None => false
        end) then (false, set_error result OError "Stop offset is outside the input.")
    else if instrumented then
      (false, set_error (set_instrumentation result) OError INSTRUMENTATION_REFUSAL)
    else (true, result)
  end.

(** The run goes on exactly for a non-empty code, a stop offset inside it and no
    instrumentation; otherwise the result holds no step and says why. *)
Lemma prepare_platform_run_spec request instrumented :
  let '(go_on, result) := prepare_platform_run request instrumented PlatformRunResult_init in
  result.(result_seed) = request.(request_seed) /\ result.(result_steps) = [] /\
  (go_on = true <->
     request.(request_code) <> [] /\
     (forall offset, request.(request_stop_offset) = Some offset ->
        offset < Z.of_nat (length request.(request_code))) /\
     instrumented = false) /\
  (go_on = true -> result = set_seed PlatformRunResult_init request.(request_seed)) /\
  (go_on = false -> result.(result_error) <> [] /\
     (result.(result_outcome) = OIdle /\ request.(request_code) = [] \/ result.(result_outcome) = OError)).
Proof.
  unfold prepare_platform_run. destruct (request_code request) as [|b bytes] eqn:E.
  { do 2 (split; [done|]). split; [|split; [done|]].
    - split; [done | by intros [? _]].
    - intros _. split; [done | by left]. }
  destruct (request_stop_offset request) as [offset|] eqn:Eo.
  - destruct (Z.leb_spec (Z.of_nat (length (b :: bytes))) offset) as [Hle|Hlt].
    + do 2 (split; [done|]). split; [|split; [done|]].
      * split; [done|]. intros (_ & H & _). specialize (H offset eq_refl). lia.
      * intros _. split; [done | by right].
    + destruct instrumented; do 2 (split; [done|]).
      * split; [by split; [|intros (_ & _ & ?)]|]. split; [done|]. intros _. split; [done | by right].
      * split; [|by split]. split; [|done]. intros _. split; [done|]. split; [|done]. by intros ? [= <-].
  - destruct instrumented; do 2 (split; [done|]).
    + split; [by split; [|intros (_ & _ & ?)]|]. split; [done|]. intros _. split; [done | by right].
    + split; [|by split]. by split.
Qed.

(** A refusal for instrumentation has its message. *)
Lemma prepare_refusal request instrumented result :
  prepare_platform_run request instrumented PlatformRunResult_init = (false, result) ->
  result.(result_instrumentation_detected) = true -> result.(result_error) = INSTRUMENTATION_REFUSAL.
Proof.
  unfold prepare_platform_run. destruct (request_code request); [by intros [= <-]|].
  match goal with |- (if ?c then _ else _) = _ -> _ => destruct c end; [by intros [= <-]|].
  destruct instrumented; [by intros [= <-] | done].
Qed.
