(* ===== verification/History.v ===== *)
(** * History: disassembly of one instruction and the rows of the instruction history
    ([src/src/bme_core.cpp], [Decoded], [disasm_one] and [build_history]).

    The four decoders are third-party libraries: [Decoders] is the part of their
    interfaces the program calls. *)

From Stdlib Require Import Sorted.
From S2P Require Import Prelude Text Core Cpu Trace.

Local Open Scope Z_scope.

(** ** Decoders *)

Class Decoders : Type := {
  (* ZydisDisassembleIntel and ZydisDisassembleATT: the text and the length *)
  zydis_disassemble : DisasmSyntax -> Z -> list Z -> option (str * Z);
  (* NdDecodeEx, NdToText and the length of an INSTRUX *)
  INSTRUX : Type;
  nd_decode : list Z -> option INSTRUX;
  nd_to_text : INSTRUX -> Z -> option str;
  nd_length : INSTRUX -> Z;
  (* cs_open, and cs_disasm of one instruction: mnemonic, operands, size *)
  cs_open : bool;
  cs_disasm : DisasmSyntax -> Z -> list Z -> option (str * str * Z);
  (* xed_decode, xed_format_context and the length *)
  xed_decoded_inst : Type;
  xed_decode : list Z -> option xed_decoded_inst;
  xed_format_context : DisasmSyntax -> xed_decoded_inst -> Z -> option str;
  xed_length : xed_decoded_inst -> Z;
}.

Record Decoded : Type := {
  decoded_text : str;
  decoded_length : Z;
}.

(** [Decoded::valid]. *)
Definition valid (d : Decoded) : bool :=
  negb (bool_decide (d.(decoded_text) = [])) && negb (d.(decoded_length) =? 0).

Section history.
Context {decoders : Decoders}.

(** [bytes] is the range [[code, code + size)]. *)
Definition disasm_one (backend : DisasmBackend) (syntax : DisasmSyntax) (address : Z) (bytes : list Z) : Decoded :=
  let found text length := {| decoded_text := text; decoded_length := u8 length |} in
  let empty := {| decoded_text := []; decoded_length := 0 |} in
  let result :=
    match backend with
    | Zydis =>
      match zydis_disassemble syntax address bytes with
      | Some (text, length) => found text length
      | None => empty
      end
    | Bddisasm =>
      match nd_decode bytes with
      | Some ix =>
        match nd_to_text ix address with
        | Some text => found text (nd_length ix)
        | None => empty
        end
      | None => empty
      end
    | Capstone =>
      if cs_open then
        match cs_disasm syntax address bytes with
        | Some (mnemonic, op_str, size) =>
          found (match op_str with [] => mnemonic | _ => mnemonic ++ " "%char :: op_str end) size
        | None => empty
        end
      else empty
    | Xed =>
      match xed_decode (take (Z.to_nat (u32 (Z.of_nat (length bytes)))) bytes) with
      | Some ix =>
        match xed_format_context syntax ix address with
        | Some text => found text (xed_length ix)
        | None => empty
        end
      | None => empty
      end
    end in
  {| decoded_text := trim isspace result.(decoded_text); decoded_length := result.(decoded_length) |}.

(** ** The history of a trace *)

Section build.
Context (trace : Trace) (backend : DisasmBackend) (syntax : DisasmSyntax).

Definition size : Z := Z.of_nat (length trace.(trace_code)).
Definition base : Z := reg_get trace.(trace_seed) RIP.
Definition code_end : Z := u64 (base + size).

(** [event.rip >= base && event.rip < code_end]. *)
Definition in_input (event : ExecutionEvent) : bool :=
  (base <=? event.(event_rip)) && (event.(event_rip) <? code_end).

(** The bit vector [event_at], indexed by offset: set where an event of the input is. *)
Definition event_at (offset : Z) : bool :=
  existsb (fun event => in_input event && (event.(event_rip) - base =? offset)) trace.(execution_events).

(** The lambda [disasm_at]: a row that is not reached and has no event yet. *)
Definition disasm_at (rip : Z) : HistoryRow :=
  let offset := u64 (rip - base) in
  let available := size - offset in
  let decoded := disasm_one backend syntax rip (drop (Z.to_nat offset) trace.(trace_code)) in
  if valid decoded && (decoded.(decoded_length) <=? available) then
    {| row_rip := rip; row_text := decoded.(decoded_text); row_offset := offset;
       row_length := decoded.(decoded_length); row_kind := HKNotReached; row_event := None |}
  else
    {| row_rip := rip; row_text := "(bad)"; row_offset := offset; row_length := 1;
       row_kind := HKNotReached; row_event := None |}.

(** The inner loop of [fill_gap]: the first address from [address] on and below
    [boundary] that has an event, [boundary] when there is none. *)
Fixpoint split_boundary (address : Z) (n : nat) (boundary : Z) : Z :=
  match n with
  | O => boundary
  | S n => if event_at (address - base) then address else split_boundary (address + 1) n boundary
  end.

(** The row of one round of [fill_gap] and the address after it. *)
Definition gap_row (from to : Z) : HistoryRow * Z :=
  let row := disasm_at from in
  let next := u64 (from + row.(row_length)) in
  let boundary := Z.min next to in
  let boundary := split_boundary (from + 1) (Z.to_nat (boundary - (from + 1))) boundary in
  if negb (boundary =? next) then
    ({| row_rip := row.(row_rip); row_text := "(data)"; row_offset := row.(row_offset);
        row_length := boundary - from; row_kind := HKData; row_event := row.(row_event) |}, boundary)
  else (row, next).

(** The rows a gap adds; [None] when the fuel runs out. *)
Fixpoint fill_gap (fuel : nat) (from to : Z) : option (list HistoryRow) :=
  if from <? to then
    match fuel with
    | O => None
    | S fuel =>
      let '(row, next) := gap_row from to in
      rows ← fill_gap fuel next to;
      Some (if negb (event_at (from - base)) then row :: rows else rows)
    end
  else Some [].

Definition gap_fuel (from to : Z) : nat := Z.to_nat (to - from).

(** The row of an event of the input. *)
Definition event_row (event_index : nat) (event : ExecutionEvent) : HistoryRow :=
  let row := disasm_at event.(event_rip) in
  {| row_rip := row.(row_rip); row_text := row.(row_text); row_offset := row.(row_offset);
     row_length := row.(row_length);
     row_kind := match event.(event_kind) with EKCompleted => HKReached | EKFaulted => HKFaulted end;
     row_event := Some event_index |}.

(** The loop over the events from [event_index] on; [linear] is the end of what the
    rows have reached. *)
Fixpoint event_rows (events : list ExecutionEvent) (event_index : nat) (linear : Z) : option (list HistoryRow * Z) :=
  match events with
  | [] => Some ([], linear)
  | event :: events =>
    if negb (in_input event) then event_rows events (S event_index) linear
    else
      gap ← (if linear <? event.(event_rip)
             then fill_gap (gap_fuel linear event.(event_rip)) linear event.(event_rip) else Some []);
      let row := event_row event_index event in
      '(rows, last) ← event_rows events (S event_index)
                        (Z.max linear (u64 (event.(event_rip) + row.(row_length))));
      Some (gap ++ row :: rows, last)
  end.

Definition build_history : option (list HistoryRow) :=
  match trace.(trace_code) with
  | [] => Some []
  | _ =>
    if trace.(instrumentation_detected) then Some []
    else
      '(rows, linear) ← event_rows trace.(execution_events) 0 base;
      rest ← fill_gap (gap_fuel linear code_end) linear code_end;
      Some (rows ++ rest)
  end.
End build.
End history.

(** Has a row an execution state? *)
Definition is_event_row (row : HistoryRow) : bool :=
  match row.(row_kind) with HKReached | HKFaulted => true | _ => false end.

(** ** Lemmas *)

Definition row_end (row : HistoryRow) : Z := row.(row_rip) + row.(row_length).

(** A row without an event. *)
Definition is_static (row : HistoryRow) : bool := bool_decide (row.(row_event) = None).

Definition row_before (a b : HistoryRow) : Prop := row_end a <= b.(row_rip).

Section lemmas.
Context {decoders : Decoders} (trace : Trace) (backend : DisasmBackend) (syntax : DisasmSyntax).

Abbreviation base := (base trace).
Abbreviation size := (size trace).
Abbreviation code_end := (code_end trace).
Abbreviation event_at := (event_at trace).
Abbreviation disasm_at := (disasm_at trace backend syntax).
Abbreviation gap_row := (gap_row trace backend syntax).
Abbreviation fill_gap := (fill_gap trace backend syntax).

(** The input lies below the top of the address space. *)
Hypothesis Hbase : 0 <= base.
Hypothesis Hfit : base + size < 2 ^ 64.

Lemma code_end_eq : code_end = base + size.
Proof. apply wrap_small. unfold in_width. unfold History.size in *. lia. Qed.

(** A row of the input: its offset is that of its address and it ends inside. *)
Definition row_ok (row : HistoryRow) : Prop :=
  base <= row.(row_rip) /\ row.(row_offset) = row.(row_rip) - base /\ 1 <= row.(row_length)
  /\ row_end row <= code_end.

Lemma disasm_one_length a b c d : 0 <= (disasm_one a b c d).(decoded_length).
Proof.
  unfold disasm_one. cbn [decoded_length].
  repeat split_goal; cbn [decoded_length]; try lia; apply (wrap_in_width 8); lia.
Qed.

Lemma disasm_at_ok rip :
  base <= rip < code_end ->
  row_ok (disasm_at rip) /\ (disasm_at rip).(row_rip) = rip /\ (disasm_at rip).(row_event) = None
  /\ (disasm_at rip).(row_kind) = HKNotReached.
Proof.
  rewrite code_end_eq. intros Hr. unfold row_ok, row_end. rewrite code_end_eq. unfold History.disasm_at.
  rewrite (wrap_small 64) by (unfold in_width; lia). cbv zeta.
  match goal with |- context [disasm_one ?a ?b ?c ?d] =>
    pose proof (disasm_one_length a b c d) as Hl; destruct (disasm_one a b c d) as [text l] end.
  cbn [decoded_length] in Hl. unfold valid. cbn [decoded_text decoded_length].
  destruct (negb (bool_decide (text = [])) && negb (l =? 0)) eqn:Ev; cbn [andb].
  - apply andb_true_iff in Ev as [_ Hz%negb_true_iff%Z.eqb_neq].
    destruct (Z.leb_spec l (size - (rip - base))); cbn [row_rip row_offset row_length row_event row_kind];
      (split; [lia | done]).
  - cbn [row_rip row_offset row_length row_event row_kind]. split; [lia | done].
Qed.

Lemma split_boundary_spec address n boundary :
  Z.of_nat n = boundary - address ->
  let b := split_boundary trace address n boundary in
  address <= b <= boundary /\ (forall a, address <= a < b -> event_at (a - base) = false).
Proof.
  revert address. induction n as [|n IH]; intros address Hn; cbn [split_boundary]; cbv zeta.
  - split; [lia|]. intros a Ha. lia.
  - destruct (event_at (address - base)) eqn:E; [split; [lia | intros a Ha; lia]|].
    destruct (IH (address + 1) ltac:(lia)) as [Hb Hev]. split; [lia|].
    intros a Ha. destruct (Z.eq_dec a address) as [->|]; [done|]. apply Hev. lia.
Qed.

Lemma gap_row_ok from to :
  base <= from < to -> to <= code_end ->
  let '(row, next) := gap_row from to in
  from < next <= to /\ row.(row_rip) = from /\ row_end row = next /\ row_ok row /\ row.(row_event) = None
  /\ (row.(row_kind) = HKNotReached \/ row.(row_kind) = HKData)
  /\ next <= row_end (disasm_at from)
  /\ forall a, from < a < next -> event_at (a - base) = false.
Proof.
  intros Hf Ht. destruct (disasm_at_ok from) as (Hok & Hrip & Hev & Hkind); [lia|].
  pose proof Hok as (Hb & Ho & Hl & He). unfold History.gap_row. unfold row_end in He. rewrite Hrip in *.
  rewrite (wrap_small 64) by (rewrite code_end_eq in *; unfold in_width; lia). cbv zeta.
  set (len := row_length (disasm_at from)) in *.
  pose proof (split_boundary_spec (from + 1) (Z.to_nat (Z.min (from + len) to - (from + 1))) (Z.min (from + len) to)
    ltac:(lia)) as [Hs Hno].
  set (b := split_boundary _ _ _ _) in *.
  destruct (Z.eqb_spec b (from + len)) as [E|E]; cbn [negb].
  - split; [lia|]. split; [done|]. unfold row_end. rewrite Hrip. split; [done|]. split; [done|].
    split; [done|]. split; [by left|]. split; [fold len; lia|]. intros a Ha. apply Hno. lia.
  - unfold row_ok, row_end. cbn [row_rip row_length row_offset row_event row_kind]. rewrite Hrip, Hev.
    split; [lia|]. split; [done|]. split; [lia|]. split; [lia|]. split; [done|]. split; [by right|].
    split; [fold len; lia|]. intros a Ha. apply Hno. lia.
Qed.

(** ** Static rows

    [static_within lo hi rows]: the static rows are in order, do not overlap, lie in
    [[lo, hi)] and hold no event. *)

Definition event_free (row : HistoryRow) : Prop :=
  forall a, row.(row_rip) <= a < row_end row -> event_at (a - base) = false.

Definition static_within (lo hi : Z) (rows : list HistoryRow) : Prop :=
  StronglySorted row_before (List.filter is_static rows) /\
  Forall (fun r => lo <= r.(row_rip) /\ row_end r <= hi /\ event_free r
                   /\ (r.(row_kind) = HKNotReached \/ r.(row_kind) = HKData)) (List.filter is_static rows).

Lemma static_nil lo hi : static_within lo hi [].
Proof. split; constructor. Qed.

Lemma static_app lo mid hi a b :
  static_within lo mid a -> static_within mid hi b -> lo <= mid <= hi -> static_within lo hi (a ++ b).
Proof.
  intros [S1 F1] [S2 F2] Hle. unfold static_within. rewrite List.filter_app. split.
  - induction S1 as [|x l S1 IH Hx]; [done|]. inversion F1 as [|? ? Fx F1']; subst. cbn. constructor; [by apply IH|].
    apply Forall_app. split; [done|]. eapply Forall_impl; [exact F2|]. intros y (Hy & _).
    unfold row_before. cbn in *. lia.
  - apply Forall_app. split; (eapply Forall_impl; [eassumption|]); intros y (? & ? & ? & ?); cbn in *;
      (split; [lia|]); (split; [lia | done]).
Qed.

Lemma static_cons_event lo hi r rows :
  is_static r = false -> static_within lo hi rows -> static_within lo hi (r :: rows).
Proof. intros E H. unfold static_within. cbn [List.filter]. by rewrite E. Qed.

Lemma static_singleton lo hi r :
  lo <= r.(row_rip) -> row_end r <= hi -> event_free r ->
  (r.(row_kind) = HKNotReached \/ r.(row_kind) = HKData) -> static_within lo hi [r].
Proof.
  intros Hl Hh He Hk. unfold static_within. cbn [List.filter]. destruct (is_static r).
  - split; [repeat constructor|]. by constructor.
  - split; constructor.
Qed.

(** An address in a row, and an address in the decoding of an event of the input. *)
Definition covered (rows : list HistoryRow) (a : Z) : Prop :=
  exists row, In row rows /\ row.(row_rip) <= a < row_end row.

Definition in_event (a : Z) : Prop :=
  exists e, base <= e < code_end /\ event_at (e - base) = true /\ e <= a < row_end (disasm_at e).

Lemma covered_app a rows rows' : covered rows a \/ covered rows' a -> covered (rows ++ rows') a.
Proof. intros [(r & Hr & H)|(r & Hr & H)]; exists r; (split; [apply in_app_iff; tauto | done]). Qed.

(** A gap is filled: enough fuel gives the rows; they are static, and with the events
    they cover it. *)
Lemma fill_gap_spec fuel from to :
  base <= from -> to <= code_end -> to - from <= Z.of_nat fuel ->
  exists rows, fill_gap fuel from to = Some rows /\ Forall row_ok rows
    /\ Forall (fun r => r.(row_event) = None) rows
    /\ static_within from (Z.max from to) rows
    /\ (forall a, from <= a < to -> covered rows a \/ in_event a).
Proof.
  revert from. induction fuel as [|fuel IH]; intros from Hf Ht Hfuel; cbn [History.fill_gap].
  - destruct (Z.ltb_spec from to); [lia|]. exists []. split; [done|]. do 2 (split; [constructor|]).
    split; [apply static_nil|]. intros a Ha. lia.
  - destruct (Z.ltb_spec from to) as [Hlt|Hge].
    2: { exists []. split; [done|]. do 2 (split; [constructor|]). split; [apply static_nil|]. intros a Ha. lia. }
    pose proof (gap_row_ok from to ltac:(lia) Ht) as Hrow. destruct (gap_row from to) as [row next].
    destruct Hrow as (Hn & Hrip & Hend & Hok & Hev & Hkind & Hdis & Hno).
    destruct (IH next ltac:(lia) Ht ltac:(lia)) as (rows & -> & Hoks & Hevs & Hst & Hcov).
    rewrite Z.max_r in Hst by lia. cbn [mbind option_bind]. destruct (event_at (from - base)) eqn:Eat; cbn [negb].
    + exists rows. split; [done|]. do 2 (split; [done|]). split.
      * rewrite Z.max_r by lia. apply (static_app from next to []); [apply static_nil | done | lia].
      * intros a Ha. destruct (Z.lt_ge_cases a next); [right | apply Hcov; lia].
        exists from. split; [lia|]. split; [done | lia].
    + exists (row :: rows). split; [done|]. do 2 (split; [by constructor|]). split.
      * rewrite Z.max_r by lia. apply (static_app from next to [row]); [|done|lia].
        apply static_singleton; [lia | lia | | done]. intros a Ha.
        destruct (Z.eq_dec a from) as [->|]; [done|]. apply Hno. lia.
      * intros a Ha. destruct (Z.lt_ge_cases a next).
        -- left. exists row. split; [by left | lia].
        -- destruct (Hcov a ltac:(lia)) as [(r & Hr & Hra)|]; [left; exists r; split; [by right | done] | by right].
Qed.

(** ** Event rows *)

Abbreviation event_row := (event_row trace backend syntax).
Abbreviation event_rows := (event_rows trace backend syntax).

(** The rows of the events of the input, in order, numbered from [i]. *)
Fixpoint expected_event_rows (events : list ExecutionEvent) (i : nat) : list HistoryRow :=
  match events with
  | [] => []
  | event :: events =>
    if in_input trace event then event_row i event :: expected_event_rows events (S i)
    else expected_event_rows events (S i)
  end.

Lemma in_input_spec event : in_input trace event = true <-> base <= event.(event_rip) < code_end.
Proof. unfold in_input. rewrite andb_true_iff, Z.leb_le, Z.ltb_lt. done. Qed.

Lemma event_at_spec e :
  event_at (e - base) = true <->
  exists event, In event trace.(execution_events) /\ event.(event_rip) = e /\ in_input trace event = true.
Proof.
  unfold History.event_at. rewrite existsb_exists. split; intros (event & Hin & H).
  - apply andb_true_iff in H as [Hi He%Z.eqb_eq]. exists event. split; [done|]. split; [lia | done].
  - destruct H as [<- Hi]. exists event. split; [done|]. rewrite Hi. cbn [andb]. apply Z.eqb_eq. lia.
Qed.

Lemma event_row_ok i event :
  in_input trace event = true ->
  row_ok (event_row i event) /\ (event_row i event).(row_rip) = event.(event_rip)
  /\ row_end (event_row i event) = row_end (disasm_at event.(event_rip))
  /\ is_static (event_row i event) = false.
Proof.
  intros Hin%in_input_spec. destruct (disasm_at_ok event.(event_rip) Hin) as ((Hb & Ho & Hl & He) & Hrip & _ & _).
  unfold row_ok, row_end, History.event_row, is_static in *. cbn [row_rip row_offset row_length row_event].
  rewrite Hrip in *. done.
Qed.

Lemma filter_events_static rows :
  Forall (fun r => r.(row_event) = None) rows -> List.filter (fun r => negb (is_static r)) rows = [].
Proof.
  induction 1 as [|r rows Hr _ IH]; [done|]. cbn [List.filter]. unfold is_static at 1.
  by rewrite bool_decide_true.
Qed.

Lemma event_rows_spec events i linear :
  base <= linear <= code_end ->
  exists rows last, event_rows events i linear = Some (rows, last) /\ linear <= last <= code_end
    /\ Forall row_ok rows /\ static_within linear last rows
    /\ (forall a, linear <= a < last -> covered rows a \/ in_event a)
    /\ List.filter (fun r => negb (is_static r)) rows = expected_event_rows events i.
Proof.
  revert i linear. induction events as [|event events IH]; intros i linear Hlin.
  { exists [], linear. split; [done|]. split; [lia|]. split; [constructor|]. split; [apply static_nil|].
    split; [intros a Ha; lia | done]. }
  cbn [History.event_rows expected_event_rows].
  destruct (in_input trace event) eqn:Ein; cbn [negb]; [|by apply IH].
  destruct (event_row_ok i event Ein) as (Hok & Hrip & Hend & Hs).
  pose proof (proj1 (in_input_spec event) Ein) as Hr. set (rip := event_rip event) in *.
  assert (exists gap, (if linear <? rip then fill_gap (gap_fuel linear rip) linear rip else Some []) = Some gap
    /\ Forall row_ok gap /\ Forall (fun r => r.(row_event) = None) gap
    /\ static_within linear (Z.max linear rip) gap
    /\ (forall a, linear <= a < rip -> covered gap a \/ in_event a)) as (gap & -> & Hgok & Hgev & Hgst & Hgcov).
  { destruct (Z.ltb_spec linear rip).
    - destruct (fill_gap_spec (gap_fuel linear rip) linear rip) as (gap & Hgap); [lia | lia | unfold gap_fuel; lia|].
      exists gap. exact Hgap.
    - exists []. split; [done|]. do 2 (split; [constructor|]). split; [apply static_nil|]. intros a Ha. lia. }
  cbn [mbind option_bind].
  assert (u64 (rip + row_length (event_row i event)) = row_end (event_row i event)) as ->.
  { unfold row_end. rewrite Hrip. apply wrap_small. destruct Hok as (_ & _ & Hl & He).
    unfold row_end in He. rewrite Hrip in He. rewrite code_end_eq in He. unfold in_width. lia. }
  destruct Hok as (Hb & Ho & Hl & He). assert (rip < row_end (event_row i event)) by (unfold row_end; lia).
  assert (base <= Z.max linear (row_end (event_row i event)) <= code_end) as Hnext.
  { clear - Hlin Hr H He. lia. }
  destruct (IH (S i) _ Hnext)
    as (rows & last & -> & Hlast & Hoks & Hst & Hcov & Hexp).
  cbn [mbind option_bind]. exists (gap ++ event_row i event :: rows), last. split; [done|]. split; [lia|].
  split; [by apply Forall_app; split; [|constructor]|]. split; [|split].
  - apply (static_app _ (Z.max linear rip)); [done | | lia]. apply static_cons_event; [done|].
    apply (static_app _ (Z.max linear (row_end (event_row i event))) _ []); [apply static_nil | done | lia].
  - intros a Ha. destruct (Z.lt_ge_cases a rip).
    { destruct (Hgcov a ltac:(lia)); [left; apply covered_app; by left | by right]. }
    destruct (Z.lt_ge_cases a (row_end (event_row i event))).
    { left. apply covered_app. right. exists (event_row i event). split; [by left | lia]. }
    destruct (Hcov a ltac:(lia)) as [(r & Hin & Hra)|]; [left | by right].
    apply covered_app. right. exists r. split; [by right | done].
  - rewrite List.filter_app, filter_events_static by done. cbn [List.filter app]. rewrite Hs. cbn [negb].
    by rewrite Hexp.
Qed.

Lemma expected_event_rows_in events i event :
  In event events -> in_input trace event = true -> exists j, In (event_row j event) (expected_event_rows events i).
Proof.
  revert i. induction events as [|e events IH]; intros i; [intros []|]. cbn [expected_event_rows].
  intros [-> | Hin] He.
  - rewrite He. exists i. by left.
  - destruct (IH (S i) Hin He) as [j Hj]. exists j. destruct (in_input trace e); [by right | done].
Qed.

(** What a history is, for a trace it is built from. *)
Record history_ok (rows : list HistoryRow) : Prop := {
  history_rows : Forall row_ok rows;
  history_events : List.filter (fun r => negb (is_static r)) rows = expected_event_rows trace.(execution_events) 0;
  history_static : static_within base code_end rows;
  history_covers : forall a, base <= a < code_end -> covered rows a;
}.

Lemma build_history_spec :
  trace.(trace_code) <> [] -> trace.(instrumentation_detected) = false ->
  exists rows, build_history trace backend syntax = Some rows /\ history_ok rows.
Proof.
  intros Hne Hinst. unfold build_history. destruct (trace_code trace) as [|b bytes] eqn:Ec; [done|].
  rewrite Hinst. pose proof code_end_eq as Hend. assert (0 <= size) by (unfold History.size; lia).
  destruct (event_rows_spec trace.(execution_events) 0 base) as (rows & linear & Hrun & Hlin & Hok & Hst & Hcov & Hexp);
    [lia|].
  rewrite Hrun. cbn [mbind option_bind].
  destruct (fill_gap_spec (gap_fuel linear code_end) linear code_end) as (rest & Hrest & Rok & Rev & Rst & Rcov);
    [lia | lia | unfold gap_fuel; lia|].
  rewrite Hrest. cbn [mbind option_bind]. exists (rows ++ rest). split; [done|]. split.
  - by apply Forall_app.
  - by rewrite List.filter_app, (filter_events_static rest), app_nil_r.
  - rewrite Z.max_r in Rst by lia. by apply (static_app _ linear).
  - assert (forall a, base <= a < code_end -> covered (rows ++ rest) a \/ in_event a) as Hall.
    { intros a Ha. destruct (Z.lt_ge_cases a linear).
      - destruct (Hcov a ltac:(lia)); [left; apply covered_app; by left | by right].
      - destruct (Rcov a ltac:(lia)); [left; apply covered_app; by right | by right]. }
    intros a Ha. destruct (Hall a Ha) as [|(e & He & Hat & Hae)]; [done|].
    apply event_at_spec in Hat as (event & Hin & <- & Hi).
    destruct (expected_event_rows_in _ 0 event Hin Hi) as [j Hj]. rewrite <- Hexp in Hj.
    apply filter_In in Hj as [Hj _]. destruct (event_row_ok j event Hi) as (_ & Hrip & Hre & _).
    apply covered_app. left. exists (event_row j event). split; [done|]. rewrite Hrip, Hre. done.
Qed.
End lemmas.

(** The event of a row of the events from [k] on. *)
Lemma expected_event_rows_event {decoders : Decoders} trace backend syntax events k row i :
  In row (expected_event_rows trace backend syntax events k) -> row.(row_event) = Some i ->
  exists event, (k <= i)%nat /\ events !! (i - k)%nat = Some event /\ in_input trace event = true
    /\ row = event_row trace backend syntax i event.
Proof.
  revert k. induction events as [|e events IH]; intros k; cbn [expected_event_rows]; [intros []|].
  assert (In row (expected_event_rows trace backend syntax events (S k)) -> row.(row_event) = Some i ->
    exists event, (k <= i)%nat /\ (e :: events) !! (i - k)%nat = Some event /\ in_input trace event = true
      /\ row = event_row trace backend syntax i event) as Hlater.
  { intros Hin He. destruct (IH (S k) Hin He) as (event & Hk & Hl & Hi & ->). exists event.
    replace (i - k)%nat with (S (i - S k)) by lia. split; [lia | done]. }
  destruct (in_input trace e) eqn:Ee; [|exact Hlater]. intros [<- | Hin]; [|by apply Hlater].
  intros [= <-]. exists e. by rewrite Nat.sub_diag.
Qed.

(** The rows of events follow the order of execution. *)
Lemma expected_event_rows_ordered {decoders : Decoders} trace backend syntax events k before row after i :
  expected_event_rows trace backend syntax events k = before ++ row :: after -> row.(row_event) = Some i ->
  Forall (fun r => exists j, r.(row_event) = Some j /\ (i < j)%nat) after.
Proof.
  revert k before. induction events as [|e events IH]; intros k before; cbn [expected_event_rows]; [by destruct before|].
  destruct (in_input trace e); [|apply IH]. destruct before as [|r before]; intros [= Hrow E] Hi; [|by eapply IH].
  subst row. injection Hi as <-. apply Forall_forall. intros r Hr%list_elem_of_In.
  assert (exists j, r.(row_event) = Some j) as [j Hj].
  { rewrite <- E in Hr. clear -Hr. revert Hr. generalize (S k). induction events as [|e events IH]; intros n; [intros []|].
    cbn [expected_event_rows]. destruct (in_input trace e); [intros [<- | ?]; [by eexists | by eapply IH] | apply IH]. }
  exists j. split; [done|]. rewrite <- E in Hr. destruct (expected_event_rows_event _ _ _ _ _ _ _ Hr Hj) as (_ & Hle & _). lia.
Qed.

(** The events of the rows do not depend on the decoder. *)
Lemma expected_event_rows_decoder {decoders : Decoders} trace backend syntax backend' syntax' events k :
  map row_event (expected_event_rows trace backend syntax events k)
  = map row_event (expected_event_rows trace backend' syntax' events k).
Proof.
  revert k. induction events as [|e events IH]; intros k; [done|]. cbn [expected_event_rows].
  destruct (in_input trace e); [cbn [map]; by rewrite IH | apply IH].
Qed.

(** A trace whose input lies in the address space. *)
Definition placed (trace : Trace) : Prop :=
  0 <= base trace /\ base trace + size trace < 2 ^ 64.

(** *** Histories of one trace *)

Section built.
Context {decoders : Decoders} (trace : Trace).
Hypothesis Hplaced : placed trace.

Lemma build_history_cases backend syntax :
  trace.(trace_code) = [] \/ trace.(instrumentation_detected) = true ->
  build_history trace backend syntax = Some [].
Proof. unfold build_history. intros [-> | ->]; [done|]. by destruct (trace_code trace). Qed.

Lemma built_ok backend syntax rows :
  build_history trace backend syntax = Some rows ->
  (trace.(trace_code) = [] \/ trace.(instrumentation_detected) = true) /\ rows = []
  \/ trace.(trace_code) <> [] /\ rows <> [] /\ history_ok trace backend syntax rows.
Proof.
  intros E. destruct (decide (trace.(trace_code) = [])) as [|Hne].
  { left. rewrite build_history_cases in E by (by left). split; [by left | congruence]. }
  destruct (instrumentation_detected trace) eqn:Hi.
  { left. rewrite build_history_cases in E by (by right). split; [by right | congruence]. }
  right. split; [done|]. destruct Hplaced as [Hb Hf].
  destruct (build_history_spec trace backend syntax Hb Hf Hne Hi) as (rows' & E' & Hok).
  rewrite E in E'. injection E' as <-. split; [|exact Hok]. intros ->.
  assert (1 <= size trace) by (unfold size; destruct (trace_code trace); [done | cbn [length]; lia]).
  destruct (history_covers _ _ _ _ Hok (base trace)) as (row & [] & _). rewrite code_end_eq by done. lia.
Qed.

Lemma build_history_is_Some backend syntax : is_Some (build_history trace backend syntax).
Proof.
  destruct (decide (trace.(trace_code) = [])) as [|Hne]; [rewrite build_history_cases by (by left); by eexists|].
  destruct (instrumentation_detected trace) eqn:Hi; [rewrite build_history_cases by (by right); by eexists|].
  destruct Hplaced as [Hb Hf].
  destruct (build_history_spec trace backend syntax Hb Hf Hne Hi) as (rows & E & _). by exists rows.
Qed.

(** Whether a history is empty does not depend on the decoder. *)
Lemma built_empty backend syntax backend' syntax' :
  build_history trace backend syntax = Some [] -> build_history trace backend' syntax' = Some [].
Proof.
  intros E. destruct (built_ok _ _ _ E) as [[H _] | (_ & H & _)]; [by apply build_history_cases | done].
Qed.

Lemma built_row backend syntax rows row :
  build_history trace backend syntax = Some rows -> In row rows ->
  0 <= row.(row_offset) < row.(row_offset) + row.(row_length) /\ row.(row_offset) + row.(row_length) <= size trace
  /\ row.(row_rip) = base trace + row.(row_offset) /\ is_event_row row = negb (is_static row)
  /\ forall i, row.(row_event) = Some i ->
       exists event, trace.(execution_events) !! i = Some event /\ in_input trace event = true
         /\ row = event_row trace backend syntax i event.
Proof.
  intros E Hin. pose proof Hplaced as [Hb Hf].
  destruct (built_ok _ _ _ E) as [[_ ->] | (_ & _ & [Hrows Hevents [_ Hst] _])]; [by destruct Hin|].
  rewrite Forall_forall in Hrows. destruct (Hrows row) as (H1 & H2 & H3 & H4); [by apply list_elem_of_In|].
  unfold row_end in H4. rewrite code_end_eq in H4 by done. split; [lia|]. split; [lia|]. split; [lia|].
  assert (forall i, row.(row_event) = Some i -> exists event, trace.(execution_events) !! i = Some event
    /\ in_input trace event = true /\ row = event_row trace backend syntax i event) as He.
  { intros i Hi. destruct (expected_event_rows_event trace backend syntax trace.(execution_events) 0 row i)
      as (event & _ & Hl & Hii & Hrow); [|done|].
    - rewrite <- Hevents. apply filter_In. split; [done|]. unfold is_static. by rewrite Hi.
    - rewrite Nat.sub_0_r in Hl. by exists event. }
  split; [|exact He]. destruct (is_static row) eqn:Es.
  - rewrite Forall_forall in Hst. destruct (Hst row) as (_ & _ & _ & Hk); [by apply list_elem_of_In, filter_In|].
    unfold is_event_row. by destruct Hk as [-> | ->].
  - destruct (row_event row) as [i|] eqn:Hi; [|unfold is_static in Es; by rewrite Hi in Es].
    destruct (He i eq_refl) as (event & _ & _ & ->). unfold is_event_row, event_row. cbn [row_kind].
    by destruct (event_kind event).
Qed.

(** An event has a row in every history or in none. *)
Lemma built_same_event backend syntax backend' syntax' rows rows' row i :
  build_history trace backend syntax = Some rows -> build_history trace backend' syntax' = Some rows' ->
  In row rows -> row.(row_event) = Some i -> exists row', In row' rows' /\ row'.(row_event) = Some i.
Proof.
  intros E E' Hin Hi.
  destruct (built_ok _ _ _ E) as [[_ ->] | (Hne & Hrows & [_ Hevents _ _])]; [by destruct Hin|].
  destruct (built_ok _ _ _ E') as [[H ->] | (_ & _ & [_ Hevents' _ _])].
  { exfalso. apply Hrows. rewrite build_history_cases in E by done. by injection E. }
  assert (In (Some i) (map row_event (expected_event_rows trace backend' syntax' (execution_events trace) 0))) as H.
  { rewrite (expected_event_rows_decoder trace backend' syntax' backend syntax), <- Hevents, <- Hi. apply in_map, filter_In.
    split; [done|]. unfold is_static. by rewrite Hi. }
  rewrite <- Hevents' in H. apply in_map_iff in H as (row' & Hr & [Hin' _]%filter_In). by exists row'.
Qed.
End built.

(** ** Properties *)

(** The history is always produced: no decoder, whatever lengths it returns, makes
    the gap loop run forever, and a trace without code or refused for instrumentation
    has no row. *)
Theorem build_history_total {decoders : Decoders} trace backend syntax :
  placed trace ->
  exists rows, build_history trace backend syntax = Some rows /\
    (trace.(trace_code) = [] \/ trace.(instrumentation_detected) = true -> rows = []).
Proof.
  intros [Hb Hf]. destruct (trace_code trace) as [|b bytes] eqn:Ec.
  - exists []. unfold build_history. by rewrite Ec.
  - destruct (instrumentation_detected trace) eqn:Ei.
    + exists []. unfold build_history. by rewrite Ec, Ei.
    + destruct (build_history_spec trace backend syntax Hb Hf) as (rows & Hrun & _); [by rewrite Ec | done|].
      exists rows. split; [done|]. by intros [?|?].
Qed.

(** C26. The rows that carry an event are those of the events inside the input, one per
    event and in execution order: each starts at the event's address, points back to
    the event, and tells a completed instruction from a faulted one. *)
Theorem build_history_events {decoders : Decoders} trace backend syntax rows :
  placed trace -> trace.(trace_code) <> [] -> trace.(instrumentation_detected) = false ->
  build_history trace backend syntax = Some rows ->
  List.filter (fun r => negb (is_static r)) rows =
    expected_event_rows trace backend syntax trace.(execution_events) 0
  /\ forall row i, In row rows -> row.(row_event) = Some i ->
       exists event, trace.(execution_events) !! i = Some event /\ in_input trace event = true
         /\ row.(row_rip) = event.(event_rip)
         /\ row.(row_kind) = match event.(event_kind) with EKCompleted => HKReached | EKFaulted => HKFaulted end.
Proof.
  intros [Hb Hf] Hne Hi Hrun. destruct (build_history_spec trace backend syntax Hb Hf Hne Hi) as (rows' & E & Hok).
  rewrite Hrun in E. injection E as <-. destruct Hok as [_ Hev _ _]. split; [exact Hev|].
  intros row i Hrow Hevent.
  assert (In row (expected_event_rows trace backend syntax trace.(execution_events) 0)) as Hin.
  { rewrite <- Hev. apply filter_In. split; [done|]. unfold is_static. by rewrite Hevent. }
  destruct (expected_event_rows_event _ _ _ _ _ _ _ Hin Hevent) as (event & _ & Hl & Hii & ->). rewrite Nat.sub_0_r in Hl.
  exists event. destruct (event_row_ok trace backend syntax Hb Hf i event Hii) as (_ & Hrip & _ & _). done.
Qed.

(** C7. The history shows the whole input: every row lies inside it, is at least one byte
    long and has the offset of its address; every byte of the input is in some row; and
    the rows without an event are in order, do not overlap, and none of them hides the
    start of an executed or faulting instruction. *)
Theorem build_history_partition {decoders : Decoders} trace backend syntax rows :
  placed trace -> trace.(trace_code) <> [] -> trace.(instrumentation_detected) = false ->
  build_history trace backend syntax = Some rows ->
  Forall (row_ok trace) rows
  /\ (forall a, base trace <= a < base trace + size trace -> covered rows a)
  /\ StronglySorted row_before (List.filter is_static rows)
  /\ forall row event, In row rows -> is_static row = true ->
       In event trace.(execution_events) -> in_input trace event = true ->
       ~ (row.(row_rip) <= event.(event_rip) < row_end row).
Proof.
  intros [Hb Hf] Hne Hi Hrun. destruct (build_history_spec trace backend syntax Hb Hf Hne Hi) as (rows' & E & Hok).
  rewrite Hrun in E. injection E as <-. destruct Hok as [Hrows _ [Hs Hfree] Hcov].
  rewrite <- (code_end_eq trace Hb Hf). do 3 (split; [done|]).
  intros row event Hrow Hst Hin Hii Hr. rewrite Forall_forall in Hfree.
  destruct (Hfree row) as (_ & _ & Hev & _); [by apply list_elem_of_In, filter_In|].
  specialize (Hev _ Hr). assert (event_at trace (event_rip event - base trace) = true) as Ht; [|congruence].
  apply event_at_spec. by exists event.
Qed.

(** A decoder and a run for the concrete rows: two events, the second inside the static
    decoding of the bytes before it. *)
#[local] Instance example_decoders : Decoders := {|
  zydis_disassemble _ _ bytes := match bytes with [] => None | b :: _ => Some (" op " : str, b) end;
  INSTRUX := unit; nd_decode _ := None; nd_to_text _ _ := None; nd_length _ := 0;
  cs_open := false; cs_disasm _ _ _ := None;
  xed_decoded_inst := unit; xed_decode _ := None; xed_format_context _ _ _ := None; xed_length _ := 0;
|}.

Definition example_fingerprint : CPUFingerprint := (query_cpu_fingerprint (H := example_processor) tt).1.

Definition example_trace : Trace := {|
  cpu_fingerprint := Some example_fingerprint; trace_code := [1; 3; 0; 1; 9];
  requested_seed := Registers_init; requested_backend := Zydis; requested_syntax := Intel;
  effective_max_steps := 10; seed_data_pointers := false;
  trace_seed := reg_set Registers_init RIP 0x1000;
  execution_events := [
    {| event_rip := 0x1000; event_registers := reg_set Registers_init RIP 0x1003; event_kind := EKCompleted |};
    {| event_rip := 0x1003; event_registers := reg_set Registers_init RIP 0x1003; event_kind := EKFaulted |}];
  trace_outcome := OFaulted; message := []; instrumentation_detected := false; stop_reason := [];
  stop_address := 0x1003; fault_memory_address := None; fault_access := FANone;
|}.

Lemma example_placed : placed example_trace.
Proof. split; vm_compute; congruence. Qed.

Example example_rows :
  option_map (map (fun r => (r.(row_offset), r.(row_length), r.(row_kind), r.(row_event))))
    (build_history example_trace Zydis Intel)
  = Some [(0, 1, HKReached, Some 0%nat); (1, 2, HKData, None); (3, 1, HKFaulted, Some 1%nat);
          (4, 1, HKNotReached, None)].
Proof. vm_compute. reflexivity. Qed.

Lemma build_history_total_witness :
  placed example_trace /\ is_Some (build_history example_trace Zydis Intel).
Proof.
  split; [apply example_placed|].
  destruct (build_history_total example_trace Zydis Intel example_placed) as (rows & H & _). by exists rows.
Defined.

Lemma build_history_events_witness :
  exists rows, build_history example_trace Zydis Intel = Some rows /\
  length (List.filter (fun r => negb (is_static r)) rows) = 2%nat.
Proof.
  destruct (build_history example_trace Zydis Intel) as [rows|] eqn:E; [|vm_compute in E; discriminate].
  exists rows. split; [reflexivity|].
  destruct (build_history_events example_trace Zydis Intel rows example_placed ltac:(discriminate) eq_refl E) as [-> _].
  vm_compute. reflexivity.
Defined.

Lemma build_history_partition_witness :
  exists rows, build_history example_trace Zydis Intel = Some rows /\ covered rows 0x1002.
Proof.
  destruct (build_history example_trace Zydis Intel) as [rows|] eqn:E; [|vm_compute in E; discriminate].
  exists rows. split; [reflexivity|].
  apply (build_history_partition example_trace Zydis Intel rows example_placed ltac:(discriminate) eq_refl E).
  split; [vm_compute; congruence | vm_compute; reflexivity].
Defined.
