(* ===== verification/Platform.v ===== *)
(** * Platform: what the platform layer promises the engine, independently of how a
    platform traces the code.

    [runs] is the abstract single-step machine: a run executes instructions of the input
    one at a time until it reaches the selected row, leaves the input, has used its
    steps, or stops on a breakpoint or a fault. *)

From S2P Require Import Prelude Text Core Cpu Trace.

Local Open Scope Z_scope.

(** The cap of a request, [std::min(max_steps != 0 ? max_steps : 1, MAX_STEPS_LIMIT)]. *)
Definition capped_steps (max_steps : Z) : Z :=
  Z.min (if max_steps =? 0 then 1 else max_steps) MAX_STEPS_LIMIT.

Lemma capped_steps_range n : 0 <= n -> 1 <= capped_steps n <= MAX_STEPS_LIMIT.
Proof. unfold capped_steps, MAX_STEPS_LIMIT. destruct (Z.eqb_spec n 0); lia. Qed.

Section runs.
Context (code_base size : Z) (target : option Z).

Definition inside (rip : Z) : Prop := code_base <= rip < u64 (code_base + size).

(** The test both tracers make. *)
Lemma inside_test rip : inside rip <-> (rip <? code_base) || (u64 (code_base + size) <=? rip) = false.
Proof. unfold inside. by rewrite orb_false_iff, Z.ltb_ge, Z.leb_gt. Qed.

(** [runs previous n steps outcome stop at_target]: from [previous], with [n] steps left,
    a run records [steps] and ends in [outcome]. *)
Inductive runs : Z -> nat -> list PlatformStep -> Outcome -> Z -> bool -> Prop :=
| runs_breakpoint previous n :
  runs previous (S n) [] OStopped previous false
| runs_fault previous n step :
  step.(step_faulted) = true ->
  runs previous (S n) [step] OFaulted step.(step_rip) false
| runs_target previous n step :
  step.(step_faulted) = false -> step.(step_rip) = previous ->
  target = Some (reg_get step.(step_registers) RIP) ->
  runs previous (S n) [step] OStopped (reg_get step.(step_registers) RIP) true
| runs_finished previous n step stop :
  step.(step_faulted) = false -> step.(step_rip) = previous ->
  target <> Some (reg_get step.(step_registers) RIP) ->
  ~ inside (reg_get step.(step_registers) RIP) ->
  runs previous (S n) [step] OFinished stop false
| runs_cap previous step stop :
  step.(step_faulted) = false -> step.(step_rip) = previous ->
  target <> Some (reg_get step.(step_registers) RIP) ->
  inside (reg_get step.(step_registers) RIP) ->
  runs previous 1 [step] OAbortedCap stop false
| runs_step previous n step steps outcome stop at_target :
  step.(step_faulted) = false -> step.(step_rip) = previous ->
  target <> Some (reg_get step.(step_registers) RIP) ->
  inside (reg_get step.(step_registers) RIP) ->
  runs (reg_get step.(step_registers) RIP) (S n) steps outcome stop at_target ->
  runs previous (S (S n)) (step :: steps) outcome stop at_target.

(** The number of instructions a run completed. *)
Definition completed (steps : list PlatformStep) : nat :=
  length (List.filter (fun s => negb s.(step_faulted)) steps).

(** No run completes more instructions than it has steps; one that aborts used them all,
    and no other outcome loses or adds a step. *)
Lemma runs_completed previous n steps outcome stop at_target :
  runs previous n steps outcome stop at_target ->
  (completed steps <= n)%nat /\
  (outcome = OAbortedCap -> completed steps = n) /\
  length steps = (completed steps + if bool_decide (outcome = OFaulted) then 1 else 0)%nat.
Proof.
  unfold completed.
  induction 1 as [p n|p n s Hf|p n s Hf|p n s st Hf|p s st Hf|p n s ss o st at_target Hf Hr Ht Hi Hrun IH];
    cbn [List.filter length app]; rewrite ?Hf; cbn [negb length]; try (split; [lia|]; split; [done | done]).
  destruct IH as (IH1 & IH2 & IH3). split; [lia|]. split; [intros E; by rewrite IH2|].
  rewrite IH3. destruct (bool_decide _); lia.
Qed.

(** The steps of a run follow each other: the first one starts where the run does, and
    each starts where the one before ended, unless it faulted; every instruction that is
    executed is inside the input. *)
Lemma runs_chain previous n steps outcome stop at_target :
  inside previous -> runs previous n steps outcome stop at_target ->
  (forall i s, steps !! i = Some s -> s.(step_faulted) = false ->
     inside s.(step_rip) /\
     s.(step_rip) = match i with
                    | O => previous
                    | S j => match steps !! j with
                             | Some p => reg_get p.(step_registers) RIP
                             | None => previous
                             end
                    end) /\
  (forall i s, steps !! i = Some s -> s.(step_faulted) = true -> S i = length steps /\ outcome = OFaulted).
Proof.
  intros Hin Hrun. revert Hin.
  induction Hrun as [p n|p n s Hf|p n s Hf Hr|p n s st Hf Hr|p s st Hf Hr|p n s ss o st at_target Hf Hr Ht Hi Hrun IH];
    intros Hin.
  - split; intros [|i] x Hx; discriminate Hx.
  - split; intros [|i] x Hx; try discriminate Hx; injection Hx as <-; [congruence | done].
  - split; intros [|i] x Hx; try discriminate Hx; injection Hx as <-; [by rewrite Hr | congruence].
  - split; intros [|i] x Hx; try discriminate Hx; injection Hx as <-; [by rewrite Hr | congruence].
  - split; intros [|i] x Hx; try discriminate Hx; injection Hx as <-; [by rewrite Hr | congruence].
  - destruct (IH Hi) as [IH1 IH2]. split; intros [|i] x Hx Hfx.
    + injection Hx as <-. by rewrite Hr.
    + destruct (IH1 i x Hx Hfx) as [Hins Hrip]. split; [done|]. destruct i; [exact Hrip|].
      rewrite Hrip. cbn. destruct (ss !! i) eqn:E; [done|].
      apply lookup_lt_Some in Hx. apply lookup_ge_None in E. cbn in Hx. lia.
    + injection Hx as <-. congruence.
    + destruct (IH2 i x Hx Hfx) as [Hl Ho]. cbn [length]. by rewrite Hl.
Qed.

(** How each outcome leaves the machine. *)
Lemma runs_outcome previous n steps outcome stop at_target :
  runs previous n steps outcome stop at_target ->
  match outcome with
  | OFinished => exists s, last steps = Some s /\ ~ inside (reg_get s.(step_registers) RIP) /\ at_target = false
  | OAbortedCap => exists s, last steps = Some s /\ inside (reg_get s.(step_registers) RIP) /\ at_target = false
  | OFaulted => exists s, last steps = Some s /\ s.(step_faulted) = true /\ stop = s.(step_rip) /\ at_target = false
  | OStopped =>
    if at_target then exists s, last steps = Some s /\ stop = reg_get s.(step_registers) RIP /\ target = Some stop
    else match last steps with Some s => stop = reg_get s.(step_registers) RIP | None => stop = previous end
  | _ => False
  end.
Proof.
  induction 1 as [p n|p n s Hf|p n s Hf Hr Ht|p n s st Hf Hr Ht|p s st Hf Hr Ht|p n s ss o st at_target Hf Hr Ht Hi Hrun IH];
    cbn [last]; eauto 6.
  assert (forall x, last ss = Some x -> last (s :: ss) = Some x) as Hlast by (intros x Hx; destruct ss; done).
  destruct o; try done.
  - destruct IH as (x & Hx & ?). exists x. split; [by apply Hlast | done].
  - destruct IH as (x & Hx & ?). exists x. split; [by apply Hlast | done].
  - destruct IH as (x & Hx & ?). exists x. split; [by apply Hlast | done].
  - destruct at_target.
    + destruct IH as (x & Hx & ?). exists x. split; [by apply Hlast | done].
    + destruct ss as [|y ss]; [done|]. change (last (s :: y :: ss)) with (last (y :: ss)).
      destruct (last (y :: ss)) eqn:E; [done|]. by apply last_None in E.
Qed.

(** A run stops at the selected row the first time it gets there: no earlier step ends
    at the target. *)
Lemma runs_target_first previous n steps outcome stop at_target :
  runs previous n steps outcome stop at_target ->
  forall i s, steps !! i = Some s -> s.(step_faulted) = false ->
    target = Some (reg_get s.(step_registers) RIP) -> S i = length steps /\ at_target = true.
Proof.
  induction 1 as [p n|p n s Hf|p n s Hf Hr Ht|p n s st Hf Hr Ht|p s st Hf Hr Ht|p n s ss o st at_target Hf Hr Ht Hi Hrun IH];
    intros [|i] x Hx Hfx Htx; try discriminate Hx; try (injection Hx as <-); try congruence; try done.
  destruct (IH i x Hx Hfx Htx) as [Hl ->]. cbn [length]. by rewrite Hl.
Qed.
End runs.

(** ** General registers *)

(** The general registers in the order of [Reg]. *)
Definition GPRS : list Reg :=
  [RAX; RBX; RCX; RDX; RSI; RDI; RBP; RSP; R8; R9; R10; R11; R12; R13; R14; R15].

Lemma list_of_16 (g : list Z) (f : Reg -> Z) :
  length g = 16%nat -> (forall reg, reg <> RIP -> reg <> RFLAGS -> f reg = nth (reg_index reg) g 0) ->
  map f GPRS = g.
Proof.
  intros Hl Hf. unfold GPRS. cbn [map]. rewrite !Hf by done.
  do 16 (destruct g as [|? g]; [discriminate Hl|]). destruct g; [done|discriminate Hl].
Qed.

(** The status flags of a seed and its reserved bits: no trap flag among them. *)
Lemma effective_flags_no_trap x :
  let flags := Z.lor (Z.lor (Z.land x RFLAGS_STATUS_MASK) RFLAGS_RESERVED_BIT1) RFLAGS_INTERRUPT_FLAG in
  Z.land flags (u64 (Z.lnot RFLAGS_TRAP_FLAG)) = flags.
Proof. cbv zeta. rewrite !Z.land_lor_distr_l, <- Z.land_assoc. reflexivity. Qed.

(** ** Seeding the stack registers *)

(** The loop of both platforms over the stack registers of the request, from [i] on: a
    tagged register is copied to the area of the platform by [put], gets its bit in the
    tag word of [w] bits, and is recorded in the seed. *)
Section stack.
Context {A : Type} (put : nat -> list Z -> A -> A) (w : Z).

Fixpoint write_stack (i : nat) (values : list (list Z)) (tags : Z) (area : A) (tag_word : Z) (recorded : list (list Z))
    : A * Z * list (list Z) :=
  match values with
  | [] => (area, tag_word, recorded)
  | v :: values =>
    if Z.testbit tags (Z.of_nat i) then
      write_stack (S i) values tags (put i v area) (Z.lor tag_word (wrap w (Z.shiftl 1 (Z.of_nat i))))
        (<[i := v]> recorded)
    else write_stack (S i) values tags area tag_word recorded
  end.

Lemma write_stack_recorded i values tags area tag_word recorded :
  length recorded = (i + length values)%nat ->
  length (write_stack i values tags area tag_word recorded).2 = length recorded /\
  forall j, (write_stack i values tags area tag_word recorded).2 !! j =
    if bool_decide (i <= j)%nat && Z.testbit tags (Z.of_nat j) then values !! (j - i)%nat else recorded !! j.
Proof.
  revert i area tag_word recorded. induction values as [|v values IH]; intros i area tag_word recorded Hl; cbn [write_stack].
  - split; [done|]. intros j. case_bool_decide; cbn [andb]; [|done]. destruct (Z.testbit tags _); [|done].
    cbn [snd length] in *. rewrite lookup_nil. apply lookup_ge_None. lia.
  - cbn [length] in Hl. destruct (Z.testbit tags (Z.of_nat i)) eqn:Et.
    + destruct (IH (S i) (put i v area) (Z.lor tag_word (wrap w (Z.shiftl 1 (Z.of_nat i)))) (<[i := v]> recorded))
        as [IH1 IH2]; [rewrite length_insert; lia|].
      split; [by rewrite IH1, length_insert|]. intros j. rewrite IH2.
      destruct (decide (i = j)) as [<-|Hne].
      * rewrite bool_decide_false by lia. rewrite bool_decide_true by lia. cbn [andb]. rewrite Et, Nat.sub_diag.
        rewrite list_lookup_insert_eq by lia. done.
      * rewrite list_lookup_insert_ne by done. do 2 case_bool_decide; cbn [andb]; try lia; [|done].
        destruct (Z.testbit tags (Z.of_nat j)); [|done]. by replace (j - i)%nat with (S (j - S i)) by lia.
    + destruct (IH (S i) area tag_word recorded) as [IH1 IH2]; [lia|]. split; [done|]. intros j. rewrite IH2.
      destruct (decide (i = j)) as [<-|Hne].
      * rewrite bool_decide_false by lia. rewrite bool_decide_true by lia. cbn [andb]. by rewrite Et.
      * do 2 case_bool_decide; cbn [andb]; try lia; [|done].
        destruct (Z.testbit tags (Z.of_nat j)); [|done]. by replace (j - i)%nat with (S (j - S i)) by lia.
Qed.

End stack.

(** ** The contract *)

(** The registers the run starts from: the general registers of the request but for RSP
    (the top of the scratch stack), RIP (the code) and, when asked for and not seeded,
    RDI and RSI (the scratch data); the status flags of the request; its vectors; its
    control words; and the stack registers it tags. *)
Record seed_effective (request : PlatformRunRequest) (s : Registers) (code_base initial_rsp data_base : Z) : Prop := {
  se_rip : reg_get s RIP = code_base;
  se_rsp : reg_get s RSP = initial_rsp;
  se_data : forall reg, reg = RDI \/ reg = RSI ->
    reg_get s reg = if request.(request_seed_data_pointers) && (reg_get request.(request_seed) reg =? 0)
                    then data_base else reg_get request.(request_seed) reg;
  se_gpr : forall reg, reg <> RIP -> reg <> RFLAGS -> reg <> RSP -> reg <> RDI -> reg <> RSI ->
    reg_get s reg = reg_get request.(request_seed) reg;
  se_rflags : reg_get s RFLAGS =
    Z.lor (Z.lor (Z.land (reg_get request.(request_seed) RFLAGS) RFLAGS_STATUS_MASK) RFLAGS_RESERVED_BIT1)
      RFLAGS_INTERRUPT_FLAG;
  se_xmm : s.(xmm) = request.(request_seed).(xmm);
  se_mxcsr : s.(mxcsr) = request.(request_seed).(mxcsr);
  se_control : s.(fpu_control_word) = request.(request_seed).(fpu_control_word);
  se_st : forall i, (i < 8)%nat ->
    Z.testbit request.(request_seed).(fpu_tag_word_abridged) (Z.of_nat i) = true ->
    s.(st) !! i = request.(request_seed).(st) !! i;
}.

(** The contract of [run_platform_steps]. *)
Inductive run_result (request : PlatformRunRequest) (result : PlatformRunResult) : Prop :=
| run_refused :
  result.(result_error) <> [] ->
  result.(result_outcome) = OError \/ result.(result_outcome) = OIdle /\ request.(request_code) = [] ->
  (result.(result_instrumentation_detected) = true ->
     result.(result_error) = INSTRUMENTATION_REFUSAL /\ result.(result_steps) = []) ->
  run_result request result
| run_done code_base initial_rsp data_base :
  let size := Z.of_nat (length request.(request_code)) in
  let target := (fun offset => u64 (code_base + offset)) <$> request.(request_stop_offset) in
  result.(result_error) = [] -> result.(result_instrumentation_detected) = false ->
  request.(request_code) <> [] ->
  seed_effective request result.(result_seed) code_base initial_rsp data_base ->
  (if bool_decide (request.(request_stop_offset) = Some 0) then
     result.(result_steps) = [] /\ result.(result_outcome) = OStopped
     /\ result.(result_stop_address) = code_base /\ result.(result_stopped_at_target) = true
   else
     runs code_base size target code_base (Z.to_nat (capped_steps request.(request_max_steps)))
       result.(result_steps) result.(result_outcome) result.(result_stop_address)
       result.(result_stopped_at_target)) ->
  run_result request result.

Lemma refused request r0 error :
  r0.(result_instrumentation_detected) = false -> error <> [] ->
  run_result request (set_error r0 OError error).
Proof. intros Hi Hne. apply run_refused; [done | by left|]. cbn. congruence. Qed.

(** The interface the engine is written against: the state of a platform, a run that
    may fail to return (a blocking system call keeps the tracer waiting), and the
    contract. *)
Class Platform (W : Type) : Type := {
  run_platform_steps : PlatformRunRequest -> W -> option (PlatformRunResult * W);
  run_platform_steps_contract : forall request w result w',
    well_formed request.(request_seed) -> 0 <= request.(request_max_steps) ->
    run_platform_steps request w = Some (result, w') -> run_result request result;
}.
