(* ===== verification/Linux.v ===== *)
(** * Linux: the ptrace tracer of [src/src/os.linux.cpp].

    The kernel is an interface, [LinuxKernel]: a world [W] and one operation per system
    call the tracer makes.  A run is a function of the world that threads it through the
    calls in the order of the code; [None] is a call that does not return (a wait that
    is interrupted for ever, see [patience]).  The calls that create and release the
    worker and the pipe are also logged, for the theorems on resources. *)

From S2P Require Import Prelude Text Core X87 Cpu Trace Platform.

Local Open Scope Z_scope.

(** ** Data *)

Inductive ChildError : Type :=
| ChildNone | ChildTrace | ChildAllocation | ChildCommit | ChildProtect | ChildFlush | ChildSignalSetup.

#[export] Instance ChildError_eq_dec : EqDecision ChildError.
Proof. solve_decision. Defined.

Record ChildReady : Type := {
  ready_code_base : Z;
  ready_initial_rsp : Z;
  ready_data_base : Z;
  ready_error : Z;              (* the byte of the enumeration *)
}.

Record FaultReport : Type := {
  report_address : Z;
  report_error_code : Z;
  report_trap_number : Z;
}.

Definition PAGE_FAULT_TRAP : Z := 14.
Definition PAGE_FAULT_WRITE : Z := Z.shiftl 1 1.
Definition PAGE_FAULT_INSTRUCTION : Z := Z.shiftl 1 4.

(** [sizeof(ChildReady)] and [sizeof(FaultReport)], padding included. *)
Definition sizeof_ready : nat := 32.
Definition sizeof_report : nat := 24.

(** The structures are exchanged as their bytes. *)
Definition ready_of_bytes (bytes : list Z) : ChildReady := {|
  ready_code_base := le_value (bytes_at bytes 0 8);
  ready_initial_rsp := le_value (bytes_at bytes 8 8);
  ready_data_base := le_value (bytes_at bytes 16 8);
  ready_error := le_value (bytes_at bytes 24 1);
|}.

Definition report_of_bytes (bytes : list Z) : FaultReport := {|
  report_address := le_value (bytes_at bytes 0 8);
  report_error_code := le_value (bytes_at bytes 8 8);
  report_trap_number := le_value (bytes_at bytes 16 4);
|}.

(** The registers of the worker.  The fields the tracer does not touch (segments,
    [orig_rax]) are kept together, and the two register areas are their bytes. *)
Record user_regs_struct : Type := {
  user_reg : Reg -> Z;
  user_rest : list Z;
}.

Record user_fpregs_struct : Type := {
  cwd : Z;
  swd : Z;
  ftw : Z;
  fp_mxcsr : Z;
  mxcr_mask : Z;
  st_space : list Z;
  xmm_space : list Z;
}.

Record siginfo : Type := { si_code : Z; si_addr : Z }.

(** ** Numbers of the system's headers *)

Definition SIGILL : Z := 4.
Definition SIGTRAP : Z := 5.
Definition SIGBUS : Z := 7.
Definition SIGFPE : Z := 8.
Definition SIGKILL : Z := 9.
Definition SIGSEGV : Z := 11.
Definition SIGSTOP : Z := 19.

Definition TRAP_BRKPT : Z := 1.
Definition TRAP_TRACE : Z := 2.
Definition SI_KERNEL : Z := 0x80.

Definition WIFSTOPPED (status : Z) : bool := Z.land status 0xFF =? 0x7F.
Definition WSTOPSIG (status : Z) : Z := Z.land (Z.shiftr status 8) 0xFF.

(** ** The kernel *)

(** A wait or a read may also block for ever: a worker inside a system call that blocks does
    not stop, and one that hangs before its record does not write. *)
Inductive wait_result : Type :=
| Waited (status : Z)
| WaitInterrupted               (* EINTR *)
| WaitFailed
| WaitBlocks.

Inductive read_result : Type :=
| ReadBytes (bytes : list Z)
| ReadInterrupted
| ReadEnd                       (* end of file, or an error *)
| ReadBlocks.

Class LinuxKernel (W : Type) : Type := {
  sys_getenv : str -> W -> option str;
  sys_pipe : W -> bool * W;
  sys_fork : W -> Z * W;
  sys_close : bool -> W -> W;                     (* is it the report end? *)
  sys_read : nat -> W -> read_result * W;         (* the report end *)
  sys_poll : W -> bool * W;                       (* is the report end readable in time? *)
  sys_kill : Z -> W -> W;                         (* SIGKILL *)
  sys_waitpid : Z -> W -> wait_result * W;
  ptrace_setoptions : Z -> W -> bool * W;
  ptrace_getregs : Z -> W -> option user_regs_struct * W;
  ptrace_getfpregs : Z -> W -> option user_fpregs_struct * W;
  ptrace_setregs : Z -> user_regs_struct -> W -> bool * W;
  ptrace_setfpregs : Z -> user_fpregs_struct -> W -> bool * W;
  ptrace_singlestep : Z -> W -> bool * W;
  ptrace_getsiginfo : Z -> W -> option siginfo * W;
  ptrace_cont : Z -> Z -> W -> bool * W;
}.

(** The decoder of [is_software_breakpoint], a third-party library: the instruction at
    the start of some bytes, its mnemonic, the number of its visible operands and its
    first operand when that is an immediate. *)
Inductive mnemonic : Type := MnemonicInt3 | MnemonicInt | MnemonicOther.

Record instruction : Type := {
  instruction_mnemonic : mnemonic;
  operand_count_visible : Z;
  immediate_0 : option Z;
}.

Class ZydisDecoder : Type := {
  decoder_init : bool;
  decode_full : list Z -> option instruction;
}.

(** ** The state of the tracer *)

Inductive Call : Type :=
| CallPipe (ok : bool)
| CallFork (pid : Z)
| CallClose (report_end : bool)
| CallKill (pid : Z)
| CallWait (pid : Z) (r : wait_result).

(** The world, the calls so far, and whether [pipe_descriptors[0]] is still a
    descriptor. *)
Record State (W : Type) : Type := State_of {
  world : W;
  calls : list Call;
  report_open : bool;
}.

Arguments State_of {W} world calls report_open.
Arguments world {W} _.
Arguments calls {W} _.
Arguments report_open {W} _.

Abbreviation M W := (StateM (State W)).

Section calls.
Context {W : Type} `{LinuxKernel W}.

(** A call of the kernel, logged or not. *)
Definition kernel {A} (f : W -> A * W) : M W A := fun s =>
  let '(x, w) := f s.(world) in Some (x, State_of w s.(calls) s.(report_open)).

Definition logged {A} (f : W -> A * W) (call : A -> Call) : M W A := fun s =>
  let '(x, w) := f s.(world) in Some (x, State_of w (s.(calls) ++ [call x]) s.(report_open)).

Definition pipe : M W bool := logged sys_pipe CallPipe.
Definition fork : M W Z := logged sys_fork CallFork.
Definition close (report_end : bool) : M W unit :=
  logged (fun w => (tt, sys_close report_end w)) (fun _ => CallClose report_end).
Definition kill (pid : Z) : M W unit := logged (fun w => (tt, sys_kill pid w)) (fun _ => CallKill pid).
Definition waitpid (pid : Z) : M W wait_result := logged (sys_waitpid pid) (CallWait pid).

(** The lambda [close_report_descriptor]. *)
Definition close_report_descriptor : M W unit := fun s =>
  if s.(report_open)
  then Some (tt, State_of (sys_close true s.(world)) (s.(calls) ++ [CallClose true]) false)
  else Some (tt, s).

(** ** Environment *)

Definition environment_string (name : str) (w : W) : str :=
  match name with
  | [] => []
  | _ => match sys_getenv name w with None => [] | Some result => result end
  end.

Definition environment_present (name : str) (w : W) : bool :=
  negb (bool_decide (name = [])) && bool_decide (sys_getenv name w <> None).

Definition instrumentation_detected (w : W) : bool :=
  environment_present "SDE_COMMAND_LINE" w || environment_present "PIN_COMMAND_LINE" w.

(** ** Loops that retry an interrupted call: [patience] bounds their rounds

    A call that blocks has no result, and neither has the run. *)

Context (patience : nat).

Fixpoint wait_loop (fuel : nat) (child : Z) : M W (option Z) :=
  match fuel with
  | O => fun _ => None
  | S fuel =>
    waited ← waitpid child;
    match waited with
    | Waited status => mret (Some status)
    | WaitInterrupted => wait_loop fuel child
    | WaitFailed => mret None
    | WaitBlocks => fun _ => None
    end
  end.

(** The status, or [None] when it returns false. *)
Definition wait_for_child (child : Z) : M W (option Z) := wait_loop patience child.

(** [read_all]: the bytes in order; each round asks for what is left. *)
Fixpoint read_loop (fuel size : nat) (got : list Z) : M W (option (list Z)) :=
  match size with
  | O => mret (Some got)
  | _ =>
    match fuel with
    | O => fun _ => None
    | S fuel =>
      result ← kernel (sys_read size);
      match result with
      | ReadBytes (b :: bytes) => read_loop fuel (size - length (b :: bytes)) (got ++ b :: bytes)
      | ReadInterrupted => read_loop fuel size got
      | ReadBytes [] | ReadEnd => mret None
      | ReadBlocks => fun _ => None
      end
    end
  end.

Definition read_all (size : nat) : M W (option (list Z)) := read_loop patience size [].

Definition terminate_child (child : Z) : M W unit :=
  if child <=? 0 then mret tt
  else
    _ ← kill child;
    _ ← wait_for_child child;
    mret tt.

(** ** Faults *)

Definition classify_fault_access (report : FaultReport) (expected_address : Z) : FaultAccess :=
  if negb (report.(report_address) =? expected_address) || negb (report.(report_trap_number) =? PAGE_FAULT_TRAP)
  then FAUnknown
  else if negb (Z.land report.(report_error_code) PAGE_FAULT_INSTRUCTION =? 0) then FAExecute
  else if negb (Z.land report.(report_error_code) PAGE_FAULT_WRITE =? 0) then FAWrite
  else FARead.

(** The worker's handler writes the report after it is continued with the signal. *)
Definition collect_fault_report (child signal : Z) : M W (option FaultReport) :=
  continued ← kernel (ptrace_cont child signal);
  if negb continued then mret None
  else
    ready ← kernel sys_poll;
    if negb ready then mret None
    else
      result ← kernel (sys_read sizeof_report);
      (match result with
       | ReadBytes bytes =>
         if (length bytes =? sizeof_report)%nat then mret (Some (report_of_bytes bytes)) else mret None
       | ReadInterrupted | ReadEnd => mret None
       | ReadBlocks => fun _ => None
       end : M W (option FaultReport)).

Definition fault_name (signal : Z) : str :=
  if signal =? SIGILL then "Illegal instruction"
  else if signal =? SIGFPE then "Floating-point exception"
  else if signal =? SIGSEGV then "Access violation"
  else if signal =? SIGBUS then "Bus error"
  else if signal =? SIGTRAP then "Trap signal"
  else "Signal".

(** By the byte of the enumeration. *)
Definition child_error_name (error : Z) : str :=
  if error =? 1 then "ptrace worker setup failed."
  else if error =? 2 then "Memory allocation failed."
  else if error =? 3 then "Memory commit failed."
  else if error =? 4 then "Memory protection failed."
  else if error =? 5 then "Instruction-cache flush failed."
  else if error =? 6 then "Fault-report handler setup failed."
  else "Unknown worker setup failure.".
End calls.

(** ** Breakpoints *)

Definition is_software_breakpoint {zydis : ZydisDecoder} (code : list Z) (code_base instruction_address : Z) : bool :=
  if instruction_address <? code_base then false
  else
    let offset := instruction_address - code_base in
    if Z.of_nat (length code) <=? offset then false
    else if negb decoder_init then false
    else
      match decode_full (drop (Z.to_nat offset) code) with
      | None => false
      | Some i =>
        match i.(instruction_mnemonic) with
        | MnemonicInt3 => true
        | MnemonicInt => (i.(operand_count_visible) =? 1) && bool_decide (i.(immediate_0) = Some 3)
        | MnemonicOther => false
        end
      end.

(** ** Snapshots *)

Definition snapshot_fpu (source : user_fpregs_struct) (target : Registers) : Registers := {|
  gpr := target.(gpr);
  rip := target.(rip);
  rflags := target.(rflags);
  xmm := imap (fun i _ => (le_value (bytes_at source.(xmm_space) (16 * i) 8),
                           le_value (bytes_at source.(xmm_space) (16 * i + 8) 8))) target.(xmm);
  mxcsr := source.(fp_mxcsr);
  st := imap (fun i old => bytes_at source.(st_space) (16 * i) (length old)) target.(st);
  fpu_control_word := source.(cwd);
  fpu_status_word := source.(swd);
  fpu_tag_word_abridged := u8 source.(ftw);
|}.

(** The general registers of the worker in the order of [Reg]. *)
Definition snapshot_registers (source : user_regs_struct) (target : Registers) : Registers := {|
  gpr := map source.(user_reg) GPRS;
  rip := source.(user_reg) RIP;
  rflags := Z.land (source.(user_reg) RFLAGS) (u64 (Z.lnot RFLAGS_TRAP_FLAG));
  xmm := target.(xmm);
  mxcsr := target.(mxcsr);
  st := target.(st);
  fpu_control_word := target.(fpu_control_word);
  fpu_status_word := target.(fpu_status_word);
  fpu_tag_word_abridged := target.(fpu_tag_word_abridged);
|}.

Definition read_snapshot {W} `{LinuxKernel W} (child : Z) (target : Registers) : M W (option Registers) :=
  registers ← kernel (ptrace_getregs child);
  match registers with
  | None => mret None
  | Some registers =>
    fpu_registers ← kernel (ptrace_getfpregs child);
    match fpu_registers with
    | None => mret None
    | Some fpu_registers => mret (Some (snapshot_fpu fpu_registers (snapshot_registers registers target)))
    end
  end.

(** ** Seeding *)

(** The loop that copies the vectors of the request, from register [i] on. *)
Fixpoint write_xmm (i : nat) (values : list (Z * Z)) (area : list Z) : list Z :=
  match values with
  | [] => area
  | v :: values => write_xmm (S i) values (splice area (16 * i) (le_bytes 8 v.1 ++ le_bytes 8 v.2))
  end.

(** The copy of one stack register. *)
Definition put_st (i : nat) (v area : list Z) : list Z := splice area (16 * i) v.

(** The registers to start the worker with, and the recorded seed.  [result_seed] is the
    seed of the request. *)
Definition seed_worker (request : PlatformRunRequest) (ready : ChildReady) (registers : user_regs_struct)
    (fpu_registers : user_fpregs_struct) (result_seed : Registers)
    : user_regs_struct * user_fpregs_struct * Registers :=
  let s := request.(request_seed) in
  let fpu := {| cwd := s.(fpu_control_word); swd := fpu_registers.(swd); ftw := fpu_registers.(ftw);
                fp_mxcsr := s.(mxcsr); mxcr_mask := fpu_registers.(mxcr_mask);
                st_space := fpu_registers.(st_space); xmm_space := fpu_registers.(xmm_space) |} in
  let recorded := snapshot_fpu fpu result_seed in
  let area := write_xmm 0 s.(xmm) fpu.(xmm_space) in
  let '(st_area, tag_word, recorded_st) :=
    write_stack put_st 16 0 s.(st) s.(fpu_tag_word_abridged) fpu.(st_space) fpu.(ftw) recorded.(st) in
  let fpu := {| cwd := fpu.(cwd); swd := Z.land fpu.(swd) (u16 (Z.lnot (Z.shiftl 7 11))); ftw := tag_word;
                fp_mxcsr := fpu.(fp_mxcsr); mxcr_mask := fpu.(mxcr_mask);
                st_space := st_area; xmm_space := area |} in
  let recorded := {| gpr := recorded.(gpr); rip := recorded.(rip); rflags := recorded.(rflags);
                     xmm := s.(xmm); mxcsr := recorded.(mxcsr); st := recorded_st;
                     fpu_control_word := recorded.(fpu_control_word);
                     fpu_status_word := recorded.(fpu_status_word);
                     fpu_tag_word_abridged := u8 tag_word |} in
  let effective reg := if request.(request_seed_data_pointers) && (reg_get s reg =? 0)
                       then ready.(ready_data_base) else reg_get s reg in
  let flags := Z.lor (Z.lor (Z.land (reg_get s RFLAGS) RFLAGS_STATUS_MASK) RFLAGS_RESERVED_BIT1)
                 RFLAGS_INTERRUPT_FLAG in
  let recorded := reg_set recorded RSP ready.(ready_initial_rsp) in
  let recorded := reg_set recorded RDI (effective RDI) in
  let recorded := reg_set recorded RSI (effective RSI) in
  let recorded := reg_set recorded RIP ready.(ready_code_base) in
  let recorded := reg_set recorded RFLAGS flags in
  let registers := {|
    user_reg reg := match reg with
                    | RSI => effective RSI
                    | RDI => effective RDI
                    | RSP => ready.(ready_initial_rsp)
                    | RIP => ready.(ready_code_base)
                    | RFLAGS => flags
                    | _ => reg_get s reg
                    end;
    user_rest := registers.(user_rest) |} in
  (registers, fpu, recorded).

(** ** The run *)

Section run.
Context {W : Type} `{LinuxKernel W} {zydis : ZydisDecoder} (patience : nat).

(** The end of a run that has its result. *)
Definition finish (child : Z) (result : PlatformRunResult) : M W PlatformRunResult :=
  _ ← terminate_child patience child;
  _ ← close_report_descriptor;
  mret result.

(** The lambda [fail]. *)
Definition fail (child : Z) (result : PlatformRunResult) (error : str) : M W PlatformRunResult :=
  finish child (set_error result OError error).

Definition worker_exited (result : PlatformRunResult) (previous_rip : Z) : PlatformRunResult := {|
  result_seed := result.(result_seed); result_steps := result.(result_steps); result_outcome := OError;
  result_instrumentation_detected := result.(result_instrumentation_detected);
  result_fault_name := result.(result_fault_name); result_error := "ptrace worker exited unexpectedly.";
  result_stop_address := previous_rip;
  result_fault_memory_address := result.(result_fault_memory_address);
  result_fault_access := result.(result_fault_access);
  result_stopped_at_target := result.(result_stopped_at_target);
|}.

(** The branch of a signal that is not a completed step. *)
Definition stop_on_fault (child signal : Z) (info : siginfo) (snapshot : Registers) (result : PlatformRunResult)
    : M W PlatformRunResult :=
  let address := reg_get snapshot RIP in
  let result := add_step result {| step_rip := address; step_registers := snapshot; step_faulted := true |} in
  if (signal =? SIGSEGV) || (signal =? SIGBUS) then
    report ← collect_fault_report child signal;
    let access := match report with
                  | Some report => classify_fault_access report info.(si_addr)
                  | None => FAUnknown
                  end in
    finish child (set_faulted result (fault_name signal) address (Some info.(si_addr)) access)
  else
    finish child (set_faulted result (fault_name signal) address result.(result_fault_memory_address)
                    result.(result_fault_access)).

(** One round of the loop: the result when the run ends, or the next [previous_rip] and
    the result so far. *)
Definition step_once (request : PlatformRunRequest) (child code_base : Z) (max_steps : Z) (previous_rip : Z)
    (result : PlatformRunResult) : M W (PlatformRunResult + Z * PlatformRunResult) :=
  let stop (r : M W PlatformRunResult) : M W (PlatformRunResult + Z * PlatformRunResult) :=
    r ← r; mret (inl r) in
  let code_end := u64 (code_base + Z.of_nat (length request.(request_code))) in
  let target_address := match request.(request_stop_offset) with Some offset => u64 (code_base + offset) | None => 0 end in
  stepped ← kernel (ptrace_singlestep child);
  if negb stepped then stop (fail child result "ptrace single-step failed.")
  else
    status ← wait_for_child patience child;
    match status with
    | None => stop (fail child result "ptrace worker wait failed.")
    | Some status =>
      if negb (WIFSTOPPED status) then stop (finish child (worker_exited result previous_rip))
      else
        let signal := WSTOPSIG status in
        signal_info ← kernel (ptrace_getsiginfo child);
        match signal_info with
        | None => stop (fail child result "ptrace signal info failed.")
        | Some info =>
          let is_trap := signal =? SIGTRAP in
          let breakpoint_signal := is_trap && ((info.(si_code) =? TRAP_BRKPT) || (info.(si_code) =? SI_KERNEL)) in
          let breakpoint_trap :=
            breakpoint_signal && is_software_breakpoint request.(request_code) code_base previous_rip in
          let single_step_trap := is_trap && (info.(si_code) =? TRAP_TRACE) in
          snapshot ← read_snapshot child Registers_init;
          match snapshot with
          | None => stop (fail child result "ptrace register read failed.")
          | Some snapshot =>
            if breakpoint_trap then stop (finish child (set_stopped result false previous_rip))
            else
              let completed_trap :=
                single_step_trap || (breakpoint_signal && negb (snapshot.(rip) =? previous_rip)) in
              if negb is_trap || negb completed_trap then stop (stop_on_fault child signal info snapshot result)
              else
                let next_rip := snapshot.(rip) in
                let result := add_step result
                  {| step_rip := previous_rip; step_registers := snapshot; step_faulted := false |} in
                if bool_decide (request.(request_stop_offset) <> None) && (next_rip =? target_address) then
                  stop (finish child (set_stopped result true next_rip))
                else if (next_rip <? code_base) || (code_end <=? next_rip) then
                  stop (finish child (set_outcome result OFinished))
                else if max_steps <=? Z.of_nat (length result.(result_steps)) then
                  stop (finish child (set_outcome result OAbortedCap))
                else mret (inr (next_rip, result))
          end
        end
    end.

(** The loop; [fuel] bounds its rounds. *)
Fixpoint step_loop (fuel : nat) (request : PlatformRunRequest) (child code_base max_steps previous_rip : Z)
    (result : PlatformRunResult) : M W PlatformRunResult :=
  match fuel with
  | O => fun _ => None
  | S fuel =>
    outcome ← step_once request child code_base max_steps previous_rip result;
    match outcome with
    | inl result => mret result
    | inr (next_rip, result) => step_loop fuel request child code_base max_steps next_rip result
    end
  end.

(** From a worker that has stopped at its start. *)
Definition trace_worker (request : PlatformRunRequest) (child : Z) (ready : ChildReady) (result : PlatformRunResult)
    : M W PlatformRunResult :=
  options ← kernel (ptrace_setoptions child);
  if negb options then fail child result "ptrace options failed."
  else
    registers ← kernel (ptrace_getregs child);
    fpu_registers ← (match registers with
                     | None => mret None
                     | Some _ => kernel (ptrace_getfpregs child)
                     end : M W (option user_fpregs_struct));
    match registers, fpu_registers with
    | Some registers, Some fpu_registers =>
      let mxcsr_mask := if negb (fpu_registers.(mxcr_mask) =? 0) then fpu_registers.(mxcr_mask) else MXCSR_FALLBACK_MASK in
      if negb (Z.land request.(request_seed).(mxcsr) (u32 (Z.lnot mxcsr_mask)) =? 0) then
        fail child result "MXCSR seed contains bits unsupported by this CPU."
      else
        let '(registers, fpu_registers, recorded) :=
          seed_worker request ready registers fpu_registers result.(result_seed) in
        let result := set_seed result recorded in
        ok ← kernel (ptrace_setregs child registers);
        set_fpu ← (if (ok : bool) then kernel (ptrace_setfpregs child fpu_registers) else (mret false : M W bool));
        if negb set_fpu then fail child result "ptrace register set failed."
        else if bool_decide (request.(request_stop_offset) = Some 0) then
          finish child (set_stopped result true ready.(ready_code_base))
        else
          let max_steps := capped_steps request.(request_max_steps) in
          step_loop (Z.to_nat max_steps) request child ready.(ready_code_base) max_steps ready.(ready_code_base) result
    | _, _ => fail child result "ptrace register read failed."
    end.

(** The start of the worker, in the parent. *)
Definition start_worker (request : PlatformRunRequest) (child : Z) (result : PlatformRunResult)
    : M W PlatformRunResult :=
  _ ← close false;
  bytes ← read_all patience sizeof_ready;
  match bytes with
  | None => finish child (set_error result OError "ptrace worker startup failed.")
  | Some bytes =>
    let ready := ready_of_bytes bytes in
    status ← wait_for_child patience child;
    match status with
    | None => finish child (set_error result OError "ptrace worker wait failed.")
    | Some status =>
      if negb (ready.(ready_error) =? 0) then
        _ ← close_report_descriptor;
        mret (set_error result OError (child_error_name ready.(ready_error)))
      else if negb (WIFSTOPPED status) || negb (WSTOPSIG status =? SIGSTOP) then
        finish child (set_error result OError "ptrace worker did not stop.")
      else trace_worker request child ready result
    end
  end.

Definition run_linux (request : PlatformRunRequest) : M W PlatformRunResult := fun s =>
  let '(go_on, result) :=
    prepare_platform_run request (instrumentation_detected s.(world)) PlatformRunResult_init in
  if negb go_on then Some (result, s)
  else
    (piped ← pipe;
     if negb piped then mret (set_error result OError "ptrace worker pipe failed.")
     else
       child ← fork;
       if child =? -1 then
         _ ← close true;
         _ ← close false;
         mret (set_error result OError "ptrace worker fork failed.")
       else start_worker request child result) s.

(** [run_platform_steps]: the descriptors are open once the pipe is. *)
Definition run_platform_steps_linux (request : PlatformRunRequest) (w : W) : option (PlatformRunResult * State W) :=
  run_linux request (State_of w [] true).
End run.

(** ** Refinement *)

Section refinement.
Context {W : Type} `{LinuxKernel W} {zydis : ZydisDecoder} (patience : nat).

Lemma finish_result child result (s s' : State W) r :
  finish patience child result s = Some (r, s') -> r = result.
Proof. unfold finish. intros Hrun. follow Hrun. done. Qed.

Lemma fail_result child result error (s s' : State W) r :
  fail patience child result error s = Some (r, s') -> r = set_error result OError error.
Proof. apply finish_result. Qed.

(** The fields a step keeps. *)
Record same_run (r r0 : PlatformRunResult) : Prop := {
  same_seed : r.(result_seed) = r0.(result_seed);
  same_instrumentation : r.(result_instrumentation_detected) = r0.(result_instrumentation_detected);
}.

Lemma read_snapshot_rip child target (s s' : State W) snapshot :
  read_snapshot child target s = Some (Some snapshot, s') -> reg_get snapshot RIP = snapshot.(rip).
Proof. done. Qed.

Section steps.
Context (request : PlatformRunRequest) (child code_base max_steps : Z).

Abbreviation size := (Z.of_nat (length request.(request_code))).
Abbreviation target := ((fun offset => u64 (code_base + offset)) <$> request.(request_stop_offset)).

(** What a finished run adds to the result it started from, with [n] steps left. *)
Definition run_adds (previous_rip : Z) (n : nat) (r0 r : PlatformRunResult) : Prop :=
  same_run r r0 /\
  exists steps, r.(result_steps) = r0.(result_steps) ++ steps /\
    ((r.(result_error) <> [] /\ r.(result_outcome) = OError) \/
     (r.(result_error) = r0.(result_error) /\
      runs code_base size target previous_rip n steps r.(result_outcome) r.(result_stop_address)
        r.(result_stopped_at_target))).

Lemma run_adds_fail previous_rip n r0 error :
  error <> [] -> run_adds previous_rip n r0 (set_error r0 OError error).
Proof.
  intros Hne. split; [done|]. exists []. rewrite app_nil_r. split; [done|]. by left.
Qed.

Lemma stop_on_fault_adds signal info snapshot previous_rip n r0 (s s' : State W) r :
  r0.(result_stopped_at_target) = false ->
  stop_on_fault patience child signal info snapshot r0 s = Some (r, s') -> run_adds previous_rip (S n) r0 r.
Proof.
  intros Ht Hrun. unfold stop_on_fault in Hrun. cbv zeta in Hrun.
  assert (exists memory access, r = set_faulted (add_step r0 {| step_rip := reg_get snapshot RIP;
    step_registers := snapshot; step_faulted := true |}) (fault_name signal) (reg_get snapshot RIP) memory access)
    as (memory & access & ->).
  { destruct ((signal =? SIGSEGV) || (signal =? SIGBUS)); follow Hrun; apply finish_result in Hrun; eauto. }
  split; [done|]. eexists. split; [done|]. right. split; [done|].
  cbn [set_faulted result_outcome result_stop_address result_stopped_at_target add_step]. rewrite Ht.
  by apply (runs_fault _ _ _ _ _ {| step_rip := reg_get snapshot RIP; step_registers := snapshot; step_faulted := true |}).
Qed.

(** The test of the target. *)
Lemma target_test next_rip :
  target = Some next_rip <->
  bool_decide (request_stop_offset request <> None) &&
    (next_rip =? match request_stop_offset request with Some o => u64 (code_base + o) | None => 0 end) = true.
Proof.
  rewrite andb_true_iff, bool_decide_eq_true, Z.eqb_eq.
  destruct (request_stop_offset request) as [o|]; cbn; split; [by intros [= ->] | by intros [_ ->] | done | by intros []].
Qed.

(** One round: the run ends, or goes on from the next instruction with one step more. *)
Lemma step_once_spec previous_rip n r0 (s s' : State W) outcome :
  r0.(result_stopped_at_target) = false ->
  Z.of_nat (length r0.(result_steps)) + Z.of_nat (S n) = max_steps ->
  step_once patience request child code_base max_steps previous_rip r0 s = Some (outcome, s') ->
  match outcome with
  | inl r => run_adds previous_rip (S n) r0 r
  | inr (next_rip, r) =>
    exists step, r = add_step r0 step /\ step.(step_faulted) = false /\ step.(step_rip) = previous_rip
      /\ next_rip = reg_get step.(step_registers) RIP
      /\ target <> Some next_rip /\ inside code_base size next_rip /\ (0 < n)%nat
  end.
Proof.
  intros Ht Hmax Hrun. unfold step_once in Hrun. follow Hrun.
  destruct x; cbn [negb] in Hrun; [|follow Hrun; subst outcome; apply fail_result in Hrun1 as ->; by apply run_adds_fail].
  follow Hrun. destruct x as [status|]; [|follow Hrun; subst outcome; apply fail_result in Hrun2 as ->; by apply run_adds_fail].
  destruct (WIFSTOPPED status); cbn [negb] in Hrun.
  2: { follow Hrun. subst outcome. apply finish_result in Hrun2 as ->. split; [done|]. exists [].
       rewrite app_nil_r. split; [done|]. by left. }
  follow Hrun. destruct x as [info|]; [|follow Hrun; subst outcome; apply fail_result in Hrun3 as ->; by apply run_adds_fail].
  follow Hrun. destruct x as [snapshot|]; [|follow Hrun; subst outcome; apply fail_result in Hrun4 as ->; by apply run_adds_fail].
  match goal with Hr : (if ?c then _ else _) s3 = _ |- _ => destruct c end.
  { follow Hrun. subst outcome. apply finish_result in Hrun4 as ->. split; [done|]. exists []. rewrite app_nil_r.
    split; [done|]. right. split; [done|]. cbn [set_stopped result_outcome result_stop_address result_stopped_at_target].
    rewrite Ht. apply runs_breakpoint. }
  match goal with Hr : (if ?c then _ else _) s3 = _ |- _ => destruct c end.
  { follow Hrun. subst outcome. by eapply stop_on_fault_adds. }
  set (step := {| step_rip := previous_rip; step_registers := snapshot; step_faulted := false |}) in Hrun.
  assert (reg_get step.(step_registers) RIP = snapshot.(rip)) as Hrip by done.
  pose proof (target_test (rip snapshot)) as Htarget. pose proof (inside_test code_base size (rip snapshot)) as Hinside.
  match goal with Hr : (if ?c then _ else _) s3 = _ |- _ => destruct c eqn:Ec end.
  { follow Hrun. subst outcome. apply finish_result in Hrun4 as ->. split; [done|]. exists [step]. split; [done|].
    right. split; [done|]. cbn [set_stopped result_outcome result_stop_address result_stopped_at_target].
    rewrite <- Hrip. apply runs_target; [done | done|]. rewrite Hrip. by apply Htarget. }
  assert (target <> Some (reg_get (step_registers step) RIP)) as Hnot.
  { rewrite Hrip. intros E%Htarget. congruence. }
  match goal with Hr : (if ?c then _ else _) s3 = _ |- _ => destruct c eqn:Eo end.
  { follow Hrun. subst outcome. apply finish_result in Hrun4 as ->. split; [done|]. exists [step]. split; [done|].
    right. split; [done|]. cbn. rewrite Ht. apply runs_finished; [done | done | done|].
    rewrite Hrip, Hinside. congruence. }
  assert (inside code_base size (reg_get (step_registers step) RIP)) as Hin by (by rewrite Hrip, Hinside).
  match goal with Hr : (if ?c then _ else _) s3 = _ |- _ => destruct c eqn:Ecap end.
  - follow Hrun. subst outcome. apply finish_result in Hrun4 as ->. apply Z.leb_le in Ecap.
    cbn [add_step result_steps] in Ecap. rewrite length_app in Ecap. cbn [length] in Ecap.
    assert (n = 0%nat) as -> by lia. split; [done|]. exists [step]. split; [done|]. right. split; [done|].
    cbn. rewrite Ht. by apply runs_cap.
  - follow Hrun. subst outcome. apply Z.leb_gt in Ecap. cbn [add_step result_steps] in Ecap.
    rewrite length_app in Ecap. cbn [length] in Ecap. exists step. do 4 (split; [done|]).
    split; [by rewrite <- Hrip|]. split; [by rewrite <- Hrip | lia].
Qed.
End steps.

Lemma run_adds_step request code_base previous_rip next_rip n r0 step r :
  step.(step_faulted) = false -> step.(step_rip) = previous_rip -> next_rip = reg_get step.(step_registers) RIP ->
  ((fun offset => u64 (code_base + offset)) <$> request.(request_stop_offset)) <> Some next_rip ->
  inside code_base (Z.of_nat (length request.(request_code))) next_rip ->
  run_adds request code_base next_rip (S n) (add_step r0 step) r ->
  run_adds request code_base previous_rip (S (S n)) r0 r.
Proof.
  intros Hf Hr -> Ht Hi ([Hs Hin] & steps & Hsteps & Hor). split; [done|].
  exists (step :: steps). cbn [add_step result_steps] in Hsteps. rewrite <- app_assoc in Hsteps. split; [done|].
  destruct Hor as [Herr | [He Hrun]]; [by left | right]. split; [done|]. by apply runs_step.
Qed.

Lemma step_loop_spec fuel request child code_base max_steps previous_rip r0 (s s' : State W) r :
  r0.(result_stopped_at_target) = false ->
  Z.of_nat (length r0.(result_steps)) + Z.of_nat fuel = max_steps ->
  step_loop patience fuel request child code_base max_steps previous_rip r0 s = Some (r, s') ->
  run_adds request code_base previous_rip fuel r0 r.
Proof.
  revert previous_rip r0 s. induction fuel as [|fuel IH]; intros previous_rip r0 s Ht Hmax Hrun; [done|].
  cbn [step_loop] in Hrun. follow Hrun. apply (step_once_spec _ _ _ _ _ fuel) in Hrun0; [|done|done].
  destruct x as [result|[next_rip result]]; [follow Hrun; by subst r|].
  destruct Hrun0 as (step & -> & Hf & Hrip & Hnext & Htar & Hins & Hn).
  apply IH in Hrun; [|done|cbn [add_step result_steps]; rewrite length_app; cbn [length]; lia].
  destruct fuel as [|fuel]; [lia|]. by eapply run_adds_step.
Qed.

Lemma seed_worker_effective request ready registers fpu_registers registers' fpu_registers' recorded :
  well_formed request.(request_seed) ->
  seed_worker request ready registers fpu_registers request.(request_seed) = (registers', fpu_registers', recorded) ->
  seed_effective request recorded ready.(ready_code_base) ready.(ready_initial_rsp) ready.(ready_data_base).
Proof.
  intros Hwf Hs. pose proof (wf_gpr_length _ Hwf) as Hgpr. unfold seed_worker in Hs. cbv zeta in Hs.
  match type of Hs with context [write_stack _ _ ?i ?v ?t ?a ?f ?r] =>
    pose proof (write_stack_recorded put_st 16 i v t a f r) as Hst; destruct (write_stack put_st 16 i v t a f r) as [[area tag] rst] eqn:Ew end.
  injection Hs as _ _ <-.
  assert (length (snapshot_fpu fpu_registers (request_seed request)).(st) = 8%nat) as Hl
    by (cbn [snapshot_fpu st]; rewrite length_imap; apply (wf_st_length _ Hwf)).
  destruct Hst as [Hst1 Hst2]; [cbn [snapshot_fpu st]; rewrite length_imap; done|]. cbn [snd] in Hst1, Hst2.
  split; try done.
  - do 4 rewrite reg_get_set_ne by done. by apply reg_get_set_eq.
  - intros reg [-> | ->].
    + do 3 rewrite reg_get_set_ne by done. apply reg_get_set_eq. by rewrite !length_gpr_reg_set.
    + do 2 rewrite reg_get_set_ne by done. apply reg_get_set_eq. by rewrite !length_gpr_reg_set.
  - intros reg H1 H2 H3 H4 H5. rewrite !reg_get_set_ne by congruence. by destruct reg.
  - intros i Hi Hbit. cbn [reg_set st]. rewrite Hst2, Hbit, bool_decide_true by lia. cbn [andb]. by rewrite Nat.sub_0_r.
Qed.

Lemma trace_worker_contract request child ready (s s' : State W) r :
  well_formed request.(request_seed) -> 0 <= request.(request_max_steps) -> request.(request_code) <> [] ->
  trace_worker patience request child ready (set_seed PlatformRunResult_init request.(request_seed)) s = Some (r, s') ->
  run_result request r.
Proof.
  intros Hwf Hmax Hcode Hrun. unfold trace_worker in Hrun. follow Hrun.
  destruct x; cbn [negb] in Hrun; [|apply fail_result in Hrun as ->; by apply refused].
  follow Hrun. destruct x as [registers|]; [|apply fail_result in Hrun as ->; by apply refused].
  destruct x0 as [fpu|]; [|apply fail_result in Hrun as ->; by apply refused].
  cbv zeta in Hrun. match type of Hrun with (if ?c then _ else _) _ = _ => destruct c end;
    [apply fail_result in Hrun as ->; by apply refused|].
  match type of Hrun with context [seed_worker ?a ?b ?c ?d ?e] =>
    destruct (seed_worker a b c d e) as [[registers' fpu'] recorded] eqn:Es end.
  apply seed_worker_effective in Es; [|done]. follow Hrun.
  match type of Hrun with (if negb ?b then _ else _) _ = _ => destruct b end; cbn [negb] in Hrun;
    [|apply fail_result in Hrun as ->; by apply refused].
  destruct (bool_decide (request_stop_offset request = Some 0)) eqn:E0.
  - apply finish_result in Hrun as ->. eapply run_done; [done | done | done | exact Es|].
    rewrite E0. done.
  - pose proof (capped_steps_range _ Hmax) as Hcap.
    apply step_loop_spec in Hrun; [|done|cbn; lia].
    destruct Hrun as ([Hseed Hinst] & steps & Hsteps & Hor). cbn in Hseed, Hinst, Hsteps.
    destruct Hor as [[He Ho] | [He Hrun]].
    + apply run_refused; [done | by left | congruence].
    + eapply run_done; [done | done | done | rewrite Hseed; exact Es|]. rewrite E0, Hsteps. exact Hrun.
Qed.

Lemma run_linux_contract request (s s' : State W) r :
  well_formed request.(request_seed) -> 0 <= request.(request_max_steps) ->
  run_linux patience request s = Some (r, s') -> run_result request r.
Proof.
  intros Hwf Hmax Hrun. unfold run_linux in Hrun.
  pose proof (prepare_platform_run_spec request (instrumentation_detected s.(world))) as Hprep.
  destruct (prepare_platform_run _ _ _) as [go_on result] eqn:Ep.
  destruct Hprep as (Hseed & Hsteps & Hgo & Hgo1 & Hgo2). destruct go_on; cbn [negb] in Hrun.
  2: { injection Hrun as <- _. destruct (Hgo2 eq_refl) as [He Ho]. apply run_refused; [done | tauto|].
       intros Hi. split; [|done]. by eapply prepare_refusal. }
  specialize (Hgo1 eq_refl) as ->. destruct (proj1 Hgo eq_refl) as (Hcode & _ & _).
  follow Hrun. destruct x; cbn [negb] in Hrun; [|follow Hrun; subst r; by apply refused].
  follow Hrun. destruct (_ =? -1); [follow Hrun; subst r; by apply refused|].
  unfold start_worker in Hrun. follow Hrun.
  match type of Hrun with context [match ?o with Some _ => _ | None => _ end] => destruct o as [bytes|] end;
    [|apply finish_result in Hrun as ->; by apply refused].
  follow Hrun. match type of Hrun with context [match ?o with Some _ => _ | None => _ end] => destruct o as [status|] end;
    [|apply finish_result in Hrun as ->; by apply refused].
  destruct (ready_error _ =? 0); cbn [negb] in Hrun.
  - match type of Hrun with (if ?c then _ else _) _ = _ => destruct c end;
      [apply finish_result in Hrun as ->; by apply refused|]. by eapply trace_worker_contract.
  - follow Hrun. subst r. apply refused; [done|]. unfold child_error_name. by repeat split_goal.
Qed.

(** The ptrace tracer is a platform: the contract holds of every run of it that
    returns. *)
#[export] Instance linux_platform : Platform W.
Proof.
  refine {| run_platform_steps request w :=
              (fun x => (x.1, x.2.(world))) <$> run_platform_steps_linux patience request w |}.
  intros request w result w' Hwf Hmax Hrun.
  unfold run_platform_steps_linux in Hrun.
  destruct (run_linux patience request (State_of w [] true)) as [[r s]|] eqn:E; [|done].
  cbn in Hrun. injection Hrun as <- _. by eapply run_linux_contract.
Defined.
End refinement.

(** ** Runs return *)

Definition returns {W A} (m : M W A) : Prop := forall s, is_Some (m s).

Lemma returns_ret {W A} (x : A) : returns (mret x : M W A).
Proof. intros s. by eexists. Qed.

Lemma returns_bind {W A B} (m : M W A) (k : A -> M W B) :
  returns m -> (forall x, returns (k x)) -> returns (m ≫= k).
Proof.
  intros Hm Hk s. destruct (Hm s) as [[x s1] E].
  change ((m ≫= k) s) with (match m s with Some (x, s') => k x s' | None => None end). rewrite E. apply Hk.
Qed.

Create HintDb returns.

(** A kernel whose waits and reads return, so the worker never blocks, and that does not
    keep interrupting them: at most [signals w] interruptions are pending, each
    interrupted call consumes one, and there is always room for them and for the rounds of
    a read within [patience]. *)
Record attentive {W} `{LinuxKernel W} (patience : nat) (signals : W -> nat) : Prop := {
  attentive_wait_returns pid w : (sys_waitpid pid w).1 <> WaitBlocks;
  attentive_read_returns n w : (sys_read n w).1 <> ReadBlocks;
  attentive_wait pid w w' : sys_waitpid pid w = (WaitInterrupted, w') -> (signals w' < signals w)%nat;
  attentive_read n w w' : sys_read n w = (ReadInterrupted, w') -> (signals w' < signals w)%nat;
  attentive_bytes n w bytes w' : sys_read n w = (ReadBytes bytes, w') -> (signals w' <= signals w)%nat;
  attentive_patience w : (signals w + sizeof_ready < patience)%nat;
}.

Section termination.
Context {W : Type} `{LinuxKernel W} {zydis : ZydisDecoder} (patience : nat) (signals : W -> nat).
Hypothesis Hkernel : attentive patience signals.

Lemma returns_kernel {A} (f : W -> A * W) : returns (kernel f).
Proof. intros s. unfold kernel. destruct (f (world s)). by eexists. Qed.

Lemma returns_logged {A} (f : W -> A * W) call : returns (logged f call).
Proof. intros s. unfold logged. destruct (f (world s)). by eexists. Qed.

Lemma returns_wait child : returns (wait_for_child patience child).
Proof.
  assert (forall fuel s, (signals s.(world) < fuel)%nat -> is_Some (wait_loop fuel child s)) as Hloop.
  { induction fuel as [|fuel IH]; intros s Hs; [lia|]. cbn [wait_loop].
    change (is_Some (match waitpid child s with
      | Some (waited, s') => (match waited with Waited st => mret (Some st)
          | WaitInterrupted => wait_loop fuel child | WaitFailed => mret None | WaitBlocks => fun _ => None end : M W (option Z)) s'
      | None => None end)).
    pose proof (attentive_wait_returns _ _ Hkernel child (world s)) as Hw.
    unfold waitpid, logged. destruct (sys_waitpid child (world s)) as [[st| | |] w'] eqn:E; [by eexists | | by eexists | done].
    apply IH. cbn [world]. apply (attentive_wait _ _ Hkernel) in E. lia. }
  intros s. apply Hloop. pose proof (attentive_patience _ _ Hkernel s.(world)). lia.
Qed.

Lemma returns_read size : (size <= sizeof_ready)%nat -> returns (read_all patience size).
Proof.
  assert (forall fuel n got s, (signals s.(world) + n < fuel)%nat -> is_Some (read_loop fuel n got s)) as Hloop.
  { induction fuel as [|fuel IH]; intros n got s Hs; [lia|]. destruct n as [|n]; [by eexists|]. cbn [read_loop].
    change (is_Some (match kernel (sys_read (S n)) s with
      | Some (result, s') => (match result with
          | ReadBytes (b :: bytes) => read_loop fuel (S n - length (b :: bytes)) (got ++ b :: bytes)
          | ReadInterrupted => read_loop fuel (S n) got
          | ReadBytes [] | ReadEnd => mret None | ReadBlocks => fun _ => None end : M W (option (list Z))) s'
      | None => None end)).
    pose proof (attentive_read_returns _ _ Hkernel (S n) (world s)) as Hr.
    unfold kernel. destruct (sys_read (S n) (world s)) as [[[|b bytes]| | |] w'] eqn:E; try done; try by eexists.
    - apply IH. cbn [world length]. apply (attentive_bytes _ _ Hkernel) in E. lia.
    - apply IH. cbn [world]. apply (attentive_read _ _ Hkernel) in E. lia. }
  intros Hsize s. apply Hloop. pose proof (attentive_patience _ _ Hkernel s.(world)). lia.
Qed.

#[local] Hint Resolve returns_ret returns_kernel returns_logged returns_wait : returns.

(** Every call of the rest returns. *)
Ltac returning :=
  repeat first
    [ progress intros
    | progress cbv zeta
    | solve [eauto with returns]
    | match goal with |- returns (mbind _ _) => apply returns_bind end
    | match goal with |- returns (match ?x with _ => _ end) => destruct x end
    | match goal with |- returns (let '(_, _) := ?x in _) => destruct x end ].

Lemma returns_close : returns (close_report_descriptor : M W unit).
Proof. intros s. unfold close_report_descriptor. destruct (report_open s); by eexists. Qed.

Lemma returns_terminate child : returns (terminate_child patience child).
Proof. unfold terminate_child, kill. returning. Qed.

#[local] Hint Resolve returns_close returns_terminate : returns.

Lemma returns_finish child result : returns (finish patience child result).
Proof. unfold finish. returning. Qed.

#[local] Hint Resolve returns_finish : returns.

Lemma returns_fail child result error : returns (fail patience child result error).
Proof. apply returns_finish. Qed.

Lemma returns_snapshot child target : returns (read_snapshot child target : M W _).
Proof. unfold read_snapshot. returning. Qed.

Lemma returns_fault_report child signal : returns (collect_fault_report child signal : M W _).
Proof.
  unfold collect_fault_report.
  apply returns_bind; [returning|]. intros []; cbn [negb]; [|returning].
  apply returns_bind; [returning|]. intros []; cbn [negb]; [|returning]. intros s.
  pose proof (attentive_read_returns _ _ Hkernel sizeof_report (world s)) as Hr.
  unfold mbind, StateM_bind, kernel. destruct (sys_read sizeof_report (world s)) as [[bytes| | |] w']; try done.
  cbn beta iota. destruct (length bytes =? sizeof_report)%nat; by eexists.
Qed.

#[local] Hint Resolve returns_fault_report : returns.

Lemma returns_fault child signal info snapshot result : returns (stop_on_fault patience child signal info snapshot result).
Proof. unfold stop_on_fault. returning. Qed.

#[local] Hint Resolve returns_fail returns_snapshot returns_fault : returns.

Lemma returns_step request child code_base max_steps previous_rip result :
  returns (step_once patience request child code_base max_steps previous_rip result).
Proof. unfold step_once. returning. Qed.

(** The loop ends within its fuel: each round adds a step, and the cap is reached. *)
Lemma returns_loop fuel request child code_base max_steps previous_rip result (s : State W) :
  result.(result_stopped_at_target) = false -> (0 < fuel)%nat ->
  Z.of_nat (length result.(result_steps)) + Z.of_nat fuel = max_steps ->
  is_Some (step_loop patience fuel request child code_base max_steps previous_rip result s).
Proof.
  revert previous_rip result s. induction fuel as [|fuel IH]; intros previous_rip result s Ht Hf Hmax; [lia|].
  destruct (returns_step request child code_base max_steps previous_rip result s) as [[outcome s1] E].
  cbn [step_loop]. change (is_Some (match step_once patience request child code_base max_steps previous_rip result s with
    | Some (outcome, s') => (match outcome with
        | inl result => mret result
        | inr (next_rip, result) => step_loop patience fuel request child code_base max_steps next_rip result
        end : M W PlatformRunResult) s'
    | None => None end)).
  rewrite E. apply (step_once_spec _ _ _ _ _ _ fuel) in E; [|done|done].
  destruct outcome as [r|[next_rip r]]; [by eexists|]. destruct E as (step & -> & _ & _ & _ & _ & _ & Hn).
  apply IH; [done | done|]. cbn [add_step result_steps]. rewrite length_app. cbn [length]. lia.
Qed.

Lemma returns_trace_worker request child ready seed :
  0 <= request.(request_max_steps) ->
  returns (trace_worker patience request child ready (set_seed PlatformRunResult_init seed)).
Proof.
  intros Hmax. unfold trace_worker. returning. intros s. apply returns_loop; [done | |].
  - pose proof (capped_steps_range _ Hmax). lia.
  - pose proof (capped_steps_range _ Hmax). cbn. lia.
Qed.

Lemma run_linux_returns request : 0 <= request.(request_max_steps) -> returns (run_linux patience request).
Proof.
  intros Hmax s. unfold run_linux.
  pose proof (prepare_platform_run_spec request (instrumentation_detected s.(world))) as Hprep.
  destruct (prepare_platform_run _ _ _) as [go_on result].
  destruct Hprep as (_ & _ & _ & Hgo & _). destruct go_on; cbn [negb]; [|by eexists].
  rewrite (Hgo eq_refl). clear Hgo.
  match goal with |- is_Some (?m s) => enough (returns m) by done end.
  pose proof (returns_read sizeof_ready (le_n _)).
  pose proof (fun child ready => returns_trace_worker request child ready request.(request_seed) Hmax).
  unfold pipe, fork, start_worker, close. returning.
Qed.
End termination.

(** ** Resources *)

Definition waits (child : Z) (l : list Call) : Prop := Forall (fun c => exists r, c = CallWait child r) l.

(** Between two states, only waits for the worker. *)
Definition waited {W} (child : Z) (s s' : State W) : Prop :=
  exists ws, s'.(calls) = s.(calls) ++ ws /\ waits child ws /\ s'.(report_open) = s.(report_open).

(** Waits, then the worker is killed and waited for, and the report end is closed. *)
Definition released {W} (child : Z) (s s' : State W) : Prop :=
  exists ws ws', s'.(calls) = s.(calls) ++ ws ++ CallKill child :: ws' ++ [CallClose true]
    /\ waits child ws /\ waits child ws' /\ ws' <> [] /\ s'.(report_open) = false.

Section resources.
Context {W : Type} `{LinuxKernel W} {zydis : ZydisDecoder} (patience : nat) (child : Z).
Hypothesis Hchild : 0 < child.

Definition only_waits {A} (m : M W A) : Prop :=
  forall s r s', m s = Some (r, s') -> waited child s s'.

Definition releases {A} (m : M W A) : Prop :=
  forall s r s', s.(report_open) = true -> m s = Some (r, s') -> released child s s'.

Lemma waited_refl (s : State W) : waited child s s.
Proof. exists []. rewrite app_nil_r. split; [done|]. split; [constructor | done]. Qed.

Lemma waited_trans (s s1 s2 : State W) : waited child s s1 -> waited child s1 s2 -> waited child s s2.
Proof.
  intros (w1 & E1 & F1 & O1) (w2 & E2 & F2 & O2). exists (w1 ++ w2).
  rewrite E2, E1, app_assoc. split; [done|]. split; [by apply Forall_app_2 | congruence].
Qed.

Lemma waited_released (s s1 s2 : State W) : waited child s s1 -> released child s1 s2 -> released child s s2.
Proof.
  intros (w1 & E1 & F1 & O1) (w2 & w3 & E2 & F2 & F3 & Hne & O2). exists (w1 ++ w2), w3.
  rewrite E2, E1, <- !app_assoc. split; [done|]. split; [by apply Forall_app_2 | done].
Qed.

Lemma only_waits_ret {A} (x : A) : only_waits (mret x).
Proof. intros s r s' [_ <-]%mret_Some. apply waited_refl. Qed.

Lemma only_waits_kernel {A} (f : W -> A * W) : only_waits (kernel f).
Proof.
  intros s r s' Hrun. unfold kernel in Hrun. destruct (f (world s)). injection Hrun as _ <-.
  exists []. cbn. by rewrite app_nil_r; split; [|split; [constructor|]].
Qed.

Lemma only_waits_bind {A B} (m : M W A) (k : A -> M W B) :
  only_waits m -> (forall x, only_waits (k x)) -> only_waits (m ≫= k).
Proof.
  intros Hm Hk s r s' (x & s1 & E1 & E2)%bind_Some. eapply waited_trans; [by eapply Hm | by eapply Hk].
Qed.

Lemma releases_bind {A B} (m : M W A) (k : A -> M W B) :
  only_waits m -> (forall x, releases (k x)) -> releases (m ≫= k).
Proof.
  intros Hm Hk s r s' Ho (x & s1 & E1 & E2)%bind_Some. pose proof (Hm _ _ _ E1) as Hw.
  eapply waited_released; [exact Hw|]. eapply Hk; [|exact E2]. destruct Hw as (_ & _ & _ & ->). done.
Qed.

Lemma releases_ret {A B} (m : M W A) (f : A -> B) : releases m -> releases (x ← m; mret (f x)).
Proof.
  intros Hm s r s' Ho (x & s1 & E1 & [_ <-]%mret_Some)%bind_Some. by eapply Hm.
Qed.

Lemma wait_loop_waits fuel (s : State W) r s' :
  wait_loop fuel child s = Some (r, s') ->
  exists ws, s'.(calls) = s.(calls) ++ ws /\ waits child ws /\ ws <> [] /\ s'.(report_open) = s.(report_open)
    /\ (forall status, r = Some status -> last ws = Some (CallWait child (Waited status))).
Proof.
  revert s. induction fuel as [|fuel IH]; intros s Hrun; [done|]. cbn [wait_loop] in Hrun. follow Hrun.
  unfold waitpid, logged in Hrun0. destruct (sys_waitpid child (world s)) as [waited w'].
  injection Hrun0 as <- <-. destruct waited as [status| | |].
  - follow Hrun. subst r s'. eexists. split; [reflexivity|]. split; [repeat constructor; by eexists|].
    split; [done|]. split; [done|]. by intros st [= ->].
  - apply IH in Hrun as (ws & E & F & Hne & Ho & Hl). cbn [calls report_open] in E, Ho.
    exists (CallWait child WaitInterrupted :: ws). rewrite E, <- app_assoc. split; [done|].
    split; [constructor; [by eexists | done]|]. split; [done|]. split; [done|]. intros st Hst.
    destruct ws; [done|]. by apply Hl.
  - follow Hrun. subst r s'. eexists. split; [reflexivity|]. split; [repeat constructor; by eexists|]. done.
  - done.
Qed.

Lemma only_waits_wait : only_waits (wait_for_child patience child).
Proof. intros s r s' (ws & ? & ? & _ & ? & _)%wait_loop_waits. by exists ws. Qed.

Lemma only_waits_read fuel size got : only_waits (read_loop fuel size got).
Proof.
  revert size got. induction fuel as [|fuel IH]; intros [|size] got; cbn [read_loop]; try apply only_waits_ret; try done.
  apply only_waits_bind; [apply only_waits_kernel|]. intros [[|b bytes]| | |]; apply only_waits_ret || apply IH || done.
Qed.

Lemma only_waits_snapshot target : only_waits (read_snapshot child target).
Proof.
  unfold read_snapshot. apply only_waits_bind; [apply only_waits_kernel|].
  intros [?|]; [|apply only_waits_ret]. apply only_waits_bind; [apply only_waits_kernel|].
  intros [?|]; apply only_waits_ret.
Qed.

(** Every ending of a run releases the worker and the report end. *)
Lemma releases_finish result : releases (finish patience child result).
Proof.
  intros s r s' Ho Hrun. unfold finish, terminate_child in Hrun. follow Hrun.
  assert ((child <=? 0) = false) as Hpos by (apply Z.leb_gt; done). rewrite Hpos in Hrun0. follow Hrun0.
  unfold kill, logged in Hrun. injection Hrun as _ <-.
  apply wait_loop_waits in Hrun2 as (ws & E & F & Hne & Ho' & _). cbn [calls report_open] in E, Ho'.
  subst. unfold close_report_descriptor in Hrun1.
  match type of Hrun1 with (if ?b then _ else _) = _ => assert (b = true) as Hopen by congruence; rewrite Hopen in Hrun1 end.
  injection Hrun1 as <-. exists [], ws. cbn [calls report_open app]. subst. rewrite E, <- !app_assoc.
  split; [done|]. split; [constructor | done].
Qed.

Lemma releases_fault signal info snapshot result : releases (stop_on_fault patience child signal info snapshot result).
Proof.
  unfold stop_on_fault, collect_fault_report. cbv zeta.
  destruct ((signal =? SIGSEGV) || (signal =? SIGBUS)); [|apply releases_finish].
  apply releases_bind; [|intros ?; apply releases_finish].
  apply only_waits_bind; [apply only_waits_kernel|]. intros []; cbn [negb]; [|apply only_waits_ret].
  apply only_waits_bind; [apply only_waits_kernel|]. intros []; cbn [negb]; [|apply only_waits_ret].
  apply only_waits_bind; [apply only_waits_kernel|]. intros [b| | |]; try apply only_waits_ret; [|done].
  destruct (length b =? sizeof_report)%nat; apply only_waits_ret.
Qed.

(** One round ends and releases, or goes on and has only waited. *)
Lemma step_once_calls request code_base max_steps previous_rip result (s s' : State W) outcome :
  s.(report_open) = true ->
  step_once patience request child code_base max_steps previous_rip result s = Some (outcome, s') ->
  match outcome with inl _ => released child s s' | inr _ => waited child s s' end.
Proof.
  intros Ho Hrun.
  assert (forall (m : M W PlatformRunResult) (s0 s1 : State W), releases m -> waited child s s0 ->
    (r ← m; mret (inl r) : M W (PlatformRunResult + Z * PlatformRunResult)) s0 = Some (outcome, s1) ->
    match outcome with inl _ => released child s s1 | inr _ => waited child s s1 end) as Hstop.
  { intros m s0 s1 Hm Hw (x & s2 & E & [<- <-]%mret_Some)%bind_Some. eapply waited_released; [exact Hw|].
    eapply Hm; [|exact E]. destruct Hw as (_ & _ & _ & ->). done. }
  unfold step_once in Hrun. cbv zeta in Hrun.
  apply bind_Some in Hrun as (x & s1 & E1%only_waits_kernel & Hrun).
  destruct x; cbn [negb] in Hrun; [|by eapply Hstop; [apply releases_finish | | exact Hrun]].
  apply bind_Some in Hrun as (x & s2 & E2%only_waits_wait & Hrun).
  pose proof (waited_trans _ _ _ E1 E2) as W2.
  destruct x as [status|]; [|by eapply Hstop; [apply releases_finish | | exact Hrun]].
  destruct (WIFSTOPPED status); cbn [negb] in Hrun; [|by eapply Hstop; [apply releases_finish | | exact Hrun]].
  apply bind_Some in Hrun as (x & s3 & E3%only_waits_kernel & Hrun).
  pose proof (waited_trans _ _ _ W2 E3) as W3.
  destruct x as [info|]; [|by eapply Hstop; [apply releases_finish | | exact Hrun]].
  apply bind_Some in Hrun as (x & s4 & E4%only_waits_snapshot & Hrun).
  pose proof (waited_trans _ _ _ W3 E4) as W4.
  destruct x as [snapshot|]; [|by eapply Hstop; [apply releases_finish | | exact Hrun]].
  repeat match type of Hrun with (if ?c then _ else _) _ = _ => destruct c end;
    try (eapply Hstop; [| exact W4 | exact Hrun]; apply releases_finish || apply releases_fault).
  apply mret_Some in Hrun as [<- <-]. exact W4.
Qed.

Lemma releases_loop fuel request code_base max_steps previous_rip result :
  releases (step_loop patience fuel request child code_base max_steps previous_rip result).
Proof.
  revert previous_rip result. induction fuel as [|fuel IH]; intros previous_rip result s r s' Ho Hrun; [done|].
  cbn [step_loop] in Hrun. apply bind_Some in Hrun as (outcome & s1 & E & Hrun).
  apply step_once_calls in E; [|done]. destruct outcome as [x|[next_rip x]].
  - by apply mret_Some in Hrun as [_ <-].
  - eapply waited_released; [exact E|]. eapply IH; [|exact Hrun]. destruct E as (_ & _ & _ & ->). done.
Qed.

Lemma releases_trace_worker request ready result : releases (trace_worker patience request child ready result).
Proof.
  unfold trace_worker. cbv zeta.
  apply releases_bind; [apply only_waits_kernel|]. intros []; cbn [negb]; [|apply releases_finish].
  apply releases_bind; [apply only_waits_kernel|]. intros registers.
  apply releases_bind; [destruct registers; [apply only_waits_kernel | apply only_waits_ret]|]. intros fpu.
  destruct registers as [registers|]; [|apply releases_finish].
  destruct fpu as [fpu|]; [|apply releases_finish].
  match goal with |- releases (if ?c then _ else _) => destruct c end; [apply releases_finish|].
  destruct (seed_worker _ _ _ _ _) as [[registers' fpu'] recorded].
  apply releases_bind; [apply only_waits_kernel|]. intros ok.
  apply releases_bind; [destruct ok; [apply only_waits_kernel | apply only_waits_ret]|]. intros []; cbn [negb];
    [|apply releases_finish].
  match goal with |- releases (if ?c then _ else _) => destruct c end; [apply releases_finish | apply releases_loop].
Qed.

(** The calls of a worker that was started: its end of the pipe is closed here, then it
    is waited for, and it is either killed and waited for again, or it is known to have
    reported a failed setup; the report end is closed last. *)
Definition worker_calls (result : PlatformRunResult) (l : list Call) : Prop :=
  exists ws, waits child ws /\
    ((exists ws', waits child ws' /\ ws' <> [] /\ l = CallClose false :: ws ++ CallKill child :: ws' ++ [CallClose true]) \/
     (exists status, last ws = Some (CallWait child (Waited status)) /\ result.(result_outcome) = OError /\
        l = CallClose false :: ws ++ [CallClose true])).

Lemma start_worker_calls request result (s s' : State W) r :
  s.(report_open) = true -> start_worker patience request child result s = Some (r, s') ->
  exists l, s'.(calls) = s.(calls) ++ l /\ worker_calls r l.
Proof.
  intros Ho Hrun. unfold start_worker in Hrun. apply bind_Some in Hrun as (x & s1 & E1 & Hrun).
  unfold close, logged in E1. injection E1 as _ <-. cbn [calls report_open world] in Hrun.
  set (s1 := State_of (sys_close false (world s)) (calls s ++ [CallClose false]) (report_open s)) in Hrun.
  assert (forall (m : M W PlatformRunResult) (s2 s3 : State W), releases m -> waited child s1 s2 ->
    m s2 = Some (r, s3) -> exists l, s3.(calls) = s.(calls) ++ l /\ worker_calls r l) as Hend.
  { intros m s2 s3 Hm Hw E. assert (released child s1 s3) as (ws & ws' & Ec & F & F' & Hne & _).
    { eapply waited_released; [exact Hw|]. eapply Hm; [|exact E]. destruct Hw as (_ & _ & _ & ->). done. }
    exists (CallClose false :: ws ++ CallKill child :: ws' ++ [CallClose true]).
    split; [rewrite Ec; cbn [s1 calls]; by rewrite <- app_assoc|].
    exists ws. split; [done|]. left. by exists ws'. }
  apply bind_Some in Hrun as (x1 & s2 & E2%only_waits_read & Hrun).
  destruct x1 as [bytes|]; [|by eapply Hend; [apply releases_finish | | exact Hrun]].
  apply bind_Some in Hrun as (x1 & s3 & E3 & Hrun). cbv zeta in Hrun.
  apply wait_loop_waits in E3 as (ws & Ec & F & Hne & Ho' & Hlast).
  assert (waited child s2 s3) as E3 by (by exists ws).
  pose proof (waited_trans _ _ _ E2 E3) as Hw.
  destruct x1 as [status|]; [|by eapply Hend; [apply releases_finish | | exact Hrun]].
  destruct (ready_error _ =? 0); cbn [negb] in Hrun.
  - match type of Hrun with (if ?c then _ else _) _ = _ => destruct c end;
      (eapply Hend; [| exact Hw | exact Hrun]; apply releases_finish || apply releases_trace_worker).
  - apply bind_Some in Hrun as (x2 & s4 & E4 & [<- <-]%mret_Some).
    unfold close_report_descriptor in E4. destruct Hw as (_ & _ & _ & Hopen).
    cbn [s1 report_open] in Hopen. rewrite Hopen, Ho in E4. injection E4 as _ <-. cbn [calls].
    destruct E2 as (w2 & Ec2 & F2 & _). exists (CallClose false :: (w2 ++ ws) ++ [CallClose true]).
    split; [rewrite Ec, Ec2; cbn [s1 calls]; by rewrite <- !app_assoc|].
    exists (w2 ++ ws). split; [by apply Forall_app_2|]. right. exists status.
    split; [|done]. rewrite last_app. by rewrite (Hlast status eq_refl).
Qed.
End resources.

Lemma run_linux_calls {W} `{LinuxKernel W} {zydis : ZydisDecoder} patience request w r s :
  (forall w0, (sys_fork w0).1 = -1 \/ 0 < (sys_fork w0).1) ->
  run_platform_steps_linux patience request w = Some (r, s) ->
  s.(calls) = [] \/ s.(calls) = [CallPipe false]
  \/ s.(calls) = [CallPipe true; CallFork (-1); CallClose true; CallClose false]
  \/ exists child l, 0 < child /\ s.(calls) = CallPipe true :: CallFork child :: l /\ worker_calls child r l.
Proof.
  intros Hfork Hrun. unfold run_platform_steps_linux, run_linux in Hrun.
  destruct (prepare_platform_run _ _ _) as [go_on result]. destruct go_on; cbn [negb] in Hrun.
  2: { injection Hrun as _ <-. by left. }
  apply bind_Some in Hrun as (piped & s1 & E1 & Hrun). unfold pipe, logged in E1.
  cbn [world calls report_open] in E1. destruct (sys_pipe w) as [ok w1]. injection E1 as -> <-.
  destruct piped; cbn [negb] in Hrun; [|apply mret_Some in Hrun as [_ <-]; right; by left].
  apply bind_Some in Hrun as (child & s2 & E2 & Hrun). unfold fork, logged in E2. cbn [world calls report_open] in E2.
  pose proof (Hfork w1) as Hpid. destruct (sys_fork w1) as [pid w2]. cbn [fst] in Hpid. injection E2 as -> <-.
  destruct (Z.eqb_spec child (-1)) as [->|Hne].
  - apply bind_Some in Hrun as (x & s3 & E3 & Hrun). unfold close, logged in E3. injection E3 as _ <-.
    apply bind_Some in Hrun as (x1 & s4 & E4 & [_ <-]%mret_Some). unfold close, logged in E4. injection E4 as _ <-.
    right. right. by left.
  - apply start_worker_calls in Hrun as (l & Ec & Hl); [|lia|done]. right. right. right.
    exists child, l. split; [lia|]. by rewrite Ec.
Qed.

(** ** What the worker starts with *)

Lemma write_xmm_spec i values area :
  (16 * (i + length values) <= length area)%nat ->
  length (write_xmm i values area) = length area
  /\ (forall o n, (o + n <= 16 * i)%nat -> bytes_at (write_xmm i values area) o n = bytes_at area o n)
  /\ forall j v, values !! j = Some v ->
       bytes_at (write_xmm i values area) (16 * (i + j)) 8 = le_bytes 8 v.1
       /\ bytes_at (write_xmm i values area) (16 * (i + j) + 8) 8 = le_bytes 8 v.2.
Proof.
  revert i area. induction values as [|v values IH]; intros i area Hl; cbn [write_xmm].
  { split; [done|]. split; [done|]. intros j x. by rewrite lookup_nil. }
  cbn [length] in Hl. set (bytes := le_bytes 8 v.1 ++ le_bytes 8 v.2).
  assert (length bytes = 16%nat) as Hb by (unfold bytes; rewrite length_app, !length_le_bytes; done).
  destruct (IH (S i) (splice area (16 * i) bytes)) as (IH1 & IH2 & IH3); [rewrite length_splice; lia|].
  split; [rewrite IH1; apply length_splice; lia|]. split.
  - intros o n Ho. rewrite IH2 by lia. apply bytes_at_splice_ne; lia.
  - intros [|j] x Hx.
    + injection Hx as <-. rewrite Nat.add_0_r. rewrite !IH2 by lia. split.
      * pose proof (bytes_at_splice_eq area (16 * i) bytes ltac:(lia) 0 8 ltac:(lia)) as E.
        rewrite Nat.add_0_r in E. rewrite E. unfold bytes_at, bytes. rewrite drop_0.
        by rewrite (take_app_length' _ _ 8) by (by rewrite length_le_bytes).
      * rewrite (bytes_at_splice_eq area (16 * i) bytes ltac:(lia) 8 8 ltac:(lia)). unfold bytes_at, bytes.
        rewrite (drop_app_length' _ _ 8) by (by rewrite length_le_bytes).
        rewrite <- (length_le_bytes 8 v.2) at 1. apply firstn_all.
    + replace (i + S j)%nat with (S i + j)%nat by lia. by apply IH3.
Qed.

Lemma write_st_spec i values tags area tag_word recorded :
  Forall (fun v => length v = 10%nat) values -> (16 * (i + length values) <= length area)%nat ->
  let area' := (write_stack put_st 16 i values tags area tag_word recorded).1.1 in
  length area' = length area
  /\ (forall o n, (o + n <= 16 * i)%nat -> bytes_at area' o n = bytes_at area o n)
  /\ forall j v, values !! j = Some v ->
       bytes_at area' (16 * (i + j)) 10 =
         if Z.testbit tags (Z.of_nat (i + j)) then v else bytes_at area (16 * (i + j)) 10.
Proof.
  intros Hv. revert i area tag_word recorded. induction Hv as [|v values Hv10 _ IH]; intros i area tag_word recorded Hl;
    cbn [write_stack]; cbv zeta.
  { cbn [fst]. split; [done|]. split; [done|]. intros j x. by rewrite lookup_nil. }
  cbn [length] in Hl. destruct (Z.testbit tags (Z.of_nat i)) eqn:Et.
  - change (put_st i v area) with (splice area (16 * i) v).
    destruct (IH (S i) (splice area (16 * i) v) (Z.lor tag_word (u16 (Z.shiftl 1 (Z.of_nat i)))) (<[i:=v]> recorded))
      as (IH1 & IH2 & IH3); [rewrite length_splice; lia|].
    split; [rewrite IH1; apply length_splice; lia|]. split.
    + intros o n Ho. rewrite IH2 by lia. apply bytes_at_splice_ne; lia.
    + intros [|j] x Hx.
      * injection Hx as <-. rewrite Nat.add_0_r, IH2, Et by lia.
        pose proof (bytes_at_splice_eq area (16 * i) v ltac:(lia) 0 10 ltac:(lia)) as E.
        rewrite Nat.add_0_r in E. rewrite E, <- Hv10. apply bytes_at_all.
      * replace (i + S j)%nat with (S i + j)%nat by lia. rewrite (IH3 j x Hx).
        rewrite bytes_at_splice_ne by lia. done.
  - destruct (IH (S i) area tag_word recorded) as (IH1 & IH2 & IH3); [lia|].
    split; [done|]. split; [intros o n Ho; apply IH2; lia|].
    intros [|j] x Hx.
    * injection Hx as <-. rewrite Nat.add_0_r, IH2, Et by lia. done.
    * replace (i + S j)%nat with (S i + j)%nat by lia. by rewrite (IH3 j x Hx).
Qed.

(** A floating-point area of the kernel: its lengths, and no register on its stack. *)
Record fresh_fpu (fpu : user_fpregs_struct) : Prop := {
  fresh_st : length fpu.(st_space) = 128%nat;
  fresh_xmm : length fpu.(xmm_space) = 256%nat;
  fresh_swd : in_width 16 fpu.(swd);
  fresh_top : Z.land fpu.(swd) (Z.shiftl 7 11) = 0;
}.

Lemma clear_top swd :
  in_width 16 swd -> Z.land swd (Z.shiftl 7 11) = 0 -> Z.land swd (u16 (Z.lnot (Z.shiftl 7 11))) = swd.
Proof.
  intros Hw H0. apply Z.bits_inj'. intros n Hn. rewrite Z.land_spec, wrap_testbit, Z.lnot_spec by lia.
  destruct (Z.testbit swd n) eqn:E; [|done]. cbn [andb].
  assert (Z.testbit (Z.land swd (Z.shiftl 7 11)) n = false) as Hb by (by rewrite H0, Z.bits_0).
  rewrite Z.land_spec, E in Hb. cbn [andb] in Hb. rewrite Hb. cbn [negb]. rewrite andb_true_r.
  destruct (Z.ltb_spec n 16); [done|]. rewrite (in_width_testbit 16) in E by (done || lia). done.
Qed.

Lemma seed_worker_loaded request ready registers fpu_registers registers' fpu_registers' recorded :
  well_formed request.(request_seed) -> fresh_fpu fpu_registers ->
  seed_worker request ready registers fpu_registers request.(request_seed) = (registers', fpu_registers', recorded) ->
  snapshot_fpu fpu_registers' (snapshot_registers registers' Registers_init) = recorded.
Proof.
  intros Hwf [Hst Hxmm Hswd Htop] Hs. pose proof Hwf as [Hgpr _ _ _ Hx Hxw _ Hsl Hsw _ _ _].
  pose proof (seed_worker_effective _ _ _ _ _ _ _ Hwf Hs) as Heff.
  unfold seed_worker in Hs. cbv zeta in Hs.
  match type of Hs with context [write_stack _ _ ?i ?v ?t ?a ?f ?r] =>
    pose proof (write_stack_recorded put_st 16 i v t a f r) as Hrec;
    pose proof (write_st_spec i v t a f r) as Hw; destruct (write_stack put_st 16 i v t a f r) as [[area tag] rst] eqn:Ew end.
  cbn [fst snd st_space] in Hw. cbv zeta in Hw.
  destruct Hw as (_ & _ & Hw); [by eapply Forall_impl; [exact Hsw|]; intros ? [? _] | rewrite Hsl; lia |].
  destruct Hrec as [Hrl Hrec]; [cbn [snapshot_fpu st]; by rewrite length_imap|]. cbn [snd] in Hrl, Hrec.
  destruct (write_xmm_spec 0 (xmm (request_seed request)) (xmm_space fpu_registers)) as (_ & _ & Hwx); [lia|].
  injection Hs as <- <- <-. destruct Heff as [_ _ _ _ _ _ _ _ _].
  unfold snapshot_fpu, snapshot_registers, reg_set.
  cbn [gpr rip rflags xmm mxcsr st fpu_control_word fpu_status_word fpu_tag_word_abridged
       cwd swd ftw fp_mxcsr st_space xmm_space user_reg]. f_equal.
  - apply list_of_16; [by rewrite !length_insert|]. intros reg H1 H2.
    destruct reg; try done; cbn [reg_index]; rewrite ?nth_lookup.
    all: rewrite ?list_lookup_insert_ne by done; rewrite ?list_lookup_insert_eq
      by (rewrite ?length_insert, Hgpr; unfold GPR_COUNT; lia); unfold reg_get; cbn [reg_index];
      rewrite ?nth_lookup; done.
  - apply effective_flags_no_trap.
  - apply list_eq. intros i. rewrite list_lookup_imap. destruct (Nat.lt_ge_cases i 16) as [Hi|Hi].
    + assert (exists v, xmm (request_seed request) !! i = Some v) as [v Hv] by (apply lookup_lt_is_Some; lia).
      rewrite Hv. destruct (Hwx i v Hv) as [E1 E2]. cbn [Nat.add] in E1, E2.
      assert (in_width 64 v.1 /\ in_width 64 v.2) as [W1 W2] by (by eapply (Forall_lookup_1 _ _ _ _ Hxw)).
      assert (xmm Registers_init !! i = Some (0, 0)) as -> by (by apply lookup_replicate).
      cbn [fmap option_fmap option_map]. rewrite E1, E2, !le_value_le_bytes_64 by done. by destruct v.
    + rewrite !lookup_ge_None_2; [done | rewrite Hx; lia | done].
  - apply list_eq. intros i. rewrite list_lookup_imap. destruct (Nat.lt_ge_cases i 8) as [Hi|Hi].
    + assert (exists v, st (request_seed request) !! i = Some v) as [v Hv] by (apply lookup_lt_is_Some; lia).
      assert (st Registers_init !! i = Some (replicate 10 0)) as -> by (by apply lookup_replicate).
      cbn [fmap option_fmap option_map]. rewrite length_replicate. specialize (Hw i v Hv). cbn [Nat.add] in Hw.
      rewrite Hw, Hrec, bool_decide_true by lia. cbn [andb]. rewrite Nat.sub_0_r, Hv.
      destruct (Z.testbit _ (Z.of_nat i)); [done|]. cbn [snapshot_fpu st st_space].
      rewrite list_lookup_imap, Hv. cbn. assert (length v = 10%nat) as -> by (by eapply (Forall_lookup_1 _ _ _ _ Hsw) in Hv as [? _]).
      done.
    + rewrite !lookup_ge_None_2; [done | rewrite Hrl; cbn [snapshot_fpu st]; rewrite length_imap; lia | done].
  - by apply clear_top.
Qed.

(** ** Properties *)

(** C2. The ptrace tracer implements the contract of the platform: whatever the kernel
    and the worker do, a run that returns either says why it was refused or failed, or
    has executed the abstract single-step machine from the effective seed of the
    request. *)
Theorem linux_refines_platform {W} `{LinuxKernel W} {zydis : ZydisDecoder} patience request w result s :
  well_formed request.(request_seed) -> 0 <= request.(request_max_steps) ->
  run_platform_steps_linux patience request w = Some (result, s) -> run_result request result.
Proof. apply run_linux_contract. Qed.

(** C39. A run returns whenever its waits and reads do: on a kernel that neither lets the
    worker block nor interrupts these calls for ever, the step loop ends by itself,
    because each round records a step and the cap is reached.  Only a call that blocks,
    as a blocking system call of the code makes the wait do, keeps a run from ending. *)
Theorem linux_run_terminates {W} `{LinuxKernel W} {zydis : ZydisDecoder} patience signals request w :
  attentive patience signals -> 0 <= request.(request_max_steps) ->
  exists result s, run_platform_steps_linux patience request w = Some (result, s).
Proof.
  intros Hk Hmax. destruct (run_linux_returns patience signals Hk request Hmax (State_of w [] true)) as [[r s] E].
  by exists r, s.
Qed.

(** C10. No run leaks: a run that is refused makes no call; a failed pipe or fork leaves
    nothing open; and once a worker exists, both ends of the pipe are closed exactly
    once and the worker is either killed and waited for, or was waited for after its
    setup failed, on every path. *)
Theorem linux_releases_resources {W} `{LinuxKernel W} {zydis : ZydisDecoder} patience request w result s :
  (forall w0, (sys_fork w0).1 = -1 \/ 0 < (sys_fork w0).1) ->
  run_platform_steps_linux patience request w = Some (result, s) ->
  s.(calls) = [] \/ s.(calls) = [CallPipe false]
  \/ s.(calls) = [CallPipe true; CallFork (-1); CallClose true; CallClose false]
  \/ exists child l, 0 < child /\ s.(calls) = CallPipe true :: CallFork child :: l /\ worker_calls child result l.
Proof. apply run_linux_calls. Qed.

(** The recorded seed is the state before event 0: a snapshot of the registers the
    worker is given, vectors, stack registers and control words included, is exactly the
    seed the result records. *)
Theorem linux_seed_is_loaded request ready registers fpu_registers registers' fpu_registers' recorded :
  well_formed request.(request_seed) -> fresh_fpu fpu_registers ->
  seed_worker request ready registers fpu_registers request.(request_seed) = (registers', fpu_registers', recorded) ->
  snapshot_fpu fpu_registers' (snapshot_registers registers' Registers_init) = recorded.
Proof. apply seed_worker_loaded. Qed.

(** *** A kernel for the concrete runs

    Its world counts the single steps of a worker; a step moves to the next byte, and the worker
    exits after [life] steps. *)
Definition example_fpu : user_fpregs_struct := {|
  cwd := 0x37F; swd := 0; ftw := 0; fp_mxcsr := 0x1F80; mxcr_mask := 0xFFFF;
  st_space := replicate 128 0; xmm_space := replicate 256 0 |}.

Definition example_kernel (life : nat) : LinuxKernel nat := {|
  sys_getenv _ _ := None;
  sys_pipe w := (true, w);
  sys_fork _ := (42, 0%nat);
  sys_close _ w := w;
  sys_read n w := (ReadBytes (le_bytes 8 0x1000 ++ le_bytes 8 0x8000 ++ le_bytes 8 0x2000 ++ le_bytes 8 0), w);
  sys_poll w := (false, w);
  sys_kill _ w := w;
  sys_waitpid _ w := (Waited (if (life <? w)%nat then 0 else if (w =? 0)%nat then 0x137F else 0x057F), w);
  ptrace_setoptions _ w := (true, w);
  ptrace_getregs _ w := (Some {| user_reg r := match r with RIP => 0x1000 + Z.of_nat w | _ => 0 end; user_rest := [] |}, w);
  ptrace_getfpregs _ w := (Some example_fpu, w);
  ptrace_setregs _ _ w := (true, w);
  ptrace_setfpregs _ _ w := (true, w);
  ptrace_singlestep _ w := (true, S w);
  ptrace_getsiginfo _ w := (Some {| si_code := TRAP_TRACE; si_addr := 0 |}, w);
  ptrace_cont _ _ w := (true, w);
|}.

Definition example_zydis : ZydisDecoder := {| decoder_init := true; decode_full _ := None |}.

Definition example_request : PlatformRunRequest := {|
  request_code := [0x90; 0x90]; request_seed := Registers_init; request_max_steps := 10;
  request_stop_offset := None; request_seed_data_pointers := true |}.

Definition example_run (life : nat) : option (PlatformRunResult * State nat) :=
  run_platform_steps_linux (H := example_kernel life) (zydis := example_zydis) 40 example_request 0%nat.

Example example_run_finishes :
  option_map (fun x => (x.1.(result_outcome), map step_rip x.1.(result_steps))) (example_run 9)
  = Some (OFinished, [0x1000; 0x1001]).
Proof. vm_compute. reflexivity. Qed.

(** A system call of the code that blocks: the wait after its step never returns, and the run
    does not end. *)
Definition blocking_kernel : LinuxKernel nat := {|
  sys_getenv _ _ := None; sys_pipe w := (true, w); sys_fork _ := (42, 0%nat); sys_close _ w := w;
  sys_read := sys_read (LinuxKernel := example_kernel 9); sys_poll w := (false, w); sys_kill _ w := w;
  sys_waitpid pid w := if (2 <=? w)%nat then (WaitBlocks, w) else sys_waitpid (LinuxKernel := example_kernel 9) pid w;
  ptrace_setoptions _ w := (true, w);
  ptrace_getregs := ptrace_getregs (LinuxKernel := example_kernel 9);
  ptrace_getfpregs _ w := (Some example_fpu, w); ptrace_setregs _ _ w := (true, w); ptrace_setfpregs _ _ w := (true, w);
  ptrace_singlestep _ w := (true, S w); ptrace_getsiginfo := ptrace_getsiginfo (LinuxKernel := example_kernel 9);
  ptrace_cont _ _ w := (true, w);
|}.

Example blocking_run : run_platform_steps_linux (H := blocking_kernel) (zydis := example_zydis) 40 example_request 0%nat = None.
Proof. vm_compute. reflexivity. Qed.

Lemma example_attentive : attentive (H := example_kernel 9) 40 (fun _ => 0%nat).
Proof. split; try done. intros _. vm_compute. lia. Qed.

Lemma linux_refines_platform_witness :
  exists result s, example_run 9 = Some (result, s) /\ run_result example_request result.
Proof.
  destruct (example_run 9) as [[result s]|] eqn:E; [|vm_compute in E; discriminate].
  exists result, s. split; [reflexivity|].
  apply (linux_refines_platform (H := example_kernel 9) (zydis := example_zydis) 40 example_request 0%nat result s);
    [apply Registers_init_well_formed | vm_compute; discriminate | exact E].
Defined.

Lemma linux_run_terminates_witness : is_Some (example_run 9).
Proof.
  destruct (linux_run_terminates (H := example_kernel 9) (zydis := example_zydis) 40 (fun _ => 0%nat)
    example_request 0%nat example_attentive ltac:(vm_compute; discriminate)) as (result & s & E).
  by exists (result, s).
Defined.

Lemma linux_releases_resources_witness :
  exists result s, example_run 9 = Some (result, s) /\
  exists child l, s.(calls) = CallPipe true :: CallFork child :: l.
Proof.
  destruct (example_run 9) as [[result s]|] eqn:E; [|vm_compute in E; discriminate].
  exists result, s. split; [reflexivity|].
  destruct (linux_releases_resources (H := example_kernel 9) (zydis := example_zydis) 40 example_request 0%nat result s
    ltac:(intros w0; right; reflexivity) E) as [H | [H | [H | (child & l & _ & H & _)]]].
  - exfalso. assert (option_map (fun x => x.2.(calls)) (example_run 9) = Some []) as H1 by (rewrite E; cbn; by rewrite H).
    vm_compute in H1. discriminate.
  - exfalso. assert (option_map (fun x => length x.2.(calls)) (example_run 9) = Some 1%nat) as H1
      by (rewrite E; cbn; by rewrite H). vm_compute in H1. discriminate.
  - exfalso. assert (option_map (fun x => length x.2.(calls)) (example_run 9) = Some 4%nat) as H1
      by (rewrite E; cbn; by rewrite H). vm_compute in H1. discriminate.
  - by exists child, l.
Defined.

Lemma linux_seed_is_loaded_witness :
  fresh_fpu example_fpu /\
  exists registers' fpu' recorded,
    seed_worker example_request (ready_of_bytes (le_bytes 8 0x1000)) {| user_reg _ := 0; user_rest := [] |} example_fpu
      Registers_init = (registers', fpu', recorded)
    /\ snapshot_fpu fpu' (snapshot_registers registers' Registers_init) = recorded.
Proof.
  assert (fresh_fpu example_fpu) as Hf by (split; [reflexivity | reflexivity | vm_compute; split; [discriminate | reflexivity] | reflexivity]).
  split; [exact Hf|].
  destruct (seed_worker example_request _ _ example_fpu Registers_init) as [[registers' fpu'] recorded] eqn:E.
  exists registers', fpu', recorded. split; [reflexivity|].
  exact (linux_seed_is_loaded example_request _ _ example_fpu _ _ _ Registers_init_well_formed Hf E).
Defined.

(** A worker that exits while it is stepped was already waited for when it is killed:
    the process number it is killed by is no longer its own. *)
Lemma linux_kills_exited_worker :
  option_map (fun x => (x.1.(result_error), x.2.(calls))) (example_run 0)
  = Some ("ptrace worker exited unexpectedly." : str,
          [CallPipe true; CallFork 42; CallClose false; CallWait 42 (Waited 0x137F);
           CallWait 42 (Waited 0); CallKill 42; CallWait 42 (Waited 0); CallClose true]).
Proof. vm_compute. reflexivity. Qed.
