(* ===== verification/AddressSpace.v ===== *)
(** * AddressSpace: what a process sees in its memory, and the layout the engine promises.

    The tracers only ask their systems for memory; what an address holds afterwards is up to
    the system.  Here are the relations that documented memory calls (reserving a range of
    addresses, changing the protection of pages, copying bytes into them) put between two
    such memories, the layout of a run, and the proof that the calls the worker of the Linux
    tracer and the Windows tracer make, in their order, bring it about.  [MemoryLog] is a system
    whose memory is the list of the calls it has carried out. *)

From S2P Require Import Prelude Core.

Local Open Scope Z_scope.

Inductive Access : Type := NoAccess | ReadWriteAccess | ReadExecuteAccess.

#[export] Instance Access_eq_dec : EqDecision Access.
Proof. solve_decision. Defined.

(** An address that nothing is mapped at, or a byte and what the code may do with it. *)
Inductive Cell : Type :=
| Free
| Mapped (access : Access) (byte : Z).

Definition address_space : Type := Z -> Cell.

Definition in_range (a n x : Z) : Prop := a <= x < a + n.

(** ** Memory calls *)

(** A range that was free is reserved: it cannot be accessed, and its bytes are zero. *)
Record reserves (m m' : address_space) (a n : Z) : Prop := {
  reserves_free : forall x, in_range a n x -> m x = Free;
  reserves_range : forall x, in_range a n x -> m' x = Mapped NoAccess 0;
  reserves_rest : forall x, ~ in_range a n x -> m' x = m x;
}.

(** The pages of a range that is mapped get another protection. *)
Record protects (m m' : address_space) (a n : Z) (access : Access) : Prop := {
  protects_range : forall x, in_range a n x -> exists old b, m x = Mapped old b /\ m' x = Mapped access b;
  protects_rest : forall x, ~ in_range a n x -> m' x = m x;
}.

(** Bytes are copied to addresses that can be written. *)
Record copies (m m' : address_space) (a : Z) (bytes : list Z) : Prop := {
  copies_bytes : forall i b, bytes !! i = Some b -> m' (a + Z.of_nat i) = Mapped ReadWriteAccess b;
  copies_rest : forall x, ~ in_range a (Z.of_nat (length bytes)) x -> m' x = m x;
}.

Definition writable (m : address_space) (a n : Z) : Prop :=
  forall x, in_range a n x -> exists b, m x = Mapped ReadWriteAccess b.

(** The other calls leave what is mapped as it is. *)
Definition keeps_mapped (m m' : address_space) : Prop := forall x, m x <> Free -> m' x = m x.

(** ** Areas *)

(** The addresses of a fresh area. *)
Definition area (m : address_space) (a n : Z) (access : Access) : Prop :=
  forall x, in_range a n x -> m x = Mapped access 0.

(** Two ranges have no address in common. *)
Definition apart (a n b n' : Z) : Prop := a + n <= b \/ b + n' <= a.

Lemma keeps_refl m : keeps_mapped m m.
Proof. done. Qed.

Lemma keeps_trans m m1 m2 : keeps_mapped m m1 -> keeps_mapped m1 m2 -> keeps_mapped m m2.
Proof. intros H1 H2 x Hx. rewrite H2; [by apply H1|]. by rewrite H1. Qed.

Lemma area_keeps m m' a n access : keeps_mapped m m' -> area m a n access -> area m' a n access.
Proof. intros Hk Ha x Hx. specialize (Ha x Hx). by rewrite Hk, Ha by (by rewrite Ha). Qed.

Lemma area_part m a n access b n' : area m a n access -> a <= b -> b + n' <= a + n -> area m b n' access.
Proof. intros Ha H1 H2 x Hx. apply Ha. unfold in_range in *. lia. Qed.

Lemma reserves_area m m' a n : reserves m m' a n -> area m' a n NoAccess.
Proof. intros []. done. Qed.

Lemma reserves_keeps m m' a n : reserves m m' a n -> keeps_mapped m m'.
Proof. intros [Hf _ Hrest] x Hx. apply Hrest. intros Hin. by apply Hx, Hf. Qed.

(** A range that is reserved is apart from what is mapped already. *)
Lemma reserves_apart m m' a n access b n' :
  area m a n access -> reserves m m' b n' -> 0 < n -> 0 < n' -> apart a n b n'.
Proof.
  intros Ha [Hf _ _] Hn Hn'. unfold apart. destruct (Z.le_gt_cases (a + n) b) as [?|H1]; [by left|].
  destruct (Z.le_gt_cases (b + n') a) as [?|H2]; [by right|].
  assert (in_range a n (Z.max a b)) as Hx by (unfold in_range; lia).
  assert (in_range b n' (Z.max a b)) as Hy by (unfold in_range; lia).
  apply Ha in Hx. apply Hf in Hy. congruence.
Qed.

Lemma protects_area m m' a n access old : protects m m' a n access -> area m a n old -> area m' a n access.
Proof. intros [Hp _] Ha x Hx. destruct (Hp x Hx) as (o & b & E & ->). rewrite (Ha x Hx) in E. by injection E as _ <-. Qed.

Lemma protects_apart m m' a n access b n' old :
  protects m m' a n access -> apart a n b n' -> area m b n' old -> area m' b n' old.
Proof. intros [_ Hr] Hap Ha x Hx. rewrite Hr; [by apply Ha|]. unfold apart, in_range in *. lia. Qed.

Lemma copies_apart m m' a bytes b n' old :
  copies m m' a bytes -> apart a (Z.of_nat (length bytes)) b n' -> area m b n' old -> area m' b n' old.
Proof. intros [_ Hr] Hap Ha x Hx. rewrite Hr; [by apply Ha|]. unfold apart, in_range in *. lia. Qed.

Lemma area_writable m a n : area m a n ReadWriteAccess -> writable m a n.
Proof. intros Ha x Hx. exists 0. by apply Ha. Qed.

(** ** Pages

    A page is a power of two that divides the 64 KiB of the stack and of the data. *)
Section pages.
Context (k : Z).
Hypothesis Hk : 8 <= k <= 16.
Abbreviation page_size := (2 ^ k).

Lemma pages : 0 < page_size <= 2 ^ 16 /\ 0x10000 mod page_size = 0.
Proof.
  split; [split; [lia | apply Z.pow_le_mono_r; lia]|]. change 0x10000 with (2 ^ 16).
  replace 16 with ((16 - k) + k) by lia. rewrite Z.pow_add_r by lia. apply Z.mod_mul. lia.
Qed.

(** Whole pages are a multiple of the page size. *)
Lemma pages_add x y : x mod page_size = 0 -> y mod page_size = 0 -> (x + y) mod page_size = 0.
Proof. intros Hx Hy. pose proof pages. rewrite Z.add_mod, Hx, Hy by lia. reflexivity. Qed.

Lemma pages_one : page_size mod page_size = 0.
Proof. apply Z_mod_same_full. Qed.

Lemma pages_two : (page_size * 2) mod page_size = 0.
Proof. rewrite Z.mul_comm. apply Z.mod_mul. pose proof pages. lia. Qed.
End pages.

(** ** The layout *)

(** A range of memory to read and write, with a page that cannot be accessed on either
    side. *)
Record guarded (m : address_space) (page_size a n : Z) : Prop := {
  guarded_low : area m (a - page_size) page_size NoAccess;
  guarded_range : area m a n ReadWriteAccess;
  guarded_high : area m (a + n) page_size NoAccess;
}.

(** The memory of a run that starts at [base]: the code can be read and executed there and
    not written, and its last byte is followed by a page that cannot be accessed; the stack
    and the data are fresh and guarded. *)
Record memory_laid_out (code : list Z) (page_size base stack_bottom data_base : Z) (m : address_space) : Prop := {
  code_there : forall i b, code !! i = Some b -> m (base + Z.of_nat i) = Mapped ReadExecuteAccess b;
  code_guard : area m (base + Z.of_nat (length code)) page_size NoAccess;
  stack_there : guarded m page_size stack_bottom SCRATCH_STACK_BYTES;
  data_there : guarded m page_size data_base SCRATCH_DATA_BYTES;
}.

Lemma guarded_keeps m m' page_size a n : keeps_mapped m m' -> guarded m page_size a n -> guarded m' page_size a n.
Proof. intros Hk []. split; by eapply area_keeps. Qed.

Lemma memory_laid_out_keeps code page_size base stack_bottom data_base m m' :
  keeps_mapped m m' -> memory_laid_out code page_size base stack_bottom data_base m ->
  memory_laid_out code page_size base stack_bottom data_base m'.
Proof.
  intros Hk [Hc Hg Hs Hd]. split; [| by eapply area_keeps | by eapply guarded_keeps | by eapply guarded_keeps].
  intros i b Hi. specialize (Hc i b Hi). by rewrite Hk, Hc by (by rewrite Hc).
Qed.

(** *** How it comes about *)

Section layout.
Context (page_size region buffer stack data : Z).
Hypothesis Hpage : 0 < page_size.
Hypothesis Hregion : 0 <= region.

Abbreviation STACK := SCRATCH_STACK_BYTES.
Abbreviation DATA := SCRATCH_DATA_BYTES.

(** The three ranges of a run. *)
Record ranges_apart : Prop := {
  apart_stack : apart buffer (region + page_size) stack (STACK + page_size * 2);
  apart_data : apart buffer (region + page_size) data (DATA + page_size * 2);
  apart_both : apart stack (STACK + page_size * 2) data (DATA + page_size * 2);
}.

(** Reserved. *)
Record all_reserved (m : address_space) : Prop := {
  reserved_buffer : area m buffer (region + page_size) NoAccess;
  reserved_stack : area m stack (STACK + page_size * 2) NoAccess;
  reserved_data : area m data (DATA + page_size * 2) NoAccess;
  reserved_apart : ranges_apart;
}.

(** Committed, with the protection of the code. *)
Record committed (m : address_space) : Prop := {
  committed_code : area m buffer region ReadWriteAccess;
  committed_guard : area m (buffer + region) page_size NoAccess;
  committed_stack : guarded m page_size (stack + page_size) STACK;
  committed_data : guarded m page_size (data + page_size) DATA;
  committed_apart : ranges_apart;
}.

Lemma reserve_all m m1 m2 m3 :
  reserves m m1 buffer (region + page_size) -> reserves m1 m2 stack (STACK + page_size * 2) ->
  reserves m2 m3 data (DATA + page_size * 2) -> all_reserved m3.
Proof.
  intros H1 H2 H3. pose proof (reserves_area _ _ _ _ H1) as A1. pose proof (reserves_area _ _ _ _ H2) as A2.
  pose proof (reserves_area _ _ _ _ H3) as A3. pose proof (area_keeps _ _ _ _ _ (reserves_keeps _ _ _ _ H2) A1) as A1'.
  assert (0 < STACK /\ 0 < DATA) as [Hs Hd] by done.
  split; [by apply (area_keeps m2); [apply (reserves_keeps _ _ _ _ H3)|] | by apply (area_keeps m2); [apply (reserves_keeps _ _ _ _ H3)|] | done|].
  split; [exact (reserves_apart _ _ _ _ _ _ _ A1 H2 ltac:(lia) ltac:(lia)) | exact (reserves_apart _ _ _ _ _ _ _ A1' H3 ltac:(lia) ltac:(lia))
    | exact (reserves_apart _ _ _ _ _ _ _ A2 H3 ltac:(lia) ltac:(lia))].
Qed.

Lemma reserved_keeps m m' : keeps_mapped m m' -> all_reserved m -> all_reserved m'.
Proof. intros Hk []. split; [by eapply area_keeps.. | done]. Qed.

Lemma committed_keeps m m' : keeps_mapped m m' -> committed m -> committed m'.
Proof. intros Hk []. split; [by eapply area_keeps | by eapply area_keeps | by eapply guarded_keeps | by eapply guarded_keeps | done]. Qed.

Lemma commit_all m m1 m2 m3 :
  all_reserved m -> protects m m1 buffer region ReadWriteAccess -> protects m1 m2 (stack + page_size) STACK ReadWriteAccess ->
  protects m2 m3 (data + page_size) DATA ReadWriteAccess -> committed m3.
Proof.
  intros [A1 A2 A3 [P1 P2 P3]] H1 H2 H3. assert (0 < STACK /\ 0 < DATA) as [Hs Hd] by done. unfold apart in P1, P2, P3.
  assert (forall b n old, (apart buffer region b n -> area m b n old -> area m1 b n old)
    /\ (apart (stack + page_size) STACK b n -> area m1 b n old -> area m2 b n old)
    /\ (apart (data + page_size) DATA b n -> area m2 b n old -> area m3 b n old)) as Hother.
  { intros b n old. split; [|split]; intros Hap; by eapply protects_apart. }
  assert (forall b n, apart buffer region b n -> apart (stack + page_size) STACK b n -> apart (data + page_size) DATA b n ->
    area m b n NoAccess -> area m3 b n NoAccess) as Hguard.
  { intros b n Hb1 Hb2 Hb3 Ha. by apply (Hother b n NoAccess), (Hother b n NoAccess), (Hother b n NoAccess). }
  split; [| | split | split | done].
  - apply Hother, Hother; [unfold apart; lia | unfold apart; lia|]. eapply protects_area; [exact H1|].
    apply (area_part _ _ _ _ _ _ A1); lia.
  - apply Hguard; [unfold apart; lia.. | apply (area_part _ _ _ _ _ _ A1); lia].
  - apply Hguard; [unfold apart; lia.. | apply (area_part _ _ _ _ _ _ A2); lia].
  - apply Hother; [unfold apart; lia|]. eapply protects_area; [exact H2|].
    apply Hother; [unfold apart; lia | apply (area_part _ _ _ _ _ _ A2); lia].
  - apply Hguard; [unfold apart; lia.. | apply (area_part _ _ _ _ _ _ A2); lia].
  - apply Hguard; [unfold apart; lia.. | apply (area_part _ _ _ _ _ _ A3); lia].
  - eapply protects_area; [exact H3|]. do 2 (apply Hother; [unfold apart; lia|]). apply (area_part _ _ _ _ _ _ A3); lia.
  - apply Hguard; [unfold apart; lia.. | apply (area_part _ _ _ _ _ _ A3); lia].
Qed.

(** Another range is committed. *)
Lemma commit_other m m' a n :
  committed m -> protects m m' a n ReadWriteAccess ->
  apart buffer (region + page_size) a n -> apart stack (STACK + page_size * 2) a n -> apart data (DATA + page_size * 2) a n ->
  committed m'.
Proof.
  intros [A1 A2 [S1 S2 S3] [D1 D2 D3] Hap] Hp H1 H2 H3. assert (0 < STACK /\ 0 < DATA) as [Hs Hd] by done. unfold apart in H1, H2, H3.
  split; [| | split | split | done]; (eapply protects_apart; [exact Hp | | eassumption]; unfold apart; lia).
Qed.

(** The code is copied to the end of its pages, which are then protected. *)
Lemma start_layout code m m1 m2 m3 :
  let base := buffer + region - Z.of_nat (length code) in
  Z.of_nat (length code) <= region -> committed m -> copies m m1 base code -> keeps_mapped m1 m2 ->
  protects m2 m3 buffer region ReadExecuteAccess ->
  memory_laid_out code page_size base (stack + page_size) (data + page_size) m3.
Proof.
  intros base Hlen [A1 A2 [S1 S2 S3] [D1 D2 D3] [P1 P2 P3]] Hcopy Hkeep Hprot. assert (0 < STACK /\ 0 < DATA) as [Hs Hd] by done.
  unfold apart in P1, P2, P3.
  assert (forall b n old, apart buffer region b n -> area m b n old -> area m3 b n old) as Hother.
  { intros b n old Hap Ha. eapply protects_apart; [exact Hprot | exact Hap|]. eapply area_keeps; [exact Hkeep|].
    eapply copies_apart; [exact Hcopy | | exact Ha]. unfold apart, base in *. lia. }
  split; [| | split | split]; try (apply Hother; [unfold apart, base; lia | done]).
  - intros i b Hi. pose proof (copies_bytes _ _ _ _ Hcopy i b Hi) as Hb. pose proof (lookup_lt_Some _ _ _ Hi) as Hl.
    destruct (protects_range _ _ _ _ _ Hprot (base + Z.of_nat i)) as (old & c & E & ->); [unfold in_range, base; lia|].
    rewrite Hkeep, Hb in E by (by rewrite Hb). by injection E as _ <-.
  - replace (base + Z.of_nat (length code)) with (buffer + region) by (unfold base; lia). apply Hother; [unfold apart; lia | done].
Qed.
End layout.

(** ** A system with such memory *)

Inductive MemoryCall : Type :=
| Reserve (a n : Z)
| Protect (a n : Z) (access : Access)
| Copy (a : Z) (bytes : list Z).

(** The calls, the latest first. *)
Definition MemoryLog : Type := list MemoryCall.

Definition in_rangeb (a n x : Z) : bool := (a <=? x) && (x <? a + n).

Fixpoint memory_of (log : MemoryLog) (x : Z) : Cell :=
  match log with
  | [] => Free
  | call :: log =>
    match call, memory_of log x with
    | Reserve a n, cell => if in_rangeb a n x then Mapped NoAccess 0 else cell
    | Protect a n access, Mapped old b => Mapped (if in_rangeb a n x then access else old) b
    | Copy a bytes, Mapped access b =>
      Mapped access (if in_rangeb a (Z.of_nat (length bytes)) x then nth (Z.to_nat (x - a)) bytes 0 else b)
    | _, Free => Free
    end
  end.

(** No reserved range is above. *)
Fixpoint reserved_top (log : MemoryLog) : Z :=
  match log with
  | [] => 0x10000
  | Reserve a n :: log => Z.max (a + n) (reserved_top log)
  | _ :: log => reserved_top log
  end.

Definition log_reserve (page_size size : Z) (log : MemoryLog) : Z * MemoryLog :=
  let a := (reserved_top log / page_size + 1) * page_size in
  if a + size <? 2 ^ 64 then (a, Reserve a size :: log) else (0, log).

Definition log_reserve_at (a size : Z) (log : MemoryLog) : Z * MemoryLog :=
  if forallb (fun call => match call with Reserve b n => (a + size <=? b) || (b + n <=? a) | _ => true end) log
  then (a, Reserve a size :: log) else (0, log).

Definition log_protect (a n : Z) (access : Access) (log : MemoryLog) : bool * MemoryLog :=
  if existsb (fun call => match call with Reserve b m => (b <=? a) && (a + n <=? b + m) | _ => false end) log
  then (true, Protect a n access :: log) else (false, log).

Definition log_copy (a : Z) (bytes : list Z) (log : MemoryLog) : MemoryLog := Copy a bytes :: log.

Lemma in_rangeb_spec a n x : in_rangeb a n x = true <-> in_range a n x.
Proof. unfold in_rangeb, in_range. rewrite andb_true_iff, Z.leb_le, Z.ltb_lt. done. Qed.

Lemma in_rangeb_false a n x : ~ in_range a n x -> in_rangeb a n x = false.
Proof. intros Hn. destruct (in_rangeb a n x) eqn:E; [|done]. by apply in_rangeb_spec in E. Qed.

(** What is mapped was reserved, and what was reserved stays mapped. *)
Lemma memory_of_mapped log x : memory_of log x <> Free <-> exists a n, In (Reserve a n) log /\ in_range a n x.
Proof.
  induction log as [|call log IH]; cbn [memory_of In]; [split; [done | by intros (a & n & [] & _)]|].
  destruct call as [a n|a n access|a bytes].
  - destruct (in_rangeb a n x) eqn:E.
    + split; [intros _; exists a, n; split; [by left | by apply in_rangeb_spec] | done].
    + rewrite IH. split; intros (b & m & Hin & Hx); exists b, m; (split; [|done]); [by right|].
      destruct Hin as [[= -> ->] | ?]; [|done]. apply in_rangeb_spec in Hx. congruence.
  - destruct (memory_of log x) eqn:E.
    + split; [done|]. intros (b & m & [? | Hin] & Hx); [done|]. exfalso. by apply IH; [exists b, m|].
    + split; [|done]. intros _. destruct (proj1 IH ltac:(done)) as (b & m & ? & ?). exists b, m. split; [by right | done].
  - destruct (memory_of log x) eqn:E.
    + split; [done|]. intros (b & m & [? | Hin] & Hx); [done|]. exfalso. by apply IH; [exists b, m|].
    + split; [|done]. intros _. destruct (proj1 IH ltac:(done)) as (b & m & ? & ?). exists b, m. split; [by right | done].
Qed.

Lemma memory_of_free log x :
  (forall a n, In (Reserve a n) log -> ~ in_range a n x) -> memory_of log x = Free.
Proof.
  intros Hn. destruct (memory_of log x) eqn:E; [done|]. destruct (proj1 (memory_of_mapped log x)) as (a & n & Hin & Hx); [by rewrite E|].
  by destruct (Hn a n Hin).
Qed.

Lemma reserved_top_spec log a n : In (Reserve a n) log -> a + n <= reserved_top log.
Proof. induction log as [|[] log IH]; cbn [reserved_top In]; [done|intros [[= -> ->] | ?%IH]; lia|intros [? | ?%IH]; done..]. Qed.

Lemma reserved_top_positive log : 0x10000 <= reserved_top log.
Proof. induction log as [|[] log IH]; cbn [reserved_top]; lia. Qed.

Lemma reserve_spec log a n :
  (forall x, in_range a n x -> memory_of log x = Free) -> reserves (memory_of log) (memory_of (Reserve a n :: log)) a n.
Proof.
  intros Hf. split; [done| |]; intros x Hx; cbn [memory_of].
  - by apply in_rangeb_spec in Hx as ->.
  - by rewrite in_rangeb_false.
Qed.

Lemma log_reserve_spec page_size size log : 0 < page_size ->
  let '(a, log') := log_reserve page_size size log in
  a = 0 \/ (0 < a /\ a mod page_size = 0 /\ a + size < 2 ^ 64 /\ reserves (memory_of log) (memory_of log') a size).
Proof.
  intros Hp. unfold log_reserve. cbv zeta. pose proof (reserved_top_positive log) as Ht.
  pose proof (Z.div_mod (reserved_top log) page_size ltac:(lia)) as Hdiv. pose proof (Z.mod_pos_bound (reserved_top log) page_size Hp).
  set (a := (reserved_top log / page_size + 1) * page_size). assert (reserved_top log < a) as Ha by (unfold a; lia).
  destruct (Z.ltb_spec (a + size) (2 ^ 64)); [right | by left]. split; [lia|]. split; [apply Z.mod_mul; lia|]. split; [lia|].
  apply reserve_spec. intros x Hx. apply memory_of_free. intros b n Hin%reserved_top_spec. unfold in_range in *. lia.
Qed.

Lemma log_reserve_at_spec a size log :
  let '(b, log') := log_reserve_at a size log in b = 0 \/ (b = a /\ reserves (memory_of log) (memory_of log') b size).
Proof.
  unfold log_reserve_at. destruct (forallb _ log) eqn:E; [right | by left]. split; [done|]. apply reserve_spec.
  intros x Hx. apply memory_of_free. intros b n Hin. rewrite forallb_forall in E. apply E in Hin.
  rewrite orb_true_iff, !Z.leb_le in Hin. unfold in_range in *. lia.
Qed.

Lemma log_protect_spec a n access log :
  (log_protect a n access log).1 = true ->
  protects (memory_of log) (memory_of (log_protect a n access log).2) a n access.
Proof.
  unfold log_protect. destruct (existsb _ log) eqn:E; [|done]. intros _. apply existsb_exists in E as (call & Hin & Hc).
  destruct call as [b m| |]; [|done|done]. apply andb_true_iff in Hc as [Hb%Z.leb_le Hm%Z.leb_le]. split; intros x Hx; cbn [snd memory_of].
  - destruct (memory_of log x) as [|old c] eqn:E.
    + exfalso. apply (proj2 (memory_of_mapped log x)); [|done]. exists b, m. unfold in_range in *. split; [done | lia].
    + exists old, c. split; [done|]. by apply in_rangeb_spec in Hx as ->.
  - rewrite in_rangeb_false by done. by destruct (memory_of log x).
Qed.

Lemma log_copy_spec a bytes log :
  writable (memory_of log) a (Z.of_nat (length bytes)) -> copies (memory_of log) (memory_of (log_copy a bytes log)) a bytes.
Proof.
  intros Hw. split.
  - intros i b Hi. pose proof (lookup_lt_Some _ _ _ Hi) as Hl. cbn [log_copy memory_of].
    assert (in_range a (Z.of_nat (length bytes)) (a + Z.of_nat i)) as Hx by (unfold in_range; lia).
    destruct (Hw _ Hx) as [c ->]. apply in_rangeb_spec in Hx as ->. f_equal.
    replace (Z.to_nat (a + Z.of_nat i - a)) with i by lia. by rewrite nth_lookup, Hi.
  - intros x Hx. cbn [log_copy memory_of]. rewrite in_rangeb_false by done. by destruct (memory_of log x).
Qed.
