(* ===== verification/Worker.v ===== *)
(** * Worker: the traced child of the Linux tracer ([src/src/os.linux.cpp],
    [write_all], the memory functions and [child_main]).

    The worker lays out its memory, reports where, and stops.  The addresses it reports
    are those the parent starts the code with, and those the address labels of the engine
    are relative to. *)

From S2P Require Import Prelude Text Core X87 Trace Linux AddressSpace.

Local Open Scope Z_scope.

(** ** The system *)

Inductive write_result : Type :=
| Wrote (n : nat)                 (* at least one byte *)
| WriteInterrupted
| WriteFailed.

Inductive MemoryProtection : Type := PROT_READ_WRITE | PROT_READ_EXEC.

(** A null pointer stands for [MAP_FAILED]; [mmap_fixed] is [mmap] with
    [MAP_FIXED_NOREPLACE]. *)
Class WorkerKernel (W : Type) : Type := {
  sys_write : list Z -> W -> write_result * W;
  ptrace_traceme : W -> bool * W;
  mmap : Z -> W -> Z * W;
  mmap_fixed : Z -> Z -> W -> Z * W;
  mprotect : Z -> Z -> MemoryProtection -> W -> bool * W;
  copy_code : Z -> list Z -> W -> W;
  clear_cache : Z -> Z -> W -> W;
  sigaltstack : Z -> Z -> W -> bool * W;
  sigaction : Z -> W -> bool * W;               (* with [fault_report_handler] *)
  sigprocmask_unblock : list Z -> W -> bool * W;
}.

(** The world, the bytes the pipe has taken, and the floating-point registers of the
    process, as [PTRACE_GETFPREGS] gives them to the tracer. *)
Record Worker (W : Type) : Type := Worker_of {
  worker_world : W;
  written : list Z;
  worker_fpu : user_fpregs_struct;
}.

Arguments Worker_of {W} worker_world written worker_fpu.
Arguments worker_world {W} _.
Arguments written {W} _.
Arguments worker_fpu {W} _.

Abbreviation M W := (StateM (Worker W)).

(** How the worker ends: with an exit code, or stopped for its tracer. *)
Inductive WorkerEnd : Type :=
| WorkerExit (code : Z)
| WorkerStopped.

(** [ready] as the bytes of its structure, padding included. *)
Definition ready_bytes (ready : ChildReady) : list Z :=
  le_bytes 8 ready.(ready_code_base) ++ le_bytes 8 ready.(ready_initial_rsp) ++ le_bytes 8 ready.(ready_data_base)
    ++ le_bytes 1 ready.(ready_error) ++ replicate 7 0.

Definition report_bytes (report : FaultReport) : list Z :=
  le_bytes 8 report.(report_address) ++ le_bytes 8 report.(report_error_code) ++ le_bytes 4 report.(report_trap_number)
    ++ replicate 4 0.

Definition error_code (error : ChildError) : Z :=
  match error with
  | ChildNone => 0 | ChildTrace => 1 | ChildAllocation => 2 | ChildCommit => 3 | ChildProtect => 4 | ChildFlush => 5
  | ChildSignalSetup => 6
  end.

Section worker.
Context {W : Type} `{WorkerKernel W} (patience : nat).

Definition kernel {A} (f : W -> A * W) : M W A := fun s =>
  let '(x, w) := f s.(worker_world) in Some (x, Worker_of w s.(written) s.(worker_fpu)).

(** [write] on the report descriptor: the pipe takes the first bytes. *)
Definition write (bytes : list Z) : M W write_result := fun s =>
  let '(r, w) := sys_write bytes s.(worker_world) in
  Some (r, Worker_of w (match r with Wrote n => s.(written) ++ take n bytes | _ => s.(written) end) s.(worker_fpu)).

(** [write_all]; [patience] bounds its rounds. *)
Fixpoint write_loop (fuel : nat) (bytes : list Z) : M W bool :=
  match bytes with
  | [] => mret true
  | _ =>
    match fuel with
    | O => fun _ => None
    | S fuel =>
      result ← write bytes;
      match result with
      | Wrote (S n) => write_loop fuel (drop (S n) bytes)
      | WriteInterrupted => write_loop fuel bytes
      | Wrote O | WriteFailed => mret false
      end
    end
  end.

Definition write_all (bytes : list Z) : M W bool := write_loop patience bytes.

(** [fault_report_handler]: it never returns. *)
Definition fault_report_handler (address error_code trap_number : Z) : M W WorkerEnd :=
  _ ← write_all (report_bytes {| report_address := address; report_error_code := error_code;
                                 report_trap_number := trap_number |});
  mret (WorkerExit 0).

(** ** Memory *)

Definition vm_alloc (size : Z) : M W Z := kernel (mmap size).
Definition vm_alloc_at (address size : Z) : M W Z := kernel (mmap_fixed address size).
Definition vm_commit (address size : Z) (protection : MemoryProtection) : M W bool :=
  kernel (mprotect address size protection).
Definition vm_protect (address size : Z) (protection : MemoryProtection) : M W bool := vm_commit address size protection.
Definition vm_flush_instruction_cache (address size : Z) : M W bool :=
  kernel (fun w => (true, clear_cache address (address + size) w)).

Definition and_then (a b : M W bool) : M W bool :=
  x ← a; if (x : bool) then b else mret false.

(** ** [child_main] *)

Definition no_ready : ChildReady :=
  {| ready_code_base := 0; ready_initial_rsp := 0; ready_data_base := 0; ready_error := 0 |}.

(** An error is reported, and the worker exits. *)
Definition exit_with (error : ChildError) : M W WorkerEnd :=
  _ ← write_all (ready_bytes {| ready_code_base := 0; ready_initial_rsp := 0; ready_data_base := 0;
                                ready_error := error_code error |});
  mret (WorkerExit 1).

Definition code_region (code : list Z) (page_size : Z) : Z :=
  Z.land (u64 (Z.of_nat (length code) + page_size - 1)) (u64 (Z.lnot (page_size - 1))).

(** [initialize_fpu]: [fninit] sets the control, status and tag words and leaves the data
    registers; then [ldmxcsr] of the default, and [pxor] of each vector with itself. *)
Definition fninit (fpu : user_fpregs_struct) : user_fpregs_struct := {|
  cwd := 0x37F; swd := 0; ftw := 0; fp_mxcsr := fpu.(fp_mxcsr); mxcr_mask := fpu.(mxcr_mask);
  st_space := fpu.(st_space); xmm_space := fpu.(xmm_space) |}.

Definition ldmxcsr (value : Z) (fpu : user_fpregs_struct) : user_fpregs_struct := {|
  cwd := fpu.(cwd); swd := fpu.(swd); ftw := fpu.(ftw); fp_mxcsr := value; mxcr_mask := fpu.(mxcr_mask);
  st_space := fpu.(st_space); xmm_space := fpu.(xmm_space) |}.

(** [pxor] of the vectors [a] and [b] into [a], as bytes of the area. *)
Definition pxor (a b : nat) (fpu : user_fpregs_struct) : user_fpregs_struct := {|
  cwd := fpu.(cwd); swd := fpu.(swd); ftw := fpu.(ftw); fp_mxcsr := fpu.(fp_mxcsr); mxcr_mask := fpu.(mxcr_mask);
  st_space := fpu.(st_space);
  xmm_space := imap (fun i byte => if bool_decide (i / 16 = a)%nat
                                   then Z.lxor byte (nth (16 * b + i mod 16) fpu.(xmm_space) 0) else byte) fpu.(xmm_space) |}.

Definition pxor_all (n : nat) (fpu : user_fpregs_struct) : user_fpregs_struct :=
  fold_left (fun fpu i => pxor i i fpu) (seq 0 n) fpu.

Definition initialize_fpu : M W unit := fun s =>
  Some (tt, Worker_of s.(worker_world) s.(written) (pxor_all 16 (ldmxcsr DEFAULT_MXCSR (fninit s.(worker_fpu))))).

(** From the committed memory. *)
Definition start_code (code : list Z) (page_size signal_stack_size buffer stack data signal_stack : Z) : M W WorkerEnd :=
  let size := Z.of_nat (length code) in
  let region := code_region code page_size in
  let code_base := u64 (buffer + region - size) in
  _ ← kernel (fun w => (tt, copy_code code_base code w));
  protected ← vm_protect buffer region PROT_READ_EXEC;
  if negb (protected : bool) then exit_with ChildProtect
  else
    flushed ← vm_flush_instruction_cache code_base size;
    if negb (flushed : bool) then exit_with ChildFlush
    else
      handled ← and_then (kernel (sigaltstack (u64 (signal_stack + page_size)) signal_stack_size))
                 (and_then (kernel (sigaction SIGSEGV))
                   (and_then (kernel (sigaction SIGBUS)) (kernel (sigprocmask_unblock [SIGSEGV; SIGBUS]))));
      if negb (handled : bool) then exit_with ChildSignalSetup
      else
        _ ← initialize_fpu;
        sent ← write_all (ready_bytes {|
          ready_code_base := code_base;
          ready_initial_rsp := Z.land (u64 (stack + page_size + SCRATCH_STACK_BYTES - SCRATCH_STACK_HEADROOM)) (u64 (Z.lnot 15));
          ready_data_base := u64 (data + page_size);
          ready_error := 0 |});
        mret (if (sent : bool) then WorkerStopped else WorkerExit 1).

Definition child_main (code : list Z) (page_size signal_stack_size data_reserve_base : Z) : M W WorkerEnd :=
  traced ← kernel ptrace_traceme;
  if negb (traced : bool) then exit_with ChildTrace
  else
    let region := code_region code page_size in
    buffer ← vm_alloc (u64 (region + page_size));
    stack ← vm_alloc (SCRATCH_STACK_BYTES + page_size * 2);
    data ← vm_alloc_at data_reserve_base (SCRATCH_DATA_BYTES + page_size * 2);
    signal_stack ← vm_alloc (u64 (signal_stack_size + page_size * 2));
    if (buffer =? 0) || (stack =? 0) || (data =? 0) || (signal_stack =? 0) then exit_with ChildAllocation
    else
      committed ← and_then (vm_commit buffer region PROT_READ_WRITE)
                   (and_then (vm_commit (u64 (stack + page_size)) SCRATCH_STACK_BYTES PROT_READ_WRITE)
                     (and_then (vm_commit (u64 (data + page_size)) SCRATCH_DATA_BYTES PROT_READ_WRITE)
                       (vm_commit (u64 (signal_stack + page_size)) signal_stack_size PROT_READ_WRITE)));
      if negb (committed : bool) then exit_with ChildCommit
      else start_code code page_size signal_stack_size buffer stack data signal_stack.
(** [vm_page_size] and [vm_allocation_granularity] of Linux, from the answer of
    [sysconf(_SC_PAGESIZE)]. *)
Definition vm_page_size (sysconf_page_size : Z) : Z := if 0 <? sysconf_page_size then sysconf_page_size else 4096.

Definition vm_allocation_granularity (sysconf_page_size : Z) : Z := vm_page_size sysconf_page_size.

Definition linux_memory (sysconf_page_size : Z) : Memory := {|
  Trace.vm_page_size := vm_page_size sysconf_page_size;
  Trace.vm_allocation_granularity := vm_allocation_granularity sysconf_page_size |}.

(** The size of the signal stack, in whole pages. *)
Definition worker_signal_stack_size (SIGSTKSZ page_size : Z) : Z :=
  Z.land (u64 (u64 (SIGSTKSZ + page_size) - 1)) (u64 (Z.lnot (page_size - 1))).

(** The child of the fork in [run_platform_steps]; the sizes are queried before it. *)
Definition worker (sysconf_page_size SIGSTKSZ : Z) (code : list Z) : M W WorkerEnd :=
  let page_size := vm_page_size sysconf_page_size in
  let signal_stack_size := worker_signal_stack_size SIGSTKSZ page_size in
  let data_reserve_base := scratch_reserve_base (memory := linux_memory sysconf_page_size) in
  child_main code page_size signal_stack_size data_reserve_base.
End worker.

(** ** The pipe *)

Lemma length_ready_bytes ready : length (ready_bytes ready) = sizeof_ready.
Proof. unfold ready_bytes. by rewrite !length_app, !length_le_bytes, length_replicate. Qed.

(** The parent reads back the structure the worker writes. *)
Lemma ready_of_ready_bytes ready :
  in_width 64 ready.(ready_code_base) -> in_width 64 ready.(ready_initial_rsp) ->
  in_width 64 ready.(ready_data_base) -> in_width 8 ready.(ready_error) ->
  ready_of_bytes (ready_bytes ready) = ready.
Proof.
  destruct ready as [base rsp data error]. cbn [ready_code_base ready_initial_rsp ready_data_base ready_error].
  intros H1 H2 H3 H4. unfold ready_of_bytes, ready_bytes. cbn [ready_code_base ready_initial_rsp ready_data_base ready_error].
  f_equal.
  - change (le_value (le_bytes 8 base) = base). by apply le_value_le_bytes_64.
  - change (le_value (le_bytes 8 rsp) = rsp). by apply le_value_le_bytes_64.
  - change (le_value (le_bytes 8 data) = data). by apply le_value_le_bytes_64.
  - change (le_value (le_bytes 1 error) = error). rewrite le_value_bytes. by apply Z.mod_small.
Qed.

Lemma report_of_report_bytes report :
  in_width 64 report.(report_address) -> in_width 64 report.(report_error_code) ->
  in_width 32 report.(report_trap_number) ->
  report_of_bytes (report_bytes report) = report.
Proof.
  destruct report as [address error trap]. cbn [report_address report_error_code report_trap_number].
  intros H1 H2 H3. unfold report_of_bytes, report_bytes. cbn [report_address report_error_code report_trap_number].
  f_equal.
  - change (le_value (le_bytes 8 address) = address). by apply le_value_le_bytes_64.
  - change (le_value (le_bytes 8 error) = error). by apply le_value_le_bytes_64.
  - change (le_value (le_bytes 4 trap) = trap). rewrite le_value_bytes. by apply Z.mod_small.
Qed.

Section pipe.
Context {W : Type} `{WorkerKernel W} (patience : nat).

(** The pipe takes the bytes in order: all of them, or a proper part when the write
    fails. *)
Lemma write_loop_spec fuel bytes (s s' : Worker W) ok :
  write_loop fuel bytes s = Some (ok, s') ->
  exists k, s'.(written) = s.(written) ++ take k bytes /\ if ok then take k bytes = bytes else (k < length bytes)%nat.
Proof.
  revert bytes s. induction fuel as [|fuel IH]; intros [|b bytes] s Hrun; cbn [write_loop] in Hrun.
  - follow Hrun. subst ok s'. exists 0%nat. by rewrite app_nil_r.
  - done.
  - follow Hrun. subst ok s'. exists 0%nat. by rewrite app_nil_r.
  - apply bind_Some in Hrun as (r & s1 & E & Hrun). unfold write in E.
    destruct (sys_write (b :: bytes) (worker_world s)) as [[[|n]| |] w]; injection E as <- <-.
    + follow Hrun. subst ok s'. exists 0%nat. cbn. split; [done | lia].
    + apply IH in Hrun as (k & Ew & Ho). cbn [written] in Ew. exists (S n + k)%nat.
      rewrite <- take_take_drop. split; [by rewrite Ew, <- app_assoc|]. destruct ok.
      * rewrite Ho. apply take_drop.
      * rewrite length_drop in Ho. lia.
    + apply IH in Hrun as (k & Ew & Ho). by exists k.
    + follow Hrun. subst ok s'. exists 0%nat. cbn. rewrite app_nil_r. split; [done | lia].
Qed.

(** A worker that is done. *)
Lemma exit_with_spec error (s s' : Worker W) e :
  exit_with patience error s = Some (e, s') ->
  e = WorkerExit 1 /\ exists k, s'.(written) = s.(written) ++ take k (ready_bytes {|
    ready_code_base := 0; ready_initial_rsp := 0; ready_data_base := 0; ready_error := error_code error |}).
Proof.
  intros Hrun. unfold exit_with in Hrun. apply bind_Some in Hrun as (ok & s1 & E & Hrun). follow Hrun. subst e s'.
  apply write_loop_spec in E as (k & Ew & _). split; [done|]. by exists k.
Qed.

Lemma kernel_written {A} (f : W -> A * W) (s s' : Worker W) x :
  kernel f s = Some (x, s') -> s'.(written) = s.(written).
Proof. unfold kernel. destruct (f (worker_world s)). by intros [= <- <-]. Qed.

Lemma and_then_written (a b : M W bool) (s s' : Worker W) x :
  (forall s s' x, a s = Some (x, s') -> s'.(written) = s.(written)) ->
  (forall s s' x, b s = Some (x, s') -> s'.(written) = s.(written)) ->
  and_then a b s = Some (x, s') -> s'.(written) = s.(written).
Proof.
  intros Ha Hb Hrun. unfold and_then in Hrun. apply bind_Some in Hrun as (y & s1 & E & Hrun). apply Ha in E.
  destruct y; [apply Hb in Hrun; congruence|]. follow Hrun. congruence.
Qed.
End pipe.

(** ** The layout *)

(** Rounding down to a power of two with a mask. *)
Lemma land_mask x k : 0 <= k <= 63 -> in_width 64 x -> Z.land x (u64 (Z.lnot (2 ^ k - 1))) = x - x mod 2 ^ k.
Proof.
  intros Hk Hx. unfold wrap. rewrite <- (Z.land_ones _ 64) by lia.
  rewrite (Z.land_comm (Z.lnot _)), Z.land_assoc, (Z.land_ones x 64) by lia. rewrite (Z.mod_small x) by exact Hx.
  replace (2 ^ k - 1) with (Z.ones k) by (rewrite Z.ones_equiv; lia).
  change (Z.land x (Z.lnot (Z.ones k))) with (Z.ldiff x (Z.ones k)) || rewrite <- Z.ldiff_land.
  rewrite Z.ldiff_ones_r by lia. rewrite Z.shiftl_mul_pow2, Z.shiftr_div_pow2 by lia.
  pose proof (Z.div_mod x (2 ^ k) ltac:(lia)). lia.
Qed.

(** Where the worker puts the code, the stack and the data. *)
Record laid_out (code : list Z) (page_size data_reserve_base : Z) (ready : ChildReady) : Prop := {
  (* the guard page of the code starts right after its last byte *)
  laid_code_end : (ready.(ready_code_base) + Z.of_nat (length code)) mod page_size = 0;
  laid_guard : ready.(ready_code_base) + Z.of_nat (length code) + page_size < 2 ^ 64;
  laid_code : exists buffer, buffer mod page_size = 0 /\ 0 < buffer
    /\ buffer <= ready.(ready_code_base) < buffer + page_size;
  (* the guard page of the stack starts [SCRATCH_STACK_HEADROOM] above the stack pointer *)
  laid_rsp : ready.(ready_initial_rsp) mod 16 = 0;
  laid_stack : exists bottom, bottom mod page_size = 0
    /\ ready.(ready_initial_rsp) + SCRATCH_STACK_HEADROOM = bottom + SCRATCH_STACK_BYTES;
  laid_data : ready.(ready_data_base) = data_reserve_base + page_size;
}.

Definition access_of (protection : MemoryProtection) : Access :=
  match protection with PROT_READ_WRITE => ReadWriteAccess | PROT_READ_EXEC => ReadExecuteAccess end.

(** What the worker relies on, for what its addresses hold in each state of the system: a
    mapping is of whole pages where nothing was mapped, and a fixed one is where it is asked
    for; a new protection is that of the pages of its range; a copy is; and the other calls
    leave what is mapped as it is. *)
Record memory_laws {W : Type} (H : WorkerKernel W) (page_size : Z) (view : W -> address_space) : Prop := {
  law_mmap : forall size w, 0 < size -> size mod page_size = 0 -> let '(a, w') := mmap size w in
    a = 0 \/ (0 < a /\ a mod page_size = 0 /\ a + size < 2 ^ 64 /\ reserves (view w) (view w') a size);
  law_fixed : forall address size w, let '(a, w') := mmap_fixed address size w in
    a = 0 \/ (a = address /\ reserves (view w) (view w') a size);
  law_mprotect : forall address size protection w, address mod page_size = 0 -> size mod page_size = 0 ->
    let '(ok, w') := mprotect address size protection w in
    ok = true -> protects (view w) (view w') address size (access_of protection);
  law_copy : forall address bytes w, writable (view w) address (Z.of_nat (length bytes)) ->
    copies (view w) (view (copy_code address bytes w)) address bytes;
  law_write : forall bytes w, keeps_mapped (view w) (view (sys_write bytes w).2);
  law_clear_cache : forall first last w, keeps_mapped (view w) (view (clear_cache first last w));
  law_sigaltstack : forall address size w, keeps_mapped (view w) (view (sigaltstack address size w).2);
  law_sigaction : forall signal w, keeps_mapped (view w) (view (sigaction signal w).2);
  law_sigprocmask : forall signals w, keeps_mapped (view w) (view (sigprocmask_unblock signals w).2);
}.

Section layout.
Context (code : list Z) (k : Z).
Hypothesis Hk : 8 <= k <= 30.
Hypothesis Hcode : Z.of_nat (length code) < 2 ^ 62.
Abbreviation page_size := (2 ^ k).
Abbreviation size := (Z.of_nat (length code)).

Lemma page_bounds : 0 < page_size <= 2 ^ 30.
Proof. split; [lia | apply Z.pow_le_mono_r; lia]. Qed.

Lemma code_region_spec :
  code_region code page_size mod page_size = 0 /\ size <= code_region code page_size < size + page_size.
Proof.
  pose proof page_bounds as Hp. unfold code_region. rewrite (wrap_small 64 (size + page_size - 1)) by (unfold in_width; lia).
  rewrite land_mask by (unfold in_width; lia). set (x := size + page_size - 1).
  pose proof (Z.mod_pos_bound x page_size ltac:(lia)). pose proof (Z.div_mod x page_size ltac:(lia)).
  split; [|lia]. replace (x - x mod page_size) with ((x / page_size) * page_size) by lia. apply Z.mod_mul. lia.
Qed.

(** The addresses of a worker whose regions the kernel gave. *)
Lemma layout_of_regions buffer stack data_reserve_base :
  0 < buffer -> buffer mod page_size = 0 -> buffer + (code_region code page_size + page_size) < 2 ^ 64 ->
  0 < stack -> stack mod page_size = 0 -> stack + (SCRATCH_STACK_BYTES + page_size * 2) < 2 ^ 64 ->
  0 <= data_reserve_base < 2 ^ 63 ->
  let ready := {|
    ready_code_base := u64 (buffer + code_region code page_size - size);
    ready_initial_rsp := Z.land (u64 (stack + page_size + SCRATCH_STACK_BYTES - SCRATCH_STACK_HEADROOM)) (u64 (Z.lnot 15));
    ready_data_base := u64 (data_reserve_base + page_size);
    ready_error := 0 |} in
  ready_of_bytes (ready_bytes ready) = ready /\ laid_out code page_size data_reserve_base ready
  /\ ready.(ready_code_base) = buffer + code_region code page_size - size
  /\ ready.(ready_initial_rsp) + SCRATCH_STACK_HEADROOM - SCRATCH_STACK_BYTES = stack + page_size.
Proof.
  intros Hb0 Hb Hb1 Hs0 Hs Hs1 Hd. pose proof page_bounds as Hp. destruct code_region_spec as [Hr Hr1]. cbv zeta.
  unfold SCRATCH_STACK_BYTES, SCRATCH_STACK_HEADROOM in *.
  rewrite (wrap_small 64 (buffer + _ - _)) by (unfold in_width; lia).
  rewrite (wrap_small 64 (stack + _ + _ - _)) by (unfold in_width; lia).
  rewrite (wrap_small 64 (data_reserve_base + _)) by (unfold in_width; lia).
  assert ((stack + page_size) mod 2 ^ 8 = 0) as Ha.
  { assert (page_size = 2 ^ (k - 8) * 2 ^ 8) as Hpk by (rewrite <- Z.pow_add_r by lia; f_equal; lia).
    apply Z.mod_divide in Hs; [|lia]. destruct Hs as [q ->]. rewrite Hpk.
    replace (q * (2 ^ (k - 8) * 2 ^ 8) + 2 ^ (k - 8) * 2 ^ 8) with ((q * 2 ^ (k - 8) + 2 ^ (k - 8)) * 2 ^ 8) by ring.
    apply Z.mod_mul. lia. }
  assert (Z.land (stack + page_size + 0x10000 - 0x100) (u64 (Z.lnot 15)) = stack + page_size + 0x10000 - 0x100) as ->.
  { change 15 with (2 ^ 4 - 1). rewrite land_mask by (unfold in_width; lia).
    assert ((stack + page_size + 0x10000 - 0x100) mod 2 ^ 4 = 0) as ->; [|lia].
    apply Z.mod_divide in Ha; [|lia]. destruct Ha as [q Ha]. rewrite Ha. change (2 ^ 8) with (2 ^ 4 * 2 ^ 4).
    replace (q * (2 ^ 4 * 2 ^ 4) + 0x10000 - 0x100) with ((q * 2 ^ 4 + 0x1000 - 0x10) * 2 ^ 4) by lia. apply Z.mod_mul. lia. }
  split; [apply ready_of_ready_bytes; cbn; unfold in_width; lia|].
  split; [|split; [done | unfold SCRATCH_STACK_BYTES, SCRATCH_STACK_HEADROOM; cbn [ready_initial_rsp]; lia]].
  split; cbn [ready_code_base ready_initial_rsp ready_data_base].
  - replace (buffer + code_region code page_size - size + size) with (buffer + code_region code page_size) by lia.
    rewrite Z.add_mod, Hb, Hr by lia. reflexivity.
  - lia.
  - exists buffer. split; [done|]. lia.
  - apply Z.mod_divide in Ha; [|lia]. destruct Ha as [q Ha]. rewrite Ha.
    replace (q * 2 ^ 8 + 0x10000 - 0x100) with ((q * 2 ^ 4 + 0x1000 - 0x10) * 16) by lia. apply Z.mod_mul. lia.
  - exists (stack + page_size). split; [|unfold SCRATCH_STACK_BYTES, SCRATCH_STACK_HEADROOM; lia].
    rewrite Z.add_mod, Hs, Z_mod_same_full by lia. reflexivity.
  - reflexivity.
Qed.
End layout.

(** ** The worker reports what it did *)

Section report.
Context {W : Type} `{H : WorkerKernel W} (patience : nat) (code : list Z) (k signal_stack_size data_reserve_base : Z).
Context (view : W -> address_space).
Hypothesis Hk : 8 <= k <= 16.
Hypothesis Hcode : Z.of_nat (length code) < 2 ^ 62.
Hypothesis Hdata : 0 <= data_reserve_base < 2 ^ 63 /\ data_reserve_base mod 2 ^ k = 0.
Hypothesis Hsignal : 0 <= signal_stack_size < 2 ^ 62 /\ signal_stack_size mod 2 ^ k = 0.
Hypothesis Hlaws : memory_laws H (2 ^ k) view.

Abbreviation page_size := (2 ^ k).
Abbreviation size := (Z.of_nat (length code)).
Abbreviation region := (code_region code page_size).
Abbreviation seen s := (view s.(worker_world)).

(** The memory that a ready record tells of. *)
Definition memory_of_ready (ready : ChildReady) (m : address_space) : Prop :=
  memory_laid_out code page_size ready.(ready_code_base)
    (ready.(ready_initial_rsp) + SCRATCH_STACK_HEADROOM - SCRATCH_STACK_BYTES) ready.(ready_data_base) m.

(** The report of a worker that has written nothing before. *)
Definition reports (e : WorkerEnd) (s : Worker W) : Prop :=
  match e with
  | WorkerStopped =>
    length s.(written) = sizeof_ready /\ ready_error (ready_of_bytes s.(written)) = 0
    /\ laid_out code page_size data_reserve_base (ready_of_bytes s.(written))
    /\ memory_of_ready (ready_of_bytes s.(written)) (seen s)
  | WorkerExit _ => (length s.(written) < sizeof_ready)%nat \/ ready_error (ready_of_bytes s.(written)) <> 0
  end.

Lemma take_ready_bytes n ready :
  (length (take n (ready_bytes ready)) < sizeof_ready)%nat \/ take n (ready_bytes ready) = ready_bytes ready.
Proof.
  rewrite length_take, length_ready_bytes. destruct (Nat.lt_ge_cases n sizeof_ready); [left; lia|].
  right. apply take_ge. by rewrite length_ready_bytes.
Qed.

Lemma exit_with_reports error (s s' : Worker W) e :
  error <> ChildNone -> s.(written) = [] -> exit_with patience error s = Some (e, s') -> reports e s'.
Proof.
  intros Hne Hw Hrun. apply exit_with_spec in Hrun as (-> & n & E). unfold reports. rewrite E, Hw. cbn [app].
  match goal with |- context [ready_bytes ?r] => destruct (take_ready_bytes n r) as [Hl | ->]; [by left|]; right;
    rewrite ready_of_ready_bytes by (cbn; unfold in_width; destruct error; cbn; lia) end.
  cbn. by destruct error.
Qed.

(** *** What the calls do to the memory *)

Lemma kernel_world {A} (f : W -> A * W) (s s' : Worker W) x :
  kernel f s = Some (x, s') -> f s.(worker_world) = (x, s'.(worker_world)) /\ s'.(written) = s.(written).
Proof. unfold kernel. destruct (f (worker_world s)). by intros [= <- <-]. Qed.

Lemma vm_commit_seen a n protection (s s' : Worker W) :
  a mod page_size = 0 -> n mod page_size = 0 -> vm_commit a n protection s = Some (true, s') ->
  protects (seen s) (seen s') a n (access_of protection) /\ s'.(written) = s.(written).
Proof.
  intros Ha Hn [E Ew]%kernel_world. split; [|done]. pose proof (law_mprotect _ _ _ Hlaws a n protection s.(worker_world) Ha Hn) as Hp.
  rewrite E in Hp. by apply Hp.
Qed.

Lemma and_then_true (a b : M W bool) (s s' : Worker W) :
  and_then a b s = Some (true, s') -> exists s1, a s = Some (true, s1) /\ b s1 = Some (true, s').
Proof.
  intros Hrun. unfold and_then in Hrun. apply bind_Some in Hrun as (x & s1 & E & Hrun). exists s1. destruct x; [done|].
  by apply mret_Some in Hrun as [? _].
Qed.

Lemma write_loop_seen fuel bytes (s s' : Worker W) ok :
  write_loop fuel bytes s = Some (ok, s') -> keeps_mapped (seen s) (seen s').
Proof.
  revert bytes s. induction fuel as [|fuel IH]; intros [|b bytes] s Hrun; cbn [write_loop] in Hrun;
    try (by apply mret_Some in Hrun as [_ ->]); [done|].
  apply bind_Some in Hrun as (r & s1 & E & Hrun). unfold write in E.
  pose proof (law_write _ _ _ Hlaws (b :: bytes) s.(worker_world)) as Hl.
  destruct (sys_write (b :: bytes) (worker_world s)) as [r' w]; injection E as -> <-. cbn [snd] in Hl.
  destruct r as [[|n]| |].
  - by apply mret_Some in Hrun as [_ <-].
  - apply IH in Hrun. by eapply keeps_trans.
  - apply IH in Hrun. by eapply keeps_trans.
  - by apply mret_Some in Hrun as [_ <-].
Qed.

Lemma kernel_keeps {A} (f : W -> A * W) (s s' : Worker W) x :
  (forall w, keeps_mapped (view w) (view (f w).2)) -> kernel f s = Some (x, s') -> keeps_mapped (seen s) (seen s').
Proof. intros Hf [E _]%kernel_world. specialize (Hf s.(worker_world)). by rewrite E in Hf. Qed.

Lemma and_then_keeps (a b : M W bool) (s s' : Worker W) x :
  (forall s s' x, a s = Some (x, s') -> keeps_mapped (seen s) (seen s')) ->
  (forall s s' x, b s = Some (x, s') -> keeps_mapped (seen s) (seen s')) ->
  and_then a b s = Some (x, s') -> keeps_mapped (seen s) (seen s').
Proof.
  intros Ha Hb Hrun. unfold and_then in Hrun. apply bind_Some in Hrun as (y & s1 & E & Hrun). apply Ha in E.
  destruct y; [apply Hb in Hrun; by eapply keeps_trans|]. by apply mret_Some in Hrun as [_ <-].
Qed.

(** The regions of a worker, in the range of the addresses. *)
Record in_bounds (buffer stack : Z) : Prop := {
  buffer_bounds : 0 < buffer /\ buffer mod page_size = 0 /\ buffer + (region + page_size) < 2 ^ 64;
  stack_bounds : 0 < stack /\ stack mod page_size = 0 /\ stack + (SCRATCH_STACK_BYTES + page_size * 2) < 2 ^ 64;
}.

(** The code is copied to the end of its pages. *)
Lemma copy_seen buffer stack (s s' : Worker W) x :
  in_bounds buffer stack -> committed page_size region buffer stack data_reserve_base (seen s) ->
  kernel (fun w => (tt, copy_code (u64 (buffer + region - size)) code w)) s = Some (x, s') ->
  copies (seen s) (seen s') (buffer + region - size) code /\ s'.(written) = s.(written).
Proof.
  intros [(Hb0 & Hb & Hb1) _] Hc [E Ew]%kernel_world. split; [|done]. injection E as _ <-. pose proof (pages k Hk) as [Hp _].
  destruct (code_region_spec code k ltac:(lia) Hcode) as [_ Hr].
  rewrite wrap_small by (unfold in_width; lia). apply Hlaws, area_writable. eapply area_part; [apply (committed_code _ _ _ _ _ _ Hc) | lia | lia].
Qed.

Lemma start_code_reports buffer stack signal_stack (s s' : Worker W) e :
  in_bounds buffer stack -> committed page_size region buffer stack data_reserve_base (seen s) -> s.(written) = [] ->
  start_code patience code page_size signal_stack_size buffer stack data_reserve_base signal_stack s = Some (e, s') ->
  reports e s'.
Proof.
  intros Hbounds Hc Hw Hrun. unfold start_code in Hrun. cbv zeta in Hrun. pose proof (pages k Hk) as [Hp _].
  destruct (code_region_spec code k ltac:(lia) Hcode) as [Hr0 Hr]. pose proof Hbounds as [(Hb0 & Hb & Hb1) (Hs0 & Hs & Hs1)].
  apply bind_Some in Hrun as ([] & s1 & E1 & Hrun). apply (copy_seen _ _ _ _ _ Hbounds Hc) in E1 as [M1 E1].
  apply bind_Some in Hrun as ([] & s2 & E2 & Hrun); cbn [negb] in Hrun;
    [|apply kernel_written in E2; by apply exit_with_reports in Hrun; [|done|congruence]].
  apply (vm_commit_seen _ _ _ _ _ Hb Hr0) in E2 as [M2 E2].
  assert (memory_laid_out code page_size (buffer + region - size) (stack + page_size) (data_reserve_base + page_size) (seen s2)) as Hm2.
  { eapply start_layout; [lia | lia | lia | exact Hc | exact M1 | apply keeps_refl | exact M2]. }
  apply bind_Some in Hrun as (flushed & s3 & E3 & Hrun). unfold vm_flush_instruction_cache in E3.
  assert (keeps_mapped (seen s2) (seen s3)) as M3 by (eapply kernel_keeps, E3; intros w; apply Hlaws).
  apply kernel_written in E3.
  destruct flushed; cbn [negb] in Hrun; [|by apply exit_with_reports in Hrun; [|done|congruence]].
  apply bind_Some in Hrun as (handled & s4 & E4 & Hrun).
  assert (keeps_mapped (seen s3) (seen s4)) as M4.
  { revert E4. repeat (apply and_then_keeps; [intros ? ? ?; apply kernel_keeps; intros w; apply Hlaws|]; intros ? ? ?).
    apply kernel_keeps; intros w; apply Hlaws. }
  assert (s4.(written) = s3.(written)) as E4'.
  { revert E4. apply and_then_written; [apply kernel_written|]. intros t t' x. apply and_then_written; [apply kernel_written|].
    intros t1 t1' x1. apply and_then_written; apply kernel_written. }
  destruct handled; cbn [negb] in Hrun; [|by apply exit_with_reports in Hrun; [|done|congruence]].
  apply bind_Some in Hrun as ([] & s4' & Ei & Hrun). injection Ei as <-.
  apply bind_Some in Hrun as (sent & s5 & E5 & Hrun). follow Hrun. subst e s'.
  assert (keeps_mapped (seen s4) (seen s5)) as M5 by exact (write_loop_seen _ _ _ _ _ E5).
  apply write_loop_spec in E5 as (n & E5 & Hsent). cbn [written] in E5. rewrite E4', E3, E2, E1, Hw in E5. cbn [app] in E5.
  destruct (layout_of_regions code k ltac:(lia) Hcode buffer stack data_reserve_base Hb0 Hb Hb1 Hs0 Hs Hs1 ltac:(lia))
    as (Hround & Hlaid & Hbase & Hstack). cbv zeta in Hround, Hlaid, Hbase, Hstack. destruct sent.
  - rewrite Hsent in E5. unfold reports, memory_of_ready. rewrite E5, Hround, length_ready_bytes, Hbase, Hstack, (laid_data _ _ _ _ Hlaid).
    do 3 (split; [done|]). eapply memory_laid_out_keeps, Hm2. by do 2 (eapply keeps_trans; [eassumption|]).
  - left. rewrite E5, length_take. rewrite length_ready_bytes in *. lia.
Qed.

(** *** The regions *)

Lemma vm_alloc_seen n (s s' : Worker W) a :
  0 < n -> n mod page_size = 0 -> vm_alloc n s = Some (a, s') -> a <> 0 ->
  0 < a /\ a mod page_size = 0 /\ a + n < 2 ^ 64 /\ reserves (seen s) (seen s') a n.
Proof.
  intros Hn Hn1 [E _]%kernel_world Ha. pose proof (law_mmap _ _ _ Hlaws n s.(worker_world) Hn Hn1) as Hl. rewrite E in Hl.
  by destruct Hl as [?|?].
Qed.

Lemma vm_alloc_at_seen address n (s s' : Worker W) a :
  vm_alloc_at address n s = Some (a, s') -> a <> 0 -> a = address /\ reserves (seen s) (seen s') a n.
Proof.
  intros [E _]%kernel_world Ha. pose proof (law_fixed _ _ _ Hlaws address n s.(worker_world)) as Hl. rewrite E in Hl.
  by destruct Hl as [?|?].
Qed.

(** The commits of a worker whose regions are reserved. *)
Lemma commits_seen buffer stack signal_stack (s0 s s' : Worker W) :
  in_bounds buffer stack -> all_reserved page_size region buffer stack data_reserve_base (seen s0) ->
  0 < signal_stack -> signal_stack mod page_size = 0 -> signal_stack + (signal_stack_size + page_size * 2) < 2 ^ 64 ->
  reserves (seen s0) (seen s) signal_stack (signal_stack_size + page_size * 2) ->
  and_then (vm_commit buffer region PROT_READ_WRITE)
    (and_then (vm_commit (u64 (stack + page_size)) SCRATCH_STACK_BYTES PROT_READ_WRITE)
      (and_then (vm_commit (u64 (data_reserve_base + page_size)) SCRATCH_DATA_BYTES PROT_READ_WRITE)
        (vm_commit (u64 (signal_stack + page_size)) signal_stack_size PROT_READ_WRITE))) s = Some (true, s') ->
  committed page_size region buffer stack data_reserve_base (seen s').
Proof.
  intros [(Hb0 & Hb & Hb1) (Hs0 & Hs & Hs1)] Hres Hg0 Hg Hg1 Hsig Hrun. pose proof (pages k Hk) as [Hp H64]. destruct Hdata as [Hd0 Hd], Hsignal as [Hz0 Hz].
  destruct (code_region_spec code k ltac:(lia) Hcode) as [Hr0 Hr]. pose proof (pages_one k) as H1. unfold SCRATCH_STACK_BYTES, SCRATCH_DATA_BYTES in *.
  apply and_then_true in Hrun as (s1 & E1 & Hrun). apply and_then_true in Hrun as (s2 & E2 & Hrun). apply and_then_true in Hrun as (s3 & E3 & E4).
  rewrite wrap_small in E2, E3, E4 by (unfold in_width; lia).
  apply vm_commit_seen in E1 as [M1 _]; [|done|done]. apply vm_commit_seen in E2 as [M2 _]; [|by apply (pages_add k Hk)|done].
  apply vm_commit_seen in E3 as [M3 _]; [|by apply (pages_add k Hk)|done]. apply vm_commit_seen in E4 as [M4 _]; [|by apply (pages_add k Hk)|done].
  pose proof (reserves_keeps _ _ _ _ Hsig) as Hkeep. pose proof Hres as [A1 A2 A3 _].
  pose proof (reserves_apart _ _ _ _ _ _ _ A1 Hsig ltac:(lia) ltac:(lia)) as P1.
  pose proof (reserves_apart _ _ _ _ _ _ _ A2 Hsig ltac:(unfold SCRATCH_STACK_BYTES; lia) ltac:(lia)) as P2.
  pose proof (reserves_apart _ _ _ _ _ _ _ A3 Hsig ltac:(unfold SCRATCH_DATA_BYTES; lia) ltac:(lia)) as P3.
  eapply commit_other; [lia | lia | | exact M4 | | |]; try (unfold apart, SCRATCH_STACK_BYTES, SCRATCH_DATA_BYTES in *; lia).
  eapply commit_all; [lia | lia | by eapply reserved_keeps | exact M1 | exact M2 | exact M3].
Qed.

Lemma child_main_reports_lemma (s s' : Worker W) e :
  s.(written) = [] ->
  child_main patience code page_size signal_stack_size data_reserve_base s = Some (e, s') -> reports e s'.
Proof.
  intros Hw Hrun. unfold child_main in Hrun. cbv zeta in Hrun. pose proof (pages k Hk) as [Hp H64].
  destruct (code_region_spec code k ltac:(lia) Hcode) as [Hr0 Hr].
  pose proof (pages_two k Hk) as H2. pose proof (pages_one k) as H1.
  apply bind_Some in Hrun as (traced & s1 & E1 & Hrun). apply kernel_written in E1.
  destruct traced; cbn [negb] in Hrun; [|by apply exit_with_reports in Hrun; [|done|congruence]].
  rewrite (wrap_small 64 (region + _)) in Hrun by (unfold in_width; lia).
  apply bind_Some in Hrun as (buffer & s2 & E2 & Hrun). pose proof (kernel_written _ _ _ _ E2) as W2.
  apply bind_Some in Hrun as (stack & s3 & E3 & Hrun). pose proof (kernel_written _ _ _ _ E3) as W3.
  apply bind_Some in Hrun as (data & s4 & E4 & Hrun). pose proof (kernel_written _ _ _ _ E4) as W4.
  rewrite (wrap_small 64 (signal_stack_size + _)) in Hrun by (unfold in_width; lia).
  apply bind_Some in Hrun as (signal_stack & s5 & E5 & Hrun). pose proof (kernel_written _ _ _ _ E5) as W5.
  destruct (Z.eqb_spec buffer 0) as [|Hb]; cbn [orb] in Hrun; [by apply exit_with_reports in Hrun; [|done|congruence]|].
  destruct (Z.eqb_spec stack 0) as [|Hs]; cbn [orb] in Hrun; [by apply exit_with_reports in Hrun; [|done|congruence]|].
  destruct (Z.eqb_spec data 0) as [|Hd]; cbn [orb] in Hrun; [by apply exit_with_reports in Hrun; [|done|congruence]|].
  destruct (Z.eqb_spec signal_stack 0) as [|Hg]; [by apply exit_with_reports in Hrun; [|done|congruence]|].
  apply vm_alloc_seen in E2 as (B0 & B1 & B2 & M2); [|lia | by apply (pages_add k Hk) | done].
  apply vm_alloc_seen in E3 as (S0 & S1 & S2 & M3); [|unfold SCRATCH_STACK_BYTES; lia | by apply (pages_add k Hk) | done].
  apply vm_alloc_at_seen in E4 as [-> M4]; [|done].
  apply vm_alloc_seen in E5 as (G0 & G1 & G2 & M5); [|lia | apply (pages_add k Hk); [apply Hsignal | done] | done].
  apply bind_Some in Hrun as (ok & s6 & E6 & Hrun).
  assert (s6.(written) = s5.(written)) as E6'.
  { revert E6. apply and_then_written; [apply kernel_written|]. intros t t' x. apply and_then_written; [apply kernel_written|].
    intros t1 t1' x1. apply and_then_written; apply kernel_written. }
  destruct ok; cbn [negb] in Hrun; [|by apply exit_with_reports in Hrun; [|done|congruence]].
  assert (in_bounds buffer stack) as Hbounds by (by split).
  eapply start_code_reports; [exact Hbounds | | | exact Hrun].
  - eapply (commits_seen _ _ signal_stack s4 s5); [exact Hbounds | | done | done | done | exact M5 | exact E6].
    eapply reserve_all; [lia | lia | exact M2 | exact M3 | exact M4].
  - congruence.
Qed.
End report.

(** ** The floating-point registers *)

Section fpu.
Implicit Type fpu : user_fpregs_struct.

Lemma pxor_all_vectors n fpu :
  length (pxor_all n fpu).(xmm_space) = length fpu.(xmm_space)
  /\ forall i, nth i (pxor_all n fpu).(xmm_space) 0 = if bool_decide (i / 16 < n)%nat then 0 else nth i fpu.(xmm_space) 0.
Proof.
  induction n as [|n [IHl IH]]; [done|]. unfold pxor_all in *. rewrite seq_S, fold_left_app. cbn [fold_left Nat.add].
  set (before := fold_left _ _ _) in *. cbn [pxor xmm_space]. rewrite length_imap. split; [done|]. intros i.
  rewrite (nth_lookup (imap _ _)), list_lookup_imap.
  pose proof (Nat.div_mod_eq i 16) as Hdiv. destruct (before.(xmm_space) !! i) as [byte|] eqn:E; cbn [fmap option_fmap option_map default from_option id].
  - assert (byte = nth i before.(xmm_space) 0) as -> by (by rewrite nth_lookup, E). case_bool_decide as Hi.
    + rewrite <- Hi, <- Hdiv, Z.lxor_nilpotent. by rewrite bool_decide_true by lia.
    + rewrite IH. repeat case_bool_decide; (done || lia).
  - assert (nth i fpu.(xmm_space) 0 = 0) as ->; [|by case_bool_decide].
    apply nth_overflow. rewrite <- IHl. by apply lookup_ge_None.
Qed.

Lemma pxor_all_rest n fpu :
  let fpu' := pxor_all n fpu in
  fpu'.(cwd) = fpu.(cwd) /\ fpu'.(swd) = fpu.(swd) /\ fpu'.(ftw) = fpu.(ftw) /\ fpu'.(fp_mxcsr) = fpu.(fp_mxcsr)
  /\ fpu'.(st_space) = fpu.(st_space).
Proof.
  cbv zeta. induction n as [|n IH]; [done|]. unfold pxor_all in *. rewrite seq_S, fold_left_app. cbn [fold_left]. exact IH.
Qed.

(** The state a worker starts the code from: the defaults of the control words, an empty
    register stack and zero vectors. *)
Record initialized (fpu : user_fpregs_struct) : Prop := {
  initialized_control : fpu.(cwd) = DEFAULT_FPU_CONTROL_WORD;
  initialized_status : fpu.(swd) = 0;
  initialized_tags : fpu.(ftw) = 0;
  initialized_mxcsr : fpu.(fp_mxcsr) = DEFAULT_MXCSR;
  initialized_vectors : fpu.(xmm_space) = replicate 256 0;
  initialized_stack : length fpu.(st_space) = 128%nat;
}.

Lemma initialized_fpu fpu : length fpu.(st_space) = 128%nat -> length fpu.(xmm_space) = 256%nat ->
  initialized (pxor_all 16 (ldmxcsr DEFAULT_MXCSR (fninit fpu))).
Proof.
  intros Hst Hx. set (f0 := ldmxcsr DEFAULT_MXCSR (fninit fpu)). destruct (pxor_all_rest 16 f0) as (E1 & E2 & E3 & E4 & E5).
  destruct (pxor_all_vectors 16 f0) as [Hl Hn]. generalize dependent (pxor_all 16 f0). intros f E1 E2 E3 E4 E5 Hl Hn.
  split; [done.. | | by rewrite E5]. cbn [f0 ldmxcsr fninit xmm_space] in Hl.
  apply (nth_ext _ _ 0 0); [by rewrite Hl, Hx|]. intros i Hi.
  rewrite Hl, Hx in Hi. rewrite Hn, (nth_lookup (replicate _ _)), lookup_replicate_2 by lia.
  by rewrite bool_decide_true by (by apply Nat.Div0.div_lt_upper_bound).
Qed.

Lemma initialized_fresh fpu : initialized fpu -> fresh_fpu fpu.
Proof. intros [? E ? ? Ex ?]. split; [done | by rewrite Ex | by rewrite E | by rewrite E]. Qed.
End fpu.

(** *** Who changes them *)

Section keeps.
Context {W : Type} `{WorkerKernel W} (patience : nat).

(** A call that leaves them. *)
Definition keeps_fpu {A} (m : M W A) : Prop := forall s x s', m s = Some (x, s') -> s'.(worker_fpu) = s.(worker_fpu).

Lemma fpu_kernel {A} (f : W -> A * W) : keeps_fpu (kernel f).
Proof. intros s x s'. unfold kernel. destruct (f (worker_world s)). by intros [= _ <-]. Qed.

Lemma fpu_bind {A B} (m : M W A) (k : A -> M W B) : keeps_fpu m -> (forall x, keeps_fpu (k x)) -> keeps_fpu (m ≫= k).
Proof. intros Hm Hk s x s' (y & s1 & E & Hrun)%bind_Some. apply Hm in E. apply Hk in Hrun. congruence. Qed.

Lemma fpu_ret {A} (x : A) : keeps_fpu (mret x : M W A).
Proof. intros s y s' Hrun. follow Hrun. by subst s'. Qed.

Lemma fpu_and_then (a b : M W bool) : keeps_fpu a -> keeps_fpu b -> keeps_fpu (and_then a b).
Proof. intros Ha Hb. apply fpu_bind; [done|]. intros []; [done | apply fpu_ret]. Qed.

Lemma fpu_write_loop fuel bytes : keeps_fpu (write_loop fuel bytes).
Proof.
  revert bytes. induction fuel as [|fuel IH]; intros [|b bytes]; cbn [write_loop]; try apply fpu_ret; [done|].
  apply fpu_bind; [|intros [[|n]| |]; by apply IH || apply fpu_ret].
  intros s x s'. unfold write. destruct (sys_write _ _). by intros [= _ <-].
Qed.

Lemma exits error s e s' : exit_with patience error s = Some (e, s') -> e <> WorkerStopped.
Proof. by intros [-> _]%exit_with_spec. Qed.

(** A worker that stops has initialized them. *)
Lemma start_code_fpu code page_size signal_stack_size buffer stack data signal_stack (s s' : Worker W) :
  start_code patience code page_size signal_stack_size buffer stack data signal_stack s = Some (WorkerStopped, s') ->
  s'.(worker_fpu) = pxor_all 16 (ldmxcsr DEFAULT_MXCSR (fninit s.(worker_fpu))).
Proof.
  intros Hrun. unfold start_code in Hrun. cbv zeta in Hrun.
  apply bind_Some in Hrun as ([] & s1 & E1%fpu_kernel & Hrun). apply bind_Some in Hrun as ([] & s2 & E2%fpu_kernel & Hrun);
    cbn [negb] in Hrun; [|by apply exits in Hrun].
  unfold vm_flush_instruction_cache in Hrun. apply bind_Some in Hrun as ([] & s3 & E3%fpu_kernel & Hrun); cbn [negb] in Hrun; [|by apply exits in Hrun].
  apply bind_Some in Hrun as ([] & s4 & E4 & Hrun); cbn [negb] in Hrun; [|by apply exits in Hrun].
  apply fpu_and_then in E4; [|apply fpu_kernel | repeat apply fpu_and_then; apply fpu_kernel].
  apply bind_Some in Hrun as ([] & s5 & E5 & Hrun). injection E5 as <-.
  apply bind_Some in Hrun as (sent & s6 & E6%fpu_write_loop & Hrun). follow Hrun. subst s'. rewrite E6. cbn [worker_fpu].
  by rewrite E4, E3, E2, E1.
Qed.

Lemma child_main_fpu code page_size signal_stack_size data_reserve_base (s s' : Worker W) :
  child_main patience code page_size signal_stack_size data_reserve_base s = Some (WorkerStopped, s') ->
  s'.(worker_fpu) = pxor_all 16 (ldmxcsr DEFAULT_MXCSR (fninit s.(worker_fpu))).
Proof.
  intros Hrun. unfold child_main in Hrun. cbv zeta in Hrun.
  apply bind_Some in Hrun as ([] & s1 & E1%fpu_kernel & Hrun); cbn [negb] in Hrun; [|by apply exits in Hrun].
  apply bind_Some in Hrun as (buffer & s2 & E2%fpu_kernel & Hrun). apply bind_Some in Hrun as (stack & s3 & E3%fpu_kernel & Hrun).
  apply bind_Some in Hrun as (data & s4 & E4%fpu_kernel & Hrun). apply bind_Some in Hrun as (signal_stack & s5 & E5%fpu_kernel & Hrun).
  destruct (_ || _); [by apply exits in Hrun|].
  apply bind_Some in Hrun as ([] & s6 & E6 & Hrun); cbn [negb] in Hrun; [|by apply exits in Hrun].
  apply fpu_and_then in E6; [|apply fpu_kernel | repeat apply fpu_and_then; apply fpu_kernel].
  rewrite (start_code_fpu _ _ _ _ _ _ _ _ _ Hrun). by rewrite E6, E5, E4, E3, E2, E1.
Qed.
End keeps.

(** ** Properties *)

(** C19. The worker and its parent agree, and the memory is what the record says: a worker
    that stops for its tracer has sent exactly one ready record, without an error, whose
    addresses are those of a layout (the code ends where its guard page starts, the stack
    pointer is aligned and [SCRATCH_STACK_HEADROOM] below its guard page, the data is one
    page above its reservation).  At these addresses its memory holds the bytes of the code,
    to be read and executed and not written, with a page that cannot be accessed right behind
    the last one, and a stack and data that are zero, can be read and written, and have such
    a page on either side.  Its floating-point registers are in their initial state.  A
    worker that exits has sent an incomplete record or an error, so the parent never
    traces it. *)
Theorem child_main_reports {W} `{H : WorkerKernel W} patience code k signal_stack_size data_reserve_base view w fpu e s' :
  8 <= k <= 16 -> Z.of_nat (length code) < 2 ^ 62 ->
  0 <= data_reserve_base < 2 ^ 63 /\ data_reserve_base mod 2 ^ k = 0 ->
  0 <= signal_stack_size < 2 ^ 62 /\ signal_stack_size mod 2 ^ k = 0 -> memory_laws H (2 ^ k) view ->
  length fpu.(st_space) = 128%nat -> length fpu.(xmm_space) = 256%nat ->
  child_main patience code (2 ^ k) signal_stack_size data_reserve_base (Worker_of w [] fpu) = Some (e, s') ->
  let ready := ready_of_bytes s'.(written) in
  match e with
  | WorkerStopped =>
    length s'.(written) = sizeof_ready /\ ready_error ready = 0
    /\ laid_out code (2 ^ k) data_reserve_base ready
    /\ memory_laid_out code (2 ^ k) ready.(ready_code_base)
         (ready.(ready_initial_rsp) + SCRATCH_STACK_HEADROOM - SCRATCH_STACK_BYTES) ready.(ready_data_base) (view s'.(worker_world))
    /\ initialized s'.(worker_fpu)
  | WorkerExit _ => (length s'.(written) < sizeof_ready)%nat \/ ready_error ready <> 0
  end.
Proof.
  intros Hk Hc Hd Hg Hl Hst Hx Hrun.
  pose proof (child_main_reports_lemma _ _ _ _ _ _ Hk Hc Hd Hg Hl (Worker_of w [] fpu) _ _ eq_refl Hrun) as Hr.
  destruct e; [exact Hr|]. destruct Hr as (? & ? & ? & ?). do 4 (split; [done|]).
  rewrite (child_main_fpu _ _ _ _ _ _ _ Hrun). by apply initialized_fpu.
Qed.

(** C27. The recorded seed is the state before event 0: for the addresses and the registers a
    worker stops with, a snapshot of the registers the tracer loads into it, vectors,
    stack registers and control words included, is exactly the seed the result records. *)
Theorem worker_seed_is_loaded {W} `{H : WorkerKernel W} patience sysconf_page_size SIGSTKSZ request w fpu s'
    registers registers' fpu_registers' recorded :
  well_formed request.(request_seed) -> length fpu.(st_space) = 128%nat -> length fpu.(xmm_space) = 256%nat ->
  worker patience sysconf_page_size SIGSTKSZ request.(request_code) (Worker_of w [] fpu) = Some (WorkerStopped, s') ->
  seed_worker request (ready_of_bytes s'.(written)) registers s'.(worker_fpu) request.(request_seed)
    = (registers', fpu_registers', recorded) ->
  snapshot_fpu fpu_registers' (snapshot_registers registers' Registers_init) = recorded.
Proof.
  intros Hwf Hst Hx Hrun. apply seed_worker_loaded; [done|]. apply initialized_fresh. unfold worker in Hrun. cbv zeta in Hrun.
  rewrite (child_main_fpu _ _ _ _ _ _ _ Hrun). by apply initialized_fpu.
Qed.

(** *** A kernel that splits its writes

    It counts them, and keeps the log of its memory calls. *)

Definition example_worker : WorkerKernel (nat * MemoryLog) := {|
  sys_write _ w := (if (w.1 =? 0)%nat then WriteInterrupted else Wrote 10, (S w.1, w.2));
  ptrace_traceme w := (true, w);
  mmap size w := let '(a, log) := log_reserve (2 ^ 12) size w.2 in (a, (w.1, log));
  mmap_fixed address size w := let '(a, log) := log_reserve_at address size w.2 in (a, (w.1, log));
  mprotect address size protection w :=
    let '(ok, log) := log_protect address size (access_of protection) w.2 in (ok, (w.1, log));
  copy_code address bytes w := (w.1, log_copy address bytes w.2);
  clear_cache _ _ w := w;
  sigaltstack _ _ w := (true, w);
  sigaction _ w := (true, w);
  sigprocmask_unblock _ w := (true, w);
|}.

Definition example_view (w : nat * MemoryLog) : address_space := memory_of w.2.

Lemma example_worker_laws : memory_laws example_worker (2 ^ 12) example_view.
Proof.
  split; try done; unfold example_view.
  - intros size w _ _. cbn [mmap example_worker]. pose proof (log_reserve_spec (2 ^ 12) size w.2 ltac:(lia)) as Hl.
    destruct (log_reserve _ _ _). exact Hl.
  - intros address size w. cbn [mmap_fixed example_worker]. pose proof (log_reserve_at_spec address size w.2) as Hl.
    destruct (log_reserve_at _ _ _). exact Hl.
  - intros address size protection w _ _. cbn [mprotect example_worker].
    pose proof (log_protect_spec address size (access_of protection) w.2) as Hl. destruct (log_protect _ _ _ _). exact Hl.
  - intros address bytes w. apply log_copy_spec.
Qed.

Local Abbreviation example_worker_run :=
  (child_main (H := example_worker) 9 [0x90; 0xC3] (2 ^ 12) 0x2000 0x10000000 (Worker_of (0%nat, []) [] example_fpu)).

Lemma child_main_reports_witness :
  exists s, example_worker_run = Some (WorkerStopped, s)
    /\ memory_laid_out [0x90; 0xC3] (2 ^ 12) 0x11FFE 0x15000 0x10001000 (example_view s.(worker_world)).
Proof.
  destruct example_worker_run as [[[x|] s]|] eqn:E; [vm_compute in E; discriminate | | vm_compute in E; discriminate].
  exists s. split; [reflexivity|].
  assert (ready_of_bytes s.(written) = {| ready_code_base := 0x11FFE; ready_initial_rsp := 0x24F00; ready_data_base := 0x10001000; ready_error := 0 |}) as Hr.
  { apply (f_equal (option_map (fun x => ready_of_bytes x.2.(written)))) in E. vm_compute in E. apply (inj Some) in E. exact (eq_sym E). }
  pose proof (child_main_reports (H := example_worker) 9 [0x90; 0xC3] 12 0x2000 0x10000000 example_view (0%nat, []) example_fpu WorkerStopped s
    ltac:(lia) ltac:(cbn; lia) ltac:(split; [lia | reflexivity]) ltac:(split; [lia | reflexivity]) example_worker_laws eq_refl eq_refl E) as Hw.
  cbv zeta in Hw. rewrite Hr in Hw. destruct Hw as (_ & _ & _ & Hm & _). exact Hm.
Defined.

(** A request with vectors and stack registers, to a worker with other values in them. *)
Definition example_worker_request : PlatformRunRequest := {|
  request_code := [0x90; 0xC3]; request_seed := Registers_init; request_max_steps := 3;
  request_stop_offset := None; request_seed_data_pointers := true |}.

Definition used_fpu : user_fpregs_struct := {|
  cwd := 0x27F; swd := 0x3800; ftw := 0xFF; fp_mxcsr := 0x9FC0; mxcr_mask := 0xFFFF;
  st_space := replicate 128 7; xmm_space := replicate 256 9 |}.

Lemma worker_seed_is_loaded_witness :
  exists s registers' fpu' recorded,
    worker (H := example_worker) 9 0 8192 [0x90; 0xC3] (Worker_of (0%nat, []) [] used_fpu) = Some (WorkerStopped, s)
    /\ seed_worker example_worker_request (ready_of_bytes s.(written)) {| user_reg _ := 0; user_rest := [] |} s.(worker_fpu) example_worker_request.(request_seed)
       = (registers', fpu', recorded)
    /\ snapshot_fpu fpu' (snapshot_registers registers' Registers_init) = recorded.
Proof.
  destruct (worker (H := example_worker) 9 0 8192 [0x90; 0xC3] (Worker_of (0%nat, []) [] used_fpu)) as [[[x|] s]|] eqn:E;
    [vm_compute in E; discriminate | | vm_compute in E; discriminate].
  destruct (seed_worker example_worker_request (ready_of_bytes s.(written)) {| user_reg _ := 0; user_rest := [] |} s.(worker_fpu)
    example_worker_request.(request_seed)) as [[registers' fpu'] recorded] eqn:Es.
  exists s, registers', fpu', recorded. split; [reflexivity|]. split; [exact Es|].
  apply (worker_seed_is_loaded (H := example_worker) 9 0 8192 example_worker_request (0%nat, []) used_fpu s
    {| user_reg _ := 0; user_rest := [] |} registers' fpu' recorded Registers_init_well_formed);
    [reflexivity | reflexivity | exact E | exact Es].
Defined.
