(* ===== verification/Clipboard.v ===== *)
(** * Clipboard: copying a text through the terminal ([src/src/os.linux.cpp],
    [copy_to_clipboard]).

    The text is sent in base64 in an OSC 52 sequence; [base64_decode] is the decoder of
    RFC 4648 that a terminal applies. *)

From S2P Require Import Prelude Text.

Local Open Scope Z_scope.

(** ** The code *)

(** The lambda [encode], on a value below 64. *)
Definition encode (value : Z) : ascii :=
  if value <? 26 then chr (code "A" + value)
  else if value <? 52 then chr (code "a" + value - 26)
  else if value <? 62 then chr (code "0" + value - 52)
  else if value =? 62 then "+"%char
  else "/"%char.

(** One round of the loop: the four characters of the bytes from an offset on. *)
Definition encode_group (first : Z) (second third : option Z) : str :=
  let second_byte := default 0 second in
  let third_byte := default 0 third in
  [encode (Z.shiftr first 2);
   encode (Z.lor (Z.shiftl (Z.land first 0x3) 4) (Z.shiftr second_byte 4));
   match second with
   | Some _ => encode (Z.lor (Z.shiftl (Z.land second_byte 0xF) 2) (Z.shiftr third_byte 6))
   | None => "="%char
   end;
   match third with
   | Some _ => encode (Z.land third_byte 0x3F)
   | None => "="%char
   end].

(** The terminal: is it one, the texts it takes, and whether it flushes. *)
Class Terminal (W : Type) : Type := {
  isatty : W -> bool;
  put : str -> W -> bool * W;
  flush : W -> bool * W;
}.

Section copy.
Context {W : Type} `{Terminal W}.

(** The state is the world and what was sent. *)
Definition send (text : str) : StateM (W * str) bool := fun s =>
  let '(ok, w) := put text s.1 in Some (ok, (w, if (ok : bool) then s.2 ++ text else s.2)).

(** The loop over the text, three bytes at a time. *)
Fixpoint send_groups (text : str) : StateM (W * str) bool :=
  match text with
  | [] => mret true
  | a :: rest =>
    match rest with
    | [] => send (encode_group (code a) None None)
    | b :: rest =>
      match rest with
      | [] => send (encode_group (code a) (Some (code b)) None)
      | c :: rest =>
        ok ← send (encode_group (code a) (Some (code b)) (Some (code c)));
        if (ok : bool) then send_groups rest else mret false
      end
    end
  end.

Definition flush_output : StateM (W * str) bool := fun s =>
  let '(ok, w) := flush s.1 in Some (ok, (w, s.2)).

(** The sequence for a text that is not empty. *)
Definition send_sequence (text : str) : StateM (W * str) bool :=
  ok ← send (chr 0x1B :: ("]52;c;" : str));
  if negb (ok : bool) then mret false
  else
    ok ← send_groups text;
    if negb (ok : bool) then mret false
    else
      ok ← send [chr 7];
      if negb (ok : bool) then mret false else flush_output.

Definition copy_to_clipboard (text : str) : StateM (W * str) bool := fun s =>
  if bool_decide (text = []) || negb (isatty s.1) then Some (false, s) else send_sequence text s.
End copy.

(** ** Base64 *)

Definition decode_char (c : ascii) : option Z :=
  let z := code c in
  if (code "A" <=? z) && (z <=? code "Z") then Some (z - code "A")
  else if (code "a" <=? z) && (z <=? code "z") then Some (z - code "a" + 26)
  else if (code "0" <=? z) && (z <=? code "9") then Some (z - code "0" + 52)
  else if z =? code "+" then Some 62
  else if z =? code "/" then Some 63
  else None.

(** Groups of four characters; only the last may be padded. *)
Fixpoint base64_decode (text : str) : option str :=
  match text with
  | [] => Some []
  | a :: b :: c :: d :: rest =>
    x ← decode_char a; y ← decode_char b;
    if bool_decide (c = "="%char) then
      if bool_decide (d = "="%char) && bool_decide (rest = []) then Some [chr (x * 4 + y / 16)] else None
    else
      z ← decode_char c;
      if bool_decide (d = "="%char) then
        if bool_decide (rest = []) then Some [chr (x * 4 + y / 16); chr (y mod 16 * 16 + z / 4)] else None
      else
        t ← decode_char d;
        r ← base64_decode rest;
        Some (chr (x * 4 + y / 16) :: chr (y mod 16 * 16 + z / 4) :: chr (z mod 4 * 64 + t) :: r)
  | _ => None
  end.

(** ** Encoding and decoding *)

(** The text the loop sends. *)
Fixpoint base64 (text : str) : str :=
  match text with
  | [] => []
  | [a] => encode_group (code a) None None
  | [a; b] => encode_group (code a) (Some (code b)) None
  | a :: b :: c :: rest => encode_group (code a) (Some (code b)) (Some (code c)) ++ base64 rest
  end.

Lemma decode_encode v : in_width 6 v -> decode_char (encode v) = Some v /\ encode v <> "="%char.
Proof.
  intros Hv. change (in_width 6 v) with (0 <= v < 64) in Hv. rewrite <- (Z2Nat.id v) by lia.
  assert (Z.to_nat v < 64)%nat as Hk by lia. generalize dependent (Z.to_nat v). intros k Hk.
  do 64 (destruct k as [|k]; [split; [reflexivity | discriminate]|]). lia.
Qed.

(** The three bytes of a group, from the four values of its characters. *)
Lemma group_values a b c :
  in_width 8 a -> in_width 8 b -> in_width 8 c ->
  let x := Z.shiftr a 2 in
  let y := Z.lor (Z.shiftl (Z.land a 0x3) 4) (Z.shiftr b 4) in
  let z := Z.lor (Z.shiftl (Z.land b 0xF) 2) (Z.shiftr c 6) in
  let t := Z.land c 0x3F in
  in_width 6 x /\ in_width 6 y /\ in_width 6 z /\ in_width 6 t
  /\ x * 4 + y / 16 = a /\ y mod 16 * 16 + z / 4 = b /\ z mod 4 * 64 + t = c.
Proof.
  intros Ha Hb Hc. change (0 <= a < 256) in Ha. change (0 <= b < 256) in Hb. change (0 <= c < 256) in Hc. cbv zeta.
  change 0x3 with (Z.ones 2). change 0xF with (Z.ones 4). change 0x3F with (Z.ones 6).
  rewrite !Z.land_ones, !Z.shiftr_div_pow2 by lia.
  assert (in_width 4 (b / 2 ^ 4) /\ in_width 2 (c / 2 ^ 6)) as [Wb Wc].
  { split; (split; [apply Z.div_pos; lia | apply Z.div_lt_upper_bound; lia]). }
  rewrite !lor_shiftl by (done || lia). unfold in_width in *.
  change (2 ^ 2) with 4 in *. change (2 ^ 4) with 16 in *. change (2 ^ 6) with 64 in *.
  Z.to_euclidean_division_equations. repeat split; lia.
Qed.

(** Induction by groups of three. *)
Lemma by_groups (P : str -> Prop) :
  P [] -> (forall a, P [a]) -> (forall a b, P [a; b]) -> (forall a b c rest, P rest -> P (a :: b :: c :: rest)) ->
  forall text, P text.
Proof.
  intros H0 H1 H2 H3. fix IH 1. intros [|a [|b [|c rest]]]; [exact H0 | apply H1 | apply H2 | apply H3, IH].
Qed.

Lemma base64_decode_base64 text : base64_decode (base64 text) = Some text.
Proof.
  induction text as [|a|a b|a b c rest IH] using by_groups; [done | | |].
  - destruct (group_values (code a) 0 0) as (X & Y & _ & _ & Ea & _); [apply code_range | done | done|].
    cbn [base64 encode_group base64_decode]. cbv zeta. cbn [from_option id].
    cbv zeta in X, Y. destruct (decode_encode _ X) as [-> _]. destruct (decode_encode _ Y) as [-> _]. cbn [mbind option_bind].
    rewrite !bool_decide_true by done. cbn [andb]. by rewrite Ea, chr_code.
  - destruct (group_values (code a) (code b) 0) as (X & Y & Z0 & _ & Ea & Eb & _); [apply code_range | apply code_range | done|].
    cbn [base64 encode_group base64_decode]. cbv zeta. cbn [from_option id].
    cbv zeta in X, Y. destruct (decode_encode _ X) as [-> _]. destruct (decode_encode _ Y) as [-> _]. destruct (decode_encode _ Z0) as [-> Nz].
    cbn [mbind option_bind]. rewrite (bool_decide_false _ Nz), !bool_decide_true by done. by rewrite Ea, Eb, !chr_code.
  - destruct (group_values (code a) (code b) (code c)) as (X & Y & Z0 & T & Ea & Eb & Ec);
      [apply code_range | apply code_range | apply code_range|].
    cbn [base64 encode_group base64_decode app]. cbv zeta. cbn [from_option id].
    cbv zeta in X, Y. destruct (decode_encode _ X) as [-> _]. destruct (decode_encode _ Y) as [-> _].
    destruct (decode_encode _ Z0) as [-> Nz]. destruct (decode_encode _ T) as [-> Nt].
    cbn [mbind option_bind]. rewrite (bool_decide_false _ Nz), (bool_decide_false _ Nt), IH.
    cbn [mbind option_bind]. by rewrite Ea, Eb, Ec, !chr_code.
Qed.

Section sent.
Context {W : Type} `{Terminal W}.

Lemma send_true text (s s' : W * str) : send text s = Some (true, s') -> s'.2 = s.2 ++ text.
Proof. unfold send. destruct (put text s.1) as [[] w]; by intros [= <-]. Qed.

Lemma send_groups_true text (s s' : W * str) : send_groups text s = Some (true, s') -> s'.2 = s.2 ++ base64 text.
Proof.
  revert s s'. induction text as [|a|a b|a b c rest IH] using by_groups; intros s s' Hrun; cbn [send_groups base64] in Hrun |- *.
  - follow Hrun. subst s'. by rewrite app_nil_r.
  - by apply send_true.
  - by apply send_true.
  - apply bind_Some in Hrun as (ok & s1 & E & Hrun). destruct ok; [|follow Hrun].
    apply send_true in E. apply IH in Hrun. by rewrite Hrun, E, <- app_assoc.
Qed.
End sent.

(** ** Property *)

(** What the clipboard receives is the text: a copy that reports success was made on a
    terminal, of a text that is not empty, and sent exactly one OSC 52 sequence whose
    base64 payload decodes to the text. *)
Theorem copy_to_clipboard_correct {W} `{Terminal W} text (w : W) s' :
  copy_to_clipboard text (w, []) = Some (true, s') ->
  text <> [] /\ isatty w = true
  /\ exists payload, s'.2 = (chr 0x1B :: ("]52;c;" : str)) ++ payload ++ [chr 7] /\ base64_decode payload = Some text.
Proof.
  intros Hrun. unfold copy_to_clipboard in Hrun. cbn [fst] in Hrun.
  destruct (bool_decide (text = [])) eqn:E0; [done|]. apply bool_decide_eq_false in E0.
  destruct (isatty w) eqn:Et; [|done]. cbn [negb orb] in Hrun. split; [done|]. split; [done|].
  unfold send_sequence in Hrun. apply bind_Some in Hrun as (ok & s1 & E1 & Hrun).
  destruct ok; cbn [negb] in Hrun; [|follow Hrun]. apply send_true in E1.
  apply bind_Some in Hrun as (ok & s2 & E2 & Hrun). destruct ok; cbn [negb] in Hrun; [|follow Hrun]. apply send_groups_true in E2.
  apply bind_Some in Hrun as (ok & s3 & E3 & Hrun). destruct ok; cbn [negb] in Hrun; [|follow Hrun]. apply send_true in E3.
  unfold flush_output in Hrun. destruct (flush s3.1) as [ok w4]. injection Hrun as -> <-. cbn [snd].
  exists (base64 text). split; [|apply base64_decode_base64]. rewrite E3, E2, E1. cbn [snd app]. by rewrite <- app_assoc.
Qed.

Definition example_terminal : Terminal unit := {|
  isatty _ := true;
  put _ w := (true, w);
  flush w := (true, w);
|}.

Lemma copy_to_clipboard_correct_witness :
  exists s', copy_to_clipboard (H := example_terminal) "0x401000  nop" (tt, []) = Some (true, s')
    /\ exists payload, s'.2 = (chr 0x1B :: ("]52;c;" : str)) ++ payload ++ [chr 7]
                       /\ base64_decode payload = Some ("0x401000  nop" : str).
Proof.
  destruct (copy_to_clipboard (H := example_terminal) "0x401000  nop" (tt, [])) as [[[] s']|] eqn:E;
    [ | vm_compute in E; discriminate | vm_compute in E; discriminate].
  exists s'. split; [reflexivity|].
  destruct (copy_to_clipboard_correct (H := example_terminal) "0x401000  nop" tt s' E) as (_ & _ & Hp). exact Hp.
Defined.
