(* ===== verification/WindowsProcess.v ===== *)
(** * WindowsProcess: the search for an instrumentation parent process
    ([src/src/os.windows.cpp], [environment_present], [parent_process_is] and
    [instrumentation_detected]).

    The answer of [NtQuerySystemInformation] is a buffer of bytes that other code
    filled: every read of it is checked, and a read outside it has no result. *)

From S2P Require Import Prelude Text X87.

Local Open Scope Z_scope.

(** ** The system *)

(** The layout of [SYSTEM_PROCESS_INFORMATION] in the Windows headers, on x86-64. *)
Definition NEXT_ENTRY_OFFSET : Z := 0x0.          (* [NextEntryOffset], four bytes *)
Definition IMAGE_LENGTH_OFFSET : Z := 0x38.       (* [ImageName.Length], two bytes *)
Definition IMAGE_BUFFER_OFFSET : Z := 0x40.       (* [ImageName.Buffer], a pointer *)
Definition PROCESS_ID_OFFSET : Z := 0x50.         (* [UniqueProcessId], a handle *)

Definition PROCESS_QUERY_INITIAL_BYTES : Z := 0x10000.
Definition PROCESS_QUERY_MAX_BYTES : Z := 0x4000000.
Definition PROCESS_PARENT_ID_OFFSET : Z := PROCESS_ID_OFFSET + 8.
Definition PROCESS_RECORD_MIN_BYTES : Z := PROCESS_PARENT_ID_OFFSET + 8.

(** An [NTSTATUS] is a signed 32-bit integer. *)
Definition NT_SUCCESS (status : Z) : bool := 0 <=? status.
Definition STATUS_INFO_LENGTH_MISMATCH : Z := 0xC0000004 - 2 ^ 32.
Definition STATUS_BUFFER_TOO_SMALL : Z := 0xC0000023 - 2 ^ 32.

(** The calls of the instrumentation check: [GetEnvironmentVariableA] without a buffer
    and the last error after it, [GetModuleHandleA], whether ntdll exports the query,
    the query on a buffer of some size (status, length and the bytes it writes), the
    process number and the address of the buffer. *)
Class WindowsSystem (W : Type) : Type := {
  get_environment_variable : str -> W -> Z * Z;
  get_module_handle : str -> W -> bool;
  query_exported : bool;
  nt_query : Z -> W -> Z * Z * list Z;
  current_process_id : Z;
  buffer_address : Z -> Z;
}.

(** ** The walk through the buffer *)

(** A read of [n] bytes at an offset, inside the buffer. *)
Definition peek (buffer : list Z) (offset n : Z) : option Z :=
  if (0 <=? offset) && (offset + n <=? Z.of_nat (length buffer))
  then Some (le_value (bytes_at buffer (Z.to_nat offset) (Z.to_nat n))) else None.

(** The size of the next attempt of the query, when there is one. *)
Definition query_next_size (size process_buffer_length : Z) : option Z :=
  let next_size :=
    if size <? process_buffer_length then process_buffer_length
    else if size <=? PROCESS_QUERY_MAX_BYTES / 2 then size * 2
    else PROCESS_QUERY_MAX_BYTES in
  if (next_size <=? size) || (PROCESS_QUERY_MAX_BYTES <? next_size) then None else Some next_size.

(** The lambda [find_process]: the offset of the record of a process; no result when a
    read is outside the buffer. *)
Fixpoint find_process (fuel : nat) (buffer : list Z) (buffer_size target_process_id process_offset : Z)
    : option (option Z) :=
  if (buffer_size <? process_offset) || (buffer_size - process_offset <? PROCESS_RECORD_MIN_BYTES) then Some None
  else
    match fuel with
    | O => None
    | S fuel =>
      process_id ← peek buffer (process_offset + PROCESS_ID_OFFSET) 8;
      if u32 process_id =? target_process_id then Some (Some process_offset)
      else
        next_offset ← peek buffer (process_offset + NEXT_ENTRY_OFFSET) 4;
        if (next_offset =? 0) || (next_offset <? PROCESS_RECORD_MIN_BYTES) || (buffer_size - process_offset <? next_offset)
        then Some None
        else find_process fuel buffer buffer_size target_process_id (process_offset + next_offset)
    end.

(** The wide characters of a text, two bytes each. *)
Fixpoint wide_chars (bytes : list Z) : list Z :=
  match bytes with
  | low :: high :: bytes => low + 256 * high :: wide_chars bytes
  | _ => []
  end.

Definition is_separator (character : Z) : bool := (character =? code "\") || (character =? code "/").

(** [image_path.substr(find_last_of("\\/") + 1)], the whole path without a separator. *)
Fixpoint executable_name (image_path : list Z) : list Z :=
  match image_path with
  | [] => []
  | c :: rest => if existsb is_separator rest then executable_name rest
                 else if is_separator c then rest else image_path
  end.

(** [ascii_case_insensitive_equal] of a wide and a narrow text: a [char] is signed. *)
Definition wide_lowercase (character : Z) : Z :=
  if (code "A" <=? character) && (character <=? code "Z") then character + (code "a" - code "A") else character.

Definition char_value (character : ascii) : Z :=
  let z := code character in if z <? 128 then z else z - 256.

Fixpoint wide_equal (left_view : list Z) (right_view : str) : bool :=
  match left_view, right_view with
  | [], [] => true
  | l :: left_view, r :: right_view =>
    (wide_lowercase l =? char_value (lowercase r)) && wide_equal left_view right_view
  | _, _ => false
  end.

(** The image path of a parent process, as wide characters; the inner [None] is the
    answer false of the code. *)
Definition image_path (address : Z) (buffer : list Z) (buffer_size parent : Z) : option (option (list Z)) :=
  image_begin ← peek buffer (parent + IMAGE_BUFFER_OFFSET) 8;
  if image_begin =? 0 then Some None
  else
    image_length_bytes ← peek buffer (parent + IMAGE_LENGTH_OFFSET) 2;
    if negb (image_length_bytes mod 2 =? 0) then Some None
    else
      let buffer_begin := address in
      let buffer_end := u64 (buffer_begin + buffer_size) in
      if (image_begin <? buffer_begin) || (buffer_end <? image_begin) then Some None
      else if u64 (buffer_end - image_begin) <? image_length_bytes then Some None
      else
        let offset := image_begin - buffer_begin in
        if (0 <=? offset) && (offset + image_length_bytes <=? Z.of_nat (length buffer))
        then Some (Some (wide_chars (bytes_at buffer (Z.to_nat offset) (Z.to_nat image_length_bytes))))
        else None.

(** What [parent_process_is] does with a buffer the query filled. *)
Definition parent_in_buffer (address current : Z) (buffer : list Z) (process_buffer_length : Z) (executable_names : list str)
    : option bool :=
  let fuel := S (length buffer) in
  current_process ← find_process fuel buffer process_buffer_length current 0;
  match current_process with
  | None => Some false
  | Some current_process =>
    native_parent_id ← peek buffer (current_process + PROCESS_PARENT_ID_OFFSET) 8;
    parent ← find_process fuel buffer process_buffer_length (u32 native_parent_id) 0;
    match parent with
    | None => Some false
    | Some parent =>
      path ← image_path address buffer process_buffer_length parent;
      match path with
      | None => Some false
      | Some path => Some (existsb (wide_equal (executable_name path)) executable_names)
      end
    end
  end.

Section system.
Context {W : Type} `{WindowsSystem W}.

(** The loop that grows the buffer: what the query wrote and its length.  [fuel] bounds
    its rounds. *)
Fixpoint query_loop (fuel : nat) (size : Z) (w : W) : option (option (list Z * Z)) :=
  match fuel with
  | O => None
  | S fuel =>
    let '(status, process_buffer_length, bytes) := nt_query size w in
    let buffer := resize (Z.to_nat size) 0 bytes in
    if NT_SUCCESS status then
      if size <? process_buffer_length then Some None else Some (Some (buffer, process_buffer_length))
    else if negb (status =? STATUS_INFO_LENGTH_MISMATCH) && negb (status =? STATUS_BUFFER_TOO_SMALL) then Some None
    else
      match query_next_size size process_buffer_length with
      | None => Some None
      | Some next_size => query_loop fuel next_size w
      end
  end.

Definition parent_process_is (fuel : nat) (executable_names : list str) (w : W) : option bool :=
  if negb query_exported then Some false
  else
    reply ← query_loop fuel PROCESS_QUERY_INITIAL_BYTES w;
    match reply with
    | None => Some false
    | Some (buffer, process_buffer_length) =>
      parent_in_buffer (buffer_address (Z.of_nat (length buffer))) current_process_id buffer process_buffer_length
        executable_names
    end.

(** A variable is present when a length is reported, or when none is and no error was
    set: it is empty. *)
Definition environment_present (name : str) (w : W) : bool :=
  match name with
  | [] => false
  | _ => let '(required, last_error) := get_environment_variable name w in
         negb (required =? 0) || (last_error =? 0)
  end.

(** The disjunction stops at the first check that holds. *)
Definition or_else (a b : option bool) : option bool :=
  x ← a; if (x : bool) then Some true else b.

Definition instrumentation_detected (fuel : nat) (w : W) : option bool :=
  or_else (Some (environment_present "SDE_COMMAND_LINE" w))
  (or_else (parent_process_is fuel ["sde.exe" : str] w)
  (or_else (Some (get_module_handle "sde.dll" w))
  (or_else (Some (environment_present "PIN_COMMAND_LINE" w))
  (or_else (parent_process_is fuel ["pin.exe" : str; "pinbin.exe" : str] w)
    (Some (get_module_handle "pinvm.dll" w)))))).
End system.

(** ** Reads stay inside the buffer *)

Lemma peek_inside buffer offset n :
  0 <= offset -> offset + n <= Z.of_nat (length buffer) -> exists v, peek buffer offset n = Some v.
Proof.
  intros H0 Hn. unfold peek. eexists.
  by rewrite (proj2 (Z.leb_le _ _) H0), (proj2 (Z.leb_le _ _) Hn).
Qed.

Section walk.
Context (buffer : list Z) (buffer_size : Z).
Hypothesis Hsize : 0 <= buffer_size <= Z.of_nat (length buffer).

(** The walk ends inside the buffer: each record is at least
    [PROCESS_RECORD_MIN_BYTES] after the one before. *)
Lemma find_process_safe fuel target offset :
  0 <= offset -> buffer_size - offset <= PROCESS_RECORD_MIN_BYTES * Z.of_nat fuel ->
  exists found, find_process fuel buffer buffer_size target offset = Some found /\
    forall parent, found = Some parent -> 0 <= parent /\ parent + PROCESS_RECORD_MIN_BYTES <= buffer_size.
Proof.
  unfold PROCESS_RECORD_MIN_BYTES, PROCESS_PARENT_ID_OFFSET, PROCESS_ID_OFFSET.
  revert offset. induction fuel as [|fuel IH]; intros offset H0 Hf; cbn [find_process];
    unfold PROCESS_RECORD_MIN_BYTES, PROCESS_PARENT_ID_OFFSET, PROCESS_ID_OFFSET, NEXT_ENTRY_OFFSET in *.
  - destruct (Z.ltb_spec (buffer_size - offset) (0x50 + 8 + 8)); [|lia]. rewrite orb_true_r. by exists None.
  - destruct (Z.ltb_spec buffer_size offset); cbn [orb]; [by exists None|].
    destruct (Z.ltb_spec (buffer_size - offset) (0x50 + 8 + 8)); [by exists None|].
    destruct (peek_inside buffer (offset + 0x50) 8) as [id ->]; [lia|lia|]. cbn [mbind option_bind].
    destruct (u32 id =? target).
    + exists (Some offset). split; [done|]. intros ? [= <-]. lia.
    + destruct (peek_inside buffer (offset + 0) 4) as [next ->]; [lia|lia|]. cbn [mbind option_bind].
      destruct (Z.eqb_spec next 0); cbn [orb]; [by exists None|].
      destruct (Z.ltb_spec next (0x50 + 8 + 8)); cbn [orb]; [by exists None|].
      destruct (Z.ltb_spec (buffer_size - offset) next); cbn [orb]; [by exists None|].
      apply IH; lia.
Qed.

Lemma image_path_safe address parent :
  0 <= address -> address + buffer_size < 2 ^ 64 ->
  0 <= parent -> parent + PROCESS_RECORD_MIN_BYTES <= buffer_size ->
  is_Some (image_path address buffer buffer_size parent).
Proof.
  unfold PROCESS_RECORD_MIN_BYTES, PROCESS_PARENT_ID_OFFSET, PROCESS_ID_OFFSET. intros Ha Hw Hp Hfit.
  unfold image_path, IMAGE_BUFFER_OFFSET, IMAGE_LENGTH_OFFSET.
  destruct (peek_inside buffer (parent + 0x40) 8) as [image ->]; [lia|lia|]. cbn [mbind option_bind].
  destruct (image =? 0); [done|].
  destruct (peek_inside buffer (parent + 0x38) 2) as [bytes ->]; [lia|lia|]. cbn [mbind option_bind].
  destruct (bytes mod 2 =? 0); cbn [negb]; [|done]. cbv zeta.
  rewrite (wrap_small 64 (address + buffer_size)) by (unfold in_width; lia).
  destruct (Z.ltb_spec image address); cbn [orb]; [done|].
  destruct (Z.ltb_spec (address + buffer_size) image); [done|].
  rewrite (wrap_small 64) by (unfold in_width; lia).
  destruct (Z.ltb_spec (address + buffer_size - image) bytes); [done|].
  rewrite (proj2 (Z.leb_le _ _)), (proj2 (Z.leb_le _ _)) by lia. done.
Qed.

Lemma parent_in_buffer_safe address current names :
  0 <= address -> address + buffer_size < 2 ^ 64 ->
  is_Some (parent_in_buffer address current buffer buffer_size names).
Proof.
  intros Ha Hw. unfold parent_in_buffer.
  assert (forall target, exists found, find_process (S (length buffer)) buffer buffer_size target 0 = Some found /\
    forall parent, found = Some parent -> 0 <= parent /\ parent + PROCESS_RECORD_MIN_BYTES <= buffer_size) as Hfind.
  { intros target. apply find_process_safe; [lia|].
    unfold PROCESS_RECORD_MIN_BYTES, PROCESS_PARENT_ID_OFFSET, PROCESS_ID_OFFSET. lia. }
  destruct (Hfind current) as ([current_process|] & -> & Hc); cbn [mbind option_bind]; [|done].
  destruct (Hc _ eq_refl) as [Hc0 Hc1].
  destruct (peek_inside buffer (current_process + PROCESS_PARENT_ID_OFFSET) 8) as [id ->];
    [unfold PROCESS_PARENT_ID_OFFSET, PROCESS_ID_OFFSET; lia | unfold PROCESS_RECORD_MIN_BYTES in Hc1; lia|].
  cbn [mbind option_bind]. destruct (Hfind (u32 id)) as ([parent|] & -> & Hp); cbn [mbind option_bind]; [|done].
  destruct (Hp _ eq_refl) as [Hp0 Hp1].
  destruct (image_path_safe address parent Ha Hw Hp0 Hp1) as [path ->]. cbn [mbind option_bind]. by destruct path.
Qed.
End walk.

(** ** Nothing else of the buffer is read *)

Lemma bytes_at_take buffer m o k : (o + k <= m)%nat -> bytes_at (take m buffer) o k = bytes_at buffer o k.
Proof. intros Hk. unfold bytes_at. rewrite skipn_firstn_comm, take_take. f_equal. lia. Qed.

Lemma peek_take buffer n offset k : 0 <= n <= Z.of_nat (length buffer) -> offset + k <= n -> 0 <= k ->
  peek (take (Z.to_nat n) buffer) offset k = peek buffer offset k.
Proof.
  intros Hn Hfit Hk. unfold peek. rewrite length_take. destruct (Z.leb_spec 0 offset) as [H0|]; cbn [andb]; [|done].
  rewrite (proj2 (Z.leb_le (offset + k) (Z.of_nat (Nat.min _ _)))), (proj2 (Z.leb_le (offset + k) (Z.of_nat (length buffer)))) by lia.
  by rewrite bytes_at_take by lia.
Qed.

Lemma find_process_more fuel k buffer buffer_size target offset found :
  find_process fuel buffer buffer_size target offset = Some found ->
  find_process (fuel + k) buffer buffer_size target offset = Some found.
Proof.
  revert offset. induction fuel as [|fuel IH]; intros offset; cbn [find_process Nat.add].
  - destruct (_ || _) eqn:E; [|done]. destruct k; cbn [find_process]; by rewrite E.
  - destruct (_ || _); [done|]. destruct (peek buffer (offset + PROCESS_ID_OFFSET) 8); [|done]. cbn [mbind option_bind].
    destruct (_ =? target); [done|]. destruct (peek buffer (offset + NEXT_ENTRY_OFFSET) 4); [|done]. cbn [mbind option_bind].
    destruct (_ || _); [done | apply IH].
Qed.

Section reported.
Context (buffer : list Z) (n : Z).
Hypothesis Hn : 0 <= n <= Z.of_nat (length buffer).

Abbreviation reported := (take (Z.to_nat n) buffer).

Lemma find_process_take fuel target offset :
  0 <= offset -> find_process fuel reported n target offset = find_process fuel buffer n target offset.
Proof.
  revert offset. induction fuel as [|fuel IH]; intros offset H0; cbn [find_process]; [done|].
  destruct (Z.ltb_spec n offset); cbn [orb]; [done|]. destruct (Z.ltb_spec (n - offset) PROCESS_RECORD_MIN_BYTES); [done|].
  unfold PROCESS_RECORD_MIN_BYTES, PROCESS_PARENT_ID_OFFSET, PROCESS_ID_OFFSET, NEXT_ENTRY_OFFSET in *.
  rewrite !peek_take by lia. destruct (peek buffer (offset + 0x50) 8); [|done]. cbn [mbind option_bind].
  destruct (_ =? target); [done|]. destruct (peek buffer (offset + 0) 4) as [next|] eqn:E; [|done]. cbn [mbind option_bind].
  destruct (Z.eqb_spec next 0); cbn [orb]; [done|]. destruct (Z.ltb_spec next (0x50 + 8 + 8)); cbn [orb]; [done|].
  destruct (n - offset <? next); [done|]. apply IH. lia.
Qed.

Lemma find_process_reported target :
  find_process (S (length reported)) reported n target 0 = find_process (S (length buffer)) buffer n target 0.
Proof.
  assert (0 <= n <= Z.of_nat (length reported)) as Hr by (rewrite length_take; lia).
  destruct (find_process_safe reported n Hr (S (length reported)) target 0) as (found & E & _);
    [lia | unfold PROCESS_RECORD_MIN_BYTES, PROCESS_PARENT_ID_OFFSET, PROCESS_ID_OFFSET; lia|].
  rewrite E, <- find_process_take by lia.
  replace (S (length buffer)) with (S (length reported) + (length buffer - length reported))%nat by (rewrite length_take; lia).
  symmetry. by apply find_process_more.
Qed.

Lemma image_path_reported address parent :
  0 <= address -> address + n < 2 ^ 64 -> 0 <= parent -> parent + PROCESS_RECORD_MIN_BYTES <= n ->
  image_path address reported n parent = image_path address buffer n parent.
Proof.
  unfold PROCESS_RECORD_MIN_BYTES, PROCESS_PARENT_ID_OFFSET, PROCESS_ID_OFFSET. intros Ha Hw Hp Hfit.
  unfold image_path, IMAGE_BUFFER_OFFSET, IMAGE_LENGTH_OFFSET. rewrite !peek_take by lia.
  destruct (peek buffer (parent + 0x40) 8) as [image|]; [|done]. cbn [mbind option_bind]. destruct (image =? 0); [done|].
  destruct (peek buffer (parent + 0x38) 2) as [bytes|] eqn:E; [|done]. cbn [mbind option_bind]. destruct (negb _); [done|]. cbv zeta.
  rewrite (wrap_small 64 (address + n)) by (unfold in_width; lia).
  destruct (Z.ltb_spec image address); cbn [orb]; [done|]. destruct (Z.ltb_spec (address + n) image); [done|].
  rewrite (wrap_small 64) by (unfold in_width; lia). destruct (Z.ltb_spec (address + n - image) bytes); [done|].
  rewrite length_take, (proj2 (Z.leb_le 0 _)), !(proj2 (Z.leb_le (image - address + bytes) _)) by lia. cbn [andb].
  destruct (Z.le_gt_cases 0 bytes); [by rewrite bytes_at_take by lia|]. by replace (Z.to_nat bytes) with 0%nat by lia.
Qed.

Lemma parent_in_buffer_reported address current names :
  0 <= address -> address + n < 2 ^ 64 ->
  parent_in_buffer address current reported n names = parent_in_buffer address current buffer n names.
Proof.
  intros Ha Hw. unfold parent_in_buffer. cbv zeta. rewrite find_process_reported.
  assert (forall target, exists found, find_process (S (length buffer)) buffer n target 0 = Some found /\
    forall parent, found = Some parent -> 0 <= parent /\ parent + PROCESS_RECORD_MIN_BYTES <= n) as Hfind.
  { intros target. apply find_process_safe; [done | lia|].
    unfold PROCESS_RECORD_MIN_BYTES, PROCESS_PARENT_ID_OFFSET, PROCESS_ID_OFFSET. lia. }
  destruct (Hfind current) as ([current_process|] & -> & Hc); cbn [mbind option_bind]; [|done]. destruct (Hc _ eq_refl) as [Hc0 Hc1].
  rewrite peek_take by (unfold PROCESS_RECORD_MIN_BYTES, PROCESS_PARENT_ID_OFFSET, PROCESS_ID_OFFSET in *; lia).
  destruct (peek buffer _ 8) as [id|]; [|done]. cbn [mbind option_bind]. rewrite find_process_reported.
  destruct (Hfind (u32 id)) as ([parent|] & -> & Hp); cbn [mbind option_bind]; [|done]. destruct (Hp _ eq_refl) as [Hp0 Hp1].
  by rewrite image_path_reported.
Qed.
End reported.

(** ** The query loop ends *)

Lemma query_next_size_grows size length next :
  query_next_size size length = Some next -> size < next <= PROCESS_QUERY_MAX_BYTES.
Proof.
  unfold query_next_size. cbv zeta.
  match goal with |- (if (?n <=? _) || _ then _ else _) = _ -> _ => set (candidate := n) end.
  destruct (Z.leb_spec candidate size); cbn [orb]; [done|].
  destruct (Z.ltb_spec PROCESS_QUERY_MAX_BYTES candidate); [done|]. intros [= <-]. lia.
Qed.

Section loop.
Context {W : Type} `{WindowsSystem W}.

Lemma query_loop_returns fuel size w :
  0 <= size <= PROCESS_QUERY_MAX_BYTES -> (Z.to_nat (PROCESS_QUERY_MAX_BYTES - size) < fuel)%nat ->
  (forall size w, 0 <= (nt_query size w).1.2) ->
  exists reply, query_loop fuel size w = Some reply /\
    forall buffer n, reply = Some (buffer, n) ->
      0 <= n <= Z.of_nat (length buffer) /\ Z.of_nat (length buffer) <= PROCESS_QUERY_MAX_BYTES.
Proof.
  intros Hsize Hfuel Hlen. revert size Hsize Hfuel. induction fuel as [|fuel IH]; intros size Hsize Hfuel; [lia|].
  cbn [query_loop]. pose proof (Hlen size w) as Hl. destruct (nt_query size w) as [[status n] bytes]. cbn [fst snd] in Hl.
  destruct (NT_SUCCESS status).
  - destruct (Z.ltb_spec size n); [by exists None|]. eexists. split; [done|]. intros ? ? [= <- <-].
    rewrite length_resize. lia.
  - destruct (negb _ && negb _); [by exists None|]. destruct (query_next_size size n) as [next|] eqn:E; [|by exists None].
    apply query_next_size_grows in E. apply IH; lia.
Qed.
End loop.

(** ** Systems that report the same *)

Section same.
Context {W : Type}.

(** Two systems that differ only in what lies behind the length their queries report. *)
Record reports_same (H H' : WindowsSystem W) : Prop := {
  same_exported : query_exported (WindowsSystem := H') = query_exported (WindowsSystem := H);
  same_process : current_process_id (WindowsSystem := H') = current_process_id (WindowsSystem := H);
  same_address : forall size, buffer_address (WindowsSystem := H') size = buffer_address (WindowsSystem := H) size;
  same_reply : forall size w, (nt_query (WindowsSystem := H') size w).1 = (nt_query (WindowsSystem := H) size w).1;
  same_bytes : forall size w, let n := Z.to_nat (nt_query (WindowsSystem := H) size w).1.2 in
    take n (resize (Z.to_nat size) 0 (nt_query (WindowsSystem := H') size w).2)
    = take n (resize (Z.to_nat size) 0 (nt_query (WindowsSystem := H) size w).2);
}.

Lemma query_loop_same (H H' : WindowsSystem W) fuel size w : reports_same H H' ->
  match query_loop (H := H) fuel size w, query_loop (H := H') fuel size w with
  | Some (Some (buffer, n)), Some (Some (buffer', n')) =>
    n' = n /\ length buffer' = length buffer /\ take (Z.to_nat n) buffer' = take (Z.to_nat n) buffer
  | Some None, Some None | None, None => True
  | _, _ => False
  end.
Proof.
  intros Hsame. revert size. induction fuel as [|fuel IH]; intros size; cbn [query_loop]; [done|].
  pose proof (same_reply _ _ Hsame size w) as Hr. pose proof (same_bytes _ _ Hsame size w) as Hb. cbv zeta in Hb.
  destruct (nt_query (WindowsSystem := H) size w) as [[status n] bytes], (nt_query (WindowsSystem := H') size w) as [[status' n'] bytes'].
  cbn [fst snd] in Hr, Hb. injection Hr as -> ->. destruct (NT_SUCCESS status).
  - destruct (size <? n); [done|]. by rewrite !length_resize.
  - destruct (negb _ && negb _); [done|]. destruct (query_next_size size n); [apply IH | done].
Qed.
End same.

(** ** Property *)

(** C37. The parent-process check always ends and depends on nothing but what the query
    reports: whatever bytes, lengths and statuses it answers, no record, name or pointer
    makes the walk read outside the buffer, the loop that grows the buffer stops at its
    limit, and a system that differs only in the bytes of the buffer behind the reported
    length gets the same answer. *)
Theorem parent_process_is_safe {W} {H : WindowsSystem W} fuel names w :
  (Z.to_nat (PROCESS_QUERY_MAX_BYTES - PROCESS_QUERY_INITIAL_BYTES) < fuel)%nat ->
  (forall size w, 0 <= (nt_query size w).1.2) ->
  (forall size, 0 <= size <= PROCESS_QUERY_MAX_BYTES -> 0 <= buffer_address size /\ buffer_address size + size < 2 ^ 64) ->
  is_Some (parent_process_is fuel names w)
  /\ forall H', reports_same H H' -> parent_process_is (H := H') fuel names w = parent_process_is (H := H) fuel names w.
Proof.
  intros Hfuel Hlen Haddr.
  destruct (query_loop_returns fuel PROCESS_QUERY_INITIAL_BYTES w) as (reply & Hloop & Hreply);
    [unfold PROCESS_QUERY_INITIAL_BYTES, PROCESS_QUERY_MAX_BYTES; lia | done | done|].
  assert (forall buffer n, reply = Some (buffer, n) -> 0 <= n <= Z.of_nat (length buffer)
    /\ 0 <= buffer_address (Z.of_nat (length buffer)) /\ buffer_address (Z.of_nat (length buffer)) + n < 2 ^ 64) as Hfits.
  { intros buffer n Hr. destruct (Hreply _ _ Hr) as [Hn Hmax]. destruct (Haddr (Z.of_nat (length buffer)) ltac:(lia)). lia. }
  split.
  - unfold parent_process_is. destruct query_exported; cbn [negb]; [|done]. rewrite Hloop. cbn [mbind option_bind].
    destruct reply as [[buffer n]|]; [|done]. destruct (Hfits _ _ eq_refl) as (Hn & Ha & Hw). by apply parent_in_buffer_safe.
  - intros H' Hsame. unfold parent_process_is. rewrite (same_exported _ _ Hsame). destruct query_exported; cbn [negb]; [|done].
    pose proof (query_loop_same H H' fuel PROCESS_QUERY_INITIAL_BYTES w Hsame) as Hq. rewrite Hloop in Hq |- *.
    destruct reply as [[buffer n]|], (query_loop (H := H') _ _ w) as [[[buffer' n']|]|]; try done.
    destruct Hq as (-> & Hl & Ht). destruct (Hfits _ _ eq_refl) as (Hn & Ha & Hw). cbn [mbind option_bind].
    rewrite (same_process _ _ Hsame), (same_address _ _ Hsame), Hl.
    rewrite <- (parent_in_buffer_reported buffer n) by done. rewrite <- (parent_in_buffer_reported buffer' n) by (rewrite ?Hl; done).
    by rewrite Ht.
Qed.

(** *** A system with two processes: this one, whose parent is [C:\tools\PIN.EXE] *)

Definition example_record (next image_length image id parent : Z) : list Z :=
  le_bytes 4 next ++ replicate 52 0 ++ le_bytes 2 image_length ++ replicate 6 0 ++ le_bytes 8 image ++
  replicate 8 0 ++ le_bytes 8 id ++ le_bytes 8 parent.

Definition example_path : str := "C:\tools\PIN.EXE".

Definition example_buffer : list Z :=
  example_record 0x60 0 0 7 3 ++
  example_record 0 (2 * Z.of_nat (length example_path)) (0x500000 + 0xC0) 3 1 ++
  concat (map (fun c => [code c; 0]) example_path).

Definition example_system : WindowsSystem unit := {|
  get_environment_variable _ _ := (0, 203);
  get_module_handle _ _ := false;
  query_exported := true;
  nt_query size _ := if size <? 0x20000 then (STATUS_INFO_LENGTH_MISMATCH, 0x20000, [])
                     else (0, Z.of_nat (length example_buffer), example_buffer);
  current_process_id := 7;
  buffer_address _ := 0x500000;
|}.

Example example_parent :
  parent_in_buffer 0x500000 7 example_buffer (Z.of_nat (length example_buffer)) ["pin.exe" : str] = Some true
  /\ parent_in_buffer 0x500000 7 example_buffer (Z.of_nat (length example_buffer)) ["sde.exe" : str] = Some false.
Proof. vm_compute. split; reflexivity. Qed.

(** The same system on a buffer with other bytes behind the list. *)
Definition dirty_system : WindowsSystem unit := {|
  get_environment_variable _ _ := (0, 203);
  get_module_handle _ _ := false;
  query_exported := true;
  nt_query size _ := if size <? 0x20000 then (STATUS_INFO_LENGTH_MISMATCH, 0x20000, [])
                     else (0, Z.of_nat (length example_buffer), example_buffer ++ [0xAA; 0xBB]);
  current_process_id := 7;
  buffer_address _ := 0x500000;
|}.

Lemma dirty_reports_same : reports_same example_system dirty_system.
Proof.
  split; try done; intros size w; cbn [nt_query example_system dirty_system]; destruct (Z.ltb_spec size 0x20000); try done.
  cbn [fst snd]. cbv zeta. rewrite Nat2Z.id. change (length example_buffer) with 224%nat.
  rewrite !take_resize_le by lia. rewrite !resize_le by (change (length example_buffer) with 224%nat || rewrite length_app; cbn; lia).
  by rewrite take_app_le by (change (length example_buffer) with 224%nat; lia).
Qed.

Lemma parent_process_is_safe_witness :
  is_Some (parent_process_is (H := example_system) (S (Z.to_nat PROCESS_QUERY_MAX_BYTES)) ["pin.exe" : str] tt)
  /\ parent_process_is (H := dirty_system) (S (Z.to_nat PROCESS_QUERY_MAX_BYTES)) ["pin.exe" : str] tt
     = parent_process_is (H := example_system) (S (Z.to_nat PROCESS_QUERY_MAX_BYTES)) ["pin.exe" : str] tt.
Proof.
  destruct (parent_process_is_safe (H := example_system) (S (Z.to_nat PROCESS_QUERY_MAX_BYTES)) ["pin.exe" : str] tt) as [Hsome Hsame].
  - unfold PROCESS_QUERY_MAX_BYTES, PROCESS_QUERY_INITIAL_BYTES. lia.
  - intros size w. cbn [nt_query example_system]. destruct (size <? 0x20000); cbn [fst snd]; lia.
  - intros size Hsize. cbn [buffer_address example_system]. unfold PROCESS_QUERY_MAX_BYTES in Hsize. lia.
  - exact (conj Hsome (Hsame dirty_system dirty_reports_same)).
Defined.
