(* ===== verification/WindowsClipboard.v ===== *)
(** * WindowsClipboard: the clipboard and the environment on Windows
    ([src/src/os.windows.cpp], [copy_to_clipboard] and [environment_string]).

    A block of global memory belongs to the program until it is freed or the clipboard
    takes it; a write outside a block has no result. *)

From S2P Require Import Prelude Text.

Local Open Scope Z_scope.

(** ** The system *)

Class ClipboardSystem (W : Type) : Type := {
  OpenClipboard : W -> bool * W;
  EmptyClipboard : W -> bool * W;
  CloseClipboard : W -> bool * W;
  GlobalAlloc : Z -> W -> option Z * W;            (* the handle of a new block *)
  GlobalLock : Z -> W -> bool * W;                 (* is there a buffer? *)
  SetClipboardData : Z -> W -> bool * W;
}.

Inductive Call : Type :=
| CallOpen (ok : bool)
| CallClose (ok : bool)
| CallAlloc (handle size : Z)
| CallWrite (handle : Z) (bytes : str)
| CallUnlock (handle : Z)
| CallSet (handle : Z) (ok : bool)
| CallFree (handle : Z).

Definition State (W : Type) : Type := (W * list Call)%type.

Section clipboard.
Context {W : Type} `{ClipboardSystem W}.

Abbreviation M := (StateM (State W)).

(** A call of the system, and what is recorded of it. *)
Definition sys {A} (f : W -> A * W) (record : A -> list Call) : M A := fun s =>
  let '(x, w) := f s.1 in Some (x, (w, s.2 ++ record x)).

Definition note (call : Call) : M unit := fun s => Some (tt, (s.1, s.2 ++ [call])).

(** [std::ranges::copy(text, buffer)] and the terminator, into a block of [size] bytes. *)
Definition write_block (handle size : Z) (text : str) : M unit := fun s =>
  let bytes := text ++ [chr 0] in
  if Z.of_nat (length bytes) <=? size then note (CallWrite handle bytes) s else None.

(** The text in a block that the clipboard gets. *)
Definition set_text (text : str) : M bool :=
  let size := Z.of_nat (length text) + 1 in
  handle ← sys (GlobalAlloc size) (fun h => match h with Some h => [CallAlloc h size] | None => [] end);
  match handle with
  | None => mret false
  | Some handle =>
    buffer ← sys (GlobalLock handle) (fun _ => []);
    if (buffer : bool) then
      _ ← write_block handle size text;
      _ ← note (CallUnlock handle);
      copied ← sys (SetClipboardData handle) (fun ok => [CallSet handle ok]);
      _ ← (if (copied : bool) then mret tt else note (CallFree handle));
      mret copied
    else
      _ ← note (CallFree handle);
      mret false
  end.

Definition copy_to_clipboard (text : str) : M bool :=
  if bool_decide (text = []) then mret false
  else
    opened ← sys OpenClipboard (fun ok => [CallOpen ok]);
    if negb (opened : bool) then mret false
    else
      emptied ← sys EmptyClipboard (fun _ => []);
      if negb (emptied : bool) then
        _ ← sys CloseClipboard (fun ok => [CallClose ok]);
        mret false
      else
        copied ← set_text text;
        closed ← sys CloseClipboard (fun ok => [CallClose ok]);
        mret (closed && copied).
End clipboard.

(** ** The environment *)

(** [GetEnvironmentVariableA]: the number it returns for a capacity, and the characters it
    puts in the buffer. *)
Class Environment (W : Type) : Type := {
  GetEnvironmentVariable : str -> Z -> W -> (Z * str) * W;
}.

Section environment.
Context {W : Type} `{Environment W}.

(** The loop, with the capacity of the buffer. *)
Fixpoint environment_loop (fuel : nat) (name : str) (capacity : Z) : StateM W str :=
  match fuel with
  | O => fun _ => None
  | S fuel => fun w =>
    let '((written, value), w) := GetEnvironmentVariable name capacity w in
    if written =? 0 then Some ([], w)
    else if written <? capacity then Some (take (Z.to_nat written) value, w)
    else environment_loop fuel name written w
  end.

Definition environment_string (fuel : nat) (name : str) : StateM W str := fun w =>
  if bool_decide (name = []) then Some ([], w)
  else
    let '((required, _), w) := GetEnvironmentVariable name 0 w in
    if required =? 0 then Some ([], w) else environment_loop fuel name required w.
End environment.

(** ** What the calls do *)

(** The calls in brackets: what happens between a successful open and its close. *)
Inductive block_calls (text : str) : list Call -> bool -> Prop :=
| block_none : block_calls text [] false
| block_unlocked h size : block_calls text [CallAlloc h size; CallFree h] false
| block_refused h size :
  block_calls text [CallAlloc h size; CallWrite h (text ++ [chr 0]); CallUnlock h; CallSet h false; CallFree h] false
| block_taken h size :
  block_calls text [CallAlloc h size; CallWrite h (text ++ [chr 0]); CallUnlock h; CallSet h true] true.

Section proofs.
Context {W : Type} `{ClipboardSystem W}.

Lemma sys_Some {A} (f : W -> A * W) record (s : State W) : sys f record s = Some ((f s.1).1, ((f s.1).2, s.2 ++ record (f s.1).1)).
Proof. unfold sys. by destruct (f s.1). Qed.

Lemma set_text_calls text w log :
  exists copied w' calls, set_text text (w, log) = Some (copied, (w', log ++ calls)) /\ block_calls text calls copied.
Proof.
  unfold set_text. cbv zeta. destruct (GlobalAlloc (Z.of_nat (length text) + 1) w) as [[h|] w1] eqn:Ea.
  2: { exists false, w1, []. split; [|constructor]. apply bind_Some. rewrite sys_Some. cbn [fst snd]. rewrite Ea.
       eexists _, _. by split. }
  destruct (GlobalLock h w1) as [[] w2] eqn:El.
  - destruct (SetClipboardData h w2) as [copied w3] eqn:Es.
    exists copied, w3, (CallAlloc h (Z.of_nat (length text) + 1) :: CallWrite h (text ++ [chr 0]) :: CallUnlock h :: CallSet h copied
                          :: if copied then [] else [CallFree h]). split; [|destruct copied; constructor].
    apply bind_Some. rewrite sys_Some. cbn [fst snd]. rewrite Ea. eexists _, _. split; [reflexivity|].
    apply bind_Some. rewrite sys_Some. cbn [fst snd]. rewrite El. eexists _, _. split; [reflexivity|]. cbn [fst snd].
    apply bind_Some. unfold write_block. cbv zeta. rewrite length_app. cbn [length]. destruct (Z.leb_spec (Z.of_nat (length text + 1)) (Z.of_nat (length text) + 1)); [|lia].
    eexists _, _. split; [reflexivity|]. apply bind_Some. eexists _, _. split; [reflexivity|].
    apply bind_Some. rewrite sys_Some. cbn [fst snd]. rewrite Es. eexists _, _. split; [reflexivity|]. cbn [fst snd].
    apply bind_Some. rewrite !app_nil_r, <- !app_assoc. destruct copied; eexists _, _; (split; [reflexivity|]); unfold mret, StateM_ret; cbn;
      by rewrite <- ?app_assoc.
  - exists false, w2, [CallAlloc h (Z.of_nat (length text) + 1); CallFree h]. split; [|constructor].
    apply bind_Some. rewrite sys_Some. cbn [fst snd]. rewrite Ea. eexists _, _. split; [reflexivity|].
    apply bind_Some. rewrite sys_Some. cbn [fst snd]. rewrite El. eexists _, _. split; [reflexivity|]. cbn [fst snd].
    apply bind_Some. eexists _, _. split; [reflexivity|]. unfold mret, StateM_ret. cbn. by rewrite app_nil_r, <- app_assoc.
Qed.

(** Every run returns and writes inside its block.  A clipboard that was opened is closed
    once, at the end.  The block is freed unless the clipboard took it, never both, and a
    text that is reported as copied is the one the clipboard has, with its terminator. *)
Theorem copy_to_clipboard_calls text (w : W) log :
  exists ok w' calls, copy_to_clipboard text (w, log) = Some (ok, (w', log ++ calls))
  /\ (calls = [] /\ text = [] /\ ok = false
      \/ calls = [CallOpen false] /\ ok = false
      \/ exists block copied closed, calls = CallOpen true :: block ++ [CallClose closed] /\ block_calls text block copied
           /\ ok = closed && copied).
Proof.
  unfold copy_to_clipboard. case_bool_decide as Hempty.
  { exists false, w, []. rewrite app_nil_r. split; [done | by left]. }
  destruct (OpenClipboard w) as [[] w1] eqn:Eo.
  2: { exists false, w1, [CallOpen false]. split; [|by right; left]. apply bind_Some. rewrite sys_Some. cbn [fst snd]. rewrite Eo.
       eexists _, _. by split. }
  destruct (EmptyClipboard w1) as [[] w2] eqn:Ee.
  - destruct (set_text_calls text w2 (log ++ [CallOpen true])) as (copied & w3 & block & Eb & Hb).
    destruct (CloseClipboard w3) as [closed w4] eqn:Ec.
    exists (closed && copied), w4, (CallOpen true :: block ++ [CallClose closed]). split; [|right; right; by exists block, copied, closed].
    apply bind_Some. rewrite sys_Some. cbn [fst snd]. rewrite Eo. eexists _, _. split; [reflexivity|]. cbn [fst snd negb].
    apply bind_Some. rewrite sys_Some. cbn [fst snd]. rewrite Ee. eexists _, _. split; [reflexivity|]. cbn [fst snd negb].
    apply bind_Some. rewrite app_nil_r, Eb. eexists _, _. split; [reflexivity|].
    apply bind_Some. rewrite sys_Some. cbn [fst snd]. rewrite Ec. eexists _, _. split; [reflexivity|].
    unfold mret, StateM_ret. cbn [fst snd]. by rewrite <- !app_assoc.
  - destruct (CloseClipboard w2) as [closed w3] eqn:Ec. exists false, w3, [CallOpen true; CallClose closed].
    split; [|right; right; exists [], false, closed; split; [done|]; split; [constructor | by rewrite andb_false_r]].
    apply bind_Some. rewrite sys_Some. cbn [fst snd]. rewrite Eo. eexists _, _. split; [reflexivity|]. cbn [fst snd negb].
    apply bind_Some. rewrite sys_Some. cbn [fst snd]. rewrite Ee. eexists _, _. split; [reflexivity|]. cbn [fst snd negb].
    apply bind_Some. rewrite sys_Some. cbn [fst snd]. rewrite Ec. eexists _, _. split; [reflexivity|].
    unfold mret, StateM_ret. cbn [fst snd]. by rewrite app_nil_r, <- app_assoc.
Qed.
End proofs.

(** A system that answers for a variable the way it is documented, whose value does not
    change during the call: the loop ends at its first turn with the whole value. *)
Theorem environment_string_value {W : Type} `{Environment W} fuel name (value : str) (w : W) :
  name <> [] -> value <> [] ->
  (forall capacity w, (GetEnvironmentVariable name capacity w).1.1 =
     (if capacity <=? Z.of_nat (length value) then Z.of_nat (length value) + 1 else Z.of_nat (length value))) ->
  (forall capacity w, Z.of_nat (length value) < capacity -> (GetEnvironmentVariable name capacity w).1.2 = value) ->
  exists w', environment_string (S fuel) name w = Some (value, w').
Proof.
  intros Hn Hv Hret Hval. unfold environment_string. rewrite bool_decide_false by done.
  pose proof (Hret 0 w) as H0. destruct (GetEnvironmentVariable name 0 w) as [[required v0] w1]. cbn [fst snd] in H0.
  destruct (Z.leb_spec 0 (Z.of_nat (length value))); [|lia]. subst required.
  destruct (Z.eqb_spec (Z.of_nat (length value) + 1) 0); [lia|]. cbn [environment_loop].
  pose proof (Hret (Z.of_nat (length value) + 1) w1) as Hr1. pose proof (Hval (Z.of_nat (length value) + 1) w1 ltac:(lia)) as Hv1.
  destruct (GetEnvironmentVariable name _ w1) as [[written v] w2]. cbn [fst snd] in Hr1, Hv1.
  destruct (Z.leb_spec (Z.of_nat (length value) + 1) (Z.of_nat (length value))); [lia|]. subst written v.
  assert (0 < length value)%nat by (destruct value; [done | cbn; lia]).
  destruct (Z.eqb_spec (Z.of_nat (length value)) 0); [lia|]. destruct (Z.ltb_spec (Z.of_nat (length value)) (Z.of_nat (length value) + 1)); [|lia].
  exists w2. by rewrite Nat2Z.id, take_ge by done.
Qed.

(** *** A clipboard that takes the text, and a variable *)

#[local] Instance example_clipboard : ClipboardSystem unit := {|
  OpenClipboard w := (true, w); EmptyClipboard w := (true, w); CloseClipboard w := (true, w);
  GlobalAlloc _ w := (Some 7, w); GlobalLock _ w := (true, w); SetClipboardData _ w := (true, w);
|}.

Example example_copied :
  copy_to_clipboard "hi" (tt, []) =
  Some (true, (tt, [CallOpen true; CallAlloc 7 3; CallWrite 7 (("hi" : str) ++ [chr 0]); CallUnlock 7; CallSet 7 true; CallClose true])).
Proof. reflexivity. Qed.

#[local] Instance example_environment : Environment unit := {|
  GetEnvironmentVariable _ capacity w := ((if capacity <=? 3 then 4 else 3, "yes" : str), w);
|}.

Example example_variable : environment_string 1 "BME" tt = Some ("yes" : str, tt).
Proof. reflexivity. Qed.
