(* ===== verification/Windows.v ===== *)
(** * Windows: the tracer that runs the code on a thread of its own process
    ([src/src/os.windows.cpp]).

    The thread executes with the trap flag set; the vectored exception handler
    [bme_veh] records every single step and decides whether the thread goes on.  To end
    a run the handler gives the thread back the context it was created with, and the
    thread then leaves on its own.  The operating system is a parameter. *)

From S2P Require Import Prelude Text Core X87 Cpu Trace Platform WindowsProcess.

Local Open Scope Z_scope.

(** ** Data *)

(** The registers of a [CONTEXT]: the general registers, [Rip] and [EFlags] by [Reg],
    [MxCsr], and the legacy area [FltSave]. *)
Record CONTEXT : Type := {
  context_reg : Reg -> Z;
  MxCsr : Z;
  ControlWord : Z;
  StatusWord : Z;
  TagWord : Z;
  FltMxCsr : Z;
  MxCsr_Mask : Z;
  FloatRegisters : list (list Z);
  XmmRegisters : list (Z * Z);             (* [Low] and [High], as bits *)
}.

Definition CONTEXT_zero : CONTEXT := {|
  context_reg _ := 0; MxCsr := 0; ControlWord := 0; StatusWord := 0; TagWord := 0; FltMxCsr := 0; MxCsr_Mask := 0;
  FloatRegisters := replicate 8 (replicate 16 0); XmmRegisters := replicate 16 (0, 0);
|}.

(** An [EXCEPTION_RECORD]; [NumberParameters] is the length of the information. *)
Record EXCEPTION_RECORD : Type := {
  ExceptionCode : Z;
  ExceptionAddress : Z;
  ExceptionInformation : list Z;
}.

Inductive Disposition : Type := CONTINUE_EXECUTION | CONTINUE_SEARCH.

Definition EXCEPTION_ACCESS_VIOLATION : Z := 0xC0000005.
Definition EXCEPTION_DATATYPE_MISALIGNMENT : Z := 0x80000002.
Definition EXCEPTION_BREAKPOINT : Z := 0x80000003.
Definition EXCEPTION_SINGLE_STEP : Z := 0x80000004.
Definition EXCEPTION_ARRAY_BOUNDS_EXCEEDED : Z := 0xC000008C.
Definition EXCEPTION_FLT_DENORMAL_OPERAND : Z := 0xC000008D.
Definition EXCEPTION_FLT_DIVIDE_BY_ZERO : Z := 0xC000008E.
Definition EXCEPTION_FLT_INEXACT_RESULT : Z := 0xC000008F.
Definition EXCEPTION_FLT_INVALID_OPERATION : Z := 0xC0000090.
Definition EXCEPTION_FLT_OVERFLOW : Z := 0xC0000091.
Definition EXCEPTION_FLT_STACK_CHECK : Z := 0xC0000092.
Definition EXCEPTION_FLT_UNDERFLOW : Z := 0xC0000093.
Definition EXCEPTION_INT_DIVIDE_BY_ZERO : Z := 0xC0000094.
Definition EXCEPTION_INT_OVERFLOW : Z := 0xC0000095.
Definition EXCEPTION_PRIV_INSTRUCTION : Z := 0xC0000096.
Definition EXCEPTION_IN_PAGE_ERROR : Z := 0xC0000006.
Definition EXCEPTION_ILLEGAL_INSTRUCTION : Z := 0xC000001D.
Definition EXCEPTION_NONCONTINUABLE_EXCEPTION : Z := 0xC0000025.
Definition EXCEPTION_STACK_OVERFLOW : Z := 0xC00000FD.
Definition EXCEPTION_INVALID_DISPOSITION : Z := 0xC0000026.
Definition EXCEPTION_GUARD_PAGE : Z := 0x80000001.

Definition FAULT_NAMES : list (Z * str) := [
  (EXCEPTION_ACCESS_VIOLATION, "Access violation" : str);
  (EXCEPTION_ILLEGAL_INSTRUCTION, "Illegal instruction" : str);
  (EXCEPTION_PRIV_INSTRUCTION, "Privileged instruction" : str);
  (EXCEPTION_INT_DIVIDE_BY_ZERO, "Divide by zero" : str);
  (EXCEPTION_INT_OVERFLOW, "Integer overflow" : str);
  (EXCEPTION_STACK_OVERFLOW, "Stack overflow" : str);
  (EXCEPTION_DATATYPE_MISALIGNMENT, "Misaligned access" : str);
  (EXCEPTION_BREAKPOINT, "Breakpoint (int3)" : str);
  (EXCEPTION_IN_PAGE_ERROR, "In-page error" : str);
  (EXCEPTION_GUARD_PAGE, "Guard page violation" : str);
  (EXCEPTION_ARRAY_BOUNDS_EXCEEDED, "Array bounds exceeded" : str);
  (EXCEPTION_FLT_DIVIDE_BY_ZERO, "FP divide by zero" : str);
  (EXCEPTION_FLT_INVALID_OPERATION, "FP invalid operation" : str);
  (EXCEPTION_FLT_OVERFLOW, "FP overflow" : str);
  (EXCEPTION_FLT_UNDERFLOW, "FP underflow" : str);
  (EXCEPTION_FLT_INEXACT_RESULT, "FP inexact result" : str);
  (EXCEPTION_FLT_DENORMAL_OPERAND, "FP denormal operand" : str);
  (EXCEPTION_FLT_STACK_CHECK, "FP stack check" : str);
  (EXCEPTION_NONCONTINUABLE_EXCEPTION, "Noncontinuable exception" : str);
  (EXCEPTION_INVALID_DISPOSITION, "Invalid disposition" : str)].

Fixpoint name_of (code : Z) (names : list (Z * str)) : str :=
  match names with
  | [] => "Exception"
  | (c, name) :: names => if code =? c then name else name_of code names
  end.

Definition fault_name (code : Z) : str := name_of code FAULT_NAMES.

(** ** The handler *)

Record RawStep : Type := {
  raw_rip : Z;
  raw_registers : Registers;
}.

Record Engine : Type := {
  engine_base : Z;
  code_length : Z;
  engine_max_steps : Z;
  target_address : Z;
  has_target : bool;
  thread_id : Z;
  previous_rip : Z;
  saved_context : CONTEXT;
  active : bool;
  raw_steps : list RawStep;
  engine_outcome : Outcome;
  fault_code : Z;
  fault_address : Z;
  engine_fault_memory_address : option Z;
  engine_fault_access : FaultAccess;
  fault_registers : Registers;
  engine_stopped_at_target : bool;
}.

(** [Engine::snapshot_fpu] and [Engine::snapshot]. *)
Definition snapshot_fpu (context : CONTEXT) (registers : Registers) : Registers := {|
  gpr := registers.(gpr);
  rip := registers.(rip);
  rflags := registers.(rflags);
  xmm := imap (fun i _ => nth i context.(XmmRegisters) (0, 0)) registers.(xmm);
  mxcsr := context.(MxCsr);
  st := imap (fun i _ => bytes_at (nth i context.(FloatRegisters) []) 0 10) registers.(st);
  fpu_control_word := context.(ControlWord);
  fpu_status_word := context.(StatusWord);
  fpu_tag_word_abridged := context.(TagWord);
|}.

Definition snapshot (context : CONTEXT) (registers : Registers) : Registers :=
  snapshot_fpu context {|
    gpr := map context.(context_reg) GPRS;
    rip := context.(context_reg) RIP;
    rflags := Z.land (context.(context_reg) RFLAGS) (u64 (Z.lnot RFLAGS_TRAP_FLAG));
    xmm := registers.(xmm);
    mxcsr := registers.(mxcsr);
    st := registers.(st);
    fpu_control_word := registers.(fpu_control_word);
    fpu_status_word := registers.(fpu_status_word);
    fpu_tag_word_abridged := registers.(fpu_tag_word_abridged);
  |}.

(** The assignments of the handler. *)
Definition record_step (e : Engine) (step : RawStep) : Engine := {|
  engine_base := e.(engine_base); code_length := e.(code_length); engine_max_steps := e.(engine_max_steps);
  target_address := e.(target_address); has_target := e.(has_target); thread_id := e.(thread_id);
  previous_rip := e.(previous_rip); saved_context := e.(saved_context); active := e.(active);
  raw_steps := e.(raw_steps) ++ [step]; engine_outcome := e.(engine_outcome); fault_code := e.(fault_code);
  fault_address := e.(fault_address); engine_fault_memory_address := e.(engine_fault_memory_address);
  engine_fault_access := e.(engine_fault_access); fault_registers := e.(fault_registers);
  engine_stopped_at_target := e.(engine_stopped_at_target);
|}.

Definition stop_engine (e : Engine) (outcome : Outcome) (address : Z) (at_target : bool) : Engine := {|
  engine_base := e.(engine_base); code_length := e.(code_length); engine_max_steps := e.(engine_max_steps);
  target_address := e.(target_address); has_target := e.(has_target); thread_id := e.(thread_id);
  previous_rip := e.(previous_rip); saved_context := e.(saved_context); active := e.(active);
  raw_steps := e.(raw_steps); engine_outcome := outcome; fault_code := e.(fault_code);
  fault_address := address; engine_fault_memory_address := e.(engine_fault_memory_address);
  engine_fault_access := e.(engine_fault_access); fault_registers := e.(fault_registers);
  engine_stopped_at_target := at_target;
|}.

Definition set_previous (e : Engine) (rip : Z) : Engine := {|
  engine_base := e.(engine_base); code_length := e.(code_length); engine_max_steps := e.(engine_max_steps);
  target_address := e.(target_address); has_target := e.(has_target); thread_id := e.(thread_id);
  previous_rip := rip; saved_context := e.(saved_context); active := e.(active);
  raw_steps := e.(raw_steps); engine_outcome := e.(engine_outcome); fault_code := e.(fault_code);
  fault_address := e.(fault_address); engine_fault_memory_address := e.(engine_fault_memory_address);
  engine_fault_access := e.(engine_fault_access); fault_registers := e.(fault_registers);
  engine_stopped_at_target := e.(engine_stopped_at_target);
|}.

Definition record_fault (e : Engine) (code address : Z) (memory : option Z) (access : FaultAccess)
    (registers : Registers) : Engine := {|
  engine_base := e.(engine_base); code_length := e.(code_length); engine_max_steps := e.(engine_max_steps);
  target_address := e.(target_address); has_target := e.(has_target); thread_id := e.(thread_id);
  previous_rip := e.(previous_rip); saved_context := e.(saved_context); active := e.(active);
  raw_steps := e.(raw_steps); engine_outcome := OFaulted; fault_code := code;
  fault_address := address; engine_fault_memory_address := memory;
  engine_fault_access := access; fault_registers := registers;
  engine_stopped_at_target := e.(engine_stopped_at_target);
|}.

(** [context->EFlags |= RFLAGS_TRAP_FLAG]. *)
Definition set_trap (context : CONTEXT) : CONTEXT := {|
  context_reg reg := match reg with
                     | RFLAGS => Z.lor (context.(context_reg) RFLAGS) RFLAGS_TRAP_FLAG
                     | _ => context.(context_reg) reg
                     end;
  MxCsr := context.(MxCsr); ControlWord := context.(ControlWord); StatusWord := context.(StatusWord);
  TagWord := context.(TagWord); FltMxCsr := context.(FltMxCsr); MxCsr_Mask := context.(MxCsr_Mask);
  FloatRegisters := context.(FloatRegisters); XmmRegisters := context.(XmmRegisters);
|}.

(** The memory operand of an access violation or an in-page error. *)
Definition fault_memory (e : Engine) (record : EXCEPTION_RECORD) : option Z * FaultAccess :=
  match record.(ExceptionInformation) with
  | access :: address :: _ =>
    if (record.(ExceptionCode) =? EXCEPTION_ACCESS_VIOLATION) || (record.(ExceptionCode) =? EXCEPTION_IN_PAGE_ERROR) then
      (Some address, match access with 0 => FARead | 1 => FAWrite | 8 => FAExecute | _ => FAUnknown end)
    else (e.(engine_fault_memory_address), e.(engine_fault_access))
  | _ => (e.(engine_fault_memory_address), e.(engine_fault_access))
  end.

(** [bme_veh] on the thread with number [thread]: the disposition, the engine and the
    context the thread continues with. *)
Definition bme_veh (g_engine : option Engine) (thread : Z) (record : EXCEPTION_RECORD) (context : CONTEXT)
    : Disposition * option Engine * CONTEXT :=
  match g_engine with
  | None => (CONTINUE_SEARCH, None, context)
  | Some e =>
    if negb e.(active) || negb (thread =? e.(thread_id)) then (CONTINUE_SEARCH, g_engine, context)
    else if record.(ExceptionCode) =? EXCEPTION_SINGLE_STEP then
      let next_rip := context.(context_reg) RIP in
      let e := record_step e {| raw_rip := e.(previous_rip); raw_registers := snapshot context Registers_init |} in
      let code_end := u64 (e.(engine_base) + e.(code_length)) in
      if e.(has_target) && (next_rip =? e.(target_address)) then
        (CONTINUE_EXECUTION, Some (stop_engine e OStopped next_rip true), e.(saved_context))
      else if (next_rip <? e.(engine_base)) || (code_end <=? next_rip) then
        (CONTINUE_EXECUTION, Some (stop_engine e OFinished e.(fault_address) e.(engine_stopped_at_target)),
         e.(saved_context))
      else if e.(engine_max_steps) <=? Z.of_nat (length e.(raw_steps)) then
        (CONTINUE_EXECUTION, Some (stop_engine e OAbortedCap e.(fault_address) e.(engine_stopped_at_target)),
         e.(saved_context))
      else (CONTINUE_EXECUTION, Some (set_previous e next_rip), set_trap context)
    else if record.(ExceptionCode) =? EXCEPTION_BREAKPOINT then
      (CONTINUE_EXECUTION, Some (stop_engine e OStopped e.(previous_rip) e.(engine_stopped_at_target)),
       e.(saved_context))
    else
      let '(memory, access) := fault_memory e record in
      (CONTINUE_EXECUTION,
       Some (record_fault e record.(ExceptionCode) record.(ExceptionAddress) memory access
               (snapshot context e.(fault_registers))),
       e.(saved_context))
  end.

(** ** The system *)

Inductive Protection : Type := PAGE_NOACCESS | PAGE_READWRITE | PAGE_EXECUTE_READ.
Inductive VMProtection : Type := ReadWrite | ExecuteRead.

(** What a thread does next: it raises an exception, it ends, or it does neither, as in a
    system call that blocks. *)
Inductive ThreadEvent : Type :=
| Raised (record : EXCEPTION_RECORD) (context : CONTEXT)
| ThreadEnded
| ThreadBlocks.

(** The calls of the tracer.  A null pointer is zero; [raise_next] runs the thread from a
    context on. *)
Class WindowsKernel (W : Type) : Type := {
  VirtualAlloc_reserve : Z -> Z -> W -> Z * W;
  VirtualAlloc_commit : Z -> Z -> Protection -> W -> Z * W;
  VirtualProtect : Z -> Z -> Protection -> W -> bool * W;
  VirtualFree : Z -> W -> W;
  copy_code : Z -> list Z -> W -> W;                     (* [std::memcpy] *)
  FlushInstructionCache : Z -> Z -> W -> bool * W;
  CreateThread : W -> option Z * W;                      (* suspended *)
  GetThreadId : Z -> W -> Z * W;
  GetThreadContext : Z -> W -> option CONTEXT * W;
  SetThreadContext : Z -> CONTEXT -> W -> bool * W;
  ResumeThread : Z -> W -> bool * W;
  TerminateThread : Z -> W -> bool * W;
  WaitForSingleObject : Z -> W -> bool * W;              (* is it [WAIT_OBJECT_0]? *)
  CloseHandle : Z -> W -> W;
  AddVectoredExceptionHandler : W -> option Z * W;
  RemoveVectoredExceptionHandler : Z -> W -> W;
  raise_next : CONTEXT -> W -> ThreadEvent * W;
}.

Inductive Call : Type :=
| CallAlloc (address : Z)
| CallFree (address : Z)
| CallCreate (thread : option Z)
| CallTerminate (thread : Z)
| CallWait (thread : Z)
| CallClose (thread : Z)
| CallAddHandler (handler : option Z)
| CallRemoveHandler (handler : Z).

(** The world, the calls so far, and the global engine. *)
Record State (W : Type) : Type := State_of {
  world : W;
  calls : list Call;
  g_engine : option Engine;
}.

Arguments State_of {W} world calls g_engine.
Arguments world {W} _.
Arguments calls {W} _.
Arguments g_engine {W} _.

Abbreviation M W := (StateM (State W)).

Section calls.
Context {W : Type} `{WindowsKernel W}.

Definition kernel {A} (f : W -> A * W) : M W A := fun s =>
  let '(x, w) := f s.(world) in Some (x, State_of w s.(calls) s.(g_engine)).

Definition logged {A} (f : W -> A * W) (call : A -> Call) : M W A := fun s =>
  let '(x, w) := f s.(world) in Some (x, State_of w (s.(calls) ++ [call x]) s.(g_engine)).

Definition set_engine (e : option Engine) : M W unit := fun s => Some (tt, State_of s.(world) s.(calls) e).
Definition get_engine : M W (option Engine) := fun s => Some (s.(g_engine), s).

(** ** Memory *)

Definition vm_alloc (size : Z) : M W Z := logged (VirtualAlloc_reserve 0 size) CallAlloc.
Definition vm_alloc_at (address size : Z) : M W Z := logged (VirtualAlloc_reserve address size) CallAlloc.

Definition native_protection (protection : VMProtection) : Protection :=
  match protection with ReadWrite => PAGE_READWRITE | ExecuteRead => PAGE_EXECUTE_READ end.

Definition vm_commit (address size : Z) (protection : VMProtection) : M W bool :=
  result ← kernel (VirtualAlloc_commit address size (native_protection protection));
  mret (negb (result =? 0)).

Definition vm_protect (address size : Z) (protection : VMProtection) : M W bool :=
  kernel (VirtualProtect address size (native_protection protection)).

Definition vm_free (address : Z) : M W unit :=
  if negb (address =? 0) then logged (fun w => (tt, VirtualFree address w)) (fun _ => CallFree address) else mret tt.

(** The short-circuit conjunction of calls. *)
Definition and_then (a b : M W bool) : M W bool :=
  x ← a; if (x : bool) then b else mret false.

(** ** The run *)

Record Regions : Type := {
  buffer : Z;
  stack : Z;
  data : Z;
}.

(** The lambda [release_regions]. *)
Definition release_regions (regions : Regions) : M W unit :=
  _ ← vm_free regions.(buffer);
  _ ← vm_free regions.(stack);
  vm_free regions.(data).

(** The lambda [fail]. *)
Definition fail (regions : Regions) (result : PlatformRunResult) (error : str) : M W PlatformRunResult :=
  _ ← release_regions regions;
  mret (set_error result OError error).

(** The lambda [terminate_thread]. *)
Definition terminate_thread (thread : Z) : M W unit :=
  terminated ← logged (TerminateThread thread) (fun _ => CallTerminate thread);
  _ ← (if (terminated : bool) then logged (WaitForSingleObject thread) (fun _ => CallWait thread)
       else (mret true : M W bool));
  logged (fun w => (tt, CloseHandle thread w)) (fun _ => CallClose thread).

(** The lambda [fail_thread]. *)
Definition fail_thread (thread : Z) (regions : Regions) (result : PlatformRunResult) (error : str)
    : M W PlatformRunResult :=
  _ ← terminate_thread thread;
  _ ← release_regions regions;
  _ ← set_engine None;
  mret (set_error result OError error).

(** The engine of a run, before its thread exists. *)
Definition new_engine (request : PlatformRunRequest) (base : Z) : Engine := {|
  engine_base := base;
  code_length := Z.of_nat (length request.(request_code));
  engine_max_steps := capped_steps request.(request_max_steps);
  target_address := match request.(request_stop_offset) with Some offset => u64 (base + offset) | None => 0 end;
  has_target := bool_decide (request.(request_stop_offset) <> None);
  thread_id := 0; previous_rip := base; saved_context := CONTEXT_zero; active := false; raw_steps := [];
  engine_outcome := OFinished; fault_code := 0; fault_address := 0; engine_fault_memory_address := None;
  engine_fault_access := FANone; fault_registers := Registers_init; engine_stopped_at_target := false;
|}.

Definition set_thread (e : Engine) (thread : Z) (context : CONTEXT) (is_active : bool) : Engine := {|
  engine_base := e.(engine_base); code_length := e.(code_length); engine_max_steps := e.(engine_max_steps);
  target_address := e.(target_address); has_target := e.(has_target); thread_id := thread;
  previous_rip := e.(previous_rip); saved_context := context; active := is_active;
  raw_steps := e.(raw_steps); engine_outcome := e.(engine_outcome); fault_code := e.(fault_code);
  fault_address := e.(fault_address); engine_fault_memory_address := e.(engine_fault_memory_address);
  engine_fault_access := e.(engine_fault_access); fault_registers := e.(fault_registers);
  engine_stopped_at_target := e.(engine_stopped_at_target);
|}.

Definition effective_pointer (request : PlatformRunRequest) (data_base : Z) (reg : Reg) : Z :=
  if request.(request_seed_data_pointers) && (reg_get request.(request_seed) reg =? 0) then data_base
  else reg_get request.(request_seed) reg.

Definition effective_flags (request : PlatformRunRequest) : Z :=
  Z.lor (Z.lor (Z.land (reg_get request.(request_seed) RFLAGS) RFLAGS_STATUS_MASK) RFLAGS_RESERVED_BIT1)
    RFLAGS_INTERRUPT_FLAG.

(** The general registers of the recorded seed. *)
Definition seed_general (request : PlatformRunRequest) (base initial_rsp data_base : Z) (seed : Registers) : Registers :=
  reg_set (reg_set (reg_set (reg_set (reg_set seed RSP initial_rsp)
    RDI (effective_pointer request data_base RDI)) RSI (effective_pointer request data_base RSI))
    RIP base) RFLAGS (effective_flags request).

Definition put_float (i : nat) (v : list Z) (registers : list (list Z)) : list (list Z) :=
  alter (fun area => splice area 0 v) i registers.

(** The context of the request and the rest of the recorded seed. *)
Definition seed_context (request : PlatformRunRequest) (base initial_rsp data_base : Z) (context : CONTEXT)
    (recorded : Registers) : CONTEXT * Registers :=
  let s := request.(request_seed) in
  let context := {| context_reg := context.(context_reg); MxCsr := s.(mxcsr); ControlWord := s.(fpu_control_word);
                    StatusWord := 0; TagWord := 0; FltMxCsr := s.(mxcsr); MxCsr_Mask := context.(MxCsr_Mask);
                    FloatRegisters := context.(FloatRegisters); XmmRegisters := context.(XmmRegisters) |} in
  let recorded := snapshot_fpu context recorded in
  let '(registers, tag_word, recorded_st) :=
    write_stack put_float 8 0 s.(st) s.(fpu_tag_word_abridged) context.(FloatRegisters) context.(TagWord)
      recorded.(st) in
  ({| context_reg reg := match reg with
                         | RSI | RDI => effective_pointer request data_base reg
                         | RSP => initial_rsp
                         | RIP => base
                         | RFLAGS => u32 (Z.lor (effective_flags request) RFLAGS_TRAP_FLAG)
                         | _ => reg_get s reg
                         end;
      MxCsr := context.(MxCsr); ControlWord := context.(ControlWord); StatusWord := context.(StatusWord);
      TagWord := tag_word; FltMxCsr := context.(FltMxCsr); MxCsr_Mask := context.(MxCsr_Mask);
      FloatRegisters := registers; XmmRegisters := s.(xmm) |},
   {| gpr := recorded.(gpr); rip := recorded.(rip); rflags := recorded.(rflags); xmm := s.(xmm);
      mxcsr := recorded.(mxcsr); st := recorded_st; fpu_control_word := recorded.(fpu_control_word);
      fpu_status_word := recorded.(fpu_status_word); fpu_tag_word_abridged := tag_word |}).

(** The thread from a context on, with the handler on every exception, until it ends; no
    result when it blocks or an exception finds no handler. *)
Fixpoint run_thread (fuel : nat) (thread : Z) (context : CONTEXT) : M W unit :=
  match fuel with
  | O => fun _ => None
  | S fuel =>
    raised ← kernel (raise_next context);
    match raised with
    | ThreadEnded => mret tt
    | ThreadBlocks => fun _ => None
    | Raised record context =>
      e ← get_engine;
      let '(disposition, e, context) := bme_veh e thread record context in
      _ ← set_engine e;
      match disposition with
      | CONTINUE_EXECUTION => run_thread fuel thread context
      | CONTINUE_SEARCH => fun _ => None
      end
    end
  end.

(** The steps and the outcome of an engine that has run. *)
Definition raw_platform_step (raw_step : RawStep) : PlatformStep :=
  {| step_rip := raw_step.(raw_rip); step_registers := raw_step.(raw_registers); step_faulted := false |}.

Definition engine_result (e : Engine) (result : PlatformRunResult) : PlatformRunResult :=
  let faulted := bool_decide (e.(engine_outcome) = OFaulted) in {|
  result_seed := result.(result_seed);
  result_steps := result.(result_steps) ++ map raw_platform_step e.(raw_steps) ++
    (if faulted then [{| step_rip := e.(fault_address); step_registers := e.(fault_registers); step_faulted := true |}]
     else []);
  result_outcome := e.(engine_outcome);
  result_instrumentation_detected := result.(result_instrumentation_detected);
  result_fault_name := if faulted then fault_name e.(fault_code) else result.(result_fault_name);
  result_error := result.(result_error);
  result_stop_address := e.(fault_address);
  result_fault_memory_address := e.(engine_fault_memory_address);
  result_fault_access := e.(engine_fault_access);
  result_stopped_at_target := e.(engine_stopped_at_target);
|}.
End calls.

Section run.
Context {W : Type} `{WindowsKernel W} `{WindowsSystem W} {memory : Memory} (fuel : nat).

(** From a thread with its seeded context: the handler is installed while it runs. *)
Definition trace_thread (request : PlatformRunRequest) (thread : Z) (regions : Regions) (e : Engine)
    (context : CONTEXT) (result : PlatformRunResult) : M W PlatformRunResult :=
  handler ← logged AddVectoredExceptionHandler CallAddHandler;
  match handler with
  | None => fail_thread thread regions result "Failed to install exception handler."
  | Some handler =>
    let remove := logged (fun w => (tt, RemoveVectoredExceptionHandler handler w)) (fun _ => CallRemoveHandler handler) in
    _ ← set_engine (Some (set_thread e e.(thread_id) e.(saved_context) true));
    resumed ← kernel (ResumeThread thread);
    if negb (resumed : bool) then
      _ ← set_engine (Some (set_thread e e.(thread_id) e.(saved_context) false));
      _ ← remove;
      fail_thread thread regions result "ResumeThread failed."
    else
      _ ← run_thread (S (Z.to_nat e.(engine_max_steps))) e.(thread_id) context;
      waited ← logged (WaitForSingleObject thread) (fun _ => CallWait thread);
      _ ← remove;
      if negb (waited : bool) then fail_thread thread regions result "WaitForSingleObject failed."
      else
        _ ← logged (fun w => (tt, CloseHandle thread w)) (fun _ => CallClose thread);
        e ← get_engine;
        match e with
        | None => fun _ => None
        | Some e =>
          _ ← release_regions regions;
          _ ← set_engine None;
          mret (engine_result e result)
        end
  end.

(** From a new suspended thread: its context is seeded. *)
Definition prepare_thread (request : PlatformRunRequest) (thread : Z) (regions : Regions) (e : Engine)
    (initial_rsp data_base : Z) (result : PlatformRunResult) : M W PlatformRunResult :=
  number ← kernel (GetThreadId thread);
  let e := set_thread e number e.(saved_context) false in
  _ ← set_engine (Some e);
  if number =? 0 then fail_thread thread regions result "GetThreadId failed."
  else
    context ← kernel (GetThreadContext thread);
    match context with
    | None => fail_thread thread regions result "GetThreadContext failed."
    | Some context =>
      let e := set_thread e number context false in
      _ ← set_engine (Some e);
      let mxcsr_mask := if negb (context.(MxCsr_Mask) =? 0) then context.(MxCsr_Mask) else MXCSR_FALLBACK_MASK in
      if negb (Z.land request.(request_seed).(mxcsr) (u32 (Z.lnot mxcsr_mask)) =? 0) then
        fail_thread thread regions result "MXCSR seed contains bits unsupported by this CPU."
      else
        let '(context, recorded) :=
          seed_context request e.(engine_base) initial_rsp data_base context result.(result_seed) in
        let result := set_seed result recorded in
        ok ← kernel (SetThreadContext thread context);
        if negb (ok : bool) then fail_thread thread regions result "SetThreadContext failed."
        else if bool_decide (request.(request_stop_offset) = Some 0) then
          _ ← terminate_thread thread;
          _ ← release_regions regions;
          _ ← set_engine None;
          mret (set_stopped result true e.(engine_base))
        else trace_thread request thread regions e context result
    end.

(** From the committed regions: the code is copied and the thread is created. *)
Definition prepare_code (request : PlatformRunRequest) (code_region : Z) (regions : Regions)
    (result : PlatformRunResult) : M W PlatformRunResult :=
  let size := Z.of_nat (length request.(request_code)) in
  let code_base := u64 (regions.(buffer) + code_region - size) in
  _ ← kernel (fun w => (tt, copy_code code_base request.(request_code) w));
  protected ← vm_protect regions.(buffer) code_region ExecuteRead;
  if negb (protected : bool) then fail regions result "VirtualProtect failed."
  else
    flushed ← kernel (FlushInstructionCache code_base size);
    if negb (flushed : bool) then fail regions result "FlushInstructionCache failed."
    else
      let initial_rsp :=
        Z.land (u64 (regions.(stack) + vm_page_size + SCRATCH_STACK_BYTES - SCRATCH_STACK_HEADROOM)) (u64 (Z.lnot 15)) in
      let data_base := u64 (regions.(data) + vm_page_size) in
      let e := new_engine request code_base in
      _ ← set_engine (Some e);
      let result := set_seed result (seed_general request code_base initial_rsp data_base result.(result_seed)) in
      thread ← logged CreateThread CallCreate;
      match thread with
      | None =>
        _ ← set_engine None;
        fail regions result "CreateThread failed."
      | Some thread => prepare_thread request thread regions e initial_rsp data_base result
      end.

(** From the reserved regions: they are committed. *)
Definition prepare_regions (request : PlatformRunRequest) (code_region : Z) (regions : Regions)
    (result : PlatformRunResult) : M W PlatformRunResult :=
  if (regions.(buffer) =? 0) || (regions.(stack) =? 0) || (regions.(data) =? 0) then
    fail regions result "VirtualAlloc failed."
  else
    committed ← and_then (vm_commit regions.(buffer) code_region ReadWrite)
                 (and_then (vm_commit (u64 (regions.(stack) + vm_page_size)) SCRATCH_STACK_BYTES ReadWrite)
                   (vm_commit (u64 (regions.(data) + vm_page_size)) SCRATCH_DATA_BYTES ReadWrite));
    if negb (committed : bool) then fail regions result "VirtualAlloc commit failed."
    else prepare_code request code_region regions result.

Definition run_windows (request : PlatformRunRequest) : M W PlatformRunResult := fun s =>
  match instrumentation_detected fuel s.(world) with
  | None => None
  | Some instrumented =>
    let '(go_on, result) := prepare_platform_run request instrumented PlatformRunResult_init in
    if negb go_on then Some (result, s)
    else
      let size := Z.of_nat (length request.(request_code)) in
      let code_region := Z.land (u64 (size + vm_page_size - 1)) (u64 (Z.lnot (vm_page_size - 1))) in
      (buffer ← vm_alloc (u64 (code_region + vm_page_size));
       stack ← vm_alloc (SCRATCH_STACK_BYTES + vm_page_size * 2);
       data ← vm_alloc_at scratch_reserve_base (SCRATCH_DATA_BYTES + vm_page_size * 2);
       prepare_regions request code_region {| buffer := buffer; stack := stack; data := data |} result) s
  end.

(** [run_platform_steps]: no run is under way before it. *)
Definition run_platform_steps_windows (request : PlatformRunRequest) (w : W) : option (PlatformRunResult * State W) :=
  run_windows request (State_of w [] None).
End run.

(** ** Runs of the thread *)

(** A thread whose next instruction is single-stepped. *)
Definition traps (context : CONTEXT) : bool := Z.testbit (context.(context_reg) RFLAGS) 8.

(** What the tracer relies on: a thread that is given back the context it has when it is
    created runs its start routine, [sandbox_thread_main], which only returns. *)
Definition created_context {W : Type} {H : WindowsKernel W} (thread : Z) (w : W) (context : CONTEXT) : Prop :=
  (GetThreadContext thread (GetThreadId thread w).2).1 = Some context.

Definition startup_law {W : Type} (H : WindowsKernel W) : Prop :=
  forall w thread context, (CreateThread w).1 = Some thread -> created_context thread (CreateThread w).2 context ->
    forall w', (raise_next context w').1 = ThreadEnded.

(** A thread that blocks keeps the tracer waiting for ever. *)
Definition never_blocks {W : Type} (H : WindowsKernel W) : Prop :=
  forall context w, (raise_next context w).1 <> ThreadBlocks.

(** Code that is stepped may end its own thread. *)
Definition ends_itself {W : Type} (H : WindowsKernel W) : Prop :=
  exists context w, traps context = true /\ (raise_next context w).1 = ThreadEnded.

(** Threads of code that does not. *)
Record thread_laws {W : Type} (H : WindowsKernel W) : Prop := {
  law_startup : startup_law H;
  law_stays : ~ ends_itself H;
}.

(** What a thread that ends itself leaves: fewer steps than the cap, none of which left
    the code or got to the target. *)
Definition left_early (base size : Z) (target : option Z) (previous : Z) (n : nat) (steps : list PlatformStep) : Prop :=
  (length steps < n)%nat /\ (steps = [] \/ runs base size target previous (length steps) steps OAbortedCap 0 false).

Lemma left_early_step base size target n step steps :
  step.(step_faulted) = false -> target <> Some (reg_get step.(step_registers) RIP) ->
  inside base size (reg_get step.(step_registers) RIP) ->
  left_early base size target (reg_get step.(step_registers) RIP) n steps ->
  left_early base size target step.(step_rip) (S n) (step :: steps).
Proof.
  intros Hf Ht Hi [Hl Hs]. split; [cbn [length]; lia|]. right. cbn [length]. destruct Hs as [-> | Hs].
  - by apply runs_cap.
  - destruct steps; [by inversion Hs | by apply runs_step].
Qed.

Lemma set_trap_traps context : traps (set_trap context) = true.
Proof. unfold traps, set_trap. cbn [context_reg]. rewrite Z.lor_spec. apply orb_true_r. Qed.

(** The steps of an engine. *)
Definition engine_steps (e : Engine) : list PlatformStep :=
  map raw_platform_step e.(raw_steps) ++
  (if bool_decide (e.(engine_outcome) = OFaulted)
   then [{| step_rip := e.(fault_address); step_registers := e.(fault_registers); step_faulted := true |}] else []).

Definition engine_target (e : Engine) : option Z := if e.(has_target) then Some e.(target_address) else None.

Lemma engine_target_test e next : engine_target e = Some next <-> has_target e && (next =? target_address e) = true.
Proof.
  unfold engine_target. rewrite andb_true_iff, Z.eqb_eq.
  destruct (has_target e); split; [by intros [= ->] | by intros [_ ->] | done | by intros []].
Qed.

Section threads.
Context {W : Type} `{H : WindowsKernel W}.

(** The calls of the thread are its own, and the engine stays. *)
Lemma run_thread_keeps fuel thread context (s s' : State W) x :
  run_thread fuel thread context s = Some (x, s') ->
  s'.(calls) = s.(calls) /\ (is_Some s.(g_engine) -> is_Some s'.(g_engine)).
Proof.
  revert context s. induction fuel as [|fuel IH]; intros context s Hrun; [done|]. cbn [run_thread] in Hrun.
  unfold mbind, StateM_bind, kernel, get_engine, set_engine in Hrun.
  destruct (raise_next context (world s)) as [[record context'| |] w]; [| by injection Hrun as _ <- | done].
  cbn [g_engine] in Hrun. destruct (bme_veh (g_engine s) thread record context') as [[d e] c] eqn:E.
  assert (is_Some (g_engine s) -> is_Some e) as He.
  { intros [e0 E0]. rewrite E0 in E. unfold bme_veh in E. cbv zeta in E.
    apply (f_equal (fun x => x.1.2)) in E. repeat case_match; cbn in E; subst e; by eexists. }
  destruct d; [|done]. apply IH in Hrun as [Hc Hs]. split; [exact Hc | auto].
Qed.

Lemma run_thread_leaves fuel thread context (s : State W) :
  (forall w, (raise_next context w).1 = ThreadEnded) ->
  exists w, run_thread (S fuel) thread context s = Some (tt, State_of w s.(calls) s.(g_engine)).
Proof.
  intros Hn. specialize (Hn s.(world)). cbn [run_thread].
  unfold mbind, StateM_bind, kernel. destruct (raise_next context (world s)) as [raised w]. cbn [fst] in Hn. subst raised.
  by exists w.
Qed.

(** What a run of the thread leaves: the engine with the steps of the abstract machine, or
    of a thread that has ended itself. *)
Definition thread_ran (e : Engine) (n : nat) (s : State W) (r : option (unit * State W)) : Prop :=
  match r with
  | Some (_, s') =>
    exists e' steps, s'.(g_engine) = Some e'
      /\ engine_steps e' = map raw_platform_step e.(raw_steps) ++ steps
      /\ (runs e.(engine_base) e.(code_length) (engine_target e) e.(previous_rip) n steps
            e'.(engine_outcome) e'.(fault_address) e'.(engine_stopped_at_target)
          \/ (e'.(engine_outcome) = OFinished /\ e'.(engine_stopped_at_target) = false /\ ends_itself H
              /\ left_early e.(engine_base) e.(code_length) (engine_target e) e.(previous_rip) n steps))
  | None => ~ never_blocks H
  end.

Lemma handled e e' n fuel thread context w steps (s : State W) :
  (forall w, (raise_next context w).1 = ThreadEnded) ->
  engine_steps e' = map raw_platform_step e.(raw_steps) ++ steps ->
  runs e.(engine_base) e.(code_length) (engine_target e) e.(previous_rip) n steps
         e'.(engine_outcome) e'.(fault_address) e'.(engine_stopped_at_target) ->
  thread_ran e n s (run_thread (S fuel) thread context (State_of w s.(calls) (Some e'))).
Proof.
  intros Ht Hs Hr. destruct (run_thread_leaves fuel thread context (State_of w (calls s) (Some e')) Ht) as [w' ->].
  exists e', steps. split; [done|]. split; [done | by left].
Qed.

(** A step after which the thread goes on. *)
Lemma stepped e step next n (s s1 : State W) r :
  reg_get (step_registers (raw_platform_step step)) RIP = next -> raw_rip step = e.(previous_rip) ->
  engine_target e <> Some next -> inside e.(engine_base) e.(code_length) next ->
  thread_ran (set_previous (record_step e step) next) (S n) s1 r -> thread_ran e (S (S n)) s r.
Proof.
  intros Hrip Hprev Hnot Hin. destruct r as [[[] s']|]; [|done]. intros (e' & steps & Hg & Hs & Hr).
  exists e', (raw_platform_step step :: steps). split; [done|]. split.
  { rewrite Hs. cbn. by rewrite map_app, <- app_assoc. }
  cbn [set_previous record_step engine_base code_length previous_rip] in Hr. rewrite <- Hrip in Hr, Hin, Hnot.
  change (engine_target (set_previous (record_step e step) _)) with (engine_target e) in Hr.
  rewrite <- Hprev. change (raw_rip step) with (step_rip (raw_platform_step step)). destruct Hr as [Hr | (Ho & Ht & He & Hr)].
  - left. by apply runs_step.
  - right. split; [done|]. split; [done|]. split; [done|]. by apply left_early_step.
Qed.

Lemma run_thread_spec n thread context e (s : State W) :
  s.(g_engine) = Some e -> e.(active) = true -> e.(thread_id) = thread ->
  (forall w, (raise_next e.(saved_context) w).1 = ThreadEnded) -> traps context = true ->
  e.(engine_stopped_at_target) = false -> e.(engine_outcome) = OFinished ->
  Z.of_nat (length e.(raw_steps)) + Z.of_nat (S n) = e.(engine_max_steps) ->
  thread_ran e (S n) s (run_thread (S (S n)) thread context s).
Proof.
  revert e context s. induction n as [n IH] using lt_wf_ind. intros e context s Hg Hact Hid Hsaved Htrap Hat Hout Hmax.
  remember (S n) as fuel eqn:Efuel. cbn [run_thread]. unfold mbind, StateM_bind at 1, kernel.
  destruct (raise_next context (world s)) as [[record context'| |] w] eqn:Eraised.
  2: { exists e, []. split; [done|]. split; [unfold engine_steps; by rewrite Hout, bool_decide_false by done|].
       right. split; [done|]. split; [done|]. split; [|split; [cbn; lia | by left]].
       exists context, (world s). by rewrite Eraised. }
  2: { intros Hb. apply (Hb context (world s)). by rewrite Eraised. }
  unfold StateM_bind, get_engine, set_engine. cbn [g_engine world calls].
  rewrite Hg. unfold bme_veh. rewrite Hact, Hid, Z.eqb_refl. cbn [negb orb].
  destruct (ExceptionCode record =? EXCEPTION_SINGLE_STEP).
  - cbv zeta. set (step := {| raw_rip := _ |}). set (next := context_reg context' RIP).
    assert (reg_get (step_registers (raw_platform_step step)) RIP = next) as Hrip by done.
    cbn [record_step engine_base code_length has_target target_address engine_max_steps raw_steps saved_context].
    pose proof (engine_target_test e next) as Htarget. pose proof (inside_test (engine_base e) (code_length e) next) as Hinside.
    assert (forall e', engine_outcome e' <> OFaulted -> raw_steps e' = raw_steps e ++ [step] ->
      engine_steps e' = map raw_platform_step (raw_steps e) ++ [raw_platform_step step]) as Hsteps.
    { intros e' Hf E. unfold engine_steps. by rewrite E, map_app, bool_decide_false, app_nil_r. }
    rewrite Efuel. destruct (has_target e && (next =? target_address e)) eqn:Et.
    { eapply handled; [done | by apply Hsteps|].
      cbn. apply (runs_target _ _ _ _ _ (raw_platform_step step)); [done | done|]. by apply Htarget. }
    assert (engine_target e <> Some next) as Hnot by (intros E%Htarget; congruence).
    destruct ((next <? engine_base e) || _) eqn:Eo.
    { eapply handled; [done | by apply Hsteps|].
      cbn. rewrite Hat. apply (runs_finished _ _ _ _ _ (raw_platform_step step)); [done | done | done|].
      intros Hi%Hinside. congruence. }
    assert (inside (engine_base e) (code_length e) next) as Hin by (by apply Hinside).
    rewrite length_app. cbn [length]. destruct (Z.leb_spec (engine_max_steps e) (Z.of_nat (length (raw_steps e) + 1))) as [Hc|Hc].
    { assert (n = 0%nat) as -> by lia.
      eapply handled; [done | by apply Hsteps|].
      cbn. rewrite Hat. by apply (runs_cap _ _ _ _ (raw_platform_step step)). }
    destruct n as [|n]; [lia|].
    eapply (stepped e step next); [done | done | done | done|].
    apply (IH n ltac:(lia)); [done | done | done | done | apply set_trap_traps | done | done | cbn; rewrite length_app; cbn [length]; lia].
  - rewrite Efuel. destruct (ExceptionCode record =? EXCEPTION_BREAKPOINT).
    + eapply (handled _ _ _ _ _ _ _ []); [done | by unfold engine_steps; cbn [raw_steps engine_outcome stop_engine]; rewrite bool_decide_false by done|]. cbn. rewrite Hat. apply runs_breakpoint.
    + destruct (fault_memory e record) as [m a].
      eapply (handled _ _ _ _ _ _ _ [_]); [done | done|]. cbn. rewrite Hat.
      by apply (runs_fault _ _ _ _ _ {| step_rip := ExceptionAddress record; step_registers := _; step_faulted := true |}).
Qed.
End threads.

(** ** What a run gives back

    [gives m s Q]: the code [m] gives back a result and a state that satisfy [Q] from the
    state [s], or does not return, which only a thread that blocks or that does not start
    as it should can bring about. *)
Section gives.
Context {W : Type} `{H : WindowsKernel W}.

Definition gives {A} (m : M W A) (s : State W) (Q : A -> State W -> Prop) : Prop :=
  match m s with
  | Some (x, s') => Q x s'
  | None => ~ (startup_law H /\ never_blocks H)
  end.

Lemma gives_ret {A} (x : A) s (Q : A -> State W -> Prop) : Q x s -> gives (mret x) s Q.
Proof. done. Qed.

Lemma gives_bind {A B} (m : M W A) (k : A -> M W B) s Q :
  gives m s (fun x s' => gives (k x) s' Q) -> gives (m ≫= k) s Q.
Proof.
  unfold gives at 1 3, mbind, StateM_bind. by destruct (m s) as [[x s']|].
Qed.

Lemma gives_kernel {A} (f : W -> A * W) s (Q : A -> State W -> Prop) :
  (forall x w, f s.(world) = (x, w) -> Q x (State_of w s.(calls) s.(g_engine))) -> gives (kernel f) s Q.
Proof.
  intros Hq. unfold gives, kernel. destruct (f (world s)) as [x w] eqn:E. by apply Hq.
Qed.

Lemma gives_logged {A} (f : W -> A * W) (call : A -> Call) s (Q : A -> State W -> Prop) :
  (forall x w, f s.(world) = (x, w) -> Q x (State_of w (s.(calls) ++ [call x]) s.(g_engine))) ->
  gives (logged f call) s Q.
Proof.
  intros Hq. unfold gives, logged. destruct (f (world s)) as [x w] eqn:E. by apply Hq.
Qed.

Lemma gives_set_engine e s (Q : unit -> State W -> Prop) :
  Q tt (State_of s.(world) s.(calls) e) -> gives (set_engine e) s Q.
Proof. done. Qed.

Lemma gives_get_engine s (Q : option Engine -> State W -> Prop) : Q s.(g_engine) s -> gives get_engine s Q.
Proof. done. Qed.

(** *** Resources

    What the log of a run has acquired and not released: regions, threads, handlers. *)

Definition non_null (addresses : list Z) : list Z := List.filter (fun a => negb (a =? 0)) addresses.

Definition allocated (l : list Call) : list Z :=
  omap (fun c => match c with CallAlloc a => if a =? 0 then None else Some a | _ => None end) l.
Definition freed (l : list Call) : list Z := omap (fun c => match c with CallFree a => Some a | _ => None end) l.
Definition opened (l : list Call) : list Z := omap (fun c => match c with CallCreate t => t | _ => None end) l.
Definition closed (l : list Call) : list Z := omap (fun c => match c with CallClose t => Some t | _ => None end) l.
Definition added (l : list Call) : list Z := omap (fun c => match c with CallAddHandler h => h | _ => None end) l.
Definition removed (l : list Call) : list Z := omap (fun c => match c with CallRemoveHandler h => Some h | _ => None end) l.

Record held (l : list Call) (regions threads handlers : list Z) : Prop := {
  held_regions : allocated l = freed l ++ regions;
  held_threads : opened l = closed l ++ threads;
  held_handlers : added l = removed l ++ handlers;
}.

Ltac hold := let H1 := fresh in let H2 := fresh in let H3 := fresh in intros [H1 H2 H3]; split;
  unfold allocated, freed, opened, closed, added, removed, non_null in *; rewrite !omap_app, ?H1, ?H2, ?H3; cbn;
  rewrite ?app_nil_r, <- ?app_assoc; try done.

Lemma held_alloc l a r t h : held l r t h -> held (l ++ [CallAlloc a]) (r ++ non_null [a]) t h.
Proof. hold. all: by destruct (a =? 0). Qed.

Lemma held_free l a r t h : held l (a :: r) t h -> held (l ++ [CallFree a]) r t h.
Proof. hold. Qed.

Lemma held_create l thread r h : held l r [] h -> held (l ++ [CallCreate thread]) r (option_list thread) h.
Proof. hold. all: by destruct thread. Qed.

Lemma held_close l thread r h : held l r [thread] h -> held (l ++ [CallClose thread]) r [] h.
Proof. hold. Qed.

Lemma held_add l handler r t : held l r t [] -> held (l ++ [CallAddHandler handler]) r t (option_list handler).
Proof. hold. all: by destruct handler. Qed.

Lemma held_remove l handler r t : held l r t [handler] -> held (l ++ [CallRemoveHandler handler]) r t [].
Proof. hold. Qed.

Lemma held_wait l thread r t h : held l r t h -> held (l ++ [CallWait thread]) r t h.
Proof. hold. Qed.

Lemma held_terminate l thread r t h : held l r t h -> held (l ++ [CallTerminate thread]) r t h.
Proof. hold. Qed.

Lemma gives_vm_free a r t h s (Q : unit -> State W -> Prop) :
  held s.(calls) (non_null [a] ++ r) t h ->
  (forall w l, held l r t h -> Q tt (State_of w l s.(g_engine))) -> gives (vm_free a) s Q.
Proof.
  intros Hh Hq. unfold vm_free. unfold non_null in Hh. cbn [List.filter] in Hh. destruct (a =? 0); cbn [negb app] in *.
  - apply gives_ret. destruct s as [w l g]. by apply Hq.
  - apply gives_logged. intros [] w _. by apply Hq, held_free.
Qed.

Lemma gives_release regions t h s (Q : unit -> State W -> Prop) :
  held s.(calls) (non_null [regions.(buffer); regions.(stack); regions.(data)]) t h ->
  (forall w l, held l [] t h -> Q tt (State_of w l s.(g_engine))) -> gives (release_regions regions) s Q.
Proof.
  intros Hh Hq. unfold release_regions.
  change [buffer regions; stack regions; data regions] with ([buffer regions] ++ [stack regions] ++ [data regions]) in Hh.
  unfold non_null in Hh. rewrite !List.filter_app in Hh.
  apply gives_bind. eapply gives_vm_free; [exact Hh|]. intros w1 l1 H1.
  apply gives_bind. eapply gives_vm_free; [exact H1|]. intros w2 l2 H2.
  eapply gives_vm_free; [rewrite app_nil_r; exact H2|]. exact Hq.
Qed.

Lemma gives_terminate thread r h s (Q : unit -> State W -> Prop) :
  held s.(calls) r [thread] h ->
  (forall w l, held l r [] h -> Q tt (State_of w l s.(g_engine))) -> gives (terminate_thread thread) s Q.
Proof.
  intros Hh Hq. unfold terminate_thread. apply gives_bind, gives_logged. intros terminated w _.
  apply gives_bind. destruct terminated.
  - apply gives_logged. intros waited w' _. apply gives_logged. intros [] w'' _.
    by apply Hq, held_close, held_wait, held_terminate.
  - apply gives_ret, gives_logged. intros [] w' _. by apply Hq, held_close, held_terminate.
Qed.
End gives.

(** ** The contract *)

Lemma seed_context_effective request base initial_rsp data_base context :
  well_formed request.(request_seed) ->
  let recorded := seed_general request base initial_rsp data_base request.(request_seed) in
  seed_effective request (seed_context request base initial_rsp data_base context recorded).2
    base initial_rsp data_base.
Proof.
  intros Hwf. pose proof (wf_gpr_length _ Hwf) as Hgpr. cbv zeta. unfold seed_context.
  set (context0 := {| context_reg := _ |}). set (recorded := snapshot_fpu _ _).
  pose proof (write_stack_recorded put_float 8 0 (request_seed request).(st) (request_seed request).(fpu_tag_word_abridged)
    context0.(FloatRegisters) context0.(TagWord) recorded.(st)) as Hst.
  destruct (write_stack _ _ _ _ _ _ _ _) as [[registers tag_word] recorded_st].
  destruct Hst as [Hst1 Hst2].
  { unfold recorded, snapshot_fpu. cbn [st]. rewrite length_imap. unfold seed_general, reg_set. done. }
  cbn [snd] in Hst1, Hst2 |- *.
  assert (forall reg, reg_get {| gpr := recorded.(gpr); rip := recorded.(rip); rflags := recorded.(rflags);
      xmm := (request_seed request).(xmm); mxcsr := recorded.(mxcsr); st := recorded_st;
      fpu_control_word := recorded.(fpu_control_word); fpu_status_word := recorded.(fpu_status_word);
      fpu_tag_word_abridged := tag_word |} reg
    = reg_get (seed_general request base initial_rsp data_base (request_seed request)) reg) as Hreg by (by intros []).
  split; try done; rewrite ?Hreg; unfold seed_general.
  - do 4 rewrite reg_get_set_ne by done. by apply reg_get_set_eq.
  - intros reg Hr. rewrite Hreg. unfold seed_general. destruct Hr as [-> | ->].
    + do 3 rewrite reg_get_set_ne by done. apply reg_get_set_eq. by rewrite !length_gpr_reg_set.
    + do 2 rewrite reg_get_set_ne by done. apply reg_get_set_eq. by rewrite !length_gpr_reg_set.
  - intros reg H1 H2 H3 H4 H5. rewrite Hreg. unfold seed_general. by rewrite !reg_get_set_ne by congruence.
  - intros i Hi Hbit. cbn [st]. rewrite Hst2, Hbit, bool_decide_true by lia. cbn [andb]. by rewrite Nat.sub_0_r.
Qed.

Lemma seed_context_traps request base initial_rsp data_base context recorded :
  traps (seed_context request base initial_rsp data_base context recorded).1 = true.
Proof.
  unfold seed_context. destruct (write_stack _ _ _ _ _ _ _ _) as [[registers tag_word] recorded_st].
  unfold traps. cbn [fst context_reg]. rewrite wrap_testbit by lia. rewrite Z.lor_spec.
  replace (Z.testbit RFLAGS_TRAP_FLAG 8) with true by reflexivity. by rewrite orb_true_r.
Qed.

(** The result of a run whose code has ended the thread: that of a run that went on, from
    the effective seed, for fewer steps than the cap. *)
Record run_left (request : PlatformRunRequest) (result : PlatformRunResult) : Prop := {
  left_error : result.(result_error) = [];
  left_instrumentation : result.(result_instrumentation_detected) = false;
  left_outcome : result.(result_outcome) = OFinished;
  left_target : result.(result_stopped_at_target) = false;
  left_steps : exists code_base initial_rsp data_base,
    seed_effective request result.(result_seed) code_base initial_rsp data_base
    /\ left_early code_base (Z.of_nat (length request.(request_code)))
         ((fun offset => u64 (code_base + offset)) <$> request.(request_stop_offset)) code_base
         (Z.to_nat (capped_steps request.(request_max_steps))) result.(result_steps);
}.

Section contract.
Context {W : Type} `{H : WindowsKernel W} `{HS : WindowsSystem W} {memory : Memory} (fuel : nat).
Context (request : PlatformRunRequest).
Hypothesis Hwf : well_formed request.(request_seed).
Hypothesis Hmax : 0 <= request.(request_max_steps).
Hypothesis Hcode : request.(request_code) <> [].

(** The contract, or a run that its own code has ended; and nothing left behind. *)
Definition clean (r : PlatformRunResult) (s : State W) : Prop :=
  (startup_law H -> run_result request r \/ (run_left request r /\ ends_itself H))
  /\ held s.(calls) [] [] [] /\ s.(g_engine) = None.

Abbreviation regions_of r := (non_null [r.(buffer); r.(stack); r.(data)]).

Lemma gives_fail regions result error (s : State W) :
  held s.(calls) (regions_of regions) [] [] -> s.(g_engine) = None ->
  result.(result_instrumentation_detected) = false -> error <> [] ->
  gives (fail regions result error) s clean.
Proof.
  intros Hh Hg Hi He. apply gives_bind. eapply gives_release; [exact Hh|]. intros w l Hl. apply gives_ret.
  split; [left; by apply refused | by split].
Qed.

Lemma gives_fail_thread thread regions result error (s : State W) :
  held s.(calls) (regions_of regions) [thread] [] ->
  result.(result_instrumentation_detected) = false -> error <> [] ->
  gives (fail_thread thread regions result error) s clean.
Proof.
  intros Hh Hi He. apply gives_bind. eapply gives_terminate; [exact Hh|]. intros w1 l1 H1.
  apply gives_bind. eapply gives_release; [exact H1|]. intros w2 l2 H2.
  apply gives_bind, gives_set_engine, gives_ret. split; [left; by apply refused | by split].
Qed.

(** An engine before its thread runs, for the code at [base]. *)
Record ready (base : Z) (e : Engine) : Prop := {
  ready_base : e.(engine_base) = base;
  ready_length : e.(code_length) = Z.of_nat (length request.(request_code));
  ready_cap : e.(engine_max_steps) = capped_steps request.(request_max_steps);
  ready_target : engine_target e = (fun offset => u64 (base + offset)) <$> request.(request_stop_offset);
  ready_previous : e.(previous_rip) = base;
  ready_steps : e.(raw_steps) = [];
  ready_stopped : e.(engine_stopped_at_target) = false;
  ready_outcome : e.(engine_outcome) = OFinished;
}.

Lemma new_engine_ready base : ready base (new_engine request base).
Proof.
  split; try done. unfold engine_target, new_engine. cbn [has_target target_address].
  by destruct (request_stop_offset request).
Qed.

Lemma set_thread_ready base e thread context is_active : ready base e -> ready base (set_thread e thread context is_active).
Proof. intros []. by split. Qed.

(** The run of the thread, and what its engine says. *)
Lemma gives_run_thread base e thread context (s : State W) (Q : unit -> State W -> Prop) :
  ready base e -> s.(g_engine) = Some e -> e.(active) = true -> e.(thread_id) = thread -> traps context = true ->
  (startup_law H -> forall w, (raise_next e.(saved_context) w).1 = ThreadEnded) ->
  let n := Z.to_nat e.(engine_max_steps) in
  (forall w e' (ran : startup_law H -> thread_ran e n s (Some (tt, State_of w s.(calls) (Some e')))),
     Q tt (State_of w s.(calls) (Some e'))) ->
  gives (run_thread (S n) thread context) s Q.
Proof.
  intros [Hb Hl Hm Ht Hp Hr Hs Ho] Hg Hact Hid Htrap Hsaved n Hq. subst n. pose proof (capped_steps_range _ Hmax) as Hcap.
  assert (startup_law H -> thread_ran e (Z.to_nat (engine_max_steps e)) s
    (run_thread (S (Z.to_nat (engine_max_steps e))) thread context s)) as Hran.
  { intros law. replace (Z.to_nat (engine_max_steps e)) with (S (pred (Z.to_nat (engine_max_steps e)))) by lia.
    apply run_thread_spec; auto. rewrite Hr. cbn [length]. lia. }
  unfold gives. destruct (run_thread _ thread context s) as [[[] s1]|] eqn:E.
  - apply run_thread_keeps in E as [Hc Hg1]. destruct Hg1 as [e1 Hg1]; [by eexists|].
    destruct s1 as [w c g]. cbn [calls g_engine] in Hc, Hg1. subst c g. by apply Hq.
  - intros [law Hb']. by apply (Hran law).
Qed.

(** The result of the engine of a thread that has ended. *)
Lemma ran_result base rsp data_base e e' s s' result :
  ready base e -> request.(request_stop_offset) <> Some 0 ->
  result.(result_instrumentation_detected) = false -> result.(result_error) = [] -> result.(result_steps) = [] ->
  seed_effective request result.(result_seed) base rsp data_base -> s'.(g_engine) = Some e' ->
  thread_ran e (Z.to_nat e.(engine_max_steps)) s (Some (tt, s')) ->
  run_result request (engine_result e' result) \/ (run_left request (engine_result e' result) /\ ends_itself H).
Proof.
  intros [Hb Hl Hm Ht Hp Hr Hs Ho] H0 Hi He Hsteps Hseed Hg (e2 & steps & Hg2 & Hs2 & Hr2).
  rewrite Hg in Hg2. injection Hg2 as <-. rewrite Hr in Hs2. cbn [map app] in Hs2.
  assert (result_steps (engine_result e' result) = steps) as Esteps.
  { rewrite <- Hs2. cbn [engine_result result_steps]. by rewrite Hsteps. }
  rewrite Hb, Hl, Ht, Hp, Hm in Hr2. destruct Hr2 as [Hr2 | (Eo & Et & Hends & Hleft)].
  - left. eapply run_done; [exact He | exact Hi | exact Hcode | exact Hseed |].
    rewrite bool_decide_false by done. by rewrite Esteps.
  - right. split; [|done]. split; [done | done | done | done|]. exists base, rsp, data_base. by rewrite Esteps.
Qed.

Lemma gives_trace_thread thread regions base rsp data_base e context result (s : State W) :
  held s.(calls) (regions_of regions) [thread] [] ->
  ready base e -> (startup_law H -> forall w, (raise_next e.(saved_context) w).1 = ThreadEnded) -> traps context = true ->
  request.(request_stop_offset) <> Some 0 ->
  result.(result_instrumentation_detected) = false -> result.(result_error) = [] -> result.(result_steps) = [] ->
  seed_effective request result.(result_seed) base rsp data_base ->
  gives (trace_thread request thread regions e context result) s clean.
Proof.
  intros Hh Hready Hsaved Htrap H0 Hi He Hsteps Hseed. unfold trace_thread. apply gives_bind, gives_logged.
  intros [handler|] w _; [|apply gives_fail_thread; [|done|done]; by apply (held_add _ None)].
  apply gives_bind, gives_set_engine, gives_bind, gives_kernel. intros resumed w1 _. cbn [calls g_engine].
  assert (held (calls s ++ [CallAddHandler (Some handler)]) (regions_of regions) [thread] [handler]) as Hh1
    by (by apply (held_add _ (Some handler))).
  destruct resumed; cbn [negb].
  2: { apply gives_bind, gives_set_engine, gives_bind, gives_logged. intros [] w2 _. cbn [calls g_engine].
       apply gives_fail_thread; [by apply held_remove | done | done]. }
  assert (ready base (set_thread e (thread_id e) (saved_context e) true)) as Hready1 by (by apply set_thread_ready).
  apply gives_bind. eapply (gives_run_thread base (set_thread e (thread_id e) (saved_context e) true)); [done..|].
  cbv zeta. cbn [calls]. intros w2 e2 Hran.
  apply gives_bind, gives_logged. intros waited w3 _. cbn [calls g_engine].
  apply gives_bind, gives_logged. intros [] w4 _. cbn [calls g_engine].
  assert (held ((calls s ++ [CallAddHandler (Some handler)]) ++ [CallWait thread] ++ [CallRemoveHandler handler])
    (regions_of regions) [thread] []) as Hh2 by (rewrite app_assoc; by apply held_remove, held_wait).
  rewrite app_assoc in Hh2. destruct waited; cbn [negb]; [|by apply gives_fail_thread].
  apply gives_bind, gives_logged. intros [] w5 _. cbn [calls g_engine].
  apply gives_bind, gives_get_engine. cbn [g_engine]. apply gives_bind.
  eapply gives_release; [cbn [calls]; apply held_close; exact Hh2|]. intros w6 l6 H6.
  apply gives_bind, gives_set_engine, gives_ret. split; [|by split]. intros law.
  by eapply (ran_result base rsp data_base); [exact Hready1 | | | | | | | exact (Hran law)].
Qed.

Lemma gives_prepare_thread thread regions base rsp data_base e result (s : State W) :
  held s.(calls) (regions_of regions) [thread] [] -> ready base e ->
  (startup_law H -> forall context, created_context thread s.(world) context -> forall w, (raise_next context w).1 = ThreadEnded) ->
  result = set_seed PlatformRunResult_init (seed_general request base rsp data_base request.(request_seed)) ->
  gives (prepare_thread request thread regions e rsp data_base result) s clean.
Proof.
  intros Hh Hready Hcreated ->. unfold prepare_thread. apply gives_bind, gives_kernel. intros number w Enumber.
  apply gives_bind, gives_set_engine. cbn [calls g_engine world].
  destruct (number =? 0); [by apply gives_fail_thread|].
  apply gives_bind, gives_kernel. cbn [calls g_engine world]. intros [context|] w1 E; [|by apply gives_fail_thread].
  assert (startup_law H -> forall w, (raise_next context w).1 = ThreadEnded) as Hsaved
    by (intros law; apply (Hcreated law); unfold created_context; rewrite Enumber; cbn [snd]; by rewrite E).
  apply gives_bind, gives_set_engine. cbn [calls g_engine world]. cbv zeta.
  destruct (negb (Z.land _ _ =? 0)); [by apply gives_fail_thread|].
  cbn [set_thread engine_base set_seed result_seed]. rewrite (ready_base _ _ Hready).
  pose proof (seed_context_effective request base rsp data_base context Hwf) as Heff.
  cbv zeta in Heff.
  pose proof (seed_context_traps request base rsp data_base context
    (seed_general request base rsp data_base (request_seed request))) as Htrap.
  destruct (seed_context _ _ _ _ _ _) as [context' recorded]. cbn [fst snd] in Heff, Htrap.
  apply gives_bind, gives_kernel. cbn [calls g_engine world]. intros ok w2 _.
  destruct ok; cbn [negb]; [|by apply gives_fail_thread].
  destruct (bool_decide (request_stop_offset request = Some 0)) eqn:E0.
  - apply gives_bind. eapply gives_terminate; [exact Hh|]. intros w3 l3 H3.
    apply gives_bind. eapply gives_release; [exact H3|]. intros w4 l4 H4.
    apply gives_bind, gives_set_engine, gives_ret. split; [|by split]. intros _. left.
    eapply run_done; [done | done | exact Hcode | exact Heff|]. by rewrite E0.
  - apply bool_decide_eq_false in E0.
    eapply gives_trace_thread; [exact Hh | | done | exact Htrap | exact E0 | done | done | done | exact Heff].
    by apply set_thread_ready, set_thread_ready.
Qed.

Lemma gives_vm_commit address size protection s (Q : bool -> State W -> Prop) :
  (forall ok w, Q ok (State_of w s.(calls) s.(g_engine))) -> gives (vm_commit address size protection) s Q.
Proof. intros Hq. apply gives_bind, gives_kernel. intros r w _. by apply gives_ret. Qed.

Lemma gives_and_then (a b : M W bool) s (Q : bool -> State W -> Prop) :
  gives a s (fun x s' => if x then gives b s' Q else Q false s') -> gives (and_then a b) s Q.
Proof.
  intros Hq. apply gives_bind. unfold gives at 1 in Hq. unfold gives at 1. by destruct (a s) as [[[] s']|].
Qed.

Lemma gives_prepare_regions code_region regions (s : State W) :
  held s.(calls) (regions_of regions) [] [] -> s.(g_engine) = None ->
  gives (prepare_regions request code_region regions (set_seed PlatformRunResult_init request.(request_seed))) s clean.
Proof.
  intros Hh Hg. unfold prepare_regions. cbv zeta.
  destruct ((buffer regions =? 0) || _ || _); [by apply gives_fail|].
  apply gives_bind.
  assert (forall ok w, gives
    (if negb ok then fail regions (set_seed PlatformRunResult_init (request_seed request)) "VirtualAlloc commit failed."
     else prepare_code request code_region regions (set_seed PlatformRunResult_init (request_seed request)))
    (State_of w (calls s) (g_engine s)) clean) as Hk.
  { intros [] w; cbn [negb]; [|by apply gives_fail]. unfold prepare_code. cbv zeta.
    apply gives_bind, gives_kernel. intros [] w1 _. cbn [calls g_engine].
    apply gives_bind, gives_kernel. intros [] w2 _; cbn [calls g_engine negb]; [|by apply gives_fail].
    apply gives_bind, gives_kernel. intros [] w3 _; cbn [calls g_engine negb]; [|by apply gives_fail].
    apply gives_bind, gives_set_engine, gives_bind, gives_logged. cbn [calls g_engine world].
    intros [thread|] w4 Ethread.
    - eapply gives_prepare_thread; [by apply (held_create _ (Some thread)) | apply new_engine_ready | | reflexivity].
      intros law context Hcontext. eapply law; [by rewrite Ethread | by rewrite Ethread].
    - apply gives_bind, gives_set_engine, gives_fail; [by apply (held_create _ None) | done | done | done]. }
  apply gives_and_then, gives_vm_commit. intros [] w1; [|apply (Hk false)].
  apply gives_and_then, gives_vm_commit. intros [] w2; [|apply (Hk false)].
  apply gives_vm_commit. intros ok w3. apply (Hk ok).
Qed.
End contract.

(** A run follows the contract, and leaves nothing behind. *)
Lemma run_windows_clean {W : Type} `{H : WindowsKernel W} `{HS : WindowsSystem W} {memory : Memory} fuel request w :
  is_Some (instrumentation_detected fuel w) ->
  well_formed request.(request_seed) -> 0 <= request.(request_max_steps) ->
  gives (run_windows fuel request) (State_of w [] None) (clean request).
Proof.
  intros [instrumented Hi] Hwf Hmax. unfold run_windows. unfold gives. cbn [world]. rewrite Hi.
  pose proof (prepare_platform_run_spec request instrumented) as Hprep.
  destruct (prepare_platform_run _ _ _) as [go_on result] eqn:Ep.
  destruct Hprep as (Hseed & Hsteps & Hgo & Hgo1 & Hgo2). destruct go_on; cbn [negb].
  2: { split; [|by split]. intros _. left.
       destruct (Hgo2 eq_refl) as [He Ho]. apply run_refused; [done | tauto|].
       intros Hins. split; [|done]. by eapply prepare_refusal. }
  specialize (Hgo1 eq_refl) as ->. destruct (proj1 Hgo eq_refl) as (Hcode & _ & _). cbv zeta.
  match goal with |- match ?m ?s0 with _ => _ end => change (gives m s0 (clean request)) end.
  unfold vm_alloc, vm_alloc_at.
  apply gives_bind, gives_logged. intros b w1 _. apply gives_bind, gives_logged. intros st w2 _.
  apply gives_bind, gives_logged. intros d w3 _. cbn [calls g_engine world].
  apply (gives_prepare_regions request Hwf Hmax Hcode); [|done].
  cbn [buffer stack data]. change [b; st; d] with ([b] ++ [st] ++ [d]). unfold non_null.
  rewrite !List.filter_app, app_assoc. change (held (((([] ++ [CallAlloc b]) ++ [CallAlloc st]) ++ [CallAlloc d]))
    ((([] ++ non_null [b]) ++ non_null [st]) ++ non_null [d]) [] []).
  by do 3 apply held_alloc.
Qed.

(** A run that returns has found out whether it is instrumented. *)
Lemma run_windows_returned {W : Type} `{H : WindowsKernel W} `{HS : WindowsSystem W} {memory : Memory} fuel request w result s :
  well_formed request.(request_seed) -> 0 <= request.(request_max_steps) ->
  run_platform_steps_windows fuel request w = Some (result, s) -> clean request result s.
Proof.
  intros Hwf Hmax Hrun. unfold run_platform_steps_windows in Hrun.
  assert (is_Some (instrumentation_detected fuel w)) as Hi.
  { unfold run_windows in Hrun. cbn [world] in Hrun. destruct (instrumentation_detected fuel w); [by eexists | done]. }
  pose proof (run_windows_clean fuel request w Hi Hwf Hmax) as Hgives. unfold gives in Hgives. by rewrite Hrun in Hgives.
Qed.

(** The exception-handler tracer is a platform, for code that does not end its own thread. *)
Definition windows_platform {W : Type} `{H : WindowsKernel W} `{HS : WindowsSystem W} {memory : Memory} (fuel : nat)
  (laws : thread_laws H) : Platform W.
Proof.
  refine {| run_platform_steps request w := (fun x => (x.1, x.2.(world))) <$> run_platform_steps_windows fuel request w |}.
  intros request w result w' Hwf Hmax Hrun.
  destruct (run_platform_steps_windows fuel request w) as [[r s]|] eqn:E; [|done]. injection Hrun as <- _.
  apply run_windows_returned in E as [Hr _]; [|done|done].
  destruct (Hr (law_startup _ laws)) as [? | [_ Hends]]; [done|]. by destruct (law_stays _ laws).
Defined.

(** ** Properties *)

(** C3. The exception-handler tracer implements the contract of the platform.  A thread that
    is given back the context it was created with runs its start routine, which only
    returns; that is all the tracer relies on.  Every run that returns then either says why
    it was refused or failed, or has executed the abstract single-step machine from the
    effective seed of the request, for the handler's decisions on every exception of the
    thread; or the code has ended its own thread, and the run is a beginning of such a run,
    which it reports as finished.  And a run returns unless its thread blocks, once the
    process list can be read. *)
Theorem windows_refines_platform {W : Type} `{H : WindowsKernel W} `{HS : WindowsSystem W} {memory : Memory} fuel request w :
  startup_law H -> well_formed request.(request_seed) -> 0 <= request.(request_max_steps) ->
  (forall result s, run_platform_steps_windows fuel request w = Some (result, s) ->
     run_result request result \/ (run_left request result /\ ends_itself H))
  /\ (is_Some (instrumentation_detected fuel w) -> never_blocks H ->
       exists result s, run_platform_steps_windows fuel request w = Some (result, s)).
Proof.
  intros law Hwf Hmax. split.
  - intros result s Hrun. apply run_windows_returned in Hrun as [Hr _]; [auto | done | done].
  - intros Hi Hb. pose proof (run_windows_clean fuel request w Hi Hwf Hmax) as Hgives. unfold gives in Hgives.
    change (run_platform_steps_windows fuel request w) with (run_windows fuel request (State_of w [] None)).
    destruct (run_windows fuel request _) as [[r s]|]; [by eexists _, _ | by destruct Hgives].
Qed.

(** C11. No run that returns leaves anything behind in the process, whatever its thread does:
    on every path the regions that were reserved are freed once and in order, the thread
    that was created is closed once, the handler that was installed is removed once, and no
    engine stays reachable by the handler. *)
Theorem windows_releases_resources {W : Type} `{H : WindowsKernel W} `{HS : WindowsSystem W} {memory : Memory}
    fuel request w result s :
  well_formed request.(request_seed) -> 0 <= request.(request_max_steps) ->
  run_platform_steps_windows fuel request w = Some (result, s) ->
  allocated s.(calls) = freed s.(calls) /\ opened s.(calls) = closed s.(calls) /\ added s.(calls) = removed s.(calls)
  /\ s.(g_engine) = None.
Proof.
  intros Hwf Hmax Hrun. apply run_windows_returned in Hrun as (_ & [H1 H2 H3] & Hg); [|done|done].
  by rewrite H1, H2, H3, !app_nil_r.
Qed.

(** *** A concrete thread

    The world counts the exceptions; each single step moves to the next byte.  A thread
    with [leaves_early] ends after its first step. *)
Definition example_context : CONTEXT := CONTEXT_zero.

Definition example_step (w : nat) (context : CONTEXT) : CONTEXT := {|
  context_reg reg := match reg with RIP => context.(context_reg) RIP + 1 | _ => context.(context_reg) reg end;
  MxCsr := context.(MxCsr); ControlWord := context.(ControlWord); StatusWord := context.(StatusWord);
  TagWord := context.(TagWord); FltMxCsr := context.(FltMxCsr); MxCsr_Mask := context.(MxCsr_Mask);
  FloatRegisters := context.(FloatRegisters); XmmRegisters := context.(XmmRegisters);
|}.

Definition example_windows (leaves_early : bool) : WindowsKernel nat := {|
  VirtualAlloc_reserve address size w :=
    (if address =? 0 then let base := 0x10000 * Z.of_nat (S w) in if base + size <? 2 ^ 64 then base else 0 else address, S w);
  VirtualAlloc_commit address _ _ w := (address, w);
  VirtualProtect _ _ _ w := (true, w);
  VirtualFree _ w := w;
  copy_code _ _ w := w;
  FlushInstructionCache _ _ w := (true, w);
  CreateThread w := (Some 5, w);
  GetThreadId _ w := (9, w);
  GetThreadContext _ w := (Some example_context, w);
  SetThreadContext _ _ w := (true, w);
  ResumeThread _ w := (true, w);
  TerminateThread _ w := (true, w);
  WaitForSingleObject _ w := (true, w);
  CloseHandle _ w := w;
  AddVectoredExceptionHandler w := (Some 7, w);
  RemoveVectoredExceptionHandler _ w := w;
  raise_next context w :=
    (if traps context && negb (leaves_early && (3 <? w)%nat)
     then Raised {| ExceptionCode := EXCEPTION_SINGLE_STEP; ExceptionAddress := 0; ExceptionInformation := [] |}
            (example_step w context)
     else ThreadEnded, S w);
|}.

#[local] Instance example_system : WindowsSystem nat := {|
  get_environment_variable _ _ := (0, 203);
  get_module_handle _ _ := false;
  query_exported := false;
  nt_query _ _ := (0, 0, []);
  current_process_id := 7;
  buffer_address _ := 0x500000;
|}.

#[local] Instance example_pages : Memory := {| vm_page_size := 0x1000; vm_allocation_granularity := 0x10000 |}.

Definition example_windows_request : PlatformRunRequest := {|
  request_code := [0x90; 0x90; 0x90]; request_seed := Registers_init; request_max_steps := 10;
  request_stop_offset := None; request_seed_data_pointers := true |}.

Lemma example_startup leaves_early : startup_law (example_windows leaves_early).
Proof. intros w thread context _ [= <-] w'. reflexivity. Qed.

Lemma example_laws : thread_laws (example_windows false).
Proof.
  split; [apply example_startup|]. intros (context & w & Ht & He). cbn [raise_next example_windows] in He. by rewrite Ht in He.
Qed.

Lemma example_never_blocks leaves_early : never_blocks (example_windows leaves_early).
Proof. intros context w. cbn [raise_next example_windows fst]. by case_match. Qed.

(** The thread of the second run ends itself after a step. *)
Lemma windows_refines_platform_witness :
  (exists result s,
    run_platform_steps_windows (H := example_windows false) 1 example_windows_request 0%nat = Some (result, s)
    /\ (run_result example_windows_request result \/ (run_left example_windows_request result /\ ends_itself (example_windows false))))
  /\ forall result s,
    run_platform_steps_windows (H := example_windows true) 1 example_windows_request 0%nat = Some (result, s) ->
    run_result example_windows_request result \/ (run_left example_windows_request result /\ ends_itself (example_windows true)).
Proof.
  split.
  - destruct (windows_refines_platform (H := example_windows false) 1 example_windows_request 0%nat
      (example_startup false) Registers_init_well_formed ltac:(vm_compute; discriminate)) as [Hresult Hreturns].
    destruct (Hreturns ltac:(by eexists) (example_never_blocks false)) as (result & s & E).
    exists result, s. split; [exact E | exact (Hresult result s E)].
  - exact (proj1 (windows_refines_platform (H := example_windows true) 1 example_windows_request 0%nat
      (example_startup true) Registers_init_well_formed ltac:(vm_compute; discriminate))).
Defined.

Lemma windows_releases_resources_witness :
  exists result s,
    run_platform_steps_windows (H := example_windows true) 1 example_windows_request 0%nat = Some (result, s)
    /\ opened s.(calls) = closed s.(calls) /\ s.(g_engine) = None.
Proof.
  destruct (run_platform_steps_windows (H := example_windows true) 1 example_windows_request 0%nat) as [[r s]|] eqn:E;
    [|vm_compute in E; discriminate].
  exists r, s. split; [reflexivity|].
  destruct (windows_releases_resources (H := example_windows true) 1 example_windows_request 0%nat r s
    Registers_init_well_formed ltac:(vm_compute; discriminate) E) as (_ & Ho & _ & Hg).
  split; [exact Ho | exact Hg].
Defined.

Example example_windows_run :
  option_map (fun x => (x.1.(result_outcome), map step_rip x.1.(result_steps), x.2.(calls)))
    (run_platform_steps_windows (H := example_windows false) 1 example_windows_request 0%nat)
  = Some (OFinished, [0x10FFD; 0x10FFE; 0x10FFF],
      [CallAlloc 0x10000; CallAlloc 0x20000; CallAlloc 0x10000000; CallCreate (Some 5); CallAddHandler (Some 7);
       CallWait 5; CallRemoveHandler 7; CallClose 5; CallFree 0x10000; CallFree 0x20000; CallFree 0x10000000]).
Proof. vm_compute. reflexivity. Qed.

(** The run of a thread whose code ends it is reported as finished, although its last
    instruction is inside the input. *)
Example example_thread_ends :
  option_map (fun x => (x.1.(result_outcome), x.1.(result_error),
      map (fun s => reg_get s.(step_registers) RIP) x.1.(result_steps)))
    (run_platform_steps_windows (H := example_windows true) 1 example_windows_request 0%nat)
  = Some (OFinished, [], [0x10FFE]).
Proof. vm_compute. reflexivity. Qed.
