(* ===== verification/Engine.v ===== *)
(** * Engine: a run from its request to its trace ([src/src/bme_core.cpp],
    [format_hex64_string], [fault_access_action], [format_address_value] and
    [run_engine]), written against the contract of the platform layer. *)

From S2P Require Import Prelude Text Core Cpu Platform Linux Trace.

Local Open Scope Z_scope.

Section engine.
Context {fmt : Fmt} {memory : Memory}.

Definition format_hex64_string (value : Z) : str := format "0x{:016X}" [AInt value].

Definition fault_access_action (access : FaultAccess) : str :=
  match access with
  | FARead => "reading"
  | FAWrite => "writing"
  | FAExecute => "executing"
  | _ => "accessing"
  end.

(** The three regions of [format_address_value]: the label when the address is in one. *)
Definition format_code_address (trace : Trace) (address : Z) : option str :=
  let code_base := reg_get trace.(trace_seed) RIP in
  let size := Z.of_nat (length trace.(trace_code)) in
  if negb (code_base =? 0) && negb (bool_decide (trace.(trace_code) = [])) && (code_base <=? address) then
    let code_offset := address - code_base in
    if code_offset <? size then Some (format "code+{:04X}" [AInt code_offset])
    else if code_offset =? size then Some (format "code+{:04X} (end, guard)" [AInt code_offset])
    else if code_offset <? u64 (size + vm_page_size) then Some (format "code+{:04X} (guard)" [AInt code_offset])
    else None
  else None.

Definition format_stack_address (trace : Trace) (address : Z) : option str :=
  let stack_pointer := reg_get trace.(trace_seed) RSP in
  if negb (stack_pointer =? 0) then
    if stack_pointer <=? address then
      let stack_offset := address - stack_pointer in
      if stack_offset <? SCRATCH_STACK_HEADROOM then Some (format "stack+{:04X}" [AInt stack_offset])
      else if stack_offset =? SCRATCH_STACK_HEADROOM then Some (format "stack+{:04X} (end, guard)" [AInt stack_offset])
      else if stack_offset <? u64 (SCRATCH_STACK_HEADROOM + vm_page_size) then
        Some (format "stack+{:04X} (guard)" [AInt stack_offset])
      else None
    else
      let stack_offset := stack_pointer - address in
      if stack_offset <=? SCRATCH_STACK_BYTES - SCRATCH_STACK_HEADROOM then
        Some (format "stack-{:04X}" [AInt stack_offset])
      else if stack_offset <=? u64 (SCRATCH_STACK_BYTES - SCRATCH_STACK_HEADROOM + vm_page_size) then
        Some (format "stack-{:04X} (guard)" [AInt stack_offset])
      else None
  else None.

Definition format_data_address (address : Z) : option str :=
  let data_base := scratch_data_base in
  if data_base <=? address then
    let data_offset := address - data_base in
    if data_offset <? SCRATCH_DATA_BYTES then Some (format "data+{:04X}" [AInt data_offset])
    else if data_offset =? SCRATCH_DATA_BYTES then Some (format "data+{:04X} (end, guard)" [AInt data_offset])
    else if data_offset <? u64 (SCRATCH_DATA_BYTES + vm_page_size) then
      Some (format "data+{:04X} (guard)" [AInt data_offset])
    else None
  else if data_base - address <=? vm_page_size then
    Some (format "data-{:04X} (guard)" [AInt (data_base - address)])
  else None.

Definition format_address_value (trace : Trace) (address : Z) (normalized : bool) : str :=
  if normalized then
    match format_code_address trace address with
    | Some label => label
    | None =>
      match format_stack_address trace address with
      | Some label => label
      | None =>
        match format_data_address address with
        | Some label => label
        | None => format_hex64_string address
        end
      end
    end
  else format_hex64_string address.

(** ** The run *)

(** The trace of a request before it runs, and the assignments of the results to it. *)
Definition requested_trace (fingerprint : CPUFingerprint) (code : list Z) (seed : Registers) (max_steps : Z)
    (backend : DisasmBackend) (syntax : DisasmSyntax) (seed_data_pointers : bool) : Trace := {|
  cpu_fingerprint := Some fingerprint; trace_code := code; requested_seed := seed; requested_backend := backend;
  requested_syntax := syntax;
  effective_max_steps := Z.min (if negb (max_steps =? 0) then max_steps else 1) MAX_STEPS_LIMIT;
  seed_data_pointers := seed_data_pointers; trace_seed := Registers_init; execution_events := [];
  trace_outcome := OIdle; message := []; instrumentation_detected := false; stop_reason := [];
  stop_address := 0; fault_memory_address := None; fault_access := FANone;
|}.

Definition with_result (trace : Trace) (result : PlatformRunResult) : Trace := {|
  cpu_fingerprint := trace.(cpu_fingerprint); trace_code := trace.(trace_code);
  requested_seed := trace.(requested_seed); requested_backend := trace.(requested_backend);
  requested_syntax := trace.(requested_syntax); effective_max_steps := trace.(effective_max_steps);
  seed_data_pointers := trace.(seed_data_pointers); trace_seed := result.(result_seed);
  execution_events := trace.(execution_events); trace_outcome := result.(result_outcome);
  message := trace.(message); instrumentation_detected := result.(result_instrumentation_detected);
  stop_reason := trace.(stop_reason); stop_address := trace.(stop_address);
  fault_memory_address := result.(result_fault_memory_address); fault_access := result.(result_fault_access);
|}.

Definition with_events (trace : Trace) (events : list ExecutionEvent) : Trace := {|
  cpu_fingerprint := trace.(cpu_fingerprint); trace_code := trace.(trace_code);
  requested_seed := trace.(requested_seed); requested_backend := trace.(requested_backend);
  requested_syntax := trace.(requested_syntax); effective_max_steps := trace.(effective_max_steps);
  seed_data_pointers := trace.(seed_data_pointers); trace_seed := trace.(trace_seed);
  execution_events := events; trace_outcome := trace.(trace_outcome);
  message := trace.(message); instrumentation_detected := trace.(instrumentation_detected);
  stop_reason := trace.(stop_reason); stop_address := trace.(stop_address);
  fault_memory_address := trace.(fault_memory_address); fault_access := trace.(fault_access);
|}.

Definition with_message (trace : Trace) (text reason : str) (address : Z) : Trace := {|
  cpu_fingerprint := trace.(cpu_fingerprint); trace_code := trace.(trace_code);
  requested_seed := trace.(requested_seed); requested_backend := trace.(requested_backend);
  requested_syntax := trace.(requested_syntax); effective_max_steps := trace.(effective_max_steps);
  seed_data_pointers := trace.(seed_data_pointers); trace_seed := trace.(trace_seed);
  execution_events := trace.(execution_events); trace_outcome := trace.(trace_outcome);
  message := text; instrumentation_detected := trace.(instrumentation_detected);
  stop_reason := reason; stop_address := address;
  fault_memory_address := trace.(fault_memory_address); fault_access := trace.(fault_access);
|}.

Definition event_of_step (platform_step : PlatformStep) : ExecutionEvent := {|
  event_rip := platform_step.(step_rip);
  event_registers := platform_step.(step_registers);
  event_kind := if platform_step.(step_faulted) then EKFaulted else EKCompleted;
|}.

(** [std::ranges::count_if] over the completed events. *)
Definition count_completed (events : list ExecutionEvent) : Z :=
  Z.of_nat (length (List.filter (fun event => bool_decide (event.(event_kind) = EKCompleted)) events)).

(** The part of the message that tells the memory operand of a fault. *)
Definition memory_detail (trace : Trace) (result : PlatformRunResult) : str :=
  match result.(result_fault_memory_address) with
  | None => []
  | Some address =>
    let absolute := format_hex64_string address in
    let normalized := format_address_value trace address true in
    let memory := if bool_decide (normalized = absolute) then absolute
                  else format "{} ({})" [AStr absolute; AStr normalized] in
    format " while {} {}" [AStr (fault_access_action result.(result_fault_access)); AStr memory]
  end.

(** The switch over the outcome. *)
Definition describe (trace : Trace) (result : PlatformRunResult) : Trace :=
  let executed := AInt (count_completed trace.(execution_events)) in
  let address := AInt result.(result_stop_address) in
  match trace.(trace_outcome) with
  | OStopped =>
    if result.(result_stopped_at_target) then
      with_message trace (format "Stopped at selected row (0x{:X}) - {} executed." [address; executed])
        "Stopped here - selected row" result.(result_stop_address)
    else
      with_message trace (format "Stopped at int3 (0x{:X}) - {} executed." [address; executed])
        "Stopped here - int3 breakpoint" result.(result_stop_address)
  | OFaulted =>
    with_message trace
      (format "{} at 0x{:X}{} ({} executed)."
         [AStr result.(result_fault_name); address; AStr (memory_detail trace result); executed])
      (format "Faulted here - {}" [AStr result.(result_fault_name)]) result.(result_stop_address)
  | OAbortedCap =>
    with_message trace (format "Hit step cap ({} executed)." [AInt trace.(effective_max_steps)])
      "Not reached - Step cap reached" trace.(stop_address)
  | _ =>
    let next_rip := match last trace.(execution_events) with
                    | None => reg_get trace.(trace_seed) RIP
                    | Some event => reg_get event.(event_registers) RIP
                    end in
    let code_end := u64 (reg_get trace.(trace_seed) RIP + Z.of_nat (length trace.(trace_code))) in
    with_message trace (format "Finished - {} executed." [executed])
      (if next_rip =? code_end then "Reached end of input" else "Execution left input range") trace.(stop_address)
  end.

(** [run_engine]; the lock of the engine only orders concurrent runs. *)
Definition run_engine {W} `{Platform W} (fingerprint : CPUFingerprint) (code : list Z) (seed : Registers)
    (max_steps : Z) (backend : DisasmBackend) (syntax : DisasmSyntax) (seed_data_pointers : bool)
    (stop_offset : option Z) (w : W) : option (Trace * W) :=
  let trace := requested_trace fingerprint code seed max_steps backend syntax seed_data_pointers in
  '(result, w) ← run_platform_steps {|
    request_code := code; request_seed := seed; request_max_steps := trace.(effective_max_steps);
    request_stop_offset := stop_offset; request_seed_data_pointers := seed_data_pointers |} w;
  let trace := with_result trace result in
  if result.(result_instrumentation_detected) then
    Some (with_message trace (result.(result_error) ++ (" No trace was recorded." : str)) trace.(stop_reason) trace.(stop_address), w)
  else if negb (bool_decide (result.(result_error) = [])) then
    Some (with_message trace result.(result_error) trace.(stop_reason) trace.(stop_address), w)
  else
    Some (describe (with_events trace (map event_of_step result.(result_steps))) result, w).
End engine.

(** ** What a run records *)

(** The events of a run, for a given base of the code and a given cap: the steps of the
    abstract machine. *)
Section invariants.
Context (trace : Trace).

Definition trace_base : Z := reg_get trace.(trace_seed) RIP.

Definition in_code (rip : Z) : Prop := inside trace_base (Z.of_nat (length trace.(trace_code))) rip.

(** Every completed event executes inside the input, from where the event before it
    ended (the seed, for the first); a fault is the last event. *)
Definition events_chained : Prop :=
  forall i event, trace.(execution_events) !! i = Some event ->
    match event.(event_kind) with
    | EKCompleted =>
      in_code event.(event_rip) /\
      event.(event_rip) = match i with
                          | O => trace_base
                          | S j => match trace.(execution_events) !! j with
                                   | Some previous => reg_get previous.(event_registers) RIP
                                   | None => trace_base
                                   end
                          end
    | EKFaulted => S i = length trace.(execution_events) /\ trace.(trace_outcome) = OFaulted
    end.

(** Where the last event leaves the machine, for each outcome. *)
Definition outcome_explained : Prop :=
  match trace.(trace_outcome) with
  | OFinished => exists event, last trace.(execution_events) = Some event /\ ~ in_code (reg_get event.(event_registers) RIP)
  | OAbortedCap => exists event, last trace.(execution_events) = Some event /\ in_code (reg_get event.(event_registers) RIP)
      /\ count_completed trace.(execution_events) = trace.(effective_max_steps)
  | OFaulted => exists event, last trace.(execution_events) = Some event /\ event.(event_kind) = EKFaulted
      /\ trace.(stop_address) = event.(event_rip)
  | OStopped => trace.(stop_address) =
      match last trace.(execution_events) with
      | Some event => reg_get event.(event_registers) RIP
      | None => trace_base
      end
  | OIdle | OError => False
  end.
End invariants.

(** The address of the selected row of a run to a row. *)
Definition selected_address (trace : Trace) (stop_offset : option Z) : option Z :=
  (fun offset => if offset =? 0 then trace_base trace else u64 (trace_base trace + offset)) <$> stop_offset.

(** What is told of the memory operand of a fault. *)
Definition fault_detail {fmt : Fmt} {memory : Memory} (trace : Trace) : str :=
  match trace.(fault_memory_address) with
  | None => []
  | Some address =>
    let label := format_address_value trace address true in
    format " while {} {}"
      [AStr (fault_access_action trace.(fault_access));
       AStr (if bool_decide (label = format_hex64_string address) then label
             else format "{} ({})" [AStr (format_hex64_string address); AStr label])]
  end.

Section engine_lemmas.
Context {fmt : Fmt} {memory : Memory} {W : Type} `{Platform W}.

Lemma count_completed_steps steps : count_completed (map event_of_step steps) = Z.of_nat (completed steps).
Proof.
  unfold count_completed, completed. f_equal. induction steps as [|s steps IH]; [done|].
  cbn [map List.filter event_of_step event_kind]. destruct (step_faulted s); cbn [negb].
  - by rewrite bool_decide_false.
  - rewrite bool_decide_true by done. cbn [length]. by rewrite IH.
Qed.

(** What [describe] keeps. *)
Lemma describe_keeps trace result :
  let t := describe trace result in
  trace_code t = trace_code trace /\ requested_seed t = requested_seed trace
  /\ effective_max_steps t = effective_max_steps trace /\ trace_seed t = trace_seed trace
  /\ execution_events t = execution_events trace /\ trace_outcome t = trace_outcome trace
  /\ instrumentation_detected t = instrumentation_detected trace
  /\ cpu_fingerprint t = cpu_fingerprint trace
  /\ (trace_outcome trace = OStopped \/ trace_outcome trace = OFaulted -> stop_address t = result_stop_address result).
Proof.
  cbv zeta. unfold describe.
  destruct (trace_outcome trace) eqn:E; try destruct (result_stopped_at_target result);
    do 5 (split; [done|]); (split; [exact E|]); do 2 (split; [done|]); by intros [|].
Qed.

(** What it says. *)
Lemma describe_text trace result :
  let t := describe trace result in
  let executed := AInt (count_completed (execution_events trace)) in
  let final_rip := match last (execution_events trace) with
                   | Some event => reg_get event.(event_registers) RIP
                   | None => reg_get (trace_seed trace) RIP
                   end in
  match trace_outcome trace with
  | OStopped =>
    if result_stopped_at_target result then
      message t = format "Stopped at selected row (0x{:X}) - {} executed." [AInt (result_stop_address result); executed]
      /\ stop_reason t = ("Stopped here - selected row" : str)
    else
      message t = format "Stopped at int3 (0x{:X}) - {} executed." [AInt (result_stop_address result); executed]
      /\ stop_reason t = ("Stopped here - int3 breakpoint" : str)
  | OFaulted =>
    message t = format "{} at 0x{:X}{} ({} executed)."
        [AStr (result_fault_name result); AInt (result_stop_address result); AStr (memory_detail trace result); executed]
      /\ stop_reason t = format "Faulted here - {}" [AStr (result_fault_name result)]
  | OAbortedCap =>
    message t = format "Hit step cap ({} executed)." [AInt (effective_max_steps trace)]
    /\ stop_reason t = ("Not reached - Step cap reached" : str)
  | _ =>
    message t = format "Finished - {} executed." [executed]
    /\ stop_reason t =
         (if final_rip =? u64 (reg_get (trace_seed trace) RIP + Z.of_nat (length (trace_code trace)))
          then "Reached end of input" : str else "Execution left input range" : str)
  end.
Proof.
  cbv zeta. unfold describe. destruct (trace_outcome trace); try destruct (result_stopped_at_target result); try done.
  all: split; [done|]; cbn [with_message stop_reason]; destruct (last (execution_events trace));
    by destruct (_ =? _).
Qed.

(** Its operand of a fault is that of the result. *)
Lemma describe_fault trace result :
  let t := describe trace result in fault_memory_address t = fault_memory_address trace /\ fault_access t = fault_access trace.
Proof. cbv zeta. unfold describe. by destruct (trace_outcome trace); try destruct (result_stopped_at_target result). Qed.

(** The label of an address depends on the input and the seed of a trace. *)
Lemma format_address_value_same trace trace' address normalized :
  trace_code trace = trace_code trace' -> trace_seed trace = trace_seed trace' ->
  format_address_value trace address normalized = format_address_value trace' address normalized.
Proof. intros Ec Es. unfold format_address_value, format_code_address, format_stack_address. by rewrite Ec, Es. Qed.

Lemma fault_detail_of trace trace' result :
  trace_code trace = trace_code trace' -> trace_seed trace = trace_seed trace' ->
  fault_memory_address trace = result_fault_memory_address result -> fault_access trace = result_fault_access result ->
  fault_detail trace = memory_detail trace' result.
Proof.
  intros Ec Es Em Ea. unfold fault_detail, memory_detail. rewrite Em, Ea. destruct (result_fault_memory_address result); [|done].
  rewrite (format_address_value_same trace trace') by done. case_bool_decide as El; [by rewrite El | done].
Qed.

(** A run that returns was refused, or executed the abstract machine. *)
Lemma run_engine_inv fingerprint code seed max_steps backend syntax pointers stop_offset w trace w' :
  well_formed seed -> 0 <= max_steps ->
  run_engine fingerprint code seed max_steps backend syntax pointers stop_offset w = Some (trace, w') ->
  1 <= trace.(effective_max_steps) <= MAX_STEPS_LIMIT
  /\ trace.(trace_code) = code /\ trace.(requested_seed) = seed /\ trace.(cpu_fingerprint) = Some fingerprint
  /\ ((trace.(execution_events) = [] /\ trace.(message) <> []
       /\ (trace.(trace_outcome) = OError \/ trace.(trace_outcome) = OIdle /\ code = [])
       /\ (trace.(instrumentation_detected) = true ->
           trace.(message) = INSTRUMENTATION_REFUSAL ++ (" No trace was recorded." : str)))
      \/
      exists result request rsp data,
        request.(request_code) = code /\ request.(request_seed) = seed
        /\ request.(request_max_steps) = trace.(effective_max_steps)
        /\ request.(request_stop_offset) = stop_offset
        /\ request.(request_seed_data_pointers) = pointers
        /\ trace = describe (with_events (with_result (requested_trace fingerprint code seed max_steps backend
                      syntax pointers) result) (map event_of_step result.(result_steps))) result
        /\ trace.(execution_events) = map event_of_step result.(result_steps)
        /\ trace.(trace_outcome) = result.(result_outcome)
        /\ trace.(instrumentation_detected) = false
        /\ code <> []
        /\ seed_effective request trace.(trace_seed) (trace_base trace) rsp data
        /\ (if bool_decide (stop_offset = Some 0) then
              result.(result_steps) = [] /\ result.(result_outcome) = OStopped
              /\ result.(result_stop_address) = trace_base trace /\ result.(result_stopped_at_target) = true
            else runs (trace_base trace) (Z.of_nat (length code)) ((fun o => u64 (trace_base trace + o)) <$> stop_offset)
                   (trace_base trace) (Z.to_nat trace.(effective_max_steps)) result.(result_steps)
                   result.(result_outcome) result.(result_stop_address) result.(result_stopped_at_target))).
Proof.
  intros Hwf Hmax Hrun. unfold run_engine in Hrun. cbv zeta in Hrun.
  set (trace0 := requested_trace _ _ _ _ _ _ _) in Hrun.
  assert (1 <= trace0.(effective_max_steps) <= MAX_STEPS_LIMIT) as Heff.
  { unfold trace0, requested_trace, MAX_STEPS_LIMIT. cbn [effective_max_steps].
    destruct (Z.eqb_spec max_steps 0); cbn [negb]; lia. }
  set (request := {| request_code := _ |}) in Hrun.
  destruct (run_platform_steps request w) as [[result w1]|] eqn:E; [|done]. cbn [mbind option_bind] in Hrun.
  apply run_platform_steps_contract in E; [|done|unfold request; cbn [request_max_steps]; lia].
  destruct E as [He Ho Hi | base rsp data size target He Hi Hcode Hseed Hrun'].
  - assert (trace.(execution_events) = [] /\ trace.(message) <> [] /\ trace.(trace_outcome) = result.(result_outcome)
      /\ trace.(trace_code) = code /\ trace.(requested_seed) = seed /\ trace.(cpu_fingerprint) = Some fingerprint
      /\ trace.(effective_max_steps) = trace0.(effective_max_steps)
      /\ (trace.(instrumentation_detected) = true ->
          trace.(message) = INSTRUMENTATION_REFUSAL ++ (" No trace was recorded." : str)))
      as (H1 & H2 & H3 & H4 & H5 & H6 & H7 & H8).
    { destruct (result_instrumentation_detected result) eqn:Ei.
      - injection Hrun as <- _. destruct (Hi eq_refl) as [Hmsg _].
        cbn [with_message with_result execution_events message trace_outcome trace_code requested_seed cpu_fingerprint
             effective_max_steps instrumentation_detected]. rewrite Hmsg. split; [done|]. split; [done|].
        split; [done|]. split; [done|]. split; [done|]. split; [done|]. split; [done|]. done.
      - rewrite bool_decide_false in Hrun by done. cbn [negb] in Hrun. injection Hrun as <- _.
        cbn [with_message with_result execution_events message trace_outcome trace_code requested_seed cpu_fingerprint
             effective_max_steps instrumentation_detected]. rewrite Ei.
        do 7 (split; [done|]). done. }
    rewrite H7. split; [done|]. do 3 (split; [done|]). left. split; [done|]. split; [done|].
    split; [by rewrite H3 | done].
  - rewrite Hi, He in Hrun. rewrite bool_decide_true in Hrun by done. cbn [negb] in Hrun. injection Hrun as Htrace _.
    set (trace1 := with_events _ _) in Htrace. pose proof (describe_keeps trace1 result) as Hk. cbv zeta in Hk.
    rewrite Htrace in Hk. destruct Hk as (K1 & K2 & K3 & K4 & K5 & K6 & K7 & K8 & _).
    rewrite K3. split; [exact Heff|]. do 3 (split; [done|]). right.
    assert (trace_base trace = base) as Hb.
    { unfold trace_base. rewrite K4. exact (se_rip _ _ _ _ _ Hseed). }
    exists result, request, rsp, data. rewrite Hb, K4, K5, K6, K7.
    do 5 (split; [done|]). split; [by rewrite <- Htrace|]. do 4 (split; [done|]). split; [exact Hseed|].
    unfold request in Hrun'. cbn [request_stop_offset request_max_steps] in Hrun'.
    assert (capped_steps (effective_max_steps trace0) = effective_max_steps trace0) as Hcap.
    { unfold capped_steps. destruct (Z.eqb_spec (effective_max_steps trace0) 0); unfold MAX_STEPS_LIMIT in *; lia. }
    rewrite Hcap in Hrun'. exact Hrun'.
Qed.
End engine_lemmas.

(** ** From the steps to the events *)

Lemma lookup_events steps i event :
  map event_of_step steps !! i = Some event <-> exists s, steps !! i = Some s /\ event = event_of_step s.
Proof. rewrite list_lookup_fmap_Some. split; intros (s & ? & ?); by exists s. Qed.

Lemma last_events steps : last (map event_of_step steps) = event_of_step <$> last steps.
Proof. induction steps as [|s [|s' steps] IH]; [done | done | exact IH]. Qed.

Section runs_events.
Context (base size : Z) (target : option Z) (n : nat) (steps : list PlatformStep) (outcome : Outcome)
  (stop : Z) (at_target : bool).
Hypothesis Hrun : runs base size target base n steps outcome stop at_target.
Hypothesis Hinside : inside base size base.

Lemma runs_events_chain i event :
  map event_of_step steps !! i = Some event ->
  match event.(event_kind) with
  | EKCompleted =>
    inside base size event.(event_rip) /\
    event.(event_rip) = match i with
                        | O => base
                        | S j => match map event_of_step steps !! j with
                                 | Some previous => reg_get previous.(event_registers) RIP
                                 | None => base
                                 end
                        end
  | EKFaulted => S i = length (map event_of_step steps) /\ outcome = OFaulted
  end.
Proof.
  intros (s & Hs & ->)%lookup_events. destruct (runs_chain _ _ _ _ _ _ _ _ _ Hinside Hrun) as [Hc Hf].
  cbn [event_of_step event_kind event_rip]. destruct (step_faulted s) eqn:E.
  - rewrite length_map. by apply (Hf i s).
  - destruct (Hc i s Hs E) as [Hi Hr]. split; [done|]. rewrite Hr. destruct i as [|j]; [done|].
    rewrite list_lookup_fmap. by destruct (steps !! j).
Qed.

Lemma runs_events_outcome cap :
  cap = Z.of_nat n ->
  match outcome with
  | OFinished => exists event, last (map event_of_step steps) = Some event /\ ~ inside base size (reg_get event.(event_registers) RIP)
  | OAbortedCap => exists event, last (map event_of_step steps) = Some event
      /\ inside base size (reg_get event.(event_registers) RIP) /\ count_completed (map event_of_step steps) = cap
  | OFaulted => exists event, last (map event_of_step steps) = Some event /\ event.(event_kind) = EKFaulted
      /\ stop = event.(event_rip)
  | OStopped => stop = match last (map event_of_step steps) with
                       | Some event => reg_get event.(event_registers) RIP
                       | None => base
                       end
  | OIdle | OError => False
  end.
Proof.
  intros ->. pose proof (runs_outcome _ _ _ _ _ _ _ _ _ Hrun) as Ho.
  destruct (runs_completed _ _ _ _ _ _ _ _ _ Hrun) as (_ & Hcap & _). rewrite last_events, count_completed_steps.
  destruct outcome; try done.
  - destruct Ho as (s & -> & Hi & _). by exists (event_of_step s).
  - destruct Ho as (s & -> & Hf & -> & _). exists (event_of_step s). cbn. by rewrite Hf.
  - destruct Ho as (s & -> & Hi & _). exists (event_of_step s). rewrite Hcap by done. done.
  - destruct at_target.
    + by destruct Ho as (s & -> & -> & _).
    + destruct (last steps); exact Ho.
Qed.
End runs_events.

(** The cap of a run. *)
Lemma run_engine_cap {fmt : Fmt} {memory : Memory} {W : Type} `{Platform W}
    fingerprint code seed max_steps backend syntax pointers stop_offset w trace w' :
  0 <= max_steps ->
  run_engine fingerprint code seed max_steps backend syntax pointers stop_offset w = Some (trace, w') ->
  trace.(effective_max_steps) = capped_steps max_steps.
Proof.
  intros Hmax.
  assert ((if negb (max_steps =? 0) then max_steps else 1) = (if max_steps =? 0 then 1 else max_steps)) as Heq
    by (by destruct (max_steps =? 0)).
  unfold run_engine. destruct (run_platform_steps _ w) as [[result w1]|]; [|done]. cbn [mbind option_bind].
  destruct (result_instrumentation_detected result); [intros [= <- _]; cbn; by rewrite Heq|].
  destruct (bool_decide (result_error result = [])); cbn [negb]; [|intros [= <- _]; cbn; by rewrite Heq]. intros [= <- _].
  match goal with |- effective_max_steps (describe ?t ?r) = _ => destruct (describe_keeps t r) as (_ & _ & -> & _) end.
  cbn [with_events with_result requested_trace effective_max_steps]. unfold capped_steps. by destruct (max_steps =? 0).
Qed.

(** The result a trace is made of. *)
Lemma run_engine_result {fmt : Fmt} {memory : Memory} {W : Type} `{Platform W}
    fingerprint code seed max_steps backend syntax pointers stop_offset w trace w' :
  run_engine fingerprint code seed max_steps backend syntax pointers stop_offset w = Some (trace, w') ->
  exists result,
  run_platform_steps {| request_code := code; request_seed := seed; request_max_steps := trace.(effective_max_steps);
                        request_stop_offset := stop_offset; request_seed_data_pointers := pointers |} w = Some (result, w')
  /\ trace.(trace_outcome) = result.(result_outcome)
  /\ if negb result.(result_instrumentation_detected) && bool_decide (result.(result_error) = []) then
       trace = describe (with_events (with_result (requested_trace fingerprint code seed max_steps backend syntax pointers) result)
                          (map event_of_step result.(result_steps))) result
     else trace.(message) = result.(result_error) ++
            (if trace.(instrumentation_detected) then " No trace was recorded." : str else []).
Proof.
  unfold run_engine. cbv zeta. set (trace0 := requested_trace _ _ _ _ _ _ _). set (request := {| request_code := _ |}).
  destruct (run_platform_steps request w) as [[result w1]|] eqn:E; [|done]. cbn [mbind option_bind]. intros Hrun.
  assert (w1 = w' /\ effective_max_steps trace = effective_max_steps trace0 /\ trace_outcome trace = result_outcome result
    /\ instrumentation_detected trace = result_instrumentation_detected result) as (<- & Em & Eo & Ei).
  { destruct (result_instrumentation_detected result) eqn:Ei; [by injection Hrun as <- <-|].
    case_bool_decide; cbn [negb] in Hrun; injection Hrun as <- <-; [|by rewrite <- Ei].
    destruct (describe_keeps (with_events (with_result trace0 result) (map event_of_step result.(result_steps))) result)
      as (_ & _ & -> & _ & _ & -> & -> & _). by rewrite <- Ei. }
  exists result. rewrite Em. split; [exact E|]. split; [exact Eo|]. rewrite Ei.
  destruct (result_instrumentation_detected result); cbn [negb andb]; [by injection Hrun as <-|].
  case_bool_decide; cbn [negb] in Hrun; injection Hrun as <-; [done|]. cbn [with_message message]. by rewrite app_nil_r.
Qed.

(** A run stops at its target exactly when it stands there. *)
Lemma stopped_at_selected base size stop_offset n steps outcome stop at_target :
  (forall offset, stop_offset = Some offset -> in_width 64 offset) -> stop_offset <> Some 0 ->
  runs base size ((fun offset => u64 (base + offset)) <$> stop_offset) base n steps outcome stop at_target -> outcome = OStopped ->
  at_target = bool_decide (((fun offset => if offset =? 0 then base else u64 (base + offset)) <$> stop_offset) = Some stop).
Proof.
  intros Hoff H0 Hrun ->. set (target := (fun _ => _) <$> stop_offset) in Hrun.
  assert (((fun offset => if offset =? 0 then base else u64 (base + offset)) <$> stop_offset) = target) as ->.
  { unfold target. destruct stop_offset as [offset|]; [|done]. cbn. destruct (Z.eqb_spec offset 0); [congruence | done]. }
  pose proof (runs_outcome _ _ _ _ _ _ _ _ _ Hrun) as Ho. cbn in Ho. destruct at_target.
  { destruct Ho as (s & _ & _ & Ht). by rewrite bool_decide_true. }
  rewrite bool_decide_false; [done|]. intros Ht. destruct (last steps) as [s|] eqn:El.
  - subst stop. apply last_Some in El as [l ->].
    assert ((l ++ [s]) !! length l = Some s) as Hl by (by rewrite lookup_app_r, Nat.sub_diag).
    destruct (step_faulted s) eqn:Ef.
    + pose proof (runs_completed _ _ _ _ _ _ _ _ _ Hrun) as (_ & _ & Hc). rewrite bool_decide_false in Hc by done.
      unfold completed in Hc. rewrite List.filter_app, !length_app in Hc. cbn [List.filter length] in Hc. rewrite Ef in Hc. cbn [negb length] in Hc.
      pose proof (List.filter_length_le (fun s => negb (step_faulted s)) l). lia.
    + by destruct (runs_target_first _ _ _ _ _ _ _ _ _ Hrun _ _ Hl Ef Ht).
  - subst stop. unfold target in Ht. destruct stop_offset as [offset|]; [|done]. cbn in Ht. injection Ht as Ht.
    specialize (Hoff offset eq_refl). unfold wrap, in_width in *. apply H0. f_equal.
    destruct (Z.eqb_spec offset 0); [done|]. pose proof (Z.div_mod (base + offset) (2 ^ 64) ltac:(lia)). lia.
Qed.

(** A trace is a record of the abstract machine. *)
Lemma run_engine_record {fmt : Fmt} {memory : Memory} {W : Type} `{Platform W}
    fingerprint code seed max_steps backend syntax pointers stop_offset w trace w' :
  well_formed seed -> 0 <= max_steps ->
  run_engine fingerprint code seed max_steps backend syntax pointers stop_offset w = Some (trace, w') ->
  (0 <= trace_base trace /\ trace_base trace + Z.of_nat (length code) < 2 ^ 64) ->
  1 <= trace.(effective_max_steps) <= MAX_STEPS_LIMIT
  /\ trace.(trace_code) = code
  /\ events_chained trace
  /\ count_completed trace.(execution_events) <= trace.(effective_max_steps)
  /\ (trace.(execution_events) = [] /\ trace.(message) <> []
      /\ (trace.(trace_outcome) = OError \/ trace.(trace_outcome) = OIdle /\ code = [])
      \/ outcome_explained trace).
Proof.
  intros Hwf Hmax Hrun Hfit. apply run_engine_inv in Hrun; [|done|done].
  destruct Hrun as (Heff & Hcode & Hseed & Hfp & [(He & Hm & Ho & _) |
    (result & request & rsp & data & _ & _ & _ & _ & _ & Hd & Hev & Hout & Hinst & Hne & Heffective & Hrun)]).
  - split; [done|]. split; [done|]. split; [|split; [rewrite He; unfold count_completed; cbn; lia | by left]].
    intros i event Hi. rewrite He in Hi. done.
  - split; [done|]. split; [done|]. unfold events_chained, in_code. rewrite Hcode, Hev, Hout, count_completed_steps.
    assert (inside (trace_base trace) (Z.of_nat (length code)) (trace_base trace)) as Hin.
    { unfold inside. rewrite wrap_small by (unfold in_width; lia). destruct code; [done|]. cbn [length]. lia. }
    assert (stop_address trace = result_stop_address result \/ (result_outcome result <> OStopped /\ result_outcome result <> OFaulted)) as Hstop.
    { destruct (decide (result_outcome result = OStopped \/ result_outcome result = OFaulted)) as [Hc|Hc]; [left|right; tauto].
      rewrite Hd. pose proof (describe_keeps (with_events (with_result (requested_trace fingerprint code seed max_steps backend
        syntax pointers) result) (map event_of_step result.(result_steps))) result) as Hk. cbv zeta in Hk.
      apply Hk. exact Hc. }
    destruct (bool_decide (stop_offset = Some 0)).
    + destruct Hrun as (Hs & Hos & Hst & Hat). rewrite Hs. split; [intros i event Hi; done|]. split; [cbn; lia|]. right.
      unfold outcome_explained. rewrite Hout, Hos, Hev, Hs. destruct Hstop as [-> | [? _]]; [exact Hst | congruence].
    + split; [|split].
      * intros i event Hi. exact (runs_events_chain _ _ _ _ _ _ _ _ Hrun Hin i event Hi).
      * destruct (runs_completed _ _ _ _ _ _ _ _ _ Hrun) as (Hc & _). lia.
      * right. unfold outcome_explained, in_code. rewrite Hcode, Hout, Hev.
        pose proof (runs_events_outcome _ _ _ _ _ _ _ _ Hrun (effective_max_steps trace) ltac:(lia)) as Hx.
        destruct (result_outcome result); try done.
        -- destruct Hx as (e & ? & ? & Hs). exists e. split; [done|]. split; [done|].
           destruct Hstop as [Ha | [_ ?]]; [by rewrite Ha | done].
        -- destruct Hstop as [-> | [? _]]; [exact Hx | done].
Qed.

(** ** Properties *)

(** C1. The trace of a run is a faithful execution record, whatever platform runs it: the
    completed events start at the code base, each starts where the one before ended and
    inside the input, a fault can only be the last event, no run completes more
    instructions than its effective cap (between one and the limit), and the outcome is
    the one the events end in; a refused run records nothing and says why. *)
Theorem run_engine_trace {fmt : Fmt} {memory : Memory} {W : Type} `{Platform W}
    fingerprint code seed max_steps backend syntax pointers stop_offset w trace w' :
  well_formed seed -> 0 <= max_steps ->
  run_engine fingerprint code seed max_steps backend syntax pointers stop_offset w = Some (trace, w') ->
  (0 <= trace_base trace /\ trace_base trace + Z.of_nat (length code) < 2 ^ 64) ->
  1 <= trace.(effective_max_steps) <= MAX_STEPS_LIMIT
  /\ trace.(trace_code) = code
  /\ events_chained trace
  /\ count_completed trace.(execution_events) <= trace.(effective_max_steps)
  /\ (trace.(execution_events) = [] /\ trace.(message) <> []
      /\ (trace.(trace_outcome) = OError \/ trace.(trace_outcome) = OIdle /\ code = [])
      \/ outcome_explained trace).
Proof. apply run_engine_record. Qed.

(** C28. The message and the stop reason of a run tell the truth about what its platform
    answered.  A run that was refused or failed says why, in the words of the platform.  A
    stop is reported at the selected row exactly when the machine stands at the address of
    that row, and at an int3 otherwise; a fault with the name the platform gave it and,
    when it has a memory operand, the access, the address and its label; the number
    printed is the number of completed events, for the step cap too; and the end of the
    input is told from any other exit by the address the machine was left at. *)
Theorem run_engine_message {fmt : Fmt} {memory : Memory} {W : Type} `{Platform W}
    fingerprint code seed max_steps backend syntax pointers stop_offset w trace w' :
  well_formed seed -> 0 <= max_steps -> (forall offset, stop_offset = Some offset -> in_width 64 offset) ->
  run_engine fingerprint code seed max_steps backend syntax pointers stop_offset w = Some (trace, w') ->
  exists result,
  run_platform_steps {| request_code := code; request_seed := seed; request_max_steps := trace.(effective_max_steps);
                        request_stop_offset := stop_offset; request_seed_data_pointers := pointers |} w = Some (result, w')
  /\ trace.(trace_outcome) = result.(result_outcome) /\
  let executed := AInt (count_completed trace.(execution_events)) in
  let final_rip := match last trace.(execution_events) with
                   | Some event => reg_get event.(event_registers) RIP
                   | None => trace_base trace
                   end in
  match trace.(trace_outcome) with
  | OStopped =>
    if bool_decide (selected_address trace stop_offset = Some trace.(stop_address)) then
      trace.(message) = format "Stopped at selected row (0x{:X}) - {} executed." [AInt trace.(stop_address); executed]
      /\ trace.(stop_reason) = ("Stopped here - selected row" : str)
    else
      trace.(message) = format "Stopped at int3 (0x{:X}) - {} executed." [AInt trace.(stop_address); executed]
      /\ trace.(stop_reason) = ("Stopped here - int3 breakpoint" : str)
  | OFaulted =>
    trace.(message) = format "{} at 0x{:X}{} ({} executed)."
      [AStr result.(result_fault_name); AInt trace.(stop_address); AStr (fault_detail trace); executed]
    /\ trace.(fault_memory_address) = result.(result_fault_memory_address) /\ trace.(fault_access) = result.(result_fault_access)
    /\ trace.(stop_reason) = format "Faulted here - {}" [AStr result.(result_fault_name)]
  | OAbortedCap =>
    trace.(message) = format "Hit step cap ({} executed)." [executed]
    /\ trace.(stop_reason) = ("Not reached - Step cap reached" : str)
  | OFinished =>
    trace.(message) = format "Finished - {} executed." [executed]
    /\ trace.(stop_reason) =
         (if final_rip =? u64 (trace_base trace + Z.of_nat (length code))
          then "Reached end of input" : str else "Execution left input range" : str)
  | OError | OIdle =>
    result.(result_error) <> []
    /\ trace.(message) = result.(result_error) ++ (if trace.(instrumentation_detected) then " No trace was recorded." : str else [])
  end.
Proof.
  intros Hwf Hmax Hoff Hrun. destruct (run_engine_result _ _ _ _ _ _ _ _ _ _ _ Hrun) as (result & E & Ho & Htrace).
  exists result. split; [exact E|]. split; [exact Ho|]. cbv zeta. rewrite Ho.
  pose proof (run_engine_cap _ _ _ _ _ _ _ _ _ _ _ Hmax Hrun) as Hcap. pose proof (capped_steps_range _ Hmax) as Hrange.
  apply run_platform_steps_contract in E; [|done | cbn [request_max_steps]; lia].
  destruct E as [He Hor _ | base rsp data size target He Hi Hne Hseed Hsteps].
  { rewrite bool_decide_false, andb_false_r in Htrace by done. by destruct Hor as [-> | [-> _]]. }
  rewrite Hi, bool_decide_true in Htrace by done. cbn [negb andb] in Htrace.
  set (t0 := with_events _ _) in Htrace. pose proof (describe_text t0 result) as Htext. pose proof (describe_keeps t0 result) as Hk.
  destruct (describe_fault t0 result) as [F1 F2]. cbv zeta in *. rewrite <- Htrace in *. destruct Hk as (K1 & _ & K3 & K4 & K5 & _ & _ & _ & K9).
  assert (trace_outcome t0 = result_outcome result) as Ht0 by done. rewrite Ht0 in Htext, K9.
  assert (trace_base trace = base) as Hb by (unfold trace_base; rewrite K4; exact (se_rip _ _ _ _ _ Hseed)).
  cbn [request_stop_offset request_max_steps request_code] in *. rewrite <- K5, <- K4 in Htext.
  assert (result_outcome result <> OIdle /\ result_outcome result <> OError /\
    (result_outcome result = OAbortedCap -> count_completed (execution_events trace) = effective_max_steps trace) /\
    (result_outcome result = OStopped ->
      result_stopped_at_target result = bool_decide (selected_address trace stop_offset = Some (result_stop_address result))))
    as (Hidle & Herror & Hcount & Hselected).
  { unfold selected_address. rewrite K5, Hb. cbn [execution_events t0 with_events]. rewrite count_completed_steps.
    case_bool_decide as E0.
    - destruct Hsteps as (_ & -> & -> & ->). do 3 (split; [done|]). intros _. rewrite E0. by rewrite bool_decide_true.
    - pose proof (runs_outcome _ _ _ _ _ _ _ _ _ Hsteps) as Hx. destruct (runs_completed _ _ _ _ _ _ _ _ _ Hsteps) as (_ & Hc & _).
      do 2 (split; [by intros Eo; rewrite Eo in Hx|]). split; [|by apply (stopped_at_selected _ _ _ _ _ _ _ _ Hoff E0 Hsteps)].
      intros Eo. rewrite Hc by done. unfold capped_steps in *. destruct (Z.eqb_spec (effective_max_steps trace) 0); lia. }
  destruct (result_outcome result) eqn:Eo; try done.
  - rewrite (K9 ltac:(by right)), (fault_detail_of trace t0 result K1 K4 F1 F2). destruct Htext as [-> ->]. done.
  - rewrite Hcount, K3 by done. exact Htext.
  - rewrite (K9 ltac:(by left)), <- Hselected by done. exact Htext.
Qed.

(** *** A run of two instructions *)

Definition example_memory : Memory := {| vm_page_size := 0x1000; vm_allocation_granularity := 0x10000 |}.

Definition example_processor_fingerprint : CPUFingerprint := (query_cpu_fingerprint (H := example_processor) tt).1.

Definition example_engine_run : option (Trace * nat) :=
  run_engine (fmt := example_fmt) (memory := example_memory)
    (H := linux_platform (H := example_kernel 9) (zydis := example_zydis) 40)
    example_processor_fingerprint [0x90; 0x90] Registers_init 10 Zydis Intel true None 0%nat.

Lemma run_engine_trace_witness :
  exists trace w', example_engine_run = Some (trace, w') /\ events_chained trace /\ outcome_explained trace.
Proof.
  destruct example_engine_run as [[trace w']|] eqn:E; [|vm_compute in E; discriminate].
  exists trace, w'. split; [reflexivity|].
  assert (option_map (fun x => (trace_base x.1, length (trace_code x.1), length (execution_events x.1))) example_engine_run
          = Some (0x1000, 2%nat, 2%nat)) as Hf by (vm_compute; reflexivity).
  rewrite E in Hf. cbn [option_map fst] in Hf. injection Hf as Hb Hl He.
  pose proof (run_engine_trace (fmt := example_fmt) (memory := example_memory)
    (H := linux_platform (H := example_kernel 9) (zydis := example_zydis) 40)
    example_processor_fingerprint [0x90; 0x90] Registers_init 10 Zydis Intel true None 0%nat trace w'
    Registers_init_well_formed ltac:(vm_compute; discriminate) E) as H.
  rewrite Hb in H. destruct H as (_ & _ & Hc & _ & [(Hn & _) | Ho]); [vm_compute; split; [discriminate | reflexivity] | |].
  - rewrite Hn in He. discriminate He.
  - by split.
Defined.

Lemma run_engine_message_witness :
  exists trace w', example_engine_run = Some (trace, w') /\
    message trace = ("Finished - {} executed." : str) /\ stop_reason trace = ("Reached end of input" : str).
Proof.
  destruct example_engine_run as [[trace w']|] eqn:E; [|vm_compute in E; discriminate].
  exists trace, w'. split; [reflexivity|].
  pose proof (run_engine_message (fmt := example_fmt) (memory := example_memory)
    (H := linux_platform (H := example_kernel 9) (zydis := example_zydis) 40)
    example_processor_fingerprint [0x90; 0x90] Registers_init 10 Zydis Intel true None 0%nat trace w'
    Registers_init_well_formed ltac:(vm_compute; discriminate) ltac:(intros offset Hoffset; discriminate Hoffset) E) as H.
  destruct H as (result & _ & _ & H).
  assert (option_map (fun x => trace_outcome x.1) example_engine_run = Some OFinished) as Ho by (vm_compute; reflexivity).
  rewrite E in Ho. cbn [option_map fst] in Ho. injection Ho as Ho. cbv zeta in H. rewrite Ho in H. destruct H as [Hm Hr].
  split; [rewrite Hm; reflexivity|]. rewrite Hr.
  assert (option_map (fun x => (match last (execution_events x.1) with
            | Some event => reg_get event.(event_registers) RIP | None => trace_base x.1 end
          =? u64 (trace_base x.1 + Z.of_nat (length [0x90; 0x90])))) example_engine_run = Some true) as Hx
    by (vm_compute; reflexivity).
  rewrite E in Hx. apply (inj Some) in Hx. cbv beta in Hx. cbn [fst] in Hx. rewrite Hx. reflexivity.
Defined.
