(* ===== verification/Serial.v ===== *)
(** * Serial: concurrent calls of [run_engine] ([src/src/bme_core.cpp], [g_engine_mutex]).

    A platform run is not atomic: it starts from the state of the process (the engine the
    exception handler of Windows finds, the children of a Linux process) and leaves
    another.  The callers take the lock first, so their runs do not overlap; this file
    interleaves their steps in every way and shows that a call cannot tell. *)

From stdpp Require Import relations.
From S2P Require Import Prelude Text Core Cpu Platform Linux Trace Engine.

Local Open Scope Z_scope.

(** ** The code *)

(** The arguments of a call. *)
Record EngineCall : Type := {
  call_code : list Z;
  call_seed : Registers;
  call_max_steps : Z;
  call_backend : DisasmBackend;
  call_syntax : DisasmSyntax;
  call_seed_data_pointers : bool;
  call_stop_offset : option Z;
}.

(** Where a caller is: before the [lock_guard], behind it, in a run that started from a state,
    at the end of the scope with its trace, or returned, the lock released. *)
Inductive Caller (W : Type) : Type :=
| Waiting (call : EngineCall)
| Entered (call : EngineCall)
| Running (call : EngineCall) (from : W)
| Leaving (trace : Trace)
| Returned (trace : Trace).

Arguments Waiting {W} call.
Arguments Entered {W} call.
Arguments Running {W} call from.
Arguments Leaving {W} trace.
Arguments Returned {W} trace.

Record System (W : Type) : Type := System_of {
  g_engine_mutex : option nat;      (* the caller that holds it *)
  shared : W;
  callers : list (Caller W);
}.

Arguments System_of {W} g_engine_mutex shared callers.
Arguments g_engine_mutex {W} _.
Arguments shared {W} _.
Arguments callers {W} _.

Section serial.
Context {fmt : Fmt} {memory : Memory} {W : Type} `{Platform W} (fingerprint : CPUFingerprint).

Definition perform (call : EngineCall) (w : W) : option (Trace * W) :=
  run_engine fingerprint call.(call_code) call.(call_seed) call.(call_max_steps) call.(call_backend) call.(call_syntax)
    call.(call_seed_data_pointers) call.(call_stop_offset) w.

(** One step of one caller; the state a run leaves replaces the one it finds. *)
Inductive step : System W -> System W -> Prop :=
| step_lock s t call :
  s.(callers) !! t = Some (Waiting call) -> s.(g_engine_mutex) = None ->
  step s (System_of (Some t) s.(shared) (<[t := Entered call]> s.(callers)))
| step_start s t call :
  s.(callers) !! t = Some (Entered call) ->
  step s (System_of s.(g_engine_mutex) s.(shared) (<[t := Running call s.(shared)]> s.(callers)))
| step_finish s t call from trace w :
  s.(callers) !! t = Some (Running call from) -> perform call from = Some (trace, w) ->
  step s (System_of s.(g_engine_mutex) w (<[t := Leaving trace]> s.(callers)))
| step_unlock s t trace :
  s.(callers) !! t = Some (Leaving trace) ->
  step s (System_of None s.(shared) (<[t := Returned trace]> s.(callers))).

Definition start (calls : list EngineCall) (w : W) : System W := System_of None w (map Waiting calls).

(** ** Specification *)

(** The calls of some callers, one after the other. *)
Fixpoint sequential (calls : list EngineCall) (order : list nat) (w : W) : option (list Trace * W) :=
  match order with
  | [] => Some ([], w)
  | t :: order =>
    call ← calls !! t;
    '(trace, w) ← perform call w;
    '(traces, w) ← sequential calls order w;
    Some (trace :: traces, w)
  end.

(** Behind the lock. *)
Definition inside_lock (caller : Caller W) : Prop :=
  match caller with Entered _ | Running _ _ | Leaving _ => True | Waiting _ | Returned _ => False end.

(** The call of a caller that has not run it, and the trace of one that has. *)
Definition pending (caller : Caller W) : option EngineCall :=
  match caller with Waiting call | Entered call | Running call _ => Some call | Leaving _ | Returned _ => None end.

Definition trace_of (caller : Caller W) : option Trace :=
  match caller with Leaving trace | Returned trace => Some trace | _ => None end.

(** ** The invariant *)

Record serialized (calls : list EngineCall) (w0 : W) (order : list nat) (traces : list Trace) (s : System W) : Prop := {
  sr_sequential : sequential calls order w0 = Some (traces, s.(shared));
  sr_nodup : NoDup order;
  sr_order : forall t, t ∈ order -> exists caller, s.(callers) !! t = Some caller /\ pending caller = None;
  sr_pending : forall t caller call, s.(callers) !! t = Some caller -> pending caller = Some call -> calls !! t = Some call;
  sr_traces : forall t caller trace, s.(callers) !! t = Some caller -> trace_of caller = Some trace ->
    exists i, order !! i = Some t /\ traces !! i = Some trace;
  sr_lock : forall t caller, s.(callers) !! t = Some caller -> inside_lock caller <-> s.(g_engine_mutex) = Some t;
  sr_holder : forall t, s.(g_engine_mutex) = Some t -> is_Some (s.(callers) !! t);
  sr_running : forall t call from, s.(callers) !! t = Some (Running call from) -> from = s.(shared);
}.

Lemma sequential_snoc calls order w traces w1 t call trace w2 :
  sequential calls order w = Some (traces, w1) -> calls !! t = Some call -> perform call w1 = Some (trace, w2) ->
  sequential calls (order ++ [t]) w = Some (traces ++ [trace], w2).
Proof.
  intros Hs Hc Hp. revert w traces Hs. induction order as [|u order IH]; intros w traces Hs; cbn [sequential app] in *.
  - injection Hs as <- <-. rewrite Hc. cbn [mbind option_bind]. rewrite Hp. reflexivity.
  - destruct (calls !! u); [|done]. cbn [mbind option_bind] in *. destruct (perform _ w) as [[tr w']|]; [|done]. cbn [mbind option_bind] in *.
    destruct (sequential calls order w') as [[trs w'']|] eqn:E; [|done]. cbn [mbind option_bind] in *. injection Hs as <- <-.
    by rewrite (IH _ _ E).
Qed.

Lemma length_sequential calls order w traces w' : sequential calls order w = Some (traces, w') -> length traces = length order.
Proof.
  revert w traces. induction order as [|t order IH]; intros w traces Hs; cbn [sequential] in Hs; [by injection Hs as <- _|].
  destruct (calls !! t); [|done]. cbn [mbind option_bind] in Hs. destruct (perform _ w) as [[tr w1]|]; [|done]. cbn [mbind option_bind] in Hs.
  destruct (sequential calls order w1) as [[trs w2]|] eqn:E; [|done]. injection Hs as <- <-. cbn. f_equal. by eapply IH.
Qed.
(** *** Every step keeps it *)

Lemma insert_is_Some {A} (l : list A) t u x : is_Some (l !! u) -> is_Some (<[t := x]> l !! u).
Proof. rewrite !lookup_lt_is_Some. by rewrite length_insert. Qed.

Section preservation.
Context (calls : list EngineCall) (w0 : W) (order : list nat) (traces : list Trace) (s : System W).
Hypothesis Hinv : serialized calls w0 order traces s.

(** A caller that has not run is not in the order. *)
Lemma pending_not_in_order t caller call : s.(callers) !! t = Some caller -> pending caller = Some call -> t ∉ order.
Proof. intros Ht Hp (c & Hc & Hn)%(sr_order _ _ _ _ _ Hinv). congruence. Qed.

Lemma order_other t caller u :
  u ∈ order -> t ∉ order -> exists c, <[t := caller]> s.(callers) !! u = Some c /\ pending c = None.
Proof.
  intros Hu Ht. destruct (sr_order _ _ _ _ _ Hinv u Hu) as (c & Hc & Hn). exists c.
  rewrite list_lookup_insert_ne by (intros ->; done). done.
Qed.

(** The only caller behind the lock is its holder. *)
Lemma holder_unique t caller u other :
  s.(callers) !! t = Some caller -> inside_lock caller -> s.(callers) !! u = Some other -> inside_lock other -> u = t.
Proof.
  intros Ht Hi Hu Ho. apply (sr_lock _ _ _ _ _ Hinv t caller Ht) in Hi. apply (sr_lock _ _ _ _ _ Hinv u other Hu) in Ho. congruence.
Qed.

Lemma lock_serialized t call :
  s.(callers) !! t = Some (Waiting call) -> s.(g_engine_mutex) = None ->
  serialized calls w0 order traces (System_of (Some t) s.(shared) (<[t := Entered call]> s.(callers))).
Proof.
  intros Ht Hm. pose proof (pending_not_in_order t _ call Ht eq_refl) as Hno. destruct Hinv as [H1 H2 H3 H4 H5 H6 H8 H7].
  split; cbn [shared callers g_engine_mutex]; [done | done | intros u Hu; by apply order_other | | | | |].
  - intros u c cl [(<- & <- & _)|[_ Hu]]%list_lookup_insert_Some Hp; [|by eapply H4]. by apply (H4 t (Waiting call)).
  - intros u c trace [(<- & <- & _)|[_ Hu]]%list_lookup_insert_Some Hp; [done | by eapply H5].
  - intros u c [(<- & <- & _)|[Hne Hu]]%list_lookup_insert_Some; [done|]. rewrite (H6 u c Hu), Hm. split; congruence.
  - intros u [= <-]. by apply insert_is_Some.
  - intros u c from [(_ & ? & _)|[_ Hu]]%list_lookup_insert_Some; [done | by eapply H7].
Qed.

Lemma start_serialized t call :
  s.(callers) !! t = Some (Entered call) ->
  serialized calls w0 order traces (System_of s.(g_engine_mutex) s.(shared) (<[t := Running call s.(shared)]> s.(callers))).
Proof.
  intros Ht. pose proof (pending_not_in_order t _ call Ht eq_refl) as Hno. destruct Hinv as [H1 H2 H3 H4 H5 H6 H8 H7].
  split; cbn [shared callers g_engine_mutex]; [done | done | intros u Hu; by apply order_other | | | | |].
  - intros u c cl [(<- & <- & _)|[_ Hu]]%list_lookup_insert_Some Hp; [|by eapply H4]. by apply (H4 t (Entered call)).
  - intros u c trace [(<- & <- & _)|[_ Hu]]%list_lookup_insert_Some Hp; [done | by eapply H5].
  - intros u c [(<- & <- & _)|[Hne Hu]]%list_lookup_insert_Some; [exact (H6 t (Entered call) Ht) | by apply H6].
  - intros u Hu. by apply insert_is_Some, H8.
  - intros u c from [(_ & E & _)|[_ Hu]]%list_lookup_insert_Some; [by injection E | by eapply H7].
Qed.

Lemma finish_serialized t call from trace w :
  s.(callers) !! t = Some (Running call from) -> perform call from = Some (trace, w) ->
  serialized calls w0 (order ++ [t]) (traces ++ [trace]) (System_of s.(g_engine_mutex) w (<[t := Leaving trace]> s.(callers))).
Proof.
  intros Ht Hrun. pose proof (pending_not_in_order t _ call Ht eq_refl) as Hno.
  assert (forall u c, u <> t -> s.(callers) !! u = Some c -> ~ inside_lock c) as Hout.
  { intros u c Hne Hu Hc. apply Hne. by apply (holder_unique t (Running call from) u c). }
  destruct Hinv as [H1 H2 H3 H4 H5 H6 H8 H7]. rewrite (H7 t call from Ht) in Hrun. pose proof (length_sequential _ _ _ _ _ H1) as Hlen.
  pose proof (lookup_lt_Some _ _ _ Ht) as Hlt. split; cbn [shared callers g_engine_mutex].
  - eapply sequential_snoc; [exact H1 | by apply (H4 t (Running call from)) | exact Hrun].
  - apply NoDup_app. split; [done|]. split; [intros u Hu ->%list_elem_of_singleton; done | apply NoDup_singleton].
  - intros u [Hu | ->%list_elem_of_singleton]%elem_of_app; [by apply order_other|].
    exists (Leaving trace). by rewrite list_lookup_insert_eq.
  - intros u c cl [(_ & <- & _)|[_ Hu]]%list_lookup_insert_Some Hp; [done | by eapply H4].
  - intros u c tr [(<- & <- & _)|[_ Hu]]%list_lookup_insert_Some Hp.
    + injection Hp as <-. exists (length order). rewrite list_lookup_middle, <- Hlen, list_lookup_middle by done. done.
    + destruct (H5 u c tr Hu Hp) as (i & Hi & Hi'). exists i. split; by apply lookup_app_l_Some.
  - intros u c [(<- & <- & _)|[Hne Hu]]%list_lookup_insert_Some; [exact (H6 t (Running call from) Ht) | by apply H6].
  - intros u Hu. by apply insert_is_Some, H8.
  - intros u c f [(_ & ? & _)|[Hne Hu]]%list_lookup_insert_Some; [done|]. exfalso. by apply (Hout u (Running c f)).
Qed.

Lemma unlock_serialized t trace :
  s.(callers) !! t = Some (Leaving trace) ->
  serialized calls w0 order traces (System_of None s.(shared) (<[t := Returned trace]> s.(callers))).
Proof.
  intros Ht. assert (forall u c, u <> t -> s.(callers) !! u = Some c -> ~ inside_lock c) as Hout.
  { intros u c Hne Hu Hc. apply Hne. by apply (holder_unique t (Leaving trace) u c). }
  destruct Hinv as [H1 H2 H3 H4 H5 H6 H8 H7]. pose proof (lookup_lt_Some _ _ _ Ht) as Hlt.
  split; cbn [shared callers g_engine_mutex]; [done | done | | | | | done |].
  - intros u Hu. destruct (decide (u = t)) as [->|Hne]; [exists (Returned trace); by rewrite list_lookup_insert_eq|].
    rewrite list_lookup_insert_ne by done. by apply H3.
  - intros u c cl [(_ & <- & _)|[_ Hu]]%list_lookup_insert_Some Hp; [done | by eapply H4].
  - intros u c tr [(<- & <- & _)|[_ Hu]]%list_lookup_insert_Some Hp; [by apply (H5 t (Leaving trace)) | by eapply H5].
  - intros u c [(<- & <- & _)|[Hne Hu]]%list_lookup_insert_Some; [done|]. split; [|done]. intros Hc. exfalso. by apply (Hout u c).
  - intros u c f [(_ & ? & _)|[Hne Hu]]%list_lookup_insert_Some; [done|]. exfalso. by apply (Hout u (Running c f)).
Qed.
End preservation.

Lemma step_serialized calls w0 s s' :
  (exists order traces, serialized calls w0 order traces s) -> step s s' -> exists order traces, serialized calls w0 order traces s'.
Proof.
  intros (order & traces & Hinv) Hstep. destruct Hstep as [s t call Ht Hm | s t call Ht | s t call from trace w Ht Hrun | s t trace Ht].
  - exists order, traces. by apply lock_serialized.
  - exists order, traces. by apply start_serialized.
  - exists (order ++ [t]), (traces ++ [trace]). by eapply finish_serialized.
  - exists order, traces. by apply unlock_serialized.
Qed.

Lemma start_is_serialized calls w : serialized calls w [] [] (start calls w).
Proof.
  split; cbn [start callers shared g_engine_mutex]; [done | apply NoDup_nil_2 | by intros t ?%not_elem_of_nil | | | | done |].
  - intros t caller call (c & -> & Hc)%list_lookup_fmap_Some_1 Hp. cbn in Hp. congruence.
  - intros t caller trace (c & -> & Hc)%list_lookup_fmap_Some_1 Hp. done.
  - intros t caller (c & -> & Hc)%list_lookup_fmap_Some_1. done.
  - intros t call from (c & ? & Hc)%list_lookup_fmap_Some_1. done.
Qed.

Lemma reachable_serialized calls w s : rtc step (start calls w) s -> exists order traces, serialized calls w order traces s.
Proof.
  intros Hr. remember (start calls w) as s0 eqn:E. assert (exists order traces, serialized calls w order traces s0) as H0.
  { subst s0. exists [], []. apply start_is_serialized. }
  clear E. induction Hr as [|s0 s1 s2 Hstep _ IH]; [done|]. apply IH. by eapply step_serialized.
Qed.
(** A system that is not done goes on, unless a run does not return. *)
Lemma serialized_progress calls w0 order traces s :
  serialized calls w0 order traces s ->
  (forall t caller, s.(callers) !! t = Some caller -> exists trace, caller = Returned trace)
  \/ (exists s', step s s')
  \/ exists t call, s.(callers) !! t = Some (Running call s.(shared)) /\ perform call s.(shared) = None.
Proof.
  intros Hinv. destruct (s.(g_engine_mutex)) as [t|] eqn:Hm.
  - destruct (sr_holder _ _ _ _ _ Hinv t Hm) as [caller Ht]. pose proof (proj2 (sr_lock _ _ _ _ _ Hinv t caller Ht) Hm) as Hi.
    right. destruct caller as [?|call|call from|trace|?]; [done | | | | done].
    + left. eexists. by apply step_start.
    + pose proof (sr_running _ _ _ _ _ Hinv t call from Ht) as ->.
      destruct (perform call s.(shared)) as [[trace w]|] eqn:E; [left; eexists; by eapply step_finish | right; by exists t, call].
    + left. eexists. by eapply step_unlock.
  - destruct (decide (Exists (fun caller => is_Some (pending caller)) s.(callers))) as [Hex|Hno].
    + right. left. apply Exists_exists in Hex as (caller & [t Ht]%list_elem_of_lookup & Hp).
      assert (~ inside_lock caller) as Hi by (rewrite (sr_lock _ _ _ _ _ Hinv t caller Ht), Hm; congruence).
      destruct caller as [call| | | |]; [eexists; by apply (step_lock s t call) | by destruct Hi | by destruct Hi | by destruct Hp | by destruct Hp].
    + left. intros t caller Ht. apply not_Exists_Forall in Hno; [|intros; apply _].
      pose proof (Forall_lookup_1 _ _ _ _ Hno Ht) as Hp. cbn in Hp.
      assert (~ inside_lock caller) as Hi by (rewrite (sr_lock _ _ _ _ _ Hinv t caller Ht), Hm; congruence).
      destruct caller; [destruct Hp; by eexists | by destruct Hi | by destruct Hi | by destruct Hi | by eexists].
Qed.
End serial.

(** ** Property *)

(** C12. Concurrent calls of [run_engine] behave as if they were made one after the other: in
    every interleaving of their steps at most one caller is behind the lock; the traces
    that have been returned, and the state that is left, are those of calling the engine
    in some order of the callers; and the system goes on until every call has returned,
    unless a run itself does not return. *)
Theorem engine_is_serialized {fmt : Fmt} {memory : Memory} {W : Type} `{Platform W} fingerprint calls (w0 : W) s :
  rtc (step fingerprint) (start calls w0) s ->
  (forall t u c d, s.(callers) !! t = Some c -> s.(callers) !! u = Some d -> inside_lock c -> inside_lock d -> t = u)
  /\ (exists order traces, NoDup order /\ sequential fingerprint calls order w0 = Some (traces, s.(shared))
       /\ forall t trace, s.(callers) !! t = Some (Returned trace) -> exists i, order !! i = Some t /\ traces !! i = Some trace)
  /\ ((forall t caller, s.(callers) !! t = Some caller -> exists trace, caller = Returned trace)
      \/ (exists s', step fingerprint s s')
      \/ exists t call, s.(callers) !! t = Some (Running call s.(shared)) /\ perform fingerprint call s.(shared) = None).
Proof.
  intros (order & traces & Hinv)%reachable_serialized. split; [|split].
  - intros t u c d Ht Hu Hc Hd. by eapply (holder_unique fingerprint calls w0 order traces s Hinv u d t c).
  - exists order, traces. split; [apply Hinv|]. split; [apply Hinv|]. intros t trace Ht. by eapply (sr_traces _ _ _ _ _ _ Hinv).
  - by eapply serialized_progress.
Qed.

(** *** Two callers *)

Definition example_call (code : list Z) : EngineCall := {|
  call_code := code; call_seed := Registers_init; call_max_steps := 10; call_backend := Zydis; call_syntax := Intel;
  call_seed_data_pointers := true; call_stop_offset := None |}.

Local Abbreviation example_perform :=
  (perform (fmt := example_fmt) (memory := example_memory) (H := linux_platform (H := example_kernel 9) (zydis := example_zydis) 40)
    example_processor_fingerprint).

Local Abbreviation example_steps :=
  (step (fmt := example_fmt) (memory := example_memory) (H := linux_platform (H := example_kernel 9) (zydis := example_zydis) 40)
    example_processor_fingerprint).

(** The second caller is first, and the first one takes the lock when it has returned. *)
Lemma engine_is_serialized_witness :
  exists trace w s, example_perform (example_call [0x90; 0x90]) 0%nat = Some (trace, w)
    /\ rtc example_steps (start [example_call [0x90]; example_call [0x90; 0x90]] 0%nat) s
    /\ s.(callers) !! 1%nat = Some (Returned trace)
    /\ exists (order : list nat) (traces : list Trace) (i : nat), NoDup order /\ order !! i = Some 1%nat /\ traces !! i = Some trace.
Proof.
  destruct (example_perform (example_call [0x90; 0x90]) 0%nat) as [[trace w]|] eqn:E; [|exfalso; vm_compute in E; discriminate E].
  set (calls := [example_call [0x90]; example_call [0x90; 0x90]]).
  exists trace, w, (System_of (Some 0%nat) w [Entered (example_call [0x90]); Returned trace]). split; [reflexivity|].
  assert (rtc example_steps (start calls 0%nat) (System_of (Some 0%nat) w [Entered (example_call [0x90]); Returned trace])) as Hr.
  { eapply rtc_l; [exact (step_lock _ (start calls 0%nat) 1 _ eq_refl eq_refl)|].
    eapply rtc_l; [refine (step_start _ _ 1 (example_call [0x90; 0x90]) _); reflexivity|].
    eapply rtc_l; [refine (step_finish _ _ 1 (example_call [0x90; 0x90]) 0%nat trace w _ E); reflexivity|].
    eapply rtc_l; [refine (step_unlock _ _ 1 trace _); reflexivity|].
    apply rtc_once. refine (step_lock _ _ 0 (example_call [0x90]) _ _); reflexivity. }
  split; [exact Hr|]. split; [reflexivity|].
  destruct (engine_is_serialized (fmt := example_fmt) (memory := example_memory)
    (H := linux_platform (H := example_kernel 9) (zydis := example_zydis) 40) example_processor_fingerprint calls 0%nat _ Hr)
    as (_ & (order & traces & Hnd & _ & Hret) & _).
  destruct (Hret 1%nat trace eq_refl) as (i & Hi & Hi'). exists order, traces, i. split; [exact Hnd|]. split; [exact Hi | exact Hi'].
Defined.
