(* ===== verification/Layout.v ===== *)
(** * Layout: where a run puts its code, its stack and its data.

    Both platforms end the code at the end of a page, with a guard page behind it, so that
    execution which leaves the input cannot run on.  On Linux the worker lays its memory
    out and the tracer reads where from a pipe: the two meet here.  On Windows the tracer
    does both, and what the memory holds is looked at when it resumes its thread. *)

From S2P Require Import Prelude Text Core Trace History Platform Linux AddressSpace Worker WindowsProcess Windows Engine.

Local Open Scope Z_scope.

(** ** Specification *)

(** A run failed, or started from a seed whose addresses are those of a ready record that
    [T] holds of. *)
Definition started (T : ChildReady -> Prop) (request : PlatformRunRequest) (r : PlatformRunResult) : Prop :=
  r.(result_error) <> [] \/
  exists ready, T ready
    /\ seed_effective request r.(result_seed) ready.(ready_code_base) ready.(ready_initial_rsp) ready.(ready_data_base).

Lemma started_error T request r outcome error : error <> [] -> started T request (set_error r outcome error).
Proof. by left. Qed.

(** A platform lays the memory of a code out. *)
Class LaidOutPlatform {W : Type} (H : Platform W) (page_size data_reserve_base : Z) (code : list Z) : Prop :=
  run_started : forall request w r w', request.(request_code) = code -> well_formed request.(request_seed) ->
    0 <= request.(request_max_steps) -> run_platform_steps request w = Some (r, w') ->
    started (laid_out code page_size data_reserve_base) request r.

(** The memory of a run and the seed it starts from, on pages of [page_size]: the code is at
    the first address and ends exactly at the end of a page, to be read and executed and not
    written, with a page that cannot be accessed behind it and below the top of the address
    space; the stack pointer is aligned, its headroom below the end of a fresh stack, and
    the data is one page behind the address it is always at; both can be read and written and
    have a page that cannot be accessed on either side; data pointers that the request leaves
    at zero are the address of the data. *)
Record run_layout (request : PlatformRunRequest) (page_size data_reserve_base : Z) (seed : Registers) (m : address_space) : Prop := {
  layout_memory : memory_laid_out request.(request_code) page_size (reg_get seed RIP)
    (reg_get seed RSP + SCRATCH_STACK_HEADROOM - SCRATCH_STACK_BYTES) (data_reserve_base + page_size) m;
  layout_end : (reg_get seed RIP + Z.of_nat (length request.(request_code))) mod page_size = 0;
  layout_top : 0 < reg_get seed RIP /\ reg_get seed RIP + Z.of_nat (length request.(request_code)) + page_size < 2 ^ 64;
  layout_stack : reg_get seed RSP mod 16 = 0;
  layout_data : forall reg, reg = RDI \/ reg = RSI -> reg_get seed reg =
    if request.(request_seed_data_pointers) && (reg_get request.(request_seed) reg =? 0)
    then data_reserve_base + page_size else reg_get request.(request_seed) reg;
}.

Lemma started_layout request k data_reserve_base ready seed m :
  seed_effective request seed ready.(ready_code_base) ready.(ready_initial_rsp) ready.(ready_data_base) ->
  laid_out request.(request_code) (2 ^ k) data_reserve_base ready -> memory_of_ready request.(request_code) k ready m ->
  run_layout request (2 ^ k) data_reserve_base seed m.
Proof.
  intros [Erip Ersp Edata _ _ _ _ _ _] [Hend Hguard (buffer & _ & Hb0 & Hb & _) Hrsp _ Hdata] Hm.
  unfold memory_of_ready in Hm. rewrite Hdata in Hm, Edata. split; rewrite ?Erip, ?Ersp; try done. lia.
Qed.

(** ** Linux *)

Section linux.
Context {W : Type} `{H : LinuxKernel W} {zydis : ZydisDecoder} (patience : nat).
Context {V : Type} (K : WorkerKernel V) (view : V -> address_space) (k signal_stack_size data_reserve_base : Z) (code : list Z).
Hypothesis Hk : 8 <= k <= 16.
Hypothesis Hcode : Z.of_nat (length code) < 2 ^ 62.
Hypothesis Hdata : 0 <= data_reserve_base < 2 ^ 63 /\ data_reserve_base mod 2 ^ k = 0.
Hypothesis Hsignal : 0 <= signal_stack_size < 2 ^ 62 /\ signal_stack_size mod 2 ^ k = 0.
Hypothesis Hlaws : memory_laws K (2 ^ k) view.

(** A worker of the run has ended. *)
Definition worker_ended (e : WorkerEnd) (v : Worker V) : Prop :=
  exists worker_patience w fpu,
    child_main worker_patience code (2 ^ k) signal_stack_size data_reserve_base (Worker_of w [] fpu) = Some (e, v).

(** What the pipe delivers is what the worker of the run has written. *)
Class delivers : Prop :=
  pipe_of_worker : forall (s s' : Linux.State W) bytes, read_all patience sizeof_ready s = Some (Some bytes, s') ->
    exists e v, worker_ended e v /\ v.(written) = bytes.

(** The record of a worker that has stopped, and its memory. *)
Definition from_worker (ready : ChildReady) : Prop :=
  laid_out code (2 ^ k) data_reserve_base ready
  /\ exists v, worker_ended WorkerStopped v /\ memory_of_ready code k ready (view v.(worker_world)).

Lemma read_loop_length fuel size got (s s' : Linux.State W) bytes :
  read_loop fuel size got s = Some (Some bytes, s') -> (size + length got <= length bytes)%nat.
Proof.
  revert size got s. induction fuel as [|fuel IH]; intros [|size] got s Hrun; cbn [read_loop] in Hrun;
    try (apply mret_Some in Hrun as [[= <-] _]; lia); [done|].
  apply bind_Some in Hrun as (result & s1 & _ & Hrun). destruct result as [[|b bytes']| | |].
  - by apply mret_Some in Hrun as [? _].
  - apply IH in Hrun. rewrite length_app in Hrun. cbn [length] in *. lia.
  - by apply IH in Hrun.
  - by apply mret_Some in Hrun as [? _].
  - done.
Qed.

(** The record of a worker that failed is never taken for a layout. *)
Lemma delivered_layout {law : delivers} (s s' : Linux.State W) bytes :
  read_all patience sizeof_ready s = Some (Some bytes, s') -> ready_error (ready_of_bytes bytes) = 0 ->
  from_worker (ready_of_bytes bytes).
Proof.
  intros Hread He. pose proof (read_loop_length _ _ _ _ _ _ Hread) as Hlen.
  destruct (pipe_of_worker s s' bytes Hread) as (e & v & (n & w & fpu & Hrun) & <-).
  pose proof Hrun as Hreports. apply (child_main_reports_lemma n code k signal_stack_size data_reserve_base view Hk Hcode Hdata Hsignal Hlaws) in Hreports; [|done].
  destruct e; [destruct Hreports as [?|?]; [cbn [length] in Hlen; lia | done]|]. destruct Hreports as (_ & _ & Hlaid & Hm).
  split; [exact Hlaid|]. exists v. split; [by exists n, w, fpu | exact Hm].
Qed.

Abbreviation keep := (keeps (fun _ : Linux.State W => True)).
Abbreviation start_of request := (started from_worker request).

Lemma keep_finish_started request child result : start_of request result -> keep (finish patience child result) (start_of request).
Proof. intros Hr s r s' _ ->%finish_result. done. Qed.

Lemma keep_fail_started request child result error : error <> [] -> keep (Linux.fail patience child result error) (start_of request).
Proof. intros He. by apply keep_finish_started, started_error. Qed.

Lemma keep_trace_started request child ready :
  request.(request_code) = code -> well_formed request.(request_seed) -> 0 <= request.(request_max_steps) ->
  from_worker ready ->
  keep (trace_worker patience request child ready (set_seed PlatformRunResult_init request.(request_seed))) (start_of request).
Proof.
  intros Hc Hwf Hmax Hlaid. unfold trace_worker. cbv zeta. keep_next options.
  destruct (negb options); [by apply keep_fail_started|]. keep_next registers. keep_next fpu_registers.
  destruct registers as [registers|]; [|by apply keep_fail_started]. destruct fpu_registers as [fpu_registers|]; [|by apply keep_fail_started].
  destruct (negb _); [by apply keep_fail_started|]. cbn [set_seed result_seed].
  destruct (seed_worker request ready registers fpu_registers (request_seed request)) as [[registers' fpu'] recorded] eqn:Es.
  apply seed_worker_effective in Es; [|done]. keep_next ok. keep_next set_fpu. destruct (negb set_fpu); [by apply keep_fail_started|].
  assert (forall r, r.(result_seed) = recorded -> start_of request r) as Hstart.
  { intros r E. right. exists ready. by rewrite E. }
  case_bool_decide; [by apply keep_finish_started, Hstart|]. pose proof (capped_steps_range _ Hmax).
  intros s r s' _ ([Hseed _] & _)%step_loop_spec; [|done | cbn; lia]. split; [done | by apply Hstart].
Qed.

(** A run failed, or started where a worker has laid its memory out. *)
Lemma linux_started {law : delivers} request w r s1 :
  request.(request_code) = code -> well_formed request.(request_seed) -> 0 <= request.(request_max_steps) ->
  run_platform_steps_linux patience request w = Some (r, s1) -> start_of request r.
Proof using Hk Hcode Hdata Hsignal Hlaws.
  intros Hc Hwf Hmax Hrun. unfold run_platform_steps_linux, run_linux in Hrun.
  pose proof (prepare_platform_run_spec request (Linux.instrumentation_detected (Linux.world (Linux.State_of w [] true)))) as Hprep.
  destruct (prepare_platform_run _ _ _) as [go_on result]. destruct Hprep as (_ & _ & _ & Hgo1 & Hgo2). destruct go_on; cbn [negb] in Hrun.
  2: { injection Hrun as <- _. left. by apply Hgo2. }
  rewrite (Hgo1 eq_refl) in Hrun. revert Hrun.
  match goal with |- ?m _ = _ -> _ => assert (keep m (start_of request)) as Hm end; [|intros Hrun; by apply (Hm _ _ _ I Hrun)].
  keep_next piped. destruct (negb piped); [by apply keeps_ret, started_error|]. keep_next child.
  destruct (child =? -1); [keep_next ?; keep_next ?; by apply keeps_ret, started_error|]. unfold start_worker. keep_next ?.
  apply keeps_bind with (Q := fun b => forall bytes, b = Some bytes -> ready_error (ready_of_bytes bytes) = 0 ->
    from_worker (ready_of_bytes bytes)).
  { intros s b s' _ E. split; [done|]. intros bytes -> He. by apply (delivered_layout s s'). }
  intros [bytes|] Hbytes; [|by apply keep_finish_started, started_error]. cbv zeta. keep_next status.
  destruct status as [status|]; [|by apply keep_finish_started, started_error].
  destruct (Z.eqb_spec (ready_error (ready_of_bytes bytes)) 0) as [He|He]; cbn [negb].
  - destruct (_ || _); [by apply keep_finish_started, started_error|]. apply keep_trace_started; auto.
  - keep_next ?. apply keeps_ret, started_error. unfold child_error_name. by repeat case_match.
Qed.

#[export] Instance linux_laid_out {law : delivers} : LaidOutPlatform (linux_platform patience) (2 ^ k) data_reserve_base code.
Proof using Hk Hcode Hdata Hsignal Hlaws.
  intros request w r w' Hc Hwf Hmax Hrun. cbn in Hrun. apply fmap_Some in Hrun as ([r1 s1] & Hrun & [= -> ->]).
  apply linux_started in Hrun as [? | (ready & [? _] & ?)]; [by left | | done..]. right. by exists ready.
Qed.
End linux.

(** ** Windows *)

Definition access_of (protection : Protection) : Access :=
  match protection with PAGE_NOACCESS => NoAccess | PAGE_READWRITE => ReadWriteAccess | PAGE_EXECUTE_READ => ReadExecuteAccess end.

(** What the tracer relies on, for what the addresses of its process hold in each state of
    the system: a reservation is of whole pages where nothing was mapped, and a fixed one is
    where it is asked for when that is a multiple of the granularity; a range that is committed or protected has that protection; a
    copy is; and the calls that make the thread ready leave what is mapped as it is. *)
Record windows_memory_laws {W : Type} {memory : Memory} (H : WindowsKernel W) (page_size : Z) (view : W -> address_space) : Prop := {
  law_reserve : forall size w, 0 < size -> size mod page_size = 0 -> let '(a, w') := VirtualAlloc_reserve 0 size w in
    a = 0 \/ (0 < a /\ a mod page_size = 0 /\ a + size < 2 ^ 64 /\ reserves (view w) (view w') a size);
  law_reserve_at : forall address size w, address <> 0 -> address mod Trace.vm_allocation_granularity = 0 -> let '(a, w') := VirtualAlloc_reserve address size w in
    a = 0 \/ (a = address /\ reserves (view w) (view w') a size);
  law_commit : forall address size protection w, address mod page_size = 0 -> size mod page_size = 0 ->
    let '(a, w') := VirtualAlloc_commit address size protection w in
    a <> 0 -> protects (view w) (view w') address size (access_of protection);
  law_protect : forall address size protection w, address mod page_size = 0 -> size mod page_size = 0 ->
    let '(ok, w') := VirtualProtect address size protection w in
    ok = true -> protects (view w) (view w') address size (access_of protection);
  law_memcpy : forall address bytes w, writable (view w) address (Z.of_nat (length bytes)) ->
    copies (view w) (view (Windows.copy_code address bytes w)) address bytes;
  law_flush : forall address size w, keeps_mapped (view w) (view (FlushInstructionCache address size w).2);
  law_create : forall w, keeps_mapped (view w) (view (CreateThread w).2);
  law_thread_id : forall thread w, keeps_mapped (view w) (view (GetThreadId thread w).2);
  law_get_context : forall thread w, keeps_mapped (view w) (view (GetThreadContext thread w).2);
  law_set_context : forall thread context w, keeps_mapped (view w) (view (SetThreadContext thread context w).2);
  law_add_handler : forall w, keeps_mapped (view w) (view (AddVectoredExceptionHandler w).2);
}.

(** A call of another system, next to which something is noted. *)
Definition beside {W V A : Type} (f : W -> A * W) (w : W * list V) : A * (W * list V) :=
  let '(x, w1) := f w.1 in (x, (w1, w.2)).

(** The system, with a note of its states in which a thread was resumed. *)
Definition observed {W : Type} (H : WindowsKernel W) : WindowsKernel (W * list W) := {|
  VirtualAlloc_reserve address size := beside (VirtualAlloc_reserve address size);
  VirtualAlloc_commit address size protection := beside (VirtualAlloc_commit address size protection);
  VirtualProtect address size protection := beside (VirtualProtect address size protection);
  VirtualFree address w := (VirtualFree address w.1, w.2);
  Windows.copy_code address bytes w := (Windows.copy_code address bytes w.1, w.2);
  FlushInstructionCache address size := beside (FlushInstructionCache address size);
  CreateThread := beside CreateThread;
  GetThreadId thread := beside (GetThreadId thread);
  GetThreadContext thread := beside (GetThreadContext thread);
  SetThreadContext thread context := beside (SetThreadContext thread context);
  ResumeThread thread w := let '(ok, w1) := ResumeThread thread w.1 in (ok, (w1, w.2 ++ [w.1]));
  TerminateThread thread := beside (TerminateThread thread);
  WaitForSingleObject thread := beside (WaitForSingleObject thread);
  CloseHandle thread w := (CloseHandle thread w.1, w.2);
  AddVectoredExceptionHandler := beside AddVectoredExceptionHandler;
  RemoveVectoredExceptionHandler handler w := (RemoveVectoredExceptionHandler handler w.1, w.2);
  raise_next context := beside (raise_next context);
|}.

(** The tracers differ in what is noted: the states of the second kind of system, and
    nothing at all for a system that is not observed. *)
Record noted {W V : Type} (H : WindowsKernel W) (seen : W -> list V) (note : W -> list V) : Prop := {
  noted_reserve : forall address size w, seen (VirtualAlloc_reserve address size w).2 = seen w;
  noted_commit : forall address size protection w, seen (VirtualAlloc_commit address size protection w).2 = seen w;
  noted_protect : forall address size protection w, seen (VirtualProtect address size protection w).2 = seen w;
  noted_free : forall address w, seen (VirtualFree address w) = seen w;
  noted_memcpy : forall address bytes w, seen (Windows.copy_code address bytes w) = seen w;
  noted_flush : forall address size w, seen (FlushInstructionCache address size w).2 = seen w;
  noted_create : forall w, seen (CreateThread w).2 = seen w;
  noted_thread_id : forall thread w, seen (GetThreadId thread w).2 = seen w;
  noted_get_context : forall thread w, seen (GetThreadContext thread w).2 = seen w;
  noted_set_context : forall thread context w, seen (SetThreadContext thread context w).2 = seen w;
  noted_resume : forall thread w, seen (ResumeThread thread w).2 = seen w ++ note w;
  noted_terminate : forall thread w, seen (TerminateThread thread w).2 = seen w;
  noted_wait : forall thread w, seen (WaitForSingleObject thread w).2 = seen w;
  noted_close : forall thread w, seen (CloseHandle thread w) = seen w;
  noted_add_handler : forall w, seen (AddVectoredExceptionHandler w).2 = seen w;
  noted_remove_handler : forall handler w, seen (RemoveVectoredExceptionHandler handler w) = seen w;
  noted_raise : forall context w, seen (raise_next context w).2 = seen w;
}.

Lemma noted_nothing {W : Type} (H : WindowsKernel W) : noted (V := W) H (fun _ => []) (fun _ => []).
Proof. done. Qed.

Lemma beside_1 {W V A : Type} (f : W -> A * W) (w : W * list V) : beside f w = ((f w.1).1, ((f w.1).2, w.2)).
Proof. unfold beside. by destruct (f w.1). Qed.

Lemma noted_observed {W : Type} (H : WindowsKernel W) : noted (observed H) snd (fun w => [w.1]).
Proof.
  split; intros; cbn; rewrite ?beside_1; try done. by destruct (ResumeThread thread w.1).
Qed.

Lemma observed_laws {W : Type} {memory : Memory} (H : WindowsKernel W) page_size view :
  windows_memory_laws H page_size view -> windows_memory_laws (observed H) page_size (fun w => view w.1).
Proof.
  intros [L1 L2 L3 L4 L5 L6 L7 L8 L9 L10 L11]. split; intros; cbn; unfold beside.
  - specialize (L1 size w.1). destruct (VirtualAlloc_reserve _ _ _). auto.
  - specialize (L2 address size w.1 ltac:(done) ltac:(done)). destruct (VirtualAlloc_reserve _ _ _). auto.
  - specialize (L3 address size protection w.1). destruct (VirtualAlloc_commit _ _ _ _). auto.
  - specialize (L4 address size protection w.1). destruct (VirtualProtect _ _ _ _). auto.
  - auto.
  - specialize (L6 address size w.1). destruct (FlushInstructionCache _ _ _). auto.
  - specialize (L7 w.1). destruct (CreateThread _). auto.
  - specialize (L8 thread w.1). destruct (GetThreadId _ _). auto.
  - specialize (L9 thread w.1). destruct (GetThreadContext _ _). auto.
  - specialize (L10 thread context w.1). destruct (SetThreadContext _ _ _). auto.
  - specialize (L11 w.1). destruct (AddVectoredExceptionHandler _). auto.
Qed.

(** *** Code that leads from a state of the system to another

    [leads P m Q]: from a system with [P], whenever [m] returns, its result and the system
    have [Q]. *)
Section leads.
Context {W : Type} `{H : WindowsKernel W}.

Definition leads {A} (P : W -> Prop) (m : Windows.M W A) (Q : A -> W -> Prop) : Prop :=
  forall s x s', P (Windows.world s) -> m s = Some (x, s') -> Q x (Windows.world s').

Lemma leads_ret {A} (x : A) (P : W -> Prop) Q : (forall w, P w -> Q x w) -> leads P (mret x) Q.
Proof. intros Hq s r s' Hp [<- <-]%mret_Some. auto. Qed.

Lemma leads_bind {A B} (m : Windows.M W A) (k : A -> Windows.M W B) P R Q :
  leads P m R -> (forall x, leads (R x) (k x) Q) -> leads P (m ≫= k) Q.
Proof. intros Hm Hk s r s' Hp (x & s1 & E1 & E2)%bind_Some. eapply Hk, E2. by eapply Hm, E1. Qed.

Lemma leads_kernel {A} (f : W -> A * W) (P : W -> Prop) (Q : A -> W -> Prop) :
  (forall w, P w -> Q (f w).1 (f w).2) -> leads P (Windows.kernel f) Q.
Proof.
  intros Hq s x s' Hp. unfold Windows.kernel. specialize (Hq _ Hp). destruct (f _). intros [= <- <-]. exact Hq.
Qed.

Lemma leads_logged {A} (f : W -> A * W) call (P : W -> Prop) (Q : A -> W -> Prop) :
  (forall w, P w -> Q (f w).1 (f w).2) -> leads P (Windows.logged f call) Q.
Proof.
  intros Hq s x s' Hp. unfold Windows.logged. specialize (Hq _ Hp). destruct (f _). intros [= <- <-]. exact Hq.
Qed.

Lemma leads_set_engine e (P : W -> Prop) (Q : unit -> W -> Prop) : (forall w, P w -> Q tt w) -> leads P (set_engine e) Q.
Proof. intros Hq s x s' Hp [= <- <-]. by apply Hq. Qed.

Lemma leads_get_engine (P : W -> Prop) (Q : option Engine -> W -> Prop) : (forall e w, P w -> Q e w) -> leads P get_engine Q.
Proof. intros Hq s x s' Hp [= <- <-]. by apply Hq. Qed.

Lemma leads_weaken {A} (m : Windows.M W A) (P P' : W -> Prop) (Q Q' : A -> W -> Prop) :
  leads P m Q -> (forall w, P' w -> P w) -> (forall x w, Q x w -> Q' x w) -> leads P' m Q'.
Proof. intros Hm Hp Hq s x s' Hs E. eapply Hq, Hm, E. by apply Hp. Qed.

(** Only the result is of interest. *)
Lemma leads_result {A} (m : Windows.M W A) (P : W -> Prop) (R : A -> Prop) (Q : A -> W -> Prop) :
  keeps (fun _ => True) m R -> (forall x w, R x -> Q x w) -> leads P m Q.
Proof. intros Hm Hq s x s' _ E. by apply Hq, (Hm _ _ _ I E). Qed.
End leads.

(** *** The tracer *)

Section windows.
Context {W V : Type} `{H : WindowsKernel W} `{HS : WindowsSystem W} {memory : Memory} (fuel : nat) (k : Z) (request : PlatformRunRequest).
Context (view : W -> address_space) (seen note : W -> list V).
Abbreviation code := request.(request_code).
Hypothesis Hk : 8 <= k <= 16.
Hypothesis Hpage : Trace.vm_page_size = 2 ^ k.
Hypothesis Hcode : Z.of_nat (length code) < 2 ^ 62.
Hypothesis Hdata : 0 < scratch_reserve_base < 2 ^ 63 /\ scratch_reserve_base mod 2 ^ k = 0.
Hypothesis Hgranularity : scratch_reserve_base mod Trace.vm_allocation_granularity = 0.
Hypothesis Hlaws : windows_memory_laws H (2 ^ k) view.
Hypothesis Hnoted : noted H seen note.
Hypothesis Hwf : well_formed request.(request_seed).

Abbreviation region := (code_region code (2 ^ k)).
Abbreviation keep := (keeps (fun _ : Windows.State W => True)).

(** What a run leads to: it failed, or it started in a layout, and its thread was resumed
    once, in a state of the system with that memory. *)
Definition run_started_in (r : PlatformRunResult) (w : W) : Prop :=
  r.(result_error) <> [] \/
  exists ready, laid_out code (2 ^ k) scratch_reserve_base ready
    /\ seed_effective request r.(result_seed) ready.(ready_code_base) ready.(ready_initial_rsp) ready.(ready_data_base)
    /\ (request.(request_stop_offset) = Some 0 \/ exists u, seen w = note u /\ memory_of_ready code k ready (view u)).

Lemma leads_fail P regions result error : error <> [] -> leads P (Windows.fail regions result error) run_started_in.
Proof.
  intros He. apply (leads_result _ _ (fun r => r.(result_error) <> [])); [|by left].
  unfold Windows.fail. keep_next ?. by apply keeps_ret.
Qed.

Lemma leads_fail_thread P thread regions result error : error <> [] ->
  leads P (fail_thread thread regions result error) run_started_in.
Proof.
  intros He. apply (leads_result _ _ (fun r => r.(result_error) <> [])); [|by left].
  unfold fail_thread. keep_next ?. keep_next ?. keep_next ?. by apply keeps_ret.
Qed.

(** Before the thread is resumed. *)
Definition at_rest (ready : ChildReady) (w : W) : Prop := seen w = [] /\ memory_of_ready code k ready (view w).

Lemma rest_call {A} ready (f : W -> A * W) :
  (forall w, keeps_mapped (view w) (view (f w).2)) -> (forall w, seen (f w).2 = seen w) ->
  forall w, at_rest ready w -> at_rest ready (f w).2.
Proof.
  intros Hkeep Hs w [Hn Hm]. split; [by rewrite Hs|]. by eapply memory_laid_out_keeps; [apply Hkeep|].
Qed.

Lemma leads_rest {A} ready (f : W -> A * W) :
  (forall w, keeps_mapped (view w) (view (f w).2)) -> (forall w, seen (f w).2 = seen w) ->
  leads (at_rest ready) (Windows.kernel f) (fun _ => at_rest ready).
Proof. intros Hkeep Hs. apply leads_kernel. by apply rest_call. Qed.

Lemma leads_rest_logged {A} ready (f : W -> A * W) call :
  (forall w, keeps_mapped (view w) (view (f w).2)) -> (forall w, seen (f w).2 = seen w) ->
  leads (at_rest ready) (Windows.logged f call) (fun _ => at_rest ready).
Proof. intros Hkeep Hs. apply leads_logged. by apply rest_call. Qed.

(** After it was resumed. *)
Definition was_resumed (ready : ChildReady) (w : W) : Prop :=
  exists u, seen w = note u /\ memory_of_ready code k ready (view u).

Lemma leads_resumed {A} ready (f : W -> A * W) :
  (forall w, seen (f w).2 = seen w) -> leads (was_resumed ready) (Windows.kernel f) (fun _ => was_resumed ready).
Proof. intros Hs. apply leads_kernel. intros w (u & E & Hu). exists u. by rewrite Hs. Qed.

Lemma leads_resumed_logged {A} ready (f : W -> A * W) call :
  (forall w, seen (f w).2 = seen w) -> leads (was_resumed ready) (Windows.logged f call) (fun _ => was_resumed ready).
Proof. intros Hs. apply leads_logged. intros w (u & E & Hu). exists u. by rewrite Hs. Qed.

Lemma leads_run_thread ready n thread context :
  leads (was_resumed ready) (run_thread n thread context) (fun _ => was_resumed ready).
Proof.
  revert context. induction n as [|n IH]; intros context; cbn [run_thread]; [by intros ? ? ? ?|].
  eapply leads_bind; [apply leads_resumed; intros w; apply Hnoted|]. intros [record c| |]; [|by apply leads_ret | by intros ? ? ? ?].
  eapply leads_bind; [by apply (leads_get_engine _ (fun _ => was_resumed ready))|]. intros e. cbn beta.
  destruct (bme_veh e thread record c) as [[d e'] c']. eapply leads_bind; [by apply (leads_set_engine _ _ (fun _ => was_resumed ready))|].
  intros ?. destruct d; [apply IH | by intros ? ? ? ?].
Qed.

Lemma leads_release ready regions : leads (was_resumed ready) (release_regions regions) (fun _ => was_resumed ready).
Proof.
  assert (forall a, leads (was_resumed ready) (vm_free a) (fun _ => was_resumed ready)) as Hfree.
  { intros a. unfold vm_free. destruct (negb _); [|by apply leads_ret]. apply leads_resumed_logged. intros w. apply Hnoted. }
  unfold release_regions. do 2 (eapply leads_bind; [apply Hfree|]; intros ?). apply Hfree.
Qed.

Lemma leads_trace_thread ready thread regions e context result :
  laid_out code (2 ^ k) scratch_reserve_base ready ->
  seed_effective request result.(result_seed) ready.(ready_code_base) ready.(ready_initial_rsp) ready.(ready_data_base) ->
  leads (at_rest ready) (trace_thread request thread regions e context result) run_started_in.
Proof.
  intros Hlaid Heff. unfold trace_thread.
  eapply leads_bind; [apply leads_rest_logged; [apply Hlaws | intros w; apply Hnoted]|]. intros [handler|]; [|by apply leads_fail_thread].
  cbv zeta. eapply leads_bind; [by apply (leads_set_engine _ _ (fun _ => at_rest ready))|]. intros ?.
  apply leads_bind with (R := fun _ => was_resumed ready).
  { apply leads_kernel. intros w [Hn Hm]. exists w. by rewrite (noted_resume _ _ _ Hnoted), Hn. }
  intros resumed. destruct (negb resumed).
  { apply leads_bind with (R := fun _ _ => True); [by intros ? ? ? ?|]. intros ?.
    apply leads_bind with (R := fun _ _ => True); [by intros ? ? ? ?|]. intros ?. by apply leads_fail_thread. }
  eapply leads_bind; [apply leads_run_thread|]. intros ?.
  eapply leads_bind; [apply leads_resumed_logged; intros w; apply Hnoted|]. intros waited.
  eapply leads_bind; [apply leads_resumed_logged; intros w; apply Hnoted|]. intros ?.
  destruct (negb waited); [by apply leads_fail_thread|].
  eapply leads_bind; [apply leads_resumed_logged; intros w; apply Hnoted|]. intros ?.
  eapply leads_bind; [by apply (leads_get_engine _ (fun _ => was_resumed ready))|]. intros [e'|]; [|by intros ? ? ? ?].
  eapply leads_bind; [apply leads_release|]. intros ?.
  eapply leads_bind; [by apply (leads_set_engine _ _ (fun _ => was_resumed ready))|]. intros ?.
  apply leads_ret. intros w Hr. right. exists ready. split; [done|]. split; [exact Heff | by right].
Qed.

Lemma leads_prepare_thread ready thread regions e :
  laid_out code (2 ^ k) scratch_reserve_base ready -> e.(engine_base) = ready.(ready_code_base) ->
  let rsp := ready.(ready_initial_rsp) in let data_base := ready.(ready_data_base) in
  leads (at_rest ready) (prepare_thread request thread regions e rsp data_base
    (set_seed PlatformRunResult_init (seed_general request e.(engine_base) rsp data_base request.(request_seed)))) run_started_in.
Proof.
  intros Hlaid Hbase rsp data_base. unfold prepare_thread. cbv zeta.
  eapply leads_bind; [apply leads_rest; [intros w; apply Hlaws | intros w; apply Hnoted]|]. intros number.
  eapply leads_bind; [by apply (leads_set_engine _ _ (fun _ => at_rest ready))|]. intros ?.
  destruct (number =? 0); [by apply leads_fail_thread|].
  eapply leads_bind; [apply leads_rest; [intros w; apply Hlaws | intros w; apply Hnoted]|].
  intros [context|]; [|by apply leads_fail_thread].
  eapply leads_bind; [by apply (leads_set_engine _ _ (fun _ => at_rest ready))|]. intros ?.
  destruct (negb _); [by apply leads_fail_thread|]. cbn [set_seed result_seed set_thread engine_base].
  pose proof (seed_context_effective request e.(engine_base) rsp data_base context Hwf) as Heff. cbv zeta in Heff.
  destruct (seed_context _ _ _ _ _ _) as [context' recorded]. cbn [snd] in Heff. rewrite Hbase in Heff.
  eapply leads_bind; [apply leads_rest; [intros w; apply Hlaws | intros w; apply Hnoted]|]. intros ok.
  destruct (negb ok); [by apply leads_fail_thread|]. case_bool_decide as H0.
  - do 3 (apply leads_bind with (R := fun _ _ => True); [by intros ? ? ? ?|]; intros ?).
    apply leads_ret. intros w _. right. exists ready. split; [done|]. split; [exact Heff | by left].
  - by apply leads_trace_thread.
Qed.

(** *** The memory *)

Lemma leads_vm_protect (P : W -> Prop) a n protection (Q : bool -> W -> Prop) :
  a mod 2 ^ k = 0 -> n mod 2 ^ k = 0 ->
  (forall w ok w', P w -> seen w' = seen w -> (ok = true -> protects (view w) (view w') a n (access_of (native_protection protection))) -> Q ok w') ->
  leads P (vm_protect a n protection) Q.
Proof.
  intros Ha Hn Hq. unfold vm_protect. apply leads_kernel. intros w Hp. eapply Hq; [exact Hp | apply Hnoted|].
  pose proof (law_protect _ _ _ Hlaws a n (native_protection protection) w Ha Hn) as Hl. by destruct (VirtualProtect _ _ _ _).
Qed.

Lemma leads_vm_commit (P : W -> Prop) a n protection (Q : bool -> W -> Prop) :
  a mod 2 ^ k = 0 -> n mod 2 ^ k = 0 ->
  (forall w ok w', P w -> seen w' = seen w -> (ok = true -> protects (view w) (view w') a n (access_of (native_protection protection))) -> Q ok w') ->
  leads P (vm_commit a n protection) Q.
Proof.
  intros Ha Hn Hq. unfold vm_commit.
  apply leads_bind with (R := fun r w' => exists w, P w /\ seen w' = seen w
    /\ (r <> 0 -> protects (view w) (view w') a n (access_of (native_protection protection)))).
  - apply leads_kernel. intros w Hp. exists w. split; [done|]. split; [apply Hnoted|].
    pose proof (law_commit _ _ _ Hlaws a n (native_protection protection) w Ha Hn) as Hl. by destruct (VirtualAlloc_commit _ _ _ _).
  - intros r. apply leads_ret. intros w' (w & Hp & Hs & Hr). eapply Hq; [exact Hp | exact Hs|]. intros Hok. apply Hr.
    by apply negb_true_iff, Z.eqb_neq in Hok.
Qed.

Lemma leads_and_then (a b : Windows.M W bool) (P R : W -> Prop) (Q : bool -> W -> Prop) :
  leads P a (fun ok w => if ok then R w else Q false w) -> leads R b Q -> leads P (Windows.and_then a b) Q.
Proof.
  intros Ha Hb. unfold Windows.and_then. eapply leads_bind; [exact Ha|]. intros []; [exact Hb | by apply leads_ret].
Qed.

(** The code is copied, and its pages are protected. *)
Lemma leads_prepare_code buffer stack :
  in_bounds code k buffer stack ->
  leads (fun w => seen w = [] /\ committed (2 ^ k) region buffer stack scratch_reserve_base (view w))
    (prepare_code request region {| buffer := buffer; stack := stack; data := scratch_reserve_base |}
      (set_seed PlatformRunResult_init request.(request_seed))) run_started_in.
Proof.
  intros [(Hb0 & Hb & Hb1) (Hs0 & Hs & Hs1)]. unfold prepare_code. cbv zeta. cbn [Windows.buffer Windows.stack Windows.data set_seed result_seed].
  pose proof (pages k Hk) as [Hp H64]. destruct (code_region_spec code k ltac:(lia) Hcode) as [Hr0 Hr].
  assert (0 <= scratch_reserve_base < 2 ^ 63) as Hd by (split; [apply Z.lt_le_incl|]; apply Hdata).
  destruct (layout_of_regions code k ltac:(lia) Hcode buffer stack scratch_reserve_base Hb0 Hb Hb1 Hs0 Hs Hs1 Hd)
    as (_ & Hlaid & Hbase & Hstack). cbv zeta in Hlaid, Hbase, Hstack. rewrite Hpage.
  set (ready := {| ready_code_base := _ |}) in Hlaid, Hbase, Hstack.
  apply leads_bind with (R := fun _ w => seen w = [] /\ exists m, committed (2 ^ k) region buffer stack scratch_reserve_base m
    /\ copies m (view w) (buffer + region - Z.of_nat (length code)) code).
  { apply leads_kernel. intros w [Hn Hc]. split; [cbn; by rewrite (noted_memcpy _ _ _ Hnoted)|]. exists (view w). split; [done|].
    cbn [snd]. rewrite wrap_small by (unfold in_width; lia). apply Hlaws, area_writable.
    eapply area_part; [apply (committed_code _ _ _ _ _ _ Hc) | lia | lia]. }
  intros ?. apply leads_bind with (R := fun ok w => ok = true -> at_rest ready w).
  { apply leads_vm_protect; [done | done|]. intros w ok w' (Hn & m & Hc & Hcopy) Hs' Hprot Hok. split; [congruence|].
    unfold memory_of_ready. rewrite Hbase, Hstack, (laid_data _ _ _ _ Hlaid).
    eapply start_layout; [lia | lia | lia | exact Hc | exact Hcopy | apply keeps_refl | by apply Hprot]. }
  intros protected. destruct protected; cbn [negb]; [|by apply leads_fail].
  apply leads_weaken with (P := at_rest ready) (Q := run_started_in); [|auto|auto].
  eapply leads_bind; [apply leads_rest; [intros w; apply Hlaws | intros w; apply Hnoted]|]. intros flushed.
  destruct (negb flushed); [by apply leads_fail|].
  eapply leads_bind; [by apply (leads_set_engine _ _ (fun _ => at_rest ready))|]. intros ?.
  eapply leads_bind; [apply leads_rest_logged; [apply Hlaws | intros w; apply Hnoted]|]. intros [thread|].
  - by apply leads_prepare_thread.
  - eapply leads_bind; [by apply (leads_set_engine _ _ (fun _ => at_rest ready))|]. intros ?. by apply leads_fail.
Qed.

Lemma leads_prepare_regions buffer stack data :
  (buffer <> 0 -> stack <> 0 -> data <> 0 -> data = scratch_reserve_base /\ in_bounds code k buffer stack) ->
  leads (fun w => seen w = [] /\ (buffer <> 0 -> stack <> 0 -> data <> 0 -> all_reserved (2 ^ k) region buffer stack scratch_reserve_base (view w)))
    (prepare_regions request region {| buffer := buffer; stack := stack; data := data |}
      (set_seed PlatformRunResult_init request.(request_seed))) run_started_in.
Proof.
  intros Hregions. unfold prepare_regions. cbn [Windows.buffer Windows.stack Windows.data].
  destruct (Z.eqb_spec buffer 0) as [|Hb]; [by apply leads_fail|]. destruct (Z.eqb_spec stack 0) as [|Hs]; [by apply leads_fail|].
  destruct (Z.eqb_spec data 0) as [|Hd]; [by apply leads_fail|]. cbn [orb].
  destruct (Hregions Hb Hs Hd) as [-> Hbounds]. pose proof Hbounds as [(Hb0 & Hb1 & Hb2) (Hs0 & Hs1 & Hs2)].
  pose proof (pages k Hk) as [Hp H64]. destruct (code_region_spec code k ltac:(lia) Hcode) as [Hr0 Hr].
  pose proof (pages_one k) as Hone. destruct Hdata as [Hd0 Hd1]. rewrite Hpage. unfold SCRATCH_STACK_BYTES in Hs2.
  rewrite (wrap_small 64 (stack + _)), (wrap_small 64 (scratch_reserve_base + _)) by (unfold in_width; lia).
  set (res := all_reserved (2 ^ k) region buffer stack scratch_reserve_base).
  apply leads_weaken with (P := fun w => seen w = [] /\ res (view w)) (Q := run_started_in); [|intros w [? ?]; auto | auto].
  apply leads_bind with (R := fun ok w => ok = true -> seen w = [] /\ committed (2 ^ k) region buffer stack scratch_reserve_base (view w)).
  2: { intros []; cbn [negb]; [|by apply leads_fail].
       intros s1 x s1' Hw Hrun. eapply leads_prepare_code; [exact Hbounds | by apply Hw | exact Hrun]. }
  apply leads_and_then with (R := fun w => seen w = [] /\ exists m, res m /\ protects m (view w) buffer region ReadWriteAccess).
  { apply leads_vm_commit; [done | done|]. intros w ok w' [Hn Hres] Hs' Hprot. destruct ok; [|done]. split; [congruence|].
    exists (view w). split; [done | by apply Hprot]. }
  apply leads_and_then with (R := fun w => seen w = [] /\ exists m m1, res m /\ protects m m1 buffer region ReadWriteAccess
    /\ protects m1 (view w) (stack + 2 ^ k) SCRATCH_STACK_BYTES ReadWriteAccess).
  { apply leads_vm_commit; [by apply (pages_add k Hk) | done|]. intros w ok w' (Hn & m & Hres & M1) Hs' Hprot. destruct ok; [|done].
    split; [congruence|]. exists m, (view w). split; [done|]. split; [done | by apply Hprot]. }
  apply leads_vm_commit; [by apply (pages_add k Hk) | done|]. intros w ok w' (Hn & m & m1 & Hres & M1 & M2) Hs' Hprot Hok.
  split; [congruence|]. eapply commit_all; [lia | lia | exact Hres | exact M1 | exact M2 | by apply Hprot].
Qed.

Lemma leads_run_windows :
  leads (fun w => seen w = []) (run_windows fuel request) run_started_in.
Proof.
  intros s r s' Hn Hrun. unfold run_windows in Hrun. destruct (instrumentation_detected _ _) as [instrumented|]; [|done].
  pose proof (prepare_platform_run_spec request instrumented) as Hprep.
  destruct (prepare_platform_run _ _ _) as [go_on result]. destruct Hprep as (_ & _ & _ & Hgo1 & Hgo2). destruct go_on; cbn [negb] in Hrun.
  2: { injection Hrun as <- _. left. by apply Hgo2. }
  rewrite (Hgo1 eq_refl) in Hrun. cbv zeta in Hrun. rewrite Hpage in Hrun. fold (code_region code (2 ^ k)) in Hrun. revert Hn Hrun.
  match goal with |- _ -> ?m _ = _ -> _ => enough (leads (fun w => seen w = []) m run_started_in) as Hm by exact (Hm s r s') end.
  pose proof (pages k Hk) as [Hp H64]. destruct (code_region_spec code k ltac:(lia) Hcode) as [Hr0 Hr].
  pose proof (pages_one k) as Hone. pose proof (pages_two k Hk) as Htwo. rewrite wrap_small by (unfold in_width; lia).
  apply leads_bind with (R := fun b w => seen w = [] /\ (b <> 0 -> (0 < b /\ b mod 2 ^ k = 0 /\ b + (region + 2 ^ k) < 2 ^ 64)
    /\ exists m, reserves m (view w) b (region + 2 ^ k))).
  { apply leads_logged. intros w Hn. split; [by rewrite (noted_reserve _ _ _ Hnoted)|]. intros Hb.
    pose proof (law_reserve _ _ _ Hlaws (region + 2 ^ k) w ltac:(lia) ltac:(by apply (pages_add k Hk))) as Hl.
    destruct (VirtualAlloc_reserve _ _ _) as [b w']. cbn [fst snd] in *. destruct Hl as [?|(? & ? & ? & ?)]; [done|].
    split; [done | by exists (view w)]. }
  intros buffer.
  apply leads_bind with (R := fun st w => seen w = [] /\ (buffer <> 0 -> st <> 0 -> in_bounds code k buffer st
    /\ exists m m1, reserves m m1 buffer (region + 2 ^ k) /\ reserves m1 (view w) st (SCRATCH_STACK_BYTES + 2 ^ k * 2))).
  { apply leads_logged. intros w [Hn Hw]. split; [by rewrite (noted_reserve _ _ _ Hnoted)|]. intros Hb Hst. destruct (Hw Hb) as [Hbb (m & Hm)].
    pose proof (law_reserve _ _ _ Hlaws (SCRATCH_STACK_BYTES + 2 ^ k * 2) w ltac:(unfold SCRATCH_STACK_BYTES; lia) ltac:(by apply (pages_add k Hk))) as Hl.
    destruct (VirtualAlloc_reserve _ _ _) as [st w']. cbn [fst snd] in *. destruct Hl as [?|(? & ? & ? & ?)]; [done|].
    split; [by split | by exists m, (view w)]. }
  intros stack.
  apply leads_bind with (R := fun d w => seen w = [] /\ (buffer <> 0 -> stack <> 0 -> d <> 0 -> (d = scratch_reserve_base /\ in_bounds code k buffer stack)
    /\ all_reserved (2 ^ k) region buffer stack scratch_reserve_base (view w))).
  { apply leads_logged. intros w [Hn Hw]. split; [by rewrite (noted_reserve _ _ _ Hnoted)|]. intros Hb Hst Hd. destruct (Hw Hb Hst) as (Hbb & m & m1 & M & M1).
    pose proof (law_reserve_at _ _ _ Hlaws scratch_reserve_base (SCRATCH_DATA_BYTES + 2 ^ k * 2) w ltac:(destruct Hdata; lia) Hgranularity) as Hl.
    destruct (VirtualAlloc_reserve _ _ _) as [d w']. cbn [fst snd] in *. destruct Hl as [?|(-> & Hres)]; [done|].
    split; [by split | eapply reserve_all; [lia | lia | exact M | exact M1 | exact Hres]]. }
  intros data s0 r0 s0' [Hn Hw] Hrun. revert Hrun. eapply leads_prepare_regions; [intros ? ? ?; by apply Hw|].
  split; [done|]. intros ? ? ?. by apply Hw.
Qed.
End windows.

(** The data is at its address when the granularity divides it. *)
Lemma scratch_reserve_base_value {memory : Memory} j :
  0 <= j <= 28 -> Trace.vm_allocation_granularity = 2 ^ j -> scratch_reserve_base = SCRATCH_DATA_RESERVE_BASE.
Proof.
  intros Hj Hg. unfold scratch_reserve_base. rewrite Hg. assert (0 < 2 ^ j <= 2 ^ 28) as Hp by (split; [lia | apply Z.pow_le_mono_r; lia]).
  rewrite (wrap_small 64 (2 ^ j - 1)) by (unfold in_width; lia). rewrite land_mask by (unfold in_width, SCRATCH_DATA_RESERVE_BASE; lia).
  change SCRATCH_DATA_RESERVE_BASE with (2 ^ 28). replace 28 with ((28 - j) + j) at 2 by lia. rewrite Z.pow_add_r by lia.
  rewrite Z.mod_mul by lia. lia.
Qed.

Lemma reserve_base_pages {memory : Memory} k j : 8 <= k <= j -> j <= 28 -> Trace.vm_allocation_granularity = 2 ^ j ->
  (0 < scratch_reserve_base < 2 ^ 63 /\ scratch_reserve_base mod 2 ^ k = 0) /\ scratch_reserve_base mod Trace.vm_allocation_granularity = 0.
Proof.
  intros Hk Hj Hg. rewrite (scratch_reserve_base_value j) by (done || lia). rewrite Hg. change SCRATCH_DATA_RESERVE_BASE with (2 ^ 28).
  assert (forall i, 0 <= i <= 28 -> 2 ^ 28 mod 2 ^ i = 0) as Hdiv.
  { intros i Hi. replace 28 with ((28 - i) + i) by lia. rewrite Z.pow_add_r by lia. apply Z.mod_mul. lia. }
  split; [split; [lia|]|]; apply Hdiv; lia.
Qed.

#[export] Instance windows_laid_out {W : Type} {H : WindowsKernel W} {HS : WindowsSystem W} {memory : Memory} fuel (laws : thread_laws H) k j code view :
  8 <= k <= 16 -> k <= j <= 28 -> Trace.vm_page_size = 2 ^ k -> Trace.vm_allocation_granularity = 2 ^ j -> Z.of_nat (length code) < 2 ^ 62 ->
  windows_memory_laws H (2 ^ k) view -> LaidOutPlatform (windows_platform fuel laws) (2 ^ k) scratch_reserve_base code.
Proof.
  intros Hk Hj Hpage Hg Hcode Hlaws request w r w' <- Hwf Hmax Hrun. cbn in Hrun. apply fmap_Some in Hrun as ([r1 s1] & Hrun & [= -> ->]).
  destruct (reserve_base_pages k j ltac:(lia) ltac:(lia) Hg) as [Hd Hgr].
  apply (leads_run_windows fuel k request view (fun _ => []) (fun _ => []) Hk Hpage Hcode Hd Hgr Hlaws (noted_nothing H) Hwf) in Hrun; [|done].
  destruct Hrun as [? | (ready & ? & ? & _)]; [by left | right; by exists ready].
Qed.

(** ** A trace of a laid out run *)

(** A run that the platform did not refuse has no message of the platform. *)
Lemma contract_no_error {W : Type} `{H : Platform W} request w r w' :
  well_formed request.(request_seed) -> 0 <= request.(request_max_steps) -> run_platform_steps request w = Some (r, w') ->
  r.(result_outcome) <> OError -> request.(request_code) <> [] -> r.(result_error) = [].
Proof.
  intros Hwf Hmax Hrun Hok Hne. apply run_platform_steps_contract in Hrun; [|done|done].
  destruct Hrun as [_ [Ho | [_ Ho]] _ | ? ? ? ? ? He _ _ _ _]; [done | done | exact He].
Qed.

(** The seed of a trace is that of the result of its platform. *)
Lemma run_engine_started {fmt : Fmt} {memory : Memory} {W : Type} `{H : Platform W}
    page_size data_reserve_base fingerprint code seed max_steps backend syntax pointers stop_offset
    {law : LaidOutPlatform H page_size data_reserve_base code} w trace w' :
  well_formed seed -> 0 <= max_steps ->
  run_engine fingerprint code seed max_steps backend syntax pointers stop_offset w = Some (trace, w') ->
  trace.(trace_outcome) <> OError -> code <> [] ->
  exists request ready, request.(request_seed) = seed /\ request.(request_seed_data_pointers) = pointers
    /\ laid_out code page_size data_reserve_base ready
    /\ seed_effective request trace.(trace_seed) ready.(ready_code_base) ready.(ready_initial_rsp) ready.(ready_data_base).
Proof.
  intros Hwf Hmax Hrun Hok Hne. unfold run_engine in Hrun. cbv zeta in Hrun.
  set (trace0 := requested_trace _ _ _ _ _ _ _) in Hrun. set (request := {| request_code := _ |}) in Hrun.
  destruct (run_platform_steps request w) as [[result w1]|] eqn:E; [|done]. cbn [mbind option_bind] in Hrun.
  assert (0 <= request_max_steps request) as Hm.
  { unfold request, trace0, requested_trace. cbn [request_max_steps effective_max_steps]. unfold MAX_STEPS_LIMIT.
    destruct (max_steps =? 0); cbn [negb]; lia. }
  pose proof (run_started request w result w1 eq_refl Hwf Hm E) as Hstarted.
  assert (result.(result_outcome) <> OError /\ trace.(trace_seed) = result.(result_seed)) as [Ho Hs].
  { destruct (result_instrumentation_detected result); [by injection Hrun as <- _|].
    case_bool_decide; cbn [negb] in Hrun; [|by injection Hrun as <- _]. injection Hrun as <- _.
    match type of Hok with context [describe ?t ?r] => destruct (describe_keeps t r) as (_ & _ & _ & E4 & _ & E6 & _) end.
    rewrite E4, E6 in *. done. }
  pose proof (contract_no_error request w result w1 Hwf Hm E Ho Hne) as He.
  destruct Hstarted as [? | (ready & Hlaid & Heff)]; [done|]. exists request, ready. by rewrite Hs.
Qed.

(** The input of a laid out run does not wrap around. *)
Lemma run_engine_placed {fmt : Fmt} {memory : Memory} {W : Type} `{H : Platform W}
    page_size data_reserve_base fingerprint code seed max_steps backend syntax pointers stop_offset
    {law : LaidOutPlatform H page_size data_reserve_base code} w trace w' :
  0 < page_size -> well_formed seed -> 0 <= max_steps ->
  run_engine fingerprint code seed max_steps backend syntax pointers stop_offset w = Some (trace, w') ->
  trace.(trace_outcome) <> OError -> code <> [] -> placed trace.
Proof.
  intros Hp Hwf Hmax Hrun Hok Hne.
  pose proof (run_engine_inv _ _ _ _ _ _ _ _ _ _ _ Hwf Hmax Hrun) as (_ & Hcode & _).
  destruct (run_engine_started _ _ _ _ _ _ _ _ _ _ _ _ _ Hwf Hmax Hrun Hok Hne) as (request & ready & _ & _ & Hlaid & Heff).
  destruct Hlaid as [_ Hguard (buffer & _ & H0 & H1) _ _ _]. destruct Heff as [Erip _ _ _ _ _ _ _ _].
  unfold placed, History.base, History.size. rewrite Hcode, Erip. lia.
Qed.

(** C13. Every run is laid out as the engine promises, on either platform.  On Linux a run
    whose pipe carries what its worker writes, and that gives no error, started in the
    memory of a worker that has stopped; on Windows a run that gives no error resumed its
    thread once, in such a memory.  In it the code is at the address the run starts from and
    ends exactly at the end of a page, to be read and executed and not written, with a page
    that cannot be accessed behind it, below the top of the address space; the stack pointer
    is aligned to 16 and [SCRATCH_STACK_HEADROOM] below the end of a fresh stack; the data
    is one page behind its fixed reservation; both can be read and written and have a page
    that cannot be accessed on either side; and data pointers that the request leaves at
    zero are the address of the data. *)
Theorem runs_laid_out k request :
  8 <= k <= 16 -> Z.of_nat (length request.(request_code)) < 2 ^ 62 ->
  well_formed request.(request_seed) -> 0 <= request.(request_max_steps) ->
  (forall (W V : Type) (H : LinuxKernel W) (zydis : ZydisDecoder) (K : WorkerKernel V) patience view signal_stack_size data_reserve_base w result s,
     0 <= data_reserve_base < 2 ^ 63 /\ data_reserve_base mod 2 ^ k = 0 ->
     0 <= signal_stack_size < 2 ^ 62 /\ signal_stack_size mod 2 ^ k = 0 -> memory_laws K (2 ^ k) view ->
     delivers patience K k signal_stack_size data_reserve_base request.(request_code) ->
     run_platform_steps_linux patience request w = Some (result, s) -> result.(result_error) = [] ->
     exists v, worker_ended K k signal_stack_size data_reserve_base request.(request_code) WorkerStopped v
       /\ run_layout request (2 ^ k) data_reserve_base result.(result_seed) (view v.(worker_world)))
  /\ (forall (W : Type) (H : WindowsKernel W) (HS : WindowsSystem (W * list W)) (memory : Memory) j fuel view w result s,
     k <= j <= 28 -> Trace.vm_page_size = 2 ^ k -> Trace.vm_allocation_granularity = 2 ^ j -> windows_memory_laws H (2 ^ k) view ->
     run_platform_steps_windows (H := observed H) fuel request (w, []) = Some (result, s) ->
     result.(result_error) = [] -> request.(request_stop_offset) <> Some 0 ->
     exists u, (Windows.world s).2 = [u] /\ run_layout request (2 ^ k) scratch_reserve_base result.(result_seed) (view u)).
Proof.
  intros Hk Hcode Hwf Hmax. split.
  - intros W V H zydis K patience view signal_stack_size data_reserve_base w result s Hd Hsig Hlaws law Hrun He.
    apply (linux_started patience K view k signal_stack_size data_reserve_base _ Hk Hcode Hd Hsig Hlaws) in Hrun; [|done..].
    destruct Hrun as [? | (ready & (Hlaid & v & Hv & Hm) & Heff)]; [done|]. exists v. split; [exact Hv|].
    by eapply started_layout.
  - intros W H HS memory j fuel view w result s Hj Hpage Hg Hlaws Hrun He H0.
    destruct (reserve_base_pages k j ltac:(lia) ltac:(lia) Hg) as [Hd Hgr].
    apply (leads_run_windows fuel k request (fun w => view w.1) snd (fun w => [w.1]) Hk Hpage Hcode Hd Hgr
      (observed_laws H _ view Hlaws) (noted_observed H) Hwf) in Hrun; [|done].
    destruct Hrun as [? | (ready & Hlaid & Heff & [? | ([u u'] & E & Hm)])]; [done..|]. exists u. split; [exact E|].
    by eapply started_layout.
Qed.

(** *** A run whose pipe carries the record of a worker

    The tracer of the example reads what the worker of [example_worker] wrote; the world
    counts the single steps, each of which moves to the next byte. *)

Definition example_written : list Z :=
  match child_main (H := example_worker) 9 [0x90; 0xC3] (2 ^ 12) 0x2000 0x10000000 (Worker_of (0%nat, []) [] example_fpu) with
  | Some (_, s) => s.(written)
  | None => []
  end.

Definition laid_out_kernel : LinuxKernel nat := {|
  sys_getenv _ _ := None;
  sys_pipe w := (true, w);
  sys_fork _ := (42, 0%nat);
  sys_close _ w := w;
  sys_read _ w := (ReadBytes example_written, w);
  sys_poll w := (false, w);
  sys_kill _ w := w;
  sys_waitpid _ w := (Waited (if (w =? 0)%nat then 0x137F else 0x057F), w);
  ptrace_setoptions _ w := (true, w);
  ptrace_getregs _ w :=
    (Some {| user_reg r := match r with RIP => ready_code_base (ready_of_bytes example_written) + Z.of_nat w | _ => 0 end; user_rest := [] |}, w);
  ptrace_getfpregs _ w := (Some example_fpu, w);
  ptrace_setregs _ _ w := (true, w);
  ptrace_setfpregs _ _ w := (true, w);
  ptrace_singlestep _ w := (true, S w);
  ptrace_getsiginfo _ w := (Some {| si_code := TRAP_TRACE; si_addr := 0 |}, w);
  ptrace_cont _ _ w := (true, w);
|}.

#[local] Existing Instances laid_out_kernel example_zydis.

Lemma example_delivers : delivers 40 example_worker 12 0x2000 0x10000000 [0x90; 0xC3].
Proof.
  intros s s' bytes Hread.
  destruct (child_main (H := example_worker) 9 [0x90; 0xC3] (2 ^ 12) 0x2000 0x10000000 (Worker_of (0%nat, []) [] example_fpu)) as [[e v']|] eqn:E;
    [|vm_compute in E; discriminate].
  exists e, v'. split; [by exists 9%nat, (0%nat, []), example_fpu|].
  assert (written v' = example_written) as -> by (unfold example_written; by rewrite E).
  vm_compute in Hread. injection Hread as <- _. vm_compute. reflexivity.
Qed.

(** The thread of the example of [Windows], with the log of its memory calls. *)
Definition laid_out_windows : WindowsKernel (nat * MemoryLog) := {|
  VirtualAlloc_reserve address size w :=
    let '(a, log) := if address =? 0 then log_reserve (2 ^ 12) size w.2 else log_reserve_at address size w.2 in (a, (w.1, log));
  VirtualAlloc_commit address size protection w :=
    let '(ok, log) := log_protect address size (access_of protection) w.2 in (if ok then address else 0, (w.1, log));
  VirtualProtect address size protection w :=
    let '(ok, log) := log_protect address size (access_of protection) w.2 in (ok, (w.1, log));
  VirtualFree _ w := w;
  Windows.copy_code address bytes w := (w.1, log_copy address bytes w.2);
  FlushInstructionCache _ _ w := (true, w);
  CreateThread w := (Some 5, w);
  GetThreadId _ w := (9, w);
  GetThreadContext _ w := (Some example_context, w);
  SetThreadContext _ _ w := (true, w);
  ResumeThread _ w := (true, w);
  TerminateThread _ w := (true, w);
  WaitForSingleObject _ w := (true, w);
  CloseHandle _ w := w;
  AddVectoredExceptionHandler w := (Some 7, w);
  RemoveVectoredExceptionHandler _ w := w;
  raise_next context w :=
    let '(event, n) := raise_next (WindowsKernel := example_windows false) context w.1 in (event, (n, w.2));
|}.

Lemma laid_out_windows_laws {memory : Memory} : windows_memory_laws laid_out_windows (2 ^ 12) example_view.
Proof.
  split; try done; unfold example_view.
  - intros size w _ _. cbn [VirtualAlloc_reserve laid_out_windows]. rewrite Z.eqb_refl.
    pose proof (log_reserve_spec (2 ^ 12) size w.2 ltac:(lia)) as Hl. destruct (log_reserve _ _ _). exact Hl.
  - intros address size w Ha%Z.eqb_neq _. cbn [VirtualAlloc_reserve laid_out_windows]. rewrite Ha.
    pose proof (log_reserve_at_spec address size w.2) as Hl. destruct (log_reserve_at _ _ _). exact Hl.
  - intros address size protection w _ _. cbn [VirtualAlloc_commit laid_out_windows].
    pose proof (log_protect_spec address size (access_of protection) w.2) as Hl. destruct (log_protect _ _ _ _) as [[] log]; [by intros _; apply Hl | done].
  - intros address size protection w _ _. cbn [VirtualProtect laid_out_windows].
    pose proof (log_protect_spec address size (access_of protection) w.2) as Hl. destruct (log_protect _ _ _ _). exact Hl.
  - intros address bytes w. apply log_copy_spec.
Qed.

#[local] Instance laid_out_system : WindowsSystem ((nat * MemoryLog) * list (nat * MemoryLog)) := {|
  get_environment_variable _ _ := (0, 203);
  get_module_handle _ _ := false;
  query_exported := false;
  nt_query _ _ := (0, 0, []);
  current_process_id := 7;
  buffer_address _ := 0x500000;
|}.

#[local] Instance laid_out_pages : Memory := {| Trace.vm_page_size := 0x1000; Trace.vm_allocation_granularity := 0x10000 |}.

Definition laid_out_request : PlatformRunRequest := {|
  request_code := [0x90; 0xC3]; request_seed := Registers_init; request_max_steps := 10;
  request_stop_offset := None; request_seed_data_pointers := true |}.

Local Abbreviation laid_out_linux_run := (run_platform_steps_linux 40 laid_out_request 0%nat).
Local Abbreviation laid_out_windows_run := (run_platform_steps_windows (H := observed laid_out_windows) 1 laid_out_request (0%nat, [], [])).

Lemma runs_laid_out_witness :
  (exists result s v, laid_out_linux_run = Some (result, s)
    /\ run_layout laid_out_request (2 ^ 12) 0x10000000 result.(result_seed) (example_view v.(worker_world)))
  /\ exists result s u, laid_out_windows_run = Some (result, s) /\ (Windows.world s).2 = [u]
    /\ run_layout laid_out_request (2 ^ 12) scratch_reserve_base result.(result_seed) (example_view u).
Proof.
  destruct (runs_laid_out 12 laid_out_request ltac:(lia) ltac:(cbn; lia) Registers_init_well_formed ltac:(discriminate)) as [Hlinux Hwindows].
  split.
  - destruct laid_out_linux_run as [[result s]|] eqn:E; [|vm_compute in E; discriminate].
    assert (result.(result_error) = []) as He.
    { apply (f_equal (option_map (fun x => x.1.(result_error)))) in E. vm_compute in E. apply (inj Some) in E. exact (eq_sym E). }
    destruct (Hlinux nat (nat * MemoryLog)%type laid_out_kernel example_zydis example_worker 40%nat example_view 0x2000 0x10000000 0%nat result s
      ltac:(split; [lia | reflexivity]) ltac:(split; [lia | reflexivity]) example_worker_laws example_delivers E He) as (v & _ & Hv).
    exists result, s, v. split; [reflexivity | exact Hv].
  - destruct laid_out_windows_run as [[result s]|] eqn:E; [|vm_compute in E; discriminate].
    assert (result.(result_error) = []) as He.
    { apply (f_equal (option_map (fun x => x.1.(result_error)))) in E. vm_compute in E. apply (inj Some) in E. exact (eq_sym E). }
    destruct (Hwindows (nat * MemoryLog)%type laid_out_windows laid_out_system laid_out_pages 16 1%nat example_view (0%nat, []) result s
      ltac:(lia) eq_refl eq_refl laid_out_windows_laws E He ltac:(discriminate)) as (u & Eu & Hu).
    exists result, s, u. split; [reflexivity|]. split; [exact Eu | exact Hu].
Defined.

Example laid_out_windows_seed :
  option_map (fun x => (x.1.(result_outcome), reg_get x.1.(result_seed) RIP, reg_get x.1.(result_seed) RSP, reg_get x.1.(result_seed) RDI))
    laid_out_windows_run = Some (OFinished, 0x11FFE, 0x24F00, 0x10001000).
Proof. vm_compute. reflexivity. Qed.
