(* ===== verification/CodeText.v ===== *)
(** * CodeText: the parser of formatted machine code, [parse_code_text] of
    [src/src/bme_core.cpp].

    The scanning state of the code is [position], an index into [text].  The model
    carries the pair of the remaining text [rest] (the text from [position] on) and
    of [position] itself, which the error messages report.  Definitions first, then
    the grammar the parser is proved to accept. *)

From S2P Require Import Prelude Text.

Local Open Scope Z_scope.

#[local] Coercion Z.of_nat : nat >-> Z.

Section parser.
Context {F : Fmt}.

(** The lambda [skip_whitespace]. *)
Fixpoint skip_whitespace (rest : str) (position : nat) : str * nat :=
  match rest with
  | c :: rest' => if isspace c then skip_whitespace rest' (S position) else (rest, position)
  | [] => ([], position)
  end.

(** The lambda [parse_byte]: exactly two characters, both of them digits. *)
Definition parse_byte (rest : str) (position : nat) : Result Z str :=
  if (length rest <? 2)%nat then
    Error (format "Dangling hex nibble at position {}" [AInt position])
  else
    match from_chars_all 16 8 (take 2 rest) with
    | None =>
      Error (format "Invalid hex byte {:?} at position {}" [AStr (take 2 rest); AInt position])
    | Some byte => Ok byte
    end.

(** Is the text at [position] the character [mark] followed by [x] or [X]? *)
Definition has_prefix (mark : ascii) (rest : str) : bool :=
  match rest with
  | a :: b :: _ => bool_decide (a = mark) && (bool_decide (b = "x"%char) || bool_decide (b = "X"%char))
  | _ => false
  end.

(** The loop over the elements of a braced byte array; [None] when the fuel runs out. *)
Fixpoint parse_array (fuel : nat) (rest : str) (position : nat) (result : list Z)
  : option (Result (list Z) str) :=
  match fuel with
  | O => None
  | S fuel =>
    let '(rest, position) := skip_whitespace rest position in
    match rest with
    | [] => Some (Error ("Missing closing brace in byte array" : str))
    | c :: after =>
      if bool_decide (c = "}"%char) then
        let '(after, position) := skip_whitespace after (S position) in
        match after with
        | _ :: _ =>
          Some (Error (format "Unexpected text after byte array at position {}" [AInt position]))
        | [] =>
          Some (match result with [] => Error ("No code to run" : str) | _ => Ok result end)
        end
      else if (length rest <? 3)%nat || negb (has_prefix "0" rest) then
        Some (Error (format "Expected a 0x-prefixed byte at position {}" [AInt position]))
      else
        let digit_start := (position + 2)%nat in
        let '(digits, rest) := span isxdigit (drop 2 rest) in
        let digit_count := length digits in
        let position := (digit_start + digit_count)%nat in
        if (digit_count =? 0)%nat then
          Some (Error (format "Expected a hexadecimal byte at position {}" [AInt digit_start]))
        else if (2 <? digit_count)%nat then
          Some (Error (format "Byte value at position {} exceeds 0xFF"
                         [AInt (digit_start - 2)%nat]))
        else
          match from_chars_all 16 8 digits with
          | None =>
            Some (Error (format "Invalid hexadecimal byte at position {}"
                           [AInt (digit_start - 2)%nat]))
          | Some byte =>
            let result := result ++ [byte] in
            let '(rest, position) := skip_whitespace rest position in
            match rest with
            | c :: after =>
              if bool_decide (c = "}"%char) then parse_array fuel rest position result
              else if bool_decide (c = ","%char) then parse_array fuel after (S position) result
              else Some (Error (format "Expected a comma or closing brace at position {}"
                                  [AInt position]))
            | [] => Some (Error (format "Expected a comma or closing brace at position {}"
                                   [AInt position]))
            end
          end
    end
  end.

(** The loop over the [\xNN] escapes; [None] when the fuel runs out. *)
Fixpoint parse_escapes (fuel : nat) (rest : str) (position : nat) (result : list Z)
  : option (Result (list Z) str) :=
  match fuel with
  | O => None
  | S fuel =>
    match rest with
    | [] => Some (Ok result)
    | _ =>
      let '(rest, position) := skip_whitespace rest position in
      match rest with
      | [] => Some (Ok result)
      | _ =>
        if (length rest <? 4)%nat || negb (has_prefix "\" rest) then
          Some (Error (format "Expected a \x-prefixed byte at position {}" [AInt position]))
        else
          match parse_byte (drop 2 rest) (position + 2) with
          | Error e => Some (Error e)
          | Ok byte => parse_escapes fuel (drop 4 rest) (position + 4) (result ++ [byte])
          end
      end
    end
  end.

(** The loop over bare pairs of digits. *)
Fixpoint parse_plain (rest : str) (position : nat) (result : list Z) : Result (list Z) str :=
  match rest with
  | [] => Ok result
  | c :: rest' =>
    if isspace c then parse_plain rest' (S position) result
    else
      match rest' with
      | [] => Error (format "Dangling hex nibble at position {}" [AInt position])
      | d :: rest'' =>
        if isspace d then Error (format "Dangling hex nibble at position {}" [AInt position])
        else
          match parse_byte rest position with
          | Error e => Error e
          | Ok byte => parse_plain rest'' (position + 2) (result ++ [byte])
          end
      end
  end.

(** [parse_code_text].  Both fuelled loops consume text on every turn, so one more
    turn than there are characters is enough ([parse_array_total],
    [parse_escapes_total]) and the [None] branch is never taken. *)
Definition parse_code_text (text : str) : Result (list Z) str :=
  let '(rest, position) := skip_whitespace text 0 in
  match rest with
  | [] => Error ("No code to run" : str)
  | c :: after =>
    if bool_decide (c = "{"%char) then
      default (Error []) (parse_array (S (length text)) after (S position) [])
    else if bool_decide (c = "\"%char) then
      default (Error []) (parse_escapes (S (length text)) rest position [])
    else parse_plain rest position []
  end.

(** [format_code_text]: the bytes of a raw file as text for the byte editor. *)
Definition format_code_text (bytes : list Z) : str :=
  format "{:02X}" [AJoin (map AInt bytes) " "].

(** [read_binary_input].  The file system is the argument [open]: what opening the
    path at its end gives.  [end_position] is [tellg()], [data] the bytes that
    [read] would deliver and [good] the state of the stream after it. *)
Record ifstream : Type := {
  opened : bool;
  end_position : Z;
  data : list Z;
  good : bool;
}.

Definition MAX_RAW_FILE_BYTES : Z := 1000000 * 15.

Definition read_binary_input (open : str -> ifstream) (path : str) : Result (list Z) str :=
  let input := open path in
  if negb input.(opened) then
    Error (format "Could not open input file {:?}" [AStr path])
  else if input.(end_position) <? 0 then
    Error (format "Could not determine a usable size for input file {:?}" [AStr path])
  else
    let end_value := input.(end_position) in
    if (2 ^ 64 - 1 <? end_value) || (2 ^ 63 - 1 <? end_value) then
      Error (format "Could not determine a usable size for input file {:?}" [AStr path])
    else if MAX_RAW_FILE_BYTES <? end_value then
      Error (format "Input file {:?} exceeds the {} byte limit" [AStr path; AInt MAX_RAW_FILE_BYTES])
    else
      let result := take (Z.to_nat end_value) input.(data) in
      if negb input.(good) then Error (format "Could not read input file {:?}" [AStr path])
      else match result with [] => Error ("No code to run" : str) | _ => Ok result end.

End parser.

(** ** The grammar *)

Abbreviation spaces := (Forall (fun c => isspace c = true)).

(** Pairs of digits, with white space anywhere but inside a pair. *)
Inductive plain_hex : str -> list Z -> Prop :=
| plain_nil : plain_hex [] []
| plain_space c t bs : isspace c = true -> plain_hex t bs -> plain_hex (c :: t) bs
| plain_byte a b t bs :
    isxdigit a = true -> isxdigit b = true -> plain_hex t bs ->
    plain_hex (a :: b :: t) (digits_value 16 [a; b] :: bs).

(** [\xNN] escapes, with white space anywhere but inside an escape. *)
Inductive escaped_hex : str -> list Z -> Prop :=
| escaped_nil : escaped_hex [] []
| escaped_space c t bs : isspace c = true -> escaped_hex t bs -> escaped_hex (c :: t) bs
| escaped_byte x a b t bs :
    x = "x"%char \/ x = "X"%char -> isxdigit a = true -> isxdigit b = true ->
    escaped_hex t bs ->
    escaped_hex ("\"%char :: x :: a :: b :: t) (digits_value 16 [a; b] :: bs).

(** One element of a byte array: [0x] and one or two digits. *)
Definition array_element (t : str) (b : Z) : Prop :=
  exists x ds, t = "0"%char :: x :: ds /\ (x = "x"%char \/ x = "X"%char) /\
    Forall (fun c => isxdigit c = true) ds /\ (1 <= length ds <= 2)%nat /\
    b = digits_value 16 ds.

(** What follows the opening brace: elements separated by commas, an optional
    trailing comma, the closing brace and white space. *)
Inductive array_body : str -> list Z -> Prop :=
| array_close w w' : spaces w -> spaces w' -> array_body (w ++ "}"%char :: w') []
| array_last w e w' b w'' :
    spaces w -> array_element e b -> spaces w' -> spaces w'' ->
    array_body (w ++ e ++ w' ++ "}"%char :: w'') [b]
| array_comma w e w' b t bs :
    spaces w -> array_element e b -> spaces w' -> array_body t bs ->
    array_body (w ++ e ++ w' ++ ","%char :: t) (b :: bs).

Definition code_text (t : str) (bs : list Z) : Prop :=
  bs <> [] /\
  (plain_hex t bs \/ escaped_hex t bs \/
   exists w body, spaces w /\ t = w ++ "{"%char :: body /\ array_body body bs).

(** ** Lemmas *)

Section proofs.
Context {F : Fmt}.

Lemma skip_whitespace_span rest position :
  skip_whitespace rest position
  = ((span isspace rest).2, (position + length (span isspace rest).1)%nat).
Proof.
  revert position. induction rest as [|c rest IH]; intros position; simpl.
  - by rewrite Nat.add_0_r.
  - destruct (isspace c); simpl; [|by rewrite Nat.add_0_r].
    rewrite IH. destruct (span isspace rest); simpl. f_equal. lia.
Qed.

(** What [skip_whitespace] leaves: the rest of the text after white space, which
    does not start with white space. *)
Lemma skip_whitespace_inv rest position rest' position' :
  skip_whitespace rest position = (rest', position') ->
  exists w, rest = w ++ rest' /\ spaces w /\ position' = (position + length w)%nat /\
    match rest' with [] => True | c :: _ => isspace c = false end.
Proof.
  rewrite skip_whitespace_span. intros [= <- <-]. exists (span isspace rest).1.
  split; [by rewrite span_app|]. split; [apply span_all|]. split; [done|].
  destruct (span isspace rest).2 eqn:E; [done | by eapply span_stop].
Qed.

Lemma skip_whitespace_app w rest position :
  spaces w -> match rest with [] => True | c :: _ => isspace c = false end ->
  skip_whitespace (w ++ rest) position = (rest, (position + length w)%nat).
Proof. intros Hw Hr. by rewrite skip_whitespace_span, (span_app_all isspace w rest). Qed.

Lemma digits_pair a b :
  isxdigit a = true -> isxdigit b = true ->
  from_chars_all 16 8 [a; b] = Some (digits_value 16 [a; b]).
Proof.
  intros Ha Hb. apply from_chars_all_spec. rewrite <- !is_digit_16 in *.
  repeat split; try done; [by repeat constructor|].
  pose proof (digits_value_bound 16 [a; b]). cbn [length] in *. lia.
Qed.

Lemma parse_byte_Ok rest position byte :
  parse_byte rest position = Ok byte <->
  exists a b t, rest = a :: b :: t /\ isxdigit a = true /\ isxdigit b = true /\
    byte = digits_value 16 [a; b].
Proof.
  unfold parse_byte. split.
  - intros H. destruct rest as [|a [|b t]]; [done|done|]. change (take 2 (a :: b :: t)) with [a; b] in H.
    cbn [length Nat.ltb Nat.leb] in H.
    destruct (from_chars_all 16 8 [a; b]) as [v|] eqn:E; [|done].
    apply from_chars_all_spec in E as (_ & Hall & -> & _). simplify_eq.
    rewrite !Forall_cons in Hall. destruct Hall as (Ha & Hb & _). rewrite is_digit_16 in *.
    exists a, b, t. done.
  - intros (a & b & t & -> & Ha & Hb & ->). change (take 2 (a :: b :: t)) with [a; b].
    cbn [length Nat.ltb Nat.leb].
    by rewrite digits_pair.
Qed.

Lemma has_prefix_inv mark rest :
  has_prefix mark rest = true ->
  exists x t, rest = mark :: x :: t /\ (x = "x"%char \/ x = "X"%char).
Proof.
  unfold has_prefix. destruct rest as [|a [|b t]]; try done.
  rewrite andb_true_iff, orb_true_iff, !bool_decide_eq_true. intros [-> H]. eauto.
Qed.

Lemma has_prefix_ok mark x t : x = "x"%char \/ x = "X"%char -> has_prefix mark (mark :: x :: t) = true.
Proof.
  unfold has_prefix. rewrite andb_true_iff, orb_true_iff, !bool_decide_eq_true. done.
Qed.

(** *** Plain pairs *)

Lemma parse_plain_complete rest bs :
  plain_hex rest bs -> forall position result,
  parse_plain rest position result = Ok (result ++ bs).
Proof.
  induction 1 as [|c t bs Hc _ IH|a b t bs Ha Hb _ IH]; intros position result; simpl.
  - by rewrite app_nil_r.
  - by rewrite Hc.
  - rewrite !isxdigit_not_isspace by done.
    destruct (parse_byte (a :: b :: t) position) as [v|] eqn:E.
    + apply parse_byte_Ok in E as (? & ? & ? & [= <- <- <-] & _ & _ & ->).
      rewrite IH. by rewrite <- app_assoc.
    + rewrite (proj2 (parse_byte_Ok (a :: b :: t) position (digits_value 16 [a; b]))) in E; [done|].
      eauto 10.
Qed.

Lemma parse_plain_sound n rest position result bs :
  (length rest <= n)%nat -> parse_plain rest position result = Ok bs ->
  exists bs', bs = result ++ bs' /\ plain_hex rest bs'.
Proof.
  revert rest position result. induction n as [|n IH]; intros rest position result Hn H.
  all: destruct rest as [|c rest]; simpl in *; [injection H as <-; exists [];
    rewrite app_nil_r; by repeat constructor | try lia].
  destruct (isspace c) eqn:Hc.
  - apply IH in H as (bs' & -> & ?); [|lia]. eexists. split; [done | by constructor].
  - destruct rest as [|d rest]; [done|]. destruct (isspace d) eqn:Hd; [done|].
    destruct (parse_byte _ _) as [v|] eqn:E; [|done].
    apply parse_byte_Ok in E as (a & b & t & [= <- <- <-] & Ha & Hb & ->).
    apply IH in H as (bs' & -> & ?); [|simpl in Hn; lia].
    eexists. rewrite <- app_assoc. split; [done | by constructor].
Qed.

(** *** Escapes *)

Lemma escaped_strip w rest bs : spaces w -> escaped_hex (w ++ rest) bs -> escaped_hex rest bs.
Proof.
  induction 1 as [|c w Hc _ IH]; simpl; intros H; [done|].
  inversion H; subst; [auto|done].
Qed.

Lemma escaped_spaces w rest bs : spaces w -> escaped_hex rest bs -> escaped_hex (w ++ rest) bs.
Proof. induction 1; simpl; [done|]. intros. constructor; auto. Qed.

Lemma parse_escapes_complete n fuel rest bs position result :
  (length rest <= n < fuel)%nat -> escaped_hex rest bs ->
  parse_escapes fuel rest position result = Some (Ok (result ++ bs)).
Proof.
  revert fuel rest bs position result. induction n as [|n IH]; intros fuel rest bs position result Hn H.
  all: destruct fuel as [|fuel]; [lia|]; simpl.
  all: destruct rest as [|c0 rest0] eqn:Er; [inversion H; by rewrite app_nil_r|].
  { simpl in Hn. lia. }
  rewrite <- Er in *. clear Er c0 rest0.
  destruct (skip_whitespace rest position) as [rest' position'] eqn:Es.
  apply skip_whitespace_inv in Es as (w & -> & Hw & -> & Hh).
  apply escaped_strip in H; [|done]. rewrite length_app in Hn.
  inversion H as [|c t ? Hc Ht|x a b t bs' Hx Ha Hb Ht]; subst; [by rewrite app_nil_r|congruence|].
  rewrite has_prefix_ok by done. cbn [length Nat.ltb Nat.leb orb negb] in *.
  change (drop 2 ("\"%char :: x :: a :: b :: t)) with (a :: b :: t).
  rewrite (proj2 (parse_byte_Ok _ _ (digits_value 16 [a; b]))) by eauto 10.
  change (drop 4 ("\"%char :: x :: a :: b :: t)) with t.
  rewrite (IH _ _ bs'); [by rewrite <- app_assoc | lia | done].
Qed.

Lemma parse_escapes_sound fuel rest position result bs :
  parse_escapes fuel rest position result = Some (Ok bs) ->
  exists bs', bs = result ++ bs' /\ escaped_hex rest bs'.
Proof.
  revert rest position result. induction fuel as [|fuel IH]; intros rest position result H; [done|].
  simpl in H. destruct rest as [|c0 rest0] eqn:Er.
  { injection H as <-. exists []. rewrite app_nil_r. by repeat constructor. }
  rewrite <- Er in *. clear Er c0 rest0.
  destruct (skip_whitespace rest position) as [rest' position'] eqn:Es.
  apply skip_whitespace_inv in Es as (w & -> & Hw & -> & Hh).
  destruct rest' as [|c1 rest1] eqn:Er.
  { injection H as <-. exists []. rewrite app_nil_r. split; [done|].
    apply escaped_spaces; [done | constructor]. }
  rewrite <- Er in *. clear Er c1 rest1 Hh.
  destruct (_ || _) eqn:Hg in H; [done|]. apply orb_false_iff in Hg as [Hlen Hp].
  apply negb_false_iff, has_prefix_inv in Hp as (x & t & -> & Hx).
  change (drop 2 ("\"%char :: x :: t)) with t in H.
  destruct (parse_byte _ _) as [v|] eqn:E; [|done].
  apply parse_byte_Ok in E as (a & b & t' & -> & Ha & Hb & ->).
  apply IH in H as (bs' & -> & Ht). eexists. rewrite <- app_assoc. split; [done|].
  apply escaped_spaces; [done|]. by constructor.
Qed.

Lemma parse_escapes_total fuel rest position result :
  (length rest < fuel)%nat -> exists r, parse_escapes fuel rest position result = Some r.
Proof.
  revert rest position result. induction fuel as [|fuel IH]; intros rest position result Hn; [lia|].
  simpl. destruct rest as [|c0 rest0] eqn:Er; [eauto|]. rewrite <- Er in *. clear Er c0 rest0.
  destruct (skip_whitespace rest position) as [rest' position'] eqn:Es.
  apply skip_whitespace_inv in Es as (w & -> & Hw & -> & Hh). rewrite length_app in Hn.
  destruct rest' as [|c1 rest1] eqn:Er; [eauto|]. rewrite <- Er in *.
  destruct (_ || _) eqn:Hg; [eauto|]. destruct (parse_byte _ _); [|eauto].
  apply orb_false_iff in Hg as [Hlen _]. apply IH. rewrite length_skipn.
  apply Nat.ltb_ge in Hlen. lia.
Qed.

(** *** Byte arrays *)

Lemma array_element_value e b :
  array_element e b -> exists x ds, e = "0"%char :: x :: ds /\
    has_prefix "0" e = true /\ Forall (fun c => isxdigit c = true) ds /\
    (1 <= length ds <= 2)%nat /\ from_chars_all 16 8 ds = Some b.
Proof.
  intros (x & ds & -> & Hx & Hds & Hlen & ->). exists x, ds. split; [done|].
  rewrite has_prefix_ok by done. repeat split; try done; try lia.
  apply from_chars_all_spec. split; [intros ->; simpl in Hlen; lia|]. split.
  - eapply Forall_impl; [exact Hds|]. intros c. by rewrite is_digit_16.
  - split; [done|]. pose proof (digits_value_bound 16 ds).
    assert (16 ^ Z.of_nat (length ds) <= 2 ^ 8); [|lia].
    change (2 ^ 8) with (16 ^ 2). apply Z.pow_le_mono_r; lia.
Qed.

(** One turn of the loop on a well-formed element. *)
Lemma parse_array_step fuel w e b w' c t position result :
  spaces w -> array_element e b -> spaces w' -> isspace c = false -> isxdigit c = false ->
  exists p p', parse_array (S fuel) (w ++ e ++ w' ++ c :: t) position result =
    if bool_decide (c = "}"%char) then parse_array fuel (c :: t) p (result ++ [b])
    else if bool_decide (c = ","%char) then parse_array fuel t (S p) (result ++ [b])
    else Some (Error (format "Expected a comma or closing brace at position {}" [AInt p'])).
Proof.
  intros Hw He Hw' Hc Hx.
  apply array_element_value in He as (x & ds & -> & Hp & Hds & Hlen & Hv). simpl parse_array.
  rewrite skip_whitespace_app by done. cbn [app bool_decide].
  rewrite bool_decide_eq_false_2 by done.
  replace (length _ <? 3)%nat with false
    by (symmetry; apply Nat.ltb_ge; simpl; rewrite !length_app; lia).
  change (has_prefix "0" ("0"%char :: x :: ds ++ w' ++ c :: t)) with (has_prefix "0" ("0"%char :: x :: ds)).
  rewrite Hp. cbn [orb negb].
  change (drop 2 ("0"%char :: x :: ds ++ w' ++ c :: t)) with (ds ++ w' ++ c :: t).
  rewrite span_app_all; [|done|].
  2:{ destruct Hw' as [|c' w' Hc' _]; simpl; [done|].
      destruct (isxdigit c') eqn:E; [apply isxdigit_not_isspace in E; congruence | done]. }
  destruct (Nat.eqb_spec (length ds) 0); [lia|]. destruct (Nat.ltb_spec 2 (length ds)); [lia|].
  rewrite Hv. rewrite skip_whitespace_app by done. eauto.
Qed.

Lemma parse_array_close fuel w w' position result :
  spaces w -> spaces w' ->
  parse_array (S fuel) (w ++ "}"%char :: w') position result
  = Some (match result with [] => Error ("No code to run" : str) | _ => Ok result end).
Proof.
  intros Hw Hw'. simpl. rewrite skip_whitespace_app by done.
  rewrite bool_decide_eq_true_2 by done.
  rewrite <- (app_nil_r w'), skip_whitespace_app by done. done.
Qed.

Lemma parse_array_complete rest bs :
  array_body rest bs -> forall fuel position result,
  (length rest < fuel)%nat -> result ++ bs <> [] ->
  parse_array fuel rest position result = Some (Ok (result ++ bs)).
Proof.
  induction 1 as [w w' Hw Hw'|w e w' b w'' Hw He Hw' Hw''|w e w' b t bs Hw He Hw' Ht IH];
    intros fuel position result Hf Hne.
  all: destruct fuel as [|fuel]; [lia|].
  - rewrite parse_array_close by done. rewrite app_nil_r in *. by destruct result.
  - destruct (parse_array_step fuel w e b w' "}"%char w'' position result) as (p & p' & ->);
      try done. rewrite bool_decide_eq_true_2 by done.
    rewrite !length_app in Hf. simpl in Hf. destruct fuel as [|fuel]; [lia|].
    rewrite (parse_array_close fuel [] w'') by done. by destruct result.
  - destruct (parse_array_step fuel w e b w' ","%char t position result) as (p & p' & ->);
      try done. rewrite bool_decide_eq_false_2, bool_decide_eq_true_2 by done.
    rewrite !length_app in Hf. simpl in Hf.
    rewrite IH; [by rewrite <- app_assoc | lia | by destruct result].
Qed.

(** What one turn of the loop read before it went on. *)
Lemma parse_array_inv fuel rest position result r :
  parse_array (S fuel) rest position result = Some (Ok r) ->
  (exists w w', rest = w ++ "}"%char :: w' /\ spaces w /\ spaces w' /\ r = result /\ result <> [])
  \/ (exists w e b w' t p, rest = w ++ e ++ w' ++ t /\ spaces w /\ array_element e b /\ spaces w' /\
        ((exists t', t = "}"%char :: t' /\ parse_array fuel t p (result ++ [b]) = Some (Ok r))
         \/ (exists t', t = ","%char :: t' /\ parse_array fuel t' p (result ++ [b]) = Some (Ok r)))).
Proof.
  cbn [parse_array]. destruct (skip_whitespace rest position) as [rest1 p1] eqn:E1.
  apply skip_whitespace_inv in E1 as (w & -> & Hw & -> & Hh1).
  destruct rest1 as [|c rest1]; [done|]. case_bool_decide as Hc.
  - subst c. destruct (skip_whitespace rest1 _) as [rest2 p2] eqn:E2.
    apply skip_whitespace_inv in E2 as (w' & -> & Hw' & -> & Hh2).
    destruct rest2; [|done]. destruct result as [|z result]; [done|]. intros [= <-].
    left. exists w, w'. rewrite app_nil_r. done.
  - destruct (_ || _) eqn:Hg; [done|]. apply orb_false_iff in Hg as [Hlen Hp].
    apply negb_false_iff, has_prefix_inv in Hp as (x & t & E & Hx).
    injection E as -> ->. change (drop 2 ("0"%char :: x :: t)) with t.
    destruct (span isxdigit t) as [ds rest2] eqn:Hs.
    pose proof (span_app isxdigit t) as Happ. pose proof (span_all isxdigit t) as Hall.
    rewrite Hs in Happ, Hall. simpl in Happ, Hall. subst t.
    destruct (Nat.eqb_spec (length ds) 0); [done|].
    destruct (Nat.ltb_spec 2 (length ds)); [done|].
    destruct (from_chars_all 16 8 ds) as [v|] eqn:Hv; [|done].
    apply from_chars_all_spec in Hv as (_ & _ & -> & _).
    destruct (skip_whitespace rest2 _) as [rest3 p3] eqn:E3.
    apply skip_whitespace_inv in E3 as (w' & -> & Hw' & -> & Hh3). intros Hrun. right.
    destruct rest3 as [|c3 rest3]; [done|].
    exists w, ("0"%char :: x :: ds), (digits_value 16 ds), w', (c3 :: rest3).
    case_bool_decide as H3; [|case_bool_decide as H4; [|done]]; subst c3.
    all: eexists; split; [done|]; split; [done|]; split; [exists x, ds; auto with lia|].
    all: split; [done|]; eauto.
Qed.

Lemma parse_array_sound fuel rest position result bs :
  parse_array fuel rest position result = Some (Ok bs) ->
  exists bs', bs = result ++ bs' /\ array_body rest bs'.
Proof.
  revert rest position result. induction fuel as [|fuel IH]; intros rest position result H; [done|].
  apply parse_array_inv in H as [(w & w' & -> & Hw & Hw' & -> & _)|
    (w & e & b & w' & t & p & -> & Hw & He & Hw' & [(t' & -> & H)|(t' & -> & H)])].
  - exists []. rewrite app_nil_r. split; [done | by constructor].
  - destruct fuel as [|fuel]; [done|].
    pose proof H as H0. apply IH in H as (bs' & -> & Hb). exists (b :: bs').
    rewrite <- app_assoc. split; [done|].
    apply parse_array_inv in H0 as [(v & v' & E & Hv & Hv' & E' & _)|
      (v & e' & b' & v' & t2 & p2 & E & Hv & (x & ds & -> & _) & _)].
    + destruct v as [|c v]; [|exfalso; injection E as <- _; by inversion Hv].
      injection E as ->. rewrite <- (app_nil_r (result ++ [b])) in E' at 2.
      apply app_inv_head in E' as ->. by apply array_last.
    + exfalso. destruct v as [|c v]; [done|]. injection E as <- _. by inversion Hv.
  - apply IH in H as (bs' & -> & Hb). exists (b :: bs'). rewrite <- app_assoc.
    split; [done|]. by constructor.
Qed.

Lemma parse_array_total fuel rest position result :
  (length rest < fuel)%nat -> exists r, parse_array fuel rest position result = Some r.
Proof.
  revert rest position result. induction fuel as [|fuel IH]; intros rest position result Hn; [lia|].
  cbn [parse_array]. destruct (skip_whitespace rest position) as [rest1 p1] eqn:E1.
  apply skip_whitespace_inv in E1 as (w & -> & _). rewrite length_app in Hn.
  destruct rest1 as [|c rest1]; [eauto|]. case_bool_decide.
  { destruct (skip_whitespace rest1 _) as [[|? ?] ?]; destruct result; eauto. }
  destruct (_ || _) eqn:Hg; [eauto|]. apply orb_false_iff in Hg as [Hlen _].
  apply Nat.ltb_ge in Hlen. destruct (span isxdigit _) as [ds rest2] eqn:Hs.
  pose proof (length_span isxdigit (drop 2 (c :: rest1))) as Hls. rewrite Hs, length_skipn in Hls.
  cbn [fst snd length] in Hls, Hlen, Hn.
  destruct (_ =? _)%nat; [eauto|]. destruct (_ <? _)%nat; [eauto|].
  destruct (from_chars_all _ _ _); [|eauto].
  destruct (skip_whitespace rest2 _) as [rest3 p3] eqn:E3.
  apply skip_whitespace_inv in E3 as (w' & -> & _). rewrite length_app in Hls.
  destruct rest3 as [|c3 rest3]; [eauto|]. cbn [length] in Hls.
  case_bool_decide; [apply IH; cbn [length]; lia|]. case_bool_decide; [apply IH; lia | eauto].
Qed.

(** ** Properties *)

Lemma skip_first text rest position :
  skip_whitespace text 0 = (rest, position) ->
  exists w, text = w ++ rest /\ spaces w /\ (length rest <= length text)%nat /\
    match rest with [] => True | c :: _ => isspace c = false end.
Proof.
  intros H. apply skip_whitespace_inv in H as (w & -> & Hw & _ & Hh). exists w.
  rewrite length_app. auto with lia.
Qed.

Lemma plain_spaces w rest bs : spaces w -> plain_hex rest bs -> plain_hex (w ++ rest) bs.
Proof. induction 1; simpl; [done|]. intros. constructor; auto. Qed.

Lemma plain_strip w rest bs : spaces w -> plain_hex (w ++ rest) bs -> plain_hex rest bs.
Proof.
  induction 1 as [|c w Hc _ IH]; simpl; intros H; [done|].
  inversion H as [|? ? ? ? Ht|? ? ? ? Ha]; subst; [auto|].
  apply isxdigit_not_isspace in Ha. congruence.
Qed.

Lemma parse_code_text_sound text bs : parse_code_text text = Ok bs -> code_text text bs.
Proof.
  unfold parse_code_text. destruct (skip_whitespace text 0) as [rest position] eqn:Es.
  apply skip_first in Es as (w & -> & Hw & _ & Hh).
  destruct rest as [|c after]; [done|]. case_bool_decide as H1; [|case_bool_decide as H2].
  - subst c. destruct (parse_array _ _ _ _) as [[r|]|] eqn:E; try done. intros [= ->].
    pose proof E as E'. apply parse_array_sound in E as (bs' & -> & Hb). simpl.
    split; [|right; right; by exists w, after]. intros ->.
    inversion Hb; subst. rewrite parse_array_close in E'; done.
  - subst c. destruct (parse_escapes _ _ _ _) as [[r|]|] eqn:E; try done. intros [= ->].
    apply parse_escapes_sound in E as (bs' & -> & Hb). simpl.
    split; [|right; left; by apply escaped_spaces]. intros ->. by inversion Hb.
  - intros E. apply (parse_plain_sound _ _ _ _ _ (le_n _)) in E as (bs' & -> & Hb). simpl.
    split; [|left; by apply plain_spaces]. intros ->. inversion Hb; subst; congruence.
Qed.

Lemma parse_code_text_complete text bs : code_text text bs -> parse_code_text text = Ok bs.
Proof.
  intros [Hne H]. unfold parse_code_text.
  destruct (skip_whitespace text 0) as [rest position] eqn:Es.
  apply skip_first in Es as (w & -> & Hw & Hlen & Hh).
  destruct H as [H|[H|(w' & body & Hw' & E & H)]].
  - apply plain_strip in H; [|done].
    inversion H as [|c t ? Hc Ht|a b t bs' Ha Hb Ht]; subst; [done|congruence|].
    rewrite !bool_decide_eq_false_2 by (intros ->; discriminate Ha).
    by apply (parse_plain_complete _ _ H).
  - apply escaped_strip in H; [|done].
    pose proof (parse_escapes_complete (length (w ++ rest)) (S (length (w ++ rest)))
                  rest bs position [] ltac:(lia) H) as Hrun.
    inversion H as [|c t ? Hc Ht|x a b t bs' Hx Ha Hb Ht]; subst; [done|congruence|].
    rewrite bool_decide_eq_false_2, bool_decide_eq_true_2 by done. by rewrite Hrun.
  - assert (rest = "{"%char :: body) as ->.
    { pose proof (span_app_all isspace w rest Hw) as S1.
      pose proof (span_app_all isspace w' ("{"%char :: body) Hw' eq_refl) as S2.
      rewrite <- E, S1 in S2 by (by destruct rest). by injection S2. }
    rewrite bool_decide_eq_true_2 by done.
    rewrite (parse_array_complete _ _ H); [done | | done]. simpl in Hlen. lia.
Qed.

(** C8. [parse_code_text] accepts exactly the three documented layouts (bare digit
    pairs, [\xNN] escapes and a braced array of [0x] bytes with an optional trailing
    comma) and returns exactly their bytes: it is sound and complete for the
    grammar [code_text]. *)
Theorem parse_code_text_correct text bs :
  parse_code_text text = Ok bs <-> code_text text bs.
Proof. split; [apply parse_code_text_sound | apply parse_code_text_complete]. Qed.

Lemma code_text_bytes text bs :
  code_text text bs -> Forall (in_width 8) bs /\ (length bs <= length text / 2)%nat.
Proof.
  assert (forall ds, (length ds <= 2)%nat -> in_width 8 (digits_value 16 ds)) as Hval.
  { intros ds Hds. pose proof (digits_value_bound 16 ds). unfold in_width.
    assert (16 ^ Z.of_nat (length ds) <= 16 ^ 2); [apply Z.pow_le_mono_r; lia | lia]. }
  assert (forall n m, (2 * n <= m)%nat -> (n <= m / 2)%nat) as Hhalf.
  { intros n m H. apply Nat.div_le_lower_bound; lia. }
  intros [_ H].
  enough (Forall (in_width 8) bs /\ (2 * length bs <= length text)%nat) as [? ?] by auto.
  destruct H as [H|[H|(w & body & _ & -> & H)]].
  - induction H as [|c t bs ? _ [IH1 IH2]|a b t bs ? ? _ [IH1 IH2]]; simpl.
    1, 2: split; [done || constructor | lia].
    split; [constructor; [by apply Hval | done] | lia].
  - induction H as [|c t bs ? _ [IH1 IH2]|x a b t bs ? ? ? _ [IH1 IH2]]; simpl.
    1, 2: split; [done || constructor | lia].
    split; [constructor; [by apply Hval | done] | lia].
  - assert (Forall (in_width 8) bs /\ (2 * length bs <= length body)%nat) as [? ?].
    { induction H as [| ? ? ? ? ? ? (x & ds & -> & _ & _ & ? & ->)
                      | ? ? ? ? ? ? ? (x & ds & -> & _ & _ & ? & ->) ? ? [IH1 IH2]];
        simpl; rewrite ?length_app; simpl; rewrite ?length_app; simpl.
      - split; [done | lia].
      - split; [repeat constructor; apply Hval; lia | lia].
      - split; [constructor; [apply Hval; lia | done] | lia]. }
    rewrite length_app. simpl. auto with lia.
Qed.

(** Every byte of a parsed text fits [std::uint8_t], and there are at most half as
    many bytes as characters, the capacity [parse_code_text] reserves. *)
Theorem parse_code_text_bounds text bs :
  parse_code_text text = Ok bs ->
  Forall (in_width 8) bs /\ bs <> [] /\ (length bs <= length text / 2)%nat.
Proof.
  intros H. apply parse_code_text_sound in H. destruct (code_text_bytes _ _ H).
  destruct H. done.
Qed.

(** Both loops of [parse_code_text] terminate: the fuel the model gives them is
    never used up, so the parser returns a value or an error for every text. *)
Theorem parse_code_text_terminates text :
  let '(rest, position) := skip_whitespace text 0 in
  match rest with
  | [] => True
  | _ :: after =>
    (exists r, parse_array (S (length text)) after (S position) [] = Some r) /\
    (exists r, parse_escapes (S (length text)) rest position [] = Some r)
  end.
Proof.
  destruct (skip_whitespace text 0) as [rest position] eqn:Es.
  apply skip_first in Es as (w & _ & _ & Hlen & _).
  destruct rest as [|c after]; [done|]. simpl in Hlen.
  split; [apply parse_array_total | apply parse_escapes_total; simpl]; lia.
Qed.

(** [read_binary_input] returns the content of the file, and only for a file it could
    read in full, neither empty nor longer than the limit. *)
(** A raw file is loaded byte for byte: [read_binary_input] succeeds exactly when the
    stream opens, is not empty, is within the 15,000,000 byte limit and is read
    without an error, and then returns exactly the bytes of the file. *)
Theorem read_binary_input_correct open path bs :
  let input := open path in
  Z.of_nat (length input.(data)) = input.(end_position) \/ input.(end_position) < 0 ->
  read_binary_input open path = Ok bs <->
  input.(opened) = true /\ input.(good) = true /\ bs = input.(data) /\
  0 < input.(end_position) <= MAX_RAW_FILE_BYTES.
Proof.
  intros input Hlen. unfold read_binary_input. fold input.
  destruct (input.(opened)); simpl; [|by split; [|intros []]].
  destruct (Z.ltb_spec (end_position input) 0); [split; [done | intros (_ & _ & _ & ?); lia]|].
  destruct Hlen as [Hlen|]; [|lia].
  unfold MAX_RAW_FILE_BYTES in *. change (1000000 * 15) with 15000000.
  destruct (_ || _) eqn:Hbig; [split; [done | intros (_ & _ & _ & ?); lia]|].
  destruct (Z.ltb_spec 15000000 (end_position input));
    [split; [done | intros (_ & _ & _ & ?); lia]|].
  destruct (input.(good)); simpl; [|by split; [|intros (_ & ? & _)]].
  rewrite take_ge by lia. destruct (data input) as [|b l] eqn:E; simpl in *.
  - split; [done | intros (_ & _ & _ & ?); lia].
  - split; [intros [= <-]; repeat split; try done; lia | by intros (_ & _ & -> & _)].
Qed.

(** *** The byte editor's text *)

Section round_trip.
(** What [{:02X}] of a joined range of bytes gives, as the fmt documentation says. *)
Hypothesis format_hex_join : forall bytes,
  Forall (in_width 8) bytes ->
  format "{:02X}" [AJoin (map AInt bytes) " "] = join " " (map hex_pair bytes).

Lemma plain_hex_join bytes :
  Forall (in_width 8) bytes -> plain_hex (join " " (map hex_pair bytes)) bytes.
Proof.
  induction 1 as [|b bytes Hb Hbs IH]; [constructor|].
  pose proof (hex_pair_xdigits b Hb) as Hx. unfold hex_pair in Hx. rewrite !Forall_cons in Hx.
  destruct Hx as (H1 & H2 & _).
  assert (forall t, plain_hex t bytes -> plain_hex (hex_pair b ++ t) (b :: bytes)) as Hcons.
  { intros t Ht. rewrite <- (digits_value_hex_pair b Hb) at 2. by constructor. }
  destruct bytes as [|b' bytes].
  - simpl. rewrite <- (app_nil_r (hex_pair b)). apply Hcons. constructor.
  - apply Hcons. by constructor.
Qed.

(** Loading a raw file into the byte editor keeps its bytes: parsing the text that
    [format_code_text] writes gives back the code. *)
Theorem parse_format_code_text bytes :
  bytes <> [] -> Forall (in_width 8) bytes ->
  parse_code_text (format_code_text bytes) = Ok bytes.
Proof.
  intros Hne Hb. apply parse_code_text_complete. split; [done|]. left.
  unfold format_code_text. rewrite format_hex_join by done. by apply plain_hex_join.
Qed.
End round_trip.

End proofs.

(** ** Witnesses *)

Lemma parse_code_text_bounds_witness :
  @parse_code_text example_fmt "{ 0x48, 0xff,0x0 }" = Ok [0x48; 0xFF; 0] /\
  Forall (in_width 8) [0x48; 0xFF; 0] /\ [0x48; 0xFF; 0] <> [] /\
  (length [0x48; 0xFF; 0] <= length ("{ 0x48, 0xff,0x0 }" : str) / 2)%nat.
Proof.
  assert (@parse_code_text example_fmt "{ 0x48, 0xff,0x0 }" = Ok [0x48; 0xFF; 0]) as H
    by (vm_compute; reflexivity).
  split; [exact H | exact (parse_code_text_bounds _ _ H)].
Defined.

Definition example_file : ifstream :=
  {| opened := true; end_position := 2; data := [0x90; 0xC3]; good := true |}.

Lemma read_binary_input_correct_witness :
  @read_binary_input example_fmt (fun _ => example_file) "a" = Ok [0x90; 0xC3].
Proof.
  apply (read_binary_input_correct (fun _ => example_file) "a" [0x90; 0xC3]).
  - left. reflexivity.
  - vm_compute. repeat split; try reflexivity; discriminate.
Defined.

Lemma parse_format_code_text_witness :
  @parse_code_text example_fmt (@format_code_text example_fmt [0x48; 0xFF; 0xC0])
  = Ok [0x48; 0xFF; 0xC0].
Proof.
  apply parse_format_code_text.
  - intros bytes _. unfold format, example_fmt. f_equal. rewrite map_map.
    apply map_ext. intros b. reflexivity.
  - discriminate.
  - repeat constructor; lia.
Defined.
