(* ===== verification/Viewport.v ===== *)
(** * Viewport: the scrolling viewport of the register panel ([src/src/bme_core.cpp],
    [ScrollViewport] and the wheel of [registers_view]).

    The viewport gives its child a box of the height the child asks for, shifted up by the
    offset of the wheel, and clips what the child draws to its own box.  The offset is
    clamped when the box is known, since the wheel does not know it. *)

From S2P Require Import Prelude.

Local Open Scope Z_scope.

(** ** The code *)

(** [ftxui::Box]: both ends are in the box. *)
Record Box : Type := {
  x_min : Z;
  x_max : Z;
  y_min : Z;
  y_max : Z;
}.

#[global] Instance Box_eq_dec : EqDecision Box.
Proof. solve_decision. Defined.

(** [ScrollViewport::SetBox] of a child that asks for [requirement] rows: the offset it
    writes back and the box of the child. *)
Definition SetBox (requirement : Z) (box : Box) (m_offset : Z) : Z * Box :=
  let external_dimy := box.(y_max) - box.(y_min) in
  let internal_dimy := Z.max requirement external_dimy in
  let dy := Z.max 0 (Z.min (internal_dimy - external_dimy - 1) m_offset) in
  (dy, {| x_min := box.(x_min); x_max := box.(x_max);
          y_min := box.(y_min) - dy; y_max := box.(y_min) + internal_dimy - dy |}).

(** The wheel over the register panel, while no field has the focus. *)
Definition wheel_offset (up : bool) (scroll : Z) : Z := if up then Z.max 0 (scroll - 1) else scroll + 1.

(** ** Specification *)

Definition height (box : Box) : Z := box.(y_max) - box.(y_min) + 1.

Definition in_rows (box : Box) (y : Z) : Prop := box.(y_min) <= y <= box.(y_max).

(** The line of the screen a row of the child is drawn on, in the box it was given. *)
Definition screen_line (children : Box) (row : Z) : Z := children.(y_min) + row.

(** The rows of the child that [ScrollViewport::Render] leaves: the ones whose line is in
    the box of the viewport, to which it clips. *)
Definition row_shown (box children : Box) (row : Z) : Prop := in_rows box (screen_line children row).

(** The largest offset: the last row is on the last line. *)
Definition last_offset (requirement : Z) (box : Box) : Z := Z.max 0 (requirement - height box).

(** The values [SetBox] computes, in its order, and the offset it starts from. *)
Definition SetBox_values (requirement : Z) (box : Box) (m_offset : Z) : list Z :=
  let external_dimy := box.(y_max) - box.(y_min) in
  let internal_dimy := Z.max requirement external_dimy in
  let '(dy, children_box) := SetBox requirement box m_offset in
  [m_offset; external_dimy; internal_dimy; internal_dimy - external_dimy; internal_dimy - external_dimy - 1; dy;
   children_box.(y_min); box.(y_min) + internal_dimy; children_box.(y_max)].

(** A turn of the wheel and the drawing that follows it. *)
Definition turn (requirement : Z) (box : Box) (offset : Z) (up : bool) : Z :=
  (SetBox requirement box (wheel_offset up offset)).1.

(** A screen: the lines are small numbers, and so is the number of rows. *)
Definition on_screen (requirement : Z) (box : Box) : Prop :=
  0 <= box.(y_min) <= box.(y_max) /\ box.(y_max) < 2 ^ 30 /\ 0 <= requirement < 2 ^ 30.

(** ** Lemmas *)

Section viewport.
Context (requirement : Z) (box : Box).
Hypothesis Hscreen : on_screen requirement box.

Local Abbreviation lim := (last_offset requirement box).

Local Ltac viewport := unfold turn, wheel_offset, SetBox, last_offset, row_shown, in_rows, screen_line, height, on_screen in *; cbn in *; lia.

Lemma SetBox_offset offset : (SetBox requirement box offset).1 = Z.max 0 (Z.min lim offset).
Proof using Hscreen. viewport. Qed.

Lemma SetBox_range offset : 0 <= (SetBox requirement box offset).1 <= lim.
Proof using Hscreen. viewport. Qed.

(** At an offset in the range the box is where the offset says. *)
Lemma SetBox_shows offset row : 0 <= offset <= lim ->
  row_shown box (SetBox requirement box offset).2 row <-> offset <= row < offset + height box.
Proof using Hscreen. intros Ho. viewport. Qed.

Lemma turn_range offset up : 0 <= turn requirement box offset up <= lim.
Proof using Hscreen. destruct up; viewport. Qed.

Lemma turns_range offset ups : 0 <= offset <= lim -> 0 <= fold_left (turn requirement box) ups offset <= lim.
Proof using Hscreen.
  revert offset. induction ups as [|up ups IH]; intros offset Ho; [done|]. apply IH, turn_range.
Qed.

(** [k] turns in one direction. *)
Lemma turns_up k offset : 0 <= offset <= lim ->
  fold_left (turn requirement box) (replicate k true) offset = Z.max 0 (offset - Z.of_nat k).
Proof using Hscreen.
  revert offset. induction k as [|k IH]; intros offset Ho; cbn [replicate fold_left]; [lia|].
  rewrite IH by apply turn_range. viewport.
Qed.

Lemma turns_down k offset : 0 <= offset <= lim ->
  fold_left (turn requirement box) (replicate k false) offset = Z.min lim (offset + Z.of_nat k).
Proof using Hscreen.
  revert offset. induction k as [|k IH]; intros offset Ho; cbn [replicate fold_left]; [lia|].
  rewrite IH by apply turn_range. viewport.
Qed.

(** Every offset is some turns away. *)
Lemma turns_reach offset target : 0 <= offset <= lim -> 0 <= target <= lim ->
  exists ups, fold_left (turn requirement box) ups offset = target.
Proof using Hscreen.
  intros Ho Ht. destruct (Z.le_ge_cases target offset) as [H|H].
  - exists (replicate (Z.to_nat (offset - target)) true). rewrite turns_up by done. lia.
  - exists (replicate (Z.to_nat (target - offset)) false). rewrite turns_down by done. lia.
Qed.

(** The offset at which a row is shown. *)
Lemma row_has_offset row : 0 <= row < requirement ->
  exists offset, 0 <= offset <= lim /\ offset <= row < offset + height box.
Proof using Hscreen. intros Hr. exists (Z.min row lim). viewport. Qed.

(** Every intermediate value is a 32-bit integer. *)
Lemma SetBox_fits offset : 0 <= offset <= lim ->
  Forall (fun x => - 2 ^ 31 <= x < 2 ^ 31) (SetBox_values requirement box (offset + 1)).
Proof using Hscreen. intros Ho. unfold SetBox_values. repeat constructor; viewport. Qed.
End viewport.
