(* ===== verification/Timeline.v ===== *)
(** * Timeline: the state of the text interface and what each event does to it
    ([src/src/bme_core.cpp], [UI], the functions on the history and the handlers of
    [run_tui]).

    What is drawn and clicked is in [Panels]; of the widgets of the FTXUI library the model
    takes what they may write: a menu selects one of its entries, an input holds any
    text. *)

From S2P Require Import Prelude Text Core Seed Cpu Platform Linux Trace History Engine Cli CodeText Viewport.

Local Open Scope Z_scope.

(** ** State *)

Record Input : Type := {
  ui_code : str;
  ui_backend : DisasmBackend;
  ui_syntax : DisasmSyntax;
  ui_max_steps : Z;
  ui_seed_gpr : list GPRSeed;
  ui_seed_flags : Z;
  ui_seed_xmm : list str;
  ui_seed_st : list str;
  ui_seed_floating_environment : FloatingEnvironmentSeed;
  ui_seed_data_pointers : bool;
  normalized_addresses : bool;
}.

Record Navigation : Type := {
  ui_trace : Trace;
  cursor : Z;
  history : list str;
  history_rows : list HistoryRow;
  history_tab : Z;                 (* main is 0, the decoders are 1 to [BACKEND_COUNT] *)
  previous_history_tab : Z;
  history_backend : list (list str);
  history_backend_rows : list (list HistoryRow);
}.

Record Panel : Type := {
  register_tab : Z;
  gpr_depth : list Z;
  xmm_expand : list bool;
  st_expand : list bool;
  register_scroll : list Z;
}.

Record UI : Type := {
  ui_input : Input;
  ui_navigation : Navigation;
  ui_panel : Panel;
  status : str;
  show_instrumentation_warning : bool;
  show_about : bool;
  show_settings : bool;
}.

Definition BACKEND_COUNT : nat := length BACKENDS.
Definition NO_TRACE : list str := ["- (No trace - Press Run)" : str].
Definition IDLE_STATUS : str := "Idle - Edit bytes, then Run.".

Definition Panel_init : Panel := {|
  register_tab := 0; gpr_depth := replicate GPR_COUNT 0; xmm_expand := replicate 16 false;
  st_expand := replicate 8 false; register_scroll := replicate 3 0;
|}.

Definition Navigation_reset : Navigation := {|
  ui_trace := Trace_init; cursor := 0; history := NO_TRACE; history_rows := []; history_tab := 0;
  previous_history_tab := 0; history_backend := replicate BACKEND_COUNT NO_TRACE;
  history_backend_rows := replicate BACKEND_COUNT [];
|}.

(** Assignments. *)
Definition set_input (ui : UI) (i : Input) : UI := {|
  ui_input := i; ui_navigation := ui.(ui_navigation); ui_panel := ui.(ui_panel); status := ui.(status);
  show_instrumentation_warning := ui.(show_instrumentation_warning);
  show_about := ui.(show_about); show_settings := ui.(show_settings) |}.

Definition set_navigation (ui : UI) (n : Navigation) : UI := {|
  ui_input := ui.(ui_input); ui_navigation := n; ui_panel := ui.(ui_panel); status := ui.(status);
  show_instrumentation_warning := ui.(show_instrumentation_warning);
  show_about := ui.(show_about); show_settings := ui.(show_settings) |}.

Definition set_panel (ui : UI) (p : Panel) : UI := {|
  ui_input := ui.(ui_input); ui_navigation := ui.(ui_navigation); ui_panel := p; status := ui.(status);
  show_instrumentation_warning := ui.(show_instrumentation_warning);
  show_about := ui.(show_about); show_settings := ui.(show_settings) |}.

Definition set_status (ui : UI) (text : str) : UI := {|
  ui_input := ui.(ui_input); ui_navigation := ui.(ui_navigation); ui_panel := ui.(ui_panel); status := text;
  show_instrumentation_warning := ui.(show_instrumentation_warning);
  show_about := ui.(show_about); show_settings := ui.(show_settings) |}.

Definition set_modals (ui : UI) (warning about settings : bool) : UI := {|
  ui_input := ui.(ui_input); ui_navigation := ui.(ui_navigation); ui_panel := ui.(ui_panel); status := ui.(status);
  show_instrumentation_warning := warning; show_about := about; show_settings := settings |}.

Definition set_cursor (n : Navigation) (position : Z) : Navigation := {|
  ui_trace := n.(ui_trace); cursor := position; history := n.(history); history_rows := n.(history_rows);
  history_tab := n.(history_tab); previous_history_tab := n.(previous_history_tab);
  history_backend := n.(history_backend); history_backend_rows := n.(history_backend_rows) |}.

Definition set_trace (n : Navigation) (trace : Trace) : Navigation := {|
  ui_trace := trace; cursor := n.(cursor); history := n.(history); history_rows := n.(history_rows);
  history_tab := n.(history_tab); previous_history_tab := n.(previous_history_tab);
  history_backend := n.(history_backend); history_backend_rows := n.(history_backend_rows) |}.

Definition set_tabs (n : Navigation) (tab previous : Z) : Navigation := {|
  ui_trace := n.(ui_trace); cursor := n.(cursor); history := n.(history); history_rows := n.(history_rows);
  history_tab := tab; previous_history_tab := previous;
  history_backend := n.(history_backend); history_backend_rows := n.(history_backend_rows) |}.

Definition set_decoder (i : Input) (backend : DisasmBackend) (syntax : DisasmSyntax) : Input := {|
  ui_code := i.(ui_code); ui_backend := backend; ui_syntax := syntax; ui_max_steps := i.(ui_max_steps);
  ui_seed_gpr := i.(ui_seed_gpr); ui_seed_flags := i.(ui_seed_flags); ui_seed_xmm := i.(ui_seed_xmm);
  ui_seed_st := i.(ui_seed_st); ui_seed_floating_environment := i.(ui_seed_floating_environment);
  ui_seed_data_pointers := i.(ui_seed_data_pointers); normalized_addresses := i.(normalized_addresses) |}.

Definition set_limits (i : Input) (max_steps : Z) (pointers normalized : bool) : Input := {|
  ui_code := i.(ui_code); ui_backend := i.(ui_backend); ui_syntax := i.(ui_syntax); ui_max_steps := max_steps;
  ui_seed_gpr := i.(ui_seed_gpr); ui_seed_flags := i.(ui_seed_flags); ui_seed_xmm := i.(ui_seed_xmm);
  ui_seed_st := i.(ui_seed_st); ui_seed_floating_environment := i.(ui_seed_floating_environment);
  ui_seed_data_pointers := pointers; normalized_addresses := normalized |}.

Definition set_texts (i : Input) (code : str) (gprs : list GPRSeed) (flags : Z) (xmms sts : list str)
    (environment : FloatingEnvironmentSeed) : Input := {|
  ui_code := code; ui_backend := i.(ui_backend); ui_syntax := i.(ui_syntax); ui_max_steps := i.(ui_max_steps);
  ui_seed_gpr := gprs; ui_seed_flags := flags; ui_seed_xmm := xmms;
  ui_seed_st := sts; ui_seed_floating_environment := environment;
  ui_seed_data_pointers := i.(ui_seed_data_pointers); normalized_addresses := i.(normalized_addresses) |}.

(** ** The history *)

Definition history_rows_at (n : Navigation) (tab : Z) : list HistoryRow :=
  if tab =? 0 then n.(history_rows) else nth (Z.to_nat (tab - 1)) n.(history_backend_rows) [].

Definition history_lines_at (n : Navigation) (tab : Z) : list str :=
  if tab =? 0 then n.(history) else nth (Z.to_nat (tab - 1)) n.(history_backend) [].

(** The row at a position of the timeline, which counts from one; [None] outside. *)
Definition row_at (rows : list HistoryRow) (position : Z) : option HistoryRow :=
  if (position <=? 0) || (Z.of_nat (length rows) <? position) then None else rows !! Z.to_nat (position - 1).

Definition history_selection_is_static (n : Navigation) : bool :=
  match row_at (history_rows_at n n.(history_tab)) n.(cursor) with
  | None => false
  | Some row => match row.(row_kind) with HKNotReached | HKData => true | _ => false end
  end.

(** [history_state_at]: the rows before [position], from the last one back. *)
Fixpoint state_before (events : list ExecutionEvent) (rows : list HistoryRow) (position : nat) : option Registers :=
  match position with
  | O => None
  | S position =>
    match (rows !! position ≫= row_event) ≫= (fun i => events !! i) with
    | Some event => Some event.(event_registers)
    | None => state_before events rows position
    end
  end.

Definition history_state_at (n : Navigation) (position : nat) : Registers :=
  let rows := history_rows_at n n.(history_tab) in
  match state_before n.(ui_trace).(execution_events) rows (Nat.min position (length rows)) with
  | Some registers => registers
  | None => n.(ui_trace).(trace_seed)
  end.

Record HistorySelection : Type := {
  selection_rip : Z;
  selection_event : option nat;
  has_row : bool;
}.

Definition history_selection (n : Navigation) (tab : Z) : HistorySelection :=
  match row_at (history_rows_at n tab) n.(cursor) with
  | Some row => {| selection_rip := row.(row_rip); selection_event := row.(row_event); has_row := true |}
  | None => {| selection_rip := 0; selection_event := None; has_row := false |}
  end.

(** The test of the search of [restore_history_selection]. *)
Definition selects (selection : HistorySelection) (row : HistoryRow) : bool :=
  match selection.(selection_event) with
  | Some i => bool_decide (row.(row_event) = Some i)
  | None => bool_decide (row.(row_event) = None) && (row.(row_rip) <=? selection.(selection_rip))
            && (u64 (selection.(selection_rip) - row.(row_rip)) <? row.(row_length))
  end.

Fixpoint find_row (p : HistoryRow -> bool) (rows : list HistoryRow) (position : Z) : option Z :=
  match rows with
  | [] => None
  | row :: rows => if p row then Some position else find_row p rows (position + 1)
  end.

Definition restore_history_selection (n : Navigation) (selection : HistorySelection) : Navigation :=
  if negb selection.(has_row) then set_cursor n 0
  else
    let rows := history_rows_at n n.(history_tab) in
    match find_row (selects selection) rows 1 with
    | Some position => set_cursor n position
    | None => set_cursor n (Z.min n.(cursor) (Z.of_nat (length rows)))
    end.

Section timeline.
Context {fmt : Fmt} {decoders : Decoders}.

(** The bytes column is as wide as the longest row. *)
Definition bytes_width (rows : list HistoryRow) : Z :=
  let width := fold_left Z.max (map row_length rows) 0 in
  if negb (width =? 0) then width * 3 - 1 else width.

Fixpoint history_lines_from (trace : Trace) (relative_addresses : bool) (width : Z) (rows : list HistoryRow)
    (execution_position : Z) : list str :=
  match rows with
  | [] => []
  | row :: rows =>
    let bytes := format "{:02X}" [AJoin (map AInt (take (Z.to_nat row.(row_length))
                   (drop (Z.to_nat row.(row_offset)) trace.(trace_code)))) " "] in
    let address := if relative_addresses then format "code+{:04X}" [AInt row.(row_offset)]
                   else format "{:08X}" [AInt row.(row_rip)] in
    match row.(row_kind) with
    | HKReached =>
      format "{:>3}  {}  {:<{}}  {}"
        [AInt (execution_position + 1); AStr address; AStr bytes; AInt width; AStr row.(row_text)]
        :: history_lines_from trace relative_addresses width rows (execution_position + 1)
    | kind =>
      let marker : str := match kind with HKFaulted => "!" | _ => "-" end in
      let is_stop := (row.(row_rip) =? trace.(stop_address)) && negb (bool_decide (trace.(stop_reason) = [])) in
      let note : str := if is_stop then trace.(stop_reason) else "Not reached" in
      format "{:>3}  {}  {:<{}}  {} ({})"
        [AStr marker; AStr address; AStr bytes; AInt width; AStr row.(row_text); AStr note]
        :: history_lines_from trace relative_addresses width rows execution_position
    end
  end.

Definition build_history_lines (trace : Trace) (rows : list HistoryRow) (relative_addresses : bool) : list str :=
  ("- Initial (seed)" : str) :: history_lines_from trace relative_addresses (bytes_width rows) rows 0.

(** The decoders in the order of their tabs. *)
Definition all_backends : list DisasmBackend := map backend_of_index (seq 0 BACKEND_COUNT).

Definition tab_syntax (backend : DisasmBackend) (syntax : DisasmSyntax) : DisasmSyntax :=
  if backend_supports backend syntax then syntax else Intel.

(** [rebuild_history]; no result when a history has none. *)
Definition rebuild_history (i : Input) (n : Navigation) : option Navigation :=
  let selection := history_selection n n.(history_tab) in
  let trace := n.(ui_trace) in
  rows ← build_history trace i.(ui_backend) i.(ui_syntax);
  backend_rows ← mapM (fun backend => build_history trace backend (tab_syntax backend i.(ui_syntax))) all_backends;
  Some (restore_history_selection {|
    ui_trace := trace; cursor := n.(cursor);
    history := build_history_lines trace rows i.(normalized_addresses); history_rows := rows;
    history_tab := n.(history_tab); previous_history_tab := n.(previous_history_tab);
    history_backend := map (fun rows => build_history_lines trace rows i.(normalized_addresses)) backend_rows;
    history_backend_rows := backend_rows |} selection).
End timeline.

(** ** Events *)

(** The events of the interface; what a widget of the library writes is in the event. *)
Inductive Action : Type :=
| Run
| RunToRow
| Step
| Back
| Reset
| CopyRow (copy_to_clipboard : str -> bool)     (* the answer of the clipboard to a text *)
| ToggleSyntax
| CycleBackend (forward : bool)
| SelectHistoryTab (tab : Z)
| SelectRow (position : Z)                      (* the menu of the visible history *)
| WheelHistory (up : bool)
| EditTexts (code : str) (gprs : list GPRSeed) (xmms sts : list str) (environment : FloatingEnvironmentSeed)
| EditMaxSteps (text : str)
| ToggleDataPointers
| ToggleAddresses
| ClickFlag (flag : nat)
| ClickGPR (reg : nat) (level : Z)
| ClickXMM (reg : nat)
| ClickST (reg : nat)
| SelectRegisterTab (tab : Z)
| WheelRegisters (up : bool)
| LayoutRegisters (requirement : Z) (box : Box) (* a drawing calls [SetBox] of the viewport *)
| OpenModal (about : bool)                      (* the about modal, or the settings *)
| CloseModal (about : bool)
| CopyValue (text : str) (normalized copied : bool).  (* a click on a value, the answer of the clipboard *)

Section handlers.
Context {fmt : Fmt} {decoders : Decoders} {memory : Memory} {W : Type} `{Platform W}.
Context (fingerprint : CPUFingerprint).

Definition execute (stop_offset : option Z) (ui : UI) (w : W) : option (UI * W) :=
  let i := ui.(ui_input) in
  match parse_code_text i.(ui_code) with
  | Error e => Some (set_status ui (format "Error: {}." [AStr e]), w)
  | Ok decoded =>
    if bool_decide (stop_offset <> None) && negb (bool_decide (decoded = ui.(ui_navigation).(ui_trace).(trace_code))) then
      Some (set_status ui "Run first to refresh History after editing bytes.", w)
    else
      let '(seed, seed_errors) := compose_seed i.(ui_seed_gpr) i.(ui_seed_flags) i.(ui_seed_xmm) i.(ui_seed_st)
                                    i.(ui_seed_floating_environment) [] in
      '(trace, w) ← run_engine fingerprint decoded seed i.(ui_max_steps) i.(ui_backend) i.(ui_syntax)
                      i.(ui_seed_data_pointers) stop_offset w;
      let warning := ui.(show_instrumentation_warning) || trace.(instrumentation_detected) in
      n ← rebuild_history i (set_cursor (set_trace ui.(ui_navigation) trace) 0);
      let n := match stop_offset with
               | Some offset =>
                 if trace.(stop_address) =? u64 (reg_get trace.(trace_seed) RIP + offset)
                 then restore_history_selection n
                        {| selection_rip := trace.(stop_address); selection_event := None; has_row := true |}
                 else n
               | None => n
               end in
      let text := format "{} bytes - {}" [AInt (Z.of_nat (length decoded)); AStr trace.(message)] in
      let text := match seed_errors with
                  | [] => text
                  | _ => text ++ format " (seed errors, left unseeded: {})" [AJoin (map AStr seed_errors) "; "]
                  end in
      Some (set_modals (set_status (set_navigation ui n) text) warning ui.(show_about) ui.(show_settings), w)
  end.

Definition run_to_selected_row (ui : UI) (w : W) : option (UI * W) :=
  let n := ui.(ui_navigation) in
  match row_at (history_rows_at n n.(history_tab)) n.(cursor) with
  | None => Some (set_status ui "Select a History row to run to.", w)
  | Some row => execute (Some row.(row_offset)) ui w
  end.

(** [step] looks at the positions after the cursor, [back] at those before it. *)
Definition step (n : Navigation) : Navigation :=
  let rows := history_rows_at n n.(history_tab) in
  match find_row is_event_row (drop (Z.to_nat n.(cursor)) rows) (n.(cursor) + 1) with
  | Some position => set_cursor n position
  | None => n
  end.

Fixpoint find_row_back (rows : list HistoryRow) (position : nat) : Z :=
  match position with
  | O => 0
  | S before =>
    match rows !! before with
    | Some row => if is_event_row row then Z.of_nat position else find_row_back rows before
    | None => find_row_back rows before
    end
  end.

Definition back (n : Navigation) : Navigation :=
  let rows := history_rows_at n n.(history_tab) in
  set_cursor n (find_row_back rows (Z.to_nat (n.(cursor) - 1))).

Definition reset (ui : UI) : UI :=
  set_status (set_panel (set_navigation ui Navigation_reset) Panel_init) IDLE_STATUS.

(** A new decoder or syntax, and the histories when there are any. *)
Definition redecode (ui : UI) (i : Input) : option UI :=
  let ui := set_input ui i in
  if bool_decide (ui.(ui_navigation).(history_rows) = []) then Some ui
  else n ← rebuild_history i ui.(ui_navigation); Some (set_navigation ui n).

Definition toggle_syntax (ui : UI) : option UI :=
  let i := ui.(ui_input) in
  let next := match i.(ui_syntax) with Intel => ATT | ATT => Intel end in
  if negb (backend_supports i.(ui_backend) next) then
    Some (set_status ui (format "AT&T syntax is unavailable on the {} backend." [AStr (backend_info i.(ui_backend)).(bi_name)]))
  else redecode ui (set_decoder i i.(ui_backend) next).

Definition cycle_backend (forward : bool) (ui : UI) : option UI :=
  let i := ui.(ui_input) in
  let count := Z.of_nat BACKEND_COUNT in
  let direction := if forward then 1 else -1 in
  let backend := backend_of_index (Z.to_nat ((Z.of_nat (backend_index i.(ui_backend)) + direction + count) mod count)) in
  redecode ui (set_decoder i backend (tab_syntax backend i.(ui_syntax))).

(** The text [copy_history_row] copies: the selected line without the space around it. *)
Definition copied_line (n : Navigation) : str :=
  contents (trim_view isspace (view_of (nth (Z.to_nat n.(cursor)) (history_lines_at n n.(history_tab)) []))).

Definition copy_history_row (copy_to_clipboard : str -> bool) (ui : UI) : UI :=
  let n := ui.(ui_navigation) in
  match row_at (history_rows_at n n.(history_tab)) n.(cursor) with
  | None => set_status ui "Select a History row to copy."
  | Some _ =>
    set_status ui (if copy_to_clipboard (copied_line n) then "Copied selected History row to clipboard." else "Clipboard copy failed.")
  end.

(** The lambda [copy_value]. *)
Definition copy_value (text : str) (normalized copied : bool) (ui : UI) : UI :=
  let kind : str := if normalized then "normalized address" else "value" in
  set_status ui (if copied then format "Copied {} {} to clipboard." [AStr kind; AStr text] else "Clipboard copy failed.").

(** The toggle of the tabs writes the tab, then keeps the selection of the one before. *)
Definition select_history_tab (tab : Z) (n : Navigation) : Navigation :=
  let n := set_tabs n tab n.(previous_history_tab) in
  let n := restore_history_selection n (history_selection n n.(previous_history_tab)) in
  set_tabs n n.(history_tab) n.(history_tab).

Definition wheel_history (up : bool) (n : Navigation) : Navigation :=
  if up then set_cursor n (Z.max 0 (n.(cursor) - 1))
  else set_cursor n (Z.min (Z.of_nat (length (history_rows_at n n.(history_tab)))) (n.(cursor) + 1)).

Definition edit_max_steps (text : str) (i : Input) : Input :=
  match from_chars_all 10 64 text with
  | Some parsed => if 0 <? parsed
                   then set_limits i (Z.min parsed MAX_STEPS_LIMIT) i.(ui_seed_data_pointers) i.(normalized_addresses)
                   else i
  | None => i
  end.

(** The check box of the settings. *)
Definition toggle_addresses (ui : UI) : option UI :=
  let i := ui.(ui_input) in
  let n := ui.(ui_navigation) in
  let i := set_limits i i.(ui_max_steps) i.(ui_seed_data_pointers) (negb i.(normalized_addresses)) in
  let ui := set_input ui i in
  if bool_decide (n.(ui_trace).(trace_code) = []) then Some ui
  else n ← rebuild_history i n; Some (set_navigation ui n).

(** A click on a flag of the panel, by its position. *)
Definition click_flag (flag : nat) (i : Input) : Input :=
  match STATUS_FLAGS !! flag with
  | Some (_, bit) =>
    set_texts i i.(ui_code) i.(ui_seed_gpr) (Z.lxor i.(ui_seed_flags) bit) i.(ui_seed_xmm) i.(ui_seed_st)
      i.(ui_seed_floating_environment)
  | None => i
  end.

(** The handlers of the register panel. *)
Definition click_gpr (reg : nat) (level : Z) (p : Panel) : Panel := {|
  register_tab := p.(register_tab);
  gpr_depth := alter (fun depth => if level <? depth then level else level + 1) reg p.(gpr_depth);
  xmm_expand := p.(xmm_expand); st_expand := p.(st_expand); register_scroll := p.(register_scroll) |}.

Definition click_vector (xmm : bool) (reg : nat) (p : Panel) : Panel := {|
  register_tab := p.(register_tab); gpr_depth := p.(gpr_depth);
  xmm_expand := if xmm then alter negb reg p.(xmm_expand) else p.(xmm_expand);
  st_expand := if xmm then p.(st_expand) else alter negb reg p.(st_expand);
  register_scroll := p.(register_scroll) |}.

Definition select_register_tab (tab : Z) (p : Panel) : Panel := {|
  register_tab := tab; gpr_depth := p.(gpr_depth); xmm_expand := p.(xmm_expand); st_expand := p.(st_expand);
  register_scroll := p.(register_scroll) |}.

(** The offset of the visible tab, which the scroller and the wheel share. *)
Definition register_offset (p : Panel) : Z := nth (Z.to_nat p.(register_tab)) p.(register_scroll) 0.

Definition scroll (f : Z -> Z) (p : Panel) : Panel := {|
  register_tab := p.(register_tab); gpr_depth := p.(gpr_depth); xmm_expand := p.(xmm_expand); st_expand := p.(st_expand);
  register_scroll := alter f (Z.to_nat p.(register_tab)) p.(register_scroll) |}.

Definition ui_step (action : Action) (ui : UI) (w : W) : option (UI * W) :=
  let i := ui.(ui_input) in
  let n := ui.(ui_navigation) in
  let p := ui.(ui_panel) in
  let stay (ui : UI) : option (UI * W) := Some (ui, w) in
  let redecoded (ui : option UI) : option (UI * W) := ui ← ui; Some (ui, w) in
  match action with
  | Run => execute None ui w
  | RunToRow => run_to_selected_row ui w
  | Step => stay (set_navigation ui (step n))
  | Back => stay (set_navigation ui (back n))
  | Reset => stay (reset ui)
  | CopyRow copy_to_clipboard => stay (copy_history_row copy_to_clipboard ui)
  | ToggleSyntax => redecoded (toggle_syntax ui)
  | CycleBackend forward => redecoded (cycle_backend forward ui)
  | SelectHistoryTab tab => stay (set_navigation ui (select_history_tab tab n))
  | SelectRow position => stay (set_navigation ui (set_cursor n position))
  | WheelHistory up => stay (set_navigation ui (wheel_history up n))
  | EditTexts code gprs xmms sts environment =>
    stay (set_input ui (set_texts i code gprs i.(ui_seed_flags) xmms sts environment))
  | EditMaxSteps text => stay (set_input ui (edit_max_steps text i))
  | ToggleDataPointers =>
    stay (set_input ui (set_limits i i.(ui_max_steps) (negb i.(ui_seed_data_pointers)) i.(normalized_addresses)))
  | ToggleAddresses => redecoded (toggle_addresses ui)
  | ClickFlag flag => stay (set_input ui (click_flag flag i))
  | ClickGPR reg level => stay (set_panel ui (click_gpr reg level p))
  | ClickXMM reg => stay (set_panel ui (click_vector true reg p))
  | ClickST reg => stay (set_panel ui (click_vector false reg p))
  | SelectRegisterTab tab => stay (set_panel ui (select_register_tab tab p))
  | WheelRegisters up => stay (set_panel ui (scroll (wheel_offset up) p))
  | LayoutRegisters requirement box => stay (set_panel ui (scroll (fun offset => (SetBox requirement box offset).1) p))
  | OpenModal about =>
    stay (set_modals ui ui.(show_instrumentation_warning) (about || ui.(show_about)) (negb about || ui.(show_settings)))
  | CloseModal about =>
    stay (set_modals ui ui.(show_instrumentation_warning) (negb about && ui.(show_about)) (about && ui.(show_settings)))
  | CopyValue text normalized copied => stay (copy_value text normalized copied ui)
  end.
End handlers.

(** ** Start *)

(** The initial state of [run_tui]; [instrumented] is the answer of
    [instrumentation_detected()]. *)
Definition UI_start {fmt : Fmt} (instrumented : bool) (open : str -> ifstream) (cli : CLI) : UI :=
  let '(code, text) :=
    match cli.(cli_bytes), cli.(cli_input_file) with
    | Some bytes, _ => (bytes, IDLE_STATUS)
    | None, Some path =>
      match read_binary_input open path with
      | Ok input => (format_code_text input, IDLE_STATUS)
      | Error error => ([], format "Error: {}." [AStr error])
      end
    | None, None => ([], IDLE_STATUS)
    end in
  {| ui_input := {|
       ui_code := code; ui_backend := cli.(cli_backend); ui_syntax := cli.(cli_syntax);
       ui_max_steps := cli.(cli_max_steps); ui_seed_gpr := cli.(cli_seed_gpr); ui_seed_flags := cli.(cli_seed_flags);
       ui_seed_xmm := cli.(cli_seed_xmm); ui_seed_st := cli.(cli_seed_st);
       ui_seed_floating_environment := cli.(cli_seed_floating_environment); ui_seed_data_pointers := true;
       normalized_addresses := true |};
     ui_navigation := Navigation_reset; ui_panel := Panel_init; status := text;
     show_instrumentation_warning := instrumented; show_about := false; show_settings := false |}.

(** What the widgets may write: an entry of the menu of the visible history, a tab, the
    rows of the register tree, arrays of the size of the seeds. *)
Definition permitted (ui : UI) (action : Action) : Prop :=
  match action with
  | SelectHistoryTab tab => 0 <= tab <= Z.of_nat BACKEND_COUNT
  | SelectRow position =>
    0 <= position < Z.of_nat (length (history_lines_at ui.(ui_navigation) ui.(ui_navigation).(history_tab)))
  | EditTexts _ gprs xmms sts _ => length gprs = GPR_COUNT /\ length xmms = 16%nat /\ length sts = 8%nat
  | ClickGPR _ level => 0 <= level <= 2
  | SelectRegisterTab tab => 0 <= tab <= 2
  | _ => True
  end.

Section reachable.
Context {fmt : Fmt} {decoders : Decoders} {memory : Memory} {argparse : ArgParse} {W : Type} `{Platform W}.
Context (fingerprint : CPUFingerprint).

(** The states of a session, for runs whose input lies in the address space. *)
Inductive reachable : UI -> W -> Prop :=
| reach_start argv cli instrumented open w :
  CLI_parse argv = Ok cli -> reachable (UI_start instrumented open cli) w
| reach_step ui w action ui' w' :
  reachable ui w -> permitted ui action -> ui_step fingerprint action ui w = Some (ui', w') ->
  placed ui'.(ui_navigation).(ui_trace) -> reachable ui' w'.
End reachable.

(** ** Invariant *)

(** The history of a tab: every tab shows the current trace, disassembled by its decoder
    in the current syntax (or Intel, where it has no other). *)
Record synced {fmt : Fmt} {decoders : Decoders} (i : Input) (n : Navigation) : Prop := {
  sy_rows : build_history n.(ui_trace) i.(ui_backend) i.(ui_syntax) = Some n.(history_rows);
  sy_backend_rows : mapM (fun backend => build_history n.(ui_trace) backend (tab_syntax backend i.(ui_syntax)))
                      all_backends = Some n.(history_backend_rows);
  sy_lines :
    n.(ui_trace) = Trace_init /\ n.(history) = NO_TRACE /\ n.(history_backend) = replicate BACKEND_COUNT NO_TRACE
    \/ n.(history) = build_history_lines n.(ui_trace) n.(history_rows) i.(normalized_addresses)
       /\ n.(history_backend) = map (fun rows => build_history_lines n.(ui_trace) rows i.(normalized_addresses))
                                  n.(history_backend_rows);
}.

Abbreviation visible_rows n := (history_rows_at n n.(history_tab)).

Record navigation_ok {fmt : Fmt} {decoders : Decoders} (i : Input) (n : Navigation) : Prop := {
  nv_placed : placed n.(ui_trace);
  nv_synced : synced i n;
  nv_tab : 0 <= n.(history_tab) <= Z.of_nat BACKEND_COUNT;
  nv_previous : n.(previous_history_tab) = n.(history_tab);
  nv_cursor : 0 <= n.(cursor) <= Z.of_nat (length (visible_rows n));
}.

Record input_ok (i : Input) : Prop := {
  in_syntax : backend_supports i.(ui_backend) i.(ui_syntax) = true;
  in_max_steps : 1 <= i.(ui_max_steps) <= MAX_STEPS_LIMIT;
  in_flags : forall n, Z.testbit i.(ui_seed_flags) n = true -> Z.testbit RFLAGS_STATUS_MASK n = true;
  in_gpr : length i.(ui_seed_gpr) = GPR_COUNT;
  in_xmm : length i.(ui_seed_xmm) = 16%nat;
  in_st : length i.(ui_seed_st) = 8%nat;
}.

Record panel_ok (p : Panel) : Prop := {
  pn_tab : 0 <= p.(register_tab) <= 2;
  pn_gpr : length p.(gpr_depth) = GPR_COUNT;
  pn_depth : Forall (fun depth => 0 <= depth <= 3) p.(gpr_depth);
  pn_xmm : length p.(xmm_expand) = 16%nat;
  pn_st : length p.(st_expand) = 8%nat;
  pn_scrolls : length p.(register_scroll) = 3%nat;
  pn_scroll : Forall (fun offset => 0 <= offset) p.(register_scroll);
}.

Record ui_ok {fmt : Fmt} {decoders : Decoders} (ui : UI) : Prop := {
  ok_input : input_ok ui.(ui_input);
  ok_navigation : navigation_ok ui.(ui_input) ui.(ui_navigation);
  ok_panel : panel_ok ui.(ui_panel);
}.

(** ** Lemmas *)

Lemma row_at_Some rows k row :
  row_at rows k = Some row <-> 1 <= k <= Z.of_nat (length rows) /\ rows !! Z.to_nat (k - 1) = Some row.
Proof.
  unfold row_at. destruct (Z.leb_spec k 0); cbn [orb]; [split; [done | lia]|].
  destruct (Z.ltb_spec (Z.of_nat (length rows)) k); [split; [done | lia]|].
  split; [intros E; split; [lia | done] | by intros [_ ?]].
Qed.

Lemma row_at_in rows k row : row_at rows k = Some row -> In row rows.
Proof. intros [_ E]%row_at_Some. by eapply list_elem_of_In, list_elem_of_lookup_2. Qed.

Lemma row_at_inside rows k : 1 <= k <= Z.of_nat (length rows) -> exists row, row_at rows k = Some row.
Proof.
  intros Hk. destruct (lookup_lt_is_Some_2 rows (Z.to_nat (k - 1))) as [row E]; [lia|].
  exists row. by apply row_at_Some.
Qed.

Section find_row.
Context (p : HistoryRow -> bool).

Lemma find_row_Some rows k j :
  find_row p rows k = Some j ->
  k <= j < k + Z.of_nat (length rows)
  /\ (exists row, rows !! Z.to_nat (j - k) = Some row /\ p row = true)
  /\ forall l row, k <= l < j -> rows !! Z.to_nat (l - k) = Some row -> p row = false.
Proof.
  revert k. induction rows as [|r rows IH]; intros k; cbn [find_row length]; [done|]. destruct (p r) eqn:Ep.
  - intros [= <-]. split; [lia|]. rewrite Z.sub_diag. split; [by exists r|]. intros l row Hl. lia.
  - intros (Hj & (row & Hrow & Hp) & Hno)%IH. split; [lia|]. split.
    + exists row. replace (Z.to_nat (j - k)) with (S (Z.to_nat (j - (k + 1)))) by lia. done.
    + intros l row' Hl. destruct (Z.eq_dec l k) as [->|Hne].
      * rewrite Z.sub_diag. by intros [= <-].
      * replace (Z.to_nat (l - k)) with (S (Z.to_nat (l - (k + 1)))) by lia. apply Hno. lia.
Qed.

Lemma find_row_None rows k : find_row p rows k = None <-> forall row, In row rows -> p row = false.
Proof.
  revert k. induction rows as [|r rows IH]; intros k; cbn [find_row]; [by split; [intros _ row []|]|].
  destruct (p r) eqn:Ep.
  - split; [done|]. intros H. rewrite (H r) in Ep by (by left). done.
  - rewrite IH. split; intros H row; [intros [<-|Hin]; [done | by apply H] | intros Hin; apply H; by right].
Qed.

(** The search from the first row of a timeline. *)
Lemma find_row_at rows j :
  find_row p rows 1 = Some j -> exists row, row_at rows j = Some row /\ p row = true.
Proof.
  intros (Hj & (row & Hrow & Hp) & _)%find_row_Some. exists row. split; [|done]. apply row_at_Some. split; [lia | done].
Qed.
End find_row.

(** The search from the position after [k]. *)
Lemma find_row_after rows k :
  0 <= k <= Z.of_nat (length rows) ->
  match find_row is_event_row (drop (Z.to_nat k) rows) (k + 1) with
  | Some j => k < j <= Z.of_nat (length rows)
      /\ (exists row, row_at rows j = Some row /\ is_event_row row = true)
      /\ forall l row, k < l < j -> row_at rows l = Some row -> is_event_row row = false
  | None => forall l row, k < l -> row_at rows l = Some row -> is_event_row row = false
  end.
Proof.
  intros Hk. destruct (find_row _ _ _) as [j|] eqn:E.
  - apply find_row_Some in E as (Hj & (row & Hrow & Hp) & Hno). rewrite length_drop in Hj. split; [lia|].
    rewrite lookup_drop in Hrow. split.
    + exists row. split; [|done]. apply row_at_Some. split; [lia|].
      by replace (Z.to_nat (j - 1)) with (Z.to_nat k + Z.to_nat (j - (k + 1)))%nat by lia.
    + intros l r Hl [_ Hr]%row_at_Some. apply (Hno l); [lia|]. rewrite lookup_drop.
      by replace (Z.to_nat k + Z.to_nat (l - (k + 1)))%nat with (Z.to_nat (l - 1)) by lia.
  - intros l row Hl [Hlen Hr]%row_at_Some. apply (proj1 (find_row_None _ _ _) E).
    apply list_elem_of_In, (list_elem_of_lookup_2 _ (Z.to_nat (l - (k + 1)))). rewrite lookup_drop.
    by replace (Z.to_nat k + Z.to_nat (l - (k + 1)))%nat with (Z.to_nat (l - 1)) by lia.
Qed.

Lemma find_row_back_spec rows k :
  (k <= length rows)%nat ->
  let j := find_row_back rows k in
  0 <= j <= Z.of_nat k
  /\ (j = 0 \/ exists row, row_at rows j = Some row /\ is_event_row row = true)
  /\ forall l row, j < l <= Z.of_nat k -> row_at rows l = Some row -> is_event_row row = false.
Proof.
  induction k as [|k IH]; intros Hk; cbn [find_row_back]; cbv zeta.
  { split; [lia|]. split; [by left|]. intros l row Hl. lia. }
  specialize (IH ltac:(lia)). cbv zeta in IH. destruct IH as (Hj & He & Hno).
  destruct (rows !! k) as [r|] eqn:Er; [|apply lookup_ge_None in Er; lia].
  destruct (is_event_row r) eqn:Ee.
  - split; [lia|]. split; [right; exists r; split; [|done] | intros l row Hl; lia].
    apply row_at_Some. split; [lia|]. by replace (Z.to_nat (Z.of_nat (S k) - 1)) with k by lia.
  - split; [lia|]. split; [done|]. intros l row Hl Hrow. destruct (Z.eq_dec l (Z.of_nat (S k))) as [->|].
    + apply row_at_Some in Hrow as [_ Hrow]. replace (Z.to_nat (Z.of_nat (S k) - 1)) with k in Hrow by lia. congruence.
    + apply (Hno l); [lia | done].
Qed.

(** *** The selection *)

Section navigation.
Context {fmt : Fmt} {decoders : Decoders}.

Lemma restore_history_selection_eq n selection :
  exists k, restore_history_selection n selection = set_cursor n k.
Proof. unfold restore_history_selection. destruct (negb _); [by eexists|]. destruct (find_row _ _ _); by eexists. Qed.

Lemma restore_history_selection_cursor n selection :
  0 <= n.(cursor) ->
  0 <= (restore_history_selection n selection).(cursor) <= Z.of_nat (length (visible_rows n)).
Proof.
  intros Hc. unfold restore_history_selection. destruct (negb _); cbn [set_cursor cursor]; [lia|].
  destruct (find_row _ _ _) as [k|] eqn:E; cbn [set_cursor cursor]; [|lia].
  apply find_row_Some in E as [? _]. lia.
Qed.

Lemma synced_cursor i n k : synced i n -> synced i (set_cursor n k).
Proof. intros [H1 H2 H3]. by split. Qed.

Lemma synced_tabs i n tab previous : synced i n -> synced i (set_tabs n tab previous).
Proof. intros [H1 H2 H3]. by split. Qed.

Lemma set_cursor_ok i n k :
  navigation_ok i n -> 0 <= k <= Z.of_nat (length (visible_rows n)) -> navigation_ok i (set_cursor n k).
Proof. intros [H1 H2 H3 H4 H5] Hk. split; [done | by apply synced_cursor | done | done | exact Hk]. Qed.

Lemma all_backends_length : length all_backends = BACKEND_COUNT.
Proof. reflexivity. Qed.

(** The rows of a tab are the history of the trace for some decoder and syntax, and its
    lines are one more. *)
Lemma tab_built i n tab :
  synced i n -> 0 <= tab <= Z.of_nat BACKEND_COUNT ->
  (exists backend syntax, build_history n.(ui_trace) backend syntax = Some (history_rows_at n tab))
  /\ length (history_lines_at n tab) = S (length (history_rows_at n tab)).
Proof.
  intros [H1 H2 H3] Htab. apply mapM_Some in H2. unfold history_rows_at, history_lines_at.
  assert (forall rows normalized, length (build_history_lines n.(ui_trace) rows normalized) = S (length rows)) as Hlines.
  { intros rows normalized. unfold build_history_lines. cbn [length]. f_equal.
    generalize (bytes_width rows) as width. intros width. generalize 0 as k.
    induction rows as [|row rows IH]; intros k; [done|]. cbn [history_lines_from length].
    destruct (row_kind row); cbn [length]; by rewrite IH. }
  destruct (Z.eqb_spec tab 0) as [_|Hne].
  - split; [by eexists _, _|]. destruct H3 as [(Ht & -> & _) | [-> _]]; [|apply Hlines].
    rewrite Ht in H1. by injection H1 as <-.
  - destruct (lookup_lt_is_Some_2 n.(history_backend_rows) (Z.to_nat (tab - 1))) as [rows Hrows].
    { rewrite <- (Forall2_length _ _ _ H2), all_backends_length. lia. }
    rewrite (nth_lookup_Some _ _ _ _ Hrows).
    destruct (Forall2_lookup_r _ _ _ _ _ H2 Hrows) as (backend & _ & Hb). split; [by eexists _, _|].
    destruct H3 as [(Ht & _ & ->) | [_ ->]].
    + rewrite Ht in Hb. rewrite build_history_cases in Hb by (by left). injection Hb as <-.
      rewrite (nth_lookup_Some _ _ _ NO_TRACE); [done|]. apply lookup_replicate. split; [done | lia].
    + rewrite (nth_lookup_Some _ _ _ (build_history_lines n.(ui_trace) rows i.(normalized_addresses))); [apply Hlines|].
      by rewrite list_lookup_fmap, Hrows.
Qed.

(** [rebuild_history] gives a history for every trace, of every decoder. *)
Lemma rebuild_history_ok i n :
  placed n.(ui_trace) -> 0 <= n.(history_tab) <= Z.of_nat BACKEND_COUNT ->
  n.(previous_history_tab) = n.(history_tab) -> 0 <= n.(cursor) ->
  exists n', rebuild_history i n = Some n' /\ navigation_ok i n' /\ n'.(ui_trace) = n.(ui_trace)
    /\ n'.(history_tab) = n.(history_tab).
Proof.
  intros Hp Ht Hpt Hc. unfold rebuild_history.
  destruct (build_history_is_Some n.(ui_trace) Hp i.(ui_backend) i.(ui_syntax)) as [rows Er]. rewrite Er.
  cbn [mbind option_bind].
  assert (is_Some (mapM (fun backend => build_history n.(ui_trace) backend (tab_syntax backend i.(ui_syntax)))
    all_backends)) as [backend_rows Eb].
  { apply mapM_is_Some_2. generalize all_backends as l. intros l. induction l as [|backend l IH]; constructor; [|exact IH].
    exact (build_history_is_Some n.(ui_trace) Hp backend _). }
  rewrite Eb. cbn [mbind option_bind].
  set (n1 := {| ui_trace := _ |}). set (selection := history_selection _ _).
  pose proof (restore_history_selection_cursor n1 selection Hc) as Hcur.
  destruct (restore_history_selection_eq n1 selection) as [k Ek]. rewrite Ek in *.
  exists (set_cursor n1 k). split; [done|]. split; [|done].
  split; [done | | done | done | exact Hcur]. split; [exact Er | exact Eb | by right].
Qed.

(** A history that is empty for one decoder is in step with every other. *)
Lemma empty_synced i i' n :
  placed n.(ui_trace) -> synced i n -> n.(history_rows) = [] ->
  (i.(normalized_addresses) = i'.(normalized_addresses)) -> synced i' n.
Proof.
  intros Hp [H1 H2 H3] Hrows Hn. rewrite Hrows in H1. split.
  - rewrite Hrows. exact (built_empty _ Hp _ _ _ _ H1).
  - rewrite <- H2. apply mapM_ext. intros backend.
    by rewrite (built_empty _ Hp _ _ backend (tab_syntax backend i.(ui_syntax)) H1),
      (built_empty _ Hp _ _ backend (tab_syntax backend i'.(ui_syntax)) H1).
  - by rewrite <- Hn.
Qed.
End navigation.

(** *** Every event keeps the invariant *)

Section preservation.
Context {fmt : Fmt} {decoders : Decoders}.

Lemma input_navigation_ok i i' n :
  navigation_ok i n ->
  i'.(ui_backend) = i.(ui_backend) -> i'.(ui_syntax) = i.(ui_syntax) ->
  i'.(normalized_addresses) = i.(normalized_addresses) -> navigation_ok i' n.
Proof. intros [? [H1 H2 H3] ? ? ?] Hb Hs Hn. split; try done. split; by rewrite ?Hb, ?Hs, ?Hn. Qed.

Lemma set_navigation_ok ui n : ui_ok ui -> navigation_ok ui.(ui_input) n -> ui_ok (set_navigation ui n).
Proof. intros [? ? ?] Hn. by split. Qed.

Lemma set_panel_ok ui p : ui_ok ui -> panel_ok p -> ui_ok (set_panel ui p).
Proof. intros [? ? ?] Hp. by split. Qed.

Lemma set_status_ok ui text : ui_ok ui -> ui_ok (set_status ui text).
Proof. intros [? ? ?]. by split. Qed.

(** Text and limits do not change what the histories show. *)
Lemma set_input_ok ui i :
  ui_ok ui -> input_ok i -> i.(ui_backend) = ui.(ui_input).(ui_backend) ->
  i.(ui_syntax) = ui.(ui_input).(ui_syntax) ->
  i.(normalized_addresses) = ui.(ui_input).(normalized_addresses) -> ui_ok (set_input ui i).
Proof. intros [? Hn ?] Hi ? ? ?. split; [done | | done]. by apply (input_navigation_ok ui.(ui_input)). Qed.

Lemma Trace_init_placed : placed Trace_init.
Proof. split; [done | reflexivity]. Qed.

Lemma Panel_init_ok : panel_ok Panel_init.
Proof. split; try done; apply Forall_replicate; lia. Qed.

Lemma Navigation_reset_ok i : navigation_ok i Navigation_reset.
Proof.
  split; [apply Trace_init_placed | | done | done | done]. split; [done | | by left].
  cbn [Navigation_reset ui_trace history_backend_rows].
  rewrite (mapM_ext _ (fun _ => Some [])); [done|]. intros backend. apply build_history_cases. by left.
Qed.

Lemma UI_start_ok {argparse : ArgParse} argv cli instrumented open :
  CLI_parse argv = Ok cli -> ui_ok (UI_start instrumented open cli).
Proof.
  intros (Hmax & Hsupport & [Hg Hx Hs _ _ Hf _])%CLI_parse_limits.
  unfold UI_start. destruct (match cli_bytes cli with Some _ => _ | None => _ end) as [code text].
  split; [done | apply Navigation_reset_ok | apply Panel_init_ok].
Qed.

Lemma rebuilt_ok i n n' :
  placed n.(ui_trace) -> 0 <= n.(history_tab) <= Z.of_nat BACKEND_COUNT ->
  n.(previous_history_tab) = n.(history_tab) -> 0 <= n.(cursor) ->
  rebuild_history i n = Some n' ->
  navigation_ok i n' /\ n'.(ui_trace) = n.(ui_trace) /\ n'.(history_tab) = n.(history_tab).
Proof.
  intros H1 H2 H3 H4 E. destruct (rebuild_history_ok i n H1 H2 H3 H4) as (m & Em & Hok). congruence.
Qed.

Lemma rebuild_history_trace i n n' : rebuild_history i n = Some n' -> n'.(ui_trace) = n.(ui_trace).
Proof.
  unfold rebuild_history. destruct (build_history _ _ _); [|done]. cbn [mbind option_bind].
  destruct (mapM _ _); [|done]. cbn [mbind option_bind]. intros [= <-].
  match goal with |- context [restore_history_selection ?m ?s] => by destruct (restore_history_selection_eq m s) as [k ->] end.
Qed.

Lemma restore_ok i n selection : navigation_ok i n -> navigation_ok i (restore_history_selection n selection).
Proof.
  intros Hn. pose proof (restore_history_selection_cursor n selection ltac:(apply Hn)) as Hc.
  destruct (restore_history_selection_eq n selection) as [k E]. rewrite E in *. by apply set_cursor_ok.
Qed.

Lemma redecode_ok ui i ui' :
  ui_ok ui -> input_ok i -> i.(normalized_addresses) = ui.(ui_input).(normalized_addresses) ->
  redecode ui i = Some ui' -> ui_ok ui'.
Proof.
  intros [Hi [Hp Hs Ht Hpt Hc] Hpn] Hi' Hn. unfold redecode. cbn [set_input ui_navigation].
  case_bool_decide as Hrows; [intros [= <-] | destruct (rebuild_history i ui.(ui_navigation)) as [n|] eqn:E; [|done]; intros [= <-]].
  - split; [done | | done]. split; [done | | done | done | done]. by apply (empty_synced ui.(ui_input)).
  - split; [done | | done]. apply (rebuilt_ok i ui.(ui_navigation)); [done | done | done | lia | exact E].
Qed.

Lemma select_history_tab_ok i n tab :
  navigation_ok i n -> 0 <= tab <= Z.of_nat BACKEND_COUNT -> navigation_ok i (select_history_tab tab n).
Proof.
  intros [Hp Hs Ht Hpt Hc] Htab. unfold select_history_tab. set (n1 := set_tabs n tab n.(previous_history_tab)).
  pose proof (restore_history_selection_cursor n1 (history_selection n1 n1.(previous_history_tab)) ltac:(apply Hc)) as Hcur.
  destruct (restore_history_selection_eq n1 (history_selection n1 n1.(previous_history_tab))) as [k E]. rewrite E in *.
  split; [done | | done | done | exact Hcur]. by apply synced_tabs, synced_cursor, synced_tabs.
Qed.

Lemma edit_max_steps_range text i :
  1 <= i.(ui_max_steps) <= MAX_STEPS_LIMIT -> 1 <= (edit_max_steps text i).(ui_max_steps) <= MAX_STEPS_LIMIT.
Proof.
  intros Hi. unfold edit_max_steps. destruct (from_chars_all _ _ _) as [v|]; [|done].
  destruct (Z.ltb_spec 0 v); [|done]. cbn [set_limits ui_max_steps]. unfold MAX_STEPS_LIMIT. lia.
Qed.

Lemma click_gpr_ok reg level p : panel_ok p -> 0 <= level <= 2 -> panel_ok (click_gpr reg level p).
Proof.
  intros [? ? ? ? ? ? ?] Hl. split; cbn [click_gpr gpr_depth]; try done; [by rewrite length_alter|].
  apply Forall_alter; [done|]. intros d _ Hd. destruct (Z.ltb_spec level d); lia.
Qed.

Lemma click_vector_ok is_xmm reg p : panel_ok p -> panel_ok (click_vector is_xmm reg p).
Proof. intros [? ? ? ? ? ? ?]. split; cbn [click_vector xmm_expand st_expand]; try done; destruct is_xmm; by rewrite ?length_alter. Qed.

Lemma scroll_ok f p : panel_ok p -> (forall s, 0 <= s -> 0 <= f s) -> panel_ok (scroll f p).
Proof.
  intros [? ? ? ? ? ? ?] Hf. split; cbn [scroll register_scroll]; try done; [by rewrite length_alter|].
  apply Forall_alter; [done|]. intros s _ Hs. by apply Hf.
Qed.

Lemma flag_in_mask name bit k :
  (name, bit) ∈ STATUS_FLAGS -> Z.testbit bit k = true -> Z.testbit RFLAGS_STATUS_MASK k = true.
Proof.
  intros Hin Hk. unfold RFLAGS_STATUS_MASK. rewrite !Z.lor_spec, !orb_true_iff. unfold STATUS_FLAGS in Hin.
  rewrite !elem_of_cons in Hin. pose proof (not_elem_of_nil (name, bit)).
  repeat (destruct Hin as [[= -> ->]|Hin]; [tauto|]). done.
Qed.

Lemma tab_syntax_supported backend syntax : backend_supports backend (tab_syntax backend syntax) = true.
Proof. by destruct backend, syntax. Qed.
End preservation.

Section ui_lemmas.
Context {fmt : Fmt} {decoders : Decoders} {memory : Memory} {W : Type} `{Platform W}.
Context (fingerprint : CPUFingerprint).

(** The run of the current input. *)
Definition engine_run (ui : UI) (code : list Z) (stop_offset : option Z) (w : W) : option (Trace * W) :=
  let i := ui.(ui_input) in
  run_engine fingerprint code
    (compose_seed i.(ui_seed_gpr) i.(ui_seed_flags) i.(ui_seed_xmm) i.(ui_seed_st) i.(ui_seed_floating_environment) []).1
    i.(ui_max_steps) i.(ui_backend) i.(ui_syntax) i.(ui_seed_data_pointers) stop_offset w.

(** What [execute] does: nothing but a message, or a run whose trace is shown from its
    start, or at the selected row when it stopped there. *)
Lemma execute_inv stop_offset ui w ui' w' :
  execute fingerprint stop_offset ui w = Some (ui', w') ->
  (exists text, ui' = set_status ui text /\ w' = w
     /\ forall code, parse_code_text ui.(ui_input).(ui_code) = Ok code -> code <> ui.(ui_navigation).(ui_trace).(trace_code))
  \/ exists code trace n,
       parse_code_text ui.(ui_input).(ui_code) = Ok code
       /\ (stop_offset <> None -> code = ui.(ui_navigation).(ui_trace).(trace_code))
       /\ engine_run ui code stop_offset w = Some (trace, w')
       /\ rebuild_history ui.(ui_input) (set_cursor (set_trace ui.(ui_navigation) trace) 0) = Some n
       /\ ui'.(ui_input) = ui.(ui_input) /\ ui'.(ui_panel) = ui.(ui_panel)
       /\ ui'.(ui_navigation) =
            match stop_offset with
            | Some offset =>
              if trace.(stop_address) =? u64 (base trace + offset)
              then restore_history_selection n
                     {| selection_rip := trace.(stop_address); selection_event := None; has_row := true |}
              else n
            | None => n
            end.
Proof.
  unfold execute. cbv zeta. destruct (parse_code_text _) as [code|e] eqn:Ep.
  2: { intros [= <- <-]. left. eexists. by split. }
  destruct (_ && _) eqn:Eb.
  { intros [= <- <-]. left. eexists. split; [reflexivity|]. split; [done|]. intros code' [= <-].
    apply andb_true_iff in Eb as [_ Eb]. by apply negb_true_iff, bool_decide_eq_false in Eb. }
  destruct (compose_seed _ _ _ _ _ _) as [seed errors] eqn:Es.
  destruct (run_engine _ _ _ _ _ _ _ _ _) as [[trace w1]|] eqn:Er; [|done]. cbn [mbind option_bind].
  destruct (rebuild_history _ _) as [n|] eqn:En; [|done]. cbn [mbind option_bind]. intros [= <- <-].
  right. exists code, trace, n. split; [done|]. split.
  - intros Hne. rewrite bool_decide_true in Eb by done. apply negb_false_iff, bool_decide_eq_true in Eb. exact Eb.
  - unfold engine_run. rewrite Es. by split.
Qed.

Lemma execute_ok stop_offset ui w ui' w' :
  ui_ok ui -> execute fingerprint stop_offset ui w = Some (ui', w') ->
  placed ui'.(ui_navigation).(ui_trace) -> ui_ok ui'.
Proof.
  intros Hok [(text & -> & _) | (code & trace & n & _ & _ & _ & En & Hi & Hpn & Hn)]%execute_inv Hp;
    [by apply set_status_ok|].
  pose proof Hok as [Hin [_ _ Ht Hpt _] Hpanel].
  assert (n.(ui_trace) = trace) as Htr by exact (rebuild_history_trace _ _ _ En).
  assert (ui'.(ui_navigation).(ui_trace) = trace) as Htr'.
  { rewrite Hn. destruct stop_offset; [|done]. destruct (_ =? _); [|done].
    match goal with |- context [restore_history_selection ?m ?s] => by destruct (restore_history_selection_eq m s) as [k ->] end. }
  rewrite Htr' in Hp.
  destruct (rebuilt_ok _ (set_cursor (set_trace ui.(ui_navigation) trace) 0) _ Hp Ht Hpt (Z.le_refl 0) En) as (Hno & _ & _).
  split; [by rewrite Hi | | by rewrite Hpn]. rewrite Hi, Hn. destruct stop_offset; [|done].
  destruct (_ =? _); [by apply restore_ok | done].
Qed.

Lemma run_to_selected_row_inv ui w ui' w' :
  run_to_selected_row fingerprint ui w = Some (ui', w') ->
  (exists text, ui' = set_status ui text /\ row_at (visible_rows ui.(ui_navigation)) ui.(ui_navigation).(cursor) = None) \/
  exists row, row_at (visible_rows ui.(ui_navigation)) ui.(ui_navigation).(cursor) = Some row
    /\ execute fingerprint (Some row.(row_offset)) ui w = Some (ui', w').
Proof.
  unfold run_to_selected_row. cbv zeta. destruct (row_at _ _) as [row|]; [right; by exists row|].
  intros [= <- _]. left. eexists. by split.
Qed.

Lemma toggle_addresses_ok ui ui' : ui_ok ui -> toggle_addresses ui = Some ui' -> ui_ok ui'.
Proof.
  intros [Hi [Hp Hs Ht Hpt Hc] Hpn]. unfold toggle_addresses. cbv zeta. set (i := set_limits _ _ _ _).
  assert (input_ok i) as Hi' by (by destruct Hi; split).
  case_bool_decide as Hcode; [intros [= <-] | destruct (rebuild_history i ui.(ui_navigation)) as [n|] eqn:E; [|done]; intros [= <-]].
  - split; [done | | done]. split; [done | | done | done | done]. pose proof Hs as [H1 H2 H3].
    assert (forall backend syntax, build_history (ui_navigation ui).(ui_trace) backend syntax = Some []) as Hnil
      by (intros; apply build_history_cases; by left).
    split; [exact H1 | exact H2|]. destruct H3 as [?|[E1 E2]]; [by left | right].
    cbn [set_input ui_navigation]. rewrite E1, E2. clear E1 E2. rewrite Hnil in H1. injection H1 as <-. split; [done|].
    rewrite (mapM_ext _ (fun _ => Some [])) in H2 by (intros; apply Hnil). by injection H2 as <-.
  - split; [done | | done]. apply (rebuilt_ok i ui.(ui_navigation)); [done | done | done | lia | exact E].
Qed.
Lemma click_flag_ok ui flag : ui_ok ui -> ui_ok (set_input ui (click_flag flag ui.(ui_input))).
Proof.
  intros Hok. pose proof Hok as [[S1 S2 S3 S4 S5 S6] _ _]. unfold click_flag.
  destruct (STATUS_FLAGS !! flag) as [[name bit]|] eqn:E; apply set_input_ok; try done.
  split; try done. cbn [set_texts ui_seed_flags]. intros k. rewrite Z.lxor_spec.
  destruct (Z.testbit (ui_seed_flags _) k) eqn:Ek; [intros _; by apply S3|]. cbn [xorb]. apply flag_in_mask with name.
  by eapply list_elem_of_lookup_2.
Qed.

Lemma step_ok i n : navigation_ok i n -> navigation_ok i (step n).
Proof.
  intros Hn. unfold step. cbv zeta. pose proof (find_row_after (visible_rows n) n.(cursor) ltac:(apply Hn)) as Hf.
  destruct (find_row _ _ _) as [k|]; [|done]. destruct Hf as [Hk _]. apply set_cursor_ok; [done|]. destruct Hn as [_ _ _ _ Hc]. lia.
Qed.

Lemma back_ok i n : navigation_ok i n -> navigation_ok i (back n).
Proof.
  intros Hn. unfold back. cbv zeta. apply set_cursor_ok; [done|]. destruct Hn as [_ _ _ _ Hc].
  destruct (find_row_back_spec (visible_rows n) (Z.to_nat (n.(cursor) - 1)) ltac:(lia)) as [Hb _]. lia.
Qed.

Lemma ui_step_ok action ui w ui' w' :
  ui_ok ui -> permitted ui action -> ui_step fingerprint action ui w = Some (ui', w') ->
  placed ui'.(ui_navigation).(ui_trace) -> ui_ok ui'.
Proof.
  intros Hok Hperm Hstep Hp. pose proof Hok as [Hi Hn Hpn]. pose proof Hi as [S1 S2 S3 S4 S5 S6].
  destruct action; cbn [ui_step permitted] in Hstep, Hperm; cbv zeta in Hstep.
  - by eapply execute_ok.
  - apply run_to_selected_row_inv in Hstep as [(text & -> & _) | (row & _ & E)]; [by apply set_status_ok | by eapply execute_ok].
  - injection Hstep as <- _. apply set_navigation_ok; [done | by apply step_ok].
  - injection Hstep as <- _. apply set_navigation_ok; [done | by apply back_ok].
  - injection Hstep as <- _. by split; [| apply Navigation_reset_ok | apply Panel_init_ok].
  - injection Hstep as <- _. unfold copy_history_row. cbv zeta. destruct (row_at _ _); by apply set_status_ok.
  - destruct (toggle_syntax ui) as [u|] eqn:E; [|done]. injection Hstep as <- _. unfold toggle_syntax in E. cbv zeta in E.
    destruct (backend_supports _ _) eqn:Eb; cbn [negb] in E; [|injection E as <-; by apply set_status_ok].
    by eapply redecode_ok; [exact Hok | | | exact E].
  - destruct (cycle_backend forward ui) as [u|] eqn:E; [|done]. injection Hstep as <- _. unfold cycle_backend in E. cbv zeta in E.
    eapply redecode_ok; [exact Hok | | | exact E]; [|done]. split; try done. apply tab_syntax_supported.
  - injection Hstep as <- _. apply set_navigation_ok; [done | by apply select_history_tab_ok].
  - injection Hstep as <- _. apply set_navigation_ok; [done|]. apply set_cursor_ok; [done|].
    destruct Hn as [_ Hs Ht _ _]. destruct (tab_built _ _ _ Hs Ht) as [_ Hl]. rewrite Hl in Hperm. lia.
  - injection Hstep as <- _. apply set_navigation_ok; [done|]. destruct Hn as [? ? ? ? Hc].
    unfold wheel_history. destruct up; apply set_cursor_ok; (by split) || lia.
  - injection Hstep as <- _. destruct Hperm as (? & ? & ?). by apply set_input_ok.
  - injection Hstep as <- _. assert (forall i, edit_max_steps text i = set_limits i (edit_max_steps text i).(ui_max_steps)
      i.(ui_seed_data_pointers) i.(normalized_addresses)) as E.
    { intros i. unfold edit_max_steps. destruct (from_chars_all _ _ _); [destruct (0 <? _)|]; by destruct i. }
    pose proof (edit_max_steps_range text _ S2) as Hr. rewrite E. by apply set_input_ok.
  - injection Hstep as <- _. by apply set_input_ok.
  - destruct (toggle_addresses ui) as [u|] eqn:E; [|done]. injection Hstep as <- _. by eapply toggle_addresses_ok.
  - injection Hstep as <- _. by apply click_flag_ok.
  - injection Hstep as <- _. apply set_panel_ok; [done | by apply click_gpr_ok].
  - injection Hstep as <- _. apply set_panel_ok; [done | by apply click_vector_ok].
  - injection Hstep as <- _. apply set_panel_ok; [done | by apply click_vector_ok].
  - injection Hstep as <- _. apply set_panel_ok; [done|]. by destruct Hpn; split.
  - injection Hstep as <- _. apply set_panel_ok; [done|]. apply scroll_ok; [done|]. intros s Hs. destruct up; cbn; lia.
  - injection Hstep as <- _. apply set_panel_ok; [done|]. apply scroll_ok; [done|]. intros s Hs. cbn. lia.
  - injection Hstep as <- _. by split.
  - injection Hstep as <- _. by split.
  - injection Hstep as <- _. by apply set_status_ok.
Qed.
End ui_lemmas.

(** *** What a row shows *)

Section shown.
Context {fmt : Fmt} {decoders : Decoders} (i : Input) (n : Navigation).
Hypothesis Hok : navigation_ok i n.

Lemma visible_built :
  exists backend syntax, build_history n.(ui_trace) backend syntax = Some (visible_rows n).
Proof. destruct Hok as [_ Hs Ht _ _]. by apply (tab_built i). Qed.

(** The row of an event shows the state after the event. *)
Lemma shown_event k row :
  row_at (visible_rows n) k = Some row -> is_event_row row = true ->
  exists j event, row.(row_event) = Some j /\ n.(ui_trace).(execution_events) !! j = Some event
    /\ row.(row_rip) = event.(event_rip)
    /\ row.(row_kind) = match event.(event_kind) with EKCompleted => HKReached | EKFaulted => HKFaulted end
    /\ history_state_at n (Z.to_nat k) = event.(event_registers).
Proof.
  intros Hrow He. destruct visible_built as (backend & syntax & E).
  destruct (built_row _ (nv_placed _ _ Hok) _ _ _ row E (row_at_in _ _ _ Hrow)) as (_ & _ & _ & Hk & Hj).
  rewrite He in Hk. unfold is_static in Hk. destruct (row_event row) as [j|] eqn:Ej; [|done].
  destruct (Hj j eq_refl) as (event & Hl & Hin & Heq). exists j, event.
  apply row_at_Some in Hrow as [Hlen Hrow]. split; [done|]. split; [done|].
  assert (history_state_at n (Z.to_nat k) = event_registers event) as Hstate.
  { unfold history_state_at. cbv zeta. rewrite Nat.min_l by lia.
    replace (Z.to_nat k) with (S (Z.to_nat (k - 1))) by lia. cbn [state_before]. rewrite Hrow.
    cbn [mbind option_bind]. rewrite Ej. cbn [mbind option_bind]. by rewrite Hl. }
  rewrite Heq. unfold event_row. cbn [row_rip row_kind]. split; [|by split].
  unfold in_input in Hin. apply andb_true_iff in Hin as [?%Z.leb_le ?%Z.ltb_lt].
  destruct (nv_placed _ _ Hok) as [Hb Hf]. by apply disasm_at_ok.
Qed.
End shown.

(** *** Stepping *)

Section stepping.
Context (n : Navigation).
Abbreviation rows := (visible_rows n).
Abbreviation len := (Z.of_nat (length rows)).

Lemma filter_find (p : HistoryRow -> bool) l row rest k :
  List.filter p l = row :: rest ->
  exists a, (a < length l)%nat /\ find_row p l k = Some (k + Z.of_nat a) /\ l !! a = Some row
    /\ List.filter p (drop (S a) l) = rest.
Proof.
  revert k. induction l as [|r l IH]; intros k; cbn [List.filter find_row length]; [done|]. destruct (p r).
  - intros [= -> <-]. exists 0%nat. rewrite Z.add_0_r. split; [lia | done].
  - intros E. destruct (IH (k + 1) E) as (a & Ha & Hf & Hl & Hd). exists (S a).
    split; [lia|]. split; [rewrite Hf; f_equal; lia | done].
Qed.

(** One step, when an event row is left. *)
Lemma step_from c row rest :
  0 <= c <= len -> List.filter is_event_row (drop (Z.to_nat c) rows) = row :: rest ->
  exists j, step (set_cursor n c) = set_cursor n j /\ c < j <= len /\ row_at rows j = Some row
    /\ List.filter is_event_row (drop (Z.to_nat j) rows) = rest
    /\ forall l r, c < l < j -> row_at rows l = Some r -> is_event_row r = false.
Proof.
  intros Hc Hf. destruct (filter_find _ _ _ _ (c + 1) Hf) as (a & Ha & Hfind & Hl & Hd).
  pose proof (find_row_after rows c Hc) as H. rewrite Hfind in H. destruct H as (Hj & _ & Hno).
  exists (c + 1 + Z.of_nat a). split; [|split; [lia|split; [|split; [|exact Hno]]]].
  - unfold step. cbn [set_cursor history_tab cursor]. cbv zeta.
    change (history_rows_at (set_cursor n c) n.(history_tab)) with rows. by rewrite Hfind.
  - apply row_at_Some. split; [lia|]. rewrite lookup_drop in Hl.
    by replace (Z.to_nat (c + 1 + Z.of_nat a - 1)) with (Z.to_nat c + a)%nat by lia.
  - rewrite drop_drop in Hd. by replace (Z.to_nat (c + 1 + Z.of_nat a)) with (Z.to_nat c + S a)%nat by lia.
Qed.

(** [back] goes to the event row before, or to the seed. *)
Lemma back_from c j :
  0 <= c < j -> j <= len -> c = 0 \/ (exists row, row_at rows c = Some row /\ is_event_row row = true) ->
  (forall l r, c < l < j -> row_at rows l = Some r -> is_event_row r = false) ->
  back (set_cursor n j) = set_cursor n c.
Proof.
  intros Hc Hj He Hno. unfold back. cbn [set_cursor history_tab cursor]. cbv zeta.
  change (history_rows_at (set_cursor n j) n.(history_tab)) with rows.
  destruct (find_row_back_spec rows (Z.to_nat (j - 1)) ltac:(lia)) as (Hb & Hbe & Hbno).
  set (b := find_row_back _ _) in *. assert (b = c) as ->; [|done].
  destruct (Z.lt_trichotomy b c) as [Hlt|[->|Hgt]]; [| done |].
  - destruct He as [->|(row & Hrow & He)]; [lia|]. rewrite (Hbno c row) in He by (lia || done). done.
  - destruct Hbe as [->|(row & Hrow & Hbe)]; [lia|]. rewrite (Hno b row) in Hbe by (lia || done). done.
Qed.

(** The [k]-th step from the seed is at the [k]-th event row, and [back] undoes it. *)
Lemma iter_step k row :
  List.filter is_event_row rows !! k = Some row ->
  exists c j, Nat.iter k step (set_cursor n 0) = set_cursor n c /\ Nat.iter (S k) step (set_cursor n 0) = set_cursor n j
    /\ row_at rows j = Some row /\ back (set_cursor n j) = set_cursor n c
    /\ List.filter is_event_row (drop (Z.to_nat j) rows) = drop (S k) (List.filter is_event_row rows).
Proof.
  revert row. induction k as [|k IH]; intros row Hk.
  - destruct (List.filter is_event_row rows) as [|r rest] eqn:Ef; [done|]. injection Hk as ->.
    destruct (step_from 0 row rest) as (j & Hs & Hj & Hrow & Hrest & Hno); [lia | done|].
    exists 0, j. split; [done|]. split; [exact Hs|]. split; [done|]. split; [|by rewrite Hrest].
    apply back_from; [lia | lia | by left | done].
  - destruct (lookup_lt_is_Some_2 (List.filter is_event_row rows) k) as [r Hr].
    { apply lookup_lt_Some in Hk. lia. }
    destruct (IH r Hr) as (c & j & _ & Hs & Hrow & _ & Hrest).
    assert (is_event_row r = true) as Her.
    { apply (filter_In is_event_row r rows), list_elem_of_In. by eapply list_elem_of_lookup_2. }
    rewrite (drop_S (List.filter is_event_row rows) row (S k) Hk) in Hrest.
    pose proof (proj1 (row_at_Some _ _ _) Hrow) as [Hj _].
    destruct (step_from j row (drop (S (S k)) (List.filter is_event_row rows))) as (j' & Hs' & Hj' & Hrow' & Hrest' & Hno);
      [lia | done|].
    exists j, j'. split; [done|]. split; [cbn [Nat.iter nat_rect] in *; by rewrite Hs|].
    split; [done|]. split; [|done]. apply back_from; [lia | lia | right; by exists r | done].
Qed.
End stepping.

(** The event rows are those of the events inside the input, in order. *)
Lemma expected_event_rows_lookup {decoders : Decoders} trace backend syntax events i k event :
  List.filter (in_input trace) events !! k = Some event ->
  exists row j, expected_event_rows trace backend syntax events i !! k = Some row
    /\ row.(row_event) = Some (i + j)%nat /\ events !! j = Some event.
Proof.
  revert i k. induction events as [|e events IH]; intros i k; cbn [List.filter expected_event_rows]; [done|].
  destruct (in_input trace e).
  - destruct k as [|k].
    + intros [= ->]. eexists _, 0%nat. split; [done|]. rewrite Nat.add_0_r. done.
    + intros (row & j & Hrow & Hj & He)%(IH (S i)). exists row, (S j). split; [done|]. split; [|done].
      rewrite Hj. f_equal. lia.
  - intros (row & j & Hrow & Hj & He)%(IH (S i)). exists row, (S j). split; [done|]. split; [|done].
    rewrite Hj. f_equal. lia.
Qed.

Lemma event_rows_in_order {fmt : Fmt} {decoders : Decoders} i n k event :
  navigation_ok i n -> visible_rows n <> [] ->
  List.filter (in_input n.(ui_trace)) n.(ui_trace).(execution_events) !! k = Some event ->
  exists row j, List.filter is_event_row (visible_rows n) !! k = Some row /\ row.(row_event) = Some j
    /\ n.(ui_trace).(execution_events) !! j = Some event.
Proof.
  intros Hok Hne Hk. destruct (visible_built i n Hok) as (b & s & E). pose proof (nv_placed _ _ Hok) as Hp.
  destruct (expected_event_rows_lookup n.(ui_trace) b s _ 0 k event Hk) as (row & j & Hrow & Hj & He).
  exists row, j. split; [|done].
  destruct (built_ok _ Hp _ _ _ E) as [[_ ?] | (_ & _ & [_ Hev _ _])]; [done|]. rewrite <- Hrow, <- Hev. f_equal.
  assert (forall r, In r (visible_rows n) -> is_event_row r = negb (is_static r)) as Hall.
  { intros r Hin. by destruct (built_row _ Hp _ _ _ r E Hin) as (_ & _ & _ & ? & _). }
  apply filter_ext_in. exact Hall.
Qed.

(** A restored selection of an event is a row of the same event. *)
Lemma restored_event {fmt : Fmt} {decoders : Decoders} i n n' backend syntax selection k row j :
  navigation_ok i n -> build_history n.(ui_trace) backend syntax = Some (visible_rows n') ->
  row_at (visible_rows n) k = Some row -> row.(row_event) = Some j ->
  selection.(has_row) = true -> selection.(selection_event) = Some j ->
  let m := restore_history_selection n' selection in
  exists row', row_at (visible_rows m) m.(cursor) = Some row' /\ row'.(row_event) = Some j.
Proof.
  intros Hok E' Hrow Hj Hhas Hsel m. destruct (visible_built i n Hok) as (b & s & E).
  destruct (built_same_event _ (nv_placed _ _ Hok) _ _ _ _ _ _ row j E E' (row_at_in _ _ _ Hrow) Hj) as (row' & Hin & Hj').
  unfold m, restore_history_selection. rewrite Hhas. cbn [negb].
  destruct (find_row _ _ _) as [p|] eqn:Ef.
  - apply find_row_at in Ef as (r & Hr & Hp). exists r. split; [exact Hr|]. unfold selects in Hp. rewrite Hsel in Hp.
    by apply bool_decide_eq_true in Hp.
  - exfalso. apply find_row_None with (row := row') in Ef; [|done]. unfold selects in Ef. rewrite Hsel in Ef.
    by rewrite bool_decide_true in Ef.
Qed.

Section redisplay.
Context {fmt : Fmt} {decoders : Decoders}.

Lemma rebuild_history_inv i n m :
  rebuild_history i n = Some m ->
  exists n', m = restore_history_selection n' (history_selection n n.(history_tab))
    /\ n'.(ui_trace) = n.(ui_trace) /\ n'.(history_tab) = n.(history_tab) /\ synced i n'.
Proof.
  unfold rebuild_history. destruct (build_history _ _ _) as [rows|] eqn:Er; [|done]. cbn [mbind option_bind].
  destruct (mapM _ _) as [backend_rows|] eqn:Eb; [|done]. cbn [mbind option_bind]. intros [= <-].
  eexists. split; [reflexivity|]. split; [done|]. split; [done|]. split; [exact Er | exact Eb | by right].
Qed.

Lemma history_selection_row n tab row :
  row_at (history_rows_at n tab) n.(cursor) = Some row ->
  history_selection n tab = {| selection_rip := row.(row_rip); selection_event := row.(row_event); has_row := true |}.
Proof. unfold history_selection. by intros ->. Qed.

Lemma rebuilt_event i i' n m row j :
  navigation_ok i n -> rebuild_history i' n = Some m ->
  row_at (visible_rows n) n.(cursor) = Some row -> row.(row_event) = Some j ->
  exists row', row_at (visible_rows m) m.(cursor) = Some row' /\ row'.(row_event) = Some j.
Proof.
  intros Hok (n' & -> & Ht & Htab & Hs)%rebuild_history_inv Hrow Hj.
  destruct (tab_built i' n' n'.(history_tab) Hs) as [(b & s & E) _]; [rewrite Htab; apply Hok|].
  rewrite (history_selection_row _ _ _ Hrow). eapply restored_event; try done. by rewrite <- Ht.
Qed.

Lemma selected_tab_event i n tab row j :
  navigation_ok i n -> 0 <= tab <= Z.of_nat BACKEND_COUNT ->
  row_at (visible_rows n) n.(cursor) = Some row -> row.(row_event) = Some j ->
  (select_history_tab tab n).(ui_trace) = n.(ui_trace)
  /\ exists row', row_at (visible_rows (select_history_tab tab n)) (select_history_tab tab n).(cursor) = Some row'
       /\ row'.(row_event) = Some j.
Proof.
  intros Hok Htab Hrow Hj. pose proof Hok as [_ Hs _ Hpt _]. unfold select_history_tab. cbv zeta.
  set (n1 := set_tabs n tab n.(previous_history_tab)).
  destruct (tab_built i n1 tab (synced_tabs i n _ _ Hs) Htab) as [(b & s & E) _].
  assert (history_selection n1 n1.(previous_history_tab)
    = {| selection_rip := row.(row_rip); selection_event := row.(row_event); has_row := true |}) as Hsel.
  { apply history_selection_row. cbn [n1 set_tabs previous_history_tab cursor]. rewrite Hpt. exact Hrow. }
  rewrite Hsel.
  destruct (restored_event i n n1 b s {| selection_rip := row.(row_rip); selection_event := row.(row_event);
    has_row := true |} _ row j Hok E Hrow Hj eq_refl Hj) as (row' & Hrow' & Hj').
  match goal with |- context [restore_history_selection n1 ?s] => destruct (restore_history_selection_eq n1 s) as [k Ek] end.
  rewrite Ek in *. split; [done | by exists row'].
Qed.

(** Two rows of the same event show the same. *)
Lemma same_event_shown i i' n n' row row' j :
  navigation_ok i n -> navigation_ok i' n' -> n'.(ui_trace) = n.(ui_trace) ->
  row_at (visible_rows n) n.(cursor) = Some row -> row.(row_event) = Some j ->
  row_at (visible_rows n') n'.(cursor) = Some row' -> row'.(row_event) = Some j ->
  row'.(row_rip) = row.(row_rip) /\ row'.(row_kind) = row.(row_kind)
  /\ history_state_at n' (Z.to_nat n'.(cursor)) = history_state_at n (Z.to_nat n.(cursor)).
Proof.
  intros Hok Hok' Ht Hrow Hj Hrow' Hj'.
  assert (forall i n row, navigation_ok i n -> row_at (visible_rows n) n.(cursor) = Some row -> row.(row_event) = Some j ->
    is_event_row row = true) as He.
  { intros i0 n0 r Hok0 Hr Hj0. destruct (visible_built i0 n0 Hok0) as (b & s & E).
    destruct (built_row _ (nv_placed _ _ Hok0) _ _ _ r E (row_at_in _ _ _ Hr)) as (_ & _ & _ & -> & _).
    unfold is_static. by rewrite Hj0. }
  destruct (shown_event i n Hok _ _ Hrow (He _ _ _ Hok Hrow Hj)) as (k & e & Ek & Hl & Hr & Hkd & Hst).
  destruct (shown_event i' n' Hok' _ _ Hrow' (He _ _ _ Hok' Hrow' Hj')) as (k' & e' & Ek' & Hl' & Hr' & Hkd' & Hst').
  rewrite Hj in Ek. rewrite Hj' in Ek'. injection Ek as <-. injection Ek' as <-. rewrite Ht in Hl'.
  assert (e' = e) as -> by congruence. by rewrite Hr, Hr', Hkd, Hkd', Hst, Hst'.
Qed.
End redisplay.

(** *** Running to a row *)

(** A run that stops executes nothing at its target. *)
Lemma runs_target_not_executed code_base size t previous n steps outcome stop at_target :
  runs code_base size (Some t) previous n steps outcome stop at_target ->
  previous <> t -> outcome = OStopped -> forall s, In s steps -> s.(step_rip) <> t.
Proof.
  induction 1 as [p n|p n s Hf|p n s Hf Hr Ht|p n s st Hf Hr Ht|p s st Hf Hr Ht|p n s ss o st at_target Hf Hr Ht Hi Hrun IH];
    intros Hp Ho x Hx; try done.
  - destruct Hx as [<- | []]. congruence.
  - destruct Hx as [<- | Hx]; [congruence|]. apply IH; [congruence | done | done].
Qed.

Lemma status_flags_in_width x :
  (forall n, Z.testbit x n = true -> Z.testbit RFLAGS_STATUS_MASK n = true) -> in_width 64 x.
Proof.
  intros Hx. assert (in_width 64 RFLAGS_STATUS_MASK) as Hm by (vm_compute; split; congruence).
  assert (forall n, 64 <= n -> Z.testbit x n = false) as Hhigh.
  { intros n Hn. destruct (Z.testbit x n) eqn:E; [|done]. apply Hx in E.
    rewrite (in_width_testbit 64) in E by (done || lia). done. }
  apply in_width_of_testbit; [done | | done]. apply Z.bits_iff_nonneg_ex. exists 63. intros m Hm'. apply Hhigh. lia.
Qed.

Section run_to_row.
Context {fmt : Fmt} {decoders : Decoders} {memory : Memory} {W : Type} `{Platform W}.
Context (fingerprint : CPUFingerprint).

(** A run of the interface that stops at its row has not executed it. *)
Lemma engine_run_stopped ui code offset w trace w' :
  input_ok ui.(ui_input) -> engine_run fingerprint ui code (Some offset) w = Some (trace, w') -> placed trace ->
  0 <= offset < Z.of_nat (length code) ->
  trace.(trace_outcome) = OStopped ->
  trace.(trace_code) = code /\ code <> [] /\ trace.(instrumentation_detected) = false
  /\ forall event, In event trace.(execution_events) -> event.(event_rip) <> base trace + offset.
Proof.
  intros [_ Hmax Hfl Hg Hx Hs] Hrun [Hb Hf] Hoff Hout. unfold engine_run in Hrun. cbv zeta in Hrun.
  apply run_engine_inv in Hrun; [|apply compose_seed_well_formed_lemma; auto using status_flags_in_width|lia].
  destruct Hrun as (_ & Hcode & _ & _ & [(_ & _ & [Ho | [Ho _]] & _) |
    (result & request & rsp & data & _ & _ & _ & _ & _ & _ & Hev & Ho & Hi & Hne & _ & Hrun)]); [congruence | congruence|].
  do 3 (split; [done|]). intros event Hin. rewrite Hev in Hin. apply in_map_iff in Hin as (s & <- & Hin).
  case_bool_decide as Hzero; [destruct Hrun as (Hnil & _); by rewrite Hnil in Hin|].
  cbn [fmap option_fmap option_map] in Hrun. change (trace_base trace) with (base trace) in Hrun.
  unfold History.size in Hf. rewrite Hcode in Hf. rewrite wrap_small in Hrun by (unfold in_width; lia).
  eapply (runs_target_not_executed _ _ _ _ _ _ _ _ _ Hrun); [|congruence|exact Hin].
  intros E. apply Hzero. f_equal. lia.
Qed.
(** The row an address is restored to, from the seed. *)
Lemma restore_address i n a :
  navigation_ok i n -> n.(cursor) = 0 -> in_width 64 a ->
  let m := restore_history_selection n {| selection_rip := a; selection_event := None; has_row := true |} in
  (exists r, row_at (visible_rows m) m.(cursor) = Some r /\ is_event_row r = false /\ r.(row_rip) <= a < row_end r)
  \/ m.(cursor) = 0 /\ forall r, In r (visible_rows m) -> r.(row_rip) <= a < row_end r -> is_event_row r = true.
Proof.
  intros Hok Hc Ha m. destruct (visible_built i n Hok) as (b & s & E). pose proof (nv_placed _ _ Hok) as [Hb Hf].
  set (selection := {| selection_rip := a; selection_event := None; has_row := true |}) in *.
  assert (forall r, In r (visible_rows n) ->
    selects selection r = negb (is_event_row r) && (r.(row_rip) <=? a) && (a <? row_end r)) as Hsel.
  { intros r Hin. destruct (built_row _ (conj Hb Hf) _ _ _ r E Hin) as (H1 & H2 & H3 & -> & _).
    rewrite negb_involutive. unfold selects. cbn [selection selection_event selection_rip]. unfold is_static, row_end.
    destruct (bool_decide _); cbn [andb]; [|done]. destruct (Z.leb_spec (row_rip r) a); cbn [andb]; [|done].
    rewrite wrap_small by (unfold in_width in *; lia).
    destruct (Z.ltb_spec (a - row_rip r) (row_length r)), (Z.ltb_spec a (row_rip r + row_length r)); done || lia. }
  unfold m, restore_history_selection. cbn [selection has_row negb]. fold selection.
  destruct (find_row _ _ _) as [k|] eqn:Ef.
  - left. apply find_row_at in Ef as (r & Hr & Hp). exists r. split; [exact Hr|].
    rewrite Hsel in Hp by (by eapply row_at_in). rewrite !andb_true_iff, negb_true_iff, Z.leb_le, Z.ltb_lt in Hp. tauto.
  - right. rewrite Hc. cbn [set_cursor cursor history_tab]. split; [lia|]. intros r Hin [Hle Hlt].
    pose proof (proj1 (find_row_None _ _ _) Ef r Hin) as Hp. rewrite Hsel in Hp by done.
    apply Z.leb_le in Hle. apply Z.ltb_lt in Hlt. rewrite Hle, Hlt, !andb_true_r in Hp. by apply negb_false_iff.
Qed.

(** A rebuild from the seed stays there. *)
Lemma rebuild_from_seed i n m : n.(cursor) = 0 -> rebuild_history i n = Some m -> m.(cursor) = 0.
Proof.
  intros Hc (n' & -> & _)%rebuild_history_inv. unfold history_selection, row_at. rewrite Hc. done.
Qed.
End run_to_row.

(** *** Scrolling the registers *)

Section scrolling.
Context {fmt : Fmt} {decoders : Decoders} {memory : Memory} {W : Type} `{Platform W}.
Context (fingerprint : CPUFingerprint) (requirement : Z) (box : Box).

(** Turns of the wheel over the register panel, each followed by the drawing of the screen. *)
Fixpoint scroll_session (ups : list bool) (ui : UI) (w : W) : option (UI * W) :=
  match ups with
  | [] => Some (ui, w)
  | up :: ups =>
    '(ui, w) ← ui_step fingerprint (WheelRegisters up) ui w;
    '(ui, w) ← ui_step fingerprint (LayoutRegisters requirement box) ui w;
    scroll_session ups ui w
  end.

Definition scrolled (ui : UI) (f : Z -> Z) : UI := set_panel ui (scroll f ui.(ui_panel)).

Lemma scrolled_twice f g ui : scrolled (scrolled ui f) g = scrolled ui (fun offset => g (f offset)).
Proof. unfold scrolled, scroll, set_panel. cbn. by rewrite list_alter_alter. Qed.

Lemma scroll_session_turns ups ui w :
  scroll_session ups ui w = Some (scrolled ui (fold_left (turn requirement box) ups), w).
Proof.
  revert ui. induction ups as [|up ups IH]; intros ui.
  - cbn [scroll_session fold_left]. unfold scrolled, scroll. rewrite list_alter_same by done.
    by destruct ui as [? ? [] ? ? ? ?].
  - cbn [scroll_session]. change (ui_step _ (WheelRegisters up) ui w) with (Some (scrolled ui (wheel_offset up), w)).
    cbn [mbind option_bind]. change (ui_step _ (LayoutRegisters requirement box) ?u w)
      with (Some (scrolled u (fun offset => (SetBox requirement box offset).1), w)). cbn [mbind option_bind].
    by rewrite IH, !scrolled_twice.
Qed.

(** Only the offset of the visible tab counts. *)
Lemma scrolled_ext f g ui : panel_ok ui.(ui_panel) ->
  f (register_offset ui.(ui_panel)) = g (register_offset ui.(ui_panel)) -> scrolled ui f = scrolled ui g.
Proof.
  intros [Ht _ _ _ _ Hl _] E. unfold scrolled, scroll. f_equal. f_equal. apply list_eq. intros j.
  rewrite !list_lookup_alter. case_decide; [|done]. unfold register_offset in E. rewrite nth_lookup in E.
  destruct (_ !! Z.to_nat _) as [x|]; [|done]. cbn in *. by rewrite E.
Qed.

Lemma scrolled_offset f ui : panel_ok ui.(ui_panel) ->
  register_offset (scrolled ui f).(ui_panel) = f (register_offset ui.(ui_panel)).
Proof.
  intros [Ht _ _ _ _ Hl _]. unfold register_offset, scrolled, scroll. cbn.
  destruct (lookup_lt_is_Some_2 ui.(ui_panel).(register_scroll) (Z.to_nat ui.(ui_panel).(register_tab)) ltac:(lia)) as [x Hx].
  by rewrite !nth_lookup, list_lookup_alter_eq, Hx.
Qed.
End scrolling.

(** ** Properties *)

(** The run an event asks the engine for, by its stop offset. *)
Definition requested_run (ui : UI) (action : Action) : option (option Z) :=
  let n := ui.(ui_navigation) in
  match action with
  | Run => Some None
  | RunToRow => (fun row => Some row.(row_offset)) <$> row_at (visible_rows n) n.(cursor)
  | _ => None
  end.

(** The events that show the same trace again: another tab, decoder, syntax or address
    format. *)
Definition redisplays (action : Action) : bool :=
  match action with
  | ToggleSyntax | CycleBackend _ | SelectHistoryTab _ | ToggleAddresses => true
  | _ => false
  end.

Section properties.
Context {fmt : Fmt} {decoders : Decoders} {memory : Memory} {argparse : ArgParse} {W : Type} `{Platform W}.
Context (fingerprint : CPUFingerprint).

Lemma reachable_ok ui w : reachable fingerprint ui w -> ui_ok ui.
Proof. induction 1; [by eapply UI_start_ok | by eapply ui_step_ok]. Qed.

Lemma redisplayed_event action ui w ui' w' row j :
  ui_ok ui -> redisplays action = true -> permitted ui action ->
  ui_step fingerprint action ui w = Some (ui', w') ->
  row_at (visible_rows ui.(ui_navigation)) ui.(ui_navigation).(cursor) = Some row -> row.(row_event) = Some j ->
  ui'.(ui_navigation).(ui_trace) = ui.(ui_navigation).(ui_trace)
  /\ exists row', row_at (visible_rows ui'.(ui_navigation)) ui'.(ui_navigation).(cursor) = Some row'
       /\ row'.(row_event) = Some j.
Proof.
  intros [_ Hn _] Ha Hperm Hstep Hrow Hj.
  assert (forall i u, redecode ui i = Some u -> u.(ui_navigation).(ui_trace) = ui.(ui_navigation).(ui_trace)
    /\ exists row', row_at (visible_rows u.(ui_navigation)) u.(ui_navigation).(cursor) = Some row'
         /\ row'.(row_event) = Some j) as Hre.
  { intros i u. unfold redecode. cbn [set_input ui_navigation].
    case_bool_decide; [intros [= <-]; split; [done | by exists row]|].
    destruct (rebuild_history i ui.(ui_navigation)) as [m|] eqn:E; [|done]. intros [= <-].
    split; [exact (rebuild_history_trace _ _ _ E) | by eapply rebuilt_event]. }
  destruct action; try done; cbn [ui_step permitted] in *; cbv zeta in Hstep.
  - destruct (toggle_syntax ui) as [u|] eqn:E; [|done]. injection Hstep as <- _. unfold toggle_syntax in E. cbv zeta in E.
    destruct (negb _); [injection E as <-; split; [done | by exists row] | by apply Hre in E].
  - destruct (cycle_backend forward ui) as [u|] eqn:E; [|done]. injection Hstep as <- _. by apply Hre in E.
  - injection Hstep as <- _. by eapply selected_tab_event.
  - destruct (toggle_addresses ui) as [u|] eqn:Et; [|done]. injection Hstep as <- _. unfold toggle_addresses in Et.
    cbv zeta in Et. case_bool_decide; [injection Et as <-; split; [done | by exists row]|].
    destruct (rebuild_history _ _) as [m|] eqn:E; [|done]. injection Et as <-.
    split; [exact (rebuild_history_trace _ _ _ E) | by eapply rebuilt_event].
Qed.

(** C4. Invariant of the interface: in every state a session can reach, whatever the user
    does and in whatever order, each of the five tabs shows the history of the current
    trace for its decoder and the syntax in force, with one line per row and one for the
    seed; the cursor, the tabs and the scroll offsets are inside what they index, so the
    selected line exists; every row lies inside the bytes of the trace; the decoder can
    emit the syntax; the step cap is between one and the limit; the flags of the seed
    are status flags. *)
Theorem timeline_invariant ui w :
  reachable fingerprint ui w ->
  ui_ok ui
  /\ (let n := ui.(ui_navigation) in is_Some (history_lines_at n n.(history_tab) !! Z.to_nat n.(cursor)))
  /\ forall tab, 0 <= tab <= Z.of_nat BACKEND_COUNT ->
       let n := ui.(ui_navigation) in
       length (history_lines_at n tab) = S (length (history_rows_at n tab))
       /\ forall row, In row (history_rows_at n tab) ->
            0 <= row.(row_offset) /\ row.(row_offset) + row.(row_length) <= Z.of_nat (length n.(ui_trace).(trace_code)).
Proof.
  intros Hr%reachable_ok. pose proof Hr as [_ [Hp Hs Ht _ Hc] _]. split; [done|]. split.
  - cbv zeta. apply lookup_lt_is_Some_2. destruct (tab_built _ _ _ Hs Ht) as [_ ->]. lia.
  - intros tab Htab n. destruct (tab_built _ n tab Hs Htab) as [(b & s & E) Hl]. split; [exact Hl|].
    intros row Hin. destruct (built_row _ Hp _ _ _ row E Hin) as (H1 & H2 & _). split; [apply Z.lt_le_incl, H1 || apply H1 | exact H2].
Qed.

(** C36. No event of the interface fails: in every reachable state each one returns, a run
    as soon as the engine returns a trace whose input lies in the address space. *)
Theorem timeline_progress ui w action :
  reachable fingerprint ui w -> permitted ui action ->
  (forall code stop_offset, requested_run ui action = Some stop_offset ->
     parse_code_text ui.(ui_input).(ui_code) = Ok code ->
     exists trace w', engine_run fingerprint ui code stop_offset w = Some (trace, w') /\ placed trace) ->
  is_Some (ui_step fingerprint action ui w).
Proof.
  intros Hr%reachable_ok Hperm Hruns. pose proof Hr as [_ [Hp Hs Ht Hpt Hc] _].
  assert (forall i n, n.(ui_trace) = ui.(ui_navigation).(ui_trace) \/ placed n.(ui_trace) ->
    n.(history_tab) = ui.(ui_navigation).(history_tab) ->
    n.(previous_history_tab) = ui.(ui_navigation).(previous_history_tab) -> 0 <= n.(cursor) ->
    exists m, rebuild_history i n = Some m) as Hbuild.
  { intros i n Htr E1 E2 Hcur. destruct (rebuild_history_ok i n) as (m & E & _); [| | |done|by exists m].
    - destruct Htr as [-> | ?]; done.
    - by rewrite E1.
    - by rewrite E1, E2. }
  assert (forall i, is_Some (redecode ui i)) as Hre.
  { intros i. unfold redecode. cbn [set_input ui_navigation]. case_bool_decide; [by eexists|].
    destruct (Hbuild i ui.(ui_navigation)) as [m ->]; [by left | done | done | lia | by eexists]. }
  assert (forall stop_offset, requested_run ui action = Some stop_offset ->
    is_Some (execute fingerprint stop_offset ui w)) as Hexec.
  { intros stop_offset Hrun. unfold execute. cbv zeta. destruct (parse_code_text _) as [code|e] eqn:Ep; [|by eexists].
    destruct (_ && _); [by eexists|]. destruct (Hruns code stop_offset Hrun eq_refl) as (trace & w' & Erun & Htr).
    unfold engine_run in Erun. cbv zeta in Erun. destruct (compose_seed _ _ _ _ _ _) as [seed errors].
    cbn [fst] in Erun. rewrite Erun. cbn [mbind option_bind].
    destruct (Hbuild ui.(ui_input) (set_cursor (set_trace ui.(ui_navigation) trace) 0)) as [m ->];
      [by right | done | done | done | by eexists]. }
  destruct action; cbn [ui_step]; cbv zeta; try (by eexists).
  - by apply Hexec.
  - unfold run_to_selected_row. cbn [requested_run] in Hexec. cbv zeta in *.
    destruct (row_at _ _); [by apply Hexec | by eexists].
  - unfold toggle_syntax. cbv zeta. destruct (negb _); [by eexists|].
    match goal with |- context [redecode ui ?i] => destruct (Hre i) as [u ->]; by eexists end.
  - unfold cycle_backend. cbv zeta. match goal with |- context [redecode ui ?i] => destruct (Hre i) as [u ->]; by eexists end.
  - unfold toggle_addresses. cbv zeta. case_bool_decide; [by eexists|].
    match goal with |- context [rebuild_history ?i ?n] => destruct (Hbuild i n) as [m ->] end;
      [by left | done | done | lia | by eexists].
Qed.

(** C18. Changing what the timeline looks like does not move it: after another tab, decoder,
    syntax or address format, a selected event is still the selected one, at the same
    address and of the same kind, and the panels still show the same registers. *)
Theorem selection_survives ui w action ui' w' row j :
  reachable fingerprint ui w -> redisplays action = true -> permitted ui action ->
  ui_step fingerprint action ui w = Some (ui', w') ->
  let n := ui.(ui_navigation) in
  let n' := ui'.(ui_navigation) in
  row_at (visible_rows n) n.(cursor) = Some row -> row.(row_event) = Some j ->
  exists row', row_at (visible_rows n') n'.(cursor) = Some row' /\ row'.(row_event) = Some j
    /\ row'.(row_rip) = row.(row_rip) /\ row'.(row_kind) = row.(row_kind)
    /\ history_state_at n' (Z.to_nat n'.(cursor)) = history_state_at n (Z.to_nat n.(cursor)).
Proof.
  intros Hr%reachable_ok Ha Hperm Hstep n n' Hrow Hj.
  destruct (redisplayed_event _ _ _ _ _ _ _ Hr Ha Hperm Hstep Hrow Hj) as (Ht & row' & Hrow' & Hj').
  exists row'. split; [done|]. split; [done|].
  assert (ui_ok ui') as Hok'.
  { eapply ui_step_ok; [exact Hr | exact Hperm | exact Hstep|]. rewrite Ht. apply Hr. }
  eapply same_event_shown; [apply Hr | apply Hok' | exact Ht | exact Hrow | exact Hj | exact Hrow' | exact Hj'].
Qed.
(** C21. The scroll offset of the register panel stays inside what it scrolls: once the panel
    is drawn, after any turns of the wheel the offset lies between zero and the row that
    puts the last row on the last line, nothing but the offset of the visible tab has
    changed, exactly the rows from the offset on that fill the box are shown, the next
    turn moves by one row unless the panel is at that end (it never stalls), every row
    can be turned into sight, and no computation leaves the 32-bit range. *)
Theorem scrolling_stays_inside ui w requirement box :
  reachable fingerprint ui w -> on_screen requirement box ->
  exists drawn, ui_step fingerprint (LayoutRegisters requirement box) ui w = Some (drawn, w)
    /\ forall ups, exists ui', scroll_session fingerprint requirement box ups drawn w = Some (ui', w)
    /\ let offset := register_offset ui'.(ui_panel) in
       let next up := match scroll_session fingerprint requirement box [up] ui' w with
                      | Some (u, _) => register_offset u.(ui_panel) | None => -1 end in
       ui' = scrolled ui (fun _ => offset)
       /\ 0 <= offset <= last_offset requirement box
       /\ (forall row, row_shown box (SetBox requirement box offset).2 row <-> offset <= row < offset + height box)
       /\ next true = Z.max 0 (offset - 1) /\ next false = Z.min (last_offset requirement box) (offset + 1)
       /\ (forall row, 0 <= row < requirement -> exists more u, scroll_session fingerprint requirement box more ui' w = Some (u, w)
            /\ row_shown box (SetBox requirement box (register_offset u.(ui_panel))).2 row)
       /\ Forall (fun x => - 2 ^ 31 <= x < 2 ^ 31) (SetBox_values requirement box (offset + 1)).
Proof.
  intros Hr%reachable_ok Hs. pose proof (ok_panel _ Hr) as Hp. eexists. split; [reflexivity|]. intros ups.
  rewrite scroll_session_turns. eexists. split; [reflexivity|]. cbv zeta. fold (scrolled ui (fun o => (SetBox requirement box o).1)).
  rewrite !scrolled_twice, !scrolled_offset by done.
  pose proof (SetBox_range requirement box Hs (register_offset ui.(ui_panel))) as H0.
  pose proof (turns_range requirement box Hs _ ups H0) as Hoff. set (offset := fold_left _ ups _) in *.
  split; [by apply scrolled_ext|]. split; [exact Hoff|].
  split; [intros row; by apply SetBox_shows|].
  rewrite !scroll_session_turns, !scrolled_twice, !scrolled_offset by done. fold offset.
  split; [by apply (turns_up requirement box Hs 1)|]. split; [by apply (turns_down requirement box Hs 1)|].
  split; [|by apply SetBox_fits]. intros row (target & Ht & Hrow)%(row_has_offset requirement box Hs).
  destruct (turns_reach requirement box Hs offset target Hoff Ht) as [more Hm]. exists more. rewrite scroll_session_turns.
  eexists. split; [reflexivity|]. rewrite !scrolled_twice, scrolled_offset by done. fold offset. rewrite Hm.
  by apply SetBox_shows.
Qed.

(** C14. Step and Back replay the run: from the seed, the [k]-th Step shows the registers
    after the [k]-th event inside the input, in the order of execution, whatever tab is
    shown and whatever rows that were not reached lie between; and Back undoes it. *)
Theorem stepping_replays_run ui w k event :
  reachable fingerprint ui w ->
  let n := set_cursor ui.(ui_navigation) 0 in
  visible_rows n <> [] ->
  List.filter (in_input n.(ui_trace)) n.(ui_trace).(execution_events) !! k = Some event ->
  let m := Nat.iter (S k) step n in
  history_state_at n (Z.to_nat n.(cursor)) = n.(ui_trace).(trace_seed)
  /\ history_state_at m (Z.to_nat m.(cursor)) = event.(event_registers)
  /\ back m = Nat.iter k step n.
Proof.
  intros Hr%reachable_ok n Hne Hk m. pose proof (ok_navigation _ Hr) as Hn.
  destruct (event_rows_in_order _ _ k event Hn Hne Hk) as (row & j & Hrow & Hj & He).
  destruct (iter_step ui.(ui_navigation) k row Hrow) as (c & p & Hc & Hp & Hat & Hback & _).
  split; [done|]. unfold m, n. rewrite Hp, Hback, Hc. split; [|done].
  assert (is_event_row row = true) as Her.
  { apply (filter_In is_event_row row (visible_rows ui.(ui_navigation))), list_elem_of_In. by eapply list_elem_of_lookup_2. }
  destruct (shown_event _ _ Hn p row Hat Her) as (j' & e & Hj' & He' & _ & _ & Hstate).
  rewrite Hj in Hj'. injection Hj' as <-. rewrite He in He'. injection He' as <-. exact Hstate.
Qed.
(** C20. A run to a row that stops there stops before it: the stop address is that of the
    selected row, no event starts at it, and the cursor is on the row of the new history
    that holds the address and was not reached; when every row that holds it was
    executed the cursor is at the seed. *)
Theorem run_to_row_stops_before ui w ui' w' row :
  reachable fingerprint ui w ->
  row_at (visible_rows ui.(ui_navigation)) ui.(ui_navigation).(cursor) = Some row ->
  ui_step fingerprint RunToRow ui w = Some (ui', w') ->
  let n := ui'.(ui_navigation) in
  let address := n.(ui_trace).(stop_address) in
  placed n.(ui_trace) -> parse_code_text ui.(ui_input).(ui_code) = Ok ui.(ui_navigation).(ui_trace).(trace_code) ->
  n.(ui_trace).(trace_outcome) = OStopped -> address = base n.(ui_trace) + row.(row_offset) ->
  (forall event, In event n.(ui_trace).(execution_events) -> event.(event_rip) <> address)
  /\ ((exists r, row_at (visible_rows n) n.(cursor) = Some r /\ is_event_row r = false
         /\ r.(row_rip) <= address < row_end r)
      \/ n.(cursor) = 0 /\ forall r, In r (visible_rows n) -> r.(row_rip) <= address < row_end r -> is_event_row r = true).
Proof.
  intros Hr%reachable_ok Hrow Hstep n address Hp Hne Hout Haddr. pose proof Hr as [Hi Hn _].
  cbn [ui_step] in Hstep. apply run_to_selected_row_inv in Hstep as [(text & _ & Hnone) | (row0 & Hrow0 & E)]; [congruence|].
  rewrite Hrow in Hrow0. injection Hrow0 as <-.
  apply execute_inv in E as [(text & _ & _ & Hno) | (code & trace & n0 & _ & Hc & Erun & En & Hi' & _ & Hnav)];
    [by apply Hno in Hne|].
  specialize (Hc ltac:(done)). pose proof (rebuild_history_trace _ _ _ En) as Ht0. cbn [set_cursor set_trace ui_trace] in Ht0.
  assert (n.(ui_trace) = trace) as Ht.
  { unfold n. rewrite Hnav. destruct (_ =? _); [|done].
    match goal with |- context [restore_history_selection ?m ?s] => by destruct (restore_history_selection_eq m s) as [k ->] end. }
  destruct (visible_built _ _ Hn) as (b & s & Eb).
  destruct (built_row _ (nv_placed _ _ Hn) _ _ _ row Eb (row_at_in _ _ _ Hrow)) as (Ho & Hend & _).
  unfold History.size in Hend. rewrite <- Hc in Hend.
  unfold address in *. rewrite Ht in *.
  destruct (engine_run_stopped fingerprint ui code _ w trace w' Hi Erun Hp ltac:(lia) Hout) as (Hcode & Hcne & Hinst & Hno).
  split; [intros event Hin; rewrite Haddr; by apply Hno|].
  unfold n. rewrite Hnav. rewrite wrap_small, Haddr, Z.eqb_refl.
  2: { destruct Hp as [Hb Hf]. unfold History.size in Hf. rewrite Hcode in Hf. unfold in_width. lia. }
  rewrite <- Haddr. apply (restore_address ui.(ui_input)).
  - apply (rebuilt_ok _ (set_cursor (set_trace ui.(ui_navigation) trace) 0)); [done | apply Hn | apply Hn | done | exact En].
  - by apply rebuild_from_seed in En.
  - destruct Hp as [Hb Hf]. unfold History.size in Hf. rewrite Hcode in Hf. unfold in_width. lia.
Qed.
End properties.

(** *** A session *)

Definition example_session_arguments : Arguments := {|
  arg_bytes := Some ("90 90 90" : str); arg_file := None; arg_run := false; arg_syntax := "intel";
  arg_max_steps := None; arg_quick := false; arg_format := "text"; arg_format_used := false;
  arg_pretty := false; arg_track := None; arg_seed := Some ("rbx=7" : str); arg_backend := "zydis";
|}.

Definition example_session_argparse : ArgParse := {| parse_args _ := Ok example_session_arguments |}.

Definition example_platform : Platform nat :=
  linux_platform (H := example_kernel 9) (zydis := example_zydis) 40.

Definition example_step : Action -> UI -> nat -> option (UI * nat) :=
  ui_step (fmt := example_fmt) (decoders := example_decoders) (memory := example_memory) (H := example_platform)
    example_processor_fingerprint.

Definition example_reachable : UI -> nat -> Prop :=
  reachable (fmt := example_fmt) (decoders := example_decoders) (memory := example_memory)
    (argparse := example_session_argparse) (H := example_platform) example_processor_fingerprint.

(** A session: the events, from the start. *)
Fixpoint example_play (actions : list Action) (ui : UI) (w : nat) : option (UI * nat) :=
  match actions with
  | [] => Some (ui, w)
  | action :: actions => '(ui, w) ← example_step action ui w; example_play actions ui w
  end.

Definition example_start : option UI :=
  match CLI_parse (fmt := example_fmt) (argparse := example_session_argparse) [] with
  | Ok cli => Some (UI_start (fmt := example_fmt) false (fun _ => {| opened := false; end_position := 0; data := []; good := false |}) cli)
  | Error _ => None
  end.

Example example_session :
  (fun x => (length (history_rows_at x.1.(ui_navigation) 2), x.1.(ui_navigation).(cursor), reg_get (history_state_at x.1.(ui_navigation) 2) RIP))
    <$> (ui ← example_start; example_play [Run; Step; Step; CycleBackend true] ui 0%nat)
  = Some (3%nat, 2, 0x1002).
Proof. vm_compute. reflexivity. Qed.

Example example_session_row :
  (fun x => (x.1.(ui_navigation).(cursor), x.1.(ui_navigation).(ui_trace).(trace_outcome),
             x.1.(ui_navigation).(ui_trace).(stop_address)))
    <$> (ui ← example_start; example_play [Run; SelectRow 2; RunToRow] ui 0%nat)
  = Some (2, OStopped, 0x1001).
Proof. vm_compute. reflexivity. Qed.

#[local] Instance permitted_dec ui action : Decision (permitted ui action).
Proof. destruct action; cbn [permitted]; apply _. Defined.

#[local] Instance placed_dec trace : Decision (placed trace).
Proof. unfold placed. apply _. Defined.

(** Are the events of a session permitted, and its runs in the address space? *)
Fixpoint example_allowed (actions : list Action) (ui : UI) (w : nat) : bool :=
  match actions with
  | [] => true
  | action :: actions =>
    match example_step action ui w with
    | Some (ui', w') =>
      bool_decide (permitted ui action) && bool_decide (placed ui'.(ui_navigation).(ui_trace))
      && example_allowed actions ui' w'
    | None => false
    end
  end.

Lemma example_play_reachable actions ui w ui' w' :
  example_reachable ui w -> example_allowed actions ui w = true -> example_play actions ui w = Some (ui', w') ->
  example_reachable ui' w'.
Proof.
  revert ui w. induction actions as [|action actions IH]; intros ui w Hr; cbn [example_allowed example_play].
  - by intros _ [= <- <-].
  - destruct (example_step action ui w) as [[u v]|] eqn:E; [|done]. cbn [mbind option_bind].
    rewrite !andb_true_iff, !bool_decide_eq_true. intros [[Hperm Hp] Ha]. apply IH; [|done].
    by eapply reach_step.
Qed.

Lemma example_start_reachable ui : example_start = Some ui -> example_reachable ui 0%nat.
Proof.
  unfold example_start. destruct (CLI_parse _) as [cli|] eqn:E; [|done]. intros [= <-]. by eapply reach_start.
Qed.

(** The states of the concrete session: after a run and two steps, and at the second row. *)
Definition example_state (actions : list Action) : option (UI * nat) := ui ← example_start; example_play actions ui 0%nat.

Lemma example_state_reachable actions ui w :
  (match example_start with Some ui => example_allowed actions ui 0%nat | None => false end) = true ->
  example_state actions = Some (ui, w) -> example_reachable ui w.
Proof.
  unfold example_state. destruct example_start as [u|] eqn:E; [|done]. intros Ha Hp.
  eapply example_play_reachable; [by apply example_start_reachable | exact Ha | exact Hp].
Qed.

Lemma Some_pair_inv {A B} (a c : A) (b d : B) : Some (a, b) = Some (c, d) -> a = c /\ b = d.
Proof. by intros [= -> ->]. Qed.

Lemma timeline_invariant_witness :
  exists ui w, example_state [Run; Step; CycleBackend true; SelectHistoryTab 4] = Some (ui, w) /\ ui_ok (fmt := example_fmt) (decoders := example_decoders) ui.
Proof.
  destruct (example_state [Run; Step; CycleBackend true; SelectHistoryTab 4]) as [[ui w]|] eqn:E; [|vm_compute in E; discriminate].
  exists ui, w. split; [reflexivity|].
  assert (example_reachable ui w) as Hr.
  { apply (example_state_reachable [Run; Step; CycleBackend true; SelectHistoryTab 4] ui w); [vm_compute; reflexivity | exact E]. }
  exact (proj1 (timeline_invariant (fmt := example_fmt) (decoders := example_decoders) (memory := example_memory)
    (argparse := example_session_argparse) (H := example_platform) example_processor_fingerprint ui w Hr)).
Defined.

Definition example_box : Box := {| x_min := 60; x_max := 100; y_min := 4; y_max := 13 |}.

(** Forty rows in a box of ten: fifty turns down stop at row thirty. *)
Lemma scrolling_stays_inside_witness :
  exists ui w ui', example_state [Run] = Some (ui, w)
    /\ scroll_session (fmt := example_fmt) (decoders := example_decoders) (memory := example_memory) (H := example_platform)
         example_processor_fingerprint 40 example_box (replicate 50 false) (scrolled ui (fun o => (SetBox 40 example_box o).1)) w
       = Some (ui', w)
    /\ 0 <= register_offset ui'.(ui_panel) <= 30.
Proof.
  destruct (example_state [Run]) as [[ui w]|] eqn:E; [|vm_compute in E; discriminate].
  assert (example_reachable ui w) as Hr.
  { apply (example_state_reachable [Run] ui w); [vm_compute; reflexivity | exact E]. }
  destruct (scrolling_stays_inside (fmt := example_fmt) (decoders := example_decoders) (memory := example_memory)
    (argparse := example_session_argparse) (H := example_platform) example_processor_fingerprint ui w 40 example_box Hr
    ltac:(unfold on_screen; cbn; lia)) as (drawn & Hd & Hall).
  apply (f_equal (option_map fst)) in Hd. apply (inj Some) in Hd. cbn [fst] in Hd. subst drawn.
  destruct (Hall (replicate 50 false)) as (ui' & Hs & _ & Hrange & _).
  exists ui, w, ui'. split; [reflexivity|]. split; [exact Hs | exact Hrange].
Defined.

Lemma timeline_progress_witness :
  exists ui w, example_state [] = Some (ui, w) /\ is_Some (example_step Run ui w).
Proof.
  destruct (example_state []) as [[ui w]|] eqn:E; [|vm_compute in E; discriminate].
  exists ui, w. split; [reflexivity|]. assert (example_reachable ui w) as Hr.
  { apply (example_state_reachable [] ui w); [vm_compute; reflexivity | exact E]. }
  apply (timeline_progress (fmt := example_fmt) (decoders := example_decoders) (memory := example_memory)
    (argparse := example_session_argparse) (H := example_platform) example_processor_fingerprint ui w Run Hr I).
  intros code stop_offset Hstop Hcode. cbn [requested_run] in Hstop. injection Hstop as <-.
  assert (option_map (fun x => match @parse_code_text example_fmt x.1.(ui_input).(ui_code) with
      | Ok code => match engine_run (fmt := example_fmt) (memory := example_memory) (H := example_platform)
                           example_processor_fingerprint x.1 code None x.2 with
                   | Some (trace, _) => bool_decide (placed trace)
                   | None => false
                   end
      | Error _ => false
      end) (example_state []) = Some true) as Hrun by (vm_compute; reflexivity).
  rewrite E in Hrun. cbn [option_map fst snd] in Hrun. rewrite Hcode in Hrun.
  destruct (engine_run _ _ _ _ _) as [[trace w']|]; [|discriminate]. exists trace, w'. split; [reflexivity|].
  injection Hrun as Hrun. by apply bool_decide_eq_true in Hrun.
Defined.

Lemma selection_survives_witness :
  exists ui w ui' w' row row', example_state [Run; Step; Step] = Some (ui, w) /\ example_step ToggleSyntax ui w = Some (ui', w')
    /\ row_at (visible_rows ui.(ui_navigation)) ui.(ui_navigation).(cursor) = Some row
    /\ row_at (visible_rows ui'.(ui_navigation)) ui'.(ui_navigation).(cursor) = Some row'
    /\ row'.(row_rip) = row.(row_rip).
Proof.
  destruct (example_state [Run; Step; Step]) as [[ui w]|] eqn:E; [|vm_compute in E; discriminate].
  assert (option_map (fun x => match example_step ToggleSyntax x.1 x.2 with Some _ => true | None => false end)
    (example_state [Run; Step; Step]) = Some true) as Hs by (vm_compute; reflexivity).
  assert (option_map (fun x => match row_at (visible_rows x.1.(ui_navigation)) x.1.(ui_navigation).(cursor) with
    | Some row => row_event row | None => None end) (example_state [Run; Step; Step]) = Some (Some 1%nat)) as Hj
    by (vm_compute; reflexivity).
  rewrite E in Hs, Hj. cbn [option_map fst snd] in Hs, Hj.
  destruct (example_step ToggleSyntax ui w) as [[ui' w']|] eqn:Es; [|discriminate].
  destruct (row_at (visible_rows (ui_navigation ui)) (cursor (ui_navigation ui))) as [row|] eqn:Er; [|discriminate].
  injection Hj as Hj. assert (example_reachable ui w) as Hreach.
  { apply (example_state_reachable [Run; Step; Step] ui w); [vm_compute; reflexivity | exact E]. }
  destruct (selection_survives (fmt := example_fmt) (decoders := example_decoders) (memory := example_memory)
    (argparse := example_session_argparse) (H := example_platform) example_processor_fingerprint ui w ToggleSyntax ui' w' row 1
    Hreach eq_refl I Es Er Hj) as (row' & Hr & _ & Hrip & _).
  exists ui, w, ui', w', row, row'. split; [reflexivity|]. split; [exact Es|]. split; [exact Er|].
  split; [exact Hr | exact Hrip].
Defined.

Lemma stepping_replays_run_witness :
  exists ui w, example_state [Run] = Some (ui, w) /\
  let n := set_cursor ui.(ui_navigation) 0 in
  reg_get (history_state_at (Nat.iter 2 step n) (Z.to_nat (Nat.iter 2 step n).(cursor))) RIP = 0x1002.
Proof.
  destruct (example_state [Run]) as [[ui w]|] eqn:E; [|vm_compute in E; discriminate].
  exists ui, w. split; [reflexivity|]. intros n. assert (example_reachable ui w) as Hreach.
  { apply (example_state_reachable [Run] ui w); [vm_compute; reflexivity | exact E]. }
  assert (option_map (fun x => (length (visible_rows x.1.(ui_navigation)),
      (fun event => reg_get event.(event_registers) RIP) <$>
        List.filter (in_input x.1.(ui_navigation).(ui_trace)) x.1.(ui_navigation).(ui_trace).(execution_events) !! 1%nat))
    (example_state [Run]) = Some (3%nat, Some 0x1002)) as Hf by (vm_compute; reflexivity).
  rewrite E in Hf. cbn [option_map fst snd] in Hf. apply Some_pair_inv in Hf as [Hlen Hev].
  destruct (List.filter _ _ !! 1%nat) as [event|] eqn:Ef; [|discriminate]. apply (inj Some) in Hev.
  destruct (stepping_replays_run (fmt := example_fmt) (decoders := example_decoders) (memory := example_memory)
    (argparse := example_session_argparse) (H := example_platform) example_processor_fingerprint ui w 1 event Hreach)
    as (_ & Hst & _); [|exact Ef|].
  - intros Hnil. change (visible_rows (set_cursor ui.(ui_navigation) 0)) with (visible_rows ui.(ui_navigation)) in Hnil.
    rewrite Hnil in Hlen. discriminate Hlen.
  - unfold n. rewrite Hst. exact Hev.
Defined.

Lemma run_to_row_stops_before_witness :
  exists ui w ui' w', example_state [Run; SelectRow 2] = Some (ui, w) /\ example_step RunToRow ui w = Some (ui', w')
    /\ forall event, In event ui'.(ui_navigation).(ui_trace).(execution_events) -> event.(event_rip) <> 0x1001.
Proof.
  destruct (example_state [Run; SelectRow 2]) as [[ui w]|] eqn:E; [|vm_compute in E; discriminate].
  assert (example_reachable ui w) as Hreach.
  { apply (example_state_reachable [Run; SelectRow 2] ui w); [vm_compute; reflexivity | exact E]. }
  assert (option_map (fun x => (row_offset <$> row_at (visible_rows x.1.(ui_navigation)) x.1.(ui_navigation).(cursor),
      (fun y => let t := y.1.(ui_navigation).(ui_trace) in (t.(trace_outcome), t.(stop_address), base t, bool_decide (placed t)))
        <$> example_step RunToRow x.1 x.2,
      bool_decide (@parse_code_text example_fmt x.1.(ui_input).(ui_code) = Ok x.1.(ui_navigation).(ui_trace).(trace_code))))
    (example_state [Run; SelectRow 2])
    = Some (Some 1, Some (OStopped, 0x1001, 0x1000, true), true)) as Hf by (vm_compute; reflexivity).
  rewrite E in Hf. cbn [option_map fst snd] in Hf. apply Some_pair_inv in Hf as [[Hrow Hstep]%pair_equal_spec Hcode].
  destruct (row_at _ _) as [row|] eqn:Er; [|discriminate]. apply (inj Some) in Hrow.
  destruct (example_step RunToRow ui w) as [[ui' w']|] eqn:Es; [|discriminate].
  apply Some_pair_inv in Hstep as [[[Hout Haddr]%pair_equal_spec Hbase]%pair_equal_spec Hp].
  cbn [fst] in Hout, Haddr, Hbase, Hp. apply bool_decide_eq_true in Hp. apply bool_decide_eq_true in Hcode.
  exists ui, w, ui', w'. split; [reflexivity|]. split; [exact Es|]. rewrite <- Haddr.
  apply (run_to_row_stops_before (fmt := example_fmt) (decoders := example_decoders) (memory := example_memory)
    (argparse := example_session_argparse) (H := example_platform) example_processor_fingerprint ui w ui' w' row
    Hreach Er Es Hp Hcode Hout). rewrite Haddr, Hbase, Hrow. exact eq_refl.
Defined.
