(* ===== verification/TraceJson.v ===== *)
(** * TraceJson: the JSON document of a trace ([src/src/trace_json.cpp]).

    A document is a tree of values; its text is made by the glaze library, which is a
    parameter, as are the version strings the build writes into a header.  The last part
    reads a document back, the registers and the code with the parsers of the program
    itself. *)

From S2P Require Import Prelude Text Core X87 Cpu Platform Trace History Seed Engine Cli CodeText Timeline.

Local Open Scope Z_scope.

(** ** Values *)

Inductive Json : Type :=
| JNull
| JBool (b : bool)
| JNumber (z : Z)
| JString (text : str)
| JArray (items : list Json)
| JObject (members : list (str * Json)).

(** A [std::optional] member: [skip_null_members] is off, so nothing is [null]. *)
Definition nullable {A} (f : A -> Json) (value : option A) : Json :=
  match value with Some x => f x | None => JNull end.

(** ** Parameters *)

(** The header [bme_version.hpp] and the platform the program is built for. *)
Inductive TargetOS : Type := OSWindows | OSLinux.

Class Build : Type := {
  BME_GIT_TAG : str;
  BME_GIT_HASH : str;
  BME_GIT_URL : str;
  BME_ZYDIS_VERSION : str; BME_ZYDIS_REVISION : str;
  BME_BDDISASM_VERSION : str; BME_BDDISASM_REVISION : str;
  BME_CAPSTONE_VERSION : str; BME_CAPSTONE_REVISION : str;
  BME_XED_VERSION : str; BME_XED_REVISION : str;
  BME_GLAZE_VERSION : str; BME_GLAZE_REVISION : str;
  target_os : TargetOS;
}.

Definition TRACE_SCHEMA_VERSION : Z := 1.
Definition SERIALIZED_BACKENDS : list DisasmBackend := [Zydis; Bddisasm; Capstone; Xed].

(** ** Texts *)

Definition hex_digit (value : Z) : ascii := nth (Z.to_nat (Z.land value 0xF)) HEX_DIGITS "0"%char.

(** The digits of a value, most significant first. *)
Definition hex_digits (digits : nat) (value : Z) : str :=
  map (fun i => hex_digit (u8 (Z.shiftr value (Z.of_nat (digits - i - 1) * 4)))) (seq 0 digits).

Definition format_hex (digits : nat) (value : Z) : str := "0"%char :: "x"%char :: hex_digits digits value.

Definition format_byte (byte : Z) : str := [hex_digit (Z.shiftr byte 4); hex_digit byte].

Definition format_bytes (bytes : list Z) : str := concat (map format_byte bytes).

Definition format_xmm (value : Z * Z) : str :=
  "0"%char :: "x"%char :: hex_digits 16 value.2 ++ hex_digits 16 value.1.

Definition format_st (value : list Z) : str := "0"%char :: "x"%char :: format_bytes (rev value).

(** ** Names *)

Definition backend_name (backend : DisasmBackend) : str :=
  match backend with Zydis => "zydis" | Bddisasm => "bddisasm" | Capstone => "capstone" | Xed => "xed" end.

Definition syntax_name (syntax : DisasmSyntax) : str := match syntax with ATT => "att" | Intel => "intel" end.

Definition effective_syntax (backend : DisasmBackend) (requested : DisasmSyntax) : DisasmSyntax :=
  if backend_supports backend requested then requested else Intel.

(** The one capture scope there is. *)
Definition capture_scope_name : str := "host_visible_process".

Definition outcome_name (outcome : Outcome) : str :=
  match outcome with
  | OIdle => "idle" | OError => "error" | OFinished => "finished" | OFaulted => "faulted"
  | OAbortedCap => "aborted_cap" | OStopped => "stopped"
  end.

Definition event_kind_name (kind : ExecutionEventKind) : str :=
  match kind with EKFaulted => "faulted" | EKCompleted => "completed" end.

Definition fault_access_name (access : FaultAccess) : option str :=
  match access with
  | FARead => Some ("read" : str) | FAWrite => Some ("write" : str) | FAExecute => Some ("execute" : str)
  | FAUnknown => Some ("unknown" : str) | FANone => None
  end.

Definition history_kind_name (kind : HistoryRowKind) : str :=
  match kind with
  | HKReached => "reached" | HKFaulted => "faulted" | HKNotReached => "not_reached" | HKData => "data"
  end.

Definition relative_offset (trace : Trace) (rip : Z) : option Z :=
  let base := reg_get trace.(trace_seed) RIP in
  if rip <? base then None
  else
    let offset := rip - base in
    if Z.of_nat (length trace.(trace_code)) <=? offset then None else Some offset.

Definition nullable_text (value : str) : option str := match value with [] => None | _ => Some value end.

Section build.
Context {build : Build}.

Definition backend_version (backend : DisasmBackend) : str :=
  match backend with
  | Zydis => BME_ZYDIS_VERSION | Bddisasm => BME_BDDISASM_VERSION
  | Capstone => BME_CAPSTONE_VERSION | Xed => BME_XED_VERSION
  end.

Definition backend_revision (backend : DisasmBackend) : str :=
  match backend with
  | Zydis => BME_ZYDIS_REVISION | Bddisasm => BME_BDDISASM_REVISION
  | Capstone => BME_CAPSTONE_REVISION | Xed => BME_XED_REVISION
  end.

(** ** Producer *)

Record DependencyDocument : Type := {
  dependency_name : str;
  dependency_version : str;
  dependency_revision : str;
}.

Definition DependencyDocument_value (d : DependencyDocument) : Json := JObject [
  ("name" : str, JString d.(dependency_name));
  ("version" : str, JString d.(dependency_version));
  ("revision" : str, JString d.(dependency_revision))].

Record ProducerDocument : Type := {
  producer_name : str;
  producer_version : str;
  producer_git_hash : str;
  producer_repository : str;
  producer_dependencies : list DependencyDocument;
}.

Definition ProducerDocument_init : ProducerDocument := {|
  producer_name := "bme";
  producer_version := BME_GIT_TAG;
  producer_git_hash := BME_GIT_HASH;
  producer_repository := BME_GIT_URL;
  producer_dependencies := [
    {| dependency_name := "zydis"; dependency_version := BME_ZYDIS_VERSION; dependency_revision := BME_ZYDIS_REVISION |};
    {| dependency_name := "bddisasm"; dependency_version := BME_BDDISASM_VERSION; dependency_revision := BME_BDDISASM_REVISION |};
    {| dependency_name := "capstone"; dependency_version := BME_CAPSTONE_VERSION; dependency_revision := BME_CAPSTONE_REVISION |};
    {| dependency_name := "xed"; dependency_version := BME_XED_VERSION; dependency_revision := BME_XED_REVISION |};
    {| dependency_name := "glaze"; dependency_version := BME_GLAZE_VERSION; dependency_revision := BME_GLAZE_REVISION |}];
|}.

Definition ProducerDocument_value (d : ProducerDocument) : Json := JObject [
  ("name" : str, JString d.(producer_name));
  ("version" : str, JString d.(producer_version));
  ("git_hash" : str, JString d.(producer_git_hash));
  ("repository" : str, JString d.(producer_repository));
  ("dependencies" : str, JArray (map DependencyDocument_value d.(producer_dependencies)))].
End build.

(** ** Registers *)

Record GPRDocument : Type := {
  doc_rax : str; doc_rbx : str; doc_rcx : str; doc_rdx : str; doc_rsi : str; doc_rdi : str; doc_rbp : str; doc_rsp : str;
  doc_r8 : str; doc_r9 : str; doc_r10 : str; doc_r11 : str; doc_r12 : str; doc_r13 : str; doc_r14 : str; doc_r15 : str;
  doc_rip : str; doc_rflags : str;
}.

Definition GPRDocument_value (d : GPRDocument) : Json := JObject [
  ("rax" : str, JString d.(doc_rax)); ("rbx" : str, JString d.(doc_rbx)); ("rcx" : str, JString d.(doc_rcx));
  ("rdx" : str, JString d.(doc_rdx)); ("rsi" : str, JString d.(doc_rsi)); ("rdi" : str, JString d.(doc_rdi));
  ("rbp" : str, JString d.(doc_rbp)); ("rsp" : str, JString d.(doc_rsp)); ("r8" : str, JString d.(doc_r8));
  ("r9" : str, JString d.(doc_r9)); ("r10" : str, JString d.(doc_r10)); ("r11" : str, JString d.(doc_r11));
  ("r12" : str, JString d.(doc_r12)); ("r13" : str, JString d.(doc_r13)); ("r14" : str, JString d.(doc_r14));
  ("r15" : str, JString d.(doc_r15)); ("rip" : str, JString d.(doc_rip)); ("rflags" : str, JString d.(doc_rflags))].

Record SSEDocument : Type := {
  doc_xmm : list str;                 (* 16 texts *)
  doc_mxcsr : str;
}.

Definition XMM_KEYS : list str :=
  ["xmm0" : str; "xmm1" : str; "xmm2" : str; "xmm3" : str; "xmm4" : str; "xmm5" : str; "xmm6" : str; "xmm7" : str;
   "xmm8" : str; "xmm9" : str; "xmm10" : str; "xmm11" : str; "xmm12" : str; "xmm13" : str; "xmm14" : str; "xmm15" : str].

(** The members of an array of texts, one name per element. *)
Definition indexed_members (keys : list str) (texts : list str) : list (str * Json) :=
  imap (fun i key => (key, JString (nth i texts []))) keys.

Definition SSEDocument_value (d : SSEDocument) : Json :=
  JObject (indexed_members XMM_KEYS d.(doc_xmm) ++ [("mxcsr" : str, JString d.(doc_mxcsr))]).

Record X87Document : Type := {
  doc_st : list str;                  (* 8 texts *)
  doc_control_word : str;
  doc_status_word : str;
  doc_tag_word_abridged : str;
}.

Definition ST_KEYS : list str :=
  ["st0" : str; "st1" : str; "st2" : str; "st3" : str; "st4" : str; "st5" : str; "st6" : str; "st7" : str].

Definition X87Document_value (d : X87Document) : Json :=
  JObject (indexed_members ST_KEYS d.(doc_st) ++ [
    ("control_word" : str, JString d.(doc_control_word));
    ("status_word" : str, JString d.(doc_status_word));
    ("tag_word_abridged" : str, JString d.(doc_tag_word_abridged))]).

Record RegistersDocument : Type := {
  doc_gpr : GPRDocument;
  doc_sse : SSEDocument;
  doc_x87 : X87Document;
}.

Definition RegistersDocument_value (d : RegistersDocument) : Json := JObject [
  ("gpr" : str, GPRDocument_value d.(doc_gpr));
  ("sse" : str, SSEDocument_value d.(doc_sse));
  ("x87" : str, X87Document_value d.(doc_x87))].

Definition make_registers_document (r : Registers) : RegistersDocument := {|
  doc_gpr := {|
    doc_rax := format_hex 16 (reg_get r RAX); doc_rbx := format_hex 16 (reg_get r RBX);
    doc_rcx := format_hex 16 (reg_get r RCX); doc_rdx := format_hex 16 (reg_get r RDX);
    doc_rsi := format_hex 16 (reg_get r RSI); doc_rdi := format_hex 16 (reg_get r RDI);
    doc_rbp := format_hex 16 (reg_get r RBP); doc_rsp := format_hex 16 (reg_get r RSP);
    doc_r8 := format_hex 16 (reg_get r R8); doc_r9 := format_hex 16 (reg_get r R9);
    doc_r10 := format_hex 16 (reg_get r R10); doc_r11 := format_hex 16 (reg_get r R11);
    doc_r12 := format_hex 16 (reg_get r R12); doc_r13 := format_hex 16 (reg_get r R13);
    doc_r14 := format_hex 16 (reg_get r R14); doc_r15 := format_hex 16 (reg_get r R15);
    doc_rip := format_hex 16 (reg_get r RIP); doc_rflags := format_hex 16 (reg_get r RFLAGS);
  |};
  doc_sse := {| doc_xmm := map format_xmm r.(xmm); doc_mxcsr := format_hex 8 r.(mxcsr) |};
  doc_x87 := {|
    doc_st := map format_st r.(st);
    doc_control_word := format_hex 4 r.(fpu_control_word);
    doc_status_word := format_hex 4 r.(fpu_status_word);
    doc_tag_word_abridged := format_hex 2 r.(fpu_tag_word_abridged);
  |};
|}.

Definition registers_value (r : Registers) : Json := RegistersDocument_value (make_registers_document r).

(** ** Host *)

Record CPUIDRecordDocument : Type := {
  doc_leaf : str; doc_subleaf : str; doc_eax : str; doc_ebx : str; doc_ecx : str; doc_edx : str;
}.

Definition CPUIDRecordDocument_value (d : CPUIDRecordDocument) : Json := JObject [
  ("leaf" : str, JString d.(doc_leaf)); ("subleaf" : str, JString d.(doc_subleaf)); ("eax" : str, JString d.(doc_eax));
  ("ebx" : str, JString d.(doc_ebx)); ("ecx" : str, JString d.(doc_ecx)); ("edx" : str, JString d.(doc_edx))].

Definition make_cpuid_record_document (r : CPUIDRecord) : CPUIDRecordDocument := {|
  doc_leaf := format_hex 8 r.(leaf); doc_subleaf := format_hex 8 r.(subleaf);
  doc_eax := format_hex 8 r.(registers).(eax); doc_ebx := format_hex 8 r.(registers).(ebx);
  doc_ecx := format_hex 8 r.(registers).(ecx); doc_edx := format_hex 8 r.(registers).(edx);
|}.

Definition CPUView_value (f : CPUFingerprint) : Json := JObject [
  ("capture_scope" : str, JString capture_scope_name);
  ("execution_cpu_attributed" : str, JBool f.(execution_cpu_attributed));
  ("vendor" : str, JString f.(vendor));
  ("brand" : str, nullable JString (nullable_text f.(brand)));
  ("family" : str, nullable JNumber f.(family));
  ("model" : str, nullable JNumber f.(model));
  ("stepping" : str, nullable JNumber f.(stepping));
  ("maximum_basic_leaf" : str, JString (format_hex 8 f.(maximum_basic_leaf)));
  ("maximum_extended_leaf" : str, JString (format_hex 8 f.(maximum_extended_leaf)));
  ("physical_address_width" : str, nullable JNumber f.(physical_address_width));
  ("linear_address_width" : str, nullable JNumber f.(linear_address_width));
  ("hypervisor_present" : str, JBool f.(hypervisor_present));
  ("hypervisor_vendor" : str, nullable JString (nullable_text f.(hypervisor_vendor)));
  ("hypervisor_interface" : str, nullable JString (nullable_text f.(hypervisor_interface)));
  ("cpuid_features" : str, JArray (map JString f.(cpuid_features)));
  ("xcr0_supported" : str, nullable (fun x => JString (format_hex 16 x)) f.(xcr0_supported));
  ("xss_supported" : str, nullable (fun x => JString (format_hex 16 x)) f.(xss_supported));
  ("xcr0" : str, nullable (fun x => JString (format_hex 16 x)) f.(xcr0));
  ("enabled_xstate" : str, JArray (map JString f.(enabled_xstate)));
  ("raw_cpuid" : str, JArray (map (fun r => CPUIDRecordDocument_value (make_cpuid_record_document r)) f.(raw_cpuid)))].

Definition HostView_value {build : Build} (f : CPUFingerprint) : Json := JObject [
  ("os" : str, JString (match target_os with OSWindows => "windows" | OSLinux => "linux" end));
  ("architecture" : str, JString "x86_64");
  ("cpu" : str, CPUView_value f)].

(** ** Request *)

Record RequestDocument : Type := {
  doc_input_bytes : str;
  doc_backend : str;
  doc_syntax : str;
  doc_effective_max_steps : Z;
  doc_seed_data_pointers : bool;
  doc_seed : RegistersDocument;
}.

Definition RequestDocument_value (d : RequestDocument) : Json := JObject [
  ("input_bytes" : str, JString d.(doc_input_bytes));
  ("backend" : str, JString d.(doc_backend));
  ("syntax" : str, JString d.(doc_syntax));
  ("effective_max_steps" : str, JNumber d.(doc_effective_max_steps));
  ("seed_data_pointers" : str, JBool d.(doc_seed_data_pointers));
  ("seed" : str, RegistersDocument_value d.(doc_seed))].

Definition make_request_document (trace : Trace) : RequestDocument := {|
  doc_input_bytes := format_bytes trace.(trace_code);
  doc_backend := backend_name trace.(requested_backend);
  doc_syntax := syntax_name trace.(requested_syntax);
  doc_effective_max_steps := trace.(effective_max_steps);
  doc_seed_data_pointers := trace.(seed_data_pointers);
  doc_seed := make_registers_document trace.(requested_seed);
|}.

(** ** Execution *)

Record ExecutionEventDocument : Type := {
  doc_index : Z;
  doc_classification : str;
  doc_event_rip : str;
  doc_offset : option Z;
  doc_registers : RegistersDocument;
}.

Definition ExecutionEventDocument_value (d : ExecutionEventDocument) : Json := JObject [
  ("index" : str, JNumber d.(doc_index));
  ("classification" : str, JString d.(doc_classification));
  ("rip" : str, JString d.(doc_event_rip));
  ("offset" : str, nullable JNumber d.(doc_offset));
  ("registers" : str, RegistersDocument_value d.(doc_registers))].

(** [event] is [trace.execution_events[index]]. *)
Definition make_execution_event_document (trace : Trace) (index : nat) (event : ExecutionEvent) : ExecutionEventDocument := {|
  doc_index := Z.of_nat index;
  doc_classification := event_kind_name event.(event_kind);
  doc_event_rip := format_hex 16 event.(event_rip);
  doc_offset := relative_offset trace event.(event_rip);
  doc_registers := make_registers_document event.(event_registers);
|}.

Definition ExecutionView_value (trace : Trace) : Json := JObject [
  ("seed" : str, registers_value trace.(trace_seed));
  ("events" : str, JArray (imap (fun index event =>
     ExecutionEventDocument_value (make_execution_event_document trace index event)) trace.(execution_events)));
  ("outcome" : str, JString (outcome_name trace.(trace_outcome)));
  ("message" : str, JString trace.(message));
  ("instrumentation_detected" : str, JBool trace.(instrumentation_detected));
  ("stop_reason" : str, JString trace.(stop_reason));
  ("stop_address" : str, if trace.(stop_address) =? 0 then JNull else JString (format_hex 16 trace.(stop_address)));
  ("fault_memory_address" : str, nullable (fun x => JString (format_hex 16 x)) trace.(fault_memory_address));
  ("fault_access" : str, nullable JString (fault_access_name trace.(fault_access)))].

(** ** Decoders *)

Record HistoryRowDocument : Type := {
  doc_address : str;
  doc_row_offset : Z;
  doc_length : Z;
  doc_bytes : str;
  doc_text : str;
  doc_row_classification : str;
  doc_execution_event : option Z;
}.

Definition HistoryRowDocument_value (d : HistoryRowDocument) : Json := JObject [
  ("address" : str, JString d.(doc_address));
  ("offset" : str, JNumber d.(doc_row_offset));
  ("length" : str, JNumber d.(doc_length));
  ("bytes" : str, JString d.(doc_bytes));
  ("text" : str, JString d.(doc_text));
  ("classification" : str, JString d.(doc_row_classification));
  ("execution_event" : str, nullable JNumber d.(doc_execution_event))].

(** The bytes of a row: [std::span{trace.code}.subspan(row.offset, row.length)]. *)
Definition row_bytes (trace : Trace) (row : HistoryRow) : list Z :=
  take (Z.to_nat row.(row_length)) (drop (Z.to_nat row.(row_offset)) trace.(trace_code)).

Definition make_history_row_document (trace : Trace) (row : HistoryRow) : HistoryRowDocument := {|
  doc_address := format_hex 16 row.(row_rip);
  doc_row_offset := row.(row_offset);
  doc_length := row.(row_length);
  doc_bytes := format_bytes (row_bytes trace row);
  doc_text := row.(row_text);
  doc_row_classification := history_kind_name row.(row_kind);
  doc_execution_event := Z.of_nat <$> row.(row_event);
|}.

Record DecoderDocument : Type := {
  decoder_backend : DisasmBackend;
  decoder_requested_syntax : DisasmSyntax;
  rendered_syntax : DisasmSyntax;
  decoder_rows : list HistoryRow;
}.

Definition DecoderDocument_value {build : Build} (trace : Trace) (d : DecoderDocument) : Json := JObject [
  ("backend" : str, JString (backend_name d.(decoder_backend)));
  ("version" : str, JString (backend_version d.(decoder_backend)));
  ("revision" : str, JString (backend_revision d.(decoder_backend)));
  ("requested_syntax" : str, JString (syntax_name d.(decoder_requested_syntax)));
  ("effective_syntax" : str, JString (syntax_name d.(rendered_syntax)));
  ("rows" : str, JArray (map (fun row => HistoryRowDocument_value (make_history_row_document trace row)) d.(decoder_rows)))].

Definition make_decoder_document {decoders : Decoders} (trace : Trace) (backend : DisasmBackend) : option DecoderDocument :=
  let rendered := effective_syntax backend trace.(requested_syntax) in
  rows ← build_history trace backend rendered;
  Some {| decoder_backend := backend; decoder_requested_syntax := trace.(requested_syntax);
          rendered_syntax := rendered; decoder_rows := rows |}.

(** ** The document *)

(** No result when a history has none. *)
Definition TraceDocumentView_value {build : Build} {decoders : Decoders} (trace : Trace) (f : CPUFingerprint) : option Json :=
  documents ← mapM (make_decoder_document trace) SERIALIZED_BACKENDS;
  Some (JObject [
    ("schema_version" : str, JNumber TRACE_SCHEMA_VERSION);
    ("producer" : str, ProducerDocument_value ProducerDocument_init);
    ("host" : str, HostView_value f);
    ("request" : str, RequestDocument_value (make_request_document trace));
    ("execution" : str, ExecutionView_value trace);
    ("decoders" : str, JArray (map (DecoderDocument_value trace) documents))]).

(** *** Writing *)

(** What a call ends in: a value, an error of the serializer with its text, or an
    exception of the stream or of another kind with what it says. *)
Inductive Outcome_of (A : Type) : Type :=
| Returned (value : A)
| IosFailure (what : str)
| OtherException (what : str).

Arguments Returned {A} value.
Arguments IosFailure {A} what.
Arguments OtherException {A} what.

(** The serializer on a stream (the error text of glaze, when there is one, and the state
    of the buffer), and the two calls on the stream after it; [W] is the stream. *)
Class JsonStream (W : Type) : Type := {
  glz_write : bool -> Json -> W -> Outcome_of (option str * bool) * W;
  put_line : W -> Outcome_of unit * W;                (* [put('\n')] and [flush()] *)
  stream_good : W -> bool;
}.

Definition write_trace_json {build : Build} {decoders : Decoders} {W} `{JsonStream W} (trace : Trace) (pretty : bool) (w : W)
    : option (Result unit str * W) :=
  let stream_failed (what : str) : Result unit str := Error (("Trace JSON stream write failed. " : str) ++ what) in
  let failed (what : str) : Result unit str := Error (("Trace JSON serialization failed. " : str) ++ what) in
  match trace.(cpu_fingerprint) with
  | None => Some (Error ("Trace has no CPU fingerprint." : str), w)
  | Some f =>
    document ← TraceDocumentView_value trace f;
    let '(outcome, w) := glz_write pretty document w in
    match outcome with
    | IosFailure what => Some (stream_failed what, w)
    | OtherException what => Some (failed what, w)
    | Returned (Some error, _) => Some (failed error, w)
    | Returned (None, false) => Some (Error ("Trace JSON stream write failed." : str), w)
    | Returned (None, true) =>
      let '(outcome, w) := put_line w in
      match outcome with
      | IosFailure what => Some (stream_failed what, w)
      | OtherException what => Some (failed what, w)
      | Returned _ =>
        Some (if stream_good w then Ok tt else Error ("Trace JSON stream write failed." : str), w)
      end
    end
  end.

(** ** Digits *)

Lemma hex_digit_char value : hex_digit value = hex_char (value mod 16).
Proof. unfold hex_digit, hex_char. change 0xF with (Z.ones 4). by rewrite Z.land_ones. Qed.

Lemma hex_digits_S n value :
  hex_digits (S n) value = hex_digit (u8 (Z.shiftr value (Z.of_nat n * 4))) :: hex_digits n value.
Proof.
  unfold hex_digits. cbn [seq map]. f_equal; [by replace (S n - 0 - 1)%nat with n by lia|].
  rewrite <- seq_shift, map_map. apply map_ext. intros i. by replace (S n - S i - 1)%nat with (n - i - 1)%nat by lia.
Qed.

Lemma length_hex_digits n value : length (hex_digits n value) = n.
Proof. unfold hex_digits. by rewrite length_map, length_seq. Qed.

Lemma hex_digit_isxdigit value : isxdigit (hex_digit value) = true.
Proof. rewrite hex_digit_char. apply isxdigit_hex_char, Z.mod_pos_bound. lia. Qed.

Lemma hex_digits_isxdigit n value : Forall (fun c => isxdigit c = true) (hex_digits n value).
Proof. unfold hex_digits. apply Forall_map, Forall_forall. intros i _. apply hex_digit_isxdigit. Qed.

(** A digit is the nibble it is taken from. *)
Lemma hex_digit_nibble value k :
  0 <= value -> 0 <= k ->
  digit_value 16 (hex_digit (u8 (Z.shiftr value (k * 4)))) = Some (value / 16 ^ k mod 16).
Proof.
  intros Hv Hk. rewrite hex_digit_char, digit_value_hex_char by (apply Z.mod_pos_bound; lia). f_equal.
  rewrite Z.shiftr_div_pow2 by lia. unfold wrap. rewrite (Z.mul_comm k), Z.pow_mul_r by lia.
  change (2 ^ 4) with 16. change (2 ^ 8) with (16 * 16). rewrite Z.rem_mul_r by lia.
  rewrite (Z.mul_comm 16), Z.mod_add by lia. by rewrite Z.mod_mod.
Qed.

Lemma digits_value_hex_digits n value : 0 <= value -> digits_value 16 (hex_digits n value) = value mod 16 ^ Z.of_nat n.
Proof.
  intros Hv. induction n as [|n IH]; [by rewrite Z.mod_1_r|].
  rewrite hex_digits_S, digits_value_cons, length_hex_digits, IH, hex_digit_nibble by lia. cbn [default].
  rewrite Nat2Z.inj_succ, Z.pow_succ_r, (Z.mul_comm 16), Z.rem_mul_r by lia. cbn. lia.
Qed.

(** The two digits of a byte. *)
Lemma format_byte_pair b : in_width 8 b -> format_byte b = hex_pair b.
Proof.
  intros Hb. destruct (nibbles_in_width b Hb) as [Hn _]. unfold format_byte, hex_pair.
  rewrite !hex_digit_char, Z.shiftr_div_pow2 by lia. change (2 ^ 4) with 16. by rewrite (Z.mod_small (b / 16) 16) by exact Hn.
Qed.

Lemma length_format_bytes bytes : length (format_bytes bytes) = (2 * length bytes)%nat.
Proof. unfold format_bytes. induction bytes as [|b bytes IH]; [done|]. cbn. cbn in IH. rewrite IH. lia. Qed.

Lemma format_bytes_isxdigit bytes : Forall (fun c => isxdigit c = true) (format_bytes bytes).
Proof.
  unfold format_bytes. induction bytes as [|b bytes IH]; [constructor|]. cbn [map concat]. apply Forall_app. split; [|exact IH].
  unfold format_byte. repeat constructor; apply hex_digit_isxdigit.
Qed.

(** The digits of bytes, most significant byte first. *)
Lemma digits_value_format_bytes bytes :
  Forall (in_width 8) bytes -> digits_value 16 (format_bytes bytes) = le_value (rev bytes).
Proof.
  induction 1 as [|b bytes Hb Hbs IH]; [done|].
  change (format_bytes (b :: bytes)) with (format_byte b ++ format_bytes bytes).
  rewrite digits_value_app, IH, format_byte_pair, digits_value_hex_pair, length_format_bytes by done.
  cbn [rev]. rewrite le_value_app, length_rev. cbn [le_value].
  rewrite Nat2Z.inj_mul, Z.pow_mul_r by lia. change (16 ^ Z.of_nat 2) with 256. lia.
Qed.

(** ** Reading back

    The texts are seeds and codes: the parsers of the program take them. *)

Section texts.
Context {fmt : Fmt}.

Lemma hex_text_prefixed ds : ds <> [] -> Forall (fun c => isxdigit c = true) ds -> hex_text ("0"%char :: "x"%char :: ds) ds.
Proof. intros Hne Hd. split; [done|]. split; [done|]. right. exists "x"%char. split; [by left | done]. Qed.

Lemma parse_format_hex n value :
  (0 < n <= 16)%nat -> in_width (4 * Z.of_nat n) value -> parse_seed (format_hex n value) = Ok value.
Proof.
  intros Hn [Hv Hlt]. apply parse_seed_spec. right. exists (hex_digits n value).
  assert (digits_value 16 (hex_digits n value) = value) as Hd.
  { rewrite digits_value_hex_digits by done. apply Z.mod_small. rewrite Z.pow_mul_r in Hlt by lia. done. }
  split; [|split; [done|]].
  - apply hex_text_prefixed; [|apply hex_digits_isxdigit]. intros E. apply (f_equal length) in E.
    rewrite length_hex_digits in E. cbn in E. lia.
  - eapply Z.lt_le_trans; [exact Hlt|]. apply Z.pow_le_mono_r; lia.
Qed.

Lemma compose_xmm_quads s value :
  hex_text s (hex_digits 16 value.2 ++ hex_digits 16 value.1) -> in_width 64 value.1 -> in_width 64 value.2 ->
  compose_xmm_seed s = Ok value.
Proof.
  destruct value as [lo hi]. cbn [fst snd]. intros Hs Hlo Hhi. pose proof Hlo as [? ?]. pose proof Hhi as [? ?].
  rewrite (compose_xmm_hex _ _ Hs) by (rewrite length_app, !length_hex_digits; lia).
  rewrite digits_value_app, !digits_value_hex_digits, length_hex_digits by done.
  change (16 ^ Z.of_nat 16) with (2 ^ 64). rewrite (Z.mod_small lo), (Z.mod_small hi) by done.
  rewrite Z.add_comm, Z.mod_add, Z.div_add by done. by rewrite Z.mod_small, Z.div_small by done.
Qed.

Lemma compose_format_xmm value :
  in_width 64 value.1 -> in_width 64 value.2 -> compose_xmm_seed (format_xmm value) = Ok value.
Proof.
  apply compose_xmm_quads, hex_text_prefixed; [done|]. apply Forall_app. split; apply hex_digits_isxdigit.
Qed.

Lemma compose_format_st value :
  length value = 10%nat -> Forall (in_width 8) value -> compose_st_seed (format_st value) = Ok value.
Proof.
  intros Hl Hb. unfold format_st. rewrite (compose_st_hex _ (format_bytes (rev value))).
  - rewrite digits_value_format_bytes, rev_involutive by (by apply Forall_rev). rewrite <- Hl. by rewrite le_bytes_value.
  - apply hex_text_prefixed; [|apply format_bytes_isxdigit]. intros E. apply (f_equal length) in E.
    rewrite length_format_bytes, length_rev, Hl in E. done.
  - rewrite length_format_bytes, length_rev, Hl. lia.
Qed.

Lemma parse_format_bytes bytes :
  bytes <> [] -> Forall (in_width 8) bytes -> parse_code_text (format_bytes bytes) = Ok bytes.
Proof.
  intros Hne Hb. apply parse_code_text_complete. split; [done|]. left. clear Hne.
  induction Hb as [|b bytes Hb Hbs IH]; [constructor|].
  change (format_bytes (b :: bytes)) with (format_byte b ++ format_bytes bytes). rewrite format_byte_pair by done.
  rewrite <- (digits_value_hex_pair b Hb) at 2. unfold hex_pair at 1 2.
  destruct (nibbles_in_width b Hb). cbn [app]. constructor; [by apply isxdigit_hex_char | by apply isxdigit_hex_char | exact IH].
Qed.
End texts.

Definition returned {T} (r : Result T str) : option T := match r with Ok x => Some x | Error _ => None end.

(** The values of an object with exactly these keys, in order. *)
Definition members (keys : list str) (j : Json) : option (list Json) :=
  match j with
  | JObject l => if bool_decide (map fst l = keys) then Some (map snd l) else None
  | _ => None
  end.

Definition read_string (j : Json) : option str := match j with JString s => Some s | _ => None end.
Definition read_number (j : Json) : option Z := match j with JNumber z => Some z | _ => None end.
Definition read_bool (j : Json) : option bool := match j with JBool b => Some b | _ => None end.
Definition read_array {A} (f : Json -> option A) (j : Json) : option (list A) :=
  match j with JArray l => mapM f l | _ => None end.
Definition read_nullable {A} (f : Json -> option A) (j : Json) : option (option A) :=
  match j with JNull => Some None | _ => x ← f j; Some (Some x) end.

(** The value with a given name. *)
Definition read_name {A} (name : A -> str) (all : list A) (j : Json) : option A :=
  s ← read_string j; snd <$> list_find (fun x => name x = s) all.

Section reader.
Context {fmt : Fmt}.

Definition read_hex (j : Json) : option Z := s ← read_string j; returned (parse_seed s).
Definition read_xmm (j : Json) : option (Z * Z) := s ← read_string j; returned (compose_xmm_seed s).
Definition read_st (j : Json) : option (list Z) := s ← read_string j; returned (compose_st_seed s).

(** The code of a request; a trace without code has an empty text. *)
Definition read_code (j : Json) : option (list Z) :=
  s ← read_string j; match s with [] => Some [] | _ => returned (parse_code_text s) end.

Definition GPR_KEYS : list str :=
  ["rax" : str; "rbx" : str; "rcx" : str; "rdx" : str; "rsi" : str; "rdi" : str; "rbp" : str; "rsp" : str; "r8" : str;
   "r9" : str; "r10" : str; "r11" : str; "r12" : str; "r13" : str; "r14" : str; "r15" : str; "rip" : str; "rflags" : str].

Definition read_registers (j : Json) : option Registers :=
  parts ← members ["gpr" : str; "sse" : str; "x87" : str] j;
  general ← members GPR_KEYS (nth 0 parts JNull) ≫= mapM read_hex;
  sse ← members (XMM_KEYS ++ ["mxcsr" : str]) (nth 1 parts JNull);
  vectors ← mapM read_xmm (take 16 sse);
  control ← read_hex (nth 16 sse JNull);
  x87 ← members (ST_KEYS ++ ["control_word" : str; "status_word" : str; "tag_word_abridged" : str]) (nth 2 parts JNull);
  stack ← mapM read_st (take 8 x87);
  words ← mapM read_hex (drop 8 x87);
  Some {| gpr := take 16 general; rip := nth 16 general 0; rflags := nth 17 general 0; xmm := vectors; mxcsr := control;
          st := stack; fpu_control_word := nth 0 words 0; fpu_status_word := nth 1 words 0;
          fpu_tag_word_abridged := nth 2 words 0 |}.

Definition read_cpuid_record (j : Json) : option CPUIDRecord :=
  values ← members ["leaf" : str; "subleaf" : str; "eax" : str; "ebx" : str; "ecx" : str; "edx" : str] j ≫= mapM read_hex;
  match values with
  | [leaf; subleaf; eax; ebx; ecx; edx] =>
    Some {| leaf := leaf; subleaf := subleaf; registers := {| eax := eax; ebx := ebx; ecx := ecx; edx := edx |} |}
  | _ => None
  end.

Definition CPU_KEYS : list str :=
  ["capture_scope" : str; "execution_cpu_attributed" : str; "vendor" : str; "brand" : str; "family" : str; "model" : str;
   "stepping" : str; "maximum_basic_leaf" : str; "maximum_extended_leaf" : str; "physical_address_width" : str;
   "linear_address_width" : str; "hypervisor_present" : str; "hypervisor_vendor" : str; "hypervisor_interface" : str;
   "cpuid_features" : str; "xcr0_supported" : str; "xss_supported" : str; "xcr0" : str; "enabled_xstate" : str;
   "raw_cpuid" : str].

Definition read_fingerprint (j : Json) : option CPUFingerprint :=
  values ← members CPU_KEYS j;
  match values with
  | [_; attributed; vendor; brand; family; model; stepping; basic; extended; physical; linear; present; hv_vendor;
     hv_interface; features; xcr0_s; xss_s; xcr0; enabled; raw] =>
    attributed ← read_bool attributed; vendor ← read_string vendor; brand ← read_nullable read_string brand;
    family ← read_nullable read_number family; model ← read_nullable read_number model;
    stepping ← read_nullable read_number stepping; basic ← read_hex basic; extended ← read_hex extended;
    physical ← read_nullable read_number physical; linear ← read_nullable read_number linear;
    present ← read_bool present; hv_vendor ← read_nullable read_string hv_vendor;
    hv_interface ← read_nullable read_string hv_interface; features ← read_array read_string features;
    xcr0_s ← read_nullable read_hex xcr0_s; xss_s ← read_nullable read_hex xss_s; xcr0 ← read_nullable read_hex xcr0;
    enabled ← read_array read_string enabled; raw ← read_array read_cpuid_record raw;
    Some {| execution_cpu_attributed := attributed; vendor := vendor; brand := default [] brand; family := family;
            model := model; stepping := stepping; maximum_basic_leaf := basic; maximum_extended_leaf := extended;
            physical_address_width := physical; linear_address_width := linear; hypervisor_present := present;
            hypervisor_vendor := default [] hv_vendor; hypervisor_interface := default [] hv_interface;
            cpuid_features := features; xcr0_supported := xcr0_s; xss_supported := xss_s; xcr0 := xcr0;
            enabled_xstate := enabled; raw_cpuid := raw |}
  | _ => None
  end.

Definition all_outcomes : list Outcome := [OIdle; OError; OFinished; OFaulted; OAbortedCap; OStopped].
Definition all_accesses : list FaultAccess := [FARead; FAWrite; FAExecute; FAUnknown].

Definition read_event (j : Json) : option ExecutionEvent :=
  values ← members ["index" : str; "classification" : str; "rip" : str; "offset" : str; "registers" : str] j;
  match values with
  | [_; kind; rip; _; registers] =>
    kind ← read_name event_kind_name [EKCompleted; EKFaulted] kind; rip ← read_hex rip; registers ← read_registers registers;
    Some {| event_rip := rip; event_registers := registers; event_kind := kind |}
  | _ => None
  end.

Definition read_trace (j : Json) : option Trace :=
  parts ← members ["schema_version" : str; "producer" : str; "host" : str; "request" : str; "execution" : str; "decoders" : str] j;
  host ← members ["os" : str; "architecture" : str; "cpu" : str] (nth 2 parts JNull);
  fingerprint ← read_fingerprint (nth 2 host JNull);
  request ← members ["input_bytes" : str; "backend" : str; "syntax" : str; "effective_max_steps" : str;
                     "seed_data_pointers" : str; "seed" : str] (nth 3 parts JNull);
  execution ← members ["seed" : str; "events" : str; "outcome" : str; "message" : str; "instrumentation_detected" : str;
                       "stop_reason" : str; "stop_address" : str; "fault_memory_address" : str; "fault_access" : str]
                      (nth 4 parts JNull);
  match request, execution with
  | [bytes; backend; syntax; steps; pointers; requested],
    [seed; events; outcome; message; instrumented; reason; address; fault_address; access] =>
    bytes ← read_code bytes; backend ← read_name backend_name SERIALIZED_BACKENDS backend;
    syntax ← read_name syntax_name [Intel; ATT] syntax; steps ← read_number steps; pointers ← read_bool pointers;
    requested ← read_registers requested; seed ← read_registers seed; events ← read_array read_event events;
    outcome ← read_name outcome_name all_outcomes outcome; message ← read_string message;
    instrumented ← read_bool instrumented; reason ← read_string reason; address ← read_nullable read_hex address;
    fault_address ← read_nullable read_hex fault_address;
    access ← read_nullable (read_name (fun access => default [] (fault_access_name access)) all_accesses) access;
    Some {| cpu_fingerprint := Some fingerprint; trace_code := bytes; requested_seed := requested;
            requested_backend := backend; requested_syntax := syntax; effective_max_steps := steps;
            seed_data_pointers := pointers; trace_seed := seed; execution_events := events; trace_outcome := outcome;
            message := message; instrumentation_detected := instrumented; stop_reason := reason;
            stop_address := default 0 address; fault_memory_address := fault_address;
            fault_access := default FANone access |}
  | _, _ => None
  end.
End reader.

(** ** Lemmas *)

(** The values of a trace fit their types. *)
Record fingerprint_fits (f : CPUFingerprint) : Prop := {
  fits_basic : in_width 32 f.(maximum_basic_leaf);
  fits_extended : in_width 32 f.(maximum_extended_leaf);
  fits_xcr0_supported : forall x, f.(xcr0_supported) = Some x -> in_width 64 x;
  fits_xss_supported : forall x, f.(xss_supported) = Some x -> in_width 64 x;
  fits_xcr0 : forall x, f.(xcr0) = Some x -> in_width 64 x;
  fits_raw : Forall (fun r => in_width 32 r.(leaf) /\ in_width 32 r.(subleaf) /\ in_width 32 r.(registers).(eax)
    /\ in_width 32 r.(registers).(ebx) /\ in_width 32 r.(registers).(ecx) /\ in_width 32 r.(registers).(edx)) f.(raw_cpuid);
}.

Record trace_fits (trace : Trace) : Prop := {
  fits_fingerprint : forall f, trace.(cpu_fingerprint) = Some f -> fingerprint_fits f;
  fits_code : Forall (in_width 8) trace.(trace_code);
  fits_requested : well_formed trace.(requested_seed);
  fits_seed : well_formed trace.(trace_seed);
  fits_events : Forall (fun e => in_width 64 e.(event_rip) /\ well_formed e.(event_registers)) trace.(execution_events);
  fits_stop : in_width 64 trace.(stop_address);
  fits_fault : forall x, trace.(fault_memory_address) = Some x -> in_width 64 x;
}.

Lemma members_value keys l : map fst l = keys -> members keys (JObject l) = Some (map snd l).
Proof. intros <-. cbn [members]. by rewrite bool_decide_true. Qed.

Lemma mapM_map {A B C} (f : B -> option C) (g : A -> B) (h : A -> C) l :
  Forall (fun x => f (g x) = Some (h x)) l -> mapM f (map g l) = Some (map h l).
Proof. induction 1 as [|x l Hx _ IH]; [done|]. cbn. rewrite Hx. cbn. cbn in IH. by rewrite IH. Qed.

Lemma read_array_map {A} (f : Json -> option A) (g : A -> Json) l :
  Forall (fun x => f (g x) = Some x) l -> read_array f (JArray (map g l)) = Some l.
Proof. intros H. cbn [read_array]. rewrite (mapM_map f g id) by done. by rewrite map_id. Qed.

Lemma read_nullable_value {A} (f : Json -> option A) (g : A -> Json) (o : option A) :
  (forall x, o = Some x -> f (g x) = Some x /\ g x <> JNull) -> read_nullable f (nullable g o) = Some o.
Proof.
  destruct o as [x|]; [|done]. intros H. destruct (H x eq_refl) as [Hf Hn]. cbn [nullable]. unfold read_nullable.
  rewrite Hf. by destruct (g x).
Qed.

Lemma read_nullable_number (o : option Z) : read_nullable read_number (nullable JNumber o) = Some o.
Proof. by apply read_nullable_value. Qed.

Lemma indexed_members_keys keys texts : map fst (indexed_members keys texts) = keys.
Proof.
  unfold indexed_members. apply list_eq. intros i. rewrite list_lookup_fmap, list_lookup_imap. by destruct (keys !! i).
Qed.

Lemma indexed_members_values keys texts :
  length texts = length keys -> map snd (indexed_members keys texts) = map JString texts.
Proof.
  intros Hl. unfold indexed_members. apply list_eq. intros i. rewrite !list_lookup_fmap, list_lookup_imap.
  destruct (keys !! i) as [k|] eqn:Ek; cbn.
  - apply lookup_lt_Some in Ek. destruct (lookup_lt_is_Some_2 texts i) as [s Es]; [lia|].
    rewrite Es. cbn. by rewrite (nth_lookup_Some _ _ _ _ Es).
  - apply lookup_ge_None in Ek. by rewrite (proj2 (lookup_ge_None texts i)) by lia.
Qed.

Section reading.
Context {fmt : Fmt}.

Lemma read_hex_format n value :
  (0 < n <= 16)%nat -> in_width (4 * Z.of_nat n) value -> read_hex (JString (format_hex n value)) = Some value.
Proof. intros Hn Hv. unfold read_hex. cbn [read_string mbind option_bind]. by rewrite parse_format_hex. Qed.

Lemma read_nullable_hex (o : option Z) :
  (forall x, o = Some x -> in_width 64 x) ->
  read_nullable read_hex (nullable (fun x => JString (format_hex 16 x)) o) = Some o.
Proof. intros Ho. apply read_nullable_value. intros x Hx. split; [|done]. apply read_hex_format; [lia | by apply Ho]. Qed.

Lemma read_general r :
  well_formed r ->
  mapM read_hex (map (fun reg => JString (format_hex 16 (reg_get r reg))) all_regs) = Some (map (reg_get r) all_regs).
Proof.
  intros Hr. apply mapM_map, Forall_forall. intros reg _. apply read_hex_format; [lia|]. by apply reg_get_in_width.
Qed.

Lemma read_sse r :
  well_formed r ->
  exists values, members (XMM_KEYS ++ ["mxcsr" : str]) (SSEDocument_value (make_registers_document r).(doc_sse)) = Some values
    /\ mapM read_xmm (take 16 values) = Some r.(xmm) /\ read_hex (nth 16 values JNull) = Some r.(mxcsr).
Proof.
  intros Hr. unfold SSEDocument_value. cbn [make_registers_document doc_sse doc_xmm doc_mxcsr].
  assert (length (map JString (map format_xmm r.(xmm))) = 16%nat) as Hl by (rewrite !length_map; apply Hr).
  eexists. split; [apply members_value; rewrite map_app, indexed_members_keys; reflexivity|].
  rewrite map_app, indexed_members_values by (rewrite length_map; apply Hr). cbn [map snd]. split.
  - rewrite take_app_length' by done. rewrite map_map. rewrite (mapM_map read_xmm _ id), map_id; [done|].
    eapply Forall_impl; [apply Hr|]. intros v [H1 H2]. unfold read_xmm. cbn [read_string mbind option_bind]. by rewrite compose_format_xmm.
  - rewrite app_nth2, Hl by lia. apply read_hex_format; [lia | apply Hr].
Qed.

Lemma read_x87 r :
  well_formed r ->
  exists values, members (ST_KEYS ++ ["control_word" : str; "status_word" : str; "tag_word_abridged" : str])
                   (X87Document_value (make_registers_document r).(doc_x87)) = Some values
    /\ mapM read_st (take 8 values) = Some r.(st)
    /\ mapM read_hex (drop 8 values) = Some [r.(fpu_control_word); r.(fpu_status_word); r.(fpu_tag_word_abridged)].
Proof.
  intros Hr. unfold X87Document_value.
  cbn [make_registers_document doc_x87 doc_st doc_control_word doc_status_word doc_tag_word_abridged].
  assert (length (map JString (map format_st r.(st))) = 8%nat) as Hl by (rewrite !length_map; apply Hr).
  eexists. split; [apply members_value; rewrite map_app, indexed_members_keys; reflexivity|].
  rewrite map_app, indexed_members_values by (rewrite length_map; apply Hr). cbn [map snd]. split.
  - rewrite take_app_length' by done. rewrite map_map. rewrite (mapM_map read_st _ id), map_id; [done|].
    eapply Forall_impl; [apply Hr|]. intros v [H1 H2]. unfold read_st. cbn [read_string mbind option_bind]. by rewrite compose_format_st.
  - rewrite drop_app_length' by done.
    destruct Hr. cbn -[format_hex read_hex]. rewrite !read_hex_format by (lia || assumption). done.
Qed.

(** The register state of a document is the register state it was made from. *)
Lemma read_registers_value r : well_formed r -> read_registers (registers_value r) = Some r.
Proof.
  intros Hr. unfold read_registers, registers_value, RegistersDocument_value.
  erewrite members_value by reflexivity. cbn [map snd mbind option_bind nth].
  assert (members GPR_KEYS (GPRDocument_value (doc_gpr (make_registers_document r)))
    = Some (map (fun reg => JString (format_hex 16 (reg_get r reg))) all_regs)) as -> by (by apply members_value).
  cbn [mbind option_bind]. rewrite (read_general r Hr). cbn [mbind option_bind].
  destruct (read_sse r Hr) as (sse & -> & Hx & Hm). cbn [mbind option_bind]. rewrite Hx. cbn [mbind option_bind].
  rewrite Hm. cbn [mbind option_bind].
  destruct (read_x87 r Hr) as (x87 & -> & Hs & Hw). cbn [mbind option_bind]. rewrite Hs. cbn [mbind option_bind].
  rewrite Hw. cbn [mbind option_bind nth].
  change (take 16 (map (reg_get r) all_regs)) with (map (reg_get r) GPRS).
  rewrite (list_of_16 r.(gpr)); [by destruct r | apply Hr | by intros []].
Qed.

Lemma read_cpuid_record_value r :
  in_width 32 r.(leaf) /\ in_width 32 r.(subleaf) /\ in_width 32 r.(registers).(eax)
  /\ in_width 32 r.(registers).(ebx) /\ in_width 32 r.(registers).(ecx) /\ in_width 32 r.(registers).(edx) ->
  read_cpuid_record (CPUIDRecordDocument_value (make_cpuid_record_document r)) = Some r.
Proof.
  destruct r as [l s [a b c d]]. cbn [leaf subleaf registers eax ebx ecx edx]. intros (H1 & H2 & H3 & H4 & H5 & H6).
  unfold read_cpuid_record, CPUIDRecordDocument_value. erewrite members_value by reflexivity.
  cbn -[read_hex format_hex]. rewrite !read_hex_format by (lia || assumption). done.
Qed.

(** One more value of a document is read. *)
Ltac next_value :=
  cbn [mbind option_bind read_bool read_string read_number];
  first [ rewrite read_nullable_number
        | rewrite read_hex_format by (lia || assumption)
        | rewrite read_nullable_hex by assumption
        | rewrite read_registers_value by assumption ].

Lemma read_strings l : read_array read_string (JArray (map JString l)) = Some l.
Proof. by apply read_array_map, Forall_forall. Qed.

Lemma read_nullable_text_eq s :
  exists o, read_nullable read_string (nullable JString (nullable_text s)) = Some o /\ default [] o = s.
Proof. destruct s; by eexists. Qed.

Lemma read_fingerprint_value f : fingerprint_fits f -> read_fingerprint (CPUView_value f) = Some f.
Proof.
  intros [H1 H2 H3 H4 H5 H6]. unfold read_fingerprint, CPUView_value. erewrite members_value by reflexivity.
  cbn [map snd mbind option_bind read_bool read_string].
  destruct (read_nullable_text_eq (brand f)) as (o1 & -> & E1), (read_nullable_text_eq (hypervisor_vendor f)) as (o2 & E2' & E2),
    (read_nullable_text_eq (hypervisor_interface f)) as (o3 & E3' & E3).
  do 7 next_value. cbn [mbind option_bind read_bool]. rewrite E2'. cbn [mbind option_bind]. rewrite E3'.
  cbn [mbind option_bind]. rewrite read_strings. do 3 next_value. cbn [mbind option_bind]. rewrite read_strings.
  cbn [mbind option_bind]. rewrite <- (map_map make_cpuid_record_document CPUIDRecordDocument_value), map_map.
  rewrite read_array_map; [|eapply Forall_impl; [exact H6 | apply read_cpuid_record_value]].
  cbn [mbind option_bind]. rewrite E1, E2, E3. by destruct f.
Qed.

Lemma read_event_value trace i event :
  in_width 64 event.(event_rip) -> well_formed event.(event_registers) ->
  read_event (ExecutionEventDocument_value (make_execution_event_document trace i event)) = Some event.
Proof.
  intros Hr Hw. unfold read_event, ExecutionEventDocument_value. erewrite members_value by reflexivity.
  cbn [map snd mbind option_bind make_execution_event_document doc_classification doc_event_rip doc_registers].
  assert (read_name event_kind_name [EKCompleted; EKFaulted] (JString (event_kind_name event.(event_kind)))
    = Some event.(event_kind)) as -> by (by destruct (event_kind event)).
  next_value. cbn [mbind option_bind]. change (RegistersDocument_value (make_registers_document ?r)) with (registers_value r).
  next_value. cbn [mbind option_bind]. by destruct event.
Qed.

Lemma read_events trace :
  Forall (fun e => in_width 64 e.(event_rip) /\ well_formed e.(event_registers)) trace.(execution_events) ->
  read_array read_event (JArray (imap (fun index event =>
    ExecutionEventDocument_value (make_execution_event_document trace index event)) trace.(execution_events)))
  = Some trace.(execution_events).
Proof.
  intros H. cbn [read_array]. apply mapM_Some, Forall2_same_length_lookup. rewrite length_imap. split; [done|].
  intros i j event Hj He. rewrite list_lookup_imap, He in Hj. injection Hj as <-. rewrite Forall_lookup in H.
  destruct (H i event He). by apply read_event_value.
Qed.

Lemma read_code_value bytes : Forall (in_width 8) bytes -> read_code (JString (format_bytes bytes)) = Some bytes.
Proof.
  intros Hb. unfold read_code. cbn [read_string mbind option_bind]. destruct bytes as [|b bytes]; [done|].
  assert (returned (parse_code_text (format_bytes (b :: bytes))) = Some (b :: bytes)) as E by (by rewrite parse_format_bytes).
  destruct (format_bytes (b :: bytes)) as [|c s] eqn:Ef; [|exact E]. apply (f_equal length) in Ef.
  rewrite length_format_bytes in Ef. done.
Qed.

(** The names are read back. *)
Lemma read_names :
  (forall backend, read_name backend_name SERIALIZED_BACKENDS (JString (backend_name backend)) = Some backend)
  /\ (forall syntax, read_name syntax_name [Intel; ATT] (JString (syntax_name syntax)) = Some syntax)
  /\ (forall outcome, read_name outcome_name all_outcomes (JString (outcome_name outcome)) = Some outcome)
  /\ forall access, exists o, read_nullable (read_name (fun access => default [] (fault_access_name access)) all_accesses)
        (nullable JString (fault_access_name access)) = Some o /\ default FANone o = access.
Proof.
  split; [by intros []|]. split; [by intros []|]. split; [by intros []|].
  intros []; [exists None | exists (Some FARead) | exists (Some FAWrite) | exists (Some FAExecute) | exists (Some FAUnknown)];
    (split; [vm_compute; reflexivity | done]).
Qed.

Lemma read_stop_address address :
  in_width 64 address ->
  exists o, read_nullable read_hex (if address =? 0 then JNull else JString (format_hex 16 address)) = Some o /\ default 0 o = address.
Proof.
  intros Ha. destruct (Z.eqb_spec address 0) as [->|]; [by eexists|]. exists (Some address). split; [|done].
  change (JString (format_hex 16 address)) with (nullable (fun x => JString (format_hex 16 x)) (Some address)).
  apply read_nullable_hex. by intros x [= <-].
Qed.
End reading.

(** ** Properties *)

Section properties.
Context {build : Build} {decoders : Decoders}.

Lemma decoder_documents trace : placed trace -> is_Some (mapM (make_decoder_document trace) SERIALIZED_BACKENDS).
Proof.
  intros Hp. apply mapM_is_Some_2, Forall_forall. intros backend _. unfold compose, make_decoder_document.
  destruct (build_history_is_Some trace Hp backend (effective_syntax backend trace.(requested_syntax))) as [rows ->]. by eexists.
Qed.

Lemma trace_document trace f : placed trace -> exists document, TraceDocumentView_value trace f = Some document.
Proof.
  intros Hp. destruct (decoder_documents trace Hp) as [documents E]. unfold TraceDocumentView_value. rewrite E. by eexists.
Qed.

(** The document of a trace is read back. *)
Lemma read_trace_document {fmt : Fmt} trace f :
  placed trace -> trace_fits trace -> trace.(cpu_fingerprint) = Some f ->
  exists document, TraceDocumentView_value trace f = Some document /\ read_trace document = Some trace.
Proof.
  intros Hp [Hf Hc Hq Hs He Ha Hm] Efp. destruct (decoder_documents trace Hp) as [documents Ed].
  unfold TraceDocumentView_value. rewrite Ed. cbn [mbind option_bind]. eexists. split; [reflexivity|].
  unfold read_trace. erewrite members_value by reflexivity. cbn [map snd mbind option_bind nth].
  unfold HostView_value. erewrite members_value by reflexivity. cbn [map snd mbind option_bind nth].
  rewrite (read_fingerprint_value f (Hf f Efp)). cbn [mbind option_bind].
  unfold RequestDocument_value, ExecutionView_value. erewrite !members_value by reflexivity. cbn [map snd mbind option_bind].
  cbn [make_request_document doc_input_bytes doc_backend doc_syntax doc_effective_max_steps doc_seed_data_pointers doc_seed].
  destruct read_names as (Nb & Ns & No & Na), (read_stop_address _ Ha) as (address & Ea & Ea').
  pose proof (Na trace.(fault_access)) as Hacc.
  rewrite (read_code_value _ Hc). cbn [mbind option_bind]. rewrite Nb. cbn [mbind option_bind]. rewrite Ns.
  cbn [mbind option_bind read_number read_bool].
  change (RegistersDocument_value (make_registers_document (requested_seed trace))) with (registers_value (requested_seed trace)).
  rewrite (read_registers_value _ Hq). cbn [mbind option_bind]. rewrite (read_registers_value _ Hs). cbn [mbind option_bind].
  rewrite (read_events trace He). cbn [mbind option_bind]. rewrite No. cbn [mbind option_bind read_string read_bool].
  rewrite Ea. cbn [mbind option_bind]. rewrite (read_nullable_hex _ Hm). cbn [mbind option_bind].
  destruct Hacc as (access & Eacc & Hacc). rewrite Eacc. cbn [mbind option_bind].
  rewrite Hacc, Ea', <- Efp. by destruct trace.
Qed.

(** C15. The document of a trace loses nothing: every trace has one, and reading it back (the
    registers with the seed parsers of the program, the code with its code parser, an
    absent member as the default) gives exactly the trace it was made from, fingerprint
    and events included. *)
Theorem trace_document_reads_back {fmt : Fmt} trace f :
  placed trace -> trace_fits trace -> trace.(cpu_fingerprint) = Some f ->
  exists document, TraceDocumentView_value trace f = Some document /\ read_trace document = Some trace.
Proof. apply read_trace_document. Qed.

(** The decoders of a document agree with its events: a decoder renders a syntax it can
    emit; the bytes of a row are the bytes of the code at its offset, as many as its
    length, at its address; and a row that names an event has the address and the offset
    of that event, and is reached exactly when the event completed. *)
Theorem decoder_rows_agree {fmt : Fmt} trace backend d row :
  placed trace -> Forall (in_width 8) trace.(trace_code) ->
  make_decoder_document trace backend = Some d -> In row d.(decoder_rows) ->
  let doc := make_history_row_document trace row in
  backend_supports d.(decoder_backend) d.(rendered_syntax) = true
  /\ parse_code_text doc.(doc_bytes) = Ok (row_bytes trace row)
  /\ Z.of_nat (length (row_bytes trace row)) = doc.(doc_length)
  /\ doc.(doc_address) = format_hex 16 (base trace + doc.(doc_row_offset))
  /\ forall i, doc.(doc_execution_event) = Some i ->
       exists event, trace.(execution_events) !! Z.to_nat i = Some event /\
       let e := make_execution_event_document trace (Z.to_nat i) event in
       e.(doc_index) = i /\ e.(doc_event_rip) = doc.(doc_address) /\ e.(doc_offset) = Some doc.(doc_row_offset)
       /\ (doc.(doc_row_classification) = history_kind_name HKReached <-> e.(doc_classification) = event_kind_name EKCompleted).
Proof.
  intros Hp Hc Hd Hin doc. unfold make_decoder_document in Hd.
  destruct (build_history _ _ _) as [rows|] eqn:E; [|done]. injection Hd as <-. cbn [decoder_rows decoder_backend rendered_syntax] in *.
  destruct (built_row trace Hp _ _ _ row E Hin) as (Ho & Hend & Hrip & _ & Hev). unfold History.size in Hend.
  assert (Z.of_nat (length (row_bytes trace row)) = row.(row_length)) as Hlen.
  { unfold row_bytes. rewrite length_take, length_drop. lia. }
  split; [by destruct backend, (requested_syntax trace)|]. split; [|split; [exact Hlen|split; [cbn; by rewrite Hrip|]]].
  - apply parse_format_bytes; [|unfold row_bytes; by apply Forall_take, Forall_drop].
    intros Hnil. rewrite Hnil in Hlen. cbn in Hlen. lia.
  - intros i Hi. cbn [doc make_history_row_document doc_execution_event] in Hi.
    destruct (row_event row) as [j|] eqn:Ej; [|done]. injection Hi as <-. rewrite Nat2Z.id.
    destruct (Hev j eq_refl) as (event & Hl & Hii & Hrow). exists event. split; [done|]. cbv zeta.
    pose proof (in_input_spec trace event) as [Hin' _]. specialize (Hin' Hii). pose proof Hp as [Hb Hf].
    rewrite code_end_eq in Hin' by done. unfold History.base, History.size in *.
    assert (event.(event_rip) = row.(row_rip)) as Erip.
    { rewrite Hrow. unfold event_row. cbn [row_rip]. symmetry. apply disasm_at_ok; [done | done|].
      rewrite code_end_eq by done. unfold History.base, History.size. lia. }
    split; [done|]. split; [cbn; by rewrite Erip|]. split.
    + cbn [make_execution_event_document doc_offset doc make_history_row_document doc_row_offset]. unfold relative_offset. cbv zeta.
      destruct (Z.ltb_spec (event_rip event) (reg_get (trace_seed trace) RIP)); [lia|].
      destruct (Z.leb_spec (Z.of_nat (length (trace_code trace))) (event_rip event - reg_get (trace_seed trace) RIP)); [lia|].
      f_equal. lia.
    + cbn [make_execution_event_document doc_classification doc make_history_row_document doc_row_classification].
      rewrite Hrow. unfold event_row. cbn [row_kind]. by destruct (event_kind event).
Qed.

(** C34. The document and the interface show the same: in every reachable state of a session
    whose syntax is the one the trace was requested in, the rows of the four decoder tabs
    are those of the four decoders of the document, in the same order. *)
Theorem document_shows_tabs {fmt : Fmt} {memory : Memory} {argparse : ArgParse} {W : Type} `{Platform W} fingerprint ui (w : W) documents :
  reachable fingerprint ui w ->
  ui.(ui_input).(ui_syntax) = ui.(ui_navigation).(ui_trace).(requested_syntax) ->
  mapM (make_decoder_document ui.(ui_navigation).(ui_trace)) SERIALIZED_BACKENDS = Some documents ->
  map decoder_rows documents = ui.(ui_navigation).(history_backend_rows).
Proof.
  intros Hr%reachable_ok Hsyntax Hd. destruct Hr as [_ [_ [_ Hrows _] _ _ _] _]. rewrite Hsyntax in Hrows.
  apply mapM_Some in Hrows, Hd. change all_backends with SERIALIZED_BACKENDS in Hrows.
  revert Hrows. generalize (history_backend_rows (ui_navigation ui)) as rows.
  induction Hd as [|backend d backends documents Hb _ IH]; intros rows Hrows; inversion Hrows as [|? r ? rows' Hr Hrest]; subst; [done|].
  cbn [map]. f_equal; [|by apply IH]. unfold make_decoder_document in Hb.
  change (effective_syntax backend) with (tab_syntax backend) in Hb. rewrite Hr in Hb. by injection Hb as <-.
Qed.

(** A trace is reported as written exactly when every step succeeded: it has a
    fingerprint, the serializer neither failed nor threw and left its buffer good, and
    the line end and the flush left the stream good.  Without a fingerprint nothing is
    written at all, after a failed document no line end is, and every failure has a
    message. *)
Theorem write_trace_json_reports {W} `{JsonStream W} trace pretty (w w' : W) r :
  write_trace_json trace pretty w = Some (r, w') ->
  match trace.(cpu_fingerprint) with
  | None => w' = w /\ r = Error ("Trace has no CPU fingerprint." : str)
  | Some f =>
    exists document, TraceDocumentView_value trace f = Some document /\
    let '(outcome, w1) := glz_write pretty document w in
    (r = Ok tt <-> outcome = Returned (None, true) /\ (put_line w1).1 = Returned tt /\ stream_good w' = true)
    /\ (outcome <> Returned (None, true) -> w' = w1)
    /\ forall e, r = Error e -> e <> []
  end.
Proof.
  unfold write_trace_json. cbv zeta. destruct (cpu_fingerprint trace) as [f|]; [|by intros [= <- <-]].
  destruct (TraceDocumentView_value trace f) as [document|]; [|done]. cbn [mbind option_bind]. intros Hrun. exists document.
  split; [done|]. destruct (glz_write pretty document w) as [outcome w1].
  destruct outcome as [[[error|] good]|what|what]; [| destruct good | |].
  1,3,4,5: injection Hrun as <- <-; split; [by split; [|intros (? & _)]|]; split; [done|]; by intros e [= <-].
  destruct (put_line w1) as [[[]|what|what] w2]; [destruct (stream_good w2) eqn:Eg| |]; injection Hrun as <- <-; cbn [fst].
  - split; [done|]. split; [done|]. by intros e.
  - split; [split; [done | intros (_ & _ & ?); congruence]|]. split; [done|]. by intros e [= <-].
  - split; [by split; [|intros (_ & ? & _)]|]. split; [done|]. by intros e [= <-].
  - split; [by split; [|intros (_ & ? & _)]|]. split; [done|]. by intros e [= <-].
Qed.
End properties.

(** *** A trace of two events *)

#[local] Instance example_build : Build := {|
  BME_GIT_TAG := "v1"; BME_GIT_HASH := "0"; BME_GIT_URL := "url"; BME_ZYDIS_VERSION := "4"; BME_ZYDIS_REVISION := "0";
  BME_BDDISASM_VERSION := "2"; BME_BDDISASM_REVISION := "0"; BME_CAPSTONE_VERSION := "5"; BME_CAPSTONE_REVISION := "0";
  BME_XED_VERSION := "1"; BME_XED_REVISION := "0"; BME_GLAZE_VERSION := "6"; BME_GLAZE_REVISION := "0"; target_os := OSLinux;
|}.

(** A stream that keeps what it is given. *)
#[local] Instance example_stream : JsonStream (list Json) := {|
  glz_write _ j w := (Returned (None, true), w ++ [j]);
  put_line w := (Returned tt, w);
  stream_good _ := true;
|}.

Lemma example_fits : trace_fits example_trace.
Proof.
  assert (well_formed Registers_init) as Hi by apply Registers_init_well_formed.
  split; cbn [example_trace cpu_fingerprint trace_code requested_seed trace_seed execution_events stop_address fault_memory_address].
  - intros f [= <-].
    assert (forall o, bool_decide (in_width 64 (default 0 o)) = true -> forall x, o = Some x -> in_width 64 x) as Hopt.
    { intros o Ho x ->. by apply bool_decide_eq_true in Ho. }
    split; [apply (bool_decide_eq_true_1 (in_width 32 _)); vm_compute; reflexivity
           |apply (bool_decide_eq_true_1 (in_width 32 _)); vm_compute; reflexivity
           |apply Hopt; vm_compute; reflexivity | apply Hopt; vm_compute; reflexivity | apply Hopt; vm_compute; reflexivity|].
    apply (bool_decide_eq_true_1 (Forall _ _)). vm_compute. reflexivity.
  - apply (bool_decide_eq_true_1 (Forall _ _)). vm_compute. reflexivity.
  - done.
  - by apply reg_set_well_formed.
  - repeat constructor; cbn [event_rip event_registers]; try done; by apply reg_set_well_formed.
  - done.
  - done.
Qed.

Lemma trace_document_reads_back_witness :
  exists document, TraceDocumentView_value (decoders := example_decoders) example_trace example_fingerprint = Some document
    /\ read_trace (fmt := example_fmt) document = Some example_trace.
Proof.
  exact (trace_document_reads_back (decoders := example_decoders) (fmt := example_fmt) example_trace example_fingerprint
    example_placed example_fits eq_refl).
Defined.

Lemma decoder_rows_agree_witness :
  exists d row, make_decoder_document (decoders := example_decoders) example_trace Zydis = Some d /\ In row d.(decoder_rows)
    /\ @parse_code_text example_fmt (make_history_row_document example_trace row).(doc_bytes) = Ok (row_bytes example_trace row).
Proof.
  destruct (make_decoder_document (decoders := example_decoders) example_trace Zydis) as [d|] eqn:E; [|vm_compute in E; discriminate].
  assert (option_map (fun d => length d.(decoder_rows)) (make_decoder_document (decoders := example_decoders) example_trace Zydis)
    = Some 4%nat) as Hl by (vm_compute; reflexivity).
  rewrite E in Hl. cbn [option_map] in Hl. destruct (decoder_rows d) as [|row rows] eqn:Er; [discriminate|].
  exists d, row. rewrite Er. split; [reflexivity|]. split; [by left|].
  apply (decoder_rows_agree (decoders := example_decoders) (fmt := example_fmt) example_trace Zydis d row example_placed
    (fits_code _ example_fits) E). rewrite Er. by left.
Defined.

Lemma write_trace_json_reports_witness :
  exists w, write_trace_json (decoders := example_decoders) example_trace false [] = Some (Ok tt, w) /\ length w = 1%nat.
Proof.
  destruct (write_trace_json (decoders := example_decoders) example_trace false []) as [[r w]|] eqn:E; [|vm_compute in E; discriminate].
  pose proof (write_trace_json_reports (decoders := example_decoders) example_trace false [] w r E) as (document & _ & H).
  assert (option_map (fun x => length x.2) (write_trace_json (decoders := example_decoders) example_trace false []) = Some 1%nat) as Hl
    by (vm_compute; reflexivity).
  rewrite E in Hl. cbn [option_map snd] in Hl. injection Hl as Hl. exists w. split; [|exact Hl].
  destruct H as (Hok & _). rewrite (proj2 Hok); [reflexivity|]. split; [reflexivity|]. by split.
Defined.

Lemma document_shows_tabs_witness :
  exists ui w documents, example_state [Run] = Some (ui, w)
    /\ mapM (make_decoder_document (decoders := example_decoders) ui.(ui_navigation).(ui_trace)) SERIALIZED_BACKENDS = Some documents
    /\ map decoder_rows documents = ui.(ui_navigation).(history_backend_rows).
Proof.
  destruct (example_state [Run]) as [[ui w]|] eqn:E; [|vm_compute in E; discriminate].
  assert (example_reachable ui w) as Hreach.
  { apply (example_state_reachable [Run] ui w); [vm_compute; reflexivity | exact E]. }
  assert (option_map (fun x => (bool_decide (x.1.(ui_input).(ui_syntax) = x.1.(ui_navigation).(ui_trace).(requested_syntax)),
     match mapM (make_decoder_document (decoders := example_decoders) x.1.(ui_navigation).(ui_trace)) SERIALIZED_BACKENDS with
     | Some _ => true | None => false end)) (example_state [Run]) = Some (true, true)) as Hf by (vm_compute; reflexivity).
  rewrite E in Hf. cbn [option_map fst] in Hf. apply Some_pair_inv in Hf as [Hs Hd]. apply bool_decide_eq_true in Hs.
  destruct (mapM _ SERIALIZED_BACKENDS) as [documents|] eqn:Ed; [|discriminate].
  exists ui, w, documents. split; [reflexivity|]. split; [exact Ed|].
  exact (document_shows_tabs (decoders := example_decoders) (fmt := example_fmt) (memory := example_memory)
    (argparse := example_session_argparse) (H := example_platform) example_processor_fingerprint ui w documents Hreach Hs Ed).
Defined.
