(* ===== verification/Widths.v ===== *)
(** * Widths: every value of a trace fits its type.

    A platform whose system answers in the widths of its interface gives results in the
    widths of [Registers]; so do the processor and the engine, and the JSON document of
    such a trace loses nothing. *)

From S2P Require Import Prelude Text Core X87 Cpu Trace Platform Linux WindowsProcess Windows History Seed Engine Cli CodeText Timeline TraceJson.

Local Open Scope Z_scope.

(** ** Results *)

Definition step_fits (s : PlatformStep) : Prop := in_width 64 s.(step_rip) /\ well_formed s.(step_registers).

Record result_fits (r : PlatformRunResult) : Prop := {
  rf_seed : well_formed r.(result_seed);
  rf_steps : Forall step_fits r.(result_steps);
  rf_stop : in_width 64 r.(result_stop_address);
  rf_fault : forall x, r.(result_fault_memory_address) = Some x -> in_width 64 x;
}.

Lemma set_error_fits r outcome error : result_fits r -> result_fits (set_error r outcome error).
Proof. by intros []. Qed.

Lemma set_seed_fits r s : result_fits r -> well_formed s -> result_fits (set_seed r s).
Proof. by intros []. Qed.

Lemma set_outcome_fits r outcome : result_fits r -> result_fits (set_outcome r outcome).
Proof. by intros []. Qed.

Lemma set_stopped_fits r at_target address : result_fits r -> in_width 64 address -> result_fits (set_stopped r at_target address).
Proof. by intros []. Qed.

Lemma add_step_fits r s : result_fits r -> step_fits s -> result_fits (add_step r s).
Proof. intros [H1 H2 H3 H4] Hs. split; try done. apply Forall_app. by split; [|constructor]. Qed.

Lemma set_faulted_fits r name address memory access :
  result_fits r -> in_width 64 address -> (forall x, memory = Some x -> in_width 64 x) ->
  result_fits (set_faulted r name address memory access).
Proof. by intros []. Qed.

Create HintDb widths.

#[local] Hint Resolve set_error_fits set_seed_fits set_outcome_fits set_stopped_fits add_step_fits : widths.

Lemma prepared_fits request instrumented go_on result :
  well_formed request.(request_seed) ->
  prepare_platform_run request instrumented PlatformRunResult_init = (go_on, result) -> result_fits result.
Proof.
  intros Hs. assert (result_fits (set_seed PlatformRunResult_init request.(request_seed))) as H0 by (by split).
  unfold prepare_platform_run. destruct (request_code request); [intros [= _ <-]; auto with widths|].
  destruct (match request_stop_offset request with Some _ => _ | None => _ end); [intros [= _ <-]; auto with widths|].
  destruct instrumented; intros [= _ <-]; by destruct H0.
Qed.

(** ** Snapshots *)

Definition bytes_fit (bytes : list Z) : Prop := Forall (in_width 8) bytes.

Lemma bytes_at_fit bytes o n : bytes_fit bytes -> bytes_fit (bytes_at bytes o n).
Proof. intros H. unfold bytes_at. by apply Forall_take, Forall_drop. Qed.

Lemma length_bytes_at bytes o n : (o + n <= length bytes)%nat -> length (bytes_at bytes o n) = n.
Proof. intros H. unfold bytes_at. rewrite length_take, length_drop. lia. Qed.

(** The value of at most [n] bytes. *)
Lemma le_value_at_fits bytes o n : bytes_fit bytes -> in_width (8 * Z.of_nat n) (le_value (bytes_at bytes o n)).
Proof.
  intros H. pose proof (le_value_bound _ (bytes_at_fit _ o n H)) as Hb. unfold in_width. split; [lia|].
  eapply Z.lt_le_trans; [apply Hb|]. rewrite Z.pow_mul_r by lia. change (2 ^ 8) with 256. apply Z.pow_le_mono_r; [lia|].
  unfold bytes_at. rewrite length_take. lia.
Qed.

Lemma Forall_imap_all {A B} (f : nat -> A -> B) l (P : B -> Prop) :
  (forall i x, l !! i = Some x -> P (f i x)) -> Forall P (imap f l).
Proof.
  intros H. apply Forall_lookup. intros i y Hy. rewrite list_lookup_imap in Hy.
  destruct (l !! i) as [x|] eqn:E; [|done]. injection Hy as <-. by apply H.
Qed.

(** The recorded stack registers and the tag word of the seed. *)
Lemma write_stack_recorded_fit {A} (put : nat -> list Z -> A -> A) w i values tags area tag_word recorded (P : list Z -> Prop) :
  Forall P values -> Forall P recorded -> Forall P (write_stack put w i values tags area tag_word recorded).2.
Proof.
  intros Hv. revert i area tag_word recorded. induction Hv as [|v values Hp _ IH]; intros i area tag_word recorded Hr;
    cbn [write_stack]; [done|].
  destruct (Z.testbit tags (Z.of_nat i)); apply IH; [by apply Forall_insert | done].
Qed.

Lemma write_stack_tag_fits {A} (put : nat -> list Z -> A -> A) w i values tags area tag_word recorded :
  0 <= w -> in_width w tag_word -> in_width w (write_stack put w i values tags area tag_word recorded).1.2.
Proof.
  intros Hw. revert i area tag_word recorded. induction values as [|v values IH]; intros i area tag_word recorded Ht;
    cbn [write_stack]; [done|].
  destruct (Z.testbit tags (Z.of_nat i)); apply IH; [|done]. apply lor_in_width; [done | done | by apply wrap_in_width].
Qed.

Lemma write_stack_length {A} (put : nat -> list Z -> A -> A) w i values tags area tag_word recorded :
  length (write_stack put w i values tags area tag_word recorded).2 = length recorded.
Proof.
  revert i area tag_word recorded. induction values as [|v values IH]; intros i area tag_word recorded; cbn [write_stack]; [done|].
  destruct (Z.testbit tags (Z.of_nat i)); rewrite IH; [apply length_insert | done].
Qed.

Lemma seed_flags_fit x :
  in_width 64 (Z.lor (Z.lor (Z.land x RFLAGS_STATUS_MASK) RFLAGS_RESERVED_BIT1) RFLAGS_INTERRUPT_FLAG).
Proof.
  assert (in_width 64 (Z.land x RFLAGS_STATUS_MASK)).
  { rewrite Z.land_comm. change RFLAGS_STATUS_MASK with (wrap 64 RFLAGS_STATUS_MASK).
    apply in_width_of_testbit; [done | apply Z.land_nonneg; by left|]. intros n Hn. rewrite Z.land_spec, (in_width_testbit 64) by (done || by apply wrap_in_width).
    done. }
  repeat apply lor_in_width; done.
Qed.

(** ** Linux *)

Record fpregs_fit (f : user_fpregs_struct) : Prop := {
  ff_cwd : in_width 16 f.(cwd);
  ff_swd : in_width 16 f.(swd);
  ff_mxcsr : in_width 32 f.(fp_mxcsr);
  ff_st : bytes_fit f.(st_space);
  ff_st_length : length f.(st_space) = 128%nat;
  ff_xmm : bytes_fit f.(xmm_space);
}.

(** The answers of the kernel are in the widths of its structures. *)
Record linux_typed {W : Type} (H : LinuxKernel W) : Prop := {
  lt_regs : forall child w r, (ptrace_getregs child w).1 = Some r -> forall reg, in_width 64 (r.(user_reg) reg);
  lt_fpregs : forall child w f, (ptrace_getfpregs child w).1 = Some f -> fpregs_fit f;
  lt_siginfo : forall child w i, (ptrace_getsiginfo child w).1 = Some i -> in_width 64 i.(si_addr);
  lt_read : forall n w bytes, (sys_read n w).1 = ReadBytes bytes -> bytes_fit bytes;
}.

Existing Class linux_typed.

Lemma linux_snapshot_fpu_fits f r : fpregs_fit f -> well_formed r -> well_formed (Linux.snapshot_fpu f r).
Proof.
  intros Hf Hr. destruct Hf, Hr. split; cbn [Linux.snapshot_fpu gpr rip rflags xmm mxcsr st fpu_control_word fpu_status_word fpu_tag_word_abridged];
    rewrite ?length_imap; try done.
  - apply Forall_imap_all. intros i x _. split; by apply (le_value_at_fits _ _ 8).
  - apply Forall_imap_all. intros i x Hx. rewrite Forall_lookup in wf_st. destruct (wf_st i x Hx) as [-> _].
    apply lookup_lt_Some in Hx. split; [apply length_bytes_at; lia | by apply bytes_at_fit].
  - apply (wrap_in_width 8). lia.
Qed.

Lemma linux_snapshot_registers_fits g r :
  (forall reg, in_width 64 (g.(user_reg) reg)) -> well_formed r -> well_formed (snapshot_registers g r).
Proof.
  intros Hg Hr. destruct Hr. split; try done; cbn [snapshot_registers gpr rip rflags].
  - apply Forall_map, Forall_forall. intros reg _. apply Hg.
  - apply Hg.
  - apply land_in_width; [done | apply Hg | by apply wrap_in_width].
Qed.

Section linux.
Context {W : Type} `{H : LinuxKernel W} {zydis : ZydisDecoder} (typed : linux_typed H) (patience : nat).

Abbreviation keep := (keeps (fun _ : Linux.State W => True)).

Lemma keep_kernel {A} (f : W -> A * W) (P : A -> Prop) : (forall w, P (f w).1) -> keep (Linux.kernel f) P.
Proof.
  intros Hp s r s' _. unfold Linux.kernel. specialize (Hp s.(Linux.world)). destruct (f _) as [x w]. by intros [= <- _].
Qed.

Lemma keep_read_loop fuel size got : bytes_fit got -> keep (read_loop fuel size got) (fun r => forall bytes, r = Some bytes -> bytes_fit bytes).
Proof.
  revert size got. induction fuel as [|fuel IH]; intros [|size] got Hg; cbn [read_loop];
    try (apply keeps_ret; by intros ? [= <-]); [apply keeps_none|].
  apply keeps_bind with (Q := fun r => forall bytes, r = ReadBytes bytes -> bytes_fit bytes).
  { apply keep_kernel. intros w bytes. apply (lt_read _ typed). }
  intros [[|b bytes]| | |] Hr; [by apply keeps_ret | apply IH | by apply IH | by apply keeps_ret | apply keeps_none].
  apply Forall_app. split; [done | by apply Hr].
Qed.

Lemma keep_finish child result : result_fits result -> keep (finish patience child result) result_fits.
Proof. intros Hr. unfold finish. intros s r s' _ Hrun. split; [done|]. apply finish_result in Hrun. by subst. Qed.

Lemma keep_fail child result error : result_fits result -> keep (Linux.fail patience child result error) result_fits.
Proof. intros Hr. apply keep_finish. auto with widths. Qed.

Lemma keep_read_snapshot child : keep (read_snapshot child Registers_init) (fun r => forall x, r = Some x -> well_formed x).
Proof.
  unfold read_snapshot.
  apply keeps_bind with (Q := fun r => forall x, r = Some x -> forall reg, in_width 64 (x.(user_reg) reg)).
  { apply keep_kernel. intros w x. apply (lt_regs _ typed). }
  intros [g|] Hg; [|by apply keeps_ret].
  apply keeps_bind with (Q := fun r => forall x, r = Some x -> fpregs_fit x).
  { apply keep_kernel. intros w x. apply (lt_fpregs _ typed). }
  intros [f|] Hf; [|by apply keeps_ret]. apply keeps_ret. intros x [= <-].
  apply linux_snapshot_fpu_fits; [by apply Hf|]. apply linux_snapshot_registers_fits; [by apply Hg | apply Registers_init_well_formed].
Qed.

Lemma keep_stop_on_fault child signal info snapshot result :
  in_width 64 info.(si_addr) -> well_formed snapshot -> result_fits result ->
  keep (stop_on_fault patience child signal info snapshot result) result_fits.
Proof.
  intros Hi Hs Hr. unfold stop_on_fault. cbv zeta.
  assert (in_width 64 (reg_get snapshot RIP)) as Hrip by (by apply reg_get_in_width).
  assert (result_fits (add_step result {| step_rip := reg_get snapshot RIP; step_registers := snapshot; step_faulted := true |})) as Hr'.
  { apply add_step_fits; [done|]. by split. }
  destruct (_ || _); [|apply keep_finish, set_faulted_fits; [done | done | apply Hr']].
  keep_next report. apply keep_finish, set_faulted_fits; [done | done|].
  by intros x [= <-].
Qed.

(** What a round gives. *)
Definition round_fits (outcome : PlatformRunResult + Z * PlatformRunResult) : Prop :=
  match outcome with inl r => result_fits r | inr (next_rip, r) => in_width 64 next_rip /\ result_fits r end.

Lemma keep_stop m : keep m result_fits -> keep (r ← m; mret (inl r)) round_fits.
Proof. intros Hm. eapply keeps_bind; [exact Hm|]. intros r Hr. by apply keeps_ret. Qed.

Lemma keep_step request child code_base max_steps previous_rip result :
  in_width 64 previous_rip -> result_fits result ->
  keep (step_once patience request child code_base max_steps previous_rip result) round_fits.
Proof.
  intros Hp Hr. unfold step_once. cbv zeta. keep_next stepped.
  destruct (negb stepped); [by apply keep_stop, keep_fail|].
  keep_next [status|]; [|by apply keep_stop, keep_fail].
  destruct (negb _); [apply keep_stop, keep_finish; destruct Hr; by split|].
  apply keeps_bind with (Q := fun r => forall i, r = Some i -> in_width 64 i.(si_addr)).
  { apply keep_kernel. intros w i. apply (lt_siginfo _ typed). }
  intros [info|] Hi; [|by apply keep_stop, keep_fail]. specialize (Hi info eq_refl).
  eapply keeps_bind; [apply keep_read_snapshot|]. intros [snapshot|] Hs; [|by apply keep_stop, keep_fail].
  specialize (Hs snapshot eq_refl). destruct (_ && is_software_breakpoint _ _ _); [by apply keep_stop, keep_finish, set_stopped_fits|].
  destruct (_ || _); [by apply keep_stop, keep_stop_on_fault|].
  assert (in_width 64 snapshot.(rip)) as Hrip by apply Hs.
  assert (result_fits (add_step result {| step_rip := previous_rip; step_registers := snapshot; step_faulted := false |})) as Hr'
    by (by apply add_step_fits).
  destruct (_ && _); [by apply keep_stop, keep_finish, set_stopped_fits|].
  destruct (_ || _); [by apply keep_stop, keep_finish, set_outcome_fits|].
  destruct (_ <=? _); [by apply keep_stop, keep_finish, set_outcome_fits | by apply keeps_ret].
Qed.

Lemma keep_step_loop fuel request child code_base max_steps previous_rip result :
  in_width 64 previous_rip -> result_fits result ->
  keep (step_loop patience fuel request child code_base max_steps previous_rip result) result_fits.
Proof.
  revert previous_rip result. induction fuel as [|fuel IH]; intros previous_rip result Hp Hr; [apply keeps_none|].
  cbn [step_loop]. eapply keeps_bind; [by apply keep_step|]. intros [r|[next r]] Hx; [by apply keeps_ret | destruct Hx; by apply IH].
Qed.

Lemma keep_read_all size : keep (read_all patience size) (fun r => forall bytes, r = Some bytes -> bytes_fit bytes).
Proof. apply keep_read_loop. constructor. Qed.

Lemma seed_worker_fits request ready registers fpu_registers seed registers' fpu_registers' recorded :
  well_formed request.(request_seed) -> well_formed seed -> fpregs_fit fpu_registers ->
  in_width 64 ready.(ready_code_base) -> in_width 64 ready.(ready_initial_rsp) -> in_width 64 ready.(ready_data_base) ->
  seed_worker request ready registers fpu_registers seed = (registers', fpu_registers', recorded) -> well_formed recorded.
Proof.
  intros Hq Hs Hf Hb Hrsp Hdata E. unfold seed_worker in E. cbv zeta in E.
  set (fpu := {| cwd := fpu_control_word (request_seed request) |}) in E.
  assert (well_formed (Linux.snapshot_fpu fpu seed)) as Hw by (apply linux_snapshot_fpu_fits; [destruct Hf, Hq; by split | done]).
  pose proof (write_stack_recorded_fit put_st 16 0 (st (request_seed request)) (fpu_tag_word_abridged (request_seed request))
    (st_space fpu) (ftw fpu) (st (Linux.snapshot_fpu fpu seed)) _ (wf_st _ Hq) (wf_st _ Hw)) as Hst.
  pose proof (write_stack_length put_st 16 0 (st (request_seed request)) (fpu_tag_word_abridged (request_seed request))
    (st_space fpu) (ftw fpu) (st (Linux.snapshot_fpu fpu seed))) as Hlen.
  destruct (write_stack _ _ _ _ _ _ _ _) as [[area tag_word] recorded_st]. cbn [snd] in Hst, Hlen. injection E as _ _ <-.
  assert (forall reg, in_width 64 (if request.(request_seed_data_pointers) && (reg_get request.(request_seed) reg =? 0)
    then ready.(ready_data_base) else reg_get request.(request_seed) reg)) as Heff.
  { intros reg. destruct (_ && _); [done | by apply reg_get_in_width]. }
  repeat apply reg_set_well_formed; [|exact Hrsp | apply (Heff RDI) | apply (Heff RSI) | exact Hb | apply seed_flags_fit].
  split; cbn [gpr rip rflags xmm mxcsr st fpu_control_word fpu_status_word fpu_tag_word_abridged]; try apply Hw; try apply Hq; try done.
  - rewrite Hlen. apply Hw.
  - apply (wrap_in_width 8). lia.
Qed.

Lemma keep_trace_worker request child ready result :
  well_formed request.(request_seed) -> result_fits result ->
  in_width 64 ready.(ready_code_base) -> in_width 64 ready.(ready_initial_rsp) -> in_width 64 ready.(ready_data_base) ->
  keep (trace_worker patience request child ready result) result_fits.
Proof.
  intros Hq Hr Hb Hrsp Hdata. unfold trace_worker. cbv zeta.
  keep_next options.
  destruct (negb options); [by apply keep_fail|].
  keep_next registers.
  apply keeps_bind with (Q := fun r => forall f, r = Some f -> fpregs_fit f).
  { destruct registers; [|by apply keeps_ret]. apply keep_kernel. intros w f. apply (lt_fpregs _ typed). }
  intros fpu_registers Hf. destruct registers as [registers|]; [|by apply keep_fail].
  destruct fpu_registers as [fpu_registers|]; [|by apply keep_fail]. specialize (Hf fpu_registers eq_refl).
  destruct (negb _); [by apply keep_fail|].
  destruct (seed_worker request ready registers fpu_registers (result_seed result)) as [[registers' fpu'] recorded] eqn:Es.
  apply seed_worker_fits in Es; [|done|apply Hr|done|done|done|done].
  keep_next ok.
  keep_next set_fpu.
  destruct (negb set_fpu); [apply keep_fail; auto with widths|].
  case_bool_decide; [apply keep_finish; auto with widths | apply keep_step_loop; auto with widths].
Qed.

Lemma keep_start_worker request child result :
  well_formed request.(request_seed) -> result_fits result -> keep (start_worker patience request child result) result_fits.
Proof.
  intros Hq Hr. unfold start_worker. keep_next _.
  eapply keeps_bind; [apply keep_read_all|]. intros [bytes|] Hbytes; [|apply keep_finish; auto with widths].
  specialize (Hbytes bytes eq_refl). cbv zeta. keep_next [status|]; [|apply keep_finish; auto with widths].
  destruct (negb _).
  - keep_next _. apply keeps_ret. auto with widths.
  - destruct (_ || _); [apply keep_finish; auto with widths|]. apply keep_trace_worker; try done; by apply (le_value_at_fits _ _ 8).
Qed.

(** A run of the tracer gives a result in the widths of its types. *)
Lemma linux_result_fits request w result s :
  well_formed request.(request_seed) -> run_platform_steps_linux patience request w = Some (result, s) -> result_fits result.
Proof.
  intros Hq. unfold run_platform_steps_linux, run_linux.
  destruct (prepare_platform_run _ _ _) as [go_on prepared] eqn:E. apply prepared_fits in E; [|done].
  destruct (negb go_on); [by intros [= <- _]|]. intros Hrun. revert Hrun.
  match goal with |- ?m _ = _ -> _ => assert (keep m result_fits) as Hm end; [|intros Hrun; by apply (Hm _ _ _ I Hrun)].
  keep_next piped.
  destruct (negb piped); [apply keeps_ret; auto with widths|].
  keep_next child.
  destruct (child =? -1); [|by apply keep_start_worker].
  keep_next _.
  keep_next _. apply keeps_ret. auto with widths.
Qed.
End linux.

(** ** Windows *)

Record context_fits (c : CONTEXT) : Prop := {
  cf_reg : forall reg, in_width 64 (c.(context_reg) reg);
  cf_mxcsr : in_width 32 c.(MxCsr);
  cf_control : in_width 16 c.(ControlWord);
  cf_status : in_width 16 c.(StatusWord);
  cf_tag : in_width 8 c.(TagWord);
  cf_float : Forall (fun b => length b = 16%nat /\ bytes_fit b) c.(FloatRegisters);
  cf_float_length : length c.(FloatRegisters) = 8%nat;
  cf_xmm : Forall (fun v => in_width 64 v.1 /\ in_width 64 v.2) c.(XmmRegisters);
}.

Definition record_fits (r : EXCEPTION_RECORD) : Prop :=
  in_width 64 r.(ExceptionAddress) /\ Forall (in_width 64) r.(ExceptionInformation).

(** The answers of the system are in the widths of its structures. *)
Record windows_typed {W : Type} (H : WindowsKernel W) : Prop := {
  wt_context : forall thread w c, (GetThreadContext thread w).1 = Some c -> context_fits c;
  wt_raised : forall c w record c', (raise_next c w).1 = Raised record c' -> record_fits record /\ context_fits c';
}.

Existing Class windows_typed.

Record engine_fits (e : Engine) : Prop := {
  ef_base : in_width 64 e.(engine_base);
  ef_previous : in_width 64 e.(previous_rip);
  ef_steps : Forall (fun s => in_width 64 s.(raw_rip) /\ well_formed s.(raw_registers)) e.(raw_steps);
  ef_address : in_width 64 e.(fault_address);
  ef_memory : forall x, e.(engine_fault_memory_address) = Some x -> in_width 64 x;
  ef_registers : well_formed e.(fault_registers);
}.

Lemma nth_fits {A} (P : A -> Prop) i l d : Forall P l -> P d -> P (nth i l d).
Proof. intros Hl Hd. destruct (nth_in_or_default i l d) as [Hin | ->]; [|done]. rewrite Forall_forall in Hl. by apply Hl, list_elem_of_In. Qed.

Lemma windows_snapshot_fpu_fits c r : context_fits c -> well_formed r -> well_formed (Windows.snapshot_fpu c r).
Proof.
  intros Hc Hr. destruct Hc, Hr. split; cbn [Windows.snapshot_fpu gpr rip rflags xmm mxcsr st fpu_control_word fpu_status_word fpu_tag_word_abridged];
    rewrite ?length_imap; try done.
  - apply Forall_imap_all. intros i x _. by apply nth_fits.
  - apply Forall_imap_all. intros i x Hx. apply lookup_lt_Some in Hx.
    assert (length (nth i (FloatRegisters c) []) = 16%nat /\ bytes_fit (nth i (FloatRegisters c) [])) as [Hl Hb].
    { rewrite Forall_forall in cf_float0. apply cf_float0, list_elem_of_In, nth_In. lia. }
    split; [apply length_bytes_at; lia | by apply bytes_at_fit].
Qed.

Lemma windows_snapshot_fits c r : context_fits c -> well_formed r -> well_formed (snapshot c r).
Proof.
  intros Hc Hr. apply windows_snapshot_fpu_fits; [done|]. destruct Hr. split; try done; cbn [gpr rip rflags].
  - apply Forall_map, Forall_forall. intros reg _. apply Hc.
  - apply Hc.
  - apply land_in_width; [done | apply Hc | by apply wrap_in_width].
Qed.

(** What the handler leaves. *)
Definition engine_ok (e : option Engine) : Prop := forall x, e = Some x -> engine_fits x.

Lemma engine_ok_Some e : engine_fits e -> engine_ok (Some e).
Proof. by intros He x [= <-]. Qed.

Lemma bme_veh_fits e thread record context :
  engine_ok e -> record_fits record -> context_fits context -> engine_ok (bme_veh e thread record context).1.2.
Proof.
  intros He [Ha Hi] Hc. unfold bme_veh. destruct e as [e|]; [|done]. specialize (He e eq_refl). pose proof He as [].
  assert (in_width 64 (context_reg context RIP)) as Hrip by apply Hc.
  assert (engine_fits (record_step e {| raw_rip := previous_rip e; raw_registers := snapshot context Registers_init |})) as Hs.
  { split; try done. apply Forall_app. split; [done|]. constructor; [|done]. split; [done|].
    apply windows_snapshot_fits; [done | apply Registers_init_well_formed]. }
  destruct (_ || _); [by apply engine_ok_Some|].
  destruct (_ =? EXCEPTION_SINGLE_STEP).
  - cbv zeta. destruct Hs. repeat split_goal; apply engine_ok_Some; by split.
  - destruct (_ =? EXCEPTION_BREAKPOINT); [apply engine_ok_Some; by split|].
    destruct (fault_memory e record) as [m access] eqn:Em. apply engine_ok_Some. split; try done; cbn [record_fault fault_registers engine_fault_memory_address].
    + intros x ->. unfold fault_memory in Em. destruct (ExceptionInformation record) as [|a [|b l]]; try (injection Em as Em _; by apply ef_memory0).
      inversion Hi as [|? ? _ Hi']; subst. inversion Hi'; subst. destruct (_ || _); [by injection Em as <- _|].
      injection Em as Em _. by apply ef_memory0.
    + by apply windows_snapshot_fits.
Qed.

Lemma engine_result_fits e result : engine_fits e -> result_fits result -> result_fits (engine_result e result).
Proof.
  intros [] []. split; try done. cbn [engine_result result_steps]. apply Forall_app. split; [done|]. apply Forall_app. split.
  - apply Forall_map. by eapply Forall_impl.
  - destruct (bool_decide _); [|constructor]. constructor; [by split | constructor].
Qed.

Lemma effective_pointer_fits request data_base reg :
  well_formed request.(request_seed) -> in_width 64 data_base -> in_width 64 (effective_pointer request data_base reg).
Proof. intros Hq Hd. unfold effective_pointer. destruct (_ && _); [done | by apply reg_get_in_width]. Qed.

Lemma seed_general_fits request base initial_rsp data_base seed :
  well_formed request.(request_seed) -> well_formed seed -> in_width 64 base -> in_width 64 initial_rsp -> in_width 64 data_base ->
  well_formed (seed_general request base initial_rsp data_base seed).
Proof.
  intros Hq Hs Hb Hr Hd. unfold seed_general.
  repeat apply reg_set_well_formed; [done | done | by apply effective_pointer_fits | by apply effective_pointer_fits | done | apply seed_flags_fit].
Qed.

Lemma seed_context_fits request base initial_rsp data_base context seed context' recorded :
  well_formed request.(request_seed) -> context_fits context -> well_formed seed ->
  seed_context request base initial_rsp data_base context seed = (context', recorded) -> well_formed recorded.
Proof.
  intros Hq Hc Hs E. unfold seed_context in E. cbv zeta in E.
  set (c := {| context_reg := context_reg context |}) in E.
  assert (well_formed (Windows.snapshot_fpu c seed)) as Hw by (apply windows_snapshot_fpu_fits; [destruct Hc, Hq; by split | done]).
  pose proof (write_stack_recorded_fit put_float 8 0 (st (request_seed request)) (fpu_tag_word_abridged (request_seed request))
    (FloatRegisters c) (TagWord c) (st (Windows.snapshot_fpu c seed)) _ (wf_st _ Hq) (wf_st _ Hw)) as Hst.
  pose proof (write_stack_length put_float 8 0 (st (request_seed request)) (fpu_tag_word_abridged (request_seed request))
    (FloatRegisters c) (TagWord c) (st (Windows.snapshot_fpu c seed))) as Hlen.
  pose proof (write_stack_tag_fits put_float 8 0 (st (request_seed request)) (fpu_tag_word_abridged (request_seed request))
    (FloatRegisters c) (TagWord c) (st (Windows.snapshot_fpu c seed)) ltac:(lia) ltac:(done)) as Htag.
  destruct (write_stack _ _ _ _ _ _ _ _) as [[area tag_word] recorded_st]. cbn [fst snd] in Hst, Hlen, Htag. injection E as _ <-.
  split; cbn [gpr rip rflags xmm mxcsr st fpu_control_word fpu_status_word fpu_tag_word_abridged]; try apply Hw; try apply Hq; try done.
  rewrite Hlen. apply Hw.
Qed.

Section windows.
Context {W : Type} `{H : WindowsKernel W} `{WindowsSystem W} {memory : Memory} (typed : windows_typed H) (fuel : nat).

Abbreviation keep := (keeps (fun s : Windows.State W => engine_ok s.(g_engine))).

Lemma keep_call {A} (f : W -> A * W) (P : A -> Prop) : (forall w, P (f w).1) -> keep (Windows.kernel f) P.
Proof.
  intros Hp s r s' Hi. unfold Windows.kernel. specialize (Hp s.(Windows.world)). destruct (f _) as [x w]. by intros [= <- <-].
Qed.

Lemma keep_any_call {A} (f : W -> A * W) : keep (Windows.kernel f) (fun _ => True).
Proof. by apply keep_call. Qed.

Lemma keep_logged {A} (f : W -> A * W) call : keep (Windows.logged f call) (fun _ => True).
Proof. intros s r s' Hi. unfold Windows.logged. destruct (f _) as [x w]. by intros [= <- <-]. Qed.

Lemma keep_set_engine e : engine_ok e -> keep (set_engine e) (fun _ => True).
Proof. intros He s r s' _. unfold set_engine. by intros [= _ <-]. Qed.

Lemma keep_get_engine : keep get_engine engine_ok.
Proof. intros s r s' Hi. unfold get_engine. by intros [= <- <-]. Qed.

(** Pass a call that only keeps the engine. *)
Tactic Notation "keep_call" simple_intropattern(x) :=
  apply keeps_bind with (Q := fun _ => True); [first [apply keep_any_call | apply keep_logged] | intros x _].

Lemma keep_free address : keep (vm_free address) (fun _ => True).
Proof. unfold vm_free. destruct (negb _); [apply keep_logged | by apply keeps_ret]. Qed.

Lemma keep_release regions : keep (release_regions regions) (fun _ => True).
Proof. unfold release_regions. do 2 (eapply keeps_bind; [apply keep_free | intros ? _]). apply keep_free. Qed.

Lemma keep_terminate thread : keep (terminate_thread thread) (fun _ => True).
Proof.
  unfold terminate_thread. keep_call terminated. eapply keeps_bind; [|intros ? _; apply keep_logged].
  destruct terminated; [apply keep_logged | by apply keeps_ret].
Qed.

Lemma keep_fail_run regions result error : result_fits result -> keep (Windows.fail regions result error) result_fits.
Proof. intros Hr. unfold Windows.fail. eapply keeps_bind; [apply keep_release|]. intros _ _. apply keeps_ret. auto with widths. Qed.

Lemma keep_fail_thread thread regions result error : result_fits result -> keep (fail_thread thread regions result error) result_fits.
Proof.
  intros Hr. unfold fail_thread. eapply keeps_bind; [apply keep_terminate|]. intros _ _.
  eapply keeps_bind; [apply keep_release|]. intros _ _. eapply keeps_bind; [by apply keep_set_engine|]. intros _ _.
  apply keeps_ret. auto with widths.
Qed.

Lemma keep_run_thread n thread context : keep (run_thread n thread context) (fun _ => True).
Proof.
  revert context. induction n as [|n IH]; intros context; cbn [run_thread]; [apply keeps_none|].
  apply keeps_bind with (Q := fun r => forall record c, r = Raised record c -> record_fits record /\ context_fits c).
  { apply keep_call. intros w record c. apply (wt_raised _ typed). }
  intros [record c| |] Hr; [|by apply keeps_ret|apply keeps_none]. destruct (Hr record c eq_refl) as [Hrec Hc].
  eapply keeps_bind; [apply keep_get_engine|]. intros e He. pose proof (bme_veh_fits e thread record c He Hrec Hc) as Hv.
  destruct (bme_veh e thread record c) as [[disposition e'] c']. cbn [fst snd] in Hv.
  eapply keeps_bind; [by apply keep_set_engine|]. intros _ _. destruct disposition; [apply IH | apply keeps_none].
Qed.

Lemma set_thread_fits e thread context is_active : engine_fits e -> engine_fits (set_thread e thread context is_active).
Proof. by intros []. Qed.

Lemma keep_trace_thread request thread regions e context result :
  engine_fits e -> result_fits result -> keep (trace_thread request thread regions e context result) result_fits.
Proof.
  intros He Hr. unfold trace_thread. keep_call handler. destruct handler as [handler|]; [|by apply keep_fail_thread]. cbv zeta.
  eapply keeps_bind; [by apply keep_set_engine, engine_ok_Some, set_thread_fits|]. intros _ _. keep_call resumed.
  destruct (negb resumed).
  - eapply keeps_bind; [by apply keep_set_engine, engine_ok_Some, set_thread_fits|]. intros _ _. keep_call _. by apply keep_fail_thread.
  - eapply keeps_bind; [apply keep_run_thread|]. intros _ _. keep_call waited. keep_call _.
    destruct (negb waited); [by apply keep_fail_thread|]. keep_call _.
    eapply keeps_bind; [apply keep_get_engine|]. intros [e'|] He'; [|apply keeps_none].
    eapply keeps_bind; [apply keep_release|]. intros _ _. eapply keeps_bind; [by apply keep_set_engine|]. intros _ _.
    apply keeps_ret, engine_result_fits; [by apply He' | done].
Qed.

Lemma keep_prepare_thread request thread regions e initial_rsp data_base result :
  well_formed request.(request_seed) -> engine_fits e -> result_fits result ->
  keep (prepare_thread request thread regions e initial_rsp data_base result) result_fits.
Proof.
  intros Hq He Hr. unfold prepare_thread. keep_call number. cbv zeta.
  eapply keeps_bind; [by apply keep_set_engine, engine_ok_Some, set_thread_fits|]. intros _ _.
  destruct (number =? 0); [by apply keep_fail_thread|].
  apply keeps_bind with (Q := fun r => forall c, r = Some c -> context_fits c).
  { apply keep_call. intros w c. apply (wt_context _ typed). }
  intros [c|] Hc; [|by apply keep_fail_thread]. specialize (Hc c eq_refl).
  eapply keeps_bind; [by apply keep_set_engine, engine_ok_Some, set_thread_fits, set_thread_fits|]. intros _ _.
  destruct (negb _); [by apply keep_fail_thread|].
  destruct (seed_context _ _ _ _ _ _) as [context recorded] eqn:Es. apply seed_context_fits in Es; [|done|done|apply Hr].
  keep_call ok. destruct (negb ok); [apply keep_fail_thread; auto with widths|]. case_bool_decide.
  - eapply keeps_bind; [apply keep_terminate|]. intros _ _. eapply keeps_bind; [apply keep_release|]. intros _ _.
    eapply keeps_bind; [by apply keep_set_engine|]. intros _ _. apply keeps_ret. apply set_stopped_fits; [auto with widths | apply He].
  - apply keep_trace_thread; [by apply set_thread_fits, set_thread_fits | auto with widths].
Qed.

Lemma keep_prepare_code request code_region regions result :
  well_formed request.(request_seed) -> result_fits result -> keep (prepare_code request code_region regions result) result_fits.
Proof.
  intros Hq Hr. unfold prepare_code. cbv zeta. keep_call _. unfold vm_protect. keep_call protected.
  destruct (negb protected); [by apply keep_fail_run|]. keep_call flushed. destruct (negb flushed); [by apply keep_fail_run|].
  set (code_base := u64 _). set (rsp := Z.land _ _). set (data_base := u64 _).
  assert (in_width 64 code_base) as Hb by (by apply wrap_in_width).
  assert (in_width 64 rsp) as Hrsp by (apply land_in_width; [done | apply wrap_in_width; lia | by apply wrap_in_width]).
  assert (engine_fits (new_engine request code_base)) as He by (split; try done; apply Registers_init_well_formed).
  eapply keeps_bind; [by apply keep_set_engine, engine_ok_Some|]. intros _ _.
  assert (result_fits (set_seed result (seed_general request code_base rsp data_base (result_seed result)))) as Hr'.
  { apply set_seed_fits; [done|]. apply seed_general_fits; [done | apply Hr | done | done | by apply wrap_in_width]. }
  keep_call thread. destruct thread as [thread|]; [by apply keep_prepare_thread|].
  eapply keeps_bind; [by apply keep_set_engine|]. intros _ _. by apply keep_fail_run.
Qed.

Lemma keep_prepare_regions request code_region regions result :
  well_formed request.(request_seed) -> result_fits result -> keep (prepare_regions request code_region regions result) result_fits.
Proof.
  intros Hq Hr. unfold prepare_regions. destruct (_ || _); [by apply keep_fail_run|].
  assert (forall a n p, keep (vm_commit a n p) (fun _ => True)) as Hcommit.
  { intros a n p. unfold vm_commit. keep_call r. by apply keeps_ret. }
  assert (forall a b, keep a (fun _ => True) -> keep b (fun _ => True) -> keep (and_then a b) (fun _ => True)) as Hand.
  { intros a b Ha Hb. unfold and_then. eapply keeps_bind; [exact Ha|]. intros [] _; [exact Hb | by apply keeps_ret]. }
  apply keeps_bind with (Q := fun _ => True); [repeat apply Hand; apply Hcommit|]. intros committed _.
  destruct (negb committed); [by apply keep_fail_run | by apply keep_prepare_code].
Qed.

(** A run of the tracer gives a result in the widths of its types. *)
Lemma windows_result_fits request w result s :
  well_formed request.(request_seed) -> run_platform_steps_windows fuel request w = Some (result, s) -> result_fits result.
Proof.
  intros Hq. unfold run_platform_steps_windows, run_windows. destruct (instrumentation_detected _ _) as [instrumented|]; [|done].
  destruct (prepare_platform_run _ _ _) as [go_on prepared] eqn:E. apply prepared_fits in E; [|done].
  destruct (negb go_on); [by intros [= <- _]|]. cbv zeta. intros Hrun. revert Hrun.
  match goal with |- ?m ?s0 = _ -> _ => assert (keep m result_fits) as Hm; [|intros Hrun; by apply (Hm s0 _ _ ltac:(done) Hrun)] end.
  unfold vm_alloc, vm_alloc_at. keep_call buffer. keep_call stack. keep_call data. by apply keep_prepare_regions.
Qed.
End windows.

(** ** The processor *)

Definition registers_fit (r : CPUIDRegisters) : Prop :=
  in_width 32 r.(eax) /\ in_width 32 r.(ebx) /\ in_width 32 r.(ecx) /\ in_width 32 r.(edx).

(** The answers of the processor are in the widths of its registers. *)
Record source_typed {S : Type} (H : CPUQuerySource S) : Prop := {
  st_cpuid : forall l s source, registers_fit (cpuid l s source).1;
  st_xgetbv : forall index source, in_width 64 (xgetbv index source).1;
}.

Existing Class source_typed.

Section processor.
Context {S : Type} `{H : CPUQuerySource S} (typed : source_typed H).

Definition log_fits (log : Log (S := S)) : Prop :=
  Forall (fun r => in_width 32 r.(leaf) /\ in_width 32 r.(subleaf) /\ in_width 32 r.(registers).(eax)
    /\ in_width 32 r.(registers).(ebx) /\ in_width 32 r.(registers).(ecx) /\ in_width 32 r.(registers).(edx)) log.2.

Lemma query_and_record_fits l s (log log' : Log) r :
  in_width 32 l -> in_width 32 s -> log_fits log -> query_and_record l s log = (r, log') -> log_fits log' /\ registers_fit r.
Proof.
  intros Hl Hs Hlog E. unfold query_and_record in E. destruct log as [source raw].
  pose proof (st_cpuid _ typed l s source) as Hr. destruct (cpuid l s source) as [r' source']. injection E as <- <-.
  split; [|exact Hr]. apply Forall_app. split; [exact Hlog|]. constructor; [|constructor]. split; [done|]. by split.
Qed.

Lemma query_and_record_log_fits l s (log : Log) :
  in_width 32 l -> in_width 32 s -> log_fits log -> log_fits (query_and_record l s log).2.
Proof.
  intros Hl Hs Hlog. destruct (query_and_record l s log) as [r log'] eqn:E. by apply query_and_record_fits in E as [? _].
Qed.

Lemma query_subleaves_fits wanted l s n (log : Log) :
  in_width 32 l -> 0 <= s -> s + Z.of_nat n < 2 ^ 32 -> log_fits log -> log_fits (query_subleaves wanted l s n log).
Proof.
  intros Hl. revert s log. induction n as [|n IH]; intros s log Hs Hn Hlog; cbn [query_subleaves]; [done|]. apply IH; [lia | lia|].
  destruct (wanted s); [|done]. apply query_and_record_log_fits; [done | unfold in_width; lia | done].
Qed.

(** Follow one query. *)
Ltac next_query E :=
  match type of E with
  | context [query_and_record ?l ?s ?log] =>
    let r := fresh "r" in let log' := fresh "log" in let Eq := fresh "Eq" in let Hr := fresh "Hr" in
    destruct (query_and_record l s log) as [r log'] eqn:Eq;
    apply query_and_record_fits in Eq as [? Hr]; [|done|done|done]
  end.

Lemma query_vendor_fits (log log' : Log) r v : log_fits log -> query_vendor log = (r, v, log') -> log_fits log' /\ registers_fit r.
Proof. intros Hlog E. unfold query_vendor in E. next_query E. by injection E as <- _ <-. Qed.

Lemma query_signature_fits m v (log log' : Log) sg : log_fits log -> query_signature m v log = (sg, log') -> log_fits log'.
Proof.
  intros Hlog E. unfold query_signature in E. destruct (_ <=? _); [|by injection E as _ <-]. next_query E. by injection E as _ <-.
Qed.

Lemma query_structured_fits m (log : Log) : log_fits log -> log_fits (query_structured m log).
Proof.
  intros Hlog. unfold query_structured. destruct (_ <=? _); [|done].
  destruct (query_and_record _ _ _) as [r log'] eqn:E. apply query_and_record_fits in E as [Hlog' Hr]; [|done|done|done]. cbv zeta.
  apply query_subleaves_fits; [done | lia | | done]. unfold CPUID_MAX_STRUCTURED_FEATURE_SUBLEAF. lia.
Qed.

Lemma pair_fits h l : in_width 32 h -> in_width 32 l -> in_width 64 (Z.lor (Z.shiftl h 32) l).
Proof. intros Hh Hl. rewrite lor_shiftl by (done || lia). unfold in_width in *. lia. Qed.

Lemma query_xstate_fits m a b (log log' : Log) sup en :
  log_fits log -> query_xstate m a b log = (sup, en, log') ->
  log_fits log' /\ (forall x, sup = Some x -> in_width 64 x.1 /\ in_width 64 x.2) /\ forall x, en = Some x -> in_width 64 x.
Proof.
  intros Hlog E. unfold query_xstate in E. destruct (_ && a); [|injection E as <- <- <-; by split]. next_query E. cbv zeta in E. next_query E.
  destruct Hr as (? & _ & _ & ?), Hr0 as (_ & _ & ? & ?).
  match type of E with context [query_subleaves ?w ?l ?s ?n ?lg] =>
    assert (log_fits (query_subleaves w l s n lg)) as Hsub by (apply query_subleaves_fits; [done | lia | lia | done]);
    revert E Hsub; generalize (query_subleaves w l s n lg); intros log2 E Hsub end.
  destruct b.
  - match type of E with context [xgetbv 0 ?src] =>
      pose proof (st_xgetbv _ typed 0 src) as Hx; destruct (xgetbv 0 src) as [value source] end.
    injection E as <- <- <-. split; [exact Hsub|]. split; intros x [= <-]; [|exact Hx]. cbn [fst snd]. split; by apply pair_fits.
  - injection E as <- <- <-. split; [exact Hsub|]. split; [|done]. intros x [= <-]. cbn [fst snd]. split; by apply pair_fits.
Qed.

Lemma query_hypervisor_fits b (log log' : Log) v i : log_fits log -> query_hypervisor b log = (v, i, log') -> log_fits log'.
Proof.
  intros Hlog E. unfold query_hypervisor in E. destruct b; [|by injection E as _ _ <-]. next_query E. cbv zeta in E.
  destruct (_ <=? _); [|by injection E as _ _ <-]. next_query E. apply (f_equal snd) in E. cbn [snd] in E. subst log'. assumption.
Qed.

Lemma query_brand_fits m (log log' : Log) b : log_fits log -> query_brand m log = (b, log') -> log_fits log'.
Proof.
  intros Hlog E. unfold query_brand in E. destruct (_ <=? _); [|by injection E as _ <-]. do 3 next_query E. apply (f_equal snd) in E. cbn [snd] in E. subst log'. assumption.
Qed.

Lemma query_extended_fits (log log' : Log) m b w :
  log_fits log -> query_extended log = (m, b, w, log') -> log_fits log' /\ in_width 32 m.
Proof.
  intros Hlog E. unfold query_extended in E. next_query E. cbv zeta in E. destruct Hr as (Hm & _).
  match type of E with context [query_brand ?m ?lg] =>
    assert (log_fits lg) as Hlg by (destruct (_ <=? _); [by apply query_and_record_log_fits | done]);
    destruct (query_brand m lg) as [brand log1] eqn:Eb; apply query_brand_fits in Eb; [|exact Hlg] end.
  destruct (_ <=? _); [next_query E|]; apply pair_equal_spec in E as [E El]; subst log'; (split; [assumption|]);
    apply (f_equal (fun x => x.1.1)) in E; cbn [fst] in E; subst m; exact Hm.
Qed.

(** The fingerprint has values in the widths of its types. *)
Lemma query_cpu_fingerprint_fits source : fingerprint_fits (query_cpu_fingerprint source).1.
Proof.
  unfold query_cpu_fingerprint. destruct (query_vendor _) as [[v name] l1] eqn:E1. apply query_vendor_fits in E1 as [L1 (Hv & _)]; [|constructor].
  destruct (query_signature _ _ _) as [sg l2] eqn:E2. apply query_signature_fits in E2; [|done]. cbv zeta.
  pose proof (query_structured_fits (eax v) l2 E2) as L3. destruct (query_xstate _ _ _ _) as [[sup en] l4] eqn:E4.
  apply query_xstate_fits in E4 as (L4 & Hsup & Hen); [|exact L3]. destruct (query_hypervisor _ _) as [[hv hi] l5] eqn:E5.
  apply query_hypervisor_fits in E5; [|done]. destruct (query_extended _) as [[[m b] w] [src raw]] eqn:E6.
  apply query_extended_fits in E6 as [L6 Hm]; [|done]. split; try done; cbn [fst xcr0_supported xss_supported];
    intros x Hx; destruct sup as [[a c]|]; try discriminate Hx; injection Hx as <-; by apply (Hsup (a, c)).
Qed.
End processor.

(** ** Platforms and the engine *)

(** A platform whose results fit. *)
Class TypedPlatform {W : Type} (H : Platform W) : Prop :=
  run_platform_steps_fits : forall request w result w',
    well_formed request.(request_seed) -> run_platform_steps request w = Some (result, w') -> result_fits result.

#[export] Instance linux_typed_platform {W : Type} {H : LinuxKernel W} {zydis : ZydisDecoder} patience {typed : linux_typed H} :
  TypedPlatform (linux_platform patience).
Proof.
  intros request w result w' Hq Hrun. cbn in Hrun.
  destruct (run_platform_steps_linux patience request w) as [[r s]|] eqn:E; [|discriminate Hrun]. cbn in Hrun. injection Hrun as <- _.
  by apply (linux_result_fits typed patience) in E.
Qed.

#[export] Instance windows_typed_platform {W : Type} {H : WindowsKernel W} {HS : WindowsSystem W} {memory : Memory} fuel laws
    {typed : windows_typed H} : TypedPlatform (windows_platform fuel laws).
Proof.
  intros request w result w' Hq Hrun. cbn in Hrun.
  destruct (run_platform_steps_windows fuel request w) as [[r s]|] eqn:E; [|discriminate Hrun]. cbn in Hrun. injection Hrun as <- _.
  by apply (windows_result_fits typed fuel) in E.
Qed.

Section engine.
Context {fmt : Fmt} {memory : Memory} {W : Type} {H : Platform W} {typed : TypedPlatform H}.

(** What [describe] keeps of the values of a trace. *)
Lemma describe_fits trace result : trace_fits trace -> result_fits result -> trace_fits (describe trace result).
Proof.
  intros [H1 H2 H3 H4 H5 H6 H7] [_ _ Hs _]. unfold describe.
  destruct (trace_outcome trace); try destruct (result_stopped_at_target result); by split.
Qed.

Lemma engine_trace_fits fingerprint code seed max_steps backend syntax pointers stop_offset w trace w' :
  fingerprint_fits fingerprint -> Forall (in_width 8) code -> well_formed seed ->
  run_engine fingerprint code seed max_steps backend syntax pointers stop_offset w = Some (trace, w') -> trace_fits trace.
Proof.
  intros Hf Hc Hs. unfold run_engine.
  destruct (run_platform_steps _ w) as [[result w1]|] eqn:E; [|done]. apply run_platform_steps_fits in E; [|done].
  cbn [mbind option_bind].
  assert (forall text reason address events, in_width 64 address ->
    Forall (fun e => in_width 64 e.(event_rip) /\ well_formed e.(event_registers)) events ->
    trace_fits (with_message (with_events (with_result (requested_trace fingerprint code seed max_steps backend syntax pointers) result)
      events) text reason address)) as Hfits.
  { intros text reason address events Ha He. pose proof E as []. split; try done. by intros f [= <-]. }
  destruct (result_instrumentation_detected result); [intros [= <- _]; by apply (Hfits _ _ 0 [])|].
  destruct (negb _); [intros [= <- _]; by apply (Hfits _ _ 0 [])|]. intros [= <- _]. apply describe_fits; [|done].
  apply (Hfits [] [] 0 (map event_of_step (result_steps result))); [done|]. apply Forall_map.
  eapply Forall_impl; [apply E|]. by intros s [].
Qed.
End engine.


(** A trace keeps the fingerprint it is run with. *)
Lemma engine_fingerprint {fmt : Fmt} {memory : Memory} {W : Type} {H : Platform W} fingerprint code seed max_steps backend syntax
    pointers stop_offset w trace w' :
  run_engine fingerprint code seed max_steps backend syntax pointers stop_offset w = Some (trace, w') ->
  trace.(cpu_fingerprint) = Some fingerprint.
Proof.
  unfold run_engine. destruct (run_platform_steps _ w) as [[result w1]|]; [|done]. cbn [mbind option_bind].
  destruct (result_instrumentation_detected result); [by intros [= <- _]|]. destruct (negb _); [by intros [= <- _]|].
  intros [= <- _]. unfold describe. by destruct (trace_outcome _); try destruct (result_stopped_at_target result).
Qed.

(** The document of a run is read back to its trace: from the seed to the text, nothing of
    a run is lost. *)
Lemma run_document_reads_back {build : Build} {decoders : Decoders} {fmt : Fmt} {memory : Memory} {W : Type} {H : Platform W}
    {typed : TypedPlatform H} fingerprint code seed max_steps backend syntax pointers stop_offset w trace w' :
  fingerprint_fits fingerprint -> Forall (in_width 8) code -> well_formed seed ->
  run_engine fingerprint code seed max_steps backend syntax pointers stop_offset w = Some (trace, w') -> placed trace ->
  exists document, TraceDocumentView_value trace fingerprint = Some document /\ read_trace document = Some trace.
Proof.
  intros Hf Hc Hs Hrun Hp. pose proof (engine_trace_fits _ _ _ _ _ _ _ _ _ _ _ Hf Hc Hs Hrun) as Ht.
  pose proof (engine_fingerprint _ _ _ _ _ _ _ _ _ _ _ Hrun). by apply read_trace_document.
Qed.

(** The processor itself answers in the widths of its registers, whatever its intrinsics
    do on Windows, whose [int]s are converted. *)
Class intrinsics_typed {S : Type} (H : Intrinsics S) : Prop := {
  it_cpuid : forall l s source, let '((a, b, c, d), _) := cpuid_count l s source in
    in_width 32 a /\ in_width 32 b /\ in_width 32 c /\ in_width 32 d;
  it_xgetbv : forall index source, let '((a, d), _) := xgetbv_instruction index source in in_width 32 a /\ in_width 32 d;
  it_xgetbv_intrinsic : forall index source, in_width 64 (xgetbv_intrinsic index source).1;
}.

#[export] Instance host_source_typed {S : Type} {H : Intrinsics S} {typed : intrinsics_typed H} windows :
  source_typed (HostCPUQuerySource windows).
Proof.
  split.
  - intros l s source. cbn [cpuid HostCPUQuerySource]. destruct windows.
    + destruct (cpuidex l s source) as [[[[a b] c] d] source']. repeat split; apply wrap_in_width; lia.
    + pose proof (it_cpuid l s source) as Hc. destruct (cpuid_count l s source) as [[[[a b] c] d] source'].
      exact Hc.
  - intros index source. cbn [xgetbv HostCPUQuerySource]. destruct windows; [apply it_xgetbv_intrinsic|].
    pose proof (it_xgetbv index source) as Hx. destruct (xgetbv_instruction index source) as [[a d] source']. destruct Hx as [Ha _].
    cbn [fst]. apply lor_in_width; [lia | apply wrap_in_width; lia | unfold in_width in *; lia].
Qed.

Lemma host_cpu_fingerprint_fits {S : Type} {H : Intrinsics S} {typed : intrinsics_typed H} windows (s : S) :
  fingerprint_fits (host_cpu_fingerprint windows None s).1.1.
Proof.
  unfold host_cpu_fingerprint. pose proof (query_cpu_fingerprint_fits (host_source_typed windows) s) as Hf.
  by destruct (query_cpu_fingerprint s).
Qed.

(** *** A typed kernel *)

(** The kernel of [Linux], with its instruction pointer in 64 bits. *)
Definition typed_kernel : LinuxKernel nat := {|
  sys_getenv := @sys_getenv _ (example_kernel 9); sys_pipe := @sys_pipe _ (example_kernel 9);
  sys_fork := @sys_fork _ (example_kernel 9); sys_close := @sys_close _ (example_kernel 9);
  sys_read := @sys_read _ (example_kernel 9); sys_poll := @sys_poll _ (example_kernel 9);
  sys_kill := @sys_kill _ (example_kernel 9); sys_waitpid := @sys_waitpid _ (example_kernel 9);
  ptrace_setoptions := @ptrace_setoptions _ (example_kernel 9);
  ptrace_getregs _ w :=
    (Some {| user_reg r := match r with RIP => u64 (0x1000 + Z.of_nat w) | _ => 0 end; user_rest := [] |}, w);
  ptrace_getfpregs := @ptrace_getfpregs _ (example_kernel 9); ptrace_setregs := @ptrace_setregs _ (example_kernel 9);
  ptrace_setfpregs := @ptrace_setfpregs _ (example_kernel 9); ptrace_singlestep := @ptrace_singlestep _ (example_kernel 9);
  ptrace_getsiginfo := @ptrace_getsiginfo _ (example_kernel 9); ptrace_cont := @ptrace_cont _ (example_kernel 9);
|}.

#[local] Instance typed_kernel_typed : linux_typed typed_kernel.
Proof.
  split.
  - intros child w r [= <-] []; cbn [user_reg]; try done. by apply wrap_in_width.
  - intros child w f [= <-]. split; try done; by apply (bool_decide_eq_true_1 (Forall (in_width 8) _)).
  - by intros child w i [= <-].
  - intros n w bytes [= <-]. by apply (bool_decide_eq_true_1 (Forall (in_width 8) _)).
Qed.

#[local] Instance example_processor_typed : source_typed example_processor.
Proof.
  split; [|done]. intros l s source. cbn. repeat case_match; by repeat split.
Qed.

(** The thread of [Windows], with its instruction pointer in 64 bits. *)
Definition typed_windows : WindowsKernel nat := {|
  VirtualAlloc_reserve := @VirtualAlloc_reserve _ (example_windows false); VirtualAlloc_commit := @VirtualAlloc_commit _ (example_windows false);
  VirtualProtect := @VirtualProtect _ (example_windows false); VirtualFree := @VirtualFree _ (example_windows false);
  copy_code := @copy_code _ (example_windows false); FlushInstructionCache := @FlushInstructionCache _ (example_windows false);
  CreateThread := @CreateThread _ (example_windows false); GetThreadId := @GetThreadId _ (example_windows false);
  GetThreadContext := @GetThreadContext _ (example_windows false); SetThreadContext := @SetThreadContext _ (example_windows false);
  ResumeThread := @ResumeThread _ (example_windows false); TerminateThread := @TerminateThread _ (example_windows false);
  WaitForSingleObject := @WaitForSingleObject _ (example_windows false); CloseHandle := @CloseHandle _ (example_windows false);
  AddVectoredExceptionHandler := @AddVectoredExceptionHandler _ (example_windows false);
  RemoveVectoredExceptionHandler := @RemoveVectoredExceptionHandler _ (example_windows false);
  raise_next context w :=
    (if traps context
     then Raised {| ExceptionCode := EXCEPTION_SINGLE_STEP; ExceptionAddress := 0; ExceptionInformation := [] |}
            {| context_reg reg := match reg with RIP => u64 (context.(context_reg) RIP + 1) | _ => 0 end;
               MxCsr := 0; ControlWord := 0; StatusWord := 0; TagWord := 0; FltMxCsr := 0; MxCsr_Mask := 0;
               FloatRegisters := replicate 8 (replicate 16 0); XmmRegisters := replicate 16 (0, 0) |}
     else ThreadEnded, S w);
|}.

#[local] Instance typed_windows_typed : windows_typed typed_windows.
Proof.
  split.
  - intros thread w c [= <-]. split; try done; try (by apply (bool_decide_eq_true_1 (Forall _ _))).
  - intros c w record c'. cbn [raise_next typed_windows fst]. case_match; [|done]. intros [= <- <-]. split; [done|].
    split; try done; try (by apply (bool_decide_eq_true_1 (Forall _ _))).
    intros []; try done. by apply wrap_in_width.
Qed.

Lemma typed_windows_laws : thread_laws typed_windows.
Proof.
  split; [by intros w thread context _ [= <-] w'|].
  intros (context & w & Ht & He). cbn [raise_next typed_windows] in He. by rewrite Ht in He.
Qed.

Local Abbreviation typed_linux_run :=
  (run_engine (fmt := example_fmt) (memory := example_memory) (H := linux_platform (H := typed_kernel) (zydis := example_zydis) 40)
    example_processor_fingerprint [0x90; 0x90] Registers_init 10 Zydis Intel true None 0%nat).

Local Abbreviation typed_windows_run :=
  (run_engine (fmt := example_fmt) (memory := example_memory)
    (H := windows_platform (H := typed_windows) (HS := example_system) (memory := example_memory) 1 typed_windows_laws)
    example_processor_fingerprint [0x90; 0x90] Registers_init 10 Zydis Intel true None 0%nat).

