(* ===== verification/Quick.v ===== *)
(** * Quick: the non-interactive output and the program entry ([run_quick] of
    [src/src/bme_core.cpp] and [src/src/main.cpp]).

    Text lines are what [fmt::println] is given, without the line end; a write to the
    terminal is taken to succeed.  The JSON document goes through the stream of
    [TraceJson]. *)

From S2P Require Import Prelude Text Core X87 Cpu Platform Trace History Seed Engine RegisterText Cli CodeText Timeline TraceJson.

Local Open Scope Z_scope.

(** ** Deltas *)

Section deltas.
Context {fmt : Fmt}.

Definition delta_row (label before_text after_text extra : str) : str :=
  format "{:6}{:<6} {} -> {}{}" [AStr []; AStr label; AStr before_text; AStr after_text; AStr extra].

(** A line when the condition holds. *)
Definition line_if (condition : bool) (line : str) : list str := if condition then [line] else [].

Definition flag_change (before after : Z) (name : str) (bit : Z) : str :=
  if negb (Z.land (Z.lxor before after) bit =? 0) then
    format " {}{}" [AChar (if negb (Z.land after bit =? 0) then "+" else "-"); AStr name]
  else [].

(** The list of the changed flags: [changed]. *)
Definition changed_flags (before after : Z) : str :=
  concat (map (fun flag => flag_change before after flag.1 flag.2) STATUS_FLAGS)
  ++ (if negb (Z.land (Z.lxor before after) RFLAGS_RESUME_FLAG =? 0) then
        format " {}RF" [AChar (if negb (Z.land after RFLAGS_RESUME_FLAG =? 0) then "+" else "-")]
      else []).

Definition flags_detail (before after : Z) : str :=
  match changed_flags before after with [] => [] | _ :: names => format " [{}]" [AStr names] end.

Definition hex_vector (value : Z * Z) : str := format "{:016X}:{:016X}" [AInt value.2; AInt value.1].

(** [fmt::join(bytes | std::views::reverse, "")] with [0x{:02X}]. *)
Definition hex_stack (value : list Z) : str := format "0x{:02X}" [AJoin (map AInt (rev value)) []].

Definition groups_detail (groups : list str) : str := format "  ({})" [AJoin (map AStr groups) " | "].

Definition stack_detail (before after : list Z) (before_control_word after_control_word : Z) : str :=
  format "  ({} -> {})" [AStr (format_float 53 11 (st80_to_double before before_control_word));
                         AStr (format_float 53 11 (st80_to_double after after_control_word))].

Definition gpr_deltas (before after : Registers) : list str :=
  concat (map (fun i =>
    line_if (negb (nth i before.(gpr) 0 =? nth i after.(gpr) 0))
      (delta_row (nth i REG_NAMES []) (format_hex64_string (nth i before.(gpr) 0)) (format_hex64_string (nth i after.(gpr) 0)) []))
    (seq 0 GPR_COUNT)).

Definition rip_delta (before after : Registers) : list str :=
  line_if (negb (before.(rip) =? after.(rip)))
    (delta_row "RIP" (format_hex64_string before.(rip)) (format_hex64_string after.(rip)) []).

Definition rflags_delta (before after : Registers) : list str :=
  line_if (negb (before.(rflags) =? after.(rflags)))
    (delta_row "RFLAGS" (format_hex64_string before.(rflags)) (format_hex64_string after.(rflags))
       (flags_detail before.(rflags) after.(rflags))).

Definition xmm_deltas (before after : Registers) : list str :=
  concat (map (fun i =>
    line_if (bool_decide (nth i before.(xmm) (0, 0) <> nth i after.(xmm) (0, 0)))
      (delta_row (format "XMM{}" [AInt (Z.of_nat i)]) (hex_vector (nth i before.(xmm) (0, 0)))
         (hex_vector (nth i after.(xmm) (0, 0))) []))
    (seq 0 16))
  ++ line_if (negb (before.(mxcsr) =? after.(mxcsr)))
       (delta_row "MXCSR" (format "0x{:08X}" [AInt before.(mxcsr)]) (format "0x{:08X}" [AInt after.(mxcsr)])
          (groups_detail (decode_mxcsr after.(mxcsr)))).

Definition x87_deltas (before after : Registers) : list str :=
  concat (map (fun i =>
    line_if (bool_decide (nth i before.(st) [] <> nth i after.(st) []))
      (delta_row (format "ST{}" [AInt (Z.of_nat i)]) (hex_stack (nth i before.(st) [])) (hex_stack (nth i after.(st) []))
         (stack_detail (nth i before.(st) []) (nth i after.(st) []) before.(fpu_control_word) after.(fpu_control_word))))
    (seq 0 8))
  ++ line_if (negb (before.(fpu_control_word) =? after.(fpu_control_word)))
       (delta_row "x87CW" (format "0x{:04X}" [AInt before.(fpu_control_word)]) (format "0x{:04X}" [AInt after.(fpu_control_word)])
          (groups_detail (decode_x87_control_word after.(fpu_control_word))))
  ++ line_if (negb (before.(fpu_status_word) =? after.(fpu_status_word)))
       (delta_row "x87SW" (format "0x{:04X}" [AInt before.(fpu_status_word)]) (format "0x{:04X}" [AInt after.(fpu_status_word)])
          (groups_detail (decode_x87_status_word after.(fpu_status_word))))
  ++ line_if (negb (before.(fpu_tag_word_abridged) =? after.(fpu_tag_word_abridged)))
       (delta_row "x87TW" (format "0x{:02X}" [AInt before.(fpu_tag_word_abridged)])
          (format "0x{:02X}" [AInt after.(fpu_tag_word_abridged)]) []).

(** The lambda [print_deltas]. *)
Definition print_deltas (track : TrackMask) (before after : Registers) : list str :=
  (if track.(track_gpr) then gpr_deltas before after else [])
  ++ (if track.(track_rip) then rip_delta before after else [])
  ++ (if track.(track_rflags) then rflags_delta before after else [])
  ++ (if track.(track_xmm) then xmm_deltas before after else [])
  ++ (if track.(track_x87) then x87_deltas before after else []).

(** ** Rows *)

(** [std::span{trace.code}.subspan(offset, count)]; no result out of range. *)
Definition subspan (code : list Z) (offset count : Z) : option (list Z) :=
  if (0 <=? offset) && (0 <=? count) && (offset + count <=? Z.of_nat (length code)) then
    Some (take (Z.to_nat count) (drop (Z.to_nat offset) code))
  else None.

(** [trace.execution_events[*row.execution_event_index]]; no result without such an
    event. *)
Definition row_execution_event (trace : Trace) (row : HistoryRow) : option ExecutionEvent :=
  i ← row.(row_event); trace.(execution_events) !! i.

(** What is said of a row that was not reached. *)
Definition row_note (trace : Trace) (row : HistoryRow) : str :=
  if (row.(row_rip) =? trace.(stop_address)) && negb (bool_decide (trace.(stop_reason) = [])) then trace.(stop_reason)
  else "not reached".

(** One row of the loop: its lines and the new [previous]. *)
Definition quick_row (trace : Trace) (track : TrackMask) (row : HistoryRow) (previous : Registers)
    : option (list str * Registers) :=
  code ← subspan trace.(trace_code) row.(row_offset) row.(row_length);
  let bytes := format "{:02X}" [AJoin (map AInt code) " "] in
  match row.(row_kind) with
  | HKReached =>
    event ← row_execution_event trace row;
    Some (format "+{:<4X} {:<24} {}" [AInt row.(row_offset); AStr bytes; AStr row.(row_text)]
            :: print_deltas track previous event.(event_registers), event.(event_registers))
  | HKFaulted =>
    event ← row_execution_event trace row;
    Some (format "!{:<4X} {:<24} {}  ({}, partial state)"
            [AInt row.(row_offset); AStr bytes; AStr row.(row_text); AStr trace.(stop_reason)]
            :: print_deltas track previous event.(event_registers), previous)
  | HKNotReached | HKData =>
    Some ([format " {:<4X} {:<24} {}  ({})"
             [AInt row.(row_offset); AStr bytes; AStr row.(row_text); AStr (row_note trace row)]], previous)
  end.

Fixpoint quick_rows (trace : Trace) (track : TrackMask) (history : list HistoryRow) (previous : Registers) : option (list str) :=
  match history with
  | [] => Some []
  | row :: history =>
    '(lines, previous) ← quick_row trace track row previous;
    rest ← quick_rows trace track history previous;
    Some (lines ++ rest)
  end.
End deltas.

(** ** The run *)

(** The exit code and the lines on the two outputs. *)
Record QuickRun : Type := {
  exit_code : Z;
  out : list str;
  err : list str;
}.

Section quick.
Context {fmt : Fmt} {memory : Memory} {decoders : Decoders} {build : Build} {W J : Type} `{Platform W} `{JsonStream J}.
Context (fingerprint : CPUFingerprint) (open : str -> ifstream).

Definition failed (error : str) : QuickRun := {| exit_code := 1; out := []; err := [format "Error: {}" [AStr error]] |}.

(** The text of a trace that was recorded. *)
Definition quick_text (cli : CLI) (trace : Trace) : option QuickRun :=
  if bool_decide (trace.(trace_outcome) = OError) then Some (failed trace.(message))
  else
    let track := cli.(cli_track) in
    cpu ← trace.(cpu_fingerprint);
    history ← build_history trace cli.(cli_backend) cli.(cli_syntax);
    rows ← quick_rows trace track history trace.(trace_seed);
    Some {| exit_code := 0;
            out := [format "CPU {}" [AStr (format_cpu_summary cpu)]; "Seed" : str]
                   ++ print_deltas track Registers_init trace.(trace_seed)
                   ++ rows
                   ++ [format "{}" [AStr trace.(message)]];
            err := [] |}.

(** The bytes to run: [decoded]. *)
Definition decoded_input (cli : CLI) : Result (list Z) str :=
  match cli.(cli_bytes) with
  | Some bytes => parse_code_text bytes
  | None => read_binary_input open (default [] cli.(cli_input_file))
  end.

(** The seed is composed, the code run and its trace written. *)
Definition quick_decoded (cli : CLI) (decoded : list Z) (w : W) (j : J) : option (QuickRun * W * J) :=
  let '(seed, seed_errors) := compose_seed cli.(cli_seed_gpr) cli.(cli_seed_flags) cli.(cli_seed_xmm) cli.(cli_seed_st)
                                cli.(cli_seed_floating_environment) [] in
  if negb (bool_decide (seed_errors = [])) then
    Some ({| exit_code := 1; out := []; err := map (fun error => format "Error: {}" [AStr error]) seed_errors |}, w, j)
  else
    '(trace, w) ← run_engine fingerprint decoded seed cli.(cli_max_steps) cli.(cli_backend) cli.(cli_syntax) true None w;
    match cli.(cli_format) with
    | FormatJson =>
      '(result, j) ← write_trace_json trace cli.(cli_pretty_json) j;
      match result with
      | Error error => Some (failed error, w, j)
      | Ok _ =>
        Some ({| exit_code := if bool_decide (trace.(trace_outcome) = OError) then 1 else 0; out := []; err := [] |}, w, j)
      end
    | FormatText => q ← quick_text cli trace; Some (q, w, j)
    end.

Definition run_quick (cli : CLI) (w : W) (j : J) : option (QuickRun * W * J) :=
  if bool_decide (cli.(cli_bytes) = None) && bool_decide (cli.(cli_input_file) = None) then
    Some ({| exit_code := 1; out := []; err := ["--quick needs --bytes or --file." : str] |}, w, j)
  else
    match decoded_input cli with
    | Error error => Some (failed error, w, j)
    | Ok decoded => quick_decoded cli decoded w j
    end.
End quick.

(** ** The program *)

(** How [main] goes on: it exits, or the interface starts with a state. *)
Inductive Program : Type :=
| Exited (run : QuickRun)
| Interactive (ui : UI).

Section main.
Context {fmt : Fmt} {argparse : ArgParse} {memory : Memory} {decoders : Decoders} {build : Build} {W J : Type}
  `{Platform W} `{JsonStream J}.
Context (fingerprint : CPUFingerprint) (open : str -> ifstream) (instrumented : bool).

(** [run_tui] up to its event loop: the run that [--run] asks for. *)
Definition run_tui (cli : CLI) (w : W) : option (UI * W) :=
  let ui := UI_start instrumented open cli in
  if cli.(cli_run) && (bool_decide (cli.(cli_bytes) <> None) || bool_decide (cli.(cli_input_file) <> None))
     && negb (bool_decide (ui.(ui_input).(ui_code) = []))
  then Timeline.execute fingerprint None ui w
  else Some (ui, w).

Definition main (argv : list str) (w : W) (j : J) : option (Program * W * J) :=
  match CLI_parse argv with
  | Error error => Some (Exited {| exit_code := 1; out := []; err := [format "{}" [AStr error]] |}, w, j)
  | Ok cli =>
    if cli.(cli_quick) then
      '(q, w, j) ← run_quick fingerprint open cli w j; Some (Exited q, w, j)
    else
      '(ui, w) ← run_tui cli w; Some (Interactive ui, w, j)
  end.
End main.

(** ** What is tracked *)

(** The values a line of deltas can be about, in the order of the lines. *)
Inductive Tracked : Type :=
| TGPR (i : nat) | TRIP | TRFLAGS | TXMM (i : nat) | TMXCSR | TST (i : nat) | TControlWord | TStatusWord | TTagWord.

Definition tracked (track : TrackMask) : list Tracked :=
  (if track.(track_gpr) then map TGPR (seq 0 GPR_COUNT) else [])
  ++ (if track.(track_rip) then [TRIP] else [])
  ++ (if track.(track_rflags) then [TRFLAGS] else [])
  ++ (if track.(track_xmm) then map TXMM (seq 0 16) ++ [TMXCSR] else [])
  ++ (if track.(track_x87) then map TST (seq 0 8) ++ [TControlWord; TStatusWord; TTagWord] else []).

Definition differs (before after : Registers) (t : Tracked) : bool :=
  match t with
  | TGPR i => bool_decide (nth i before.(gpr) 0 <> nth i after.(gpr) 0)
  | TRIP => bool_decide (before.(rip) <> after.(rip))
  | TRFLAGS => bool_decide (before.(rflags) <> after.(rflags))
  | TXMM i => bool_decide (nth i before.(xmm) (0, 0) <> nth i after.(xmm) (0, 0))
  | TMXCSR => bool_decide (before.(mxcsr) <> after.(mxcsr))
  | TST i => bool_decide (nth i before.(st) [] <> nth i after.(st) [])
  | TControlWord => bool_decide (before.(fpu_control_word) <> after.(fpu_control_word))
  | TStatusWord => bool_decide (before.(fpu_status_word) <> after.(fpu_status_word))
  | TTagWord => bool_decide (before.(fpu_tag_word_abridged) <> after.(fpu_tag_word_abridged))
  end.

Section lines.
Context {fmt : Fmt}.

Definition tracked_label (t : Tracked) : str :=
  match t with
  | TGPR i => nth i REG_NAMES [] | TRIP => "RIP" | TRFLAGS => "RFLAGS"
  | TXMM i => format "XMM{}" [AInt (Z.of_nat i)] | TMXCSR => "MXCSR"
  | TST i => format "ST{}" [AInt (Z.of_nat i)] | TControlWord => "x87CW" | TStatusWord => "x87SW" | TTagWord => "x87TW"
  end.

(** The value as a line shows it. *)
Definition tracked_text (r : Registers) (t : Tracked) : str :=
  match t with
  | TGPR i => format_hex64_string (nth i r.(gpr) 0)
  | TRIP => format_hex64_string r.(rip)
  | TRFLAGS => format_hex64_string r.(rflags)
  | TXMM i => hex_vector (nth i r.(xmm) (0, 0))
  | TMXCSR => format "0x{:08X}" [AInt r.(mxcsr)]
  | TST i => hex_stack (nth i r.(st) [])
  | TControlWord => format "0x{:04X}" [AInt r.(fpu_control_word)]
  | TStatusWord => format "0x{:04X}" [AInt r.(fpu_status_word)]
  | TTagWord => format "0x{:02X}" [AInt r.(fpu_tag_word_abridged)]
  end.

(** A line that tells a tracked value before and after, and what it says besides. *)
Definition tells (before after : Registers) (t : Tracked) (line : str) : Prop :=
  exists extra, line = delta_row (tracked_label t) (tracked_text before t) (tracked_text after t) extra.

(** The lines of a list of tracked values. *)
Definition told (before after : Registers) (ts : list Tracked) (lines : list str) : Prop :=
  Forall2 (tells before after) (List.filter (differs before after) ts) lines.

Lemma told_app before after ts ts' lines lines' :
  told before after ts lines -> told before after ts' lines' -> told before after (ts ++ ts') (lines ++ lines').
Proof. unfold told. rewrite List.filter_app. apply Forall2_app. Qed.

Lemma told_line before after t condition line :
  condition = differs before after t -> tells before after t line -> told before after [t] (line_if condition line).
Proof. intros -> Ht. unfold told, line_if. cbn [List.filter]. destruct (differs _ _ _); by repeat constructor. Qed.

Lemma told_lines before after {A} (t : A -> Tracked) (line : A -> list str) l :
  (forall x, told before after [t x] (line x)) -> told before after (map t l) (concat (map line l)).
Proof. intros H. induction l as [|x l IH]; [constructor|]. cbn [map concat]. apply (told_app _ _ [t x]); [apply H | exact IH]. Qed.

Lemma told_if before after (b : bool) ts lines :
  told before after ts lines -> told before after (if b then ts else []) (if b then lines else []).
Proof. by destruct b; [|constructor]. Qed.

Lemma negb_eqb_differs (a b : Z) : negb (a =? b) = bool_decide (a <> b).
Proof. destruct (Z.eqb_spec a b); [rewrite bool_decide_false; [done | by intros []] | by rewrite bool_decide_true]. Qed.

(** One line of [print_deltas]. *)
Ltac tell_line := apply told_line; [cbn [differs]; rewrite ?negb_eqb_differs; reflexivity | eexists; reflexivity].

Lemma print_deltas_told track before after : told before after (tracked track) (print_deltas track before after).
Proof.
  unfold tracked, print_deltas. repeat apply told_app; apply told_if.
  - apply told_lines. intros i. tell_line.
  - tell_line.
  - tell_line.
  - apply told_app; [apply told_lines; intros i|]; tell_line.
  - apply told_app; [apply told_lines; intros i; tell_line|].
    apply (told_app _ _ [TControlWord]); [tell_line|]. apply (told_app _ _ [TStatusWord]); tell_line.
Qed.

Lemma differs_same r t : differs r r t = false.
Proof. destruct t; cbn [differs]; apply bool_decide_false; by intros []. Qed.

(** Nothing is printed for a state that did not change. *)
Lemma print_deltas_same track r : print_deltas track r r = [].
Proof.
  pose proof (print_deltas_told track r r) as H. unfold told in H.
  assert (List.filter (differs r r) (tracked track) = []) as E.
  { generalize (tracked track). intros ts. induction ts as [|t ts IH]; [done|]. cbn [List.filter]. by rewrite differs_same. }
  rewrite E in H. by inversion H.
Qed.

Lemma filter_nil_inv {A} (f : A -> bool) l x : List.filter f l = [] -> In x l -> f x = false.
Proof. intros E Hin. destruct (f x) eqn:Ef; [|done]. assert (In x (List.filter f l)) as H by (by apply filter_In). by rewrite E in H. Qed.

Lemma nth_ext_length {A} (d : A) n l l' :
  length l = n -> length l' = n -> (forall i, (i < n)%nat -> nth i l d = nth i l' d) -> l = l'.
Proof. intros <- Hl H. by apply (nth_ext l l' d d). Qed.

(** A tracked value that no line tells is the same before and after. *)
Lemma print_deltas_silent track before after t :
  print_deltas track before after = [] -> In t (tracked track) -> differs before after t = false.
Proof.
  intros E Hin. pose proof (print_deltas_told track before after) as H. unfold told in H. rewrite E in H.
  apply (filter_nil_inv _ (tracked track)); [by inversion H | done].
Qed.
End lines.

Definition track_all : TrackMask :=
  {| track_gpr := true; track_rip := true; track_rflags := true; track_xmm := true; track_x87 := true |}.

Lemma tracked_all_gpr i : (i < 16)%nat -> In (TGPR i) (tracked track_all).
Proof. intros Hi. apply in_or_app. left. apply in_map, in_seq. unfold GPR_COUNT. lia. Qed.

Lemma tracked_all_xmm i : (i < 16)%nat -> In (TXMM i) (tracked track_all).
Proof. intros Hi. do 3 (apply in_or_app; right). apply in_or_app. left. apply in_or_app. left. apply in_map, in_seq. lia. Qed.

Lemma tracked_all_st i : (i < 8)%nat -> In (TST i) (tracked track_all).
Proof. intros Hi. do 4 (apply in_or_app; right). apply in_or_app. left. apply in_map, in_seq. lia. Qed.

Section silence.
Context {fmt : Fmt}.

Lemma not_differs {A} (a b : A) `{EqDecision A, !Decision (a <> b)} : bool_decide (a <> b) = false -> a = b.
Proof. intros H%bool_decide_eq_false. by destruct (decide (a = b)). Qed.

(** Two well-formed states without a delta are the same. *)
Lemma no_delta_same before after :
  well_formed before -> well_formed after -> print_deltas track_all before after = [] -> before = after.
Proof.
  intros Hb Ha E. assert (forall t, In t (tracked track_all) -> differs before after t = false) as H.
  { intros t. by apply print_deltas_silent. }
  assert (before.(gpr) = after.(gpr)) as Eg.
  { apply (nth_ext_length 0 16); [apply Hb | apply Ha|]. intros i Hi. exact (not_differs _ _ (H _ (tracked_all_gpr i Hi))). }
  assert (before.(xmm) = after.(xmm)) as Ex.
  { apply (nth_ext_length (0, 0) 16); [apply Hb | apply Ha|]. intros i Hi. exact (not_differs _ _ (H _ (tracked_all_xmm i Hi))). }
  assert (before.(st) = after.(st)) as Es.
  { apply (nth_ext_length [] 8); [apply Hb | apply Ha|]. intros i Hi. exact (not_differs _ _ (H _ (tracked_all_st i Hi))). }
  assert (forall t, existsb (fun x => match x, t with
      TRIP, TRIP | TRFLAGS, TRFLAGS | TMXCSR, TMXCSR | TControlWord, TControlWord | TStatusWord, TStatusWord | TTagWord, TTagWord => true
    | _, _ => false end) (tracked track_all) = true -> In t (tracked track_all)) as Hin.
  { intros t (x & Hx & Ht)%existsb_exists. by destruct x, t. }
  pose proof (not_differs _ _ (H TRIP (Hin TRIP eq_refl))). pose proof (not_differs _ _ (H TRFLAGS (Hin TRFLAGS eq_refl))).
  pose proof (not_differs _ _ (H TMXCSR (Hin TMXCSR eq_refl))). pose proof (not_differs _ _ (H TControlWord (Hin TControlWord eq_refl))).
  pose proof (not_differs _ _ (H TStatusWord (Hin TStatusWord eq_refl))). pose proof (not_differs _ _ (H TTagWord (Hin TTagWord eq_refl))).
  destruct before, after. cbn in *. congruence.
Qed.
End silence.

(** ** Rows and states *)

(** A fault is the last event of a trace. *)
Definition faults_last (trace : Trace) : Prop :=
  forall i event, trace.(execution_events) !! i = Some event -> event.(event_kind) = EKFaulted ->
    S i = length trace.(execution_events).

Section rows.
Context {fmt : Fmt} {decoders : Decoders} (trace : Trace) (track : TrackMask).

(** The line of a row: its mark, offset, bytes and text, and for a row without completed
    instruction why. *)
Definition row_line (row : HistoryRow) : str :=
  let bytes := format "{:02X}" [AJoin (map AInt (row_bytes trace row)) " "] in
  match row.(row_kind) with
  | HKReached => format "+{:<4X} {:<24} {}" [AInt row.(row_offset); AStr bytes; AStr row.(row_text)]
  | HKFaulted => format "!{:<4X} {:<24} {}  ({}, partial state)"
                   [AInt row.(row_offset); AStr bytes; AStr row.(row_text); AStr trace.(stop_reason)]
  | HKNotReached | HKData => format " {:<4X} {:<24} {}  ({})"
                   [AInt row.(row_offset); AStr bytes; AStr row.(row_text); AStr (row_note trace row)]
  end.

(** The registers before the row at [position]. *)
Definition registers_before (history : list HistoryRow) (position : nat) : Registers :=
  default trace.(trace_seed) (state_before trace.(execution_events) history position).

Context (backend : DisasmBackend) (syntax : DisasmSyntax) (history : list HistoryRow).
Hypothesis Hplaced : placed trace.
Hypothesis Hfaults : faults_last trace.
Hypothesis Hbuilt : build_history trace backend syntax = Some history.

Lemma row_subspan row : In row history -> subspan trace.(trace_code) row.(row_offset) row.(row_length) = Some (row_bytes trace row).
Proof.
  intros Hin. destruct (built_row _ Hplaced _ _ _ row Hbuilt Hin) as (H1 & H2 & _). unfold History.size in H2. unfold subspan.
  rewrite !(proj2 (Z.leb_le _ _)) by lia. done.
Qed.

(** After a fault no row has an event. *)
Lemma static_after_fault before row after i event :
  history = before ++ row :: after -> row.(row_event) = Some i -> trace.(execution_events) !! i = Some event ->
  event.(event_kind) = EKFaulted -> Forall (fun r => r.(row_event) = None) after.
Proof.
  intros Eh Hi He Hk. destruct (built_ok _ Hplaced _ _ _ Hbuilt) as [[_ E] | (_ & _ & [_ Hev _ _])]; [by destruct before; subst|].
  rewrite Eh, List.filter_app in Hev. cbn [List.filter] in Hev. unfold is_static in Hev at 2. rewrite Hi in Hev.
  rewrite bool_decide_false in Hev by done. cbn [negb] in Hev. symmetry in Hev.
  pose proof (expected_event_rows_ordered _ _ _ _ _ _ _ _ _ Hev Hi) as Hord.
  apply Forall_forall. intros r Hr%list_elem_of_In. destruct (row_event r) as [j|] eqn:Hj; [|done]. exfalso.
  rewrite Forall_forall in Hord. destruct (Hord r) as (j' & Hj' & Hlt).
  { apply list_elem_of_In, filter_In. split; [done|]. unfold is_static. by rewrite Hj. }
  assert (In r history) as Hin by (rewrite Eh; apply in_or_app; right; by right).
  destruct (built_row _ Hplaced _ _ _ r Hbuilt Hin) as (_ & _ & _ & _ & Hevent).
  destruct (Hevent j' Hj') as (e & Hl & _). apply lookup_lt_Some in Hl. specialize (Hfaults i event He Hk). lia.
Qed.

Lemma registers_after_row before row after :
  history = before ++ row :: after ->
  registers_before history (S (length before)) =
    match row_execution_event trace row with
    | Some event => event.(event_registers)
    | None => registers_before history (length before)
    end.
Proof.
  intros Eh. unfold registers_before, row_execution_event. cbn [state_before].
  assert (history !! length before = Some row) as -> by (rewrite Eh; by apply list_lookup_middle). cbn [mbind option_bind].
  destruct (row_event row) as [i|]; cbn [mbind option_bind]; [|done]. by destruct (execution_events trace !! i).
Qed.

(** One row, when [previous] is the state before it or the row has no event. *)
Lemma quick_row_run before row after previous :
  history = before ++ row :: after ->
  previous = registers_before history (length before) \/ row.(row_event) = None ->
  exists previous', quick_row trace track row previous
    = Some (row_line row :: print_deltas track (registers_before history (length before)) (registers_before history (S (length before))), previous')
  /\ (previous' = registers_before history (S (length before)) \/ Forall (fun r => r.(row_event) = None) after
      \/ row.(row_event) = None /\ previous' = previous).
Proof.
  intros Eh Hprev. assert (In row history) as Hin by (rewrite Eh; apply in_or_app; right; by left).
  rewrite (registers_after_row _ _ _ Eh). unfold quick_row. rewrite (row_subspan row Hin). cbn [mbind option_bind]. unfold row_line. cbv zeta.
  destruct (built_row _ Hplaced _ _ _ row Hbuilt Hin) as (_ & _ & _ & Hkind & Hevent).
  destruct (row_event row) as [i|] eqn:Hi.
  - destruct Hprev as [-> | ?]; [|done]. destruct (Hevent i eq_refl) as (event & Hl & _ & Hrow).
    assert (row_execution_event trace row = Some event) as Hre.
    { unfold row_execution_event. rewrite Hi. cbn [mbind option_bind]. exact Hl. }
    rewrite Hre. assert (row_kind row = match event.(event_kind) with EKCompleted => HKReached | EKFaulted => HKFaulted end) as ->.
    { rewrite Hrow at 1. done. }
    destruct (event_kind event) eqn:Hk; cbn [mbind option_bind]; (eexists; split; [reflexivity|]); [by left|].
    right. left. by eapply static_after_fault.
  - assert (row_execution_event trace row = None) as -> by (unfold row_execution_event; by rewrite Hi).
    unfold is_event_row, is_static in Hkind. rewrite Hi in Hkind. rewrite bool_decide_true in Hkind by done. cbn [negb] in Hkind.
    rewrite print_deltas_same. exists previous. destruct (row_kind row); try discriminate; (split; [done|]); right; by right.
Qed.

Lemma quick_rows_run rest before previous :
  history = before ++ rest ->
  previous = registers_before history (length before) \/ Forall (fun r => r.(row_event) = None) rest ->
  exists groups, quick_rows trace track rest previous = Some (concat groups) /\ length groups = length rest
    /\ forall p row, rest !! p = Some row -> groups !! p =
         Some (row_line row :: print_deltas track (registers_before history (length before + p)) (registers_before history (length before + S p))).
Proof.
  revert before previous. induction rest as [|row rest IH]; intros before previous Eh Hprev; [by exists []|].
  destruct (quick_row_run before row rest previous Eh) as (previous' & Hrun & Hnext).
  { destruct Hprev as [->|Hnone]; [by left|]. right. by inversion Hnone. }
  destruct (IH (before ++ [row]) previous') as (groups & Hgroups & Hlen & Hlines); [by rewrite <- app_assoc| |].
  { rewrite length_app, Nat.add_1_r. destruct Hnext as [-> | [Hnone | [Hnone ->]]]; [by left | by right|].
    destruct Hprev as [->|Hall]; [|right; by inversion Hall]. left. rewrite (registers_after_row _ _ _ Eh).
    unfold row_execution_event. by rewrite Hnone. }
  cbn [quick_rows]. rewrite Hrun. cbn [mbind option_bind]. rewrite Hgroups. cbn [mbind option_bind].
  exists ((row_line row :: print_deltas track (registers_before history (length before))
             (registers_before history (S (length before)))) :: groups).
  split; [reflexivity|]. split; [cbn [length]; by rewrite Hlen|].
  intros [|p] r Hr.
  - injection Hr as ->. by rewrite Nat.add_0_r, Nat.add_1_r.
  - change (rest !! p = Some r) in Hr. change (groups !! p = Some (row_line r :: print_deltas track
      (registers_before history (length before + S p)) (registers_before history (length before + S (S p))))).
    rewrite (Hlines p r Hr), length_app. cbn [length]. by rewrite <- !Nat.add_assoc.
Qed.
End rows.

(** ** Runs *)

Section runs.
Context {fmt : Fmt} {memory : Memory} {decoders : Decoders} {build : Build} {W J : Type} `{Platform W} `{JsonStream J}.
Context (fingerprint : CPUFingerprint) (open : str -> ifstream).

Lemma run_engine_fingerprint code seed max_steps backend syntax pointers stop_offset (w : W) trace w' :
  run_engine fingerprint code seed max_steps backend syntax pointers stop_offset w = Some (trace, w') ->
  trace.(cpu_fingerprint) = Some fingerprint.
Proof.
  unfold run_engine. destruct (run_platform_steps _ w) as [[result w1]|]; [|done]. cbn [mbind option_bind].
  destruct (result_instrumentation_detected result); [by intros [= <- _]|].
  destruct (negb _); [by intros [= <- _]|]. intros [= <- _].
  match goal with |- cpu_fingerprint (describe ?t ?r) = _ => destruct (describe_keeps t r) as (_ & _ & _ & _ & _ & _ & _ & -> & _) end.
  done.
Qed.

Lemma quick_rows_total trace track backend syntax history previous :
  placed trace -> build_history trace backend syntax = Some history ->
  exists lines, quick_rows trace track history previous = Some lines.
Proof.
  intros Hp E. assert (forall row, In row history -> In row history) as Hin by done. revert Hin previous.
  generalize history at 1 3 as rest. induction rest as [|row rest IH]; intros Hin previous; [by eexists|].
  assert (exists x, quick_row trace track row previous = Some x) as [[lines next] Hrow].
  { unfold quick_row. rewrite (row_subspan _ _ _ _ Hp E) by (apply Hin; by left). cbn [mbind option_bind].
    destruct (built_row _ Hp _ _ _ row E (Hin row (or_introl eq_refl))) as (_ & _ & _ & Hk & Hev).
    unfold is_event_row, is_static, row_execution_event in *.
    destruct (row_event row) as [i|].
    - destruct (Hev i eq_refl) as (event & Hl & _). cbn [mbind option_bind].
      assert (exists e, (execution_events trace !! i) = Some e) as [e ->] by (by exists event).
      destruct (row_kind row); by eexists.
    - rewrite bool_decide_true in Hk by done. destruct (row_kind row); try discriminate Hk; by eexists. }
  destruct (IH (fun r Hr => Hin r (or_intror Hr)) next) as [rows Hrows].
  cbn [quick_rows]. rewrite Hrow. cbn [mbind option_bind]. rewrite Hrows. by eexists.
Qed.

(** The text of a recorded trace. *)
Lemma quick_text_run cli trace :
  placed trace -> trace.(cpu_fingerprint) = Some fingerprint ->
  exists q, quick_text cli trace = Some q
    /\ if bool_decide (trace.(trace_outcome) = OError) then q = failed trace.(message)
       else q.(exit_code) = 0 /\ q.(err) = [].
Proof.
  intros Hp Hf. unfold quick_text. case_bool_decide; [by eexists|]. rewrite Hf. cbn [mbind option_bind].
  destruct (build_history_is_Some trace Hp cli.(cli_backend) cli.(cli_syntax)) as [history E]. rewrite E. cbn [mbind option_bind].
  destruct (quick_rows_total trace cli.(cli_track) _ _ history trace.(trace_seed) Hp E) as [lines ->]. by eexists.
Qed.

Lemma write_trace_json_total trace pretty (j : J) :
  placed trace -> exists r j', write_trace_json trace pretty j = Some (r, j').
Proof.
  intros Hp. unfold write_trace_json. cbv zeta. destruct (cpu_fingerprint trace) as [f|]; [|by do 2 eexists].
  destruct (trace_document trace f Hp) as [document ->]. cbn [mbind option_bind].
  destruct (glz_write pretty document j) as [[[[?|] []]|?|?] j1]; try (by do 2 eexists).
  destruct (put_line j1) as [[[]|?|?] j2]; by do 2 eexists.
Qed.

(** The seed of a command line and the messages of its malformed fields. *)
Definition quick_seed (cli : CLI) : Registers * list str :=
  compose_seed cli.(cli_seed_gpr) cli.(cli_seed_flags) cli.(cli_seed_xmm) cli.(cli_seed_st) cli.(cli_seed_floating_environment) [].

Definition quick_engine (cli : CLI) (code : list Z) (w : W) : option (Trace * W) :=
  run_engine fingerprint code (quick_seed cli).1 cli.(cli_max_steps) cli.(cli_backend) cli.(cli_syntax) true None w.

(** Bytes or a file are given and give code, and no seed is malformed. *)
Definition quick_accepts (cli : CLI) (code : list Z) : Prop :=
  (cli.(cli_bytes) <> None \/ cli.(cli_input_file) <> None) /\ decoded_input open cli = Ok code /\ (quick_seed cli).2 = [].

Lemma quick_accepts_dec cli : (exists code, quick_accepts cli code) \/ forall code, ~ quick_accepts cli code.
Proof.
  unfold quick_accepts. destruct (decide (cli.(cli_bytes) = None /\ cli.(cli_input_file) = None)) as [[-> ->]|Hin].
  { right. by intros code ([[]|[]] & _). }
  destruct (decoded_input open cli) as [code|e]; [|right; by intros code (_ & ? & _)].
  destruct (decide ((quick_seed cli).2 = [])); [left; exists code | right; by intros c (_ & _ & ?)].
  split; [|done]. destruct (cli_bytes cli), (cli_input_file cli); [by left | by left | by right | by destruct Hin].
Qed.

(** A refused command line. *)
Lemma run_quick_refused cli w j :
  (forall code, ~ quick_accepts cli code) ->
  exists q, run_quick fingerprint open cli w j = Some (q, w, j) /\ q.(exit_code) = 1 /\ q.(out) = [] /\ q.(err) <> [].
Proof.
  intros Hno. unfold run_quick. destruct (_ && _) eqn:Hin; [by eexists|].
  destruct (decoded_input open cli) as [code|e] eqn:Ed; [|by eexists]. specialize (Hno code). unfold quick_decoded. fold (quick_seed cli).
  destruct (quick_seed cli) as [seed errors] eqn:Es. destruct errors as [|e errors]; [|by eexists]. exfalso. apply Hno.
  split; [|by rewrite Es]. apply andb_false_iff in Hin as [H1%bool_decide_eq_false | H1%bool_decide_eq_false]; [by left | by right].
Qed.

(** An accepted one: the engine runs, and its trace is shown. *)
Lemma run_quick_accepted cli w j code :
  quick_accepts cli code ->
  run_quick fingerprint open cli w j =
    '(trace, w') ← quick_engine cli code w;
    match cli.(cli_format) with
    | FormatJson =>
      '(result, j) ← write_trace_json trace cli.(cli_pretty_json) j;
      match result with
      | Error error => Some (failed error, w', j)
      | Ok _ => Some ({| exit_code := if bool_decide (trace.(trace_outcome) = OError) then 1 else 0; out := []; err := [] |}, w', j)
      end
    | FormatText => q ← quick_text cli trace; Some (q, w', j)
    end.
Proof.
  intros (Hin & Hd & Hs). unfold run_quick, quick_engine in *. rewrite (proj2 (andb_false_iff _ _)).
  - rewrite Hd. unfold quick_decoded. fold (quick_seed cli). destruct (quick_seed cli) as [seed errors]. cbn [snd fst] in *. subst errors.
    by rewrite bool_decide_true.
  - destruct Hin; [left | right]; by apply bool_decide_false.
Qed.
End runs.

(** ** Properties *)

(** C38. The deltas tell exactly what changed: one line per tracked value that differs, in the
    order of the registers, with its name and its value before and after, and no other
    line; with every class tracked two well-formed states without a delta are equal. *)
Theorem print_deltas_lines {fmt : Fmt} track before after :
  told before after (tracked track) (print_deltas track before after)
  /\ (well_formed before -> well_formed after -> print_deltas track_all before after = [] <-> before = after).
Proof.
  split; [apply print_deltas_told|]. intros Hb Ha. split; [by apply no_delta_same | intros ->; apply print_deltas_same].
Qed.

(** C23. The quick output and the interface tell the same run: for every row of a history the
    text has a line with its mark, offset, bytes and text, followed by the differences
    between the registers the interface shows before and after that row. *)
Theorem quick_rows_show_states {fmt : Fmt} {decoders : Decoders} trace track backend syntax history n :
  placed trace -> faults_last trace -> build_history trace backend syntax = Some history ->
  n.(ui_trace) = trace -> history_rows_at n n.(history_tab) = history ->
  exists groups, quick_rows trace track history trace.(trace_seed) = Some (concat groups)
    /\ length groups = length history
    /\ forall p row, history !! p = Some row ->
         groups !! p = Some (row_line trace row :: print_deltas track (history_state_at n p) (history_state_at n (S p))).
Proof.
  intros Hp Hf E Ht Hrows.
  destruct (quick_rows_run trace track backend syntax history Hp Hf E history [] trace.(trace_seed)) as (groups & Hg & Hl & Hlines);
    [done | by left|].
  exists groups. split; [done|]. split; [done|]. intros p row Hr. rewrite (Hlines p row Hr). cbn [length Nat.add].
  apply lookup_lt_Some in Hr.
  assert (forall k, (k <= length history)%nat -> history_state_at n k = registers_before trace history k) as Hst.
  { intros k Hk. unfold history_state_at, registers_before. cbv zeta. rewrite Hrows, Ht, Nat.min_l by done.
    by destruct (state_before _ _ _). }
  by rewrite !Hst by lia.
Qed.

(** C22. The exit code of the quick output means what the README says: whenever the engine
    returns a trace that lies in the address space, which code that blocks can keep it from,
    it returns too, with 0 or 1; 0 exactly when bytes or a file give code, no seed is malformed, the run did
    not end in an error of the engine (a fault of the code is no error) and a JSON
    document was written in full.  A failure has a diagnostic on the error output, except
    for a document of a failed run, which is complete; JSON mode prints nothing else on
    the output, and after a failure no text is. *)
Theorem run_quick_reports {fmt : Fmt} {memory : Memory} {decoders : Decoders} {build : Build} {W J : Type} `{Platform W}
    `{JsonStream J} fingerprint open cli (w : W) (j : J) :
  (forall code, quick_accepts open cli code -> exists trace w', quick_engine fingerprint cli code w = Some (trace, w') /\ placed trace) ->
  exists q w' j', run_quick fingerprint open cli w j = Some (q, w', j')
    /\ (q.(exit_code) = 0 \/ q.(exit_code) = 1)
    /\ (q.(exit_code) = 0 <-> exists code trace, quick_accepts open cli code /\ quick_engine fingerprint cli code w = Some (trace, w')
          /\ trace.(trace_outcome) <> OError
          /\ (cli.(cli_format) = FormatJson -> write_trace_json trace cli.(cli_pretty_json) j = Some (Ok tt, j')))
    /\ (q.(exit_code) = 0 -> q.(err) = [])
    /\ (q.(exit_code) = 1 -> q.(err) <> [] \/ exists code trace, quick_accepts open cli code
          /\ quick_engine fingerprint cli code w = Some (trace, w') /\ cli.(cli_format) = FormatJson
          /\ write_trace_json trace cli.(cli_pretty_json) j = Some (Ok tt, j'))
    /\ (cli.(cli_format) = FormatJson \/ q.(exit_code) = 1 -> q.(out) = []).
Proof.
  intros Hruns. destruct (quick_accepts_dec open cli) as [[code Hacc] | Hno].
  - destruct (Hruns code Hacc) as (trace & w' & Hrun & Hp). pose proof (run_quick_accepted fingerprint open cli w j code Hacc) as E.
    rewrite Hrun in E. cbn [mbind option_bind] in E.
    assert (forall c t v, quick_accepts open cli c -> quick_engine fingerprint cli c w = Some (t, v) -> t = trace /\ v = w') as Huniq.
    { intros c t v (_ & Hc & _) Ht. destruct Hacc as (_ & Hd & _). rewrite Hd in Hc. injection Hc as <-. rewrite Hrun in Ht. by injection Ht. }
    destruct (cli_format cli).
    + destruct (quick_text_run fingerprint cli trace Hp (run_engine_fingerprint _ _ _ _ _ _ _ _ _ _ _ Hrun)) as (q & Eq & Hq).
      rewrite Eq in E. exists q, w', j. split; [exact E|]. case_bool_decide as Ho; [subst q | destruct Hq as [Hc He]; rewrite Hc].
      * split; [by right|]. split; [split; [done|]|]; [|split; [done|]; split; [by left | done]].
        intros (c & t & Ha & Ht & Hok & _). by destruct (Huniq _ _ _ Ha Ht) as [-> _].
      * split; [by left|]. split; [split; [intros _; by exists code, trace | done]|]. split; [done|]. split; [done | by intros []].
    + destruct (write_trace_json_total trace (cli_pretty_json cli) j Hp) as (r & j' & Ew). rewrite Ew in E. cbn [mbind option_bind] in E.
      destruct r as [[]|e]; (eexists _, w', j'; split; [exact E|]); cbn [exit_code out err].
      * split; [case_bool_decide; auto|]. split; [|split; [done|]; split; [|done]].
        -- split; [case_bool_decide; [done|]; intros _; by exists code, trace|].
           intros (c & t & Ha & Ht & Hok & _). destruct (Huniq _ _ _ Ha Ht) as [-> _]. by rewrite bool_decide_false.
        -- intros _. right. by exists code, trace.
      * split; [by right|]. split; [split; [done|]|]; [|split; [done|]; split; [by left | done]].
        intros (c & t & Ha & Ht & _ & Hw). destruct (Huniq _ _ _ Ha Ht) as [-> _]. specialize (Hw eq_refl). congruence.
  - destruct (run_quick_refused fingerprint open cli w j Hno) as (q & E & Hc & Ho & He). exists q, w, j. split; [done|].
    split; [by right|]. rewrite Hc. split; [split; [done | intros (code & _ & Ha & _); by destruct (Hno code)]|].
    split; [done|]. split; [by left|]. done.
Qed.

(** The program starts the interface in a state of a session, or exits: with a refused
    command line nothing runs and the message is on the error output. *)
Lemma main_starts {fmt : Fmt} {argparse : ArgParse} {memory : Memory} {decoders : Decoders} {build : Build} {W J : Type}
    `{Platform W} `{JsonStream J} fingerprint open instrumented argv (w : W) (j : J) program w' j' :
  main fingerprint open instrumented argv w j = Some (program, w', j') ->
  match program with
  | Interactive ui => placed ui.(ui_navigation).(ui_trace) -> reachable fingerprint ui w' /\ j' = j
  | Exited q =>
    (forall error, CLI_parse argv = Error error ->
       q = {| exit_code := 1; out := []; err := [format "{}" [AStr error]] |} /\ w' = w /\ j' = j)
    /\ forall cli, CLI_parse argv = Ok cli -> run_quick fingerprint open cli w j = Some (q, w', j')
  end.
Proof.
  unfold main. destruct (CLI_parse argv) as [cli|error] eqn:E; [|intros [= <- <- <-]; by split; [intros ? [= <-]|]].
  destruct (cli_quick cli).
  - destruct (run_quick _ _ _ _ _) as [[[q w1] j1]|] eqn:Eq; [|done]. intros [= <- <- <-]. split; [done|]. by intros ? [= <-].
  - destruct (run_tui _ _ _ _ _) as [[ui w1]|] eqn:Er; [|done]. intros [= <- <- <-] Hp. split; [|done].
    pose proof (reach_start fingerprint argv cli instrumented open w E) as Hstart. unfold run_tui in Er.
    destruct (_ && negb _); [|by injection Er as <- <-]. by eapply (reach_step _ _ _ Run).
Qed.

(** *** Concrete runs *)

Lemma print_deltas_lines_witness :
  length (print_deltas (fmt := example_fmt) track_all Registers_init (reg_set Registers_init RIP 0x1000)) = 1%nat
  /\ (print_deltas (fmt := example_fmt) track_all Registers_init (reg_set Registers_init RIP 0x1000) = [] <->
      Registers_init = reg_set Registers_init RIP 0x1000).
Proof.
  destruct (print_deltas_lines (fmt := example_fmt) track_all Registers_init (reg_set Registers_init RIP 0x1000)) as [Hlines Hnone].
  split.
  - apply Forall2_length in Hlines. rewrite <- Hlines. vm_compute. reflexivity.
  - apply Hnone; [apply Registers_init_well_formed|]. apply reg_set_well_formed; [apply Registers_init_well_formed|].
    split; [vm_compute; discriminate | vm_compute; reflexivity].
Defined.

Definition example_navigation (rows : list HistoryRow) : Navigation := {|
  ui_trace := example_trace; cursor := 0; history := []; history_rows := rows; history_tab := 0;
  previous_history_tab := 0; history_backend := []; history_backend_rows := [];
|}.

Lemma quick_rows_show_states_witness :
  exists history groups, build_history (decoders := example_decoders) example_trace Zydis Intel = Some history
    /\ quick_rows (fmt := example_fmt) example_trace track_all history example_trace.(trace_seed) = Some (concat groups)
    /\ length groups = 4%nat.
Proof.
  destruct (build_history (decoders := example_decoders) example_trace Zydis Intel) as [history|] eqn:E; [|vm_compute in E; discriminate].
  destruct (quick_rows_show_states (fmt := example_fmt) (decoders := example_decoders) example_trace track_all Zydis Intel history
    (example_navigation history) example_placed) as (groups & Hg & Hl & _).
  - intros [|[|i]] event Hi Hk; [injection Hi as <-; discriminate Hk | reflexivity | discriminate Hi].
  - exact E.
  - reflexivity.
  - reflexivity.
  - exists history, groups. split; [reflexivity|]. split; [exact Hg|]. rewrite Hl.
    assert (option_map (@length HistoryRow) (build_history (decoders := example_decoders) example_trace Zydis Intel) = Some 4%nat)
      as Hn by (vm_compute; reflexivity).
    rewrite E in Hn. cbn [option_map] in Hn. injection Hn as Hn. exact Hn.
Defined.

Definition no_file : str -> ifstream := fun _ => {| opened := false; end_position := 0; data := []; good := false |}.

Definition example_cli : CLI :=
  match CLI_parse (fmt := example_fmt) (argparse := example_session_argparse) [] with Ok cli => cli | Error _ => CLI_init end.

Definition example_quick : option (QuickRun * nat * list Json) :=
  run_quick (fmt := example_fmt) (memory := example_memory) (decoders := example_decoders) (build := example_build)
    (H := example_platform) (H0 := example_stream) example_processor_fingerprint no_file example_cli 0%nat [].

Example example_quick_output :
  (fun x => (x.1.1.(exit_code), length x.1.1.(out), x.1.1.(err))) <$> example_quick = Some (0, 20%nat, []).
Proof. vm_compute. reflexivity. Qed.

Lemma run_quick_reports_witness :
  exists q w j, example_quick = Some (q, w, j) /\ (q.(exit_code) = 0 -> q.(err) = []).
Proof.
  destruct (run_quick_reports (fmt := example_fmt) (memory := example_memory) (decoders := example_decoders) (build := example_build)
    (H := example_platform) (H0 := example_stream) example_processor_fingerprint no_file example_cli 0%nat [])
    as (q & w & j & E & _ & _ & He & _).
  - intros code (_ & Hcode & _).
    assert (match decoded_input (fmt := example_fmt) no_file example_cli with
      | Ok code => match quick_engine (fmt := example_fmt) (memory := example_memory) (H := example_platform)
                           example_processor_fingerprint example_cli code 0%nat with
                   | Some (trace, _) => bool_decide (0 <= base trace /\ base trace + size trace < 2 ^ 64)
                   | None => false
                   end
      | Error _ => false
      end = true) as Hrun by (vm_compute; reflexivity).
    rewrite Hcode in Hrun. destruct (quick_engine _ _ _ _) as [[trace w']|]; [|discriminate]. exists trace, w'. split; [reflexivity|].
    apply bool_decide_eq_true in Hrun. exact Hrun.
  - exists q, w, j. split; [exact E | exact He].
Defined.
