(* ===== verification/Program.v ===== *)
(** * Program: quick output from the command line to the text or the document
    ([src/src/main.cpp], [run_quick] of [src/src/bme_core.cpp]).

    The components in one statement: what a successful quick run prints is the record of
    one run of the abstract machine on the bytes and the seed of its command line. *)

From S2P Require Import Prelude Text Core Seed Cpu Platform Linux Trace History Engine Layout Cli CodeText Timeline TraceJson Widths Quick.

Local Open Scope Z_scope.

(** ** Specification *)

(** The input of a command line: the text of [--bytes] in one of the documented layouts, or
    the content of a file. *)
Definition input_bytes (open : str -> ifstream) (cli : CLI) (code : list Z) : Prop :=
  match cli.(cli_bytes), cli.(cli_input_file) with
  | Some text, _ => code_text text code
  | None, Some path => (open path).(opened) = true /\ code <> [] /\ exists rest, (open path).(data) = code ++ rest
  | None, None => False
  end.

(** The request a quick run makes of its platform. *)
Definition quick_request {fmt : Fmt} (cli : CLI) (code : list Z) : PlatformRunRequest := {|
  request_code := code; request_seed := (quick_seed cli).1; request_max_steps := cli.(cli_max_steps);
  request_stop_offset := None; request_seed_data_pointers := true |}.

(** The document of a trace is on the stream, with its line end, and the stream is good. *)
Definition written {J} `{JsonStream J} (pretty : bool) (document : Json) (j j' : J) : Prop :=
  (glz_write pretty document j).1 = Returned (None, true)
  /\ (put_line (glz_write pretty document j).2).1 = Returned tt
  /\ j' = (put_line (glz_write pretty document j).2).2 /\ stream_good j' = true.

Section specification.
Context {fmt : Fmt}.

(** A trace that records the run of a command line. *)
Record records (cli : CLI) (code : list Z) (trace : Trace) : Prop := {
  rec_code : trace.(trace_code) = code;
  rec_cap : trace.(effective_max_steps) = cli.(cli_max_steps);
  rec_seed : exists initial_rsp data_base,
    seed_effective (quick_request cli code) trace.(trace_seed) (trace_base trace) initial_rsp data_base;
  rec_chained : events_chained trace;
  rec_counted : count_completed trace.(execution_events) <= cli.(cli_max_steps);
  rec_explained : outcome_explained trace;
}.

(** The text of a trace: the processor, the registers of the seed that are not zero, each
    row with what it changed, and the message. *)
Definition shows {decoders : Decoders} (fingerprint : CPUFingerprint) (cli : CLI) (trace : Trace) (out : list str) : Prop :=
  exists rows groups, build_history trace cli.(cli_backend) cli.(cli_syntax) = Some rows
    /\ out = [format "CPU {}" [AStr (format_cpu_summary fingerprint)]; "Seed" : str]
             ++ print_deltas cli.(cli_track) Registers_init trace.(trace_seed) ++ concat groups ++ [format "{}" [AStr trace.(message)]]
    /\ length groups = length rows
    /\ forall p row, rows !! p = Some row ->
         groups !! p = Some (row_line trace row ::
           print_deltas cli.(cli_track) (registers_before trace rows p) (registers_before trace rows (S p))).
End specification.

(** ** Lemmas *)

(** The bytes of an input are bytes. *)
Lemma decoded_input_bytes {fmt : Fmt} open cli code :
  (forall path, Forall (in_width 8) (open path).(data)) ->
  (cli.(cli_bytes) <> None \/ cli.(cli_input_file) <> None) -> decoded_input open cli = Ok code ->
  input_bytes open cli code /\ Forall (in_width 8) code.
Proof.
  intros Hfiles Hin Hd. unfold decoded_input, input_bytes in *. destruct (cli_bytes cli) as [text|].
  - apply parse_code_text_sound in Hd. split; [done | by apply (code_text_bytes text)].
  - destruct (cli_input_file cli) as [path|]; [|by destruct Hin]. cbn [default from_option id] in Hd. unfold read_binary_input in Hd.
    destruct (opened (open path)); cbn [negb] in Hd; [|done]. destruct (_ <? 0); [done|]. destruct (_ || _); [done|].
    destruct (_ <? _); [done|]. destruct (good (open path)); cbn [negb] in Hd; [|done].
    destruct (take _ _) eqn:E in Hd; [done|]. injection Hd as <-. rewrite <- E. split.
    + split; [done|]. split; [by rewrite E|]. exists (drop (Z.to_nat (end_position (open path))) (data (open path))).
      by rewrite take_drop.
    + by apply Forall_take.
Qed.

Lemma input_bytes_some open cli code : input_bytes open cli code -> code <> [].
Proof. unfold input_bytes. destruct (cli_bytes cli), (cli_input_file cli); [by intros [] .. | by intros (_ & ? & _) | done]. Qed.

Section program.
Context {fmt : Fmt} {argparse : ArgParse} {memory : Memory} {decoders : Decoders} {build : Build} {W J : Type}
  {platform : Platform W} {typed : TypedPlatform platform} `{JsonStream J}.
Context (fingerprint : CPUFingerprint) (open : str -> ifstream).

(** The seed of an accepted command line is well formed and without a message. *)
Lemma quick_seed_valid argv cli : CLI_parse argv = Ok cli ->
  well_formed (quick_seed cli).1 /\ (quick_seed cli).2 = [] /\ 1 <= cli.(cli_max_steps) <= MAX_STEPS_LIMIT.
Proof.
  intros (Hmax & _ & [Hg Hx Hs Ha _ _ Hw])%CLI_parse_limits. unfold quick_seed. split; [by apply compose_seed_well_formed_lemma|].
  split; [|exact Hmax].
  destruct (compose_seed_spec cli.(cli_seed_gpr) cli.(cli_seed_flags) cli.(cli_seed_xmm) cli.(cli_seed_st)
    cli.(cli_seed_floating_environment) []) as (tags & -> & _). by apply seed_errors_nil.
Qed.

(** A run that is no error of the engine records the run of its command line. *)
Lemma quick_engine_records argv cli code w trace w' :
  CLI_parse argv = Ok cli -> code <> [] ->
  quick_engine fingerprint cli code w = Some (trace, w') -> placed trace -> trace.(trace_outcome) <> OError ->
  records cli code trace.
Proof.
  intros (Hwf & _ & Hmax)%quick_seed_valid Hne Hrun Hplaced Hok. unfold quick_engine in Hrun.
  assert (0 <= cli_max_steps cli) as H0 by lia.
  pose proof (run_engine_cap _ _ _ _ _ _ _ _ _ _ _ H0 Hrun) as Hcap.
  assert (effective_max_steps trace = cli_max_steps cli) as Heff.
  { rewrite Hcap. unfold capped_steps, MAX_STEPS_LIMIT in *. destruct (Z.eqb_spec (cli_max_steps cli) 0); lia. }
  pose proof (run_engine_inv _ _ _ _ _ _ _ _ _ _ _ Hwf H0 Hrun) as (_ & Hcode & _ & _ & Hinv).
  destruct (run_engine_record _ _ _ _ _ _ _ _ _ _ _ Hwf H0 Hrun) as (_ & _ & Hchain & Hcount & Hout).
  { unfold placed, History.base, History.size in Hplaced. by rewrite Hcode in Hplaced. }
  split; [done | done | | done | lia |].
  - destruct Hinv as [(_ & _ & [? | [_ ?]] & _) | (_ & request & rsp & data & _ & Eq & _ & _ & Ep & _ & _ & _ & _ & _ & Hs & _)]; [done..|].
    exists rsp, data. destruct Hs. split; rewrite ?Ep, ?Eq in *; done.
  - destruct Hout as [(_ & _ & [? | [_ ?]]) | ?]; done.
Qed.

(** On a platform that lays its runs out, the runs of a quick run are placed: the premise of
    [main_quick_output]. *)
Lemma quick_engine_placed page_size data_reserve_base argv cli code w trace w' :
  0 < page_size -> LaidOutPlatform platform page_size data_reserve_base code ->
  (forall path, Forall (in_width 8) (open path).(data)) -> CLI_parse argv = Ok cli -> quick_accepts open cli code ->
  quick_engine fingerprint cli code w = Some (trace, w') -> trace.(trace_outcome) <> OError -> placed trace.
Proof.
  intros Hp law Hfiles (Hwf & _ & Hmax)%quick_seed_valid (Hin & Hd & _) Hrun Hok.
  assert (0 <= cli_max_steps cli) as H0 by lia.
  assert (code <> []) as Hne by (by apply (input_bytes_some open cli), decoded_input_bytes).
  unfold quick_engine in Hrun.
  exact (run_engine_placed page_size data_reserve_base _ _ _ _ _ _ _ _ _ _ _ Hp Hwf H0 Hrun Hok Hne).
Qed.

Lemma chained_faults_last trace : events_chained trace -> faults_last trace.
Proof. intros Hchain i event Hi Hk. specialize (Hchain i event Hi). rewrite Hk in Hchain. apply Hchain. Qed.

(** The text of a recorded trace. *)
Lemma quick_text_shows cli trace q :
  placed trace -> faults_last trace -> trace.(cpu_fingerprint) = Some fingerprint -> trace.(trace_outcome) <> OError ->
  quick_text cli trace = Some q -> q.(err) = [] /\ shows fingerprint cli trace q.(out).
Proof.
  intros Hp Hf Hcpu Hok. unfold quick_text. rewrite bool_decide_false by done. rewrite Hcpu. cbn [mbind option_bind].
  destruct (build_history _ _ _) as [rows|] eqn:E; [|done]. cbn [mbind option_bind].
  destruct (quick_rows_run trace (cli_track cli) _ _ rows Hp Hf E rows [] trace.(trace_seed)) as (groups & Hg & Hl & Hlines);
    [done | by left|].
  rewrite Hg. cbn [mbind option_bind]. intros [= <-]. split; [done|]. by exists rows, groups.
Qed.

(** A document that was written. *)
Lemma write_trace_json_written trace pretty (j j' : J) document :
  trace.(cpu_fingerprint) = Some fingerprint -> TraceDocumentView_value trace fingerprint = Some document ->
  write_trace_json trace pretty j = Some (Ok tt, j') -> written pretty document j j'.
Proof.
  intros Hf Hd. unfold write_trace_json, written. cbv zeta. rewrite Hf, Hd. cbn [mbind option_bind].
  destruct (glz_write pretty document j) as [[[[error|] []]|?|?] j1]; try done. cbn [fst snd].
  destruct (put_line j1) as [[[]|?|?] j2]; try done. destruct (stream_good j2) eqn:E; [|done]. by intros [= <-].
Qed.

(** A quick run with exit code zero, from its command line. *)
Lemma run_quick_output argv cli w j q w' j' :
  fingerprint_fits fingerprint -> (forall path, Forall (in_width 8) (open path).(data)) ->
  (forall code trace v, quick_accepts open cli code -> quick_engine fingerprint cli code w = Some (trace, v) ->
    trace.(trace_outcome) <> OError -> placed trace) ->
  CLI_parse argv = Ok cli -> run_quick fingerprint open cli w j = Some (q, w', j') -> q.(exit_code) = 0 ->
  exists code trace, input_bytes open cli code /\ records cli code trace /\ q.(err) = []
    /\ match cli.(cli_format) with
       | FormatText => shows fingerprint cli trace q.(out) /\ j' = j
       | FormatJson => q.(out) = [] /\ exists document, written cli.(cli_pretty_json) document j j' /\ read_trace document = Some trace
       end.
Proof.
  intros Hfits Hfiles Hplaced Hcli Hrun Hcode. destruct (quick_accepts_dec open cli) as [[code Hacc] | Hno].
  2: { destruct (run_quick_refused fingerprint open cli w j Hno) as (q' & E & Hc & _). rewrite E in Hrun. congruence. }
  destruct (quick_seed_valid argv cli Hcli) as (Hwf & _ & Hmax). pose proof Hacc as (Hin & Hd & _).
  destruct (decoded_input_bytes open cli code Hfiles Hin Hd) as [Hbytes Hwidth].
  rewrite (run_quick_accepted fingerprint open cli w j code Hacc) in Hrun.
  destruct (quick_engine fingerprint cli code w) as [[trace v]|] eqn:E; [|done]. cbn [mbind option_bind] in Hrun.
  specialize (Hplaced code trace v Hacc E).
  assert (code <> []) as Hne by (by apply (input_bytes_some open cli)).
  pose proof (run_engine_fingerprint _ _ _ _ _ _ _ _ _ _ _ E) as Hf.
  assert (trace.(trace_outcome) <> OError -> records cli code trace) as Hrec by (intros Ho; eapply quick_engine_records; eauto).
  exists code, trace. split; [exact Hbytes|]. destruct (cli_format cli).
  - destruct (quick_text cli trace) as [q'|] eqn:Eq; [|done]. injection Hrun as <- <- <-.
    assert (trace.(trace_outcome) <> OError) as Hok.
    { intros Ho. unfold quick_text in Eq. rewrite bool_decide_true in Eq by done. injection Eq as <-. discriminate Hcode. }
    specialize (Hrec Hok). destruct (quick_text_shows cli trace q' (Hplaced Hok) (chained_faults_last _ (rec_chained _ _ _ Hrec)) Hf Hok Eq).
    by do 3 (split; [done|]).
  - destruct (write_trace_json trace (cli_pretty_json cli) j) as [[r j1]|] eqn:Ew; [|done]. cbn [mbind option_bind] in Hrun.
    destruct r as [[]|e]; [|injection Hrun as <- _ _; discriminate Hcode]. injection Hrun as <- _ <-. cbn [exit_code out err] in *.
    case_bool_decide as Ho; [discriminate Hcode|]. split; [by apply Hrec|]. do 2 (split; [done|]).
    destruct (run_document_reads_back _ _ _ _ _ _ _ _ _ _ _ Hfits Hwidth Hwf E (Hplaced Ho)) as (document & Hdoc & Hread).
    exists document. split; [by apply (write_trace_json_written trace)|done].
Qed.
End program.

(** ** Properties *)

(** C6. A quick run that exits with zero has printed a true record of one run of the input
    of its command line: the command line is accepted; the input is the bytes of a
    documented layout or of the file; the registers the run starts from are those of the
    seeds of the command line; the events chain from there to the reported outcome within
    the cap; and the text shows the processor, the seed, every row of the history with
    exactly what it changed, and the message, or the document on the output reads back to
    that trace.  Nothing is on the error output. *)
Theorem main_quick_output {fmt : Fmt} {argparse : ArgParse} {memory : Memory} {decoders : Decoders} {build : Build} {W J : Type}
    {platform : Platform W} {typed : TypedPlatform platform} `{JsonStream J} fingerprint open instrumented argv (w : W) (j : J) q w' j' :
  fingerprint_fits fingerprint -> (forall path, Forall (in_width 8) (open path).(data)) ->
  (forall cli code trace v, CLI_parse argv = Ok cli -> quick_accepts open cli code ->
    quick_engine fingerprint cli code w = Some (trace, v) -> trace.(trace_outcome) <> OError -> placed trace) ->
  main fingerprint open instrumented argv w j = Some (Exited q, w', j') -> q.(exit_code) = 0 ->
  exists cli code trace, CLI_parse argv = Ok cli /\ cli.(cli_quick) = true
    /\ input_bytes open cli code /\ records cli code trace /\ q.(err) = []
    /\ match cli.(cli_format) with
       | FormatText => shows fingerprint cli trace q.(out) /\ j' = j
       | FormatJson => q.(out) = [] /\ exists document, written cli.(cli_pretty_json) document j j' /\ read_trace document = Some trace
       end.
Proof.
  intros Hfits Hfiles Hplaced Hmain Hcode. unfold main in Hmain.
  destruct (CLI_parse argv) as [cli|error] eqn:E; [|injection Hmain as <- _ _; discriminate Hcode].
  destruct (cli_quick cli) eqn:Equick.
  - destruct (run_quick fingerprint open cli w j) as [[[q' w1] j1]|] eqn:Er; [|done]. injection Hmain as <- <- <-.
    destruct (run_quick_output fingerprint open argv cli w j q' w1 j1 Hfits Hfiles (fun code trace v => Hplaced cli code trace v eq_refl) E Er Hcode)
      as (code & trace & Hout). by exists cli, code, trace.
  - by destruct (run_tui _ _ _ _ _) as [[]|].
Qed.

(** *** A concrete run *)

#[local] Existing Instance typed_kernel_typed.

Local Abbreviation example_main :=
  (main (fmt := example_fmt) (argparse := Cli.example_argparse) (memory := example_memory) (decoders := example_decoders)
    (build := example_build) (H := linux_platform (H := typed_kernel) (zydis := example_zydis) 40) (H0 := example_stream)
    example_processor_fingerprint no_file false [] 0%nat []).

Lemma main_quick_output_witness :
  exists q w' j' cli code trace, example_main = Some (Exited q, w', j') /\ q.(exit_code) = 0
    /\ CLI_parse (fmt := example_fmt) (argparse := Cli.example_argparse) [] = Ok cli
    /\ records (fmt := example_fmt) cli code trace.
Proof.
  destruct example_main as [[[[q|ui] w'] j']|] eqn:E; [|exfalso; vm_compute in E; discriminate E..].
  assert (option_map (fun x => match x.1.1 with Exited q => q.(exit_code) | Interactive _ => 2 end) example_main = Some 0) as Hc
    by (vm_compute; reflexivity).
  rewrite E in Hc. apply (inj Some) in Hc. cbn [fst] in Hc.
  destruct (main_quick_output (fmt := example_fmt) (argparse := Cli.example_argparse) (memory := example_memory)
    (decoders := example_decoders) (build := example_build) (platform := linux_platform (H := typed_kernel) (zydis := example_zydis) 40)
    (H := example_stream) example_processor_fingerprint no_file false [] 0%nat [] q w' j')
    as (cli & code & trace & Hcli & _ & _ & Hrec & _).
  - apply query_cpu_fingerprint_fits, example_processor_typed.
  - intros path. constructor.
  - intros cli code trace v Hcli H Hrun _.
    destruct H as (_ & Hd & _).
    assert (match CLI_parse (fmt := example_fmt) (argparse := Cli.example_argparse) [] with
      | Ok cli => match decoded_input (fmt := example_fmt) no_file cli with
        | Ok code => match quick_engine (fmt := example_fmt) (memory := example_memory)
              (H := linux_platform (H := typed_kernel) (zydis := example_zydis) 40) example_processor_fingerprint cli code 0%nat with
          | Some (trace, _) => bool_decide (0 <= base trace /\ base trace + size trace < 2 ^ 64)
          | None => false
          end
        | Error _ => false
        end
      | Error _ => false
      end = true) as Hall by (vm_compute; reflexivity).
    rewrite Hcli, Hd, Hrun in Hall. apply bool_decide_eq_true in Hall. exact Hall.
  - exact E.
  - exact Hc.
  - exists q, w', j', cli, code, trace. exact (conj eq_refl (conj Hc (conj Hcli Hrec))).
Defined.
