(* ===== verification/Panels.v ===== *)
(** * Panels: the register and flag panels of the text interface and the events on them
    ([src/src/bme_core.cpp], [render_registers] to the handlers of [layout]).

    An element of the FTXUI library is the term of the calls that make it; where it ends
    up on the screen is the library's affair, so a click comes with the boxes it is in.
    A decorator [reflect] keeps a reference to a box inside a vector of hits: a vector that
    grows past its reserve moves its elements, and the references are left dangling.
    Code that does so has no result here. *)

From S2P Require Import Prelude Text Core X87 Seed Cpu Platform Trace History Engine RegisterText Cli CodeText Timeline TraceJson Quick.

Local Open Scope Z_scope.

(** ** Elements *)

Inductive Color : Type := Yellow | Green | LightCoral.

(** The boxes the interface looks clicks up in. *)
Inductive HitBox : Type :=
| CodeBox | StackBox | DataBox | RegistersBox | HistoryBox | SyntaxBox | BackendBox
| FlagBox (i : nat) | GPRBox (i : nat) | XMMBox (i : nat) | STBox (i : nat) | CopyBox (i : nat).

(** The components whose rendering is part of an element. *)
Inductive Component : Type :=
| CodeInput | MXCSRInput | ControlWordInput | MaxStepsInput | Checkbox (label : str)
| GPRInput (reg : nat) (slice : Slice) | XMMInput (reg : nat) | STInput (reg : nat)
| Button (label : str) | HistoryToggle | HistoryTabs | RegisterToggle | RegisterScroller | FlagsView.

Inductive Decorator : Type :=
| Bold | Dim | Underlined | Inverted | Flexible | Indicator | Framed | Centered | Bordered
| Colored (c : Color)
| WidthEqual (w : Z) | WidthAbove (w : Z)
| Reflected (box : HitBox).

Inductive Element : Type :=
| txt (s : str)
| emptyElement | separator | separatorEmpty | separatorLight
| rendered (c : Component)
| decorated (e : Element) (d : Decorator)
| hbox (es : list Element)
| vbox (es : list Element)
| table (rows : list (list Element))        (* with vertical separators and a dim first row *)
| window (title content : Element)
| viewport (child : Element) (offset : Z).    (* [scroll_viewport]; its box is in [Viewport] *)

#[local] Notation "e |> d" := (decorated e d) (at level 45, left associativity).

(** ** Vectors of hits *)

Record HitVector (A : Type) : Type := {
  hits : list A;
  room : nat;                               (* reserved; every box is referred to from an element *)
}.

Arguments hits {A}. Arguments room {A}.

(** [clear] and [reserve]. *)
Definition reserved {A} (n : nat) : HitVector A := {| hits := []; room := n |}.

(** [emplace_back], where it moves no element. *)
Definition emplace_back {A} (x : A) (v : HitVector A) : option (HitVector A) :=
  if (length v.(hits) <? v.(room))%nat then Some {| hits := v.(hits) ++ [x]; room := v.(room) |} else None.

Record GPRHit : Type := { hit_reg : nat; hit_level : Z }.

Record CopyHit : Type := { copy_text : str; copy_normalized : option str }.

(** A panel fills the vector of its own hits and the one of the copy targets. *)
Definition Drawing (A : Type) : Type := (HitVector A * HitVector CopyHit)%type.

Abbreviation Render A := (StateM (Drawing A)).

Definition start_drawing {A} (own copies : nat) : Render A unit := fun _ => Some (tt, (reserved own, reserved copies)).

(** [hits.emplace_back(x)] and [reflect(hits.back().box)]. *)
Definition hit_cell {A} (x : A) (box : nat -> HitBox) (cell : Element) : Render A Element := fun '(own, copies) =>
  own' ← emplace_back x own; Some (cell |> Reflected (box (length own.(hits))), (own', copies)).

(** The lambda [copy_cell]. *)
Definition copy_cell {A} (cell : Element) (text : str) (normalized : option str) : Render A Element := fun '(own, copies) =>
  copies' ← emplace_back {| copy_text := text; copy_normalized := normalized |} copies;
  Some (cell |> Reflected (CopyBox (length copies.(hits))), (own, copies')).

(** [has_trace ? copy_cell(cell, text) : cell]. *)
Definition copy_cell_if {A} (condition : bool) (cell : Element) (text : str) (normalized : option str) : Render A Element :=
  if condition then copy_cell cell text normalized else mret cell.

(** A highlighted value, a plain one. *)
Definition marked (changed : bool) (cell : Element) : Element :=
  if changed then cell |> Colored Yellow |> Bold else cell |> Dim.

Definition REGISTER_DISPLAY_ORDER : list Reg :=
  [RIP; RAX; RBX; RCX; RDX; RSI; RDI; RBP; RSP; R8; R9; R10; R11; R12; R13; R14; R15; RFLAGS].

(** ** What the panels show *)

Section state.
Context (ui : UI).

Definition has_trace : bool := negb (bool_decide (ui.(ui_navigation).(history_rows) = [])).

Definition position : nat := Z.to_nat ui.(ui_navigation).(cursor).

Definition current : Registers := history_state_at ui.(ui_navigation) position.

Definition previous : Registers := history_state_at ui.(ui_navigation) (if (position =? 0)%nat then 0 else position - 1).
End state.

(** ** General registers *)

Section panels.
Context {fmt : Fmt} {memory : Memory}.

Definition is_flat (reg : Reg) : bool := bool_decide (reg = RIP) || bool_decide (reg = RSP) || bool_decide (reg = RFLAGS).

(** [normalized_copy]: the label of the address, where it has one. *)
Definition normalized_copy (trace : Trace) (value : Z) (text : str) : option str :=
  let normalized := format_address_value trace value true in
  if bool_decide (normalized = text) then None else Some normalized.

Definition flat_row (ui : UI) (reg : Reg) : Render GPRHit (list Element) :=
  let trace := ui.(ui_navigation).(ui_trace) in
  let value := reg_get (current ui) reg in
  let is_flags := bool_decide (reg = RFLAGS) in
  let name := txt (("  " : str) ++ nth (reg_index reg) REG_NAMES []) |> Bold in
  let copy : str := if has_trace ui then format_hex64_string value else "-" in
  let text : str := if has_trace ui then
                      (if is_flags then copy else format_address_value trace value ui.(ui_input).(normalized_addresses))
                    else "-" in
  let val := marked (has_trace ui && negb (value =? reg_get (previous ui) reg)) (txt text) in
  let normalized := if has_trace ui && negb is_flags then normalized_copy trace value copy else None in
  cell ← copy_cell_if (has_trace ui) val copy normalized;
  mret [emptyElement; name; cell].

(** The lambda [emit]: one node of the tree of a register. *)
Definition emit (ui : UI) (reg : nat) (level : Z) (sub_name : str) (value prev_value : Z) (digits : Z) (slice : Slice)
    : Render GPRHit (list Element) :=
  let trace := ui.(ui_navigation).(ui_trace) in
  let depth := nth reg ui.(ui_panel).(gpr_depth) 0 in
  let marker : str := if level <? 3 then (if level <? depth then "v " else "> ") else "  " in
  let name := txt (replicate (Z.to_nat (level * 2)) " "%char ++ marker ++ sub_name) |> Bold in
  name ← (if level <? 3 then hit_cell {| hit_reg := reg; hit_level := level |} GPRBox name else mret name);
  let seed := rendered (GPRInput reg slice) |> WidthEqual 18 in
  let copy : str := if has_trace ui then format "0x{:0{}X}" [AInt value; AInt digits] else "-" in
  let text : str := if has_trace ui then
                      (if level =? 0 then format_address_value trace value ui.(ui_input).(normalized_addresses) else copy)
                    else "-" in
  let val := marked (has_trace ui && negb (value =? prev_value)) (txt text) in
  let normalized := if has_trace ui && (level =? 0) then normalized_copy trace value copy else None in
  cell ← copy_cell_if (has_trace ui) val copy normalized;
  mret [seed; name; cell].

(** A row that is only there at some depth. *)
Definition row_if (condition : bool) (row : Render GPRHit (list Element)) : Render GPRHit (list (list Element)) :=
  if condition then r ← row; mret [r] else mret [].

(** The rows of one register. *)
Definition register_rows (ui : UI) (reg : Reg) : Render GPRHit (list (list Element)) :=
  if is_flat reg then r ← flat_row ui reg; mret [r]
  else
    let i := reg_index reg in
    let depth := nth i ui.(ui_panel).(gpr_depth) 0 in
    let full := reg_get (current ui) reg in
    let prev := reg_get (previous ui) reg in
    let low (w : Z) (x : Z) : Z := Z.land x (2 ^ w - 1) in
    a ← emit ui i 0 (nth i REG_NAMES []) full prev 16 SFull;
    b ← row_if (1 <=? depth) (emit ui i 1 (nth i GPR_NAMES_32 []) (low 32 full) (low 32 prev) 8 SDword);
    c ← row_if (2 <=? depth) (emit ui i 2 (nth i GPR_NAMES_16 []) (low 16 full) (low 16 prev) 4 SWord);
    d ← row_if ((3 <=? depth) && (i <? 4)%nat)
          (emit ui i 3 (nth i GPR_NAMES_8H []) (low 8 (Z.shiftr full 8)) (low 8 (Z.shiftr prev 8)) 2 SByteHigh);
    e ← row_if (3 <=? depth) (emit ui i 3 (nth i GPR_NAMES_8L []) (low 8 full) (low 8 prev) 2 SByteLow);
    mret (a :: b ++ c ++ d ++ e).

Definition render_registers (ui : UI) : Render GPRHit Element :=
  _ ← start_drawing ((GPR_COUNT - 1) * 3) (GPR_COUNT * 5);
  rows ← mapM (register_rows ui) REGISTER_DISPLAY_ORDER;
  mret (table ([txt "Seed"; txt "Register"; txt "Value"] :: concat rows)).

(** ** Flags *)

Definition flag_token (flags : Z) (flag : str * Z) : Render Z (list Element) :=
  let '(name, bit) := flag in
  let token := if negb (Z.land flags bit =? 0) then txt name |> Colored Green |> Bold else txt name |> Dim in
  token ← hit_cell bit FlagBox token;
  mret [token; txt "  "].

(** The selected row is a fault. *)
Definition on_fault (n : Navigation) : bool :=
  match row_at (history_rows_at n n.(history_tab)) n.(cursor) with
  | Some row => bool_decide (row.(row_kind) = HKFaulted)
  | None => false
  end.

Definition shown_flags (ui : UI) : Z :=
  if bool_decide (ui.(ui_navigation).(history_rows) = []) then ui.(ui_input).(ui_seed_flags) else reg_get (current ui) RFLAGS.

(** It leaves the copy targets of the register panel as they are. *)
Definition render_flags (ui : UI) : Render Z Element :=
  _ ← (fun '(_, copies) => Some (tt, (reserved (length STATUS_FLAGS), copies)));
  let flags := shown_flags ui in
  tokens ← mapM (flag_token flags) STATUS_FLAGS;
  let resume := if on_fault ui.(ui_navigation) && negb (Z.land flags RFLAGS_RESUME_FLAG =? 0)
                then [txt "|  "; txt "RF" |> Colored Yellow |> Bold] else [] in
  mret (hbox (concat tokens ++ resume)).

(** ** Vector registers *)

(** Copy targets with a comma between them. *)
Fixpoint lane_cells {A} (changed : bool) (texts : list str) : Render A (list Element) :=
  match texts with
  | [] => mret []
  | text :: texts =>
    cell ← copy_cell (marked changed (txt text)) text None;
    rest ← lane_cells changed texts;
    mret (cell :: match texts with [] => [] | _ => marked changed (txt ", ") :: rest end)
  end.

(** A row of lanes: [f64x2] and [f32x4]. *)
Definition lane_row {A} (changed : bool) (label : str) (texts : list str) : Render A (list Element) :=
  lanes ← lane_cells changed texts;
  mret [emptyElement; marked changed (txt label); hbox lanes].

Definition f64_lanes (value : Z * Z) : list str := [format_float 53 11 value.2; format_float 53 11 value.1].

Definition f32_lanes (value : Z * Z) : list str :=
  [format_float_single (u32 (Z.shiftr value.2 32)); format_float_single (u32 value.2);
   format_float_single (u32 (Z.shiftr value.1 32)); format_float_single (u32 value.1)].

Definition xmm_row (ui : UI) (i : nat) : Render nat (list (list Element)) :=
  let value := nth i (current ui).(xmm) (0, 0) in
  let changed := has_trace ui && bool_decide (value <> nth i (previous ui).(xmm) (0, 0)) in
  let display : str := if has_trace ui then format "{:016X}:{:016X}" [AInt value.2; AInt value.1] else "-" in
  let copy := if has_trace ui then format "{:016X}{:016X}" [AInt value.2; AInt value.1] else [] in
  let seed := rendered (XMMInput i) |> WidthEqual 20 in
  let expanded := nth i ui.(ui_panel).(xmm_expand) false in
  let marker : str := if expanded then "v " else "> " in
  name ← hit_cell i XMMBox (txt (marker ++ format "XMM{}" [AInt (Z.of_nat i)]) |> Bold);
  cell ← copy_cell_if (has_trace ui) (marked changed (txt display)) copy None;
  lanes ← (if has_trace ui then
             wide ← lane_row changed "    f64x2" (f64_lanes value);
             narrow ← (if expanded then row ← lane_row changed "    f32x4" (f32_lanes value); mret [row] else mret []);
             mret (wide :: narrow)
           else mret []);
  mret ([seed; name; cell] :: lanes).

(** [decode_block]. *)
Definition decode_block (prefix : str) (groups : list str) : Element :=
  vbox (imap (fun i group => txt ((if (i =? 0)%nat then prefix else ("  " : str)) ++ group) |> Dim) groups).

Definition render_xmm (ui : UI) : Render nat Element :=
  let r := current ui in
  _ ← start_drawing (length r.(xmm)) (length r.(xmm) * 7 + 1);
  rows ← mapM (xmm_row ui) (seq 0 (length r.(xmm)));
  let mxcsr_text : str := if has_trace ui then format "0x{:08X}" [AInt r.(mxcsr)] else "-" in
  cell ← copy_cell_if (has_trace ui)
           (marked (has_trace ui && negb (r.(mxcsr) =? (previous ui).(mxcsr))) (txt mxcsr_text)) mxcsr_text None;
  let mxcsr_row := [rendered MXCSRInput |> WidthEqual 20; txt "MXCSR" |> Bold; cell] in
  let all := table ([txt "Seed"; txt "Register"; txt "Value (hi : lo)"] :: concat rows ++ [mxcsr_row]) in
  mret (if has_trace ui then vbox [all; decode_block [] (decode_mxcsr r.(mxcsr))] else all).

(** ** Stack registers *)

(** The physical register of a stack slot. *)
Definition physical (r : Registers) (i : nat) : Z := Z.land (Z.land (Z.shiftr r.(fpu_status_word) 11) 7 + Z.of_nat i) 7.

Definition occupied (ui : UI) (r : Registers) (i : nat) : bool :=
  has_trace ui && negb (Z.land (Z.shiftr r.(fpu_tag_word_abridged) (physical r i)) 1 =? 0).

Definition st_row (ui : UI) (i : nat) : Render nat (list (list Element)) :=
  let r := current ui in
  let bytes := nth i r.(st) [] in
  let full := occupied ui r i in
  let tag : str := if has_trace ui then x87_tag_name full bytes else "-" in
  let raw : str := if has_trace ui then hex_stack bytes else "-" in
  let value : str := if full then format_float 53 11 (st80_to_double bytes r.(fpu_control_word)) else "-" in
  let changed := has_trace ui && (bool_decide (bytes <> nth i (previous ui).(st) [])
                                  || negb (Bool.eqb full (occupied ui (previous ui) i))) in
  let style (text : str) : Element := marked changed (txt text) in
  let seed := rendered (STInput i) |> WidthEqual 20 in
  let expanded := nth i ui.(ui_panel).(st_expand) false in
  let marker : str := if expanded then "v " else "> " in
  name ← hit_cell i STBox (txt (marker ++ format "ST{}" [AInt (Z.of_nat i)]) |> Bold);
  value_cell ← copy_cell_if full (style value) value None;
  raw_cell ← copy_cell_if (has_trace ui) (style raw) raw None;
  let row := [seed; name; txt (if has_trace ui then format "x87r{}" [AInt (physical r i)] else "-") |> Dim; style tag; raw_cell;
              value_cell |> WidthAbove 16] in
  narrowed ← (if full && expanded then
                let bits := st80_to_float bytes r.(fpu_control_word) in
                let text := format_float_single bits in
                cell ← copy_cell (style text) text None;
                mret [[emptyElement; style "  f32"; emptyElement; emptyElement; style (format "0x{:08X}" [AInt bits]);
                       cell |> WidthAbove 16]]
              else mret []);
  mret (row :: narrowed).

Definition render_x87 (ui : UI) : Render nat Element :=
  let r := current ui in
  _ ← start_drawing (length r.(st)) (length r.(st) * 3 + 1);
  rows ← mapM (st_row ui) (seq 0 (length r.(st)));
  let text : str := if has_trace ui then format "0x{:04X}" [AInt r.(fpu_control_word)] else "-" in
  cell ← copy_cell_if (has_trace ui)
           (marked (has_trace ui && negb (r.(fpu_control_word) =? (previous ui).(fpu_control_word))) (txt text)) text None;
  let control_row := [rendered ControlWordInput |> WidthEqual 20; txt "Control word" |> Bold; emptyElement; emptyElement; cell;
                      emptyElement] in
  let all := table ([txt "Seed"; txt "ST"; txt "x87r"; txt "Tag"; txt "Raw (80-bit)"; txt "Value"]
                      :: concat rows ++ [control_row]) in
  mret (if has_trace ui then
          vbox [all;
                decode_block (format "CW 0x{:04X}  " [AInt r.(fpu_control_word)]) (decode_x87_control_word r.(fpu_control_word));
                decode_block (format "SW 0x{:04X}  " [AInt r.(fpu_status_word)]) (decode_x87_status_word r.(fpu_status_word));
                txt (format "TW 0x{:02X}" [AInt r.(fpu_tag_word_abridged)]) |> Dim]
        else all).
End panels.

(** ** The whole screen *)

(** What the last drawing left for the events: the vectors of hits and the two addresses. *)
Record Screen : Type := {
  flag_hits : list Z;
  gpr_hits : list GPRHit;
  xmm_hits : list nat;
  st_hits : list nat;
  copy_hits : list CopyHit;
  code_addr : str;
  stack_addr : str;
}.

Definition Screen_init : Screen := {|
  flag_hits := []; gpr_hits := []; xmm_hits := []; st_hits := []; copy_hits := []; code_addr := "-"; stack_addr := "-";
|}.

Section layout.
Context {fmt : Fmt} {memory : Memory}.

(** The panel of the visible tab, from vectors that are cleared first. *)
Definition draw_panel (ui : UI) (s : Screen) : option (Element * Screen) :=
  let with_hits gprs xmms sts copies := {|
    flag_hits := s.(flag_hits); gpr_hits := gprs; xmm_hits := xmms; st_hits := sts; copy_hits := copies;
    code_addr := s.(code_addr); stack_addr := s.(stack_addr) |} in
  let empty {A} : Drawing A := (reserved 0, reserved 0) in
  if ui.(ui_panel).(register_tab) =? 0 then
    '(e, (own, copies)) ← render_registers ui empty; Some (e, with_hits own.(hits) s.(xmm_hits) s.(st_hits) copies.(hits))
  else if ui.(ui_panel).(register_tab) =? 1 then
    '(e, (own, copies)) ← render_xmm ui empty; Some (e, with_hits s.(gpr_hits) own.(hits) s.(st_hits) copies.(hits))
  else
    '(e, (own, copies)) ← render_x87 ui empty; Some (e, with_hits s.(gpr_hits) s.(xmm_hits) own.(hits) copies.(hits)).

Definition draw_flags (ui : UI) (s : Screen) : option (Element * Screen) :=
  '(e, (own, _)) ← render_flags ui (reserved 0, reserved 0);
  Some (e, {| flag_hits := own.(hits); gpr_hits := s.(gpr_hits); xmm_hits := s.(xmm_hits); st_hits := s.(st_hits);
              copy_hits := s.(copy_hits); code_addr := s.(code_addr); stack_addr := s.(stack_addr) |}).

(** An address of the seed, when there is one. *)
Definition seed_address (trace : Trace) (reg : Reg) : str :=
  let value := reg_get trace.(trace_seed) reg in
  if negb (value =? 0) then format_hex64_string value else "-".

Definition data_addr : str := format "0x{:016X}" [AInt scratch_data_base].

Definition address_element (address : str) (box : HitBox) : Element :=
  let e := txt address |> Bold |> Reflected box in
  if bool_decide (address = "-") then e else e |> Underlined.

Definition address_row (ui : UI) : Element :=
  let trace := ui.(ui_navigation).(ui_trace) in
  let code_size := if bool_decide (trace.(trace_code) = []) then []
                   else format " ({} B)" [AInt (Z.of_nat (length trace.(trace_code)))] in
  hbox [txt " Code @ " |> Dim; address_element (seed_address trace RIP) CodeBox; txt code_size |> Dim;
        separatorEmpty; separatorLight; separatorEmpty;
        txt "RSP @ " |> Dim; address_element (seed_address trace RSP) StackBox;
        txt (format " (Stack {} KiB)" [AInt (SCRATCH_STACK_BYTES / 1024)]) |> Dim;
        separatorEmpty; separatorLight; separatorEmpty;
        txt "Data @ " |> Dim; txt data_addr |> Bold |> Underlined |> Reflected DataBox;
        txt (format " ({} KiB)" [AInt (SCRATCH_DATA_BYTES / 1024)]) |> Dim].

Definition BUTTONS : list str :=
  ["Run" : str; "Run to row" : str; "Step" : str; "Back" : str; "Copy row" : str; "Reset" : str; "Settings" : str;
   "About" : str; "Quit" : str].

(** Elements with an empty separator between them. *)
Fixpoint spaced (es : list Element) : list Element :=
  match es with
  | e :: (_ :: _) as rest => e :: separatorEmpty :: spaced rest
  | _ => es
  end.

Definition controls : Element := hbox (spaced (map (fun label => rendered (Button label)) BUTTONS)).

(** [history_tab_labels]. *)
Definition HISTORY_TAB_LABELS : list str := ("Main" : str) :: map bi_name BACKENDS.

(** The renderer of [layout]; the components in it are drawn on their own. *)
Definition layout_element (ui : UI) : Element :=
  let n := ui.(ui_navigation) in
  let left :=
    [window (txt " Registers ")
       (vbox [rendered RegisterToggle; separator; rendered RegisterScroller |> Flexible] |> Reflected RegistersBox) |> Flexible]
    ++ (if history_selection_is_static n
        then [txt " Static row - no execution state. Showing prior state. " |> Colored Yellow |> Bold] else [])
    ++ [window (txt " Flags ") (rendered FlagsView)] in
  let title := format " History ({}) " [AStr (nth (Z.to_nat n.(history_tab)) HISTORY_TAB_LABELS [])] in
  let right := window (txt title)
    (vbox [rendered HistoryToggle; separator; rendered HistoryTabs |> Indicator |> Framed |> Flexible] |> Reflected HistoryBox) in
  let body := hbox [vbox left |> WidthEqual 84; right |> Flexible] |> Flexible in
  let warning := if ui.(show_instrumentation_warning)
                 then txt (format " WARNING: {}" [AStr INSTRUMENTATION_REFUSAL]) |> Colored LightCoral |> Bold else emptyElement in
  vbox [window (txt " BME - Bare metal machine code viewer ")
          (vbox [hbox [txt " Bytes " |> Bold; rendered CodeInput |> Flexible]; address_row ui; separator; controls]);
        body; warning; txt (" "%char :: ui.(status)) |> Dim].

(** An entry of the menu of a history: the transform of [history_menu_option]. *)
Definition history_entry (n : Navigation) (tab : Z) (index : nat) (label : str) (active focused : bool) : Element :=
  let e := txt ((if active then "> " else "  " : str) ++ label) in
  let e :=
    match index with
    | O => e
    | S index =>
      match history_rows_at n tab !! index with
      | None => e
      | Some row =>
        let trace := n.(ui_trace) in
        let is_stop := (row.(row_rip) =? trace.(stop_address)) && negb (bool_decide (trace.(stop_reason) = [])) in
        let faulted := bool_decide (row.(row_kind) = HKFaulted) in
        let e := if faulted then e |> Colored LightCoral else if is_stop then e |> Colored Yellow else e in
        let e := if (bool_decide (row.(row_kind) = HKNotReached) || bool_decide (row.(row_kind) = HKData)) && negb is_stop
                 then e |> Dim else e in
        if faulted || is_stop then e |> Bold else e
      end
    end in
  let e := if focused then e |> Inverted else e in
  if active then e |> Bold else e.

Definition BME_COPYRIGHT : str := "Copyright (c) 2026 angelfor3v3r (Dexxi) - MIT License".

Definition BME_PLATFORM {build : Build} : str := match target_os with OSWindows => "Windows x86_64" | OSLinux => "Linux x86_64" end.

(** The lambda [field] of the modal. *)
Definition about_field (label value : str) : Element := hbox [txt label |> Dim |> WidthEqual 11; txt value].

(** The renderer of [about_modal]. *)
Definition about_element {build : Build} (fingerprint : CPUFingerprint) : Element :=
  vbox [txt " BME - Bare metal machine code viewer " |> Bold;
        separator;
        about_field "Version" (format "{} ({})" [AStr BME_GIT_TAG; AStr BME_GIT_HASH]);
        about_field "Repository" BME_GIT_URL;
        txt BME_COPYRIGHT;
        about_field "CPU" (format_cpu_summary fingerprint);
        about_field "Platform" BME_PLATFORM;
        separator;
        about_field "Decoders" "Zydis (MIT), bddisasm (Apache-2.0), Capstone (BSD-3-Clause), XED (Apache-2.0)";
        about_field "Built with" "FTXUI, fmt, argparse (All MIT)";
        about_field "Licenses" "THIRD_PARTY_LICENSES.md";
        separator;
        rendered (Button "Close") |> Centered] |> Bordered.

(** [syntax_label] and [backend_label], which the handlers of both keep in step. *)
Definition syntax_label (i : Input) : str := match i.(ui_syntax) with ATT => "Syntax: AT&T" | Intel => "Syntax: Intel" end.

Definition backend_label (i : Input) : str := format "Backend: {}" [AStr (backend_info i.(ui_backend)).(bi_name)].

(** The renderer of [settings_modal]. *)
Definition settings_element (i : Input) : Element :=
  vbox [txt " Settings " |> Bold;
        separator;
        hbox [txt "Syntax" |> WidthEqual 11 |> Dim; rendered (Button (syntax_label i)) |> Reflected SyntaxBox];
        hbox [txt "Backend" |> WidthEqual 11 |> Dim; rendered (Button (backend_label i)) |> Reflected BackendBox];
        hbox [txt "Max steps" |> WidthEqual 11 |> Dim; rendered MaxStepsInput |> Inverted |> WidthEqual 12];
        rendered (Checkbox "Seed RDI/RSI to scratch data");
        rendered (Checkbox "Show normalized addresses");
        separator;
        rendered (Button "Close") |> Centered] |> WidthAbove 34 |> Bordered.

(** The seed fields of a register that [ftxui::Maybe] lets through: [seed_components]. *)
Definition gpr_seed_inputs (p : Panel) (i : nat) : list Component :=
  let depth := nth i p.(gpr_depth) 0 in
  let maybe (condition : bool) (slice : Slice) : list Component := if condition then [GPRInput i slice] else [] in
  if (i =? reg_index RSP)%nat then []
  else GPRInput i SFull :: maybe (1 <=? depth) SDword ++ maybe (2 <=? depth) SWord
       ++ (if (i <? 4)%nat then maybe (3 <=? depth) SByteHigh else []) ++ maybe (3 <=? depth) SByteLow.

(** The seed fields of the visible tab that can have the focus. *)
Definition seed_inputs (p : Panel) : list Component :=
  if p.(register_tab) =? 0 then concat (map (gpr_seed_inputs p) (seq 0 GPR_COUNT))
  else if p.(register_tab) =? 1 then map XMMInput (seq 0 16) ++ [MXCSRInput]
  else map STInput (seq 0 8) ++ [ControlWordInput].

(** One drawing of the screen: the layout, and the panels in it. *)
Definition draw (ui : UI) (s : Screen) : option (list Element * Screen) :=
  let trace := ui.(ui_navigation).(ui_trace) in
  let s := {| flag_hits := s.(flag_hits); gpr_hits := s.(gpr_hits); xmm_hits := s.(xmm_hits); st_hits := s.(st_hits);
              copy_hits := s.(copy_hits); code_addr := seed_address trace RIP; stack_addr := seed_address trace RSP |} in
  '(panel, s) ← draw_panel ui s;
  '(flags, s) ← draw_flags ui s;
  Some ([layout_element ui; panel; flags], s).
End layout.

(** ** Events *)

Inductive MouseButton : Type := LeftButton | RightButton | WheelUp | WheelDown | OtherButton.

(** A mouse event; [inside] tells the boxes that contain the pointer. *)
Record Mouse : Type := {
  button : MouseButton;
  pressed : bool;
  control : bool;
  inside : HitBox -> bool;
}.

Inductive Event : Type := EMouse (m : Mouse) | Escape | F5 | F7 | F8 | OtherEvent.

(** What a handler does to the interface; [TakeFocus] on the sink of the visible tab is
    [Defocus]. *)
Inductive Effect : Type := Nothing | Act (action : Action) | Defocus.

(** A handler tells whether the event stops there. *)
Definition Handled : Type := (bool * Effect)%type.

Definition ignored : Handled := (false, Nothing).

Definition is_left_press (m : Mouse) : bool := match m.(button) with LeftButton => m.(pressed) | _ => false end.

Definition is_right_press (m : Mouse) : bool := match m.(button) with RightButton => m.(pressed) | _ => false end.

(** The loop over the hits: the first one whose box contains the pointer. *)
Fixpoint first_hit {A} (m : Mouse) (box : nat -> HitBox) (i : nat) (hits : list A) : option (nat * A) :=
  match hits with
  | [] => None
  | x :: hits => if m.(inside) (box i) then Some (i, x) else first_hit m box (S i) hits
  end.

Definition on_left_press {A} (box : nat -> HitBox) (hits : list A) (act : nat -> A -> Action) (event : Event) : Handled :=
  match event with
  | EMouse m =>
    if is_left_press m then
      match first_hit m box 0 hits with Some (i, x) => (true, Act (act i x)) | None => ignored end
    else ignored
  | _ => ignored
  end.

(** The panels. *)
Definition flags_handler (s : Screen) : Event -> Handled := on_left_press FlagBox s.(flag_hits) (fun i _ => ClickFlag i).

Definition gpr_handler (s : Screen) : Event -> Handled :=
  on_left_press GPRBox s.(gpr_hits) (fun _ hit => ClickGPR hit.(hit_reg) hit.(hit_level)).

Definition xmm_handler (s : Screen) : Event -> Handled := on_left_press XMMBox s.(xmm_hits) (fun _ reg => ClickXMM reg).

Definition st_handler (s : Screen) : Event -> Handled := on_left_press STBox s.(st_hits) (fun _ reg => ClickST reg).

(** The focus sinks of the three panels: is the sink the active child? *)
Record Sinks : Type := { gpr_sink : bool; xmm_sink : bool; st_sink : bool }.

Definition register_has_real_focus (p : Panel) (sinks : Sinks) : bool :=
  if p.(register_tab) =? 0 then negb sinks.(gpr_sink)
  else if p.(register_tab) =? 1 then negb sinks.(xmm_sink) else negb sinks.(st_sink).

(** [TakeFocus] on the sink of the visible tab. *)
Definition defocus_current_register_tab (p : Panel) (sinks : Sinks) : Sinks :=
  if p.(register_tab) =? 0 then {| gpr_sink := true; xmm_sink := sinks.(xmm_sink); st_sink := sinks.(st_sink) |}
  else if p.(register_tab) =? 1 then {| gpr_sink := sinks.(gpr_sink); xmm_sink := true; st_sink := sinks.(st_sink) |}
  else {| gpr_sink := sinks.(gpr_sink); xmm_sink := sinks.(xmm_sink); st_sink := true |}.

(** [ScrollerBase::OnRender]: the frame follows the cursor of a field that has the focus,
    and otherwise the offset of the tab scrolls. *)
Definition scroller_element (p : Panel) (sinks : Sinks) (background : Element) : Element :=
  if register_has_real_focus p sinks then background |> Indicator |> Framed
  else viewport (background |> Indicator) ((register_offset p)).

Lemma defocused p sinks background :
  scroller_element p (defocus_current_register_tab p sinks) background =
  viewport (background |> Indicator) ((register_offset p)).
Proof.
  unfold scroller_element, defocus_current_register_tab, register_has_real_focus.
  destruct (register_tab p =? 0) eqn:E0; [by cbn|]. by destruct (register_tab p =? 1) eqn:E1.
Qed.

(** [registers_view]; [real_focus] is [register_has_real_focus()]. *)
Definition registers_handler (real_focus : bool) (event : Event) : Handled :=
  match event with
  | EMouse m =>
    if negb (m.(inside) RegistersBox) then ignored
    else if is_left_press m then (false, Defocus)
    else match m.(button) with
         | WheelUp => (true, if real_focus then Nothing else Act (WheelRegisters true))
         | WheelDown => (true, if real_focus then Nothing else Act (WheelRegisters false))
         | _ => ignored
         end
  | _ => ignored
  end.

(** [history_view]. *)
Definition history_handler (event : Event) : Handled :=
  match event with
  | EMouse m =>
    if negb (m.(inside) HistoryBox) then ignored
    else match m.(button) with
         | WheelUp => (true, Act (WheelHistory true))
         | WheelDown => (true, Act (WheelHistory false))
         | _ => ignored
         end
  | _ => ignored
  end.

(** [rightclick_back]. *)
Definition rightclick_back (box : HitBox) (on_back : Action) (event : Event) : Handled :=
  match event with
  | EMouse m => if is_right_press m && m.(inside) box then (true, Act on_back) else ignored
  | _ => ignored
  end.

Section handlers.
Context {fmt : Fmt} {memory : Memory}.

(** The address a click on one of the three addresses copies. *)
Definition copy_address (ui : UI) (m : Mouse) (value : Z) (address : str) (copied : bool) : Handled :=
  let text := if m.(control) then format_address_value ui.(ui_navigation).(ui_trace) value true else address in
  (true, Act (CopyValue text m.(control) copied)).

(** The handler of [layout]; [copied] is the answer of the clipboard. *)
Definition layout_handler (ui : UI) (s : Screen) (copied : bool) (event : Event) : Handled :=
  if ui.(show_about) || ui.(show_settings) then ignored
  else
    let seed := ui.(ui_navigation).(ui_trace).(trace_seed) in
    match event with
    | EMouse m =>
      if negb (is_left_press m) then ignored
      else if negb (bool_decide (s.(code_addr) = "-")) && m.(inside) CodeBox then
        copy_address ui m (reg_get seed RIP) s.(code_addr) copied
      else if negb (bool_decide (s.(stack_addr) = "-")) && m.(inside) StackBox then
        copy_address ui m (reg_get seed RSP) s.(stack_addr) copied
      else if m.(inside) DataBox then copy_address ui m scratch_data_base data_addr copied
      else
        match first_hit m CopyBox 0 s.(copy_hits) with
        | Some (_, hit) =>
          match hit.(copy_normalized) with
          | Some normalized =>
            (true, Act (CopyValue (if m.(control) then normalized else hit.(copy_text)) m.(control) copied))
          | None => (true, Act (CopyValue hit.(copy_text) false copied))
          end
        | None => ignored
        end
    | Escape => (true, Defocus)
    | F5 => (true, Act Run)
    | F8 => (true, Act Step)
    | F7 => (true, Act Back)
    | OtherEvent => ignored
    end.

(** [about_modal] and [settings_modal]. *)
Definition modal_handler (about : bool) (event : Event) : Handled :=
  match event with Escape => (true, Act (CloseModal about)) | _ => ignored end.
End handlers.

(** ** Drawing without a dangling box

    [draws m own copies P Q]: where the vectors have room for that many more hits, [m]
    returns, adds at most so many, its own with [P], and the result and the copy targets it
    adds have [Q]. *)
Definition draws {A B} (m : Render A B) (own copies : nat) (P : A -> Prop) (Q : B -> list CopyHit -> Prop) : Prop :=
  forall v c, (length v.(hits) + own <= v.(room))%nat -> (length c.(hits) + copies <= c.(room))%nat ->
  exists b xs ys, m (v, c) = Some (b, ({| hits := v.(hits) ++ xs; room := v.(room) |}, {| hits := c.(hits) ++ ys; room := c.(room) |}))
    /\ (length xs <= own)%nat /\ (length ys <= copies)%nat /\ Forall P xs /\ Q b ys.

Section draws.
Context {A : Type} (P : A -> Prop).

Lemma draws_ret {B} (b : B) (Q : B -> list CopyHit -> Prop) own copies : Q b [] -> draws (mret b : Render A B) own copies P Q.
Proof.
  intros Hq [v n] [c k] _ _. exists b, [], []. cbn [hits room]. rewrite !app_nil_r. split; [done|]. cbn. repeat split; try lia; done.
Qed.

Lemma draws_bind {B C} (m : Render A B) (k : B -> Render A C) own copies own' copies' (Q : B -> list CopyHit -> Prop) R :
  draws m own copies P Q ->
  (forall b ys, Q b ys -> draws (k b) own' copies' P (fun r ys' => R r (ys ++ ys'))) ->
  draws (m ≫= k) (own + own') (copies + copies') P R.
Proof.
  intros Hm Hk v c Hv Hc. destruct (Hm v c ltac:(lia) ltac:(lia)) as (b & xs & ys & E & Hx & Hy & Hp & Hq).
  destruct (Hk b ys Hq {| hits := v.(hits) ++ xs; room := v.(room) |} {| hits := c.(hits) ++ ys; room := c.(room) |})
    as (r & xs' & ys' & E' & Hx' & Hy' & Hp' & Hr); cbn [hits room]; [rewrite length_app; lia..|].
  exists r, (xs ++ xs'), (ys ++ ys'). rewrite !app_assoc. split; [apply bind_Some; by eexists _, _|].
  rewrite !length_app. repeat split; try lia; [by apply Forall_app | done].
Qed.

Lemma draws_weaken {B} (m : Render A B) own copies own' copies' (Q R : B -> list CopyHit -> Prop) :
  draws m own copies P Q -> (own <= own')%nat -> (copies <= copies')%nat -> (forall b ys, Q b ys -> R b ys) ->
  draws m own' copies' P R.
Proof.
  intros Hm Ho Hc HR v c Hv Hcs. destruct (Hm v c ltac:(lia) ltac:(lia)) as (b & xs & ys & E & Hx & Hy & Hp & Hq).
  exists b, xs, ys. repeat split; try done; [lia | lia | by apply HR].
Qed.

(** The same with the bounds as arguments. *)
Lemma draws_step {B C} (m : Render A B) (k : B -> Render A C) own copies own' copies' o c (Q : B -> list CopyHit -> Prop) R :
  draws m own copies P Q ->
  (forall b ys, Q b ys -> draws (k b) own' copies' P (fun r ys' => R r (ys ++ ys'))) ->
  (own + own' <= o)%nat -> (copies + copies' <= c)%nat -> draws (m ≫= k) o c P R.
Proof. intros Hm Hk Ho Hc. eapply draws_weaken; [by eapply draws_bind | done | done | done]. Qed.

(** A last step whose result is made into the whole. *)
Lemma draws_last {B C} (m : Render A B) (f : B -> C) own copies (Q : B -> list CopyHit -> Prop) (R : C -> list CopyHit -> Prop) :
  draws m own copies P Q -> (forall b ys, Q b ys -> R (f b) ys) -> draws (b ← m; mret (f b)) own copies P R.
Proof.
  intros Hm HR. eapply (draws_step _ _ _ _ 0 0); [exact Hm | | lia | lia]. intros b ys Hq. apply draws_ret. rewrite app_nil_r. auto.
Qed.

Lemma draws_hit x box cell : P x -> draws (hit_cell x box cell) 1 0 P (fun e ys => ys = [] /\ exists b, e = cell |> Reflected b).
Proof.
  intros Hp [v n] [c k]. cbn [hits room]. intros Hv Hc. unfold hit_cell, emplace_back. cbn [hits room].
  destruct (Nat.ltb_spec (length v) n); [|lia]. exists (cell |> Reflected (box (length v))), [x], []. cbn [mbind option_bind].
  rewrite app_nil_r. repeat split; try done; [cbn; lia.. | by constructor | by eexists].
Qed.

Lemma draws_copy cell text normalized :
  draws (copy_cell (A := A) cell text normalized) 0 1 P
    (fun e ys => ys = [{| copy_text := text; copy_normalized := normalized |}] /\ exists b, e = cell |> Reflected b).
Proof.
  intros [v n] [c k]. cbn [hits room]. intros Hv Hc. unfold copy_cell, emplace_back. cbn [hits room].
  destruct (Nat.ltb_spec (length c) k); [|lia]. eexists _, [], [_]. cbn [mbind option_bind].
  rewrite app_nil_r. repeat split; try done; [cbn; lia.. | by eexists].
Qed.

Lemma draws_mapM {X B} (f : X -> Render A B) (own copies : X -> nat) (Q : X -> B -> list CopyHit -> Prop) l :
  (forall x, In x l -> draws (f x) (own x) (copies x) P (Q x)) ->
  draws (mapM f l) (sum_list_with own l) (sum_list_with copies l) P
    (fun bs ys => exists yss, ys = concat yss /\ Forall3 Q l bs yss).
Proof.
  induction l as [|x l IH]; intros Hf.
  - apply draws_ret. exists []. split; [done | constructor].
  - cbn [sum_list_with]. change (mapM f (x :: l)) with (y ← f x; k ← mapM f l; mret (y :: k)).
    eapply draws_bind; [apply Hf; by left|]. intros b ys Hq.
    rewrite <- (Nat.add_0_r (sum_list_with own l)), <- (Nat.add_0_r (sum_list_with copies l)).
    eapply draws_bind; [apply IH; intros; apply Hf; by right|]. intros bs ys' (yss & -> & Hall).
    apply draws_ret. exists (ys :: yss). cbn [concat]. rewrite app_nil_r. split; [done | by constructor].
Qed.
End draws.

(** ** What a panel has to show *)

(** Highlighted anywhere. *)
Fixpoint is_marked (e : Element) : bool :=
  match e with
  | decorated _ (Colored Yellow) => true
  | decorated e _ | viewport e _ => is_marked e
  | hbox es | vbox es => existsb is_marked es
  | _ => false
  end.

(** The input fields in it. *)
Fixpoint inputs (e : Element) : list Component :=
  match e with
  | rendered c => [c]
  | decorated e _ | viewport e _ => inputs e
  | hbox es | vbox es => concat (map inputs es)
  | table rows => concat (map (fun row => concat (map inputs row)) rows)
  | _ => []
  end.

Lemma is_marked_marked changed s : is_marked (marked changed (txt s)) = changed.
Proof. by destruct changed. Qed.

Lemma inputs_marked changed s : inputs (marked changed (txt s)) = [].
Proof. by destruct changed. Qed.

(** What a row shows: a highlight, and input fields. *)
Definition row_summary (row : list Element) : bool * list Component := (existsb is_marked row, concat (map inputs row)).

Definition slice_value (slice : Slice) (value : Z) : Z :=
  match slice with
  | SFull => value
  | SDword => Z.land value (2 ^ 32 - 1)
  | SWord => Z.land value (2 ^ 16 - 1)
  | SByteHigh => Z.land (Z.shiftr value 8) (2 ^ 8 - 1)
  | SByteLow => Z.land value (2 ^ 8 - 1)
  end.

Definition slice_digits (slice : Slice) : nat :=
  match slice with SFull => 16 | SDword => 8 | SWord => 4 | SByteHigh | SByteLow => 2 end.

(** The slices a register shows at a depth. *)
Definition shown_slices (reg : nat) (depth : Z) : list Slice :=
  SFull :: (if 1 <=? depth then [SDword] else []) ++ (if 2 <=? depth then [SWord] else [])
  ++ (if (3 <=? depth) && (reg <? 4)%nat then [SByteHigh] else []) ++ (if 3 <=? depth then [SByteLow] else []).

(** What a row is about, and a value that can be copied. *)
Inductive Subject : Type := RowRegister (reg : Reg) (slice : Slice) 
| RowXMM (i : nat) | RowLanes (i : nat) | RowMXCSR | RowST (i : nat) | RowNarrowed (i : nat) | RowControlWord.

Inductive Target : Type :=
| CopyFlat (reg : Reg) | CopySlice (reg : Reg) (slice : Slice)
| CopyVector (i : nat) | CopyDouble (bits : Z) | CopySingle (bits : Z) | CopyMXCSR
| CopyRaw (i : nat) | CopyControlWord.

Section specification.
Context {fmt : Fmt} {memory : Memory} (ui : UI).

(** Its value is not the one before the selected row. *)
Definition subject_changed (subject : Subject) : bool :=
  let r := current ui in
  let before := previous ui in
  match subject with
  | RowRegister reg slice => negb (slice_value slice (reg_get r reg) =? slice_value slice (reg_get before reg))
  | RowXMM i | RowLanes i => bool_decide (nth i r.(xmm) (0, 0) <> nth i before.(xmm) (0, 0))
  | RowMXCSR => negb (r.(mxcsr) =? before.(mxcsr))
  | RowST i | RowNarrowed i =>
    bool_decide (nth i r.(st) [] <> nth i before.(st) []) || negb (Bool.eqb (occupied ui r i) (occupied ui before i))
  | RowControlWord => negb (r.(fpu_control_word) =? before.(fpu_control_word))
  end.

(** The seed field of the row. *)
Definition subject_inputs (subject : Subject) : list Component :=
  match subject with
  | RowRegister reg slice => if is_flat reg then [] else [GPRInput (reg_index reg) slice]
  | RowXMM i => [XMMInput i] | RowMXCSR => [MXCSRInput] | RowST i => [STInput i] | RowControlWord => [ControlWordInput]
  | RowLanes _ | RowNarrowed _ => []
  end.

Definition shows (subject : Subject) (row : list Element) : Prop :=
  row_summary row = (has_trace ui && subject_changed subject, subject_inputs subject).

Definition register_slices (reg : Reg) : list Slice :=
  if is_flat reg then [SFull] else shown_slices (reg_index reg) (nth (reg_index reg) ui.(ui_panel).(gpr_depth) 0).

Definition register_targets (reg : Reg) : list Target :=
  if is_flat reg then [CopyFlat reg] else map (CopySlice reg) (register_slices reg).

Definition f64_targets (value : Z * Z) : list Target := [CopyDouble value.2; CopyDouble value.1].

Definition f32_targets (value : Z * Z) : list Target :=
  [CopySingle (u32 (Z.shiftr value.2 32)); CopySingle (u32 value.2); CopySingle (u32 (Z.shiftr value.1 32)); CopySingle (u32 value.1)].

Definition xmm_targets (i : nat) : list Target :=
  let value := nth i (current ui).(xmm) (0, 0) in
  CopyVector i :: f64_targets value ++ (if nth i ui.(ui_panel).(xmm_expand) false then f32_targets value else []).

Definition st_targets (i : nat) : list Target :=
  let r := current ui in
  let bytes := nth i r.(st) [] in
  let full := occupied ui r i in
  (if full then [CopyDouble (st80_to_double bytes r.(fpu_control_word))] else []) ++ [CopyRaw i]
  ++ (if full && nth i ui.(ui_panel).(st_expand) false then [CopySingle (st80_to_float bytes r.(fpu_control_word))] else []).

(** The hit of a target: the text a click copies, and its label. *)
Definition target_hit (t : Target) : CopyHit :=
  let r := current ui in
  let plain text := {| copy_text := text; copy_normalized := None |} in
  let labelled value text := {| copy_text := text; copy_normalized := normalized_copy ui.(ui_navigation).(ui_trace) value text |} in
  match t with
  | CopyFlat RFLAGS => plain (format_hex64_string (reg_get r RFLAGS))
  | CopyFlat reg => labelled (reg_get r reg) (format_hex64_string (reg_get r reg))
  | CopySlice reg SFull => labelled (reg_get r reg) (format "0x{:0{}X}" [AInt (reg_get r reg); AInt 16])
  | CopySlice reg slice =>
    plain (format "0x{:0{}X}" [AInt (slice_value slice (reg_get r reg)); AInt (Z.of_nat (slice_digits slice))])
  | CopyVector i => let value := nth i r.(xmm) (0, 0) in plain (format "{:016X}{:016X}" [AInt value.2; AInt value.1])
  | CopyDouble bits => plain (format_float 53 11 bits)
  | CopySingle bits => plain (format_float_single bits)
  | CopyMXCSR => plain (format "0x{:08X}" [AInt r.(mxcsr)])
  | CopyRaw i => plain (hex_stack (nth i r.(st) []))
  | CopyControlWord => plain (format "0x{:04X}" [AInt r.(fpu_control_word)])
  end.

(** The hits of a list of targets: none without a trace. *)
Definition target_hits (targets : list Target) : list CopyHit := if has_trace ui then map target_hit targets else [].

Definition gpr_hit_ok (hit : GPRHit) : Prop := (hit.(hit_reg) < GPR_COUNT)%nat /\ 0 <= hit.(hit_level) <= 2.

(** The rows of the panels and their targets. *)
Definition registers_subjects : list Subject :=
  concat (map (fun reg => map (RowRegister reg) (register_slices reg)) REGISTER_DISPLAY_ORDER).
Definition registers_targets : list Target := concat (map register_targets REGISTER_DISPLAY_ORDER).

Definition xmm_subjects (i : nat) : list Subject :=
  RowXMM i :: (if has_trace ui then RowLanes i :: (if nth i ui.(ui_panel).(xmm_expand) false then [RowLanes i] else []) else []).
Definition sse_subjects : list Subject := concat (map xmm_subjects (seq 0 (length (current ui).(xmm)))) ++ [RowMXCSR].
Definition sse_targets : list Target := concat (map xmm_targets (seq 0 (length (current ui).(xmm)))) ++ [CopyMXCSR].

Definition st_subjects (i : nat) : list Subject :=
  RowST i :: (if occupied ui (current ui) i && nth i ui.(ui_panel).(st_expand) false then [RowNarrowed i] else []).
Definition x87_subjects : list Subject := concat (map st_subjects (seq 0 (length (current ui).(st)))) ++ [RowControlWord].
Definition x87_targets : list Target := concat (map st_targets (seq 0 (length (current ui).(st)))) ++ [CopyControlWord].

(** A panel with these rows under its header, and text below them. *)
Definition panel_rows (subjects : list Subject) (e : Element) : Prop :=
  exists header rows rest, (e = table (header :: rows) \/ e = vbox (table (header :: rows) :: rest)) /\ Forall2 shows subjects rows
    /\ concat (map inputs header) = [] /\ concat (map inputs rest) = [].

Lemma panel_rows_inputs subjects e : panel_rows subjects e -> inputs e = concat (map subject_inputs subjects).
Proof.
  intros (header & rows & rest & He & Hrows & Hheader & Hrest).
  assert (concat (map (fun row => concat (map inputs row)) rows) = concat (map subject_inputs subjects)) as E.
  { clear He Hheader Hrest. induction Hrows as [|subject row subjects rows Hs _ IH]; [done|]. cbn [map concat].
    injection Hs as _ ->. by rewrite IH. }
  destruct He as [-> | ->]; cbn [inputs map concat]; rewrite ?Hheader, ?Hrest, E; [done | by rewrite app_nil_r].
Qed.

Lemma decode_block_inputs prefix groups : inputs (decode_block prefix groups) = [].
Proof.
  unfold decode_block. cbn [inputs]. generalize (fun i : nat => if (i =? 0)%nat then prefix else ("  " : str)). intros f.
  assert (forall l, Forall (fun e => inputs e = []) l -> concat (map inputs l) = []) as Hnone.
  { induction 1 as [|e l He _ IH]; [done|]. cbn [map concat]. by rewrite He, IH. }
  apply Hnone, Forall_lookup. intros i e He. rewrite list_lookup_imap in He. destruct (groups !! i); [|done]. by injection He as <-.
Qed.
End specification.

(** ** What the panels draw *)

Section drawn.
Context {fmt : Fmt} {memory : Memory} (ui : UI).

Lemma draws_copy_if {A} (P : A -> Prop) (condition : bool) cell text normalized :
  draws (copy_cell_if (A := A) condition cell text normalized) 0 1 P
    (fun e ys => ys = (if condition then [{| copy_text := text; copy_normalized := normalized |}] else [])
                 /\ is_marked e = is_marked cell /\ inputs e = inputs cell).
Proof.
  destruct condition.
  - eapply draws_weaken; [apply draws_copy | lia | lia|]. by intros e ys (-> & b & ->).
  - by apply draws_ret.
Qed.

Lemma flat_row_draws reg :
  is_flat reg = true ->
  draws (flat_row ui reg) 0 1 gpr_hit_ok
    (fun row ys => shows ui (RowRegister reg SFull) row /\ ys = target_hits ui [CopyFlat reg]).
Proof.
  intros Hflat. unfold flat_row. cbv zeta. eapply draws_last; [apply draws_copy_if|]. intros cell ys (-> & Hm & Hi).
  rewrite is_marked_marked in Hm. rewrite inputs_marked in Hi. unfold shows, row_summary, target_hits.
  cbn [existsb is_marked inputs concat map app subject_changed subject_inputs slice_value]. rewrite Hm, Hi, Hflat, orb_false_r. split; [done|]. destruct (has_trace ui); [|done]. by destruct reg.
Qed.

Lemma emit_draws reg level name value prev_value digits slice :
  (reg < GPR_COUNT)%nat -> 0 <= level ->
  draws (emit ui reg level name value prev_value digits slice) (if level <? 3 then 1 else 0) 1 gpr_hit_ok
    (fun row ys => row_summary row = (has_trace ui && negb (value =? prev_value), [GPRInput reg slice])
       /\ ys = if has_trace ui
               then let text := format "0x{:0{}X}" [AInt value; AInt digits] in
                    [{| copy_text := text;
                        copy_normalized := if level =? 0 then normalized_copy ui.(ui_navigation).(ui_trace) value text else None |}]
               else []).
Proof.
  intros Hreg Hl. unfold emit. cbv zeta.
  apply (draws_step _ _ _ (if level <? 3 then 1 else 0) 0 0 1) with (Q := fun e ys => ys = [] /\ is_marked e = false /\ inputs e = []);
    [| | lia | lia].
  - destruct (Z.ltb_spec level 3).
    + eapply draws_weaken; [apply draws_hit | lia | lia|]; [split; cbn; [done | lia]|]. by intros e ys (-> & b & ->).
    + by apply draws_ret.
  - intros cell ys (-> & Hname & Hnone). cbn [app]. eapply draws_last; [apply draws_copy_if|]. intros val ys (-> & Hm & Hi).
    rewrite is_marked_marked in Hm. rewrite inputs_marked in Hi. unfold row_summary. cbn [existsb is_marked inputs concat map app].
    rewrite Hname, Hnone, Hm, Hi, orb_false_r. split; [done|].
    by destruct (has_trace ui), (level =? 0).
Qed.

(** A row that is only there at some depth. *)
Lemma row_if_draws (condition : bool) row own copies (Q : list Element -> list CopyHit -> Prop) (R : list (list Element) -> list CopyHit -> Prop) :
  draws row own copies gpr_hit_ok Q -> (forall r ys, Q r ys -> R [r] ys) -> (condition = false -> R [] []) ->
  draws (row_if condition row) own copies gpr_hit_ok R.
Proof.
  intros Hrow HR Hnone. unfold row_if. destruct condition; [|apply draws_ret; auto]. by eapply draws_last.
Qed.

(** The rows of some slices of a register. *)
Definition slices_drawn (reg : Reg) (slices : list Slice) (rows : list (list Element)) (ys : list CopyHit) : Prop :=
  Forall2 (shows ui) (map (RowRegister reg) slices) rows /\ ys = target_hits ui (map (CopySlice reg) slices).

Lemma slices_drawn_app reg a b rows rows' ys ys' :
  slices_drawn reg a rows ys -> slices_drawn reg b rows' ys' -> slices_drawn reg (a ++ b) (rows ++ rows') (ys ++ ys').
Proof.
  intros [H1 ->] [H2 ->]. unfold slices_drawn, target_hits. rewrite !map_app. split; [by apply Forall2_app|].
  by destruct (has_trace ui).
Qed.

(** One slice of a register, at its level of the tree. *)
Lemma slice_draws reg level name slice :
  is_flat reg = false -> 0 <= level -> (level =? 0) = bool_decide (slice = SFull) ->
  draws (emit ui (reg_index reg) level name (slice_value slice (reg_get (current ui) reg))
           (slice_value slice (reg_get (previous ui) reg)) (Z.of_nat (slice_digits slice)) slice)
    (if level <? 3 then 1 else 0) 1 gpr_hit_ok
    (fun row ys => slices_drawn reg [slice] [row] ys).
Proof.
  intros Hflat Hl Hs. assert (reg_index reg < GPR_COUNT)%nat as Hreg by (destruct reg; (discriminate Hflat || (cbn; unfold GPR_COUNT; lia))).
  eapply draws_weaken; [by apply emit_draws | lia | lia|]. intros row ys [Hm ->]. rewrite Hs. split.
  - constructor; [|constructor]. unfold shows. cbn [subject_inputs]. by rewrite Hflat.
  - unfold target_hits. destruct (has_trace ui); [|done]. by destruct slice, reg.
Qed.

Definition register_own (reg : Reg) : nat := if is_flat reg then 0 else 3.
Definition register_copies (reg : Reg) : nat := if is_flat reg then 1 else if (reg_index reg <? 4)%nat then 5 else 4.

Lemma register_rows_draws reg :
  draws (register_rows ui reg) (register_own reg) (register_copies reg) gpr_hit_ok
    (fun rows ys => Forall2 (shows ui) (map (RowRegister reg) (register_slices ui reg)) rows
       /\ ys = target_hits ui (register_targets ui reg)).
Proof.
  unfold register_rows, register_own, register_copies, register_targets, register_slices. destruct (is_flat reg) eqn:Hflat.
  - eapply draws_last; [by apply flat_row_draws|]. intros row ys [Hs ->]. split; [|done]. constructor; [exact Hs | constructor].
  - cbv zeta. set (depth := nth (reg_index reg) ui.(ui_panel).(gpr_depth) 0).
    assert (forall (condition : bool) level name slice, 1 <= level -> slice <> SFull ->
      draws (row_if condition (emit ui (reg_index reg) level name (slice_value slice (reg_get (current ui) reg))
               (slice_value slice (reg_get (previous ui) reg)) (Z.of_nat (slice_digits slice)) slice))
        (if level <? 3 then 1 else 0) 1 gpr_hit_ok
        (fun rows ys => slices_drawn reg (if condition then [slice] else []) rows ys)) as Hrow.
    { intros condition level name slice Hl Hne. destruct condition.
      - eapply row_if_draws; [apply slice_draws | by intros r ys Hq | done]; [done | lia|].
        rewrite bool_decide_false by done. destruct (Z.eqb_spec level 0); [lia | done].
      - apply draws_ret. split; [constructor|]. unfold target_hits. by destruct (has_trace ui). }
    eapply (draws_step _ _ _ 1 1 2 (if (reg_index reg <? 4)%nat then 4 else 3));
      [by apply (slice_draws reg 0 _ SFull) | intros a ya Ha | lia | destruct (_ <? 4)%nat; lia].
    eapply (draws_step _ _ _ 1 1 1 (if (reg_index reg <? 4)%nat then 3 else 2));
      [by apply (Hrow _ 1 _ SDword) | intros b yb Hb | lia | destruct (_ <? 4)%nat; lia].
    eapply (draws_step _ _ _ 1 1 0 (if (reg_index reg <? 4)%nat then 2 else 1));
      [by apply (Hrow _ 2 _ SWord) | intros c yc Hc | lia | destruct (_ <? 4)%nat; lia].
    apply (draws_step _ _ _ 0 (if (reg_index reg <? 4)%nat then 1 else 0) 0 1)
      with (Q := slices_drawn reg (if (3 <=? depth) && (reg_index reg <? 4)%nat then [SByteHigh] else []));
      [| intros d yd Hd | lia | destruct (_ <? 4)%nat; lia].
    { destruct (reg_index reg <? 4)%nat; [by apply (Hrow _ 3 _ SByteHigh)|]. rewrite andb_false_r. apply draws_ret.
      split; [constructor|]. unfold target_hits. by destruct (has_trace ui). }
    eapply draws_last; [by apply (Hrow _ 3 _ SByteLow)|]. intros e ye He.
    exact (slices_drawn_app _ _ _ _ _ _ _ Ha (slices_drawn_app _ _ _ _ _ _ _ Hb (slices_drawn_app _ _ _ _ _ _ _ Hc
      (slices_drawn_app _ _ _ _ _ _ _ Hd He)))).
Qed.

(** The rows and targets of a list of registers are those of each of them. *)
Definition item_drawn (subjects : list Subject) (targets : list Target) (rows : list (list Element)) (ys : list CopyHit) : Prop :=
  Forall2 (shows ui) subjects rows /\ ys = target_hits ui targets.

Lemma item_drawn_app subjects subjects' targets targets' rows rows' ys ys' :
  item_drawn subjects targets rows ys -> item_drawn subjects' targets' rows' ys' ->
  item_drawn (subjects ++ subjects') (targets ++ targets') (rows ++ rows') (ys ++ ys').
Proof.
  intros [H1 ->] [H2 ->]. split; [by apply Forall2_app|]. unfold target_hits. rewrite map_app. by destruct (has_trace ui).
Qed.

Lemma items_drawn {X} (subjects : X -> list Subject) (targets : X -> list Target) l rows yss :
  Forall3 (fun x => item_drawn (subjects x) (targets x)) l rows yss ->
  item_drawn (concat (map subjects l)) (concat (map targets l)) (concat rows) (concat yss).
Proof.
  induction 1 as [|x r ys l rows yss Hx _ IH]; [|by apply item_drawn_app]. split; [constructor|]. unfold target_hits.
  by destruct (has_trace ui).
Qed.

(** A panel starts from cleared vectors, so what they hold does not matter. *)
Lemma start_draws {A B} (P : A -> Prop) (m : Render A B) own copies (Q : B -> Prop) (ts : list CopyHit) d :
  draws m own copies P (fun b ys => Q b /\ ys = ts) ->
  exists b v c, (_ ← start_drawing own copies; m) d = Some (b, (v, c)) /\ Forall P v.(hits) /\ Q b /\ c.(hits) = ts.
Proof.
  intros Hm. destruct (Hm (reserved own) (reserved copies)) as (b & xs & ys & E & Hx & Hy & Hp & Hq & ->); [cbn; lia..|].
  exists b, {| hits := xs; room := own |}, {| hits := ts; room := copies |}. split; [|done]. apply bind_Some. by eexists _, _.
Qed.

(** The rows of all items of a list, then the header and what follows them. *)
Lemma items_draws {A X} (P : A -> Prop) (f : X -> Render A (list (list Element))) own copies subjects targets l :
  (forall x, In x l -> draws (f x) (own x) (copies x) P (item_drawn (subjects x) (targets x))) ->
  draws (mapM f l) (sum_list_with own l) (sum_list_with copies l) P
    (fun rows => item_drawn (concat (map subjects l)) (concat (map targets l)) (concat rows)).
Proof.
  intros Hf. eapply draws_weaken; [apply draws_mapM; exact Hf | done | done|]. intros rows ys (yss & -> & Hall). by apply items_drawn.
Qed.

Lemma render_registers_drawn d :
  exists e v c, render_registers ui d = Some (e, (v, c)) /\ Forall gpr_hit_ok v.(hits)
    /\ panel_rows ui (registers_subjects ui) e /\ c.(hits) = target_hits ui (registers_targets ui).
Proof.
  apply start_draws. eapply draws_weaken; [eapply draws_last | | | intros e ys Hq; exact Hq].
  - apply (items_draws _ _ register_own register_copies). intros reg _. apply register_rows_draws.
  - intros rows ys [Hr ->]. split; [|done]. by eexists _, _, []; split; [left|].
  - by apply Nat.leb_le.
  - by apply Nat.leb_le.
Qed.

Lemma lane_cells_draws {A} (P : A -> Prop) changed texts :
  draws (lane_cells (A := A) changed texts) 0 (length texts) P
    (fun cells ys => (texts <> [] -> existsb is_marked cells = changed) /\ concat (map inputs cells) = []
       /\ ys = map (fun text => {| copy_text := text; copy_normalized := None |}) texts).
Proof.
  induction texts as [|text texts IH]; cbn [lane_cells length]; [by apply draws_ret|].
  eapply (draws_step _ _ _ 0 1 0 (length texts)); [apply draws_copy | | lia | lia]. intros cell ys (-> & b & ->).
  eapply draws_last; [exact IH|]. intros cells ys (Hm & Hi & ->). split; [|split; [|done]].
  - intros _. cbn [existsb is_marked]. destruct texts as [|t texts]; cbn [existsb]; rewrite ?is_marked_marked; [apply orb_false_r|].
    rewrite Hm by done. by destruct changed.
  - cbn [concat map inputs]. rewrite inputs_marked. destruct texts; [done|]. cbn [concat map]. by rewrite inputs_marked.
Qed.

Lemma lane_row_draws {A} (P : A -> Prop) changed label texts :
  texts <> [] ->
  draws (lane_row (A := A) changed label texts) 0 (length texts) P
    (fun row ys => row_summary row = (changed, []) /\ ys = map (fun text => {| copy_text := text; copy_normalized := None |}) texts).
Proof.
  intros Hne. eapply draws_last; [apply lane_cells_draws|]. intros cells ys (Hm & Hi & ->). split; [|done].
  unfold row_summary. cbn [existsb is_marked concat map inputs app]. rewrite is_marked_marked, inputs_marked, (Hm Hne), Hi.
  by destruct changed.
Qed.

Lemma xmm_row_draws n i :
  (i < n)%nat -> draws (xmm_row ui i) 1 7 (fun reg => (reg < n)%nat) (item_drawn (xmm_subjects ui i) (xmm_targets ui i)).
Proof.
  intros Hi. unfold xmm_row. cbv zeta. set (value := nth i (current ui).(xmm) (0, 0)).
  set (changed := has_trace ui && bool_decide (value <> nth i (previous ui).(xmm) (0, 0))).
  eapply (draws_step _ _ _ 1 0 0 7); [by apply draws_hit | intros name ys (-> & b & ->) | lia | lia].
  eapply (draws_step _ _ _ 0 1 0 6); [apply draws_copy_if | intros cell ys (-> & Hm & Hi') | lia | lia].
  rewrite is_marked_marked in Hm. rewrite inputs_marked in Hi'. eapply draws_last with (Q := fun rows ys =>
    Forall2 (shows ui) (tail (xmm_subjects ui i)) rows /\ ys = target_hits ui (tail (xmm_targets ui i))).
  - unfold xmm_subjects, xmm_targets, target_hits. destruct (has_trace ui) eqn:Ht; [|by apply draws_ret]. cbn [tail]. fold value.
    eapply (draws_step _ _ _ 0 2 0 4); [by apply lane_row_draws | intros wide ys [Hw ->] | lia | lia].
    apply draws_last with (Q := fun rows ys =>
      Forall2 (shows ui) (if nth i ui.(ui_panel).(xmm_expand) false then [RowLanes i] else []) rows
      /\ ys = map (target_hit ui) (if nth i ui.(ui_panel).(xmm_expand) false then f32_targets value else [])).
    + destruct (nth i ui.(ui_panel).(xmm_expand) false); [|by apply draws_ret].
      eapply draws_last; [apply lane_row_draws; discriminate|]. intros row ys [Hr ->]. split; [|done].
      constructor; [unfold shows; by rewrite Ht | constructor].
    + intros rows ys [Hr ->]. rewrite map_app. split; [|done]. constructor; [unfold shows; by rewrite Ht | exact Hr].
  - intros rows ys [Hr ->]. cbn [app]. split.
    + constructor; [|exact Hr]. unfold shows, row_summary. cbn [existsb is_marked concat map inputs app].
      rewrite Hm, Hi', orb_false_r. done.
    + unfold target_hits. by destruct (has_trace ui).
Qed.

(** Targets of a panel without a trace are not drawn. *)
Lemma target_hits_trace targets : has_trace ui = true -> target_hits ui targets = map (target_hit ui) targets.
Proof. unfold target_hits. by intros ->. Qed.

Lemma occupied_trace r i : occupied ui r i = true -> has_trace ui = true.
Proof. unfold occupied. by destruct (has_trace ui). Qed.

Lemma st_row_draws n i :
  (i < n)%nat -> draws (st_row ui i) 1 3 (fun reg => (reg < n)%nat) (item_drawn (st_subjects ui i) (st_targets ui i)).
Proof.
  intros Hi. unfold st_row. cbv zeta. set (bytes := nth i (current ui).(st) []). set (full := occupied ui (current ui) i).
  set (changed := has_trace ui && _).
  assert (forall row, row_summary row = (changed, []) -> shows ui (RowNarrowed i) row) as Hnarrowed by done.
  assert (forall row, row_summary row = (changed, [STInput i]) -> shows ui (RowST i) row) as Hrow by done.
  eapply (draws_step _ _ _ 1 0 0 3); [by apply draws_hit | intros name ys (-> & b & ->) | lia | lia].
  eapply (draws_step _ _ _ 0 1 0 2); [apply draws_copy_if | intros value ys (-> & Hv & Hvi) | lia | lia].
  eapply (draws_step _ _ _ 0 1 0 1); [apply draws_copy_if | intros raw ys (-> & Hr & Hri) | lia | lia].
  rewrite is_marked_marked in Hv, Hr. rewrite inputs_marked in Hvi, Hri.
  apply draws_last with (Q := fun rows ys =>
    Forall2 (shows ui) (tail (st_subjects ui i)) rows
    /\ ys = map (target_hit ui) (if full && nth i ui.(ui_panel).(st_expand) false
                                 then [CopySingle (st80_to_float bytes (current ui).(fpu_control_word))] else [])).
  - unfold st_subjects. cbn [tail]. fold full. destruct (full && _); [|by apply draws_ret].
    eapply draws_last; [apply draws_copy|]. intros cell ys (-> & b' & ->). split; [|done]. constructor; [|constructor].
    apply Hnarrowed. unfold row_summary.
    cbn [existsb is_marked concat map inputs app]. rewrite !is_marked_marked, !inputs_marked. by destruct changed.
  - intros rows ys [Hrows ->]. cbn [app]. split.
    + constructor; [|exact Hrows]. apply Hrow.
      unfold row_summary. cbn [existsb is_marked concat map inputs app]. rewrite is_marked_marked, inputs_marked, Hv, Hr, Hvi, Hri.
      by destruct changed.
    + unfold st_targets. cbv zeta. fold bytes. fold full. subst full. destruct (occupied ui (current ui) i) eqn:Hf.
      * pose proof (occupied_trace _ _ Hf) as Ht. rewrite target_hits_trace, Ht by done. by rewrite !map_app.
      * unfold target_hits. by destruct (has_trace ui).
Qed.

Lemma sum_list_const {X} (n : nat) (l : list X) : sum_list_with (fun _ => n) l = (length l * n)%nat.
Proof. induction l as [|x l IH]; cbn; [done | by rewrite IH]. Qed.

Lemma in_range n i : In i (seq 0 n) -> (i < n)%nat.
Proof. intros H%in_seq. lia. Qed.

(** A table of rows, one more row with a copy target, and text below it with a trace. *)
Lemma panel_draws {A} (P : A -> Prop) (rows : Render A (list (list (list Element)))) own copies subjects targets subject target
    header (row : Element -> list Element) (rest : list Element) text cell :
  concat (map inputs header) = [] -> concat (map inputs rest) = [] ->
  draws rows own copies P (fun rows => item_drawn subjects targets (concat rows)) ->
  (forall e, is_marked e = is_marked cell -> inputs e = inputs cell -> shows ui subject (row e)) ->
  (has_trace ui = true -> target_hit ui target = {| copy_text := text; copy_normalized := None |}) ->
  draws (rows ← rows; cell ← copy_cell_if (has_trace ui) cell text None;
         mret (if has_trace ui then vbox (table (header :: concat rows ++ [row cell]) :: rest)
               else table (header :: concat rows ++ [row cell]))) own (copies + 1) P
    (fun e ys => panel_rows ui (subjects ++ [subject]) e /\ ys = target_hits ui (targets ++ [target])).
Proof.
  intros Hheader Hrest Hrows Hrow Htarget. eapply (draws_step _ _ _ own copies 0 1); [exact Hrows | intros rs ys Hd | lia | lia].
  eapply draws_last; [apply draws_copy_if|]. intros e ys' (-> & Hm & Hi).
  assert (item_drawn [subject] [target] [row e] (if has_trace ui then [{| copy_text := text; copy_normalized := None |}] else [])) as Hlast.
  { split; [constructor; [by apply Hrow | constructor]|]. unfold target_hits. cbn [map].
    destruct (has_trace ui); [by rewrite Htarget | done]. }
  destruct (item_drawn_app _ _ _ _ _ _ _ _ Hd Hlast) as [Hall ->]. split; [|done].
  exists header, (concat rs ++ [row e]), rest. split; [destruct (has_trace ui); [by right | by left]|].
  by repeat split.
Qed.

Lemma render_xmm_drawn d :
  exists e v c, render_xmm ui d = Some (e, (v, c)) /\ Forall (fun reg => (reg < length (current ui).(xmm))%nat) v.(hits)
    /\ panel_rows ui (sse_subjects ui) e /\ c.(hits) = target_hits ui (sse_targets ui).
Proof.
  unfold render_xmm. cbv zeta. apply start_draws. eapply draws_weaken; [| | | intros e ys Hq; exact Hq].
  - apply panel_draws with (target := CopyMXCSR)
      (row := fun cell => [rendered MXCSRInput |> WidthEqual 20; txt "MXCSR" |> Bold; cell])
      (rest := [decode_block [] (decode_mxcsr (mxcsr (current ui)))]).
    + done.
    + cbn [map concat]. by rewrite decode_block_inputs.
    + apply (items_draws _ _ (fun _ => 1%nat) (fun _ => 7%nat) (xmm_subjects ui) (xmm_targets ui)).
      intros i Hi%in_range. by apply xmm_row_draws.
    + intros e He Hi. unfold shows, row_summary. cbn [existsb is_marked concat map inputs app].
      by rewrite He, Hi, is_marked_marked, inputs_marked, orb_false_r.
    + by intros ->.
  - rewrite sum_list_const, length_seq. lia.
  - rewrite sum_list_const, length_seq. lia.
Qed.

Lemma render_x87_drawn d :
  exists e v c, render_x87 ui d = Some (e, (v, c)) /\ Forall (fun reg => (reg < length (current ui).(st))%nat) v.(hits)
    /\ panel_rows ui (x87_subjects ui) e /\ c.(hits) = target_hits ui (x87_targets ui).
Proof.
  unfold render_x87. cbv zeta. apply start_draws. eapply draws_weaken; [| | | intros e ys Hq; exact Hq].
  - apply panel_draws with (target := CopyControlWord)
      (row := fun cell => [rendered ControlWordInput |> WidthEqual 20; txt "Control word" |> Bold; emptyElement; emptyElement; cell;
                           emptyElement]).
    + done.
    + cbn [map concat]. by rewrite !decode_block_inputs.
    + apply (items_draws _ _ (fun _ => 1%nat) (fun _ => 3%nat) (st_subjects ui) (st_targets ui)).
      intros i Hi%in_range. by apply st_row_draws.
    + intros e He Hi. unfold shows, row_summary. cbn [existsb is_marked concat map inputs app].
      by rewrite He, Hi, is_marked_marked, inputs_marked, orb_false_r.
    + by intros ->.
  - rewrite sum_list_const, length_seq. lia.
  - rewrite sum_list_const, length_seq. lia.
Qed.

(** The flags: the hits are the bits of the table, in its order. *)
Lemma render_flags_drawn d :
  exists e v, render_flags ui d = Some (e, (v, d.2)) /\ v.(hits) = map snd STATUS_FLAGS.
Proof.
  destruct d as [[own n] c]. unfold render_flags. cbn -[shown_flags format RFLAGS_RESUME_FLAG].
  eexists _, _. split; [reflexivity|]. reflexivity.
Qed.
End drawn.

(** ** What the selected row changed

    Stated on the rows of the visible tab and the events of the trace alone. *)

Section selected.
Context (ui : UI).

Abbreviation n := ui.(ui_navigation).

(** The registers after the first [k] rows: those of the last event among them. *)
Definition registers_after (k : nat) : Registers :=
  match last (omap (fun row => row.(row_event) ≫= (fun i => n.(ui_trace).(execution_events) !! i)) (take k (visible_rows n))) with
  | Some event => event.(event_registers)
  | None => n.(ui_trace).(trace_seed)
  end.

Definition selected_after : Registers := registers_after (Z.to_nat n.(cursor)).
Definition selected_before : Registers := registers_after (Z.to_nat (n.(cursor) - 1)).

(** Does [ST(i)] hold a value: the tag of the physical register [i] above the top of the
    stack, bits 11 to 13 of the status word. *)
Definition x87_full (r : Registers) (i : nat) : bool :=
  Z.testbit r.(fpu_tag_word_abridged) ((r.(fpu_status_word) / 2 ^ 11 + Z.of_nat i) mod 8).

Definition changed_by_row (subject : Subject) : bool :=
  let after := selected_after in
  let before := selected_before in
  match subject with
  | RowRegister reg slice => bool_decide (slice_value slice (reg_get after reg) <> slice_value slice (reg_get before reg))
  | RowXMM i | RowLanes i => bool_decide (nth i after.(xmm) (0, 0) <> nth i before.(xmm) (0, 0))
  | RowMXCSR => bool_decide (after.(mxcsr) <> before.(mxcsr))
  | RowST i | RowNarrowed i =>
    bool_decide (nth i after.(st) [] <> nth i before.(st) [] \/ x87_full after i <> x87_full before i)
  | RowControlWord => bool_decide (after.(fpu_control_word) <> before.(fpu_control_word))
  end.

(** The rows of the vector and the stack panel: lanes when there is a trace, and what is
    expanded; a single of a stack register only when it holds a value. *)
Definition sse_shown : list Subject :=
  concat (map (fun i => RowXMM i :: if has_trace ui then RowLanes i :: (if nth i ui.(ui_panel).(xmm_expand) false then [RowLanes i] else [])
                                    else []) (seq 0 (length selected_after.(xmm)))) ++ [RowMXCSR].
Definition x87_shown : list Subject :=
  concat (map (fun i => RowST i :: if has_trace ui && x87_full selected_after i && nth i ui.(ui_panel).(st_expand) false then [RowNarrowed i]
                                   else []) (seq 0 (length selected_after.(st)))) ++ [RowControlWord].

(** A panel: under its header one row for each subject, highlighted when there is a trace and
    its value was changed, with its seed field. *)
Definition panel_marks (subjects : list Subject) (e : Element) : Prop :=
  exists header rows rest, (e = table (header :: rows) \/ e = vbox (table (header :: rows) :: rest))
    /\ Forall2 (fun subject row => row_summary row = (has_trace ui && changed_by_row subject, subject_inputs subject)) subjects rows
    /\ concat (map inputs header) = [] /\ concat (map inputs rest) = [].

Lemma state_before_last events rows k : (k <= length rows)%nat ->
  state_before events rows k
  = event_registers <$> last (omap (fun row => row.(row_event) ≫= (fun i => events !! i)) (take k rows)).
Proof.
  induction k as [|k IH]; intros Hk; [done|]. cbn [state_before].
  destruct (rows !! k) as [row|] eqn:E; [|apply lookup_ge_None in E; lia]. rewrite (take_S_r _ _ _ E), omap_app. cbn [mbind option_bind].
  specialize (IH ltac:(lia)). cbn [omap list_omap]. destruct (row_event row ≫= _) as [event|]; [by rewrite last_snoc | by rewrite app_nil_r].
Qed.

Lemma history_state_after k : history_state_at n k = registers_after k.
Proof.
  unfold history_state_at, registers_after. generalize (visible_rows n) as rows. intros rows. rewrite state_before_last by lia.
  assert (take (Nat.min k (length rows)) rows = take k rows) as ->.
  { destruct (Nat.le_gt_cases k (length rows)); [by rewrite Nat.min_l|]. rewrite Nat.min_r by lia. by rewrite !take_ge by lia. }
  by destruct (last _).
Qed.

Lemma current_selected : current ui = selected_after.
Proof. apply history_state_after. Qed.

Lemma previous_selected : previous ui = selected_before.
Proof.
  unfold previous, selected_before. rewrite history_state_after. f_equal. unfold position.
  destruct (Nat.eqb_spec (Z.to_nat (cursor n)) 0); lia.
Qed.

Lemma occupied_full r i : occupied ui r i = has_trace ui && x87_full r i.
Proof.
  unfold occupied, x87_full, physical. f_equal. change 7 with (Z.ones 3). rewrite !Z.land_ones by lia.
  rewrite Zplus_mod_idemp_l, (Z.shiftr_div_pow2 _ 11) by lia. change (2 ^ 3) with 8. set (p := (_ + _) mod 8).
  assert (0 <= p) by (apply Z.mod_pos_bound; lia). change 1 with (Z.ones 1). rewrite Z.land_ones, Z.shiftr_div_pow2 by lia.
  change (2 ^ 1) with 2. rewrite Zmod_odd, <- Z.bit0_odd, <- (Z.shiftr_div_pow2 _ p), Z.shiftr_spec by lia. rewrite Z.add_0_l.
  by destruct (Z.testbit _ p).
Qed.

Lemma negb_eqb_decide (a b : Z) : negb (a =? b) = bool_decide (a <> b).
Proof. destruct (Z.eqb_spec a b); symmetry; [by apply bool_decide_eq_false; intros [] | by apply bool_decide_eq_true]. Qed.

Lemma subject_changed_selected subject : has_trace ui && subject_changed ui subject = has_trace ui && changed_by_row subject.
Proof.
  destruct (has_trace ui) eqn:Ht; [|done]. cbn [andb]. unfold subject_changed, changed_by_row. cbv zeta.
  rewrite current_selected, previous_selected. destruct subject; rewrite ?negb_eqb_decide; try done.
  all: rewrite !occupied_full, Ht; cbn [andb]; apply Bool.eq_iff_eq_true;
    rewrite orb_true_iff, negb_true_iff, !bool_decide_eq_true, Bool.eqb_false_iff; reflexivity.
Qed.

Lemma panel_rows_marks subjects e : panel_rows ui subjects e -> panel_marks subjects e.
Proof.
  intros (header & rows & rest & He & Hrows & Hh & Hr). exists header, rows, rest. split; [exact He|]. split; [|done].
  eapply Forall2_impl; [exact Hrows|]. intros subject row Hs. unfold shows in Hs. rewrite Hs. f_equal. apply subject_changed_selected.
Qed.

Lemma sse_subjects_shown : sse_subjects ui = sse_shown.
Proof. unfold sse_subjects, sse_shown. by rewrite current_selected. Qed.

Lemma x87_subjects_shown : x87_subjects ui = x87_shown.
Proof.
  unfold x87_subjects, x87_shown, st_subjects. rewrite current_selected. do 2 f_equal. apply map_ext. intros i. by rewrite occupied_full.
Qed.
End selected.

(** ** Properties *)

(** C17. A value is highlighted exactly when the selected row changed it: each panel has a
    row for each register it shows, at the depth it shows it, and some text of the row
    is highlighted exactly when there is a trace and the value of the register after the
    events of the rows up to the cursor is not its value after those up to the row
    before; a stack register also when it was filled or freed. *)
Theorem panels_mark_changes {fmt : Fmt} {memory : Memory} ui :
  (forall d, exists e d', render_registers ui d = Some (e, d') /\ panel_marks ui (registers_subjects ui) e)
  /\ (forall d, exists e d', render_xmm ui d = Some (e, d') /\ panel_marks ui (sse_shown ui) e)
  /\ (forall d, exists e d', render_x87 ui d = Some (e, d') /\ panel_marks ui (x87_shown ui) e).
Proof.
  split; [|split]; intros d.
  - destruct (render_registers_drawn ui d) as (e & v & c & E & _ & He & _). exists e, (v, c). split; [done | by apply panel_rows_marks].
  - destruct (render_xmm_drawn ui d) as (e & v & c & E & _ & He & _). exists e, (v, c). rewrite <- sse_subjects_shown.
    split; [done | by apply panel_rows_marks].
  - destruct (render_x87_drawn ui d) as (e & v & c & E & _ & He & _). exists e, (v, c). rewrite <- x87_subjects_shown.
    split; [done | by apply panel_rows_marks].
Qed.
