(* ===== verification/Session.v ===== *)
(** * Session: what a user does with the screens of [Panels].

    A session draws the interface, clicks and types on what was drawn and uses its widgets.
    Its states are those of [Timeline], the boxes of the last screen name what exists, and
    the values copied from a panel are seeds of it. *)

From S2P Require Import Prelude Text Core X87 Seed Cpu Platform Linux Trace History Engine RegisterText Cli CodeText Timeline TraceJson Widths Quick Panels.

Local Open Scope Z_scope.

(** ** The visible panel *)

(** The targets of the visible panel, and the rows. *)
Definition panel_targets {fmt : Fmt} {memory : Memory} (ui : UI) : list Target :=
  if ui.(ui_panel).(register_tab) =? 0 then registers_targets ui
  else if ui.(ui_panel).(register_tab) =? 1 then sse_targets ui else x87_targets ui.

Definition panel_subjects {fmt : Fmt} {memory : Memory} (ui : UI) : list Subject :=
  if ui.(ui_panel).(register_tab) =? 0 then registers_subjects ui
  else if ui.(ui_panel).(register_tab) =? 1 then sse_subjects ui else x87_subjects ui.

(** ** States of a session *)

Section states.
Context {fmt : Fmt} {decoders : Decoders} {memory : Memory} {W : Type} `{Platform W}.
Context (fingerprint : CPUFingerprint).

Lemma restored_trace n selection : (restore_history_selection n selection).(ui_trace) = n.(ui_trace).
Proof. by destruct (restore_history_selection_eq n selection) as [k ->]. Qed.

Lemma redecode_trace ui i ui' : redecode ui i = Some ui' -> ui'.(ui_navigation).(ui_trace) = ui.(ui_navigation).(ui_trace).
Proof.
  unfold redecode. cbn [set_input ui_navigation]. case_bool_decide; [by intros [= <-]|].
  destruct (rebuild_history i ui.(ui_navigation)) as [n|] eqn:E; [|done]. intros [= <-]. exact (rebuild_history_trace _ _ _ E).
Qed.

Lemma execute_trace stop_offset ui w ui' w' :
  Timeline.execute fingerprint stop_offset ui w = Some (ui', w') ->
  ui'.(ui_navigation).(ui_trace) = ui.(ui_navigation).(ui_trace)
  \/ exists code, parse_code_text ui.(ui_input).(ui_code) = Ok code
       /\ engine_run fingerprint ui code stop_offset w = Some (ui'.(ui_navigation).(ui_trace), w').
Proof.
  intros [(text & -> & _) | (code & trace & n & Hc & _ & Hrun & En & _ & _ & Hn)]%execute_inv; [by left|].
  right. exists code. split; [done|]. apply rebuild_history_trace in En. cbn [set_cursor set_trace ui_trace] in En.
  rewrite Hn. destruct stop_offset; [|by rewrite En]. destruct (_ =? _); [by rewrite restored_trace, En | by rewrite En].
Qed.

(** An event keeps the trace, drops it, or runs the input. *)
Lemma ui_step_trace action ui w ui' w' :
  ui_step fingerprint action ui w = Some (ui', w') ->
  ui'.(ui_navigation).(ui_trace) = ui.(ui_navigation).(ui_trace) \/ ui'.(ui_navigation).(ui_trace) = Trace_init
  \/ exists code stop_offset, parse_code_text ui.(ui_input).(ui_code) = Ok code
       /\ engine_run fingerprint ui code stop_offset w = Some (ui'.(ui_navigation).(ui_trace), w').
Proof.
  assert (forall stop_offset, Timeline.execute fingerprint stop_offset ui w = Some (ui', w') ->
    ui'.(ui_navigation).(ui_trace) = ui.(ui_navigation).(ui_trace) \/ ui'.(ui_navigation).(ui_trace) = Trace_init
    \/ exists code stop_offset, parse_code_text ui.(ui_input).(ui_code) = Ok code
       /\ engine_run fingerprint ui code stop_offset w = Some (ui'.(ui_navigation).(ui_trace), w')) as Hexec.
  { intros stop_offset [E | (code & Hc & Hr)]%execute_trace; [by left | right; right; by exists code, stop_offset]. }
  intros Hstep. destruct action; cbn [ui_step] in Hstep; cbv zeta in Hstep; try (injection Hstep as <- _; by left).
  - by eapply Hexec.
  - apply run_to_selected_row_inv in Hstep as [(text & -> & _) | (row & _ & E)]; [by left | by eapply Hexec].
  - injection Hstep as <- _. left. unfold step. cbv zeta. by destruct (find_row _ _ _).
  - injection Hstep as <- _. by right; left.
  - injection Hstep as <- _. left. unfold copy_history_row. cbv zeta. by destruct (row_at _ _).
  - destruct (toggle_syntax ui) as [u|] eqn:E; [|done]. injection Hstep as <- _. unfold toggle_syntax in E. cbv zeta in E. left.
    destruct (negb _); [by injection E as <- | exact (redecode_trace _ _ _ E)].
  - destruct (cycle_backend forward ui) as [u|] eqn:E; [|done]. injection Hstep as <- _. left. exact (redecode_trace _ _ _ E).
  - injection Hstep as <- _. left. unfold select_history_tab. cbn [set_navigation ui_navigation set_tabs ui_trace].
    by rewrite restored_trace.
  - injection Hstep as <- _. left. unfold wheel_history. by destruct up.
  - destruct (toggle_addresses ui) as [u|] eqn:E; [|done]. injection Hstep as <- _. unfold toggle_addresses in E. cbv zeta in E. left.
    destruct (bool_decide _); [by injection E as <-|]. destruct (rebuild_history _ _) as [n|] eqn:En; [|done].
    injection E as <-. exact (rebuild_history_trace _ _ _ En).
Qed.
End states.

Section session.
Context {fmt : Fmt} {decoders : Decoders} {memory : Memory} {argparse : ArgParse} {W : Type} {H : Platform W} {typed : TypedPlatform H}.
Context (fingerprint : CPUFingerprint) (fits : fingerprint_fits fingerprint).

Lemma Trace_init_fits : trace_fits Trace_init.
Proof. split; try done; apply Registers_init_well_formed. Qed.

(** The trace an interface shows fits its types. *)
Lemma reachable_trace_fits ui w : reachable fingerprint ui w -> trace_fits ui.(ui_navigation).(ui_trace).
Proof.
  induction 1 as [argv cli instrumented open w Hcli | ui w action ui' w' Hr IH Hperm Hstep Hp].
  { unfold UI_start. destruct (match cli_bytes cli with Some _ => _ | None => _ end). exact Trace_init_fits. }
  pose proof (reachable_ok _ _ _ Hr) as [[_ _ Hfl Hg Hx Hs] _ _].
  apply ui_step_trace in Hstep as [-> | [-> | (code & stop_offset & Hc & Hrun)]]; [exact IH | exact Trace_init_fits|].
  apply engine_trace_fits in Hrun; [exact Hrun | exact fits | by apply parse_code_text_bounds in Hc as (Hb & _)|].
  apply compose_seed_well_formed_lemma; auto using status_flags_in_width.
Qed.

(** Every state of the timeline is well formed. *)
Lemma history_state_well_formed n position : trace_fits n.(ui_trace) -> well_formed (history_state_at n position).
Proof.
  intros [_ _ _ Hs He _ _]. unfold history_state_at. cbv zeta.
  assert (forall rows k r, state_before n.(ui_trace).(execution_events) rows k = Some r -> well_formed r) as Hstate.
  { intros rows k. induction k as [|k IH]; intros r; [done|]. cbn [state_before].
    destruct ((rows !! k ≫= row_event) ≫= _) as [event|] eqn:E; [|apply IH]. intros [= <-].
    destruct (rows !! k ≫= row_event) as [i|]; [|done]. cbn [mbind option_bind] in E.
    rewrite Forall_lookup in He. by apply He in E as [_ ?]. }
  destruct (state_before _ _ _) as [r|] eqn:E; [by eapply Hstate | exact Hs].
Qed.

Lemma current_well_formed ui w : reachable fingerprint ui w -> well_formed (current ui) /\ well_formed (previous ui).
Proof. intros Hr%reachable_trace_fits. split; by apply history_state_well_formed. Qed.

(** What a drawing leaves for the events. *)
Record screen_ok (s : Screen) : Prop := {
  sc_flags : s.(flag_hits) = [] \/ s.(flag_hits) = map snd STATUS_FLAGS;
  sc_gpr : Forall gpr_hit_ok s.(gpr_hits);
  sc_xmm : Forall (fun reg => (reg < 16)%nat) s.(xmm_hits);
  sc_st : Forall (fun reg => (reg < 8)%nat) s.(st_hits);
}.

Lemma Screen_init_ok : screen_ok Screen_init.
Proof. split; [by left | constructor..]. Qed.

Lemma draw_ok ui s :
  well_formed (current ui) -> screen_ok s -> exists panel flags s', draw ui s = Some ([layout_element ui; panel; flags], s')
    /\ screen_ok s' /\ panel_rows ui (panel_subjects ui) panel /\ s'.(copy_hits) = target_hits ui (panel_targets ui).
Proof.
  intros Hwf [H1 H2 H3 H4]. unfold draw, draw_panel, draw_flags, panel_targets, panel_subjects. cbv zeta.
  assert (length (current ui).(xmm) = 16%nat) as Hxmm by apply Hwf. assert (length (current ui).(st) = 8%nat) as Hst by apply Hwf.
  destruct (_ =? 0); [|destruct (_ =? 1)].
  - destruct (render_registers_drawn ui (reserved 0, reserved 0)) as (e & v & c & -> & Hv & He & Hc). cbn [mbind option_bind].
    destruct (render_flags_drawn ui (reserved 0, reserved 0)) as (f & fv & -> & Hf). cbn [mbind option_bind].
    eexists _, _, _. split; [reflexivity|]. split; [|by split]. split; try done. by right.
  - destruct (render_xmm_drawn ui (reserved 0, reserved 0)) as (e & v & c & -> & Hv & He & Hc). cbn [mbind option_bind].
    destruct (render_flags_drawn ui (reserved 0, reserved 0)) as (f & fv & -> & Hf). cbn [mbind option_bind].
    rewrite Hxmm in Hv. eexists _, _, _. split; [reflexivity|]. split; [|by split]. split; try done. by right.
  - destruct (render_x87_drawn ui (reserved 0, reserved 0)) as (e & v & c & -> & Hv & He & Hc). cbn [mbind option_bind].
    destruct (render_flags_drawn ui (reserved 0, reserved 0)) as (f & fv & -> & Hf). cbn [mbind option_bind].
    rewrite Hst in Hv. eexists _, _, _. split; [reflexivity|]. split; [|by split]. split; try done. by right.
Qed.

(** The answers of the handlers to an event: those of the layout and of the panels, of the
    visible register panel only. *)
Definition handle (ui : UI) (s : Screen) (real_focus copied : bool) (event : Event) : list Handled :=
  [layout_handler ui s copied event; flags_handler s event; registers_handler real_focus event; history_handler event;
   rightclick_back SyntaxBox ToggleSyntax event; rightclick_back BackendBox (CycleBackend false) event;
   (if ui.(ui_panel).(register_tab) =? 0 then gpr_handler s event
    else if ui.(ui_panel).(register_tab) =? 1 then xmm_handler s event else st_handler s event)]
  ++ (if ui.(show_about) then [modal_handler true event] else []) ++ (if ui.(show_settings) then [modal_handler false event] else []).

(** The actions of the widgets: buttons, menus, inputs and the layout. *)
Definition is_widget (action : Action) : bool :=
  match action with ClickFlag _ | ClickGPR _ _ | ClickXMM _ | ClickST _ | CopyValue _ _ _ => false | _ => true end.

(** A session: the screen is drawn, and events and widgets act on what it shows. *)
Inductive session : UI -> W -> Screen -> Prop :=
| session_start argv cli instrumented open w :
  CLI_parse argv = Ok cli -> session (UI_start instrumented open cli) w Screen_init
| session_draw ui w s es s' : session ui w s -> draw ui s = Some (es, s') -> session ui w s'
| session_event ui w s real_focus copied event handled action ui' w' :
  session ui w s -> In (handled, Act action) (handle ui s real_focus copied event) ->
  ui_step fingerprint action ui w = Some (ui', w') -> placed ui'.(ui_navigation).(ui_trace) -> session ui' w' s
| session_widget ui w s action ui' w' :
  session ui w s -> is_widget action = true -> permitted ui action ->
  ui_step fingerprint action ui w = Some (ui', w') -> placed ui'.(ui_navigation).(ui_trace) -> session ui' w' s.

Lemma first_hit_in {A} m box i (hits : list A) j x : first_hit m box i hits = Some (j, x) -> In x hits /\ hits !! (j - i)%nat = Some x /\ (i <= j)%nat.
Proof.
  revert i. induction hits as [|y hits IH]; intros i; cbn [first_hit]; [done|].
  destruct (inside m (box i)); [intros [= <- <-]; rewrite Nat.sub_diag; by repeat split; [left|]|].
  intros (Hin & Hl & Hle)%IH. split; [by right|]. replace (j - i)%nat with (S (j - S i)) by lia. split; [done | lia].
Qed.

(** Where a click on a hit leads. *)
Lemma on_left_press_act {A} box (hits : list A) act event handled action :
  on_left_press box hits act event = (handled, Act action) -> exists i x, hits !! i = Some x /\ action = act i x.
Proof.
  unfold on_left_press. destruct event as [m| | | | |]; try done. destruct (is_left_press m); [|done].
  destruct (first_hit m box 0 hits) as [[i x]|] eqn:E; [|done]. intros [= _ <-]. apply first_hit_in in E as (_ & E & _).
  rewrite Nat.sub_0_r in E. by exists i, x.
Qed.

(** A click of the user is on something that exists: what it does is permitted, and it
    flips the bit its box stands for. *)
Lemma handled_permitted ui s real_focus copied event handled action :
  screen_ok s -> In (handled, Act action) (handle ui s real_focus copied event) ->
  permitted ui action
  /\ match action with
     | ClickFlag i => snd <$> STATUS_FLAGS !! i = s.(flag_hits) !! i /\ is_Some (s.(flag_hits) !! i)
     | ClickGPR reg _ => (reg < GPR_COUNT)%nat
     | ClickXMM reg => (reg < 16)%nat
     | ClickST reg => (reg < 8)%nat
     | _ => True
     end.
Proof.
  intros [Hf Hg Hx Hs] Hin. unfold handle in Hin. cbn [app In] in Hin.
  destruct Hin as [E | [E | [E | [E | [E | [E | [E | E]]]]]]].
  - unfold layout_handler, copy_address in E. destruct (_ || _); [done|]. cbv zeta in E. destruct event as [m| | | | |]; try (by injection E as _ <-); try done.
    destruct (negb _); [done|]. repeat (destruct (_ && _); [by injection E as _ <-|]). destruct (inside m DataBox); [by injection E as _ <-|].
    destruct (first_hit _ _ _ _) as [[i hit]|]; [|done]. destruct (copy_normalized hit); by injection E as _ <-.
  - apply on_left_press_act in E as (i & bit & Hi & ->). split; [done|]. split; [|by eexists].
    destruct Hf as [Hf | Hf]; rewrite Hf in *; [done|]. by rewrite list_lookup_fmap.
  - unfold registers_handler in E. destruct event as [m| | | | |]; try done. destruct (negb _); [done|]. destruct (is_left_press m); [done|].
    destruct (button m); try done; destruct real_focus; try done; by injection E as _ <-.
  - unfold history_handler in E. destruct event as [m| | | | |]; try done. destruct (negb _); [done|].
    destruct (button m); try done; by injection E as _ <-.
  - unfold rightclick_back in E. destruct event as [m| | | | |]; try done. destruct (_ && _); [by injection E as _ <- | done].
  - unfold rightclick_back in E. destruct event as [m| | | | |]; try done. destruct (_ && _); [by injection E as _ <- | done].
  - destruct (_ =? 0); [|destruct (_ =? 1)]; apply on_left_press_act in E as (i & x & Hi & ->).
    + rewrite Forall_lookup in Hg. destruct (Hg _ _ Hi) as [Hr Hl]. by split.
    + rewrite Forall_lookup in Hx. split; [done | by apply (Hx i)].
    + rewrite Forall_lookup in Hs. split; [done | by apply (Hs i)].
  - apply in_app_or in E as [E|E]; [destruct (show_about ui) | destruct (show_settings ui)]; try done;
      destruct E as [E|[]]; destruct event; try done; by injection E as _ <-.
Qed.
End session.

(** ** A copied value is a seed *)

(** What [fmt] documents for the hexadecimal formats of the panels. *)
Class HexFmt (fmt : Fmt) : Prop := {
  hex_padded : forall value digits, in_width (4 * Z.of_nat digits) value ->
    format "0x{:0{}X}" [AInt value; AInt (Z.of_nat digits)] = format_hex digits value;
  hex_64 : forall value, in_width 64 value -> format "0x{:016X}" [AInt value] = format_hex 16 value;
  hex_32 : forall value, in_width 32 value -> format "0x{:08X}" [AInt value] = format_hex 8 value;
  hex_16 : forall value, in_width 16 value -> format "0x{:04X}" [AInt value] = format_hex 4 value;
  hex_quads : forall hi lo, in_width 64 hi -> in_width 64 lo ->
    format "{:016X}{:016X}" [AInt hi; AInt lo] = hex_digits 16 hi ++ hex_digits 16 lo;
  hex_bytes : forall bytes, Forall (in_width 8) bytes ->
    format "0x{:02X}" [AJoin (map AInt bytes) []] = "0"%char :: "x"%char :: format_bytes bytes;
}.

(** The text of a target, given as the seed of its field, is its value; for a finite
    floating-point value, when its text is the shortest that reads back. *)
Definition is_seed_of {fmt : Fmt} (r : Registers) (t : Target) (text : str) : Prop :=
  match t with
  | CopyFlat reg => parse_seed text = Ok (reg_get r reg)
  | CopySlice reg slice => parse_seed text = Ok (slice_value slice (reg_get r reg))
  | CopyVector i => compose_xmm_seed text = Ok (nth i r.(xmm) (0, 0))
  | CopyDouble bits =>
    shortest 53 11 bits -> is_finite 53 11 bits = true ->
    compose_xmm_seed text = Ok (bits, 0) /\ compose_st_seed text = Ok (double_to_st80 bits)
  | CopySingle bits =>
    shortest 24 8 bits -> is_finite 24 8 bits = true ->
    compose_xmm_seed text = Ok (bits, 0) /\ compose_st_seed text = Ok (double_to_st80 (double_of_float bits))
  | CopyMXCSR => r.(mxcsr) <= MXCSR_DEFINED_MASK -> parse_mxcsr_seed text = Ok r.(mxcsr)
  | CopyRaw i => compose_st_seed text = Ok (nth i r.(st) [])
  | CopyControlWord => parse_fpu_control_word_seed text = Ok r.(fpu_control_word)
  end.

(** The targets there are: registers of the arrays. *)
Definition target_ok (t : Target) : Prop :=
  match t with CopyVector i => (i < 16)%nat | CopyRaw i => (i < 8)%nat | _ => True end.

Section seeds.
Context {fmt : Fmt} {memory : Memory} {hex : HexFmt fmt}.

Lemma slice_value_width slice value :
  in_width 64 value -> in_width (4 * Z.of_nat (slice_digits slice)) (slice_value slice value).
Proof.
  intros Hv. assert (forall w x, 0 <= w -> in_width w (Z.land x (2 ^ w - 1))) as Hland.
  { intros w x Hw. rewrite Z.sub_1_r, <- Z.ones_equiv, Z.land_ones by done. by apply wrap_in_width. }
  destruct slice; [exact Hv | by apply Hland..].
Qed.

Lemma target_is_seed ui t : well_formed (current ui) -> target_ok t -> is_seed_of (current ui) t (target_hit ui t).(copy_text).
Proof.
  intros Hwf Ht. pose proof (fun reg => reg_get_in_width (current ui) reg Hwf) as Hreg. destruct t; cbn [is_seed_of].
  - assert ((target_hit ui (CopyFlat reg)).(copy_text) = format_hex64_string (reg_get (current ui) reg)) as -> by (by destruct reg).
    unfold format_hex64_string. rewrite hex_64 by apply Hreg. apply parse_format_hex; [lia | apply Hreg].
  - assert ((target_hit ui (CopySlice reg slice)).(copy_text) =
      format "0x{:0{}X}" [AInt (slice_value slice (reg_get (current ui) reg)); AInt (Z.of_nat (slice_digits slice))]) as ->
      by (by destruct slice).
    rewrite hex_padded by (by apply slice_value_width). apply parse_format_hex; [destruct slice; cbn; lia | by apply slice_value_width].
  - cbn [target_hit copy_text target_ok] in *. rewrite <- (wf_xmm_length _ Hwf) in Ht.
    destruct (proj1 (List.Forall_nth _ _) (wf_xmm _ Hwf) i (0, 0) Ht) as [Hlo Hhi]. rewrite hex_quads by done.
    apply compose_xmm_quads; [|done|done]. split; [done|]. split; [|by left]. apply Forall_app. split; apply hex_digits_isxdigit.
  - intros Ht' Hf. by apply format_float_seed.
  - intros Ht' Hf. by apply format_float_seed.
  - intros Hm. cbn [target_hit copy_text]. rewrite hex_32 by apply Hwf. apply parse_mxcsr_seed_spec. split; [|exact Hm].
    apply parse_format_hex; [lia | apply Hwf].
  - cbn [target_hit copy_text target_ok] in *. rewrite <- (wf_st_length _ Hwf) in Ht.
    destruct (proj1 (List.Forall_nth _ _) (wf_st _ Hwf) i [] Ht) as [Hl Hb]. unfold hex_stack.
    rewrite hex_bytes by (by apply Forall_rev). by apply compose_format_st.
  - cbn [target_hit copy_text]. rewrite hex_16 by apply Hwf. apply parse_fpu_control_word_seed_spec. split; [|apply Hwf].
    apply parse_format_hex; [lia | apply Hwf].
Qed.

Lemma targets_are_seeds ui targets :
  well_formed (current ui) -> Forall target_ok targets ->
  Forall2 (fun t hit => is_seed_of (current ui) t hit.(copy_text)) targets (map (target_hit ui) targets).
Proof. intros Hwf. induction 1 as [|t ts Ht _ IH]; constructor; [by apply target_is_seed | exact IH]. Qed.
End seeds.

(** ** Seed fields *)

Section fields.
Context {fmt : Fmt} {memory : Memory} (ui : UI).

Lemma register_inputs reg :
  concat (map subject_inputs (map (RowRegister reg) (register_slices ui reg))) =
  if is_flat reg then [] else gpr_seed_inputs ui.(ui_panel) (reg_index reg).
Proof.
  unfold register_slices. destruct (is_flat reg) eqn:Hflat; [cbn [map concat subject_inputs]; by rewrite Hflat|].
  assert (forall slices, concat (map subject_inputs (map (RowRegister reg) slices)) = map (GPRInput (reg_index reg)) slices) as ->.
  { induction slices as [|slice slices IH]; [done|]. cbn [map concat subject_inputs]. by rewrite Hflat, IH. }
  unfold gpr_seed_inputs, shown_slices. cbv zeta. assert ((reg_index reg =? reg_index RSP)%nat = false) as -> by (by destruct reg).
  cbn [map]. rewrite !map_app. destruct (1 <=? _), (2 <=? _), (3 <=? _), (_ <? 4)%nat; done.
Qed.

Lemma concat_inputs {X} (f : X -> list Subject) l :
  concat (map subject_inputs (concat (map f l))) = concat (map (fun x => concat (map subject_inputs (f x))) l).
Proof. induction l as [|x l IH]; [done|]. cbn [map concat]. by rewrite map_app, concat_app, IH. Qed.

Lemma panel_inputs : well_formed (current ui) -> concat (map subject_inputs (panel_subjects ui)) = seed_inputs ui.(ui_panel).
Proof.
  intros Hwf. unfold panel_subjects, seed_inputs. destruct (_ =? 0); [|destruct (_ =? 1)].
  - unfold registers_subjects. rewrite concat_inputs. rewrite (map_ext _ _ register_inputs).
    cbn -[gpr_seed_inputs]. reflexivity.
  - unfold sse_subjects. rewrite map_app, concat_app, concat_inputs, (wf_xmm_length _ Hwf). f_equal.
    rewrite (map_ext _ (fun i => [XMMInput i])); [done|]. intros i. unfold xmm_subjects. by destruct (has_trace ui), (nth i ui.(ui_panel).(xmm_expand) false).
  - unfold x87_subjects. rewrite map_app, concat_app, concat_inputs, (wf_st_length _ Hwf). f_equal.
    rewrite (map_ext _ (fun i => [STInput i])); [done|]. intros i. unfold st_subjects. by destruct (_ && _).
Qed.
End fields.

(** ** Properties *)

Lemma panel_targets_ok {fmt : Fmt} {memory : Memory} ui : well_formed (current ui) -> Forall target_ok (panel_targets ui).
Proof.
  intros Hwf. assert (forall {X} (f : X -> list Target) l, (forall x, In x l -> Forall target_ok (f x)) ->
    Forall target_ok (concat (map f l))) as Hall.
  { intros X f l Hf. apply Forall_concat, Forall_map, List.Forall_forall. exact Hf. }
  unfold panel_targets, registers_targets, sse_targets, x87_targets. destruct (_ =? 0); [|destruct (_ =? 1)].
  - apply Hall. intros reg _. unfold register_targets. destruct (is_flat reg); [by repeat constructor|].
    apply Forall_map, Forall_true. by intros slice.
  - apply Forall_app. split; [|by repeat constructor]. apply Hall. rewrite (wf_xmm_length _ Hwf). intros i Hi%in_range.
    constructor; [exact Hi|]. apply Forall_app. split; [by repeat constructor|]. destruct (nth i _ false); by repeat constructor.
  - apply Forall_app. split; [|by repeat constructor]. apply Hall. rewrite (wf_st_length _ Hwf). intros i Hi%in_range.
    unfold st_targets. cbv zeta. apply Forall_app. split; [destruct (occupied _ _ _); by repeat constructor|].
    constructor; [exact Hi|]. destruct (_ && _); by repeat constructor.
Qed.

Section properties.
Context {fmt : Fmt} {decoders : Decoders} {memory : Memory} {argparse : ArgParse} {W : Type} {H : Platform W} {typed : TypedPlatform H}.
Context (fingerprint : CPUFingerprint) (fits : fingerprint_fits fingerprint).

Lemma session_ok ui w s : session fingerprint ui w s -> reachable fingerprint ui w /\ screen_ok s.
Proof.
  induction 1 as [argv cli instrumented open w Hcli | ui w s es s' _ [Hr Hs] Hdraw
    | ui w s real_focus copied event handled action ui' w' _ [Hr Hs] Hin Hstep Hp | ui w s action ui' w' _ [Hr Hs] _ Hperm Hstep Hp].
  - split; [by eapply reach_start | apply Screen_init_ok].
  - split; [done|]. destruct (current_well_formed fingerprint fits ui w Hr) as [Hwf _].
    destruct (draw_ok ui s Hwf Hs) as (panel & flags & s'' & E & Hok & _). congruence.
  - split; [|done]. apply handled_permitted in Hin as [Hperm _]; [|done]. by eapply reach_step.
  - split; [|done]. by eapply reach_step.
Qed.

(** C5. A session of drawings, clicks, keys and widgets is safe.  The screen can always be
    drawn: no panel adds more hits than it reserved, so no box that an element refers to
    is moved.  Its state is one of the timeline, and what a handler makes of any event, at
    whatever stale screen, is permitted there: a click names a register, a level and a
    flag that exist, and the flag is the one whose bit the box stands for. *)
Theorem session_safe ui w s :
  session fingerprint ui w s ->
  reachable fingerprint ui w /\ is_Some (draw ui s)
  /\ forall real_focus copied event handled action,
       In (handled, Act action) (handle ui s real_focus copied event) ->
       permitted ui action
       /\ match action with
          | ClickFlag i => snd <$> STATUS_FLAGS !! i = s.(flag_hits) !! i /\ is_Some (s.(flag_hits) !! i)
          | ClickGPR reg _ => (reg < GPR_COUNT)%nat
          | ClickXMM reg => (reg < 16)%nat
          | ClickST reg => (reg < 8)%nat
          | _ => True
          end.
Proof.
  intros [Hr Hs]%session_ok. split; [done|]. destruct (current_well_formed fingerprint fits ui w Hr) as [Hwf _].
  split; [|intros; by eapply handled_permitted]. destruct (draw_ok ui s Hwf Hs) as (panel & flags & s' & -> & _). by eexists.
Qed.

(** C16. What a click copies can be typed back: with a trace, the copy targets of the panel
    drawn are those of its rows, in order, and the text of each, given as a seed, is the
    value shown: a slice of a general register, a vector, the raw bytes of a stack register
    and the control word always; MXCSR when it has no undefined bits, which its field does
    not accept; a double or a float, of a lane or of a stack register, when it is finite
    and its text the shortest that reads back, as the low lane of a vector or as a stack
    register. *)
Theorem copied_values_are_seeds {hex : HexFmt fmt} ui w s es s' :
  session fingerprint ui w s -> has_trace ui = true -> draw ui s = Some (es, s') ->
  Forall2 (fun t hit => is_seed_of (current ui) t hit.(copy_text)) (panel_targets ui) s'.(copy_hits).
Proof.
  intros [Hr Hs]%session_ok Ht Hdraw. destruct (current_well_formed fingerprint fits ui w Hr) as [Hwf _].
  destruct (draw_ok ui s Hwf Hs) as (panel & flags & s'' & E & _ & _ & Hc). rewrite E in Hdraw. injection Hdraw as <- <-. rewrite Hc.
  rewrite target_hits_trace by done.
  apply targets_are_seeds; [done | by apply panel_targets_ok].
Qed.

(** C35. The seed fields that can have the focus are the fields on the screen: the fields
    drawn in the visible panel are, in the same order, those its container lets through,
    one for each slice of a general register that is shown. *)
Theorem focus_is_on_screen ui w s es s' :
  session fingerprint ui w s -> draw ui s = Some (es, s') ->
  exists panel flags, es = [layout_element ui; panel; flags] /\ inputs panel = seed_inputs ui.(ui_panel).
Proof.
  intros [Hr Hs]%session_ok Hdraw. destruct (current_well_formed fingerprint fits ui w Hr) as [Hwf _].
  destruct (draw_ok ui s Hwf Hs) as (panel & flags & s'' & E & _ & Hp & _). rewrite E in Hdraw. injection Hdraw as <- <-.
  exists panel, flags. split; [done|]. rewrite (panel_rows_inputs _ _ _ Hp). by apply panel_inputs.
Qed.
End properties.

(** *** A session with clicks *)

Definition example_hex_fmt : Fmt := {|
  format f args :=
    match args with
    | [AInt v; AInt d] =>
      if bool_decide (f = "{:016X}{:016X}") then hex_digits 16 v ++ hex_digits 16 d else format_hex (Z.to_nat d) v
    | [AInt v] =>
      if bool_decide (f = "0x{:016X}") then format_hex 16 v
      else if bool_decide (f = "0x{:08X}") then format_hex 8 v
      else if bool_decide (f = "0x{:04X}") then format_hex 4 v else f
    | [AJoin items _] => "0"%char :: "x"%char :: concat (map (fun item => match item with AInt b => format_byte b | _ => [] end) items)
    | _ => f
    end
|}.

#[local] Instance example_hex_fmt_hex : HexFmt example_hex_fmt.
Proof.
  split; try done.
  - intros value digits _. cbn [format example_hex_fmt]. rewrite bool_decide_false by done. by rewrite Nat2Z.id.
  - intros bytes _. cbn [format example_hex_fmt]. by rewrite map_map.
Qed.

#[local] Existing Instances permitted_dec placed_dec typed_kernel_typed.

Abbreviation example_typed := (linux_platform (H := typed_kernel) (zydis := example_zydis) 40).

(** What the user does: look at the screen, use a widget, click or press a key. *)
Inductive Move : Type := Look | Use (action : Action) | Do (event : Event).

Definition example_ui_step : Action -> UI -> nat -> option (UI * nat) :=
  ui_step (fmt := example_hex_fmt) (decoders := example_decoders) (memory := example_memory) (H := example_typed)
    example_processor_fingerprint.

Definition example_in_session : UI -> nat -> Screen -> Prop :=
  session (fmt := example_hex_fmt) (decoders := example_decoders) (memory := example_memory)
    (argparse := example_session_argparse) (H := example_typed) example_processor_fingerprint.

Definition example_act (action : Action) (ui : UI) (w : nat) : option (UI * nat) :=
  '(ui', w') ← example_ui_step action ui w;
  if bool_decide (placed ui'.(ui_navigation).(ui_trace)) then Some (ui', w') else None.

Fixpoint first_act (answers : list Handled) : option Action :=
  match answers with
  | [] => None
  | (_, Act action) :: _ => Some action
  | _ :: answers => first_act answers
  end.

Definition example_move (move : Move) (ui : UI) (w : nat) (s : Screen) : option (UI * nat * Screen) :=
  match move with
  | Look => '(_, s) ← draw (fmt := example_hex_fmt) (memory := example_memory) ui s; Some (ui, w, s)
  | Use action =>
    if is_widget action && bool_decide (permitted ui action) then '(ui, w) ← example_act action ui w; Some (ui, w, s) else None
  | Do event =>
    action ← first_act (handle (fmt := example_hex_fmt) (memory := example_memory) ui s false true event);
    '(ui, w) ← example_act action ui w; Some (ui, w, s)
  end.

Fixpoint example_moves (moves : list Move) (ui : UI) (w : nat) (s : Screen) : option (UI * nat * Screen) :=
  match moves with
  | [] => Some (ui, w, s)
  | move :: moves => '(ui, w, s) ← example_move move ui w s; example_moves moves ui w s
  end.

Lemma first_act_in answers action : first_act answers = Some action -> exists handled, In (handled, Act action) answers.
Proof.
  induction answers as [|[handled [|a|]] answers IH]; cbn [first_act]; [done | | |].
  - intros (h & Hin)%IH. exists h. by right.
  - intros [= ->]. exists handled. by left.
  - intros (h & Hin)%IH. exists h. by right.
Qed.

Lemma example_act_inv action ui w ui' w' :
  example_act action ui w = Some (ui', w') -> example_ui_step action ui w = Some (ui', w') /\ placed ui'.(ui_navigation).(ui_trace).
Proof.
  unfold example_act. destruct (example_ui_step action ui w) as [[u v]|]; [|done]. cbn [mbind option_bind].
  case_bool_decide; [|done]. by intros [= <- <-].
Qed.

Lemma example_move_session move ui w s ui' w' s' :
  example_in_session ui w s -> example_move move ui w s = Some (ui', w', s') -> example_in_session ui' w' s'.
Proof.
  intros Hs. destruct move as [|action|event]; cbn [example_move].
  - destruct (draw ui s) as [[es t]|] eqn:E; [|done]. cbn [mbind option_bind]. intros [= <- <- <-]. by eapply session_draw.
  - destruct (is_widget action) eqn:Hw; [|done]. cbn [andb]. case_bool_decide as Hp; [|done].
    destruct (example_act action ui w) as [[u v]|] eqn:E; [|done]. cbn [mbind option_bind]. intros [= <- <- <-].
    apply example_act_inv in E as [E Hpl]. by eapply session_widget.
  - destruct (first_act _) as [action|] eqn:Ea; [|done]. cbn [mbind option_bind].
    destruct (example_act action ui w) as [[u v]|] eqn:E; [|done]. cbn [mbind option_bind]. intros [= <- <- <-].
    apply example_act_inv in E as [E Hpl]. apply first_act_in in Ea as (handled & Hin). by eapply session_event.
Qed.

Definition example_open : str -> ifstream := fun _ => {| opened := false; end_position := 0; data := []; good := false |}.

(** The state after the moves. *)
Definition example_seen (moves : list Move) : option (UI * nat * Screen) :=
  match CLI_parse (fmt := example_hex_fmt) (argparse := example_session_argparse) [] with
  | Ok cli => example_moves moves (UI_start (fmt := example_hex_fmt) false example_open cli) 0%nat Screen_init
  | Error _ => None
  end.

Lemma example_moves_session moves ui w s ui' w' s' :
  example_in_session ui w s -> example_moves moves ui w s = Some (ui', w', s') -> example_in_session ui' w' s'.
Proof.
  revert ui w s. induction moves as [|move moves IH]; intros ui w s Hs; cbn [example_moves]; [by intros [= <- <- <-]|].
  destruct (example_move move ui w s) as [[[u v] t]|] eqn:E; [|done]. cbn [mbind option_bind]. apply IH. by eapply example_move_session.
Qed.

Lemma example_seen_session moves ui w s : example_seen moves = Some (ui, w, s) -> example_in_session ui w s.
Proof.
  unfold example_seen. destruct (CLI_parse _) as [cli|] eqn:E; [|done]. apply example_moves_session. by eapply session_start.
Qed.

Definition example_click (box : HitBox) : Event :=
  EMouse {| button := LeftButton; pressed := true; control := false;
            inside b := match b, box with
                        | GPRBox i, GPRBox j | CopyBox i, CopyBox j | FlagBox i, FlagBox j => (i =? j)%nat
                        | _, _ => false
                        end |}.

(** Run, step, open RBX, copy it. *)
Definition example_click_session : list Move := [Do F5; Do F8; Look; Do (example_click (GPRBox 1)); Look; Do (example_click (CopyBox 3)); Look].

Example example_click_copies :
  (fun x => (x.1.1.(status), nth 1 x.1.1.(ui_panel).(gpr_depth) 0, length x.2.(copy_hits))) <$> example_seen example_click_session
  = Some ("Copied {} {} to clipboard." : str, 1, 19%nat).
Proof. vm_compute. reflexivity. Qed.

(** Is the state after the moves drawn? *)
Lemma example_drawn moves ui w s :
  option_map (fun x => bool_decide (draw (fmt := example_hex_fmt) (memory := example_memory) x.1.1 x.2 = None)) (example_seen moves)
    = Some false ->
  example_seen moves = Some (ui, w, s) -> draw (fmt := example_hex_fmt) (memory := example_memory) ui s <> None.
Proof.
  intros Hc E. rewrite E in Hc. cbn [option_map fst snd] in Hc. apply (inj Some) in Hc. by apply bool_decide_eq_false in Hc.
Qed.

Lemma example_processor_fits : fingerprint_fits example_processor_fingerprint.
Proof. apply query_cpu_fingerprint_fits, example_processor_typed. Qed.

Lemma session_safe_witness :
  exists ui w s, example_seen example_click_session = Some (ui, w, s)
  /\ is_Some (draw (fmt := example_hex_fmt) (memory := example_memory) ui s).
Proof.
  destruct (example_seen example_click_session) as [[[ui w] s]|] eqn:E; [|vm_compute in E; discriminate].
  exists ui, w, s. split; [reflexivity|]. apply example_seen_session in E.
  exact (proj1 (proj2 (session_safe (fmt := example_hex_fmt) (decoders := example_decoders) (memory := example_memory)
    (argparse := example_session_argparse) (H := example_typed) example_processor_fingerprint example_processor_fits ui w s E))).
Defined.

Lemma copied_values_are_seeds_witness :
  exists ui w s es s', example_seen [Do F5; Do F8; Look; Do (example_click (GPRBox 1))] = Some (ui, w, s)
  /\ draw (fmt := example_hex_fmt) (memory := example_memory) ui s = Some (es, s')
  /\ Forall2 (fun t hit => is_seed_of (fmt := example_hex_fmt) (current ui) t hit.(copy_text))
       (panel_targets (fmt := example_hex_fmt) (memory := example_memory) ui) s'.(copy_hits).
Proof.
  destruct (example_seen [Do F5; Do F8; Look; Do (example_click (GPRBox 1))]) as [[[ui w] s]|] eqn:E; [|vm_compute in E; discriminate].
  destruct (draw (fmt := example_hex_fmt) (memory := example_memory) ui s) as [[es s']|] eqn:Ed.
  2: { exfalso. apply (example_drawn [Do F5; Do F8; Look; Do (example_click (GPRBox 1))] ui w s); [vm_compute; reflexivity | exact E | exact Ed]. }
  exists ui, w, s, es, s'. split; [reflexivity|]. split; [exact Ed|].
  assert (has_trace ui = true) as Ht.
  { assert (option_map (fun x => has_trace x.1.1) (example_seen [Do F5; Do F8; Look; Do (example_click (GPRBox 1))]) = Some true) as Hc
      by (vm_compute; reflexivity). rewrite E in Hc. injection Hc as Hc. exact Hc. }
  apply example_seen_session in E.
  exact (copied_values_are_seeds (fmt := example_hex_fmt) (decoders := example_decoders) (memory := example_memory)
    (argparse := example_session_argparse) (H := example_typed) example_processor_fingerprint example_processor_fits (hex := example_hex_fmt_hex)
    ui w s es s' E Ht Ed).
Defined.

Lemma focus_is_on_screen_witness :
  exists ui w s es s', example_seen example_click_session = Some (ui, w, s)
  /\ draw (fmt := example_hex_fmt) (memory := example_memory) ui s = Some (es, s')
  /\ exists panel, nth 1 es emptyElement = panel /\ inputs panel = seed_inputs ui.(ui_panel).
Proof.
  destruct (example_seen example_click_session) as [[[ui w] s]|] eqn:E; [|vm_compute in E; discriminate].
  destruct (draw (fmt := example_hex_fmt) (memory := example_memory) ui s) as [[es s']|] eqn:Ed.
  2: { exfalso. apply (example_drawn example_click_session ui w s); [vm_compute; reflexivity | exact E | exact Ed]. }
  exists ui, w, s, es, s'. split; [reflexivity|]. split; [exact Ed|]. apply example_seen_session in E.
  destruct (focus_is_on_screen (fmt := example_hex_fmt) (decoders := example_decoders) (memory := example_memory)
    (argparse := example_session_argparse) (H := example_typed) example_processor_fingerprint example_processor_fits ui w s es s' E Ed)
    as (panel & flags & He & Hi). exists panel. split; [rewrite He; reflexivity | exact Hi].
Defined.
